(* ===== verification/_CoqProject ===== *)
-Q . S2P
Prelude.v
Json.v
Questions.v
Scoring.v
JsNumber.v
JsEval.v
JsEvalFacts.v
ToStringFacts.v
RoundTrip.v
IntegerText.v
JsonText.v
Pagination.v
Options.v
Subjects.v
Loader.v
Navigator.v
Corrections.v
Shuffle.v
Session.v
PastStudyView.v
Saved.v
Timer.v
Account.v
Routes.v
Menu.v
Home.v
Auth.v
Calculator.v
AppShell.v
Performance.v
HomeAnim.v
Flashcards.v
StudyChrome.v
TabBar.v
Headers.v
Profile.v
LoaderAnim.v
