(* ===== verification/Prelude.v ===== *)
(** * JAMB CBT mobile app: a verified model of its behaviour

    This development models the Kelvin-Kelechi/jamb-cbt-mobile
    repository as executable Rocq definitions.  It covers every part
    that behaves like a program rather than a layout, and proves what
    those parts do.  The centre is the exam/study session.  It pages
    through a remote question bank, moves between questions, pages and
    subjects, shuffles questions and options, counts down a timer and
    scores the answers.  Around it are the screens that configure a
    session and receive its results, and the app's other stateful
    screens.

    ** The program and how its parts interact

    study.tsx and SubjectSelect.tsx choose the subjects.  past-options.tsx
    and PastOptions.tsx configure one card per subject.
    exam-instructions.tsx adds the timer.  past-study.tsx with PastStudy.tsx
    runs the session and submits it.  exam-results.tsx and
    exam-corrections.tsx show the outcome.  Each screen hands its data to
    the next as a route parameter of JSON text.  The question service,
    AuthContext, the saved-questions store and the router are outside
    [src/].  They enter the model as inputs: service answers as JSON
    values, promise outcomes as events, authentication state as
    arguments.  The home screen, the account menu, the flashcards, the
    saved questions, the session status bar and the tab bar are
    separate screens with their own state.  The welcome screen and the
    login, sign-up, forgot-password, reset and change-password forms
    call AuthApi and AuthContext, which are not under [src/]; their
    validators enter as parameters and the API's answers as events.

    ** Files, in dependency order (modules in brackets)

    - [Prelude] (this file): JavaScript helpers ([js_slice], truthiness
      of optional strings, [page_size], the answer key [global_key]), the
      [jcbt] scope, the [jcbt] and [jstr] hint databases, string lemmas,
      and generic lemmas on lists and [mapM].
    - [Json]: JavaScript values ([jval]), truthiness, [||] and [??],
      property access and the order of [Object.keys], integer text, and
      [String.prototype.trim].
    - [JsonText] ([JsonText], [JsonFacts]): [JSON.stringify] with its
      escapes and [Number::toString] for numbers, and [JSON.parse] as a
      recursive descent with fuel.
    - [Pagination] ([PaginationJs], [PageTracker]): pagination.js over
      JavaScript numbers [jsnum], and the total pages of a subject.
    - [Questions] ([QuestionModel]): the [Question] and [SubjectOption]
      records.
    - [Options] ([PastOptions], [PastOptionsRoute]): PastOptions with every
      service request as a pending task settled in any order, the
      pickers, the count clamp, and where Start leads.  Counts and
      totals are [JsNumber]'s doubles, read with [Number] and
      [parseInt] and printed with [String].
    - [Subjects] ([SubjectSelect], [StudyRoute]): the subject load, the
      English-first sort and the toggles, and study.tsx's page with its
      own copy of the selection.
    - [Loader] ([SampleBank], [Loader]): the page loader of PastStudy,
      its normalisation and its fallback to the sample bank.
    - [Navigator] ([Nav], [FlatNav]): [handleNext]/[handlePrev] with the
      parent's controlled subject and page, and an abstract navigator
      over one flat ordinal that they refine.
    - [Scoring] ([Binary64], [Submit], [Results]): [handleSubmit] with
      IEEE double rounding of the percentage, and the grades.
    - [Corrections] ([ResultsScreen], [CorrectionsScreen]): the results
      screen, and the corrections screen's grouping on a plain object,
      with its navigator as a step relation.
    - [Shuffle]: Fisher-Yates with [Math.random()] as doubles [m / 2^53].
    - [Session]: PastStudy and its parent as one React component: the
      state, every handler, every effect with its dependency list,
      fetches in flight as pending requests.
    - [PastStudyView] ([StudyView]): what the session screen renders.
    - [Saved]: the bookmark and the saved-questions screen.
    - [Timer] ([Duration], [Clock], [Countdown], [Instructions]): the
      duration parser, [formatTime], the countdown as a step relation,
      and the instructions screen.
    - [Flashcards] ([FlashcardData], [FlashcardsIndex], [DeckScreen],
      [CardFlip]): the decks, the deck list, the deck screen with its
      animation callbacks, and the two faces the flip value draws.
    - [Account] ([SessionStatus]): the status bar, its memoised timeout
      and the logout confirmation.
    - [Routes] ([RouteParams], [Codec], [Schema], [Records]): the four
      route parameters as the senders write them and the receivers read
      them back.  There is an encoder/decoder class with its laws, and the
      TypeScript types the receivers cast to are written as JSON schemas.
    - [Menu] ([MenuBricks]): the account menu.  Its two async handlers
      have every await point as a pending task, and the two
      confirmation modals are modelled with them.
    - [Home] ([HomeScreen]): the greeting, the random sub-greeting, the
      hero carousel, the parallax clamp, the quick links and the mode
      picker.

    - [Auth] ([AuthForms]): the welcome redirect, the strength meter, the
      password field and the five forms (app/auth/login, signup, forgot-password, reset,
      change-password).  Each form is a state record with a step function
      over its input, submit and settle events.  Its awaits are pending
      tasks in a record shared by the forms.  The fields' [valid] and
      [error] props and the links are views of the state.  The
      validators [isEmail], [isPasswordValid] and [passwordStrength]
      are variables of a Section.
    - [JsNumber] ([Double], [NumberToString], [DecimalLit]): JavaScript
      numbers as IEEE doubles with signed zeros, infinities and NaN, the
      operators [+ - * / % **], [Number::toString] with the shortest
      digits, and [StringToNumber]; modelled from ECMA-262.  [JsMath]
      and [ToNumber]: [Math.round], [floor], [min], [max], the
      comparisons, [Number(v)], [parseInt] and [Number.isFinite].
    - [JsEval] ([JsLex], [JsParse], [JsEval]) and [JsEvalFacts]: [eval]
      on the text the calculator builds: the lexer (numeric literals with
      Annex B legacy octals, identifiers, comments, regular expression
      literals) as a step function iterated with fuel, the expression
      grammar, and evaluation on numbers, [undefined], strings and
      regular expressions.  What the keys can never produce is the
      outcome [Unsupported].  The engine (strictness of the eval code,
      [pow]) is a parameter.
    - [ToStringFacts] ([RoundFacts], [DigitFacts], [SearchFacts],
      [LiteralFacts]) and [RoundTrip] ([NumberRoundTrip]): the theory
      behind [String(res)].  [Double.round] depends only on the rational
      it rounds, and it keeps everything within a relative [2^-54] of a
      double on that double.  The digit search of [Number::toString]
      always succeeds within seventeen digits.  Each layout [format]
      writes is one numeric literal.  Together they give that [eval]
      reads back what [Number::toString] prints.
    - [IntegerText] ([IntegerText]): [Number::toString] of a safe
      integer ([|z| < 2^53]) is its decimal digits
      ([number_to_string_int]), and the double arithmetic [Options]
      does on such integers is exact.
    - [Calculator] ([CalculatorPad]): the calculator modal's
      [handlePress], its display, its grid of keys and its close
      requests ([calcStep]).
    - [AppShell] ([Theme], [AppSettings], [RootLayout], [TabLayout],
      [ErrorBoundary], [ShellCorrections]): the root Stack of
      _layout.tsx with [NavigationErrorBoundary] around every route,
      the tab layout, and the App Settings theme picker.  The theme
      context is not under [src/]; it is the class [ThemeStore] with
      its laws ([ThemeStoreLaws]), and the theorems hold for every
      instance.  The boundary is a Section over the children's view
      and error types.  [renderTree] runs React's catch protocol around
      [getDerivedStateFromError], [render] and [componentDidCatch].
    - [Performance] ([DoubleRefinement], [PerformanceScreen],
      [PerformanceFacts]): the performance screen of
      performance/index.tsx, a view of constant data whose numbers go
      through doubles: [Math.round] ([math_round_d]) and [String]
      ([number_to_string]) on [JsNumber]'s [dbl].  [DoubleRefinement]
      proves [Scoring]'s [round_q] is [JsNumber]'s [round] on positive
      fractions of integers below [2^1000] ([round_agrees]).
    - [HomeAnim] ([Animated], [HeroAnimations], [HeroTimeline]): the
      [Animated] combinators of HomeScreen.tsx (timing, spring,
      sequence, parallel, stagger, loop) with their durations and end
      values, the code's compositions, and the hero interval as a
      timeline of [Home]'s events: a tick every 4000 ms and the
      fade-out's callback when the fade-out ends before the next tick.
      [ModePicker] is the bottom sheet of ModeSelectModal and
      LogoutModal; [HomeRender] is the screen's render from the
      animated values, with [Animated.interpolate].
    - [StudyChrome] ([Chrome]): the header, page sheet and calculator of
      past-study.tsx as a step function.  The sheet's open and close
      animations are [Animated] compositions.  The close callback is an
      event that may come after any other, and hides the sheet only if
      no reopening stopped it.
    - [TabBar] ([GlassTabBar]): the tab indicator's target and the
      dependencies of its effect, each tab's view, and its focus and
      blob animations with [HomeAnim]'s combinators.
    - [Headers] ([ScreenHeaders]): the header each route shows, the
      options a screen sets laid over the root layout's.
    - [Profile] ([EditProfile]): EditProfileScreen's fields from the
      user record, the payload of changed fields, and its save.
    - [LoaderAnim] ([AnimatedLoader]): the spinner and dots of
      AnimatedLoader with [HomeAnim]'s combinators, and the ring's width
      on [JsNumber]'s doubles.

    ** What the theorems show

    - Refinement: Next and Prev of the exam navigator move the flat
      ordinal of an abstract navigator (Navigator).  The corrections
      navigator moves a cursor over the concatenated groups
      (Corrections).  The route parameters deliver to the session,
      results and corrections models exactly what the senders computed
      (Routes).
    - Functional behaviour: scoring, the loaded page, the shuffled
      display, the options picker, the subject sort (an equivalence with
      a partition), and the greeting.
    - Invariants and safety by induction over event sequences: the
      navigation invariant, the staleness guard of fetches, answers keyed
      by subject, English locked in exam mode, the flashcard deck always
      showing a card, single-flight logout and deletion, the hero slide
      always defined, and change-password requests that are always
      well formed and one at a time.
    - Termination and liveness: React effects reach a fixpoint in three
      commits; the countdown submits after exactly [t] ticks; Next
      reaches the end of the exam.
    - Roundtrips: the route parameters parse back to what the senders
      built (Routes), on the lemma [JSON.parse (JSON.stringify v) = v]
      for values with safe-integer numbers and objects without repeated
      or array-index keys (JsonText); [eval] of [String(x)] is [x]
      (RoundTrip).
    - Types: the results and options parameters have the TypeScript types
      they are cast to, the options parameter when the service's totals
      are safe integers.  The picker's items read back as counts
      between 1 and the total (Options).
    - Bounds: the percentage never exceeds 100 under double rounding;
      Fisher-Yates draws stay in range; clampPage; the parallax value;
      the tab indicator's size.
    - The calculator (Calculator): the [%] key is a remainder, a double
      slash comments out the rest, a leading zero makes an octal literal
      or a SyntaxError, and [=] on an empty display shows "undefined".
      [=] is idempotent on numbers: [eval] of [String(x)] is [x] again
      ([RoundTrip]), for every double, infinity and NaN.
    - The shell (AppShell): a corrections payload that crashes the
      screen traps the app on the root boundary's fallback, whatever
      Retry does.
    - The home screen's clock (HomeAnim): the hero shows slide
      [((T - 540) / 4000) mod 3] at time [T], and every hero cycle and
      loop iteration leaves the animated values where they started.
      Every hero cycle ends with the text in place and the tilt at
      rest; the parallax keeps the card within its bounds for every
      scroll offset, and the entrance leaves every card fully drawn.
    - The deck screen's faces (Flashcards): whatever the flip value,
      the spring's overshoot included, the two faces' drawn opacities
      add up to one, and a flip rests on the face [isFlipped] names.
    - Navigation: every navigation of the study page carries a valid
      selection (Subjects); the headers of all routes (Headers).
    - The profile (Profile): a save sends only non-empty changed
      fields, a complete record saves untouched with an empty payload,
      and a save runs alone.
    - The loader (LoaderAnim): the ring's width on doubles equals the
      exact formula for every size up to 256 pixels; the dots' delays
      make their loops drift apart.
    - Forms and chrome: the Sign Up button is enabled exactly when
      every field shows valid (Auth).  Change Password enables its
      button while the new-password field shows an error.  Past-study's
      page sheet stays open until the backdrop or a chip closes it,
      and its calculator exists only in exam mode (StudyChrome).
    - Error paths and findings: each is a theorem that states what the
      code does where the spec, a comment or the intent says otherwise;
      their doc comments are marked "finding".

    ** Bounds and fuel

    - [JSON.parse] runs [pvalue] with fuel [String.length] of the text.
      [jsize v <= String.length (JSON.stringify v)] shows this is enough.
    - React's re-rendering is [Nat.iter 3 commit].  [settle_stable]
      proves that a fourth commit changes nothing after any handler.
    - [buildItems]'s loop runs with fuel [floor(total / 10) + 1], one
      more than the number of multiples of ten it emits for a total
      below [2^53] ([buildItems_spec]); above that the service is not
      trusted and the fuel only bounds the loop.
    - The Fisher-Yates bound is proved for arrays of at most 128
      elements, which covers the app's pages of ten and its options.
    - Doubles are modelled exactly ([Binary64]): rationals rounded to 53
      significant bits, round-half-even; [JsNumber] adds the subnormal
      quantum and overflow.
    - [JsLex.lex] gets fuel [String.length s + 1]; every step consumes a
      character ([next_token_length]), so that is enough and more fuel
      changes nothing ([lex_fuel]).  The parser gets the number of
      tokens plus one.  [Number::toString] tries 1 to 17 digits.
      Seventeen always suffice ([pos_digits_found]), so its fallback is
      dead code.  The reason: [10^16 > 2^54 / 2], so the 17-digit
      candidate nearest to [q] is within a relative [2^-54] of [q].
      The home screen's timeline takes timers and animations to run
      on time, without dropped frames.

    ** Not modelled

    - Styles, and the physics of springs and easings: an animation is
      its end values and its duration; the render is modelled from the
      values the animations leave, and the platform clamps opacity to
      [0, 1].
    - The frame of edit-profile.tsx (a back button and a title).  The validators of utils/validation are not under [src/]
      either; the forms are proved for any validators.
    - The menu route, which only renders MenuBricks, and the layout
      wrapper ScreenContainer.
    - The question service, AuthContext, the saved-questions store and
      the router themselves: they are collaborators whose answers are
      inputs.
    - JSON numbers with a fraction or an exponent, and [\u] escapes above
      code unit 255: [JSON.parse] refuses them ([None]).  A count that
      is not an integer (a fractional total from the service) has no
      JSON value in the model, and the options parameter is then
      [None] ([Records.optionsParam]). *)

From stdpp Require Export base list strings gmap.
From Stdlib Require Export Lia.
From Stdlib Require Import DecimalString DecimalNat.

Declare Scope jcbt_scope.
Delimit Scope jcbt_scope with jcbt.
Open Scope jcbt_scope.

Create HintDb jcbt discriminated.
Create Rewrite HintDb jcbt_rw.

(** ** Constants of the source *)

(** The page size: every [* 10], [/ 10] and [slice(start, start + 10)]
    of PastStudy.tsx and past-study.tsx. *)
Definition page_size : nat := 10.

(** ** JavaScript helpers *)

(** [Array.prototype.slice(s, e)] on non-negative integer bounds. *)
Definition js_slice {A} (l : list A) (s e : nat) : list A :=
  take (e - s) (drop s l).

(** JavaScript truthiness of a value of type [string | undefined]:
    [undefined] and the empty string are falsy. *)
Definition truthy_str (o : option string) : bool :=
  match o with
  | Some s => bool_decide (s ≠ "")
  | None => false
  end.

(** [a || b] on values of type [string | undefined]. *)
Definition js_or (a b : option string) : option string :=
  if truthy_str a then a else b.

Infix "|||" := js_or (at level 50, left associativity) : jcbt_scope.

(** [String(n)] (and [`${n}`]) of a non-negative integer: its decimal
    digits, without leading zeros. *)
Definition js_nat_string (n : nat) : string :=
  NilEmpty.string_of_uint (Nat.to_uint n).

(** Reading back a string of decimal digits ([parseInt] on digits). *)
Definition parse_nat_string (s : string) : option nat :=
  option_map Nat.of_uint (NilEmpty.uint_of_string s).

(** The template literal [`${subject}-${n}`] used as an answer key and as
    the [globalIndex] of a seen question (PastStudy.tsx lines 165, 190). *)
Definition global_key (subject : string) (n : nat) : string :=
  subject +:+ "-" +:+ js_nat_string n.

(** ** Transition sequences *)

(** Zero or more steps of a transition relation. *)
Inductive star {A} (R : A -> A -> Prop) : A -> A -> Prop :=
  | star_refl a : star R a a
  | star_step a b c : R a b -> star R b c -> star R a c.

(** ** Tactics *)

Ltac invc H := inversion H; subst; clear H.

(** Case analysis on the boolean comparisons of nat that the models use. *)
Ltac case_nat :=
  repeat match goal with
  | |- context [?a <? ?b] => destruct (Nat.ltb_spec a b)
  | |- context [?a <=? ?b] => destruct (Nat.leb_spec a b)
  | |- context [?a =? ?b] => destruct (Nat.eqb_spec a b)
  | H : context [?a <? ?b] |- _ => destruct (Nat.ltb_spec a b)
  | H : context [?a <=? ?b] |- _ => destruct (Nat.leb_spec a b)
  | H : context [?a =? ?b] |- _ => destruct (Nat.eqb_spec a b)
  end.

(** ** Generic lemmas *)

Lemma length_js_slice {A} (l : list A) s e :
  length (js_slice l s e) = min (e - s) (length l - s).
Proof. unfold js_slice. rewrite length_take, length_drop. lia. Qed.

Lemma js_slice_le_page {A} (l : list A) s :
  length (js_slice l s (s + page_size)) ≤ page_size.
Proof. rewrite length_js_slice. lia. Qed.

Lemma js_slice_sublist {A} (l : list A) s e x :
  x ∈ js_slice l s e → x ∈ l.
Proof.
  unfold js_slice. intros Hx.
  eapply elem_of_sublist; [exact Hx|].
  etrans; [apply sublist_take|apply sublist_drop].
Qed.

Lemma truthy_str_Some o : truthy_str o = true → ∃ s, o = Some s ∧ s ≠ "".
Proof.
  destruct o as [s|]; simpl; [|done].
  intros H%bool_decide_eq_true_1. eauto.
Qed.

Lemma js_or_truthy a b : truthy_str a = true → (a ||| b)%jcbt = a.
Proof. unfold js_or. by intros ->. Qed.

Lemma js_or_falsy a b : truthy_str a = false → (a ||| b)%jcbt = b.
Proof. unfold js_or. by intros ->. Qed.

Lemma parse_js_nat_string (n : nat) : parse_nat_string (js_nat_string n) = Some n.
Proof.
  unfold parse_nat_string, js_nat_string. rewrite NilEmpty.usu. simpl.
  by rewrite Unsigned.of_to.
Qed.

Lemma js_nat_string_inj (m n : nat) : js_nat_string m = js_nat_string n -> m = n.
Proof.
  intros H. apply (f_equal parse_nat_string) in H.
  rewrite !parse_js_nat_string in H. congruence.
Qed.

Lemma iter_invariant {A} (P : A → Prop) (f : A → A) n x :
  (∀ y, P y → P (f y)) → P x → P (Nat.iter n f x).
Proof. intros Hf Hx. induction n; simpl; auto. Qed.

Lemma star_one {A} (R : A -> A -> Prop) a b : R a b -> star R a b.
Proof. intros H. econstructor; [exact H|constructor]. Qed.

Lemma star_trans {A} (R : A -> A -> Prop) a b c :
  star R a b -> star R b c -> star R a c.
Proof. induction 1; eauto using star. Qed.

(** An invariant of every step holds all along a sequence of steps. *)
Lemma star_invariant {A} (R : A -> A -> Prop) (P : A -> Prop) a b :
  (forall x y, P x -> R x y -> P y) -> P a -> star R a b -> P b.
Proof. intros Hstep Ha H. induction H; eauto. Qed.

Lemma js_slice_beyond {A} (l : list A) s e : length l <= s -> js_slice l s e = [].
Proof. intros H. unfold js_slice. rewrite drop_ge by lia. apply take_nil. Qed.

Lemma js_slice_whole {A} (l : list A) e : length l <= e -> js_slice l 0 e = l.
Proof. intros H. unfold js_slice. rewrite drop_0. apply take_ge. lia. Qed.

Lemma js_slice_nonempty {A} (l : list A) s e :
  s < length l -> s < e -> length (js_slice l s e) <> 0.
Proof. rewrite length_js_slice. lia. Qed.

(** Overwriting position [i] (holding [y]) with [x] trades [x] for [y]. *)
Lemma list_insert_perm_cons {A} (l : list A) i x y :
  l !! i = Some y -> x :: l ≡ₚ y :: <[i:=x]> l.
Proof.
  revert i. induction l as [|z l IH]; intros [|i] Hi; simplify_eq/=; [apply Permutation_swap|].
  rewrite Permutation_swap, (IH i Hi). apply Permutation_swap.
Qed.

(** A decidable property of the naturals up to [n] follows from its
    check over [0, ..., n], which [vm_compute] decides. *)
Lemma forallb_upto (P : nat -> Prop) `{!forall k, Decision (P k)} n :
  forallb (fun k => bool_decide (P k)) (seq 0 (S n)) = true -> forall k, k <= n -> P k.
Proof.
  intros Hc k Hk. rewrite forallb_forall in Hc. apply (bool_decide_eq_true_1 (P k)), Hc.
  apply in_seq. lia.
Qed.

(** ** Positions in a list of blocks *)

Lemma list_sum_take_S (l : list nat) i x :
  l !! i = Some x -> list_sum (take (S i) l) = list_sum (take i l) + x.
Proof. intros H. rewrite (take_S_r _ _ _ H), list_sum_app. simpl. lia. Qed.

Lemma list_sum_split (l : list nat) i x :
  l !! i = Some x -> list_sum l = list_sum (take i l) + x + list_sum (drop (S i) l).
Proof.
  intros H. rewrite <- (take_drop (S i) l) at 1. rewrite list_sum_app, (list_sum_take_S _ _ _ H). lia.
Qed.

Lemma list_sum_pos_nil (l : list nat) : Forall (fun n => 0 < n) l -> list_sum l = 0 -> l = [].
Proof. destruct l as [|n l]; [done|]. intros (Hn & _)%Forall_cons. simpl. lia. Qed.

Lemma list_sum_take_pos (l : list nat) i :
  Forall (fun n => 0 < n) l -> 0 < i -> i <= length l -> 0 < list_sum (take i l).
Proof.
  intros Hl Hi Hle. destruct l as [|n l]; simpl in *; [lia|]. destruct i as [|i]; [lia|].
  simpl. apply Forall_cons in Hl as [Hn _]. lia.
Qed.

(** The [j]-th element of the [i]-th block is the element at the sum of
    the lengths of the blocks before it, plus [j]. *)
Lemma concat_lookup_sum {A} (ls : list (list A)) i l j :
  ls !! i = Some l -> j < length l ->
  concat ls !! (list_sum (take i (map length ls)) + j) = l !! j.
Proof.
  revert i. induction ls as [|l0 ls IH]; intros [|i] Hi Hj; simplify_eq/=.
  - by rewrite lookup_app_l.
  - rewrite lookup_app_r by lia. rewrite <- (IH i Hi Hj). f_equal. lia.
Qed.

Lemma length_concat_sum {A} (ls : list (list A)) : length (concat ls) = list_sum (map length ls).
Proof. induction ls as [|l ls IH]; simpl; [done|]. rewrite length_app. lia. Qed.

#[export] Instance concat_Permutation {A} : Proper ((≡ₚ) ==> (≡ₚ)) (@concat A).
Proof.
  intros l1 l2 H. induction H as [|x l1 l2 _ IH|x y l|l1 l2 l3 _ IH1 _ IH2]; simpl.
  - done.
  - by rewrite IH.
  - rewrite !(assoc_L app). f_equiv. apply Permutation_app_comm.
  - by rewrite IH1.
Qed.

(** [filter] keeps a list whose elements all satisfy the predicate. *)
Lemma filter_all {A} (P : A -> Prop) `{!forall x, Decision (P x)} (l : list A) :
  (forall y, y ∈ l -> P y) -> filter P l = l.
Proof.
  induction l as [|x l IH]; intros Hl; [done|]. rewrite filter_cons, decide_True by set_solver.
  f_equal. apply IH. set_solver.
Qed.

(** [mapM] of the option monad after a [map]. *)
Lemma mapM_map {A B C} (f : B -> option C) (g : A -> B) (l : list A) :
  mapM f (map g l) = mapM (fun x => f (g x)) l.
Proof. induction l as [|x l IH]; [done|]. simpl. by rewrite IH. Qed.


(** ** Strings *)

(** [+:+] is [String.append], which [simpl] does not unfold; these are
    the equations the string proofs rewrite with. *)
Lemma string_app_cons x (a b : string) : String x a +:+ b = String x (a +:+ b).
Proof. reflexivity. Qed.

Lemma string_app_nil_l (a : string) : "" +:+ a = a.
Proof. reflexivity. Qed.

Lemma string_app_nil (a : string) : a +:+ "" = a.
Proof. induction a as [|x a IH]; [done|]. by rewrite string_app_cons, IH. Qed.

Lemma string_app_assoc (a b c : string) : (a +:+ b) +:+ c = a +:+ (b +:+ c).
Proof. induction a as [|x a IH]; [done|]. by rewrite !string_app_cons, IH. Qed.

Lemma string_length_app (a b : string) : String.length (a +:+ b) = String.length a + String.length b.
Proof. induction a as [|x a IH]; [done|]. rewrite string_app_cons. simpl. by rewrite IH. Qed.

Create Rewrite HintDb jstr.
#[export] Hint Rewrite string_app_cons string_app_nil_l string_app_nil string_app_assoc string_length_app : jstr.

#[export] Hint Resolve js_slice_le_page : jcbt.
#[export] Hint Constructors star : jcbt.
#[export] Hint Resolve star_one star_trans : jcbt.
#[export] Hint Rewrite @length_js_slice : jcbt_rw.
