(* ===== verification/Json.v ===== *)
(** * Json: the JavaScript values the question service returns

    The page loader of [src/components/screens/PastStudy.tsx] (lines
    61-112) reads an untyped response ([const qData: any]) and the
    corrections screen reads back a [JSON.parse]d payload.  [jval] is a
    value of parsed JSON: an object is the list of its own properties in
    creation order, without duplicate keys.  The operations are the parts
    of the language the code applies to such values: truthiness, [String(v)],
    [a ?? b], [a || b], property access [v?.k] and the property order of
    [Object.keys]/[Object.values] (array-index keys in ascending numeric
    order, then the other keys in creation order).  A JSON number is an
    integer [JNum z], which stands for the double nearest to [z]
    ([JsNumber.ToNumber.to_number]); a number with a fraction or an
    exponent is outside [jval], while a string such as ["12.5"] is
    inside and converts to its double. *)

From S2P Require Import Prelude.
From stdpp Require Import sorting.
From Stdlib Require Import DecimalString DecimalN DecimalZ Ascii.

#[warnings="-register-all"]
Inductive jval :=
| JNull
| JBool (b : bool)
| JNum (n : Z)
| JStr (s : string)
| JArr (items : list jval)
| JObj (props : list (string * jval)).

(** [undefined] is [None] of [option jval] throughout. *)

(** JavaScript truthiness: [null], [false], [0] and [""] are falsy,
    every array and object is truthy. *)
Definition jtruthy (v : option jval) : bool :=
  match v with
  | None | Some JNull => false
  | Some (JBool b) => b
  | Some (JNum n) => negb (Z.eqb n 0)
  | Some (JStr s) => bool_decide (s <> "")
  | Some (JArr _) | Some (JObj _) => true
  end.

(** [a || b]: [a] when it is truthy, else [b]. *)
Definition jor (a b : option jval) : option jval := if jtruthy a then a else b.

(** [a ?? b]: [a] unless it is [null] or [undefined]. *)
Definition jcoalesce (a b : option jval) : option jval :=
  match a with
  | None | Some JNull => b
  | Some _ => a
  end.

(** [String(n)] for an integer [n]. *)
Definition js_int_string (n : Z) : string :=
  NilEmpty.string_of_int (Z.to_int n).

(** [arr.join(sep)]. *)
Fixpoint js_join (sep : string) (l : list string) : string :=
  match l with
  | [] => ""
  | [x] => x
  | x :: l' => x +:+ sep +:+ js_join sep l'
  end.

(** [String(v)]: an array prints as the [","]-join of its elements, in
    which [null] prints as the empty string. *)
Fixpoint js_to_string (v : jval) : string :=
  match v with
  | JNull => "null"
  | JBool true => "true"
  | JBool false => "false"
  | JNum n => js_int_string n
  | JStr s => s
  | JArr l =>
      js_join "," (List.map (fun x => match x with
                                      | JNull => ""
                                      | _ => js_to_string x
                                      end) l)
  | JObj _ => "[object Object]"
  end.

(** A property key that is an array index: the canonical decimal string
    of an integer below [2^32 - 1]. *)
Definition array_index (k : string) : option N :=
  match NilEmpty.uint_of_string k with
  | Some d =>
      let n := N.of_uint d in
      if bool_decide (NilEmpty.string_of_uint (N.to_uint n) = k) && (n <? 4294967295)%N
      then Some n else None
  | None => None
  end.

(** The first property named [k]. *)
Fixpoint assoc_first {A} (k : string) (ps : list (string * A)) : option A :=
  match ps with
  | [] => None
  | (k', v) :: ps' => if bool_decide (k = k') then Some v else assoc_first k ps'
  end.

(** [v?.k] for an own property [k] of an object or an array index of an
    array; every other access gives [undefined]. *)
Definition jget (v : option jval) (k : string) : option jval :=
  match v with
  | Some (JObj ps) => assoc_first k ps
  | Some (JArr l) =>
      match array_index k with
      | Some n => l !! N.to_nat n
      | None => None
      end
  | _ => None
  end.

(** The properties of an object in the order of [Object.keys]: the
    array-index keys in ascending numeric order, then the others in
    creation order. *)
Definition index_props {A} (ps : list (string * A)) : list (N * (string * A)) :=
  omap (fun p => match array_index p.1 with Some n => Some (n, p) | None => None end) ps.

(** The order of two indexed properties: by their index. *)
Definition index_le {A} (x y : N * (string * A)) : Prop := (x.1 <= y.1)%N.

#[export] Instance index_le_dec {A} : RelDecision (@index_le A).
Proof. intros x y. unfold index_le. apply _. Defined.

Definition own_props {A} (ps : list (string * A)) : list (string * A) :=
  map snd (merge_sort index_le (index_props ps))
  ++ filter (fun p => array_index p.1 = None) ps.

(** [Object.keys(o)] and [Object.values(o)]. *)
Definition object_keys {A} (ps : list (string * A)) : list string := map fst (own_props ps).
Definition object_values {A} (ps : list (string * A)) : list A := map snd (own_props ps).

(** [o[k] = v] on a plain object: the property keeps its place when it
    exists and is appended otherwise. *)
Fixpoint assoc_set {A} (k : string) (v : A) (ps : list (string * A)) : list (string * A) :=
  match ps with
  | [] => [(k, v)]
  | (k', v') :: ps' => if bool_decide (k = k') then (k', v) :: ps' else (k', v') :: assoc_set k v ps'
  end.

(** The properties every object literal inherits from [Object.prototype];
    reading one of them on [{}] gives a function (or, for [__proto__],
    the prototype itself), which is truthy. *)
Definition object_prototype_props : list string :=
  ["constructor"; "__defineGetter__"; "__defineSetter__"; "hasOwnProperty";
   "__lookupGetter__"; "__lookupSetter__"; "isPrototypeOf"; "propertyIsEnumerable";
   "toString"; "valueOf"; "__proto__"; "toLocaleString"].

(** [s === v] for a string-or-undefined [s] and a JSON value-or-undefined
    [v]: strict equality never converts, so only a string equals a
    string, and [undefined] only [undefined]. *)
Definition js_str_eq (s : option string) (v : option jval) : bool :=
  match s, v with
  | Some a, Some (JStr b) => bool_decide (a = b)
  | None, None => true
  | _, _ => false
  end.

(** ** Numbers read from strings *)

(** The white space the conversions and [trim] skip: JavaScript's white
    space and line terminators among the code units below 256 (tab, line
    feed, vertical tab, form feed, carriage return, space and no-break
    space). *)
Definition js_space (c : ascii) : bool :=
  bool_decide (c ∈ [" "; "009"; "010"; "011"; "012"; "013"; "160"]%char).

Fixpoint skip_space (s : string) : string :=
  match s with
  | String c s' => if js_space c then skip_space s' else s
  | EmptyString => EmptyString
  end.

(** [s.trim()]: white space off both ends; a character is dropped at
    the end when only white space follows it. *)
Fixpoint trim_end (s : string) : string :=
  match s with
  | EmptyString => EmptyString
  | String c s' =>
      let t := trim_end s' in
      if js_space c && bool_decide (t = "") then EmptyString else String c t
  end.

Definition js_trim (s : string) : string := trim_end (skip_space s).

Definition digit_value (c : ascii) : option Z :=
  let n := Z.of_nat (nat_of_ascii c) in
  if bool_decide (48 <= n <= 57)%Z then Some (n - 48)%Z else None.

(** The longest prefix of decimal digits: its value (if non-empty) and
    the rest of the string. *)
Fixpoint span_digits_acc (acc : option Z) (s : string) : option Z * string :=
  match s with
  | String c s' =>
      match digit_value c with
      | Some d => span_digits_acc (Some (10 * default 0 acc + d)%Z) s'
      | None => (acc, s)
      end
  | EmptyString => (acc, EmptyString)
  end.

(** An optional sign. *)
Definition split_sign (s : string) : Z * string :=
  match s with
  | String "-" s' => (-1, s')%Z
  | String "+" s' => (1, s')%Z
  | _ => (1, s)%Z
  end.

(** [parseInt(s, 10)]: white space, a sign, then the leading digits; [None]
    is [NaN]. *)
Definition js_parseInt (s : string) : option Z :=
  let '(sg, rest) := split_sign (skip_space s) in
  match (span_digits_acc None rest).1 with
  | Some v => Some (sg * v)%Z
  | None => None
  end.

(** [s.includes(t)] on strings. *)
Definition str_includes (s t : string) : bool := bool_decide (String.index 0 t s <> None).

(** ** Printing and reading integers *)

(** The value of a string of digits read most significant first. *)
Fixpoint uval (acc : Z) (d : Decimal.uint) : Z :=
  match d with
  | Decimal.Nil => acc
  | Decimal.D0 l => uval (10 * acc) l
  | Decimal.D1 l => uval (10 * acc + 1) l
  | Decimal.D2 l => uval (10 * acc + 2) l
  | Decimal.D3 l => uval (10 * acc + 3) l
  | Decimal.D4 l => uval (10 * acc + 4) l
  | Decimal.D5 l => uval (10 * acc + 5) l
  | Decimal.D6 l => uval (10 * acc + 6) l
  | Decimal.D7 l => uval (10 * acc + 7) l
  | Decimal.D8 l => uval (10 * acc + 8) l
  | Decimal.D9 l => uval (10 * acc + 9) l
  end%Z.

Lemma pos_of_uint_acc_uval d p : Zpos (Pos.of_uint_acc d p) = uval (Zpos p) d.
Proof.
  revert p. induction d; intros p; simpl; rewrite ?IHd; f_equal;
    rewrite ?Pos2Z.inj_add, ?Pos2Z.inj_mul; lia.
Qed.

Lemma Z_of_uint_uval d : Z.of_uint d = uval 0 d.
Proof.
  unfold Z.of_uint. induction d; simpl; rewrite ?pos_of_uint_acc_uval; try reflexivity. exact IHd.
Qed.

Lemma span_string_of_uint acc d :
  span_digits_acc acc (NilEmpty.string_of_uint d) =
  (match d with Decimal.Nil => acc | _ => Some (uval (default 0%Z acc) d) end, EmptyString).
Proof.
  revert acc. induction d; intros acc; simpl; [done|..]; rewrite IHd;
    destruct d; simpl; rewrite ?Z.add_0_r; reflexivity.
Qed.

Lemma to_uint_not_nil p : Pos.to_uint p <> Decimal.Nil.
Proof. intros H. pose proof (DecimalPos.Unsigned.of_to p) as E. rewrite H in E. discriminate. Qed.

Lemma uval_to_uint p : uval 0 (Pos.to_uint p) = Zpos p.
Proof.
  rewrite <- Z_of_uint_uval. unfold Z.of_uint. by rewrite DecimalPos.Unsigned.of_to.
Qed.

Lemma digits_head d : d <> Decimal.Nil ->
  skip_space (NilEmpty.string_of_uint d) = NilEmpty.string_of_uint d /\
  split_sign (NilEmpty.string_of_uint d) = (1%Z, NilEmpty.string_of_uint d).
Proof. destruct d; done. Qed.

Lemma span_nonnil d : d <> Decimal.Nil ->
  span_digits_acc None (NilEmpty.string_of_uint d) = (Some (uval 0 d), EmptyString).
Proof. intros Hd. rewrite span_string_of_uint. by destruct d. Qed.

(** The decimal digits of a positive number do not start with [0]. *)
Lemma to_uint_lead p :
  match Pos.to_uint p with Decimal.Nil | Decimal.D0 _ => False | _ => True end.
Proof.
  pose proof (DecimalPos.Unsigned.to_of (Pos.to_uint p)) as E.
  rewrite DecimalPos.Unsigned.of_to in E. simpl in E.
  pose proof (DecimalPos.Unsigned.to_uint_nonzero p) as Hz.
  destruct (Pos.to_uint p) as [|d|d|d|d|d|d|d|d|d|d]; try exact I.
  - exact (DecimalPos.Unsigned.to_uint_nonnil p ltac:(done)).
  - rewrite DecimalFacts.unorm_D0 in E. unfold Decimal.unorm in E.
    destruct (Decimal.nzhead d) eqn:Hn; try (by destruct (DecimalFacts.nzhead_nonzero d _ (eq_sym E))).
    all: try (rewrite <- E in Hn; by destruct (DecimalFacts.nzhead_nonzero d _ Hn)).
    apply Hz. exact E.
Qed.

(** [parseInt(String(z), 10) === z]. *)
Lemma js_parseInt_int_string z : js_parseInt (js_int_string z) = Some z.
Proof.
  unfold js_parseInt, js_int_string. destruct z as [|p|p]; [reflexivity|..]; simpl;
    pose proof (to_uint_not_nil p) as Hn.
  - destruct (digits_head _ Hn) as [-> ->]. rewrite (span_nonnil _ Hn), uval_to_uint. reflexivity.
  - rewrite (span_nonnil _ Hn), uval_to_uint. reflexivity.
Qed.

(** ** Lemmas *)

Lemma js_str_eq_Some (a : string) (v : option jval) :
  js_str_eq (Some a) v = true <-> v = Some (JStr a).
Proof.
  destruct v as [[]|]; simpl; split; intros H; try done; try congruence.
  - f_equal. f_equal. by apply bool_decide_eq_true in H.
  - apply bool_decide_eq_true. congruence.
Qed.

Lemma jor_truthy a b : jtruthy a = true -> jor a b = a.
Proof. unfold jor. by intros ->. Qed.

Lemma jor_falsy a b : jtruthy a = false -> jor a b = b.
Proof. unfold jor. by intros ->. Qed.

Lemma jtruthy_JStr s : jtruthy (Some (JStr s)) = true <-> s <> "".
Proof. simpl. apply bool_decide_eq_true. Qed.

Lemma own_props_perm {A} (ps : list (string * A)) : own_props ps ≡ₚ ps.
Proof.
  unfold own_props. rewrite merge_sort_Permutation. unfold index_props.
  induction ps as [|[k v] ps IH]; [done|]. simpl. rewrite filter_cons. simpl.
  destruct (array_index k); simpl.
  - by apply perm_skip.
  - rewrite <- Permutation_middle. by apply perm_skip.
Qed.

Lemma assoc_first_elem {A} k (v : A) ps : assoc_first k ps = Some v -> (k, v) ∈ ps.
Proof.
  induction ps as [|[k' v'] ps IH]; simpl; [done|]. intros Hk.
  case_bool_decide; simplify_eq; [left|right; by apply IH].
Qed.

Lemma assoc_first_NoDup {A} k (v : A) ps :
  NoDup ps.*1 -> (k, v) ∈ ps -> assoc_first k ps = Some v.
Proof.
  induction ps as [|[k' v'] ps IH]; simpl; intros Hnd Hin; [by apply elem_of_nil in Hin|].
  apply NoDup_cons in Hnd as [Hk Hnd]. apply elem_of_cons in Hin as [Hin|Hin].
  - simplify_eq. by rewrite bool_decide_true.
  - rewrite bool_decide_false; [by apply IH|]. intros ->. apply Hk.
    apply list_elem_of_fmap. eexists (_, v). split; [reflexivity|exact Hin].
Qed.

Lemma assoc_first_None {A} k (ps : list (string * A)) : assoc_first k ps = None <-> k ∉ ps.*1.
Proof.
  induction ps as [|[k' v'] ps IH]; simpl; [split; [intros _; apply not_elem_of_nil|done]|].
  rewrite elem_of_cons. case_bool_decide; [naive_solver|]. rewrite IH. naive_solver.
Qed.

Lemma assoc_set_fst {A} k (v : A) ps : k ∈ ps.*1 -> (assoc_set k v ps).*1 = ps.*1.
Proof.
  induction ps as [|[k' v'] ps IH]; simpl; [by intros ?%elem_of_nil|].
  rewrite elem_of_cons. case_bool_decide; simpl; [by subst|]. intros [->|Hin]; [done|]. f_equal. by apply IH.
Qed.

Lemma assoc_first_set {A} k k' (v : A) ps :
  assoc_first k' (assoc_set k v ps) = if bool_decide (k' = k) then Some v else assoc_first k' ps.
Proof.
  induction ps as [|[k0 v0] ps IH]; simpl; [by repeat case_bool_decide|].
  repeat (case_bool_decide; simplify_eq/=); done.
Qed.

#[export] Hint Rewrite jor_truthy jor_falsy using reflexivity : jcbt_rw.
