(* ===== verification/Questions.v ===== *)
(** * Questions: the data model of a session

    [SubjectOption] is the per-subject configuration exported by
    [src/components/screens/PastOptions.tsx]; [Question] is the canonical
    question record of [src/components/screens/PastStudy.tsx] (and of
    [src/components/data/sampleQuestions.ts]).  The lookup
    [activeCount] is PastStudy's [activeOpts?.count || 0], shared by the
    navigator and by the button predicates.  The TypeScript type of a
    question declares strings, but a question of the remote bank is
    built from untyped JSON ([... as Question], PastStudy.tsx line 83),
    so its text fields hold any JSON value. *)

From S2P Require Import Prelude Json.

Module QuestionModel.

(** [export type SubjectOption = { subject; year; topic; count;
    shuffle; shuffleOptions }] (PastOptions.tsx lines 18-25). *)
Record SubjectOption := mkSubjectOption {
  subject : string;
  year : string;
  topic : string;
  count : nat;
  shuffle : bool;
  shuffleOptions : bool
}.

(** [type Question = { instruction?; question?; options?; answer?;
    correction? }] (PastStudy.tsx lines 11-17); [None] is [undefined]. *)
Record Question := mkQuestion {
  instruction : option jval;
  question : option jval;
  options : option (list string);
  answer : option jval;
  correction : option jval
}.

(** [const subjects = options.map((o) => o.subject)]. *)
Definition subjectsOf (opts : list SubjectOption) : list string :=
  map subject opts.

(** [Array.prototype.find]: the first element satisfying [p]. *)
Fixpoint js_find {A} (p : A -> bool) (l : list A) : option A :=
  match l with
  | [] => None
  | x :: l' => if p x then Some x else js_find p l'
  end.

(** [const activeSubject = subjects[currentIdx];
     const activeOpts = options.find((o) => o.subject === activeSubject);]
    (PastStudy.tsx lines 49-51): the first option whose subject is the
    active subject's name; an out-of-range index finds nothing. *)
Definition activeOpts (opts : list SubjectOption) (idx : nat)
    : option SubjectOption :=
  match subjectsOf opts !! idx with
  | Some s => js_find (fun o => bool_decide (subject o = s)) opts
  | None => None
  end.

(** [activeOpts?.count || 0] (PastStudy.tsx lines 213, 482). *)
Definition activeCount (opts : list SubjectOption) (idx : nat) : nat :=
  match activeOpts opts idx with
  | Some o => count o
  | None => 0
  end.

End QuestionModel.

Import QuestionModel.

(** The data-model invariant of a question: its answer is a string that
    is one of its options. *)
Definition answer_in_options (q : Question) : bool :=
  match answer q, options q with
  | Some (JStr a), Some os => bool_decide (a ∈ os)
  | _, _ => false
  end.
