(* ===== verification/Scoring.v ===== *)
(** * Scoring: [handleSubmit] of past-study.tsx and exam-results.tsx

    [Binary64] rounds a non-negative rational to the nearest IEEE double
    (ties to even), which is what JavaScript's [/] and [*] do to the
    exact result; [percentOf] is [Math.round((score / count) * 100)]
    computed with those two roundings.  [Submit] models the per-subject
    results and the corrections payload of [handleSubmit]
    (past-study.tsx lines 99-131); [Results] the totals and [getGrade] of
    exam-results.tsx (lines 27-37). *)

From S2P Require Import Prelude Json Questions.
From Stdlib Require Import QArith Qround.
Import QuestionModel.

Module Binary64.

(** [N / D] rounded to the nearest integer, ties to even. *)
Definition div_round_even (N D : Z) : Z :=
  let m0 := (N / D)%Z in
  let r := (N mod D)%Z in
  match Z.compare (2 * r) D with
  | Lt => m0
  | Gt => m0 + 1
  | Eq => if Z.even m0 then m0 else m0 + 1
  end.

(** [a / b * 2^e] as a fraction [N / D] of integers. *)
Definition scale (a b e : Z) : Z * Z :=
  if (0 <=? e)%Z then (a * 2 ^ e, b)%Z else (a, b * 2 ^ (- e))%Z.

(** The exponent that puts [a / b * 2^e] in the binade [2^52, 2^53). *)
Definition binade_exp (a b : Z) : Z :=
  let e0 := (52 - (Z.log2 a - Z.log2 b))%Z in
  let '(N, D) := scale a b e0 in
  if (N <? 2 ^ 52 * D)%Z then (e0 + 1)%Z else e0.

(** [m * 2^-e] as a rational. *)
Definition ldexp_neg (m e : Z) : Q :=
  if (0 <=? e)%Z then Qmake m (Z.to_pos (2 ^ e)) else inject_Z (m * 2 ^ (- e)).

(** The double nearest to [a / b], for [a >= 0] and [b > 0]: the 53-bit
    significand is [a / b * 2^e] rounded to an integer, ties to even.
    Zero is exact; the values of this program are far from the
    subnormal and overflow ranges. *)
Definition round_q (a b : Z) : Q :=
  if (a =? 0)%Z then 0
  else let e := binade_exp a b in
       let '(N, D) := scale a b e in
       ldexp_neg (div_round_even N D) e.

(** JavaScript [x / y] on two non-negative integers, [y > 0]. *)
Definition fdiv (x y : nat) : Q := round_q (Z.of_nat x) (Z.of_nat y).

(** JavaScript [x * k] for a double [x >= 0] and an integer [k]. *)
Definition fmul (x : Q) (k : nat) : Q :=
  round_q (Qnum x * Z.of_nat k) (Zpos (Qden x)).

(** [Math.round(x)]: the integer nearest to [x], halves rounded up. *)
Definition math_round (x : Q) : Z := Qfloor (x + (1 # 2)).

End Binary64.

Module Submit.
Import Binary64.
Local Open Scope nat_scope.

(** [Math.round((score / total) * 100)], as computed with doubles. *)
Definition percentOf (score total : nat) : nat :=
  Z.to_nat (math_round (fmul (fdiv score total) 100)).

(** An entry of [examQuestions]: [{ subject, question, globalIndex }];
    [subject] is PastStudy's [activeSubject], [undefined] when the
    subject index is out of range. *)
Record ExamQuestion := mkEQ {
  eqSubject : option string;
  eqQuestion : Question;
  eqGlobalIndex : string
}.

(** [{ subject, score, total, percentage }]. *)
Record SubjectResult := mkResult {
  rSubject : string;
  rScore : nat;
  rTotal : nat;
  rPercentage : nat
}.

(** An entry of [questionsData] (past-study.tsx lines 123-131). *)
Record QuestionData := mkQD {
  qdSubject : option string;
  qdQuestion : jval;
  qdOptions : list string;
  qdCorrectAnswer : jval;
  qdUserAnswer : option string;
  qdInstruction : option jval;
  qdCorrection : option jval
}.

(** [userAnswer && userAnswer === q.question.answer]. *)
Definition answeredCorrectly (userAnswers : gmap string string) (q : ExamQuestion) : bool :=
  let ua := userAnswers !! eqGlobalIndex q in
  truthy_str ua && js_str_eq ua (answer (eqQuestion q)).

(** The [forEach] of lines 105-110 that increments [score]. *)
Definition countCorrect (userAnswers : gmap string string) (qs : list ExamQuestion) : nat :=
  foldl (fun acc q => if answeredCorrectly userAnswers q then S acc else acc) 0 qs.

(** One element of [subjectResults] (lines 101-120). *)
Definition subjectResult (examQuestions : list ExamQuestion)
    (userAnswers : gmap string string) (opt : SubjectOption) : SubjectResult :=
  let subjectQuestions :=
    filter (fun q => eqSubject q = Some (subject opt)) examQuestions in
  let score := countCorrect userAnswers subjectQuestions in
  let percentage := if 0 <? count opt then percentOf score (count opt) else 0 in
  mkResult (subject opt) score (count opt) percentage.

Definition subjectResults (opts : list SubjectOption) (examQuestions : list ExamQuestion)
    (userAnswers : gmap string string) : list SubjectResult :=
  map (subjectResult examQuestions userAnswers) opts.

(** One entry of [questionsData] (lines 123-131): [q.question.question || ""]
    and [q.question.answer || ""] use JavaScript truthiness. *)
Definition questionDataOf (userAnswers : gmap string string) (q : ExamQuestion) : QuestionData :=
  mkQD (eqSubject q)
    (default (JStr "") (jor (question (eqQuestion q)) (Some (JStr ""))))
    (default [] (options (eqQuestion q)))
    (default (JStr "") (jor (answer (eqQuestion q)) (Some (JStr ""))))
    (userAnswers !! eqGlobalIndex q)
    (instruction (eqQuestion q))
    (correction (eqQuestion q)).

Definition questionsData (examQuestions : list ExamQuestion)
    (userAnswers : gmap string string) : list QuestionData :=
  map (questionDataOf userAnswers) examQuestions.

End Submit.

Module Results.
Import Binary64 Submit.
Local Open Scope nat_scope.

Inductive Grade := GradeA | GradeB | GradeC | GradeD | GradeF.

(** [getGrade] (exam-results.tsx lines 31-37), without the colours. *)
Definition getGrade (percentage : nat) : Grade :=
  if 80 <=? percentage then GradeA
  else if 70 <=? percentage then GradeB
  else if 60 <=? percentage then GradeC
  else if 50 <=? percentage then GradeD
  else GradeF.

(** [results.reduce((sum, r) => sum + r.score, 0)] and the same for
    [total]. *)
Definition totalScore (results : list SubjectResult) : nat :=
  foldl (fun sum r => sum + rScore r) 0 results.

Definition totalQuestions (results : list SubjectResult) : nat :=
  foldl (fun sum r => sum + rTotal r) 0 results.

(** [totalQuestions > 0 ? Math.round((totalScore / totalQuestions) * 100) : 0]. *)
Definition overallPercentage (results : list SubjectResult) : nat :=
  if 0 <? totalQuestions results
  then percentOf (totalScore results) (totalQuestions results)
  else 0.

End Results.

(** ** Properties of the double-precision arithmetic *)

Import Binary64.

Lemma div_round_even_le (N D K : Z) :
  (0 < D)%Z -> (0 <= N <= K * D)%Z -> (div_round_even N D <= K)%Z.
Proof.
  intros HD [HN HK]. unfold div_round_even.
  pose proof (Z.div_mod N D ltac:(lia)) as Hdm.
  pose proof (Z.mod_pos_bound N D HD) as Hr.
  assert (Hm : (N / D <= K)%Z) by (apply Z.div_le_upper_bound; lia).
  destruct (Z.eq_dec (N / D) K) as [Heq|Hne].
  - assert (N mod D = 0)%Z by nia.
    destruct (Z.compare_spec (2 * (N mod D)) D); lia.
  - destruct (Z.compare (2 * (N mod D)) D); [destruct (Z.even (N / D))|..]; lia.
Qed.

Lemma div_round_even_nonneg (N D : Z) :
  (0 < D)%Z -> (0 <= N)%Z -> (0 <= div_round_even N D)%Z.
Proof.
  intros HD HN. unfold div_round_even.
  pose proof (Z.div_pos N D HN HD).
  destruct (Z.compare _ _); [destruct (Z.even _)|..]; lia.
Qed.

Lemma div_round_even_exact (D K : Z) :
  (0 < D)%Z -> div_round_even (K * D) D = K.
Proof.
  intros HD. unfold div_round_even.
  rewrite Z.div_mul, Z.mod_mul by lia. simpl.
  destruct D; [lia|reflexivity|lia].
Qed.

(** Values at most [128] times the divisor keep the binade exponent
    non-negative: the significand is the value scaled up, never down. *)
Lemma binade_exp_nonneg (a b K : Z) :
  (0 < a)%Z -> (0 < b)%Z -> (a <= K * b)%Z -> (K <= 128)%Z ->
  (45 <= binade_exp a b)%Z.
Proof.
  intros Ha Hb HK HK'.
  assert (Hlog : (Z.log2 a <= 7 + Z.log2 b)%Z).
  { rewrite <- Z.log2_mul_pow2 by lia. apply Z.log2_le_mono.
    change (2 ^ 7)%Z with 128%Z. nia. }
  unfold binade_exp. destruct (scale _ _ _). destruct (_ <? _)%Z; lia.
Qed.

Lemma scale_nonneg (a b e : Z) : (0 <= e)%Z -> scale a b e = (a * 2 ^ e, b)%Z.
Proof. intros He. unfold scale. by destruct (Z.leb_spec 0 e); [|lia]. Qed.

Lemma ldexp_neg_nonneg (m e : Z) :
  (0 <= e)%Z -> ldexp_neg m e = Qmake m (Z.to_pos (2 ^ e)).
Proof. intros He. unfold ldexp_neg. by destruct (Z.leb_spec 0 e); [|lia]. Qed.

(** Rounding a quotient at most [K] gives at most [K], and at least 0. *)
Lemma round_q_bounds (a b K : Z) :
  (0 <= a <= K * b)%Z -> (0 < b)%Z -> (0 <= K <= 128)%Z ->
  0 <= round_q a b <= inject_Z K.
Proof.
  intros [Ha HK] Hb HK'. unfold round_q.
  destruct (Z.eqb_spec a 0) as [->|Ha0].
  { split; [apply Qle_refl|]. unfold Qle; simpl. lia. }
  pose proof (binade_exp_nonneg a b K ltac:(lia) Hb HK ltac:(lia)) as He.
  rewrite scale_nonneg, ldexp_neg_nonneg by lia.
  assert (Hp : (0 < 2 ^ binade_exp a b)%Z) by (apply Z.pow_pos_nonneg; lia).
  pose proof (div_round_even_nonneg (a * 2 ^ binade_exp a b) b Hb ltac:(nia)).
  pose proof (div_round_even_le (a * 2 ^ binade_exp a b) b (K * 2 ^ binade_exp a b) Hb ltac:(nia)).
  unfold Qle; simpl. rewrite Z2Pos.id by lia. split; lia.
Qed.

(** An exact quotient [K] with [0 < K <= 128] is computed exactly. *)
Lemma round_q_exact (b K : Z) :
  (0 < b)%Z -> (0 < K <= 128)%Z -> round_q (K * b) b == inject_Z K.
Proof.
  intros Hb HK. unfold round_q.
  destruct (Z.eqb_spec (K * b) 0); [nia|].
  pose proof (binade_exp_nonneg (K * b) b K ltac:(nia) Hb ltac:(lia) ltac:(lia)) as He.
  rewrite scale_nonneg, ldexp_neg_nonneg by lia.
  replace (K * b * 2 ^ binade_exp (K * b) b)%Z with ((K * 2 ^ binade_exp (K * b) b) * b)%Z by ring.
  rewrite div_round_even_exact by done.
  assert (Hp : (0 < 2 ^ binade_exp (K * b) b)%Z) by (apply Z.pow_pos_nonneg; lia).
  unfold Qeq; simpl. rewrite Z2Pos.id by lia. lia.
Qed.

(** Rounding to nearest stays at most [M] when the quotient is below
    [M + 1/2]. *)
Lemma div_round_even_below (N D M : Z) :
  (0 < D)%Z -> (0 <= N)%Z -> (2 * N < (2 * M + 1) * D)%Z -> (div_round_even N D <= M)%Z.
Proof.
  intros HD HN H. unfold div_round_even.
  pose proof (Z.div_mod N D ltac:(lia)) as Hdm.
  pose proof (Z.mod_pos_bound N D HD) as Hr.
  assert (Hq : (N / D <= M)%Z) by nia.
  destruct (Z.eq_dec (N / D) M) as [Heq|Hne].
  - rewrite Heq in *. destruct (Z.compare_spec (2 * (N mod D)) D); nia.
  - destruct (Z.compare _ _); [destruct (Z.even _)|..]; lia.
Qed.

(** The significand [a / b * 2^e] lies in the binade [[2^52, 2^53)]. *)
Lemma binade_exp_range (a b K : Z) :
  (0 < a)%Z -> (0 < b)%Z -> (a <= K * b)%Z -> (K <= 128)%Z ->
  (2 ^ 52 * b <= a * 2 ^ binade_exp a b < 2 ^ 53 * b)%Z.
Proof.
  intros Ha Hb HK HK'.
  assert (Hlog : (Z.log2 a <= 7 + Z.log2 b)%Z).
  { rewrite <- Z.log2_mul_pow2 by lia. apply Z.log2_le_mono.
    change (2 ^ 7)%Z with 128%Z. nia. }
  pose proof (Z.log2_spec a Ha) as [Ha1 Ha2].
  pose proof (Z.log2_spec b Hb) as [Hb1 Hb2].
  pose proof (Z.log2_nonneg a). pose proof (Z.log2_nonneg b).
  rewrite Z.pow_succ_r in Ha2, Hb2 by lia.
  unfold binade_exp. rewrite scale_nonneg by lia.
  set (la := Z.log2 a) in *. set (lb := Z.log2 b) in *.
  assert (HE : (2 ^ (52 - (la - lb)) * 2 ^ la = 2 ^ 52 * 2 ^ lb)%Z).
  { rewrite <- !Z.pow_add_r by lia. f_equal. lia. }
  set (E := (2 ^ (52 - (la - lb)))%Z) in *.
  assert (HE0 : (0 < E)%Z) by (apply Z.pow_pos_nonneg; lia).
  assert (Hlo : (2 ^ 52 * 2 ^ lb <= a * E)%Z) by nia.
  assert (Hhi : (a * E < 2 * (2 ^ 52 * 2 ^ lb))%Z) by nia.
  change (2 ^ 53)%Z with (2 * 2 ^ 52)%Z.
  destruct (Z.ltb_spec (a * E) (2 ^ 52 * b)) as [Hlt|Hge].
  - rewrite Z.pow_add_r by lia. fold E. change (2 ^ 1)%Z with 2%Z. nia.
  - nia.
Qed.

Lemma math_round_proper : Proper (Qeq ==> eq) math_round.
Proof. intros x y H. unfold math_round. apply Qfloor_comp. by rewrite H. Qed.

Import Submit Results.

Lemma fdiv_bounds (s c : nat) :
  (s <= c)%nat -> (0 < c)%nat -> 0 <= fdiv s c <= 1.
Proof. intros Hs Hc. apply (round_q_bounds _ _ 1); lia. Qed.

Lemma fmul_100_bounds (x : Q) :
  0 <= x <= 1 -> 0 <= fmul x 100 <= inject_Z 100.
Proof.
  intros [H0 H1]. unfold fmul. apply round_q_bounds; [|lia|lia].
  unfold Qle in H0, H1; simpl in H0, H1. simpl. lia.
Qed.

Lemma math_round_le (x : Q) (k : Z) : x <= inject_Z k -> (math_round x <= k)%Z.
Proof.
  intros Hx. unfold math_round.
  assert (Hlt : x + (1 # 2) < inject_Z (k + 1)).
  { rewrite inject_Z_plus. apply Qle_lt_trans with (inject_Z k + (1 # 2)).
    - by apply Qplus_le_l.
    - apply Qplus_lt_r. reflexivity. }
  pose proof (Qfloor_le (x + (1 # 2))) as Hf.
  assert (inject_Z (Qfloor (x + (1 # 2))) < inject_Z (k + 1)) as Hz
    by (eapply Qle_lt_trans; eauto).
  rewrite <- Zlt_Qlt in Hz. lia.
Qed.

(** The percentage of a score at most the count is at most 100, and 100 for a full score. *)
Lemma percentOf_le_100 (score total : nat) :
  (0 < total)%nat -> (score <= total)%nat ->
  (percentOf score total <= 100)%nat /\
  (score = total -> percentOf score total = 100%nat).
Proof.
  intros Ht Hs. split.
  - unfold percentOf.
    pose proof (math_round_le _ 100 (proj2 (fmul_100_bounds _ (fdiv_bounds _ _ Hs Ht)))).
    lia.
  - intros ->. unfold percentOf, fdiv.
    assert (H1 : round_q (Z.of_nat total) (Z.of_nat total) == inject_Z 1).
    { rewrite <- (Z.mul_1_l (Z.of_nat total)) at 1. apply round_q_exact; lia. }
    assert (H100 : fmul (round_q (Z.of_nat total) (Z.of_nat total)) 100 == inject_Z 100).
    { unfold fmul. unfold Qeq in H1; simpl in H1. rewrite Z.mul_1_r in H1.
      rewrite H1. change (Z.of_nat 100) with 100%Z.
      rewrite Z.mul_comm. apply round_q_exact; lia. }
    rewrite (math_round_proper _ _ H100). reflexivity.
Qed.

(** C5 (bounds): with doubles as the code computes them, a score at most
    the configured count gives a percentage at most 100, and a full score
    gives exactly 100. *)
Theorem percentOf_bounds (score total : nat) :
  (0 < total)%nat -> (score <= total)%nat ->
  (percentOf score total <= 100)%nat /\
  (score = total -> percentOf score total = 100%nat).
Proof. apply percentOf_le_100. Qed.

(** Finding: [Math.round((23 / 40) * 100)] is 57 in JavaScript,
    because [23 / 40 * 100] is the double just below 57.5; the spec's
    [round(score / count * 100)] is 58. *)
Example percentOf_float_divergence :
  percentOf 23 40 = 57%nat /\ Z.to_nat (Qfloor (inject_Z (200 * 23 + 40) / inject_Z (2 * 40))) = 58%nat.
Proof. split; vm_compute; reflexivity. Qed.

(** ** Properties of submission and results *)

Local Open Scope nat_scope.

Lemma foldl_count {A} (p : A -> bool) (l : list A) (a : nat) :
  foldl (fun acc x => if p x then S acc else acc) a l = a + length (filter p l).
Proof.
  revert a. induction l as [|x l IH]; intros a; simpl; [lia|].
  rewrite filter_cons. destruct (p x); simpl; rewrite IH; lia.
Qed.

Lemma foldl_sum {A} (f : A -> nat) (l : list A) (a : nat) :
  foldl (fun s x => s + f x) a l = a + sum_list_with f l.
Proof. revert a. induction l as [|x l IH]; intros a; simpl; [lia|]. rewrite IH. lia. Qed.

(** a question scores exactly when the stored answer for its
    [globalIndex] is a non-empty string equal to the question's answer;
    an unanswered question, or an empty answer, counts as wrong. *)
Theorem answeredCorrectly_spec (ua : gmap string string) (q : ExamQuestion) :
  answeredCorrectly ua q = true <->
  exists a, ua !! eqGlobalIndex q = Some a /\ a <> ""%string /\ answer (eqQuestion q) = Some (JStr a).
Proof.
  unfold answeredCorrectly. rewrite andb_true_iff. split.
  - intros [(a & Ha & Hne)%truthy_str_Some Heq]. rewrite Ha in Heq.
    apply js_str_eq_Some in Heq. eauto.
  - intros (a & Ha & Hne & Hans). rewrite Ha, Hans. split.
    + simpl. by apply bool_decide_eq_true.
    + by apply js_str_eq_Some.
Qed.

Lemma sum_scores_le (rs : list SubjectResult) :
  Forall (fun r => rScore r <= rTotal r) rs ->
  sum_list_with rScore rs <= sum_list_with rTotal rs.
Proof. induction 1; simpl; lia. Qed.

(** [getGrade] bands the percentage: A from 80, B from 70, C from 60,
    D from 50 (so 50 is a D and 49 an F), F below. *)
Theorem getGrade_bands (p : nat) :
  (getGrade p = GradeA <-> 80 <= p) /\
  (getGrade p = GradeB <-> 70 <= p < 80) /\
  (getGrade p = GradeC <-> 60 <= p < 70) /\
  (getGrade p = GradeD <-> 50 <= p < 60) /\
  (getGrade p = GradeF <-> p < 50).
Proof. unfold getGrade. case_nat; repeat split; intros; try lia; try discriminate; done. Qed.

(** the totals of the results screen are the sums of the scores and of
    the configured counts; when no subject scores more than its count the
    overall percentage is at most 100. *)
Theorem results_totals (opts : list SubjectOption) (eqs : list ExamQuestion)
    (ua : gmap string string) :
  let rs := subjectResults opts eqs ua in
  totalScore rs = sum_list_with rScore rs /\
  totalQuestions rs = sum_list_with count opts /\
  (Forall (fun r => rScore r <= rTotal r) rs -> overallPercentage rs <= 100).
Proof.
  simpl. unfold totalScore, totalQuestions. rewrite !foldl_sum. split; [done|]. split.
  - unfold subjectResults. induction opts as [|o opts IH]; simpl in *; [done|].
    lia.
  - intros Hle. unfold overallPercentage, totalScore, totalQuestions.
    rewrite !foldl_sum. simpl. case_nat; [|lia].
    apply percentOf_le_100; [lia|]. by apply sum_scores_le.
Qed.

(** ** Witnesses *)

Lemma percentOf_bounds_witness :
  0 < 40 /\ 23 <= 40 /\ percentOf 23 40 <= 100.
Proof. split; [lia|]. split; [lia|]. apply (percentOf_bounds 23 40); lia. Defined.

Definition w_bio_opt : SubjectOption := mkSubjectOption "Biology" "2024" "All Topic" 2 false false.
Definition w_q (a : string) : Question := mkQuestion None (Some (JStr "q")) (Some [a; "x"]) (Some (JStr a)) None.
Definition w_seen : list ExamQuestion :=
  [mkEQ (Some "Biology") (w_q "a") (global_key "Biology" 0);
   mkEQ (Some "Biology") (w_q "b") (global_key "Biology" 1)].

Lemma results_totals_witness :
  Forall (fun r => rScore r <= rTotal r)
    (subjectResults [w_bio_opt] w_seen (<[global_key "Biology" 0 := "a"]> ∅)) /\
  overallPercentage (subjectResults [w_bio_opt] w_seen (<[global_key "Biology" 0 := "a"]> ∅)) <= 100.
Proof.
  assert (H : Forall (fun r => rScore r <= rTotal r)
    (subjectResults [w_bio_opt] w_seen (<[global_key "Biology" 0 := "a"]> ∅))).
  { vm_compute. repeat constructor; lia. }
  split; [done|]. apply (results_totals [w_bio_opt] w_seen _). done.
Defined.
