(* ===== verification/JsNumber.v ===== *)
(** * JsNumber: JavaScript numbers as IEEE doubles

    The calculator of [src/components/Calculator.tsx] hands its input to
    [eval] and shows [String(res)].  This file holds the number part of
    that: the Number type of ECMAScript (IEEE 754 binary64 with signed
    zeros, infinities and NaN), the operators [+ - * / % **] on it
    (Number::add, ::subtract, ::multiply, ::divide, ::remainder,
    ::exponentiate of ECMA-262 6.1.6.1), [Number::toString] (6.1.6.1.20)
    and [StringToNumber] (7.1.4.1.1).  These belong to the JavaScript
    engine, not to [src/]; they are modelled from the specification.

    A finite non-zero double is the rational it denotes, in lowest
    terms, so that equality of doubles is equality of the Rocq values.
    Rounding ([round]) reuses the significand arithmetic of
    [Scoring.Binary64], adding the subnormal quantum [2^-1074] and the
    overflow to infinity.  [**] is "implementation-approximated" in the
    specification: the engine's [pow] is a parameter for finite non-zero
    operands, and every special case is written out.

    [JsMath] holds the [Math] functions and comparisons the screens
    use ([Math.round], [Math.floor], [Math.min], [Math.max], [<], [<=],
    [===]), and [ToNumber] the conversions the screens apply to service
    answers and picker text: [Number(v)] on a parsed JSON value,
    [parseInt(s, 10)], [Number.isNaN] and the test
    [Number.isFinite(x) && x > 0]. *)

From S2P Require Import Prelude Json Scoring.
From Stdlib Require Import QArith Qround Qabs Ascii.

Module Double.
Import Binary64.

Inductive dbl :=
| DZero (neg : bool)
| DFin (q : Q)
| DInf (neg : bool)
| DNaN.

#[export] Instance Q_eq_dec : EqDecision Q.
Proof. solve_decision. Defined.
#[export] Instance dbl_eq_dec : EqDecision dbl.
Proof. solve_decision. Defined.

(** The least exponent: the quantum of subnormals is [2^-1074]. *)
Definition emin : Z := 1074.

(** Significand [m] and exponent [e] (value [m * 2^-e]) of the double
    nearest to [a / b], [a, b > 0], ties to even: 53 significant bits,
    and the fixed quantum [2^-1074] below the normal range. *)
Definition round_parts (a b : Z) : Z * Z :=
  let e := Z.min (binade_exp a b) emin in
  let '(N, D) := scale a b e in
  (div_round_even N D, e).

(** A rounded value of [2^1024] or more overflows. *)
Definition overflows (m e : Z) : bool :=
  if (e <? 0)%Z then (2 ^ 1024 <=? m * 2 ^ (- e))%Z else false.

(** 𝔽(x): the double nearest to the exact result [x], [+0] when [x] is
    zero (round to nearest), a zero of the sign of [x] on underflow and
    an infinity on overflow. *)
Definition round (x : Q) : dbl :=
  let neg := (Qnum x <? 0)%Z in
  let '(m, e) := round_parts (Z.abs (Qnum x)) (Zpos (Qden x)) in
  if (m =? 0)%Z then DZero neg
  else if overflows m e then DInf neg
  else DFin (Qred (if neg then - ldexp_neg m e else ldexp_neg m e)).

(** The sign bit ([true] for negative); that of NaN is irrelevant. *)
Definition dsign (x : dbl) : bool :=
  match x with
  | DZero s | DInf s => s
  | DFin q => (Qnum q <? 0)%Z
  | DNaN => false
  end.

(** Unary minus (Number::unaryMinus). *)
Definition dneg (x : dbl) : dbl :=
  match x with
  | DZero s => DZero (negb s)
  | DFin q => DFin (- q)
  | DInf s => DInf (negb s)
  | DNaN => DNaN
  end.

(** Number::add.  An exact zero sum of finite operands is [+0]. *)
Definition dadd (x y : dbl) : dbl :=
  match x, y with
  | DNaN, _ | _, DNaN => DNaN
  | DInf a, DInf b => if Bool.eqb a b then DInf a else DNaN
  | DInf a, _ => DInf a
  | _, DInf b => DInf b
  | DZero a, DZero b => DZero (a && b)
  | DZero _, _ => y
  | _, DZero _ => x
  | DFin p, DFin q => round (p + q)
  end.

(** Number::subtract: [x + (-y)]. *)
Definition dsub (x y : dbl) : dbl := dadd x (dneg y).

(** Number::multiply. *)
Definition dmul (x y : dbl) : dbl :=
  let s := xorb (dsign x) (dsign y) in
  match x, y with
  | DNaN, _ | _, DNaN => DNaN
  | DInf _, DZero _ | DZero _, DInf _ => DNaN
  | DInf _, _ | _, DInf _ => DInf s
  | DZero _, _ | _, DZero _ => DZero s
  | DFin p, DFin q => round (p * q)
  end.

(** Number::divide. *)
Definition ddiv (x y : dbl) : dbl :=
  let s := xorb (dsign x) (dsign y) in
  match x, y with
  | DNaN, _ | _, DNaN => DNaN
  | DInf _, DInf _ => DNaN
  | DInf _, _ => DInf s
  | _, DInf _ => DZero s
  | DZero _, DZero _ => DNaN
  | DZero _, _ => DZero s
  | _, DZero _ => DInf s
  | DFin p, DFin q => round (p / q)
  end.

(** [truncate]: towards zero. *)
Definition qtrunc (x : Q) : Z :=
  if Qle_bool 0 x then Qfloor x else (- Qfloor (- x))%Z.

(** Number::remainder ([%]): [n - d * truncate(n / d)], a zero keeping
    the sign of [n]. *)
Definition drem (n d : dbl) : dbl :=
  match n, d with
  | DNaN, _ | _, DNaN => DNaN
  | DInf _, _ => DNaN
  | _, DInf _ => n
  | _, DZero _ => DNaN
  | DZero _, _ => n
  | DFin p, DFin q =>
      let r := (p - q * inject_Z (qtrunc (p / q)))%Q in
      if Qeq_bool r 0 then DZero (dsign n) else round r
  end.

(** An integral Number, and an odd one. *)
Definition is_integral (q : Q) : bool := (Zpos (Qden (Qred q)) =? 1)%Z.

Definition odd_integral (x : dbl) : bool :=
  match x with
  | DFin q => is_integral q && Z.odd (Qnum (Qred q))
  | _ => false
  end.

(** [x > +0]. *)
Definition dpos (x : dbl) : bool :=
  match x with
  | DFin q => (0 <? Qnum q)%Z
  | DInf s => negb s
  | _ => false
  end.

Section Exponentiate.
(** The engine's [pow] on finite non-zero operands. *)
Variable pow : Q -> Q -> dbl.

(** Number::exponentiate, steps 1-13. *)
Definition dexp (base exponent : dbl) : dbl :=
  match exponent with
  | DNaN => DNaN
  | DZero _ => DFin 1
  | _ =>
      match base with
      | DNaN => DNaN
      | DInf false => if dpos exponent then DInf false else DZero false
      | DInf true =>
          if dpos exponent then DInf (odd_integral exponent) else DZero (odd_integral exponent)
      | DZero false => if dpos exponent then DZero false else DInf false
      | DZero true =>
          if dpos exponent then DZero (odd_integral exponent) else DInf (odd_integral exponent)
      | DFin b =>
          match exponent with
          | DInf s =>
              match Qcompare (Qabs b) 1 with
              | Gt => if s then DZero false else DInf false
              | Eq => DNaN
              | Lt => if s then DInf false else DZero false
              end
          | DFin e => if (Qnum b <? 0)%Z && negb (is_integral e) then DNaN else pow b e
          | _ => DNaN
          end
      end
  end.
End Exponentiate.

End Double.

Module NumberToString.
Import Binary64 Double.

(** [10^k] as a rational, for any integer [k]. *)
Definition pow10 (k : Z) : Q :=
  if (0 <=? k)%Z then inject_Z (10 ^ k) else Qmake 1 (Z.to_pos (10 ^ (- k))).

(** The number of decimal digits of a positive integer. *)
Definition ndigits (z : Z) : Z := Z.of_nat (String.length (js_int_string z)).

(** The [n] with [10^(n-1) <= q < 10^n], for [q > 0]. *)
Definition dec_exp (q : Q) : Z :=
  if Qle_bool 1 q then ndigits (Qfloor q)
  else let n := (1 - ndigits (Qfloor (/ q)))%Z in
       if Qle_bool (pow10 n) q then (n + 1)%Z else n.

(** The integer nearest to [q >= 0], ties to even. *)
Definition q_round_even (q : Q) : Z := div_round_even (Qnum q) (Zpos (Qden q)).

(** [s] has [k] digits and [𝔽(s * 10^(n-k))] is [x]. *)
Definition valid (x : dbl) (k n s : Z) : bool :=
  (10 ^ (k - 1) <=? s)%Z && (s <? 10 ^ k)%Z && bool_decide (round (inject_Z s * pow10 (n - k)) = x).

(** The candidates [(n, s)] for [k] digits: [n] the decimal exponent of
    [q] or one more, [s] next to [q * 10^(k-n)].  When the set of
    integers [s] that round to [x] is not empty, the nearest one is
    among these three. *)
Definition cands (q : Q) (k : Z) : list (Z * Z) :=
  let n0 := dec_exp q in
  flat_map (fun n => let s0 := q_round_even (q * pow10 (k - n)) in [(n, s0); (n, s0 - 1); (n, s0 + 1)]%Z)
    [n0; (n0 + 1)%Z].

(** Distance of a candidate's value to [q]. *)
Definition dist (q : Q) (k : Z) (c : Z * Z) : Q := Qabs (inject_Z c.2 * pow10 (c.1 - k) - q).

(** [c] is closer to [q] than [d], or as close and even. *)
Definition better (q : Q) (k : Z) (c d : Z * Z) : bool :=
  match Qcompare (dist q k c) (dist q k d) with
  | Lt => true
  | Eq => Z.even c.2 && negb (Z.even d.2)
  | Gt => false
  end.

Definition best (q : Q) (k : Z) (l : list (Z * Z)) : option (Z * Z) :=
  fold_left (fun acc c => match acc with
                          | None => Some c
                          | Some d => if better q k c d then Some c else Some d
                          end) l None.

(** The least [k] from [k0] with a candidate, and the closest candidate
    for it (the choice NOTE 2 of 6.1.6.1.20 recommends, which the
    engines make). *)
Fixpoint search (x : dbl) (q : Q) (k : Z) (fuel : nat) : option (Z * Z * Z) :=
  match fuel with
  | O => None
  | S f =>
      match best q k (filter (fun c => valid x k c.1 c.2) (cands q k)) with
      | Some (n, s) => Some (k, n, s)
      | None => search x q (k + 1)%Z f
      end
  end.

(** [n] zeros. *)
Fixpoint zeros (n : nat) : string :=
  match n with O => "" | S m => String "0"%char (zeros m) end.

(** Steps 6-10: the digits [sd] of [s] ([k] of them) placed for the
    exponent [n]. *)
Definition format (k n : Z) (sd : string) : string :=
  if (k <=? n)%Z && (n <=? 21)%Z then sd +:+ zeros (Z.to_nat (n - k))
  else if (0 <? n)%Z && (n <=? 21)%Z then
    String.substring 0 (Z.to_nat n) sd +:+ "." +:+ String.substring (Z.to_nat n) (Z.to_nat (k - n)) sd
  else if (-6 <? n)%Z && (n <=? 0)%Z then "0." +:+ zeros (Z.to_nat (- n)) +:+ sd
  else
    let e := (n - 1)%Z in
    let es := (if (0 <=? e)%Z then "+" else "-") +:+ js_int_string (Z.abs e) in
    if (k =? 1)%Z then sd +:+ "e" +:+ es
    else String.substring 0 1 sd +:+ "." +:+ String.substring 1 (Z.to_nat (k - 1)) sd +:+ "e" +:+ es.

(** The digits of a positive finite double [q], searched from one digit
    to seventeen, which IEEE doubles always suffice for; the second
    branch is the seventeen-digit candidate. *)
Definition pos_digits (q : Q) : Z * Z * Z :=
  match search (DFin q) q 1 17 with
  | Some r => r
  | None => let n := dec_exp q in (17%Z, n, q_round_even (q * pow10 (17 - n)))
  end.

(** Number::toString(x) in radix 10. *)
Definition number_to_string (x : dbl) : string :=
  match x with
  | DNaN => "NaN"
  | DZero _ => "0"
  | DInf false => "Infinity"
  | DInf true => "-Infinity"
  | DFin q =>
      let '(k, n, s) := pos_digits (Qabs q) in
      let t := format k n (js_int_string s) in
      if (Qnum q <? 0)%Z then "-" +:+ t else t
  end.

End NumberToString.

Module DecimalLit.
Import Double.

(** The value of a digit in base [r] (2, 8, 10 or 16). *)
Definition radix_digit (r : Z) (c : ascii) : option Z :=
  let n := Z.of_nat (nat_of_ascii c) in
  let v := if bool_decide (48 <= n <= 57)%Z then Some (n - 48)%Z
           else if bool_decide (97 <= n <= 102)%Z then Some (n - 87)%Z
           else if bool_decide (65 <= n <= 70)%Z then Some (n - 55)%Z
           else None in
  match v with Some d => if (d <? r)%Z then Some d else None | None => None end.

(** A decimal digit. *)
Definition is_digit (c : ascii) : bool := bool_decide (radix_digit 10 c <> None).

(** The longest prefix of digits of base [r]: value, count and rest. *)
Fixpoint scan_radix (r : Z) (v : Z) (n : nat) (s : string) : Z * nat * string :=
  match s with
  | String c s' =>
      match radix_digit r c with
      | Some d => scan_radix r (r * v + d)%Z (S n) s'
      | None => (v, n, s)
      end
  | EmptyString => (v, n, s)
  end.

Definition scan_digits (s : string) : Z * nat * string := scan_radix 10 0 0 s.

(** [10^k] as a rational. *)
Definition pow10 := NumberToString.pow10.

(** An optional ExponentPart: [None] when an [e] is not followed by
    digits. *)
Definition scan_exponent (s : string) : option (Z * string) :=
  match s with
  | String c s' =>
      if bool_decide (c = "e"%char \/ c = "E"%char) then
        let '(sg, t) := match s' with
                        | String "+" t => (1%Z, t)
                        | String "-" t => ((-1)%Z, t)
                        | _ => (1%Z, s')
                        end in
        let '(v, n, r) := scan_digits t in
        if (n =? 0)%nat then None else Some ((sg * v)%Z, r)
      else Some (0%Z, s)
  | EmptyString => Some (0%Z, s)
  end.

(** A DecimalLiteral (or StrUnsignedDecimalLiteral without [Infinity]):
    [digits [. digits?] exponent?] or [. digits exponent?]; its
    mathematical value and the rest. *)
Definition scan_decimal (s : string) : option (Q * string) :=
  let '(iv, ic, r1) := scan_digits s in
  let '(fv, fc, r2) := match r1 with
                       | String "." t => scan_digits t
                       | _ => (0%Z, 0%nat, r1)
                       end in
  let dot := match r1 with String "." _ => true | _ => false end in
  if (ic =? 0)%nat && ((fc =? 0)%nat || negb dot) then None
  else match scan_exponent r2 with
       | Some (ex, r3) => Some (inject_Z (iv * 10 ^ Z.of_nat fc + fv) * pow10 (ex - Z.of_nat fc), r3)
       | None => None
       end.

(** A NonDecimalIntegerLiteral prefix [0x], [0o] or [0b]: its radix. *)
Definition radix_prefix (c : ascii) : option Z :=
  if bool_decide (c = "x"%char \/ c = "X"%char) then Some 16%Z
  else if bool_decide (c = "o"%char \/ c = "O"%char) then Some 8%Z
  else if bool_decide (c = "b"%char \/ c = "B"%char) then Some 2%Z
  else None.

(** StringToNumber: white space around a StrNumericLiteral; an empty
    string is [+0]; anything else is NaN. *)
Definition string_to_number (s : string) : dbl :=
  match js_trim s with
  | EmptyString => DZero false
  | t =>
      match t with
      | String "0" (String c r) =>
          match radix_prefix c with
          | Some b =>
              let '(v, n, rest) := scan_radix b 0 0 r in
              if (n =? 0)%nat || negb (bool_decide (rest = "")) then DNaN else round (inject_Z v)
          | None =>
              match scan_decimal t with
              | Some (mv, EmptyString) => round mv
              | _ => DNaN
              end
          end
      | _ =>
          let '(neg, u) := match t with
                           | String "-" u => (true, u)
                           | String "+" u => (false, u)
                           | _ => (false, t)
                           end in
          let d := if bool_decide (u = "Infinity") then DInf false
                   else match scan_decimal u with
                        | Some (mv, EmptyString) => round mv
                        | _ => DNaN
                        end in
          if neg then dneg d else d
      end
  end.

End DecimalLit.

(** ** [Math] functions on doubles *)

Module JsMath.
Import Double.

(** The Number an integer literal or an integer result denotes. *)
Definition num (z : Z) : dbl := round (inject_Z z).

(** [Math.round(x)]: NaN, the infinities and the zeros are returned as
    they are; otherwise [floor(x + 0.5)], a zero taking the sign of
    [x], as in [Math.round(-0.3)], which is [-0]. *)
Definition math_round_d (x : dbl) : dbl :=
  match x with
  | DFin q =>
      let r := Qfloor (q + (1 # 2)) in
      if (r =? 0)%Z then DZero (Qnum q <? 0)%Z else round (inject_Z r)
  | _ => x
  end.

(** [Math.floor(x)]: a zero keeps its sign, and a value in [(0, 1)]
    floors to [+0]. *)
Definition math_floor_d (x : dbl) : dbl :=
  match x with
  | DFin q => let r := Qfloor q in if (r =? 0)%Z then DZero false else round (inject_Z r)
  | _ => x
  end.

(** [x < y] on numbers that are not NaN. *)
Definition dlt (x y : dbl) : bool :=
  let fin v := match v with DFin q => q | _ => 0%Q end in
  match x, y with
  | DInf true, DInf true | DInf false, DInf false => false
  | DInf true, _ | _, DInf false => true
  | DInf false, _ | _, DInf true => false
  | _, _ => negb (Qle_bool (fin y) (fin x))
  end.

(** [x <= y]: false when either is NaN. *)
Definition dle (x y : dbl) : bool :=
  match x, y with
  | DNaN, _ | _, DNaN => false
  | _, _ => negb (dlt y x)
  end.

(** [x === y] on numbers: NaN is not equal to itself, and [-0] equals
    [+0]. *)
Definition strict_eq (x y : dbl) : bool :=
  match x, y with
  | DZero _, DZero _ => true
  | DFin p, DFin q => Qeq_bool p q
  | DInf a, DInf b => Bool.eqb a b
  | _, _ => false
  end.

(** [Math.min(x, y)] and [Math.max(x, y)]: NaN wins, and [-0] is
    below [+0]. *)
Definition math_min_d (x y : dbl) : dbl :=
  match x, y with
  | DNaN, _ | _, DNaN => DNaN
  | DZero a, DZero b => DZero (a || b)
  | _, _ => if dlt y x then y else x
  end.

Definition math_max_d (x y : dbl) : dbl :=
  match x, y with
  | DNaN, _ | _, DNaN => DNaN
  | DZero a, DZero b => DZero (a && b)
  | _, _ => if dlt x y then y else x
  end.

End JsMath.

(** ** Conversions to Number *)

Module ToNumber.
Import Double DecimalLit JsMath.

(** [Number(v)] (ToNumber, 7.1.4) on a parsed JSON value or [undefined]:
    an array is converted through its [String], a plain object is
    [NaN]. *)
Definition to_number (v : option jval) : dbl :=
  match v with
  | None => DNaN
  | Some JNull => DZero false
  | Some (JBool b) => if b then num 1 else DZero false
  | Some (JNum n) => num n
  | Some (JStr s) => string_to_number s
  | Some (JArr l) => string_to_number (js_to_string (JArr l))
  | Some (JObj _) => DNaN
  end.

(** [parseInt(s, 10)]: leading white space, a sign, then the longest
    run of decimal digits; [NaN] without a digit, and [-0] for a minus
    before zeros. *)
Definition parse_int (s : string) : dbl :=
  let '(sg, rest) := split_sign (skip_space s) in
  match (span_digits_acc None rest).1 with
  | Some v => if (v =? 0)%Z then DZero (sg <? 0)%Z else num (sg * v)
  | None => DNaN
  end.

(** [Number.isNaN(x)]. *)
Definition is_nan (x : dbl) : bool := match x with DNaN => true | _ => false end.

(** [Number.isFinite(x) && x > 0]. *)
Definition finite_pos (x : dbl) : bool :=
  match x with DFin q => (0 <? Qnum q)%Z | _ => false end.

End ToNumber.
