(* ===== verification/JsEval.v ===== *)
(** * JsEval: [eval] on the text the calculator builds

    [Calculator.tsx] evaluates its input with [eval(input)].  The input
    is made of the keys [0-9 . 00 + - * / %] appended to the text of an
    earlier result ([String(res)]: a number, ["undefined"], or a string
    built by [+] from these).  This file models ECMAScript's [eval] on
    such text: the lexical grammar (numeric literals with Annex B's
    legacy octal literals, identifiers, punctuators, comments, regular
    expression literals), the expression grammar from
    AdditiveExpression down to PrimaryExpression, and its evaluation on
    numbers, [undefined], strings and regular expressions.  What the
    calculator can never produce (white space, other punctuators,
    member access, escapes, BigInt literals, other identifiers than the
    three globals and the text around them) is the outcome [Unsupported],
    never a guess.

    The engine is a parameter ([Engine]): whether the eval code is
    strict (JavaScriptCore and V8 run a direct [eval] in the strict code
    Babel emits for the module; Hermes runs [eval] as global, sloppy
    code), and its [pow]. *)

From S2P Require Import Prelude Json Scoring JsNumber.
From Stdlib Require Import QArith Ascii.
Import Double NumberToString DecimalLit.

Module JsLex.

Inductive jserr := SyntaxError | ReferenceError | TypeError | Unsupported.

#[export] Instance jserr_eq_dec : EqDecision jserr.
Proof. solve_decision. Defined.

Definition eresult (A : Type) := (A + jserr)%type.

Inductive punct := PPlus | PMinus | PStar | PSlash | PPercent | PStarStar | PPlusPlus | PMinusMinus | PDot.

Inductive token :=
| TNum (d : dbl)
| TIdent (x : string)
| TRegex (body : string)
| TPunct (p : punct).

Definition is_letter (c : ascii) : bool :=
  let n := nat_of_ascii c in bool_decide ((65 <= n <= 90) \/ (97 <= n <= 122))%nat.

(** IdentifierStart and IdentifierPart on ASCII. *)
Definition ident_start (c : ascii) : bool := is_letter c || bool_decide (c = "$"%char \/ c = "_"%char).
Definition ident_part (c : ascii) : bool := ident_start c || is_digit c.

(** The longest prefix of characters satisfying [p], and the rest. *)
Fixpoint span (p : ascii -> bool) (s : string) : string * string :=
  match s with
  | String c s' => if p c then let '(a, b) := span p s' in (String c a, b) else ("", s)
  | EmptyString => ("", "")
  end.

Definition line_terminator (c : ascii) : bool := bool_decide (c = "010"%char \/ c = "013"%char).

(** A SingleLineComment runs to the end of the line. *)
Fixpoint skip_line (s : string) : string :=
  match s with
  | String c s' => if line_terminator c then s else skip_line s'
  | EmptyString => EmptyString
  end.

(** The rest after the [*/] of a MultiLineComment; one spanning lines
    is outside the fragment (it would count as a line break). *)
Fixpoint close_comment (s : string) : eresult string :=
  match s with
  | String "*" (String "/" s') => inl s'
  | String c s' => if line_terminator c then inr Unsupported else close_comment s'
  | EmptyString => inr SyntaxError
  end.

(** The characters of a regular expression body in the fragment: all
    PatternCharacters but [*] and [+], which are quantifiers. *)
Definition regex_char (c : ascii) : bool :=
  is_letter c || is_digit c || bool_decide (c ∈ ["."; "+"; "-"; "*"; "%"]%char).

Definition quantifier (c : ascii) : bool := bool_decide (c = "*"%char \/ c = "+"%char).

(** The body up to the closing [/], and the rest. *)
Fixpoint regex_body (s : string) : eresult (string * string) :=
  match s with
  | String "/" s' => inl ("", s')
  | String c s' =>
      if line_terminator c then inr SyntaxError
      else if regex_char c then
        match regex_body s' with inl (b, r) => inl (String c b, r) | inr e => inr e end
      else inr Unsupported
  | EmptyString => inr SyntaxError
  end.

(** A pattern of Atoms and quantifiers: a quantifier must follow an
    Atom ("nothing to repeat" otherwise). *)
Fixpoint pattern_ok (after_atom : bool) (s : string) : bool :=
  match s with
  | String c s' => if quantifier c then after_atom && pattern_ok false s' else pattern_ok true s'
  | EmptyString => true
  end.

(** Valid RegularExpressionFlags: known letters, none twice. *)
Definition flags_ok (f : string) : bool :=
  let l := String.list_ascii_of_string f in
  forallb (fun c => bool_decide (c ∈ String.list_ascii_of_string "dgimsuvy")) l && bool_decide (NoDup l).

(** A NumericLiteral at the head of [s] (which starts with a digit, or
    with [.] and a digit): its value and the rest.  In sloppy code a [0]
    followed by digits is Annex B's LegacyOctalIntegerLiteral when all
    of them are octal, a NonOctalDecimalIntegerLiteral otherwise; strict
    code refuses both. *)
Definition lex_number (strict : bool) (s : string) : eresult (dbl * string) :=
  let dec t := match scan_decimal t with Some (mv, r) => inl (round mv, r) | None => inr SyntaxError end in
  match s with
  | String "0" (String c r) =>
      match radix_prefix c with
      | Some b =>
          let '(v, n, rest) := scan_radix b 0 0 r in
          if (n =? 0)%nat then inr SyntaxError else inl (round (inject_Z v), rest)
      | None =>
          if is_digit c then
            if strict then inr SyntaxError
            else let '(ds, rest) := span is_digit (String c r) in
                 if forallb (fun d => bool_decide (d ∈ ["0"; "1"; "2"; "3"; "4"; "5"; "6"; "7"]%char))
                      (String.list_ascii_of_string ds)
                 then let '(v, _, _) := scan_radix 8 0 0 ds in inl (round (inject_Z v), rest)
                 else dec s
          else dec s
      end
  | _ => dec s
  end.

(** What may follow a NumericLiteral: not an IdentifierStart or a digit
    (a BigInt suffix [n] or a separator [_] is outside the fragment). *)
Definition after_number (r : string) : option jserr :=
  match r with
  | String c _ =>
      if bool_decide (c = "n"%char \/ c = "_"%char) then Some Unsupported
      else if ident_start c || is_digit c then Some SyntaxError
      else None
  | EmptyString => None
  end.

(** One step of the lexer on a non-empty [s]: the next token ([None]
    for a comment), whether it ends an expression, and the rest.
    [expr_end] says whether the previous token ends an expression: then
    a [/] divides (goal InputElementDiv), otherwise it opens a regular
    expression literal (goal InputElementRegExp); a [++] or [--] after
    an expression is postfix and keeps it ended. *)
Definition next_token (strict : bool) (expr_end : bool) (s : string)
    : eresult (option token * bool * string) :=
  let tok t b r := inl (Some t, b, r) in
  match s with
  | EmptyString => inr Unsupported
  | String c r =>
      if is_digit c || (bool_decide (c = "."%char) && match r with String d _ => is_digit d | _ => false end)
      then match lex_number strict s with
           | inl (d, r') => match after_number r' with
                            | Some e => inr e
                            | None => tok (TNum d) true r'
                            end
           | inr e => inr e
           end
      else if ident_start c then
        let '(x, r') := span ident_part s in tok (TIdent x) true r'
      else match c, r with
           | "/"%char, String "/" r' => inl (None, expr_end, skip_line r')
           | "/"%char, String "*" r' =>
               match close_comment r' with inl r'' => inl (None, expr_end, r'') | inr e => inr e end
           | "/"%char, _ =>
               if expr_end then tok (TPunct PSlash) false r
               else match regex_body r with
                    | inl (b, r') =>
                        let '(fl, r'') := span ident_part r' in
                        if bool_decide (fl <> "") then inr (if flags_ok fl then Unsupported else SyntaxError)
                        else if pattern_ok false b then tok (TRegex b) true r''
                        else inr SyntaxError
                    | inr e => inr e
                    end
           | "+"%char, String "+" r' => tok (TPunct PPlusPlus) expr_end r'
           | "+"%char, _ => tok (TPunct PPlus) false r
           | "-"%char, String "-" r' => tok (TPunct PMinusMinus) expr_end r'
           | "-"%char, _ => tok (TPunct PMinus) false r
           | "*"%char, String "*" r' => tok (TPunct PStarStar) false r'
           | "*"%char, _ => tok (TPunct PStar) false r
           | "%"%char, _ => tok (TPunct PPercent) false r
           | "."%char, _ => tok (TPunct PDot) false r
           | _, _ => inr Unsupported
           end
  end.

(** The lexer: [next_token] until the end of the text.  Each step
    consumes at least a character, so [length s + 1] is enough fuel
    ([JsEvalFacts.lex_fuel]). *)
Fixpoint lex (strict : bool) (fuel : nat) (expr_end : bool) (s : string) : eresult (list token) :=
  match fuel with
  | O => inr Unsupported
  | S f =>
      match s with
      | EmptyString => inl []
      | _ =>
          match next_token strict expr_end s with
          | inl (ot, b, r) =>
              match lex strict f b r with
              | inl ts => inl (option_list ot ++ ts)
              | inr e => inr e
              end
          | inr e => inr e
          end
      end
  end.

Definition tokenize (strict : bool) (s : string) : eresult (list token) :=
  lex strict (S (String.length s)) false s.


End JsLex.

Module JsParse.
Import JsLex.

Inductive uop := UPlus | UMinus.
Inductive bop := BAdd | BSub | BMul | BDiv | BRem | BExp.

Inductive expr :=
| ENum (d : dbl)
| EIdent (x : string)
| ERegex (body : string)
| EUn (o : uop) (e : expr)
| EBin (o : bop) (a b : expr)
| EUpdate (prefix inc : bool) (x : string).

Definition presult := eresult (expr * list token).

(** LeftHandSideExpression (a PrimaryExpression; member access is
    outside the fragment) and UpdateExpression with a postfix [++] or
    [--], whose operand must be an identifier. *)
Definition parse_postfix (ts : list token) : presult :=
  let prim := match ts with
              | TNum d :: r => inl (ENum d, r)
              | TIdent x :: r => inl (EIdent x, r)
              | TRegex b :: r => inl (ERegex b, r)
              | _ => inr SyntaxError
              end in
  match prim with
  | inl (_, TPunct PDot :: TIdent _ :: _) => inr Unsupported
  | inl (_, TPunct PDot :: _) => inr SyntaxError
  | inl (EIdent x, TPunct PPlusPlus :: r) => inl (EUpdate false true x, r)
  | inl (EIdent x, TPunct PMinusMinus :: r) => inl (EUpdate false false x, r)
  | inl (_, TPunct PPlusPlus :: _) | inl (_, TPunct PMinusMinus :: _) => inr SyntaxError
  | p => p
  end.

(** UnaryExpression: [+], [-], and a prefix [++]/[--] whose operand must
    be an identifier. *)
Fixpoint parse_unary (fuel : nat) (ts : list token) : presult :=
  match fuel with
  | O => inr Unsupported
  | S f =>
      match ts with
      | TPunct PPlus :: r => match parse_unary f r with inl (e, r') => inl (EUn UPlus e, r') | inr x => inr x end
      | TPunct PMinus :: r => match parse_unary f r with inl (e, r') => inl (EUn UMinus e, r') | inr x => inr x end
      | TPunct PPlusPlus :: r =>
          match parse_unary f r with inl (EIdent x, r') => inl (EUpdate true true x, r') | inl _ => inr SyntaxError | inr x => inr x end
      | TPunct PMinusMinus :: r =>
          match parse_unary f r with inl (EIdent x, r') => inl (EUpdate true false x, r') | inl _ => inr SyntaxError | inr x => inr x end
      | _ => parse_postfix ts
      end
  end.

Definition starts_unary_op (ts : list token) : bool :=
  match ts with TPunct PPlus :: _ | TPunct PMinus :: _ => true | _ => false end.

(** ExponentiationExpression: right associative, and a unary [+]/[-]
    operand before [**] is an early error. *)
Fixpoint parse_exp (fuel : nat) (ts : list token) : presult :=
  match fuel with
  | O => inr Unsupported
  | S f =>
      match parse_unary fuel ts with
      | inl (u, TPunct PStarStar :: r) =>
          if starts_unary_op ts then inr SyntaxError
          else match parse_exp f r with inl (e, r') => inl (EBin BExp u e, r') | inr x => inr x end
      | p => p
      end
  end.

Definition mul_op (t : token) : option bop :=
  match t with TPunct PStar => Some BMul | TPunct PSlash => Some BDiv | TPunct PPercent => Some BRem | _ => None end.

Definition add_op (t : token) : option bop :=
  match t with TPunct PPlus => Some BAdd | TPunct PMinus => Some BSub | _ => None end.

(** A left-associative level: operands by [sub], operators by [op]. *)
Fixpoint parse_left (op : token -> option bop) (sub : list token -> presult)
    (fuel : nat) (acc : expr) (ts : list token) : presult :=
  match fuel with
  | O => inr Unsupported
  | S f =>
      match ts with
      | t :: r =>
          match op t with
          | Some o => match sub r with
                      | inl (e, r') => parse_left op sub f (EBin o acc e) r'
                      | inr x => inr x
                      end
          | None => inl (acc, ts)
          end
      | [] => inl (acc, [])
      end
  end.

Definition parse_level (op : token -> option bop) (sub : list token -> presult) (fuel : nat)
    (ts : list token) : presult :=
  match sub ts with inl (e, r) => parse_left op sub fuel e r | inr x => inr x end.

(** MultiplicativeExpression and AdditiveExpression. *)
Definition parse_mul (fuel : nat) : list token -> presult := parse_level mul_op (parse_exp fuel) fuel.
Definition parse_add (fuel : nat) : list token -> presult := parse_level add_op (parse_mul fuel) fuel.

(** A Script: empty, or one ExpressionStatement. *)
Definition parse_script (ts : list token) : eresult (option expr) :=
  match ts with
  | [] => inl None
  | _ => match parse_add (S (length ts)) ts with
         | inl (e, []) => inl (Some e)
         | inl _ => inr SyntaxError
         | inr x => inr x
         end
  end.

End JsParse.

Module JsEval.
Import JsLex JsParse.

(** The engine: strictness of the eval code, and its [pow]. *)
Record Engine := mkEngine { strict : bool; pow : Q -> Q -> dbl }.

Inductive jsval :=
| VNum (d : dbl)
| VUndef
| VStr (s : string)
| VRegex (body : string).

(** ToString, and [String(v)]. *)
Definition to_string (v : jsval) : string :=
  match v with
  | VNum d => number_to_string d
  | VUndef => "undefined"
  | VStr s => s
  | VRegex b => "/" +:+ b +:+ "/"
  end.

(** ToNumber (a regular expression through its ToPrimitive string). *)
Definition to_number (v : jsval) : dbl :=
  match v with
  | VNum d => d
  | VUndef => DNaN
  | VStr s => string_to_number s
  | VRegex _ => string_to_number (to_string v)
  end.

(** ToPrimitive gives a string. *)
Definition stringy (v : jsval) : bool :=
  match v with VStr _ | VRegex _ => true | _ => false end.

Definition global_words : list string := ["undefined"; "NaN"; "Infinity"].

(** An identifier the calculator can produce: a non-empty prefix of a
    global's name followed by digits. *)
Definition reachable_ident (x : string) : bool :=
  let '(l, d) := span is_letter x in
  bool_decide (l <> "") && forallb is_digit (String.list_ascii_of_string d) &&
  existsb (fun w => String.prefix l w) global_words.

(** The value of an identifier: the three non-writable globals; a name
    bound nowhere throws. *)
Definition resolve (x : string) : eresult jsval :=
  if bool_decide (x = "undefined") then inl VUndef
  else if bool_decide (x = "NaN") then inl (VNum DNaN)
  else if bool_decide (x = "Infinity") then inl (VNum (DInf false))
  else if reachable_ident x then inr ReferenceError
  else inr Unsupported.

Section Eval.
Variable eng : Engine.

(** ApplyStringOrNumericBinaryOperator. *)
Definition binop (o : bop) (a b : jsval) : jsval :=
  match o with
  | BAdd => if stringy a || stringy b then VStr (to_string a +:+ to_string b)
            else VNum (dadd (to_number a) (to_number b))
  | BSub => VNum (dsub (to_number a) (to_number b))
  | BMul => VNum (dmul (to_number a) (to_number b))
  | BDiv => VNum (ddiv (to_number a) (to_number b))
  | BRem => VNum (drem (to_number a) (to_number b))
  | BExp => VNum (dexp (pow eng) (to_number a) (to_number b))
  end.

(** Evaluation, operands left to right.  [x++] and [++x] on a global
    read it and write the new value back: the write to a non-writable
    global is ignored in sloppy code and a TypeError in strict code. *)
Fixpoint eval_expr (e : expr) : eresult jsval :=
  match e with
  | ENum d => inl (VNum d)
  | EIdent x => resolve x
  | ERegex b => inl (VRegex b)
  | EUn o a =>
      match eval_expr a with
      | inl v => inl (VNum (match o with UPlus => to_number v | UMinus => dneg (to_number v) end))
      | inr x => inr x
      end
  | EBin o a b =>
      match eval_expr a with
      | inl va => match eval_expr b with inl vb => inl (binop o va vb) | inr x => inr x end
      | inr x => inr x
      end
  | EUpdate prefix inc x =>
      match resolve x with
      | inl v =>
          if strict eng then inr TypeError
          else let old := to_number v in
               let new := (if inc then dadd else dsub) old (DFin 1) in
               inl (VNum (if prefix then new else old))
      | inr err => inr err
      end
  end.

(** [eval(s)]: the completion value of the script, [undefined] when it
    is empty. *)
Definition js_eval (s : string) : eresult jsval :=
  match tokenize (strict eng) s with
  | inl ts => match parse_script ts with
              | inl None => inl VUndef
              | inl (Some e) => eval_expr e
              | inr x => inr x
              end
  | inr x => inr x
  end.

End Eval.

End JsEval.
