(* ===== verification/JsEvalFacts.v ===== *)
(** * JsEvalFacts: the lexer's fuel, and what it makes of digits

    Lemmas on [JsEval]: every lexer step consumes input, so the fuel
    [length s + 1] of [tokenize] is enough and any larger fuel gives the
    same tokens ([lex_fuel]); the scanners read a string of digits as its
    value ([scan_radix_app], [digits_val_app]); and the tokens of the
    texts the calculator's theorems type: numbers, the [%] key, a double
    slash, a leading zero. *)

From S2P Require Import Prelude Json Scoring JsNumber JsEval.
From Stdlib Require Import QArith Ascii.
Import Double NumberToString DecimalLit JsLex JsParse JsEval.

Module JsEvalFacts.
Local Open Scope nat_scope.

(** ** Each lexer step consumes input *)

Lemma span_length p s a b : span p s = (a, b) -> String.length a + String.length b = String.length s.
Proof.
  revert a b. induction s as [|c s IH]; intros a b H; simpl in H.
  - by injection H as <- <-.
  - destruct (p c); [|by injection H as <- <-].
    destruct (span p s) as [a' b'] eqn:E. injection H as <- <-. simpl. by rewrite (IH a' b').
Qed.

Lemma span_first p c s a b : p c = true -> span p (String c s) = (a, b) -> String.length b < S (String.length s).
Proof.
  intros Hc H. pose proof (span_length _ _ _ _ H) as L. simpl in H. rewrite Hc in H.
  destruct (span p s) as [a' b'] eqn:E. injection H as <- <-. simpl in L. lia.
Qed.

Lemma skip_line_length s : String.length (skip_line s) <= String.length s.
Proof. induction s as [|c s IH]; simpl; [lia|]. destruct (line_terminator c); simpl; lia. Qed.

Lemma close_comment_length s r : close_comment s = inl r -> String.length r < String.length s.
Proof.
  induction s as [|c s IH]; simpl; [discriminate|]. intros H.
  destruct c as [[] [] [] [] [] [] [] []]; try (destruct (line_terminator _); [discriminate|]; specialize (IH H); lia).
  destruct s as [|c' s']; [discriminate|].
  destruct c' as [[] [] [] [] [] [] [] []]; try (destruct (line_terminator _); [discriminate|]; specialize (IH H); simpl in *; lia).
  injection H as <-. simpl. lia.
Qed.

Lemma regex_body_length s b r : regex_body s = inl (b, r) -> String.length r < String.length s.
Proof.
  revert b. induction s as [|c s IH]; intros b H; simpl in H; [discriminate|].
  assert (Hrec : (if line_terminator c then inr SyntaxError else if regex_char c then
     match regex_body s with inl (b0, r0) => inl (String c b0, r0) | inr e => inr e end else inr Unsupported)
     = inl (b, r) -> String.length r < S (String.length s)).
  { destruct (line_terminator c), (regex_char c); try discriminate.
    destruct (regex_body s) as [[b0 r0]|] eqn:E; [|discriminate]. intros [= <- <-].
    specialize (IH b0 eq_refl). lia. }
  destruct c as [[] [] [] [] [] [] [] []]; try (apply Hrec, H).
  injection H as <- <-. simpl. lia.
Qed.

Lemma scan_radix_length r v n s : String.length (scan_radix r v n s).2 <= String.length s.
Proof.
  revert v n. induction s as [|c s IH]; intros v n; simpl; [lia|].
  destruct (radix_digit r c); simpl; [specialize (IH (r * v + z)%Z (S n)); lia|lia].
Qed.

(** A scan that read at least one digit consumed it. *)
Lemma scan_radix_consumes r v n s :
  ((scan_radix r v n s).1.2 <> n)%nat -> String.length (scan_radix r v n s).2 < String.length s.
Proof.
  destruct s as [|c s]; simpl; [done|]. destruct (radix_digit r c); simpl; [|done].
  intros _. pose proof (scan_radix_length r (r * v + z)%Z (S n) s). lia.
Qed.

Lemma scan_exponent_length s ex r : scan_exponent s = Some (ex, r) -> String.length r <= String.length s.
Proof.
  unfold scan_exponent. destruct s as [|c s]; [by intros [= _ <-]|].
  case_bool_decide; [|by intros [= _ <-]].
  destruct (match s with String "+" t => _ | _ => _ end) as [sg t] eqn:Et.
  unfold scan_digits. destruct (scan_radix 10 0 0 t) as [[v k] r'] eqn:Es.
  destruct (k =? 0)%nat; [discriminate|]. intros [= _ <-].
  pose proof (scan_radix_length 10 0 0 t) as L. rewrite Es in L. simpl in L.
  assert (String.length t <= String.length s).
  { destruct s as [|c' s']; [by injection Et as _ <-|].
    destruct c' as [[] [] [] [] [] [] [] []]; injection Et as _ <-; simpl; lia. }
  simpl. lia.
Qed.

Lemma scan_decimal_length s mv r : scan_decimal s = Some (mv, r) -> String.length r < String.length s.
Proof.
  unfold scan_decimal, scan_digits.
  destruct (scan_radix 10 0 0 s) as [[iv ic] r1] eqn:E1.
  pose proof (scan_radix_length 10 0 0 s) as L1. pose proof (scan_radix_consumes 10 0 0 s) as C1.
  rewrite E1 in L1, C1. simpl in L1, C1.
  destruct (match r1 with String "." t => scan_radix 10 0 0 t | _ => _ end) as [[fv fc] r2] eqn:E2.
  assert (L2 : String.length r2 <= String.length r1 /\
               ((fc <> 0)%nat -> String.length r2 < String.length r1) /\
               (match r1 with String "." _ => true | _ => false end = true -> String.length r2 < String.length r1)).
  { destruct r1 as [|c t]; [injection E2 as <- <- <-; simpl; split; [lia|split; intros; [lia|discriminate]]|].
    destruct c as [[] [] [] [] [] [] [] []]; try (injection E2 as <- <- <-; simpl; split; [lia|split; intros; [lia|discriminate]]).
    pose proof (scan_radix_length 10 0 0 t) as L. pose proof (scan_radix_consumes 10 0 0 t) as C.
    rewrite E2 in L, C. simpl in L, C |- *. split; [lia|split; [intros; lia|intros; lia]]. }
  destruct L2 as (L2 & L2' & L2'').
  destruct (match r1 with String "." _ => true | _ => false end) eqn:Edot;
  destruct (ic =? 0)%nat eqn:Eic; destruct (fc =? 0)%nat eqn:Efc; simpl; try discriminate;
  destruct (scan_exponent r2) as [[ex r3]|] eqn:E3; try discriminate; intros [= _ <-];
  pose proof (scan_exponent_length _ _ _ E3);
  apply Nat.eqb_neq in Eic || apply Nat.eqb_eq in Eic; apply Nat.eqb_neq in Efc || apply Nat.eqb_eq in Efc;
  first [specialize (L2'' eq_refl) | specialize (C1 ltac:(lia))]; lia.
Qed.

Lemma lex_number_length strict s d r : lex_number strict s = inl (d, r) -> String.length r < String.length s.
Proof.
  unfold lex_number.
  assert (Hdec : forall t, match scan_decimal t with Some (mv, r0) => inl (round mv, r0) | None => inr SyntaxError end
                           = inl (d, r) -> String.length r < String.length t).
  { intros t. destruct (scan_decimal t) as [[mv r0]|] eqn:E; [|discriminate].
    intros [= _ <-]. by apply (scan_decimal_length t mv). }
  destruct s as [|c0 s0]; [apply Hdec|].
  destruct c0 as [[] [] [] [] [] [] [] []]; try apply Hdec.
  destruct s0 as [|c r0]; [apply Hdec|].
  destruct (radix_prefix c).
  - destruct (scan_radix z 0 0 r0) as [[v n] rest] eqn:E. destruct (n =? 0)%nat; [discriminate|].
    intros [= _ <-]. pose proof (scan_radix_length z 0 0 r0) as L. rewrite E in L. simpl in *. lia.
  - destruct (is_digit c); [|apply Hdec]. destruct strict; [discriminate|].
    destruct (span is_digit (String c r0)) as [ds rest] eqn:E.
    destruct (forallb _ _); [|apply Hdec].
    destruct (scan_radix 8 0 0 ds) as [[v n] rr]. intros [= _ <-].
    pose proof (span_length _ _ _ _ E). simpl in *. lia.
Qed.

Lemma next_token_length strict b s ot b' r :
  next_token strict b s = inl (ot, b', r) -> String.length r < String.length s.
Proof.
  unfold next_token. destruct s as [|c s]; [discriminate|].
  destruct (is_digit c || _).
  { destruct (lex_number strict (String c s)) as [[d r0]|] eqn:E; [|discriminate].
    destruct (after_number r0); [discriminate|]. intros [= _ _ <-]. by apply (lex_number_length strict _ d). }
  destruct (ident_start c) eqn:Hc.
  { destruct (span ident_part (String c s)) as [x r0] eqn:E. intros [= _ _ <-].
    apply (span_first ident_part c s x); [unfold ident_part; by rewrite Hc|exact E]. }
  intros H.
  destruct c as [[] [] [] [] [] [] [] []]; simpl in H; try discriminate H;
    (destruct s as [|c' s']; [destruct b; simpl in H; try discriminate H; injection H as _ _ <-; simpl; lia|]);
    destruct c' as [[] [] [] [] [] [] [] []]; cbn -[regex_body] in H; try (injection H as _ _ <-; simpl; lia).
  all: first
    [ injection H as _ _ <-; pose proof (skip_line_length s'); simpl; lia
    | destruct (close_comment s') as [r0|] eqn:E; [|discriminate H];
      injection H as _ _ <-; pose proof (close_comment_length _ _ E); simpl; lia
    | destruct b; [injection H as _ _ <-; simpl; lia|];
      destruct (regex_body _) as [[bd r0]|] eqn:E; [|discriminate H];
      pose proof (regex_body_length _ _ _ E);
      destruct (span ident_part r0) as [fl r1] eqn:E'; pose proof (span_length _ _ _ _ E');
      destruct (bool_decide (fl <> "")); [discriminate H|];
      destruct (pattern_ok false bd); [|discriminate H]; injection H as _ _ <-; simpl in *; lia ].
Qed.

(** ** Fuel *)

(** [lex] gives the same tokens with any fuel above the length. *)
Lemma lex_fuel strict f1 f2 b s :
  String.length s < f1 -> String.length s < f2 -> lex strict f1 b s = lex strict f2 b s.
Proof.
  revert f2 b s. induction f1 as [|f1 IH]; intros f2 b s H1 H2; [lia|].
  destruct f2 as [|f2]; [lia|]. simpl. destruct s as [|c s]; [done|].
  destruct (next_token strict b (String c s)) as [[[ot b'] r]|e] eqn:E; [|done].
  pose proof (next_token_length _ _ _ _ _ _ E). rewrite (IH f2); [done| |]; simpl in *; lia.
Qed.

(** The lexer at the fuel [tokenize] gives it. *)
Definition lexc (strict : bool) (b : bool) (s : string) : eresult (list token) :=
  lex strict (S (String.length s)) b s.

Lemma lexc_nil strict b : lexc strict b "" = inl [].
Proof. done. Qed.

Lemma lexc_step strict b s ot b' r :
  s <> "" -> next_token strict b s = inl (ot, b', r) ->
  lexc strict b s = match lexc strict b' r with inl ts => inl (option_list ot ++ ts) | inr e => inr e end.
Proof.
  intros Hs E. unfold lexc. destruct s as [|c s]; [done|]. cbn [lex]. rewrite E.
  pose proof (next_token_length _ _ _ _ _ _ E). rewrite (lex_fuel strict (String.length (String c s))
     (S (String.length r))); [done| |]; simpl in *; lia.
Qed.

Lemma tokenize_lexc strict s : tokenize strict s = lexc strict false s.
Proof. done. Qed.

(** ** Digits *)

#[local] Arguments radix_digit : simpl never.

(** Every character of [s] is a digit of base [r]. *)
Definition all_radix (r : Z) (s : string) : bool :=
  forallb (fun c => bool_decide (radix_digit r c <> None)) (String.list_ascii_of_string s).

(** [t] does not go on with a digit of base [r]. *)
Definition stops (r : Z) (t : string) : bool :=
  match t with String c _ => bool_decide (radix_digit r c = None) | EmptyString => true end.

(** The value of a string of digits of base [r]. *)
Definition digits_val (r : Z) (ds : string) : Z := (scan_radix r 0 0 ds).1.1.

Lemma scan_radix_all r v n ds :
  all_radix r ds = true -> (scan_radix r v n ds).2 = "".
Proof.
  revert v n. induction ds as [|c ds IH]; intros v n H; [done|]. simpl in H |- *.
  apply andb_true_iff in H as [Hc H]. case_bool_decide as Hd; [|done].
  destruct (radix_digit r c); [by apply IH|done].
Qed.

Lemma scan_radix_app r v n ds t :
  all_radix r ds = true -> stops r t = true ->
  scan_radix r v n (ds +:+ t) = ((scan_radix r v n ds).1, t).
Proof.
  revert v n. induction ds as [|c ds IH]; intros v n H Ht; simpl in H |- *.
  - destruct t as [|c t]; [done|]. simpl in Ht. case_bool_decide as Hc; [|done]. simpl. by rewrite Hc.
  - apply andb_true_iff in H as [Hc H]. case_bool_decide as Hd; [|done].
    destruct (radix_digit r c); [by apply IH|done].
Qed.

(** The scan from an accumulator [v]: [v] shifted by the digits. *)
Lemma scan_radix_val r v n ds :
  all_radix r ds = true ->
  (scan_radix r v n ds).1 = ((v * r ^ Z.of_nat (String.length ds) + digits_val r ds)%Z, (n + String.length ds)%nat).
Proof.
  revert v n. induction ds as [|c ds IH]; intros v n H; simpl in H |- *.
  - unfold digits_val. simpl. f_equal; lia.
  - apply andb_true_iff in H as [Hc H]. case_bool_decide as Hd; [|done].
    destruct (radix_digit r c) as [d|] eqn:Ed; [|done].
    assert (Hv : digits_val r (String c ds) = (d * r ^ Z.of_nat (String.length ds) + digits_val r ds)%Z).
    { unfold digits_val at 1. simpl. rewrite Ed, IH by exact H. simpl. lia. }
    rewrite IH, Hv by exact H. simpl. f_equal; [|lia].
    rewrite Nat2Z.inj_succ, Z.pow_succ_r by lia. ring.
Qed.

Lemma scan_radix_app_all r v n a b :
  all_radix r a = true ->
  scan_radix r v n (a +:+ b) = scan_radix r (scan_radix r v n a).1.1 (scan_radix r v n a).1.2 b.
Proof.
  revert v n. induction a as [|c a IH]; intros v n H; simpl in H |- *; [done|].
  apply andb_true_iff in H as [Hc H]. case_bool_decide as Hd; [|done].
  destruct (radix_digit r c); [by apply IH|done].
Qed.

Lemma digits_val_app r a b :
  all_radix r a = true -> all_radix r b = true ->
  digits_val r (a +:+ b) = (digits_val r a * r ^ Z.of_nat (String.length b) + digits_val r b)%Z.
Proof.
  intros Ha Hb. unfold digits_val at 1. rewrite scan_radix_app_all by done.
  rewrite (scan_radix_val r 0 0 a) by done. simpl. rewrite scan_radix_val by done. simpl. done.
Qed.

(** ** The texts of the calculator's keys *)

(** A decimal digit string without a leading zero. *)
Definition plain_digits (ds : string) : bool :=
  match ds with
  | String c _ => bool_decide (c <> "0"%char) && all_radix 10 ds
  | EmptyString => false
  end.

(** The keys [+ - * / %] (or nothing) follow. *)
Definition op_stop (t : string) : bool :=
  match t with
  | String c _ => bool_decide (c ∈ ["+"; "-"; "*"; "/"; "%"]%char)
  | EmptyString => true
  end.

Lemma op_stop_cases t :
  op_stop t = true ->
  t = "" \/ exists u, t = String "+" u \/ t = String "-" u \/ t = String "*" u \/ t = String "/" u \/ t = String "%" u.
Proof.
  destruct t as [|c u]; [by left|]. simpl. case_bool_decide as H; [|done]. intros _. right. exists u.
  rewrite !elem_of_cons, elem_of_nil in H. destruct_or! H; subst; naive_solver.
Qed.

Lemma op_stop_radix r t : (r <= 16)%Z -> op_stop t = true -> stops r t = true.
Proof.
  intros Hr Ht. destruct (op_stop_cases t Ht) as [->|[u Hu]]; [done|].
  destruct_or! Hu; subst; reflexivity.
Qed.

Lemma op_stop_after t : op_stop t = true -> after_number t = None.
Proof. intros Ht. destruct (op_stop_cases t Ht) as [->|[u Hu]]; [done|]. by destruct_or! Hu; subst. Qed.

Lemma scan_exponent_op t : op_stop t = true -> scan_exponent t = Some (0%Z, t).
Proof. intros Ht. destruct (op_stop_cases t Ht) as [->|[u Hu]]; [done|]. by destruct_or! Hu; subst. Qed.

Lemma all_radix_cons r c s : all_radix r (String c s) = bool_decide (radix_digit r c <> None) && all_radix r s.
Proof. done. Qed.

(** The mathematical value of [digits] read as a DecimalLiteral. *)
Lemma scan_decimal_digits ds t :
  ds <> "" -> all_radix 10 ds = true -> op_stop t = true ->
  scan_decimal (ds +:+ t) = Some (inject_Z (digits_val 10 ds), t).
Proof.
  intros Hne Hd Ht. unfold scan_decimal, scan_digits.
  rewrite scan_radix_app, scan_radix_val by (done || by apply op_stop_radix). simpl.
  assert (Hlen : (String.length ds =? 0)%nat = false) by (destruct ds; [done|reflexivity]).
  assert (Hq : forall X, (inject_Z X * pow10 (0 - Z.of_nat 0))%Q = inject_Z X).
  { intros X. change (pow10 (0 - Z.of_nat 0)) with (1 # 1)%Q. unfold inject_Z, Qmult. simpl. f_equal. ring. }
  destruct (op_stop_cases t Ht) as [->|[u Hu]];
    [|destruct_or! Hu; subst]; simpl; rewrite Hlen; simpl;
    rewrite ?scan_exponent_op by done; simpl; rewrite Hq; do 3 f_equal; change (10 ^ Z.of_nat 0)%Z with 1%Z; ring.
Qed.

Lemma lex_number_nonzero strict c r :
  c <> "0"%char ->
  lex_number strict (String c r) =
  match scan_decimal (String c r) with Some (mv, r0) => inl (round mv, r0) | None => inr SyntaxError end.
Proof. intros Hc. destruct c as [[] [] [] [] [] [] [] []]; try reflexivity. by contradict Hc. Qed.

Lemma next_token_plain strict b ds t :
  plain_digits ds = true -> op_stop t = true ->
  next_token strict b (ds +:+ t) = inl (Some (TNum (round (inject_Z (digits_val 10 ds)))), true, t).
Proof.
  intros Hp Ht. destruct ds as [|c ds']; [done|]. simpl in Hp.
  apply andb_true_iff in Hp as [Hc Hd]. apply bool_decide_eq_true in Hc.
  assert (Hdig : is_digit c = true) by (rewrite all_radix_cons in Hd; apply andb_true_iff in Hd as [Hdc _]; exact Hdc).
  unfold next_token. rewrite string_app_cons.
  cbv beta iota. rewrite Hdig. simpl orb. cbv iota beta.
  rewrite lex_number_nonzero by done. rewrite <- string_app_cons.
  rewrite scan_decimal_digits by done. by rewrite op_stop_after.
Qed.

Lemma lexc_plain strict b ds t :
  plain_digits ds = true -> op_stop t = true ->
  lexc strict b (ds +:+ t) =
  match lexc strict true t with inl ts => inl (TNum (round (inject_Z (digits_val 10 ds))) :: ts) | inr e => inr e end.
Proof.
  intros Hp Ht. erewrite lexc_step; [|destruct ds; done|by apply next_token_plain]. done.
Qed.

Lemma lexc_percent strict b t :
  lexc strict b (String "%" t) = match lexc strict false t with inl ts => inl (TPunct PPercent :: ts) | inr e => inr e end.
Proof. rewrite (lexc_step strict b _ (Some (TPunct PPercent)) false t); [done|done|reflexivity]. Qed.

(** A double slash opens a comment to the end of the line. *)
Lemma lexc_line_comment strict b t :
  lexc strict b (String "/" (String "/" t)) = lexc strict b (skip_line t).
Proof.
  rewrite (lexc_step strict b _ None b (skip_line t)); [|done|reflexivity]. simpl. by destruct (lexc _ _ _).
Qed.

Lemma skip_line_digits r t : all_radix r t = true -> (r <= 16)%Z -> skip_line t = "".
Proof.
  intros H Hr. induction t as [|c t IH]; [done|]. rewrite all_radix_cons in H.
  apply andb_true_iff in H as [Hc H]. apply bool_decide_eq_true in Hc. simpl.
  destruct (line_terminator c) eqn:E; [|by apply IH].
  exfalso. apply Hc. unfold line_terminator in E. case_bool_decide as Hl; [|done].
  by destruct Hl as [-> | ->].
Qed.

(** A digit of base 8 is one of [0-7], and is no radix prefix. *)
Lemma octal_digit c :
  radix_digit 8 c <> None ->
  bool_decide (c ∈ ["0"; "1"; "2"; "3"; "4"; "5"; "6"; "7"]%char) = true /\ radix_prefix c = None /\ is_digit c = true.
Proof. intros H. destruct c as [[] [] [] [] [] [] [] []]; try (by exfalso; apply H); done. Qed.

Lemma span_octal_app ds t :
  all_radix 8 ds = true -> op_stop t = true -> span is_digit (ds +:+ t) = (ds, t).
Proof.
  intros Hd Ht. induction ds as [|c ds IH].
  - destruct (op_stop_cases t Ht) as [->|[u Hu]]; [done|]. by destruct_or! Hu; subst.
  - rewrite all_radix_cons in Hd. apply andb_true_iff in Hd as [Hc Hd]. apply bool_decide_eq_true in Hc.
    destruct (octal_digit c Hc) as (_ & _ & Hdig). simpl. by rewrite Hdig, IH.
Qed.

Lemma octal_forallb ds :
  all_radix 8 ds = true ->
  forallb (fun d => bool_decide (d ∈ ["0"; "1"; "2"; "3"; "4"; "5"; "6"; "7"]%char)) (String.list_ascii_of_string ds) = true.
Proof.
  induction ds as [|c ds IH]; [done|]. rewrite all_radix_cons. intros H.
  apply andb_true_iff in H as [Hc H]. apply bool_decide_eq_true in Hc. simpl.
  rewrite (proj1 (octal_digit c Hc)). by apply IH.
Qed.

(** A [0] followed by octal digits: a LegacyOctalIntegerLiteral in
    sloppy code, a SyntaxError in strict code. *)
Lemma lexc_leading_zero strict b ds t :
  ds <> "" -> all_radix 8 ds = true -> op_stop t = true ->
  lexc strict b (String "0" (ds +:+ t)) =
  if strict then inr SyntaxError
  else match lexc strict true t with inl ts => inl (TNum (round (inject_Z (digits_val 8 ds))) :: ts) | inr e => inr e end.
Proof.
  intros Hne Hd Ht. destruct ds as [|c ds']; [done|].
  pose proof Hd as Hd'. rewrite all_radix_cons in Hd'. apply andb_true_iff in Hd' as [Hc _].
  apply bool_decide_eq_true in Hc. destruct (octal_digit c Hc) as (_ & Hpre & Hdig).
  assert (Hlex : lex_number strict (String "0" (String c ds' +:+ t)) =
                 if strict then inr SyntaxError else inl (round (inject_Z (digits_val 8 (String c ds'))), t)).
  { unfold lex_number. rewrite string_app_cons. cbv beta iota. rewrite Hpre, Hdig, <- string_app_cons.
    destruct strict; [done|]. rewrite span_octal_app, octal_forallb by done.
    unfold digits_val. destruct (scan_radix 8 0 0 (String c ds')) as [[v n] r]. done. }
  assert (Hnext : next_token strict b (String "0" (String c ds' +:+ t)) =
                  if strict then inr SyntaxError
                  else inl (Some (TNum (round (inject_Z (digits_val 8 (String c ds'))))), true, t)).
  { unfold next_token. cbv beta iota. change (is_digit "0"%char) with true. simpl orb. cbv beta iota.
    rewrite Hlex. destruct strict; [done|]. by rewrite op_stop_after. }
  destruct strict.
  - unfold lexc. cbn [lex]. by rewrite Hnext.
  - rewrite (lexc_step false b (String "0" (String c ds' +:+ t)) _ _ _ (ltac:(done)) Hnext). done.
Qed.

(** [eval] of a text the lexer reads as [ts]. *)
Lemma js_eval_tokens eng s ts :
  lexc (strict eng) false s = inl ts ->
  js_eval eng s = match parse_script ts with
                  | inl None => inl VUndef
                  | inl (Some e) => eval_expr eng e
                  | inr x => inr x
                  end.
Proof. intros H. unfold js_eval. by rewrite tokenize_lexc, H. Qed.

End JsEvalFacts.
