(* ===== verification/ToStringFacts.v ===== *)
(** * ToStringFacts: [String(x)] read back by [eval]

    The calculator puts [String(res)] in its input, so the next [=]
    evaluates the text [Number::toString] printed.  This file proves
    that the text evaluates to the same number ([eval_number_text]): the
    rounding [Double.round] depends only on the rational it rounds and
    keeps every value within a relative [2^-54] of a double on that
    double ([round_near]); hence seventeen digits always suffice for the
    digit search of [Number::toString] ([search_17]); and each of its
    four layouts (integer, fixed point, leading zeros, exponent) is one
    numeric literal whose value is the one the search checked. *)

From S2P Require Import Prelude Json Scoring JsNumber JsEval JsEvalFacts.
From Stdlib Require Import QArith Qround Qabs Qpower Lqa Ascii DecimalString.
Import Binary64 Double NumberToString DecimalLit JsLex JsParse JsEval JsEvalFacts.

Module RoundFacts.
Local Open Scope Z_scope.

(** ** Rounding an integer quotient *)

Lemma div_round_even_unique N D m :
  0 < D -> 2 * Z.abs (N - m * D) < D -> div_round_even N D = m.
Proof.
  intros HD H. unfold div_round_even.
  pose proof (Z.div_mod N D ltac:(lia)) as Hdm. pose proof (Z.mod_pos_bound N D HD) as Hr.
  set (q := N / D) in *. set (r := N mod D) in *.
  assert (Hq : m = q \/ m = q + 1).
  { destruct (Z.le_gt_cases m q) as [Hm|Hm].
    - destruct (Z.eq_dec m q) as [->|Hne]; [by left|]. exfalso.
      assert (q - m >= 1) by lia. nia.
    - destruct (Z.eq_dec m (q + 1)) as [->|Hne]; [by right|]. exfalso.
      assert (m - q >= 2) by lia. nia. }
  destruct Hq as [->| ->]; destruct (Z.compare_spec (2 * r) D); try nia.
Qed.

Lemma div_round_even_scale N D c :
  0 < D -> 0 < c -> div_round_even (N * c) (D * c) = div_round_even N D.
Proof.
  intros HD Hc. unfold div_round_even.
  rewrite Z.div_mul_cancel_r, Z.mul_mod_distr_r by lia.
  replace (2 * (N mod D * c)) with (2 * (N mod D) * c) by ring.
  by rewrite <- Zmult_compare_compat_r by lia.
Qed.

(** [div_round_even] of equal fractions. *)
Lemma div_round_even_cross N D N' D' :
  0 < D -> 0 < D' -> N * D' = N' * D -> div_round_even N D = div_round_even N' D'.
Proof.
  intros HD HD' H.
  rewrite <- (div_round_even_scale N D D'), <- (div_round_even_scale N' D' D) by done.
  rewrite H. f_equal. ring.
Qed.

Lemma div_round_even_near N D :
  0 < D -> 2 * Z.abs (N - div_round_even N D * D) <= D.
Proof.
  intros HD. unfold div_round_even.
  pose proof (Z.div_mod N D ltac:(lia)) as Hdm. pose proof (Z.mod_pos_bound N D HD) as Hr.
  destruct (Z.compare_spec (2 * (N mod D)) D); [destruct (Z.even _)|..]; nia.
Qed.

(** ** Powers of two as rationals *)

Local Open Scope Q_scope.

(** Push [inject_Z] through the ring operations. *)
Ltac push_inject :=
  unfold Z.sub in *;
  repeat first [rewrite inject_Z_mult in * | rewrite inject_Z_plus in * | rewrite inject_Z_opp in *];
  change (inject_Z 2) with 2 in *.

Lemma inject_Z_pos z : (0 < z)%Z -> 0 < inject_Z z.
Proof. intros H. change 0 with (inject_Z 0). by rewrite <- Zlt_Qlt. Qed.

Lemma p2_pos e : 0 < 2 ^ e.
Proof. apply Qpower_0_lt. lra. Qed.

Lemma p2_add e f : 2 ^ (e + f) == 2 ^ e * 2 ^ f.
Proof. apply Qpower_plus. discriminate. Qed.

Lemma p2_Z e : (0 <= e)%Z -> 2 ^ e == inject_Z (2 ^ e).
Proof. intros He. by rewrite Zpower_Qpower. Qed.

Lemma p2_succ e : 2 ^ (e + 1) == 2 * 2 ^ e.
Proof. rewrite p2_add. change (2 ^ 1) with 2. ring. Qed.

Lemma p2_opp e : 2 ^ (- e) * 2 ^ e == 1.
Proof. rewrite <- p2_add. by replace (- e + e)%Z with 0%Z by lia. Qed.

Lemma p2_le e f : (e <= f)%Z -> 2 ^ e <= 2 ^ f.
Proof. intros H. apply Qpower_le_compat_l; [done|lra]. Qed.

Lemma scale_cases a b e :
  ((0 <= e)%Z /\ scale a b e = ((a * 2 ^ e)%Z, b)) \/ ((e < 0)%Z /\ scale a b e = (a, (b * 2 ^ (- e))%Z)).
Proof. unfold scale. destruct (Z.leb_spec 0 e); [left|right]; split; done || lia. Qed.

(** [scale] computes the fraction [a / b * 2^e]. *)
Lemma scale_value a b e :
  (0 < b)%Z ->
  let '(N, D) := scale a b e in (0 < D)%Z /\ inject_Z N / inject_Z D == inject_Z a / inject_Z b * 2 ^ e.
Proof.
  intros Hb. pose proof (p2_opp e). pose proof (p2_pos e). pose proof (p2_pos (- e)).
  pose proof (inject_Z_pos b Hb) as Hb'.
  destruct (scale_cases a b e) as [[He ->]|[He ->]]; split.
  - done.
  - rewrite inject_Z_mult, <- p2_Z by done. field. lra.
  - pose proof (Z.pow_pos_nonneg 2 (- e)). lia.
  - rewrite inject_Z_mult, <- p2_Z by lia.
    assert (E : 2 ^ e == / 2 ^ (- e)) by (field_simplify_eq; lra).
    rewrite E. field. lra.
Qed.

(** [div_round_even] on a fraction within a half of [m] gives [m]. *)
Lemma div_round_even_q N D m :
  (0 < D)%Z -> Qabs (inject_Z N / inject_Z D - inject_Z m) < 1 # 2 -> div_round_even N D = m.
Proof.
  intros HD H. apply div_round_even_unique; [done|].
  apply Qabs_Qlt_condition in H.
  pose proof (inject_Z_pos D HD) as HD'.
  assert (E : (inject_Z N / inject_Z D - inject_Z m) * inject_Z D == inject_Z N - inject_Z m * inject_Z D)
    by (field; lra).
  destruct H as [H1 H2].
  assert (inject_Z (2 * (N - m * D)) < inject_Z D)
    by (push_inject; nra).
  assert (inject_Z (- D) < inject_Z (2 * (N - m * D)))
    by (push_inject; nra).
  rewrite <- Zlt_Qlt in *. lia.
Qed.


(** Equal fractions of integers. *)
Lemma frac_eq a b a' b' :
  (0 < b)%Z -> (0 < b')%Z -> (a * b' = a' * b)%Z -> inject_Z a / inject_Z b == inject_Z a' / inject_Z b'.
Proof.
  intros Hb Hb' H. pose proof (inject_Z_pos b Hb). pose proof (inject_Z_pos b' Hb').
  field_simplify_eq; [|lra]. rewrite <- !inject_Z_mult. apply inject_Z_injective. lia.
Qed.

Lemma frac_cross a b a' b' :
  (0 < b)%Z -> (0 < b')%Z -> inject_Z a / inject_Z b == inject_Z a' / inject_Z b' -> (a * b' = a' * b)%Z.
Proof.
  intros Hb Hb' H. pose proof (inject_Z_pos b Hb). pose proof (inject_Z_pos b' Hb').
  apply inject_Z_injective. rewrite !inject_Z_mult.
  field_simplify_eq in H; [|lra..]. lra.
Qed.

(** ** The binade *)

(** [y * 2^E] lies in [[2^52, 2^53)] ([2^52 = 4503599627370496]). *)
Definition binade (y : Q) (E : Z) : Prop := 4503599627370496 <= y * 2 ^ E < 9007199254740992.

Lemma binade_unique y E E' : binade y E -> binade y E' -> E = E'.
Proof.
  unfold binade. intros H H'.
  assert (Hlt : forall E E', binade y E -> binade y E' -> (E < E')%Z -> False).
  { clear. unfold binade. intros E E' [H1 H2] [H1' H2'] Hlt.
    pose proof (p2_pos E). pose proof (p2_le (E + 1) E' ltac:(lia)). rewrite p2_succ in *.
    assert (0 < y) by nra. nra. }
  destruct (Z.lt_total E E') as [?|[?|?]]; [exfalso; eauto|done|exfalso; eauto].
Qed.

(** [binade_exp] finds the binade of every positive fraction. *)
Lemma binade_exp_spec a b :
  (0 < a)%Z -> (0 < b)%Z -> binade (inject_Z a / inject_Z b) (binade_exp a b).
Proof.
  intros Ha Hb.
  pose proof (Z.log2_spec a Ha) as [Ha1 Ha2]. pose proof (Z.log2_spec b Hb) as [Hb1 Hb2].
  pose proof (Z.log2_nonneg a). pose proof (Z.log2_nonneg b).
  rewrite <- Z.add_1_r in Ha2, Hb2.
  rewrite Zle_Qle, <- p2_Z in Ha1, Hb1 by lia. rewrite Zlt_Qlt, <- p2_Z, p2_succ in Ha2, Hb2 by lia.
  unfold binade_exp. set (la := Z.log2 a) in *. set (lb := Z.log2 b) in *.
  set (e0 := (52 - (la - lb))%Z).
  pose proof (scale_value a b e0 Hb) as HN. destruct (scale a b e0) as [N D]. destruct HN as [HD HN].
  pose proof (inject_Z_pos b Hb). pose proof (inject_Z_pos D HD). pose proof (p2_pos e0). pose proof (p2_pos lb).
  assert (Hl : 2 ^ la * 2 ^ e0 == 4503599627370496 * 2 ^ lb).
  { rewrite <- !p2_add. replace (la + e0)%Z with (52 + lb)%Z by lia. by rewrite p2_add. }
  set (Y := inject_Z a / inject_Z b * 2 ^ e0) in *.
  assert (HY : Y * inject_Z b == inject_Z a * 2 ^ e0) by (unfold Y; field; lra).
  assert (HYlo : 2251799813685248 < Y) by nra.
  assert (HYhi : Y < 9007199254740992) by nra.
  unfold binade. destruct (Z.ltb_spec N (2 ^ 52 * D)) as [Hlt|Hge].
  - rewrite p2_succ. rewrite Zlt_Qlt, inject_Z_mult in Hlt.
    assert (Y < 4503599627370496).
    { rewrite <- HN. apply Qlt_shift_div_r; [done|]. apply Hlt. }
    unfold Y in *. lra.
  - rewrite Zle_Qle, inject_Z_mult in Hge.
    assert (4503599627370496 <= Y).
    { rewrite <- HN. apply Qle_shift_div_l; [done|]. apply Hge. }
    unfold Y in *. lra.
Qed.

(** Hence [binade_exp] depends only on the fraction. *)
Lemma binade_exp_Qeq a b a' b' :
  (0 < a)%Z -> (0 < b)%Z -> (0 < a')%Z -> (0 < b')%Z ->
  inject_Z a / inject_Z b == inject_Z a' / inject_Z b' -> binade_exp a b = binade_exp a' b'.
Proof.
  intros Ha Hb Ha' Hb' H. apply (binade_unique (inject_Z a / inject_Z b)).
  - by apply binade_exp_spec.
  - unfold binade. rewrite H. by apply binade_exp_spec.
Qed.

Lemma div_round_even_Qeq N D N' D' :
  (0 < D)%Z -> (0 < D')%Z -> inject_Z N / inject_Z D == inject_Z N' / inject_Z D' ->
  div_round_even N D = div_round_even N' D'.
Proof. intros HD HD' H. apply div_round_even_cross; [done..|]. by apply frac_cross. Qed.

Lemma div_round_even_0 D : (0 < D)%Z -> div_round_even 0 D = 0%Z.
Proof.
  intros HD. unfold div_round_even. rewrite Zdiv_0_l, Zmod_0_l.
  by destruct (Z.compare_spec (2 * 0) D); [lia| |lia].
Qed.

(** ** [round] depends only on the rational it rounds *)

Lemma round_parts_Qeq a b a' b' :
  (0 < a)%Z -> (0 < b)%Z -> (0 < a')%Z -> (0 < b')%Z ->
  inject_Z a / inject_Z b == inject_Z a' / inject_Z b' -> round_parts a b = round_parts a' b'.
Proof.
  intros Ha Hb Ha' Hb' H. unfold round_parts. rewrite (binade_exp_Qeq a b a' b') by done.
  set (e := Z.min _ _).
  pose proof (scale_value a b e Hb) as HN. pose proof (scale_value a' b' e Hb') as HN'.
  destruct (scale a b e) as [N D], (scale a' b' e) as [N' D'].
  destruct HN as [HD HN], HN' as [HD' HN']. f_equal.
  apply div_round_even_Qeq; [done|done|]. by rewrite HN, HN', H.
Qed.

Lemma round_parts_0 b : (0 < b)%Z -> (round_parts 0 b).1 = 0%Z.
Proof.
  intros Hb. unfold round_parts. set (e := Z.min _ _).
  pose proof (scale_value 0 b e Hb) as HN.
  destruct (scale_cases 0 b e) as [[_ E]|[_ E]]; rewrite E in HN |- *; destruct HN as [HD _]; simpl;
    [rewrite Z.mul_0_l|]; by apply div_round_even_0.
Qed.

Lemma Qabs_frac x : inject_Z (Z.abs (Qnum x)) / inject_Z (Zpos (Qden x)) == Qabs x.
Proof. destruct x as [n d]. simpl. by rewrite Qmake_Qdiv. Qed.

Lemma round_Qeq x y : x == y -> round x = round y.
Proof.
  intros H. unfold round.
  pose proof (Pos2Z.is_pos (Qden x)). pose proof (Pos2Z.is_pos (Qden y)).
  assert (Hs : (Qnum x <? 0)%Z = (Qnum y <? 0)%Z).
  { unfold Qeq in H. destruct (Z.ltb_spec (Qnum x) 0), (Z.ltb_spec (Qnum y) 0); nia. }
  rewrite Hs. destruct (Z.eq_dec (Qnum x) 0) as [Hx|Hx].
  - assert (Hy : Qnum y = 0%Z) by (unfold Qeq in H; rewrite Hx in H; nia).
    rewrite Hx, Hy. change (Z.abs 0) with 0%Z. pose proof (round_parts_0 (Zpos (Qden x)) ltac:(lia)).
    pose proof (round_parts_0 (Zpos (Qden y)) ltac:(lia)).
    destruct (round_parts 0 (Zpos (Qden x))) as [m1 e1], (round_parts 0 (Zpos (Qden y))) as [m2 e2].
    simpl in *. by subst.
  - assert (Hy : Qnum y <> 0%Z) by (unfold Qeq in H; nia).
    rewrite (round_parts_Qeq _ _ (Z.abs (Qnum y)) (Zpos (Qden y))); [done|lia..|].
    by rewrite !Qabs_frac, H.
Qed.

#[global] Instance round_proper : Proper (Qeq ==> eq) round.
Proof. intros x y H. by apply round_Qeq. Qed.

(** ** The nearest double to a positive rational *)

Lemma ldexp_neg_value m e : ldexp_neg m e == inject_Z m * 2 ^ (- e).
Proof.
  unfold ldexp_neg. pose proof (p2_opp e). pose proof (p2_pos e).
  destruct (Z.leb_spec 0 e) as [He|He].
  - assert (Hp : (0 < 2 ^ e)%Z) by (apply Z.pow_pos_nonneg; lia).
    rewrite Qmake_Qdiv, Z2Pos.id, <- p2_Z by done. field_simplify_eq; [|lra]. rewrite <- Qmult_assoc, (Qmult_comm (2 ^ e)), H. ring.
  - rewrite inject_Z_mult, <- p2_Z by lia. reflexivity.
Qed.

(** The double of significand [m] and exponent [e], as [round] builds
    it for a positive rational. *)
Definition rounded (m e : Z) : dbl :=
  if (m =? 0)%Z then DZero false else if overflows m e then DInf false else DFin (Qred (ldexp_neg m e)).

Lemma Qnum_pos y : 0 < y -> (0 < Qnum y)%Z.
Proof. destruct y as [n d]. unfold Qlt. simpl. lia. Qed.

Lemma Qnum_frac y : inject_Z (Qnum y) / inject_Z (Zpos (Qden y)) == y.
Proof. destruct y. simpl. by rewrite Qmake_Qdiv. Qed.

(** [round y] for [y > 0] in the binade [E]: the integer [m] within a
    half of [y * 2^e], [e] the binade exponent capped at [emin]. *)
Lemma round_pos y E m :
  0 < y -> binade y E -> Qabs (y * 2 ^ Z.min E emin - inject_Z m) < 1 # 2 ->
  round y = rounded m (Z.min E emin).
Proof.
  intros Hy HE Hm. unfold round. pose proof (Qnum_pos y Hy) as Hn.
  rewrite (proj2 (Z.ltb_ge _ _)), Z.abs_eq by lia.
  assert (HE' : binade_exp (Qnum y) (Zpos (Qden y)) = E).
  { apply (binade_unique (inject_Z (Qnum y) / inject_Z (Zpos (Qden y)))).
    - apply binade_exp_spec; lia.
    - unfold binade. by rewrite Qnum_frac. }
  unfold round_parts. rewrite HE'. set (e := Z.min E emin) in *.
  pose proof (scale_value (Qnum y) (Zpos (Qden y)) e ltac:(lia)) as HN.
  destruct (scale _ _ e) as [N D]. destruct HN as [HD HN].
  rewrite (div_round_even_q N D m); [done|done|]. by rewrite HN, Qnum_frac.
Qed.

(** The significand [2^53] one binade up is the same double as [2^52]. *)
Lemma overflows_double E : overflows (2 ^ 53) (E + 1) = overflows (2 ^ 52) E.
Proof.
  unfold overflows. destruct (Z.ltb_spec (E + 1) 0), (Z.ltb_spec E 0); try done; try lia.
  - replace (- E)%Z with (- (E + 1) + 1)%Z by lia. rewrite Z.pow_add_r by lia. f_equal. ring.
  - by replace E with (-1)%Z by lia.
Qed.

Lemma rounded_double E : rounded (2 ^ 53) (E + 1) = rounded (2 ^ 52) E.
Proof.
  unfold rounded. rewrite overflows_double. simpl. destruct (overflows _ _); [done|].
  f_equal. apply Qred_complete. rewrite !ldexp_neg_value.
  replace (- (E + 1))%Z with (- E + -1)%Z by lia. rewrite p2_add. change (2 ^ (-1)) with (1 # 2).
  assert (inject_Z (2 ^ 53) == 2 * inject_Z (2 ^ 52)) as -> by reflexivity. ring.
Qed.

(** A positive double [q] is an integer [m] times [2^-e], [e] the
    exponent of its binade [E] capped at [emin]. *)
Lemma double_parts q :
  0 < q -> round q = DFin q -> exists E m, binade q E /\ q * 2 ^ Z.min E emin == inject_Z m.
Proof.
  intros Hq H. pose proof (Qnum_pos q Hq) as Hn.
  pose proof (binade_exp_spec _ _ Hn (Pos2Z.is_pos (Qden q))) as HE. unfold binade in HE. rewrite Qnum_frac in HE.
  exists (binade_exp (Qnum q) (Zpos (Qden q))).
  unfold round in H. rewrite (proj2 (Z.ltb_ge _ _)), Z.abs_eq in H by lia.
  unfold round_parts in H. set (e := Z.min _ emin) in *.
  destruct (scale _ _ e) as [N D]. set (m := div_round_even N D) in *.
  exists m. split; [done|].
  destruct (m =? 0)%Z; [discriminate|]. destruct (overflows m e); [discriminate|].
  injection H as Hq'. rewrite <- Hq', Qred_correct, ldexp_neg_value, <- Qmult_assoc, p2_opp. ring.
Qed.

Lemma Z_of_Q_half z k : inject_Z z < inject_Z k + (1 # 2) -> (z <= k)%Z.
Proof.
  intros H. destruct (Z.le_gt_cases z k) as [?|Hk]; [done|].
  assert (Hk' : inject_Z (k + 1) <= inject_Z z) by (rewrite <- Zle_Qle; lia).
  rewrite inject_Z_plus in Hk'. change (inject_Z 1) with 1 in Hk'. lra.
Qed.

(** ** Values near a double round to it *)

(** [2^-54]: a value within this relative distance of a positive double
    rounds to it. *)
Definition eps54 : Q := 1 # 18014398509481984.

Section Near.
Variables (q y : Q) (E m : Z).
Hypothesis Hq : 0 < q.
Hypothesis HE : binade q E.
Hypothesis Hm : q * 2 ^ Z.min E emin == inject_Z m.
Hypothesis Hy : Qabs (y - q) < q * eps54.

Lemma near_scaled f : Qabs (y * 2 ^ f - q * 2 ^ f) < q * 2 ^ f * eps54.
Proof.
  pose proof (p2_pos f). pose proof (proj1 (Qabs_Qlt_condition _ _) Hy) as [Hl Hu].
  apply Qabs_Qlt_condition. unfold eps54 in *. split; nra.
Qed.

Lemma near_err : Qabs (y * 2 ^ Z.min E emin - inject_Z m) < 1 # 2.
Proof.
  pose proof (near_scaled (Z.min E emin)) as H. rewrite Hm in H.
  pose proof (p2_le _ _ (Z.le_min_l E emin)). unfold binade in HE.
  assert (inject_Z m <= q * 2 ^ E) by (rewrite <- Hm; nra).
  apply Qabs_Qlt_condition in H as [Ha Hb]. apply Qabs_Qlt_condition.
  unfold eps54 in *. split; lra.
Qed.

Lemma near_round : round y = rounded m (Z.min E emin).
Proof.
  pose proof near_err as Herr. pose proof (near_scaled E) as HsE.
  apply Qabs_Qlt_condition in HsE as [Hs1 Hs2].
  pose proof (Hy) as Hy'. apply Qabs_Qlt_condition in Hy' as [Hy1 Hy2].
  assert (Hy0 : 0 < y) by (unfold eps54 in *; lra).
  pose proof (p2_pos E). pose proof (p2_succ E). pose proof (p2_succ (E - 1)) as HE1.
  replace (E - 1 + 1)%Z with E in HE1 by lia. pose proof (p2_pos (E - 1)).
  pose proof HE as [HE1' HE2']. unfold eps54 in *.
  destruct (Qlt_le_dec (y * 2 ^ E) 4503599627370496) as [Hlo|Hlo];
    [|destruct (Qlt_le_dec (y * 2 ^ E) 9007199254740992) as [Hhi|Hhi]].
  - (* [y] one binade down *)
    destruct (Z.le_gt_cases emin E) as [HEm|HEm].
    + replace (Z.min E emin) with (Z.min (E + 1) emin) by lia.
      apply round_pos; [done|unfold binade; nra|]. by replace (Z.min (E + 1) emin) with (Z.min E emin) by lia.
    + rewrite Z.min_l in Hm, Herr |- * by lia.
      assert (Hm2 : m = (2 ^ 52)%Z).
      { apply Z.le_antisymm.
        - apply Z_of_Q_half. apply Qabs_Qlt_condition in Herr. change (inject_Z (2 ^ 52)) with 4503599627370496. lra.
        - rewrite Zle_Qle, <- Hm. change (inject_Z (2 ^ 52)) with 4503599627370496. lra. }
      subst m. rewrite <- rounded_double.
      rewrite <- (Z.min_l (E + 1) emin) by lia. apply round_pos; [done|unfold binade; nra|].
      rewrite Z.min_l by lia. apply Qabs_Qlt_condition.
      change (inject_Z (2 ^ 53)) with 9007199254740992. change (inject_Z (2 ^ 52)) with 4503599627370496 in Hm.
      split; nra.
  - by apply round_pos.
  - (* [y] one binade up *)
    destruct (Z.le_gt_cases E emin) as [HEm|HEm].
    + exfalso. rewrite Z.min_l in Hm, Herr by lia.
      assert (Hm53 : (m + 1 <= 2 ^ 53)%Z).
      { rewrite Z.add_1_r. apply Zlt_le_succ. rewrite Zlt_Qlt, <- Hm. change (inject_Z (2 ^ 53)) with 9007199254740992. lra. }
      rewrite Zle_Qle, inject_Z_plus in Hm53. change (inject_Z (2 ^ 53)) with 9007199254740992 in Hm53.
      apply Qabs_Qlt_condition in Herr. change (inject_Z 1) with 1 in Hm53. lra.
    + replace (Z.min E emin) with (Z.min (E - 1) emin) by lia.
      apply round_pos; [done|unfold binade; nra|]. by replace (Z.min (E - 1) emin) with (Z.min E emin) by lia.
Qed.

End Near.

(** A value within a relative [2^-54] of a positive double rounds to
    that double. *)
Lemma round_near q y : 0 < q -> round q = DFin q -> Qabs (y - q) < q * eps54 -> round y = DFin q.
Proof.
  intros Hq Hr Hy. destruct (double_parts q Hq Hr) as (E & m & HE & Hm).
  rewrite <- Hr, (near_round q y E m) by done. symmetry. apply round_pos; [done..|].
  rewrite Hm. unfold Qminus. rewrite Qplus_opp_r. reflexivity.
Qed.

End RoundFacts.

(** ** The digits [js_int_string] writes *)

Module DigitFacts.
Local Open Scope Z_scope.
#[local] Arguments radix_digit : simpl never.

Lemma radix_digit_range r c d : radix_digit r c = Some d -> 0 <= d < r.
Proof.
  unfold radix_digit. repeat case_bool_decide; try done;
    match goal with |- context [(?x <? r)%Z] => destruct (Z.ltb_spec x r) end; intros [= <-]; lia.
Qed.

Lemma radix_digit_zero c : radix_digit 10 c = Some 0 -> c = "0"%char.
Proof. intros H. destruct c as [[] [] [] [] [] [] [] []]; vm_compute in H; congruence. Qed.

Lemma digits_val_cons c ds d :
  radix_digit 10 c = Some d -> all_radix 10 ds = true ->
  digits_val 10 (String c ds) = d * 10 ^ Z.of_nat (String.length ds) + digits_val 10 ds.
Proof.
  intros Hc Hd. unfold digits_val at 1. simpl. rewrite Hc, scan_radix_val by done. simpl. lia.
Qed.

Lemma digits_val_bound ds :
  all_radix 10 ds = true -> 0 <= digits_val 10 ds < 10 ^ Z.of_nat (String.length ds).
Proof.
  induction ds as [|c ds IH]; intros H; [done|]. rewrite all_radix_cons in H.
  apply andb_true_iff in H as [Hc H]. apply bool_decide_eq_true in Hc.
  destruct (radix_digit 10 c) as [d|] eqn:Ed; [|done].
  pose proof (radix_digit_range _ _ _ Ed). rewrite (digits_val_cons c ds d) by done.
  specialize (IH H). simpl String.length. rewrite Nat2Z.inj_succ, Z.pow_succ_r by lia. nia.
Qed.

(** A digit string without a leading zero of [L] digits is a number of
    [L] digits. *)
Lemma plain_digits_bound ds :
  plain_digits ds = true ->
  10 ^ (Z.of_nat (String.length ds) - 1) <= digits_val 10 ds < 10 ^ Z.of_nat (String.length ds).
Proof.
  destruct ds as [|c ds]; [done|]. intros H. simpl in H. apply andb_true_iff in H as [Hc H].
  apply bool_decide_eq_true in Hc. pose proof (digits_val_bound _ H) as Hb.
  rewrite all_radix_cons in H. apply andb_true_iff in H as [Hd H]. apply bool_decide_eq_true in Hd.
  destruct (radix_digit 10 c) as [d|] eqn:Ed; [|done].
  pose proof (radix_digit_range _ _ _ Ed). assert (d <> 0) by (intros ->; by apply Hc, radix_digit_zero).
  rewrite (digits_val_cons c ds d) in * by done. pose proof (digits_val_bound _ H).
  simpl String.length. rewrite Nat2Z.inj_succ.
  replace (Z.succ (Z.of_nat (String.length ds)) - 1) with (Z.of_nat (String.length ds)) by lia.
  rewrite Z.pow_succ_r by lia. split; nia.
Qed.

Lemma uint_all_radix d : all_radix 10 (NilEmpty.string_of_uint d) = true.
Proof. induction d; [done|..]; cbn [NilEmpty.string_of_uint]; by rewrite all_radix_cons, IHd. Qed.

Lemma uint_scan v n d : (scan_radix 10 v n (NilEmpty.string_of_uint d)).1.1 = uval v d.
Proof.
  revert v n. induction d; intros v n; [done|..]; cbn [NilEmpty.string_of_uint scan_radix uval];
    unfold radix_digit; simpl; rewrite IHd;
    match goal with |- context [Z.of_nat (nat_of_ascii ?c) - 48] =>
      let w := eval vm_compute in (Z.of_nat (nat_of_ascii c) - 48) in change (Z.of_nat (nat_of_ascii c) - 48) with w end;
    f_equal; lia.
Qed.

Lemma js_int_string_plain p : plain_digits (js_int_string (Zpos p)) = true.
Proof.
  unfold js_int_string. simpl. pose proof (to_uint_lead p) as Hl. pose proof (uint_all_radix (Pos.to_uint p)) as Ha.
  destruct (Pos.to_uint p); try done; simpl in Ha |- *; by rewrite Ha.
Qed.

Lemma js_int_string_val p : digits_val 10 (js_int_string (Zpos p)) = Zpos p.
Proof. unfold digits_val, js_int_string. simpl. by rewrite uint_scan, uval_to_uint. Qed.

(** [ndigits s] is the number of digits of [s > 0]. *)
Lemma ndigits_spec s : 0 < s -> 10 ^ (ndigits s - 1) <= s < 10 ^ ndigits s.
Proof.
  intros Hs. destruct s as [|p|p]; try lia. unfold ndigits.
  pose proof (plain_digits_bound _ (js_int_string_plain p)) as H. by rewrite js_int_string_val in H.
Qed.

Lemma ndigits_pos s : 0 < s -> 1 <= ndigits s.
Proof.
  intros Hs. pose proof (ndigits_spec s Hs) as [_ H]. assert (0 <= ndigits s) by (unfold ndigits; lia).
  destruct (Z.eq_dec (ndigits s) 0) as [E|]; [rewrite E in H; simpl in H; lia|lia].
Qed.

Lemma ndigits_unique s k : 10 ^ (k - 1) <= s < 10 ^ k -> 1 <= k -> ndigits s = k.
Proof.
  intros [H1 H2] Hk. assert (Hs : 0 < s) by (pose proof (Z.pow_pos_nonneg 10 (k - 1) ltac:(lia) ltac:(lia)); lia).
  pose proof (ndigits_spec s Hs) as [H3 H4]. pose proof (ndigits_pos s Hs).
  destruct (Z.lt_total (ndigits s) k) as [Hlt|[Heq|Hgt]]; [exfalso| done |exfalso].
  - pose proof (Z.pow_le_mono_r 10 (ndigits s) (k - 1) ltac:(lia) ltac:(lia)). lia.
  - pose proof (Z.pow_le_mono_r 10 k (ndigits s - 1) ltac:(lia) ltac:(lia)). lia.
Qed.

End DigitFacts.

(** ** The digit search of [Number::toString] *)

Module SearchFacts.
Import RoundFacts DigitFacts.
Local Open Scope Q_scope.

Lemma p10_pos k : 0 < 10 ^ k.
Proof. apply Qpower_0_lt. lra. Qed.

Lemma p10_add j k : 10 ^ (j + k) == 10 ^ j * 10 ^ k.
Proof. apply Qpower_plus. discriminate. Qed.

Lemma p10_Z k : (0 <= k)%Z -> 10 ^ k == inject_Z (10 ^ k).
Proof. intros Hk. by rewrite Zpower_Qpower. Qed.

Lemma p10_lt j k : (j < k)%Z -> 10 ^ j < 10 ^ k.
Proof. intros H. apply Qpower_lt_compat_l; [done|lra]. Qed.

Lemma p10_le j k : (j <= k)%Z -> 10 ^ j <= 10 ^ k.
Proof. intros H. apply Qpower_le_compat_l; [done|lra]. Qed.

Lemma p10_opp k : 10 ^ (- k) * 10 ^ k == 1.
Proof. rewrite <- p10_add. by replace (- k + k)%Z with 0%Z by lia. Qed.

Lemma pow10_Q k : NumberToString.pow10 k == 10 ^ k.
Proof.
  unfold NumberToString.pow10. destruct (Z.leb_spec 0 k).
  - by rewrite p10_Z.
  - rewrite Qmake_Qdiv, Z2Pos.id by (apply Z.pow_pos_nonneg; lia). rewrite <- p10_Z by lia.
    pose proof (p10_opp (- k)) as Hk. rewrite Z.opp_involutive in Hk. pose proof (p10_pos (- k)).
    field_simplify_eq; [|lra]. rewrite Qmult_comm. by rewrite Hk.
Qed.

(** An integer of [L] digits as a rational. *)
Lemma ndigits_Q z : (0 < z)%Z ->
  10 ^ (ndigits z - 1) <= inject_Z z /\ inject_Z z + 1 <= 10 ^ ndigits z.
Proof.
  intros Hz. pose proof (ndigits_spec z Hz) as [H1 H2]. pose proof (ndigits_pos z Hz).
  rewrite !p10_Z by lia. split; [by rewrite <- Zle_Qle|].
  change 1 with (inject_Z 1). rewrite <- inject_Z_plus, <- Zle_Qle. lia.
Qed.

(** [dec_exp q] is the decimal exponent of [q > 0]. *)
Lemma dec_exp_spec q : 0 < q -> 10 ^ (dec_exp q - 1) <= q < 10 ^ dec_exp q.
Proof.
  intros Hq. unfold dec_exp. destruct (Qle_bool 1 q) eqn:H1.
  - apply Qle_bool_iff in H1. pose proof (Qfloor_resp_le _ _ H1) as Hz. change (Qfloor 1) with 1%Z in Hz.
    pose proof (ndigits_Q (Qfloor q) ltac:(lia)) as [Ha Hb].
    pose proof (Qfloor_le q). pose proof (Qlt_floor q). rewrite inject_Z_plus in *. change (inject_Z 1) with 1 in *.
    split; lra.
  - assert (Hlt : q < 1) by (destruct (Qlt_le_dec q 1); [done|]; apply Qle_bool_iff in q0; congruence).
    set (w := / q). assert (Hw : q * w == 1) by (unfold w; field; lra).
    assert (Hw1 : 1 < w) by nra.
    pose proof (Qfloor_resp_le 1 w ltac:(lra)) as Hz. change (Qfloor 1) with 1%Z in Hz.
    pose proof (ndigits_Q (Qfloor w) ltac:(lia)) as [Ha Hb].
    pose proof (Qfloor_le w). pose proof (Qlt_floor w). rewrite inject_Z_plus in *. change (inject_Z 1) with 1 in *.
    set (L := ndigits (Qfloor w)) in *. rewrite pow10_Q.
    pose proof (p10_opp L) as HL. pose proof (p10_pos L). pose proof (p10_pos (- L)).
    assert (Hn : 10 ^ (1 - L) * 10 ^ (L - 1) == 1) by (rewrite <- p10_opp; do 2 f_equiv; lia).
    pose proof (p10_pos (1 - L)). pose proof (p10_pos (L - 1)).
    assert (Hup : q <= 10 ^ (1 - L)) by nra.
    assert (Hlo : 10 ^ (- L) < q) by nra.
    destruct (Qle_bool (10 ^ (1 - L)) q) eqn:Hb2.
    + apply Qle_bool_iff in Hb2. replace (1 - L + 1 - 1)%Z with (1 - L)%Z by lia.
      pose proof (p10_lt (1 - L) (1 - L + 1) ltac:(lia)). split; lra.
    + replace (1 - L - 1)%Z with (- L)%Z by lia. split; [lra|].
      destruct (Qlt_le_dec q (10 ^ (1 - L))); [done|]. apply Qle_bool_iff in q0. congruence.
Qed.

(** [q_round_even] is the nearest integer, and depends only on the
    rational. *)
Lemma q_round_even_near x : Qabs (x - inject_Z (q_round_even x)) <= 1 # 2.
Proof.
  unfold q_round_even. pose proof (div_round_even_near (Qnum x) (Zpos (Qden x)) eq_refl) as H.
  set (m := div_round_even _ _) in *. rewrite <- (Qnum_frac x) at 1.
  assert (Hd := inject_Z_pos (Zpos (Qden x)) eq_refl).
  assert (E : (inject_Z (Qnum x) / inject_Z (Zpos (Qden x)) - inject_Z m) * inject_Z (Zpos (Qden x)) ==
              inject_Z (Qnum x) - inject_Z m * inject_Z (Zpos (Qden x))) by (field; lra).
  assert (Hz : (- Zpos (Qden x) <= 2 * (Qnum x - m * Zpos (Qden x)) <= Zpos (Qden x))%Z) by lia.
  destruct Hz as [Hz1 Hz2]. rewrite Zle_Qle in Hz1, Hz2. push_inject.
  apply Qabs_Qle_condition. split; nra.
Qed.

Lemma q_round_even_unique x m : Qabs (x - inject_Z m) < 1 # 2 -> q_round_even x = m.
Proof. intros H. apply div_round_even_q; [done|]. by rewrite Qnum_frac. Qed.

Lemma q_round_even_Qeq x y : x == y -> q_round_even x = q_round_even y.
Proof. intros H. apply div_round_even_Qeq; [done..|]. by rewrite !Qnum_frac. Qed.

(** A candidate of seventeen digits within half a unit of its last
    digit rounds to [q]. *)
Lemma cand17_round q n s :
  0 < q -> round q = DFin q -> 10 ^ (n - 1) <= q ->
  Qabs (inject_Z s * 10 ^ (n - 17) - q) <= (1 # 2) * 10 ^ (n - 17) ->
  round (inject_Z s * NumberToString.pow10 (n - 17)) = DFin q.
Proof.
  intros Hq Hr Hn H. rewrite pow10_Q. apply round_near; [done..|].
  replace (n - 1)%Z with (n - 17 + 16)%Z in Hn by lia. rewrite p10_add, (p10_Z 16) in Hn by lia.
  change (inject_Z (10 ^ 16)) with 10000000000000000 in Hn. pose proof (p10_pos (n - 17)).
  unfold eps54. lra.
Qed.

Lemma valid_intro x k n s :
  (10 ^ (k - 1) <= s < 10 ^ k)%Z -> round (inject_Z s * NumberToString.pow10 (n - k)) = x -> valid x k n s = true.
Proof.
  intros [H1 H2] H. unfold valid. rewrite bool_decide_eq_true_2 by done.
  rewrite (proj2 (Z.leb_le _ _) H1), (proj2 (Z.ltb_lt _ _) H2). done.
Qed.

(** Seventeen digits always name a positive double: among the candidates
    for [k = 17] one is valid. *)
Lemma seventeen_digits q :
  0 < q -> round q = DFin q -> exists c, In c (cands q 17) /\ valid (DFin q) 17 c.1 c.2 = true.
Proof.
  intros Hq Hr. pose proof (dec_exp_spec q Hq) as [Hlo Hhi]. set (n := dec_exp q) in *.
  set (t := q * 10 ^ (17 - n)).
  assert (Hts : 10 ^ (n - 17) * 10 ^ (17 - n) == 1) by (rewrite <- p10_add; by replace (n - 17 + (17 - n))%Z with 0%Z by lia).
  assert (Ht : 10000000000000000 <= t < 100000000000000000).
  { change 10000000000000000 with (inject_Z (10 ^ 16)). change 100000000000000000 with (inject_Z (10 ^ 17)).
    rewrite <- !p10_Z by lia. unfold t. pose proof (p10_pos (17 - n)).
    assert (E16 : 10 ^ 16 == 10 ^ (n - 1) * 10 ^ (17 - n))
      by (rewrite <- p10_add; by replace (n - 1 + (17 - n))%Z with 16%Z by lia).
    assert (E17 : 10 ^ 17 == 10 ^ n * 10 ^ (17 - n))
      by (rewrite <- p10_add; by replace (n + (17 - n))%Z with 17%Z by lia).
    rewrite E16, E17. split; nra. }
  assert (Hqt : q == t * 10 ^ (n - 17)) by (unfold t; rewrite <- Qmult_assoc, (Qmult_comm (10 ^ _)), Hts; ring).
  pose proof (p10_pos (n - 17)) as Hp.
  set (s0 := q_round_even (q * NumberToString.pow10 (17 - n))).
  assert (Hs0 : Qabs (t - inject_Z s0) <= 1 # 2).
  { unfold s0. rewrite (q_round_even_Qeq _ t) by (unfold t; by rewrite pow10_Q). apply q_round_even_near. }
  apply Qabs_Qle_condition in Hs0 as [Hs1 Hs2].
  assert (Hlo0 : (10 ^ 16 <= s0)%Z).
  { apply Z.lt_pred_le. rewrite Zlt_Qlt. unfold Z.pred. push_inject. change (inject_Z (10 ^ 16)) with 10000000000000000.
    change (inject_Z (-1)) with (-1). lra. }
  assert (Hhi0 : (s0 <= 10 ^ 17)%Z).
  { apply Z_of_Q_half. change (inject_Z (10 ^ 17)) with 100000000000000000. lra. }
  destruct (Z.eq_dec s0 (10 ^ 17)) as [Heq|Hne].
  - (* the nearest integer carries into an eighteenth digit: take [10^n] *)
    assert (Hs1' : q_round_even (q * NumberToString.pow10 (17 - (n + 1))) = (10 ^ 16)%Z).
    { apply q_round_even_unique. rewrite pow10_Q. replace (17 - (n + 1))%Z with (17 - n + -1)%Z by lia.
      rewrite p10_add. change (10 ^ (-1)) with (1 # 10). change (inject_Z (10 ^ 16)) with 10000000000000000.
      rewrite Heq in Hs1. change (inject_Z (10 ^ 17)) with 100000000000000000 in Hs1.
      rewrite Qmult_assoc. fold t. apply Qabs_Qlt_condition. split; lra. }
    exists ((n + 1)%Z, (10 ^ 16)%Z). split.
    { unfold cands. fold n. simpl. right; right; right; left. by rewrite Hs1'. }
    simpl.
    apply valid_intro; [lia|]. replace (n + 1 - 17)%Z with (n - 16)%Z by lia.
    rewrite (round_Qeq _ (inject_Z (10 ^ 17) * NumberToString.pow10 (n - 17))).
    + apply cand17_round; [done..|]. rewrite Hqt, Heq in *. apply Qabs_Qle_condition.
      change (inject_Z (10 ^ 17)) with 100000000000000000 in *. split; nra.
    + rewrite !pow10_Q. replace (n - 16)%Z with (1 + (n - 17))%Z by lia. rewrite p10_add.
      change (inject_Z (10 ^ 16)) with 10000000000000000. change (inject_Z (10 ^ 17)) with 100000000000000000.
      change (10 ^ 1) with 10. ring.
  - exists (n, s0). split; [unfold cands; simpl; auto|]. simpl. apply valid_intro; [lia|].
    apply cand17_round; [done..|]. rewrite Hqt. apply Qabs_Qle_condition. split; nra.
Qed.

(** [best] picks a member of a non-empty list. *)
Lemma best_fold q k l acc c :
  fold_left (fun acc c => match acc with
                          | None => Some c
                          | Some d => if better q k c d then Some c else Some d
                          end) l acc = Some c -> In c l \/ acc = Some c.
Proof.
  revert acc. induction l as [|x l IH]; intros acc H; [by right|]. simpl in H.
  destruct (IH _ H) as [?|Hx]; [by left; right|].
  destruct acc as [d|]; [destruct (better q k x d)|]; injection Hx as <-; simpl; tauto.
Qed.

Lemma best_fold_some q k l d :
  fold_left (fun acc c => match acc with
                          | None => Some c
                          | Some d => if better q k c d then Some c else Some d
                          end) l (Some d) <> None.
Proof. revert d. induction l as [|x l IH]; intros d; simpl; [done|]. by destruct (better q k x d). Qed.

Lemma best_in q k l c : best q k l = Some c -> In c l.
Proof. intros H. by destruct (best_fold q k l None c H). Qed.

Lemma best_nil q k l : best q k l = None -> l = [].
Proof. destruct l as [|x l]; [done|]. unfold best. simpl. intros H. by apply best_fold_some in H. Qed.

(** What [search] returns is a valid triple of [k] digits, [k] in the
    range it searched. *)
Lemma search_valid x q k f k' n s :
  search x q k f = Some (k', n, s) -> valid x k' n s = true /\ (k <= k' < k + Z.of_nat f)%Z.
Proof.
  revert k. induction f as [|f IH]; intros k H; [done|]. simpl in H.
  destruct (best _ _ _) as [[n' s']|] eqn:B.
  - injection H as <- <- <-. apply best_in, list_elem_of_In, list_elem_of_filter in B as [B _].
    split; [by apply Is_true_true in B|lia].
  - destruct (IH _ H) as [? ?]. split; [done|lia].
Qed.

(** [search] finds a triple when a [k] in its range has a valid
    candidate. *)
Lemma search_found x q k f j :
  (k <= j < k + Z.of_nat f)%Z -> (exists c, In c (cands q j) /\ valid x j c.1 c.2 = true) ->
  search x q k f <> None.
Proof.
  revert k. induction f as [|f IH]; intros k Hj [c [Hc Hv]]; [lia|]. simpl.
  destruct (best _ _ _) as [[n' s']|] eqn:B; [done|]. apply best_nil in B.
  destruct (Z.eq_dec k j) as [->|Hne].
  - assert (c ∈ filter (fun c => valid x j c.1 c.2) (cands q j))
      by (apply list_elem_of_filter; split; [by apply Is_true_true|by apply list_elem_of_In]).
    rewrite B in H. by apply not_elem_of_nil in H.
  - apply IH; [lia|eauto].
Qed.

End SearchFacts.

(** ** The texts [format] writes are numeric literals *)

Module LiteralFacts.
Import DigitFacts.
Local Open Scope nat_scope.
#[local] Arguments radix_digit : simpl never.

Lemma all_radix_app r a b : all_radix r (a +:+ b) = all_radix r a && all_radix r b.
Proof. induction a as [|c a IH]; [done|]. rewrite string_app_cons, !all_radix_cons, IH. apply andb_assoc. Qed.

Lemma zeros_length m : String.length (zeros m) = m.
Proof. induction m; simpl; auto. Qed.

Lemma zeros_digits m : all_radix 10 (zeros m) = true.
Proof. induction m as [|m IH]; [done|]. simpl. by rewrite all_radix_cons, IH. Qed.

Lemma zeros_val m : digits_val 10 (zeros m) = 0%Z.
Proof.
  induction m as [|m IH]; [done|]. simpl. rewrite (digits_val_cons _ _ 0) by (done || apply zeros_digits).
  rewrite IH. lia.
Qed.

Lemma plain_digits_app a b : plain_digits a = true -> all_radix 10 b = true -> plain_digits (a +:+ b) = true.
Proof.
  destruct a as [|c a]; [done|]. intros H Hb. rewrite string_app_cons. unfold plain_digits in *.
  apply andb_true_iff in H as [-> Ha]. rewrite all_radix_cons in Ha |- *. rewrite all_radix_app.
  apply andb_true_iff in Ha as [-> ->]. by rewrite Hb.
Qed.

Lemma substring_0S c s n : String.substring 0 (S n) (String c s) = String c (String.substring 0 n s).
Proof. done. Qed.

Lemma substring_SS c s n m : String.substring (S n) m (String c s) = String.substring n m s.
Proof. done. Qed.

Lemma substring_nil n m : String.substring n m "" = "".
Proof. by destruct n, m. Qed.

Lemma substring_00 s : String.substring 0 0 s = "".
Proof. by destruct s. Qed.

Lemma substring_app s n m :
  String.substring 0 n s +:+ String.substring n m s = String.substring 0 (n + m) s.
Proof.
  revert n. induction s as [|c s IH]; intros [|n].
  - by rewrite substring_00, string_app_nil_l.
  - by rewrite !substring_nil.
  - by rewrite substring_00, string_app_nil_l.
  - by rewrite substring_0S, substring_SS, string_app_cons, IH.
Qed.

Lemma substring_full s : String.substring 0 (String.length s) s = s.
Proof. induction s as [|c s IH]; simpl; [done|]. by rewrite IH. Qed.

Lemma substring_length s n m : n + m <= String.length s -> String.length (String.substring n m s) = m.
Proof.
  revert n m. induction s as [|c s IH]; intros [|n] [|m] H; simpl in *; try lia; try done.
  - f_equal. apply (IH 0). lia.
  - apply IH. lia.
  - apply IH. lia.
Qed.

Lemma substring_digits r s n m : all_radix r s = true -> all_radix r (String.substring n m s) = true.
Proof.
  revert n m. induction s as [|c s IH]; intros [|n] [|m] H; simpl; try done;
    rewrite all_radix_cons in H; apply andb_true_iff in H as [Hc H].
  - rewrite all_radix_cons, Hc. by apply IH.
  - by apply IH.
  - by apply IH.
Qed.

Lemma substring_plain s m : plain_digits s = true -> 0 < m -> plain_digits (String.substring 0 m s) = true.
Proof.
  destruct s as [|c s]; [done|]. destruct m as [|m]; [lia|]. simpl. intros H _.
  apply andb_true_iff in H as [-> H]. rewrite all_radix_cons in H |- *.
  apply andb_true_iff in H as [-> H]. by apply substring_digits.
Qed.

(** Scanning the digits of a positive integer. *)
Lemma scan_int_string p :
  scan_digits (js_int_string (Zpos p)) = (Zpos p, String.length (js_int_string (Zpos p)), "").
Proof.
  unfold scan_digits. pose proof (js_int_string_plain p) as Hp.
  assert (Ha : all_radix 10 (js_int_string (Zpos p)) = true)
    by (destruct (js_int_string (Zpos p)); [done|by apply andb_true_iff in Hp as [_ ?]]).
  pose proof (scan_radix_val 10 0 0 _ Ha) as Hv. pose proof (scan_radix_all 10 0 0 _ Ha) as Hr.
  destruct (scan_radix 10 0 0 _) as [[v n] r]. simpl in *. injection Hv as -> ->. subst r.
  f_equal. f_equal. rewrite js_int_string_val. done.
Qed.

(** The ExponentPart [format] writes reads back as the exponent. *)
Lemma scan_exponent_text e :
  e <> 0%Z ->
  scan_exponent ("e" +:+ ((if (0 <=? e)%Z then "+" else "-") +:+ js_int_string (Z.abs e))) = Some (e, "").
Proof.
  intros He. destruct e as [|p|p];
    [done|replace (Z.abs (Zpos p)) with (Zpos p) by done|replace (Z.abs (Zneg p)) with (Zpos p) by done];
    simpl; rewrite string_app_nil_l, (scan_int_string p);
    assert (Hn : (String.length (js_int_string (Zpos p)) =? 0) = false)
      by (pose proof (js_int_string_plain p); destruct (js_int_string (Zpos p)); done);
    rewrite Hn; do 2 f_equal; lia.
Qed.

(** What follows the digits: nothing or an ExponentPart. *)
Definition exp_tail (et : string) : Prop := et = "" \/ exists u, et = String "e" u.

Lemma exp_tail_stops et : exp_tail et -> stops 10 et = true.
Proof. by intros [->|[u ->]]. Qed.

Lemma exp_tail_nodot et : exp_tail et -> (match et with String "." _ => true | _ => false end) = false.
Proof. by intros [->|[u ->]]. Qed.

(** An integer part and an optional exponent. *)
Lemma scan_decimal_int ip et ex r :
  ip <> "" -> all_radix 10 ip = true -> exp_tail et -> scan_exponent et = Some (ex, r) ->
  scan_decimal (ip +:+ et) =
  Some ((inject_Z (digits_val 10 ip * 10 ^ Z.of_nat 0 + 0)%Z * pow10 (ex - Z.of_nat 0)%Z)%Q, r).
Proof.
  intros Hne Hd Ht He. unfold scan_decimal, scan_digits.
  rewrite scan_radix_app, scan_radix_val by (done || by apply exp_tail_stops). simpl.
  assert (Hlen : (String.length ip =? 0) = false) by (destruct ip; done).
  destruct Ht as [->|[u ->]]; cbn -[scan_exponent]; rewrite Hlen; cbn -[scan_exponent]; by rewrite He.
Qed.

(** An integer part, a fraction and an optional exponent. *)
Lemma scan_decimal_frac ip fd et ex r :
  ip <> "" -> all_radix 10 ip = true -> all_radix 10 fd = true -> exp_tail et ->
  scan_exponent et = Some (ex, r) ->
  scan_decimal (ip +:+ String "." (fd +:+ et)) =
  Some ((inject_Z (digits_val 10 ip * 10 ^ Z.of_nat (String.length fd) + digits_val 10 fd)%Z *
         pow10 (ex - Z.of_nat (String.length fd))%Z)%Q, r).
Proof.
  intros Hne Hd Hf Ht He. unfold scan_decimal, scan_digits.
  rewrite scan_radix_app, scan_radix_val by done. simpl.
  rewrite scan_radix_app, scan_radix_val by (done || by apply exp_tail_stops). simpl.
  assert (Hlen : (String.length ip =? 0) = false) by (destruct ip; done).
  rewrite Hlen. simpl. by rewrite He.
Qed.

(** A decimal literal that starts with a non-zero digit, or with
    [0.], is one number token. *)
Lemma lexc_decimal strict b t v :
  scan_decimal t = Some (v, "") ->
  (exists c r, t = String c r /\ is_digit c = true /\ c <> "0"%char) \/ (exists r, t = String "0" (String "." r)) ->
  lexc strict b t = inl [TNum (round v)].
Proof.
  intros Hs Ht. assert (Hne : t <> "") by (destruct Ht as [(c & r & -> & _)|[r ->]]; done).
  rewrite (lexc_step strict b t (Some (TNum (round v))) true ""); [by rewrite lexc_nil|done|].
  destruct Ht as [(c & r & -> & Hc & H0)|[r ->]].
  - unfold next_token. cbv beta iota. rewrite Hc. simpl orb. cbv iota beta.
    rewrite lex_number_nonzero by done. by rewrite Hs.
  - unfold next_token. cbv beta iota. simpl orb. cbv iota beta.
    change (lex_number strict (String "0" (String "." r)))
      with (match scan_decimal (String "0" (String "." r)) with
            | Some (mv, r0) => inl (round mv, r0) | None => inr SyntaxError end).
    by rewrite Hs.
Qed.

(** Splitting a digit string splits its value. *)
Lemma split_val sd i j :
  all_radix 10 sd = true -> i + j = String.length sd ->
  (digits_val 10 (String.substring 0 i sd) * 10 ^ Z.of_nat (String.length (String.substring i j sd)) +
   digits_val 10 (String.substring i j sd))%Z = digits_val 10 sd.
Proof.
  intros Hd Hij. rewrite <- digits_val_app by (by apply substring_digits).
  by rewrite substring_app, Hij, substring_full.
Qed.

Lemma dot_app b t : "." +:+ (b +:+ t) = String "." (b +:+ t).
Proof. done. Qed.

(** The shape [lexc_decimal] asks for, from a plain digit string. *)
Lemma plain_head a t :
  plain_digits a = true ->
  exists c r, a +:+ t = String c r /\ is_digit c = true /\ c <> "0"%char.
Proof.
  destruct a as [|c a]; [done|]. intros H. apply andb_true_iff in H as [Hc H].
  apply bool_decide_eq_true in Hc. rewrite all_radix_cons in H. apply andb_true_iff in H as [Hd _].
  exists c, (a +:+ t). split_and!; [done| |done]. exact Hd.
Qed.

Section Format.
Variables (strict b : bool) (k n s : Z) (sd : string).
Hypothesis Hk : (1 <= k)%Z.
Hypothesis Hp : plain_digits sd = true.
Hypothesis Hlen : String.length sd = Z.to_nat k.
Hypothesis Hv : digits_val 10 sd = s.

Let Hd : all_radix 10 sd = true.
Proof. destruct sd; [done|]. by apply andb_true_iff in Hp as [_ ?]. Qed.

(** [k <= n <= 21]: the digits and [n - k] zeros. *)
Lemma lexc_format_int :
  (k <= n)%Z ->
  lexc strict b (sd +:+ zeros (Z.to_nat (n - k))) = inl [TNum (round (inject_Z s * pow10 (n - k)))].
Proof.
  intros Hn. rewrite <- (string_app_nil (sd +:+ _)), lexc_plain, lexc_nil.
  - do 4 f_equal. rewrite digits_val_app, zeros_val, zeros_length, Hv, Z2Nat.id by (lia || done || apply zeros_digits).
    unfold pow10, NumberToString.pow10. rewrite (proj2 (Z.leb_le 0 (n - k))) by lia.
    unfold inject_Z, Qmult. simpl. f_equal. lia.
  - apply plain_digits_app; [done|apply zeros_digits].
  - done.
Qed.

(** [0 < n < k]: a decimal point after [n] digits. *)
Lemma lexc_format_fixed :
  (0 < n < k)%Z ->
  lexc strict b (String.substring 0 (Z.to_nat n) sd +:+ "." +:+ String.substring (Z.to_nat n) (Z.to_nat (k - n)) sd) =
  inl [TNum (round (inject_Z s * pow10 (n - k)))].
Proof.
  intros Hn.
  assert (Hc : String.length (String.substring (Z.to_nat n) (Z.to_nat (k - n)) sd) = Z.to_nat (k - n))
    by (apply substring_length; lia).
  assert (Ha : plain_digits (String.substring 0 (Z.to_nat n) sd) = true) by (apply substring_plain; [done|lia]).
  rewrite <- (string_app_nil (String.substring (Z.to_nat n) _ sd)), dot_app.
  erewrite lexc_decimal; [reflexivity| |left; by apply plain_head].
  rewrite scan_decimal_frac with (ex := 0%Z) (r := ""); try (by left) || done.
  - rewrite (split_val sd (Z.to_nat n) (Z.to_nat (k - n))), Hv, Hc by (done || (rewrite Hlen; lia)). do 4 f_equal. lia.
  - by destruct (String.substring 0 (Z.to_nat n) sd).
  - by apply substring_digits.
  - by apply substring_digits.
Qed.

(** [-6 < n <= 0]: [0.], [-n] zeros and the digits. *)
Lemma lexc_format_small :
  (-6 < n <= 0)%Z ->
  lexc strict b ("0." +:+ zeros (Z.to_nat (- n)) +:+ sd) = inl [TNum (round (inject_Z s * pow10 (n - k)))].
Proof.
  intros Hn. rewrite <- (string_app_nil (zeros _ +:+ sd)).
  change ("0." +:+ ((zeros (Z.to_nat (- n)) +:+ sd) +:+ ""))
    with ("0" +:+ String "." ((zeros (Z.to_nat (- n)) +:+ sd) +:+ "")).
  erewrite lexc_decimal; [reflexivity| |by right; eexists].
  rewrite scan_decimal_frac with (ex := 0%Z) (r := ""); try (by left) || done.
  - rewrite digits_val_app, zeros_val, Hv, string_length_app, zeros_length, Hlen by (done || apply zeros_digits).
    change (digits_val 10 "0") with 0%Z. do 3 f_equal; f_equal; lia.
  - rewrite all_radix_app, Hd. by rewrite zeros_digits.
Qed.

(** Otherwise: the first digit, the others after a point, and the
    exponent [n - 1]. *)
Lemma lexc_format_exp :
  (n - 1 <> 0)%Z ->
  lexc strict b
    (let es := (if (0 <=? n - 1)%Z then "+" else "-") +:+ js_int_string (Z.abs (n - 1)) in
     if (k =? 1)%Z then sd +:+ "e" +:+ es
     else String.substring 0 1 sd +:+ "." +:+ String.substring 1 (Z.to_nat (k - 1)) sd +:+ "e" +:+ es) =
  inl [TNum (round (inject_Z s * pow10 (n - k)))].
Proof.
  intros He. cbv zeta. set (es := (if (0 <=? n - 1)%Z then "+" else "-") +:+ js_int_string (Z.abs (n - 1))).
  assert (Ht : exp_tail ("e" +:+ es)) by (right; by eexists).
  pose proof (scan_exponent_text (n - 1) He) as Hx. fold es in Hx.
  destruct (Z.eqb_spec k 1) as [->|Hk1].
  - erewrite lexc_decimal; [reflexivity| |left; by apply plain_head].
    rewrite (scan_decimal_int sd _ (n - 1) ""); [|by destruct sd|done..].
    rewrite Hv. do 3 f_equal; f_equal; lia.
  - assert (Hc : String.length (String.substring 1 (Z.to_nat (k - 1)) sd) = Z.to_nat (k - 1))
      by (apply substring_length; lia).
    rewrite dot_app. erewrite lexc_decimal; [reflexivity| |left; apply plain_head, substring_plain; [done|lia]].
    rewrite (scan_decimal_frac _ _ _ (n - 1) ""); [|by destruct sd|by apply substring_digits..|done|done].
    rewrite (split_val sd 1 (Z.to_nat (k - 1))), Hv, Hc by (done || (rewrite Hlen; lia)).
    do 3 f_equal; f_equal; lia.
Qed.

End Format.

(** Every layout of [format] is one numeric literal of value
    [s * 10^(n - k)]. *)
Lemma lexc_format strict b k n s :
  (1 <= k)%Z -> (10 ^ (k - 1) <= s < 10 ^ k)%Z ->
  lexc strict b (format k n (js_int_string s)) = inl [TNum (round (inject_Z s * pow10 (n - k)))].
Proof.
  intros Hk Hs. assert (Hs0 : (0 < s)%Z) by (pose proof (Z.pow_pos_nonneg 10 (k - 1)); lia).
  destruct s as [|p|p]; try lia.
  pose proof (ndigits_unique _ _ Hs Hk) as Hn. unfold ndigits in Hn.
  assert (Hlen : String.length (js_int_string (Zpos p)) = Z.to_nat k) by lia.
  pose proof (js_int_string_plain p) as Hp. pose proof (js_int_string_val p) as Hv.
  unfold format.
  destruct (Z.leb_spec k n), (Z.leb_spec n 21); simpl andb; cbv iota;
    [by apply lexc_format_int| | |].
  all: destruct (Z.ltb_spec 0 n), (Z.ltb_spec (-6) n), (Z.leb_spec n 0); simpl andb; cbv iota;
    try lia; first [apply lexc_format_fixed | apply lexc_format_small | apply lexc_format_exp]; done || lia.
Qed.

End LiteralFacts.
