(* ===== verification/RoundTrip.v ===== *)
(** * RoundTrip: [eval(String(x))] is [x]

    The calculator's [=] shows [String(res)] and leaves it in the input,
    so a second [=] evaluates what [Number::toString] printed.  This
    file puts [ToStringFacts] together: the digit search of
    [Number::toString] always ends within seventeen digits with a valid
    triple ([pos_digits_found]), and evaluating the printed text gives
    back the number, a negative zero apart, which prints as ["0"] and
    reads back as [+0] ([eval_number_to_string]). *)

From S2P Require Import Prelude Json Scoring JsNumber JsEval JsEvalFacts ToStringFacts.
From Stdlib Require Import QArith Qabs Ascii.
Import Binary64 Double NumberToString DecimalLit JsLex JsParse JsEval JsEvalFacts.

Module NumberRoundTrip.
Import RoundFacts DigitFacts SearchFacts LiteralFacts.

(** A Number value: a finite [DFin q] is the double nearest to [q]. *)
Definition is_double (x : dbl) : Prop :=
  match x with DFin q => round q = DFin q | _ => True end.

(** [|q|] of a double [q] is a double. *)
Lemma round_abs q : round q = DFin q -> round (Qabs q) = DFin (Qabs q).
Proof.
  unfold round. destruct q as [a d]. cbn [Qnum Qden Qabs].
  rewrite Z.abs_idemp, (proj2 (Z.ltb_ge (Z.abs a) 0)) by lia.
  destruct (round_parts (Z.abs a) (Zpos d)) as [m e] eqn:Ep.
  destruct (m =? 0)%Z; [discriminate|]. destruct (overflows m e); [discriminate|].
  assert (Hm : (0 <= m)%Z).
  { unfold round_parts in Ep. destruct (scale _ _ _) as [N D] eqn:Es.
    pose proof (scale_value (Z.abs a) (Zpos d) (Z.min (binade_exp (Z.abs a) (Zpos d)) emin) eq_refl) as HN.
    rewrite Es in HN. destruct HN as [HD _]. injection Ep as <- _.
    apply div_round_even_nonneg; [done|]. destruct (scale_cases (Z.abs a) (Zpos d) (Z.min (binade_exp (Z.abs a) (Zpos d)) emin))
      as [[He E]|[He E]]; rewrite E in Es; injection Es as <- <-; [|lia].
    pose proof (Z.pow_nonneg 2 (Z.min (binade_exp (Z.abs a) (Zpos d)) emin)). nia. }
  assert (Hl : (0 <= Qnum (Qred (ldexp_neg m e)))%Z).
  { assert (H0 : (0 <= Qred (ldexp_neg m e))%Q).
    { rewrite Qred_correct, ldexp_neg_value. apply Qmult_le_0_compat; [|apply Qlt_le_weak, p2_pos].
      change 0%Q with (inject_Z 0). by rewrite <- Zle_Qle. }
    destruct (Qred _) as [n' d']. unfold Qle in H0. simpl in *. lia. }
  destruct (a <? 0)%Z; intros [= Hq]; f_equal; [rewrite Qred_opp in Hq|];
    destruct (Qred (ldexp_neg m e)) as [n' d']; simpl in *; injection Hq as <- <-; f_equal; lia.
Qed.

(** The digit search of [Number::toString] always ends: for every
    positive double [q], [search] finds within seventeen digits a triple
    [(k, n, s)] whose [k] digits [s], scaled by [10^(n-k)], round back
    to [q]; [pos_digits] returns it, never its fallback. *)
Theorem pos_digits_found q :
  (0 < q)%Q -> is_double (DFin q) ->
  exists k n s, search (DFin q) q 1 17 = Some (k, n, s) /\ pos_digits q = (k, n, s) /\
                valid (DFin q) k n s = true /\ (1 <= k <= 17)%Z.
Proof.
  intros Hq Hr. destruct (search (DFin q) q 1 17) as [[[k n] s]|] eqn:E.
  - destruct (search_valid _ _ _ _ _ _ _ E) as [Hv Hk]. exists k, n, s.
    unfold pos_digits. rewrite E. split_and!; done || lia.
  - exfalso. apply (search_found (DFin q) q 1 17 17); [lia|by apply seventeen_digits|done].
Qed.

Lemma valid_parts x k n s :
  valid x k n s = true -> (10 ^ (k - 1) <= s < 10 ^ k)%Z /\ round (inject_Z s * pow10 (n - k)) = x.
Proof.
  unfold valid. intros H. apply andb_true_iff in H as [H H3]. apply andb_true_iff in H as [H1 H2].
  apply Z.leb_le in H1. apply Z.ltb_lt in H2. apply bool_decide_eq_true in H3. done.
Qed.

(** The text [format] writes starts with a digit. *)
Lemma format_head k n s :
  (1 <= k)%Z -> (10 ^ (k - 1) <= s < 10 ^ k)%Z ->
  exists c r, format k n (js_int_string s) = String c r /\ is_digit c = true.
Proof.
  intros Hk Hs. assert (Hs0 : (0 < s)%Z) by (pose proof (Z.pow_pos_nonneg 10 (k - 1)); lia).
  destruct s as [|p|p]; try lia. pose proof (js_int_string_plain p) as Hp.
  destruct (js_int_string (Zpos p)) as [|c0 sd] eqn:Esd; [done|].
  assert (Hc0 : is_digit c0 = true).
  { apply andb_true_iff in Hp as [_ Hp]. rewrite all_radix_cons in Hp. by apply andb_true_iff in Hp as [? _]. }
  unfold format.
  destruct ((k <=? n) && (n <=? 21))%Z; [by do 2 eexists|].
  destruct ((0 <? n) && (n <=? 21))%Z eqn:B2.
  - apply andb_true_iff in B2 as [B2 _]. apply Z.ltb_lt in B2.
    replace (Z.to_nat n) with (S (Z.to_nat n - 1)) by lia. rewrite substring_0S. by do 2 eexists.
  - destruct ((-6 <? n) && (n <=? 0))%Z; [by do 2 eexists|].
    by destruct (k =? 1)%Z; do 2 eexists.
Qed.

(** A [-] before a digit is the unary minus. *)
Lemma next_token_minus strict b c r :
  is_digit c = true -> next_token strict b (String "-" (String c r)) = inl (Some (TPunct PMinus), false, String c r).
Proof. intros H. destruct c as [[] [] [] [] [] [] [] []]; try discriminate H; reflexivity. Qed.

(** The text of a positive double lexes as one number token. *)
Lemma lexc_pos_text strict q :
  (0 < q)%Q -> round q = DFin q ->
  exists c r, (let '(k, n, s) := pos_digits q in format k n (js_int_string s)) = String c r /\
              is_digit c = true /\ lexc strict false (String c r) = inl [TNum (DFin q)].
Proof.
  intros Hq Hr. destruct (pos_digits_found q Hq Hr) as (k & n & s & _ & -> & Hv & Hk).
  apply valid_parts in Hv as [Hs Hround].
  destruct (format_head k n s ltac:(lia) Hs) as (c & r & Ef & Hc). exists c, r. split_and!; [done|done|].
  rewrite <- Ef, lexc_format by (done || lia). by rewrite Hround.
Qed.

(** [eval] reads back what [Number::toString] prints: for every
    Number [x] (a double, an infinity or NaN), evaluating
    [String(x)] gives [x] again, except [-0], which prints as ["0"] and
    reads back as [+0]; on every engine, strict or sloppy. *)
Theorem eval_number_to_string eng x :
  is_double x ->
  js_eval eng (number_to_string x) = inl (VNum (if bool_decide (x = DZero true) then DZero false else x)).
Proof.
  destruct x as [neg|q|neg|]; intros Hx;
    [destruct eng as [[] pw], neg; vm_compute; reflexivity| |destruct eng as [[] pw], neg; vm_compute; reflexivity
    |destruct eng as [[] pw]; vm_compute; reflexivity].
  simpl in Hx. rewrite bool_decide_false by done.
  assert (Hq0 : Qnum q <> 0%Z).
  { intros E. destruct q as [a d]. simpl in E. subst a. unfold round in Hx. cbn [Qnum Qden] in Hx.
    change (Z.abs 0) with 0%Z in Hx. pose proof (round_parts_0 (Zpos d) eq_refl).
    destruct (round_parts 0 (Zpos d)) as [m e]. simpl in *. subst m. discriminate Hx. }
  assert (Ha : (0 < Qabs q)%Q) by (destruct q as [a d]; unfold Qlt; simpl in *; lia).
  destruct (lexc_pos_text (strict eng) (Qabs q) Ha (round_abs q Hx)) as (c & r & Et & Hc & Hl).
  unfold number_to_string. destruct (pos_digits (Qabs q)) as [[k n] s]. rewrite Et.
  destruct (Qnum q <? 0)%Z eqn:Hneg.
  - rewrite (js_eval_tokens eng _ [TPunct PMinus; TNum (DFin (Qabs q))]).
    + simpl. do 3 f_equal. destruct q as [a d]. simpl in *. unfold Qopp. simpl. f_equal. lia.
    + rewrite string_app_cons, string_app_nil_l.
      rewrite (lexc_step _ _ _ (Some (TPunct PMinus)) false (String c r)); [|done|by apply next_token_minus].
      by rewrite Hl.
  - rewrite (js_eval_tokens eng _ [TNum (DFin (Qabs q))]); [|done].
    simpl. do 3 f_equal. destruct q as [a d]. simpl in *. f_equal. lia.
Qed.

End NumberRoundTrip.

Module RoundTripWitnesses.
Import NumberRoundTrip.

(** The double nearest to [0.1]. *)
Definition w_tenth : Q := 3602879701896397 # 36028797018963968.

Definition w_strict : Engine := mkEngine true (fun _ _ => DNaN).

End RoundTripWitnesses.
