(* ===== verification/IntegerText.v ===== *)
(** * IntegerText: the integers [Number::toString] prints as digits

    A safe integer [z] ([|z| < 2^53], [Number.isSafeInteger]) is a
    double ([round_int]), and [String(z)] is its decimal digits
    ([number_to_string_int]): the digit search of [Number::toString]
    finds no shorter triple than the digits of [z] without their
    trailing zeros, because a rational that rounds to [z] is within a
    half of it ([round_err]), and the integer layout of [format] puts the
    zeros back.  [JsonText] prints JSON numbers and [Options] prints the
    count picker's items with [Number::toString]; this is what makes
    their texts the digits. *)

From S2P Require Import Prelude Json Scoring JsNumber JsEval JsEvalFacts ToStringFacts RoundTrip.
From Stdlib Require Import QArith Qround Qabs Qpower Lqa Qcanon Ascii.
Import Binary64 Double NumberToString DecimalLit JsMath JsEvalFacts RoundFacts DigitFacts SearchFacts LiteralFacts
       NumberRoundTrip.

Module IntegerText.

(** ** Safe integers are doubles *)

Lemma round_parts_int a :
  (0 < a < 2 ^ 53)%Z -> round_parts a 1 = ((a * 2 ^ (52 - Z.log2 a))%Z, (52 - Z.log2 a)%Z).
Proof.
  intros Ha. pose proof (Z.log2_spec a ltac:(lia)) as [Hl1 Hl2].
  assert (Hl : (Z.log2 a <= 52)%Z) by (apply Z.lt_succ_r, (Z.log2_lt_pow2 a 53); lia).
  pose proof (Z.log2_nonneg a).
  assert (Hs : forall e, (0 <= e)%Z -> scale a 1 e = ((a * 2 ^ e)%Z, 1%Z)) by (intros e He; unfold scale; by rewrite (proj2 (Z.leb_le 0 e) He)).
  unfold round_parts, binade_exp. change (Z.log2 1) with 0%Z. rewrite Z.sub_0_r, (Hs (52 - Z.log2 a)%Z) by lia.
  assert (Hb : (2 ^ 52 <= a * 2 ^ (52 - Z.log2 a))%Z).
  { replace (2 ^ 52)%Z with (2 ^ Z.log2 a * 2 ^ (52 - Z.log2 a))%Z by (rewrite <- Z.pow_add_r by lia; f_equal; lia).
    apply Z.mul_le_mono_nonneg_r; [apply Z.pow_nonneg|]; lia. }
  rewrite (proj2 (Z.ltb_ge _ _)) by lia. rewrite Z.min_l by (unfold emin; lia). rewrite Hs by lia.
  unfold div_round_even. rewrite Z.div_1_r, Z.mod_1_r. reflexivity.
Qed.

(** [𝔽(z) = z] for a safe integer [z]. *)
Lemma round_int z : (Z.abs z < 2 ^ 53)%Z -> z <> 0%Z -> round (inject_Z z) = DFin (inject_Z z).
Proof.
  intros Hz Hz0. unfold round. cbn [Qnum Qden inject_Z]. rewrite round_parts_int by lia.
  set (e := (52 - Z.log2 (Z.abs z))%Z). pose proof (Z.log2_nonneg (Z.abs z)).
  assert (Z.log2 (Z.abs z) < 53)%Z by (apply Z.log2_lt_pow2; lia).
  assert (He : (0 <= e)%Z) by (unfold e; lia).
  rewrite (proj2 (Z.eqb_neq _ 0)) by (pose proof (Z.pow_pos_nonneg 2 e); lia).
  unfold overflows. rewrite (proj2 (Z.ltb_ge e 0)) by lia. f_equal.
  rewrite <- (Qred_identity (inject_Z z)) by (simpl; apply Z.gcd_1_r). apply Qred_complete.
  assert (Hv : ldexp_neg (Z.abs z * 2 ^ e) e == inject_Z (Z.abs z)).
  { rewrite ldexp_neg_value, inject_Z_mult, <- p2_Z by done. rewrite <- Qmult_assoc, (Qmult_comm (2 ^ e)), p2_opp. ring. }
  destruct (Z.ltb_spec z 0); rewrite Hv; unfold Qeq; simpl; lia.
Qed.

Lemma num_int z : (Z.abs z < 2 ^ 53)%Z -> z <> 0%Z -> num z = DFin (inject_Z z).
Proof. apply round_int. Qed.

(** ** A rational that rounds to a double below [2^53] *)

Local Open Scope Q_scope.

Lemma div_round_even_qnear N D :
  (0 < D)%Z -> Qabs (inject_Z N / inject_Z D - inject_Z (div_round_even N D)) <= 1 # 2.
Proof.
  intros HD. pose proof (div_round_even_near N D HD) as H. pose proof (inject_Z_pos D HD) as HD'.
  set (m := div_round_even N D) in *.
  assert (H1 : inject_Z (2 * (N - m * D)) <= inject_Z D) by (rewrite <- Zle_Qle; lia).
  assert (H2 : inject_Z (- D) <= inject_Z (2 * (N - m * D))) by (rewrite <- Zle_Qle; lia).
  push_inject.
  assert (E : inject_Z N / inject_Z D - inject_Z m == (inject_Z N - inject_Z m * inject_Z D) / inject_Z D)
    by (field; lra).
  rewrite E. apply Qabs_Qle_condition. split.
  - apply Qle_shift_div_l; [done|]. lra.
  - apply Qle_shift_div_r; [done|]. lra.
Qed.

(** [round v = w] for [v > 0] with [v] or the double [w] below [2^53]:
    [v] scaled by its binade's [2^e], [e >= 0], is within a half of [w]
    scaled alike. *)
Lemma round_err v w :
  0 < v -> round v = DFin w -> w < 9007199254740992 \/ v < 9007199254740992 ->
  exists e, (0 <= e)%Z /\ (4503599627370496 <= v * 2 ^ e \/ e = emin) /\ v * 2 ^ e < 9007199254740992 /\
            Qabs (v - w) * 2 ^ e <= 1 # 2.
Proof.
  intros Hv Hr Hw. pose proof (Qnum_pos v Hv) as Hn. unfold round in Hr.
  rewrite (proj2 (Z.ltb_ge _ _)), Z.abs_eq in Hr by lia. unfold round_parts in Hr.
  pose proof (binade_exp_spec _ _ Hn (Pos2Z.is_pos (Qden v))) as HE. unfold binade in HE. rewrite Qnum_frac in HE.
  set (E := binade_exp _ _) in *. set (e := Z.min E emin) in *.
  pose proof (scale_value (Qnum v) (Zpos (Qden v)) e ltac:(lia)) as HN.
  destruct (scale _ _ e) as [N D]. destruct HN as [HD HN]. rewrite Qnum_frac in HN.
  pose proof (div_round_even_qnear N D HD) as Hm. set (m := div_round_even N D) in *. rewrite HN in Hm.
  destruct (m =? 0)%Z; [discriminate|]. destruct (overflows m e); [discriminate|].
  injection Hr as Hw'. assert (Hwm : w == inject_Z m * 2 ^ (- e)) by (rewrite <- Hw', Qred_correct; apply ldexp_neg_value).
  pose proof (p2_pos e). pose proof (p2_opp e). pose proof (p2_pos E). pose proof (p2_le e E (Z.le_min_l _ _)).
  destruct (Z.le_gt_cases 0 e) as [He|He].
  - exists e. split_and!; [done| |nra|].
    + unfold e. destruct (Z.le_gt_cases E emin); [left; rewrite Z.min_l by done; apply HE|right; by rewrite Z.min_r by lia].
    + assert (Hs : (v - w) * 2 ^ e == v * 2 ^ e - inject_Z m).
      { rewrite Hwm. transitivity (v * 2 ^ e - inject_Z m * (2 ^ (- e) * 2 ^ e)); [ring|]. rewrite p2_opp. ring. }
      rewrite <- (Qabs_pos (2 ^ e)) by lra. rewrite <- Qabs_Qmult, Hs. done.
  - exfalso. assert (HeE : e = E) by (unfold e; unfold emin in *; lia).
    rewrite <- HeE in HE. destruct HE as [HE1 HE2]. apply Qabs_Qle_condition in Hm as [_ Hm1].
    assert (Hm52 : 4503599627370496 <= inject_Z m).
    { assert (Hz : (4503599627370495 < m)%Z) by (rewrite Zlt_Qlt; change (inject_Z 4503599627370495) with 4503599627370495; lra).
      change 4503599627370496 with (inject_Z 4503599627370496). rewrite <- Zle_Qle. lia. }
    pose proof (p2_le 1 (- e) ltac:(lia)) as Hp2. change (2 ^ 1) with 2 in Hp2.
    assert (2 ^ e * 2 ^ (- e) == 1) as Hee by (rewrite Qmult_comm; apply p2_opp).
    destruct Hw as [Hw|Hw]; nra.
Qed.

(** An integer within less than one of another is that integer. *)
Lemma Z_near a b : Qabs (inject_Z a - inject_Z b) < 1 -> a = b.
Proof.
  intros H. apply Qabs_Qlt_condition in H as [H1 H2].
  assert (a < b + 1)%Z by (rewrite Zlt_Qlt; push_inject; change (inject_Z 1) with 1; lra).
  assert (b < a + 1)%Z by (rewrite Zlt_Qlt; push_inject; change (inject_Z 1) with 1; lra). lia.
Qed.

(** Below [2^50], rounding moves a value by at most a sixteenth. *)
Lemma round_near16 v w : 0 < v < 1125899906842624 -> round v = DFin w -> Qabs (v - w) <= 1 # 16.
Proof.
  intros Hv Hr. destruct (round_err v w (proj1 Hv) Hr) as (e & He & Hb & Hlt & Habs); [right; lra|].
  pose proof (Qabs_nonneg (v - w)).
  assert (H8 : 8 <= 2 ^ e).
  { change 8 with (2 ^ 3). apply p2_le. destruct Hb as [Hb| ->]; [|unfold emin; lia].
    destruct (Z.le_gt_cases 3 e) as [?|He3]; [done|]. exfalso.
    pose proof (p2_le e 2 ltac:(lia)) as H4. change (2 ^ 2) with 4 in H4. nra. }
  nra.
Qed.

Lemma p10_Z_lt j k : (j < k)%Z -> (0 <= j)%Z -> (10 ^ j < 10 ^ k)%Z.
Proof. intros. apply Z.pow_lt_mono_r; lia. Qed.

(** A rational [v] that rounds to a safe positive integer [z] is within
    a half of it, and within a sixteenth below [2^50]. *)
Lemma round_to_int v z :
  0 < v -> (0 < z < 2 ^ 53)%Z -> round v = DFin (inject_Z z) ->
  Qabs (v - inject_Z z) <= 1 # 2 /\ (v < 1125899906842624 -> Qabs (v - inject_Z z) <= 1 # 16).
Proof.
  intros Hv Hz Hr. split; [|intros; apply round_near16; [lra|done]].
  destruct (round_err v (inject_Z z) Hv Hr) as (e & He & _ & _ & Habs).
  { left. change 9007199254740992 with (inject_Z (2 ^ 53)). rewrite <- Zlt_Qlt. apply Hz. }
  pose proof (p2_le 0 e He) as H1. change (2 ^ 0) with 1 in H1. pose proof (Qabs_nonneg (v - inject_Z z)). nra.
Qed.

(** A valid triple of at most [ndigits z] digits for a safe positive
    integer [z] is [z] itself: its digits [s], then [n - k] zeros. *)
Lemma valid_int z k n s :
  (0 < z < 2 ^ 53)%Z -> (1 <= k <= ndigits z)%Z -> valid (DFin (inject_Z z)) k n s = true ->
  (k <= n)%Z /\ (s * 10 ^ (n - k) = z)%Z.
Proof.
  intros Hz Hk Hv. apply valid_parts in Hv as [Hs Hr].
  pose proof (ndigits_spec z ltac:(lia)) as [Hd1 Hd2]. set (d := ndigits z) in *.
  assert (Hs0 : (0 < s)%Z) by (pose proof (Z.pow_pos_nonneg 10 (k - 1)); lia).
  set (v := inject_Z s * NumberToString.pow10 (n - k)) in *.
  assert (Hv : v == inject_Z s * 10 ^ (n - k)) by (unfold v; by rewrite pow10_Q).
  assert (Hv0 : 0 < v) by (rewrite Hv; pose proof (p10_pos (n - k)); pose proof (inject_Z_pos s Hs0); nra).
  destruct (round_to_int v z Hv0 Hz Hr) as [Hhalf H16].
  destruct (Z.le_gt_cases k n) as [Hkn|Hkn].
  - split; [done|]. apply Z_near. rewrite inject_Z_mult, <- p10_Z, <- Hv by lia. lra.
  - exfalso.
    assert (Hsk : inject_Z s + 1 <= 10 ^ k).
    { rewrite p10_Z by lia. change 1 with (inject_Z 1). rewrite <- inject_Z_plus, <- Zle_Qle. lia. }
    assert (Hn10 : 10 ^ k * 10 ^ (n - k) == 10 ^ n) by (rewrite <- p10_add; by replace (k + (n - k))%Z with n by lia).
    pose proof (p10_pos (n - k)) as Hp.
    assert (Hvn : v + 10 ^ (n - k) <= 10 ^ n) by (rewrite Hv, <- Hn10; nra).
    apply Qabs_Qle_condition in Hhalf as [Hh1 Hh2].
    assert (Hnd : (n < d)%Z) by lia.
    assert (Hn0 : (0 <= n)%Z).
    { destruct (Z.le_gt_cases 0 n) as [?|Hn]; [done|]. exfalso.
      pose proof (p10_le n (-1) ltac:(lia)) as H1. change (10 ^ (-1)) with (1 # 10) in H1.
      assert (1 <= inject_Z z) by (change 1 with (inject_Z 1); rewrite <- Zle_Qle; lia). lra. }
    assert (Hzn : (z <= 10 ^ n)%Z) by (apply Z_of_Q_half; rewrite <- p10_Z by done; lra).
    assert (Hzd : (z = 10 ^ n)%Z /\ n = (d - 1)%Z).
    { destruct (Z.le_gt_cases n (d - 1)) as [Hle|]; [|lia].
      destruct (Z.eq_dec n (d - 1)) as [->|Hne]; [lia|]. pose proof (p10_Z_lt n (d - 1) ltac:(lia) Hn0). lia. }
    destruct Hzd as [Hzn' Hnd'].
    assert (Hn15 : (n <= 15)%Z).
    { destruct (Z.le_gt_cases n 15) as [?|Hn]; [done|]. pose proof (Z.pow_le_mono_r 10 16 n ltac:(lia) ltac:(lia)). lia. }
    assert (Hz50 : inject_Z z <= 1000000000000000).
    { change 1000000000000000 with (inject_Z (10 ^ 15)). rewrite <- Zle_Qle, Hzn'. apply Z.pow_le_mono_r; lia. }
    pose proof (p10_le (-1) (n - k) ltac:(lia)) as Hg. change (10 ^ (-1)) with (1 # 10) in Hg.
    assert (Hzq : inject_Z z == 10 ^ n) by (rewrite p10_Z by done; by rewrite Hzn').
    specialize (H16 ltac:(lra)). apply Qabs_Qle_condition in H16 as [H16 _]. lra.
Qed.

(** ** The search stops at the digits of [z] *)

(** [search] returns the first [k] with a valid candidate. *)
Lemma search_first x q k f k' n s j :
  search x q k f = Some (k', n, s) -> (k <= j)%Z -> (exists c, In c (cands q j) /\ valid x j c.1 c.2 = true) ->
  (k' <= j)%Z.
Proof.
  revert k. induction f as [|f IH]; intros k H Hj [c [Hc Hv]]; [done|]. simpl in H.
  destruct (best _ _ _) as [[n' s']|] eqn:B; [injection H as <- _ _; done|]. apply best_nil in B.
  destruct (Z.eq_dec k j) as [->|Hne].
  - assert (c ∈ filter (fun c => valid x j c.1 c.2) (cands q j))
      by (apply list_elem_of_filter; split; [by apply Is_true_true|by apply list_elem_of_In]).
    rewrite B in H0. by apply not_elem_of_nil in H0.
  - apply (IH (k + 1)%Z); [done|lia|eauto].
Qed.

(** The decimal exponent of a positive integer is its number of digits. *)
Lemma dec_exp_int z : (0 < z)%Z -> dec_exp (inject_Z z) = ndigits z.
Proof.
  intros Hz. pose proof (dec_exp_spec (inject_Z z) (inject_Z_pos z Hz)) as [H1 H2].
  pose proof (ndigits_Q z Hz) as [H3 H4]. pose proof (ndigits_pos z Hz).
  set (a := dec_exp _) in *. set (d := ndigits z) in *.
  destruct (Z.lt_total a d) as [Hlt|[Heq|Hgt]]; [exfalso| done |exfalso].
  - pose proof (p10_le a (d - 1) ltac:(lia)). lra.
  - pose proof (p10_le d (a - 1) ltac:(lia)). lra.
Qed.

(** [z] itself is a valid candidate of [ndigits z] digits. *)
Lemma int_candidate z :
  (0 < z < 2 ^ 53)%Z ->
  exists c, In c (cands (inject_Z z) (ndigits z)) /\ valid (DFin (inject_Z z)) (ndigits z) c.1 c.2 = true.
Proof.
  intros Hz. exists (ndigits z, z). split.
  - unfold cands. rewrite dec_exp_int by lia. left. f_equal.
    apply q_round_even_unique. rewrite Z.sub_diag. change (NumberToString.pow10 0) with 1.
    rewrite Qmult_1_r. unfold Qminus. rewrite Qplus_opp_r. reflexivity.
  - apply valid_intro; [apply ndigits_spec; lia|]. cbn [fst snd]. rewrite Z.sub_diag.
    change (NumberToString.pow10 0) with 1. rewrite Qmult_1_r. apply round_int; lia.
Qed.

(** ** Digit strings *)

Lemma radix_digit_10 c d : radix_digit 10 c = Some d -> c = ascii_of_nat (Z.to_nat (48 + d)).
Proof.
  unfold radix_digit. pose proof (ascii_nat_embedding c) as Ec.
  repeat case_bool_decide; try discriminate;
    match goal with |- context [(?x <? 10)%Z] => destruct (Z.ltb_spec x 10) end; intros Hd; try discriminate;
    injection Hd as <-; try lia.
  rewrite <- Ec at 1. f_equal. lia.
Qed.

(** Two digit strings of one length and one value are equal. *)
Lemma digits_eq a b :
  all_radix 10 a = true -> all_radix 10 b = true -> String.length a = String.length b ->
  digits_val 10 a = digits_val 10 b -> a = b.
Proof.
  revert b. induction a as [|c a IH]; intros [|c' b] Ha Hb Hl Hv; try done.
  rewrite all_radix_cons in Ha, Hb. apply andb_true_iff in Ha as [Hc Ha], Hb as [Hc' Hb].
  apply bool_decide_eq_true in Hc, Hc'.
  destruct (radix_digit 10 c) as [d|] eqn:Ed; [|done]. destruct (radix_digit 10 c') as [d'|] eqn:Ed'; [|done].
  injection Hl as Hl. rewrite (digits_val_cons c a d), (digits_val_cons c' b d') in Hv by done.
  pose proof (digits_val_bound a Ha). pose proof (digits_val_bound b Hb).
  pose proof (radix_digit_range _ _ _ Ed). pose proof (radix_digit_range _ _ _ Ed'). rewrite <- Hl in *.
  assert (d = d') as <- by nia. apply radix_digit_10 in Ed, Ed'. f_equal; [congruence|].
  apply IH; [done..|lia].
Qed.

Lemma plain_all_radix ds : plain_digits ds = true -> all_radix 10 ds = true.
Proof. destruct ds; [done|]. simpl. by intros [_ ?]%andb_true_iff. Qed.

(** The digits of [s * 10^j] are those of [s], then [j] zeros. *)
Lemma js_int_string_shift s j :
  (0 < s)%Z -> js_int_string s +:+ zeros j = js_int_string (s * 10 ^ Z.of_nat j).
Proof.
  intros Hs. pose proof (Z.pow_pos_nonneg 10 (Z.of_nat j) ltac:(lia) ltac:(lia)).
  destruct s as [|p|p]; try lia.
  destruct (Z_of_nat_complete_inf ((Zpos p * 10 ^ Z.of_nat j)%Z)) as [m Em]; [lia|].
  assert (Hq : exists q, (Zpos p * 10 ^ Z.of_nat j)%Z = Zpos q) by (exists (Pos.of_nat m); lia).
  destruct Hq as [q Eq]. rewrite Eq.
  assert (Hn : ndigits (Zpos q) = (ndigits (Zpos p) + Z.of_nat j)%Z).
  { rewrite <- Eq. apply ndigits_unique; [|pose proof (ndigits_pos (Zpos p)); lia].
    pose proof (ndigits_spec (Zpos p) ltac:(lia)) as [H1 H2]. pose proof (ndigits_pos (Zpos p) ltac:(lia)).
    replace (ndigits (Zpos p) + Z.of_nat j - 1)%Z with (ndigits (Zpos p) - 1 + Z.of_nat j)%Z by lia.
    rewrite !Z.pow_add_r by lia. nia. }
  apply digits_eq.
  - rewrite all_radix_app, plain_all_radix by apply js_int_string_plain. apply zeros_digits.
  - apply plain_all_radix, js_int_string_plain.
  - rewrite string_length_app, zeros_length. unfold ndigits in Hn. lia.
  - rewrite digits_val_app by (apply plain_all_radix, js_int_string_plain || apply zeros_digits).
    rewrite zeros_val, !js_int_string_val, zeros_length. lia.
Qed.

(** ** [String(z)] of a safe integer *)

(** The digit search on a safe positive integer ends with its digits. *)
Lemma pos_int_text a :
  (0 < a < 2 ^ 53)%Z -> (let '(k, n, s) := pos_digits (inject_Z a) in format k n (js_int_string s)) = js_int_string a.
Proof.
  intros Ha. pose proof (round_int a ltac:(lia) ltac:(lia)) as Hr.
  destruct (pos_digits_found (inject_Z a) (inject_Z_pos a ltac:(lia)) Hr) as (k & n & s & Hs & -> & Hv & Hk).
  pose proof (ndigits_spec a ltac:(lia)) as [Hd1 Hd2]. pose proof (ndigits_pos a ltac:(lia)).
  assert (Hd16 : (ndigits a <= 16)%Z).
  { destruct (Z.le_gt_cases (ndigits a) 16) as [?|Hg]; [done|].
    pose proof (Z.pow_le_mono_r 10 16 (ndigits a - 1) ltac:(lia) ltac:(lia)). lia. }
  pose proof (search_first _ _ _ _ _ _ _ (ndigits a) Hs ltac:(lia) (int_candidate a Ha)) as Hkd.
  destruct (valid_int a k n s Ha ltac:(lia) Hv) as [Hkn Hsn].
  pose proof (valid_parts _ _ _ _ Hv) as [[Hs1 Hs2] _].
  assert (Hnd : ndigits a = n).
  { apply ndigits_unique; [|lia]. rewrite <- Hsn. pose proof (Z.pow_pos_nonneg 10 (n - k)).
    assert (E1 : (10 ^ (n - 1) = 10 ^ (k - 1) * 10 ^ (n - k))%Z) by (rewrite <- Z.pow_add_r by lia; f_equal; lia).
    assert (E2 : (10 ^ n = 10 ^ k * 10 ^ (n - k))%Z) by (rewrite <- Z.pow_add_r by lia; f_equal; lia).
    rewrite E1, E2. nia. }
  unfold format. rewrite (proj2 (Z.leb_le k n) Hkn), (proj2 (Z.leb_le n 21)) by lia. simpl andb. cbv iota.
  rewrite js_int_string_shift by (pose proof (Z.pow_pos_nonneg 10 (k - 1)); lia).
  rewrite Z2Nat.id by lia. by rewrite Hsn.
Qed.

(** [String(z)] is the decimal digits of [z], with a minus sign when
    negative, for every safe integer [z]. *)
Theorem number_to_string_int z : (Z.abs z < 2 ^ 53)%Z -> number_to_string (num z) = js_int_string z.
Proof.
  intros Hz. destruct (Z.eq_dec z 0) as [->|Hz0]; [reflexivity|].
  rewrite num_int by done. unfold number_to_string. cbn [Qabs inject_Z Qnum].
  pose proof (pos_int_text (Z.abs z) ltac:(lia)) as Ht. destruct (pos_digits _) as [[k n] s]. rewrite Ht.
  destruct z as [|p|p]; [done|reflexivity|reflexivity].
Qed.

(** ** Exact arithmetic on safe integers *)

(** A rational between [k] and [k + 1] floors to [k]. *)
Lemma Qfloor_between w k : inject_Z k <= w < inject_Z k + 1 -> Qfloor w = k.
Proof.
  intros [H1 H2]. pose proof (Qfloor_le w). pose proof (Qlt_floor w) as Hl.
  rewrite inject_Z_plus in Hl. change (inject_Z 1) with 1 in Hl.
  assert (Qfloor w < k + 1)%Z by (rewrite Zlt_Qlt, inject_Z_plus; change (inject_Z 1) with 1; lra).
  assert (k < Qfloor w + 1)%Z by (rewrite Zlt_Qlt, inject_Z_plus; change (inject_Z 1) with 1; lra). lia.
Qed.

(** A value from 1 up to [2^54] rounds to a finite double. *)
Lemma round_fin v : 1 <= v < 18014398509481984 -> exists w, round v = DFin w.
Proof.
  intros Hv. pose proof (Qnum_pos v ltac:(lra)) as Hn. unfold round.
  rewrite (proj2 (Z.ltb_ge _ _)), Z.abs_eq by lia. unfold round_parts.
  pose proof (binade_exp_spec _ _ Hn (Pos2Z.is_pos (Qden v))) as HE. unfold binade in HE. rewrite Qnum_frac in HE.
  set (E := binade_exp _ _) in *.
  assert (HE0 : (-1 <= E <= 52)%Z).
  { destruct HE as [HE1 HE2]. split.
    - destruct (Z.le_gt_cases (-1) E) as [?|HE]; [done|]. pose proof (p2_le E (-2) ltac:(lia)) as Hp.
      change (2 ^ (-2)) with (1 # 4) in Hp. pose proof (p2_pos E). nra.
    - destruct (Z.le_gt_cases E 52) as [?|HE]; [done|]. pose proof (p2_le 53 E ltac:(lia)) as Hp.
      change (2 ^ 53) with 9007199254740992 in Hp. nra. }
  rewrite Z.min_l by (unfold emin; lia).
  pose proof (scale_value (Qnum v) (Zpos (Qden v)) E ltac:(lia)) as HN.
  destruct (scale _ _ E) as [N D]. destruct HN as [HD HN]. rewrite Qnum_frac in HN.
  pose proof (div_round_even_qnear N D HD) as Hm. rewrite HN in Hm. apply Qabs_Qle_condition in Hm as [Hm1 Hm2].
  set (m := div_round_even N D) in *.
  assert (Hm0 : (0 < m <= 2 ^ 53)%Z).
  { destruct HE as [HE1 HE2]. split.
    - rewrite Zlt_Qlt. change (inject_Z 0) with 0. lra.
    - apply Z_of_Q_half. change (inject_Z (2 ^ 53)) with 9007199254740992. lra. }
  rewrite (proj2 (Z.eqb_neq m 0)) by lia. unfold overflows.
  destruct (E <? 0)%Z eqn:Ee; [|eauto]. apply Z.ltb_lt in Ee. replace (- E)%Z with 1%Z by lia.
  rewrite (proj2 (Z.leb_gt _ _)) by lia. eauto.
Qed.

Lemma num_pos z : (0 < z < 2 ^ 53)%Z -> num z = DFin (inject_Z z).
Proof. intros. apply num_int; lia. Qed.

Lemma num_0 : num 0 = DZero false.
Proof. reflexivity. Qed.

Lemma dle_num a b : (0 < a < 2 ^ 53)%Z -> (0 < b < 2 ^ 53)%Z -> dle (num a) (num b) = (a <=? b)%Z.
Proof.
  intros Ha Hb. rewrite (num_pos a), (num_pos b) by done. unfold dle, dlt. rewrite negb_involutive.
  destruct (Z.leb_spec a b) as [H|H].
  - apply Qle_bool_iff. by rewrite <- Zle_Qle.
  - apply not_true_iff_false. rewrite Qle_bool_iff, <- Zle_Qle. lia.
Qed.

Lemma dadd_num a b : (0 < a < 2 ^ 53)%Z -> (0 < b < 2 ^ 53)%Z -> dadd (num a) (num b) = num (a + b).
Proof. intros Ha Hb. rewrite (num_pos a), (num_pos b) by done. apply round_Qeq. by rewrite inject_Z_plus. Qed.

Lemma dmul_num a b : (0 < a < 2 ^ 53)%Z -> (0 < b < 2 ^ 53)%Z -> dmul (num a) (num b) = num (a * b).
Proof. intros Ha Hb. rewrite (num_pos a), (num_pos b) by done. apply round_Qeq. by rewrite inject_Z_mult. Qed.

(** [Math.floor(z / 10)] is the integer quotient. *)
Lemma floor_div10 z : (10 <= z < 2 ^ 53)%Z -> math_floor_d (ddiv (num z) (num 10)) = num (z / 10).
Proof.
  intros Hz. rewrite (num_pos z), (num_pos 10) by lia. cbn [ddiv].
  set (x := inject_Z z / inject_Z 10).
  pose proof (Z.div_mod z 10 ltac:(lia)) as Hd. pose proof (Z.mod_pos_bound z 10 ltac:(lia)) as Hr.
  set (k := (z / 10)%Z) in *. set (r := (z mod 10)%Z) in *.
  assert (Hk : (1 <= k < 2 ^ 50)%Z) by lia.
  assert (Hx : x == inject_Z k + inject_Z r / 10).
  { unfold x. rewrite Hd, inject_Z_plus, inject_Z_mult. change (inject_Z 10) with 10. field. }
  assert (Hr0 : 0 <= inject_Z r / 10 <= 9 # 10).
  { assert (0 <= inject_Z r <= 9) by (split; [change 0 with (inject_Z 0)|change 9 with (inject_Z 9)]; rewrite <- Zle_Qle; lia).
    split; [apply Qle_shift_div_l|apply Qle_shift_div_r]; lra. }
  assert (Hk50 : inject_Z k + 1 <= 1125899906842624).
  { change 1125899906842624 with (inject_Z (2 ^ 50)). change 1 with (inject_Z 1). rewrite <- inject_Z_plus, <- Zle_Qle. lia. }
  assert (Hk1 : 1 <= inject_Z k) by (change 1 with (inject_Z 1); rewrite <- Zle_Qle; lia).
  destruct (round_fin x) as [w Hw]; [rewrite Hx; lra|].
  pose proof (round_near16 x w ltac:(rewrite Hx; lra) Hw) as Hn. apply Qabs_Qle_condition in Hn.
  rewrite Hw. cbn [math_floor_d].
  assert (Hf : Qfloor w = k).
  { apply Qfloor_between. destruct (Z.eq_dec r 0) as [Hr'|Hr'].
    - rewrite (round_Qeq x (inject_Z k)), round_int in Hw by (lia || (rewrite Hx, Hr'; change (inject_Z 0) with 0; field)).
      injection Hw as <-. lra.
    - assert (1 <= inject_Z r) by (change 1 with (inject_Z 1); rewrite <- Zle_Qle; lia).
      assert (1 # 10 <= inject_Z r / 10) by (apply Qle_shift_div_l; lra). lra. }
  rewrite Hf, (proj2 (Z.eqb_neq k 0)) by lia. reflexivity.
Qed.

(** [z % 10] on doubles. *)
Lemma drem_num10 z : (0 < z < 2 ^ 53)%Z -> drem (num z) (num 10) = num (z mod 10).
Proof.
  intros Hz. rewrite (num_pos z), (num_pos 10) by lia. cbn [drem].
  assert (Ht : qtrunc (inject_Z z / inject_Z 10) = (z / 10)%Z).
  { unfold qtrunc. rewrite (proj2 (Qle_bool_iff _ _)).
    - unfold Qfloor. simpl. by rewrite Z.mul_1_r.
    - apply Qle_shift_div_l; [reflexivity|]. rewrite Qmult_0_l. change 0 with (inject_Z 0). rewrite <- Zle_Qle. lia. }
  rewrite Ht. pose proof (Z.div_mod z 10 ltac:(lia)) as Hd.
  assert (Hr : inject_Z z - inject_Z 10 * inject_Z (z / 10) == inject_Z (z mod 10)).
  { rewrite <- inject_Z_mult. unfold Qminus. rewrite <- inject_Z_opp, <- inject_Z_plus. unfold Qeq. simpl. lia. }
  destruct (Qeq_bool _ 0) eqn:E.
  - apply Qeq_bool_iff in E. rewrite Hr in E. assert (z mod 10 = 0)%Z as -> by (unfold Qeq in E; simpl in E; lia).
    cbn [dsign]. rewrite (proj2 (Z.ltb_ge _ _)) by (simpl; lia). reflexivity.
  - by rewrite Hr.
Qed.

Lemma strict_eq_num0 z : (0 <= z < 2 ^ 53)%Z -> strict_eq (num z) (num 0) = (z =? 0)%Z.
Proof.
  intros Hz. destruct (Z.eq_dec z 0) as [->|Hz0]; [reflexivity|].
  rewrite num_pos by lia. rewrite (proj2 (Z.eqb_neq z 0)) by done. reflexivity.
Qed.

Lemma dle_fin p q : dle (DFin p) (DFin q) = Qle_bool p q.
Proof. unfold dle, dlt. apply negb_involutive. Qed.

(** The loop's last step: [c + 10] is above [c], also where it is no
    longer safe. *)
Lemma dle_num_next c : (1 <= c < 2 ^ 53)%Z -> dle (num (c + 10)) (num c) = false.
Proof.
  intros Hc. rewrite (num_pos c) by lia. unfold num.
  assert (Hy : 1 <= inject_Z (c + 10) < 18014398509481984).
  { split; [change 1 with (inject_Z 1)|change 18014398509481984 with (inject_Z (2 ^ 54))]; rewrite <- ?Zle_Qle, <- ?Zlt_Qlt; lia. }
  destruct (round_fin _ Hy) as [w Hw]. rewrite Hw, dle_fin. apply not_true_iff_false. rewrite Qle_bool_iff. intros Hle.
  assert (Hc' : inject_Z c < 9007199254740992) by (change 9007199254740992 with (inject_Z (2 ^ 53)); rewrite <- Zlt_Qlt; lia).
  destruct (Qlt_le_dec w 9007199254740992) as [Hw53|Hw53]; [|lra].
  destruct (round_err (inject_Z (c + 10)) w ltac:(lra) Hw (or_introl Hw53)) as (e & He & _ & _ & Habs).
  pose proof (p2_le 0 e He) as H1. change (2 ^ 0) with 1 in H1. pose proof (Qabs_nonneg (inject_Z (c + 10) - w)).
  assert (Hab : Qabs (inject_Z (c + 10) - w) <= 1 # 2) by nra. apply Qabs_Qle_condition in Hab.
  rewrite inject_Z_plus in Hab. change (inject_Z 10) with 10 in Hab. lra.
Qed.

Lemma math_min_num a b : (0 < a < 2 ^ 53)%Z -> (0 < b < 2 ^ 53)%Z -> math_min_d (num a) (num b) = num (Z.min a b).
Proof.
  intros Ha Hb. rewrite (num_pos a), (num_pos b), (num_pos (Z.min a b)) by lia. unfold math_min_d, dlt.
  destruct (Z.le_gt_cases a b) as [H|H].
  - rewrite Z.min_l by done. rewrite (proj2 (Qle_bool_iff _ _)) by (by rewrite <- Zle_Qle). reflexivity.
  - rewrite Z.min_r by lia. replace (Qle_bool (inject_Z a) (inject_Z b)) with false; [reflexivity|].
    symmetry. apply not_true_iff_false. rewrite Qle_bool_iff, <- Zle_Qle. lia.
Qed.

(** [parseInt(String(z), 10)] is [z]. *)
Lemma parse_int_int_string z : (1 <= z)%Z -> ToNumber.parse_int (js_int_string z) = num z.
Proof.
  intros Hz. pose proof (js_parseInt_int_string z) as H. unfold js_parseInt in H. unfold ToNumber.parse_int.
  destruct (split_sign (skip_space (js_int_string z))) as [sg rest].
  destruct (span_digits_acc None rest).1 as [v|]; [|done]. injection H as H.
  rewrite (proj2 (Z.eqb_neq v 0)) by (intros ->; lia). by rewrite H.
Qed.

(** An integer is integral. *)
Lemma is_integral_int z : is_integral (inject_Z z) = true.
Proof. unfold is_integral. rewrite (Qred_identity (inject_Z z)) by (simpl; apply Z.gcd_1_r). reflexivity. Qed.

End IntegerText.
