(* ===== verification/JsonText.v ===== *)
(** * JsonText: [JSON.stringify] and [JSON.parse]

    The screens hand their data to the next screen as route parameters
    of JSON text: the selected subjects (study.tsx line 46), the session
    options (past-options.tsx lines 26 and 34, read back by past-study.tsx
    line 16), the results and the corrections payload (past-study.tsx
    lines 145-146, read back by exam-results.tsx line 21 and
    exam-corrections.tsx line 24).  This file models the two functions
    of the language on the values of [Json]: the printer with its string
    escapes and the property order of [Object.keys], and the parser, a
    recursive descent with fuel, over strings of bytes (a character is
    one code unit below 256).

    A JSON number is an integer in [jval], standing for the double
    nearest to it.  The printer writes it with [Number::toString]
    ([JsNumber]); for a safe integer ([|n| < 2^53], the values [jwfb]
    admits) that is its decimal digits ([IntegerText]), so
    [JSON.parse] reads it back ([parse_stringify]).  The parser refuses
    a number with a fraction or an exponent ([None]) and a [\u] escape
    of a code unit above 255, outside the byte model.  A Number that is
    not an integer has no [jval]: the senders that may hold one
    ([Routes.Records.countJson]) say so with [option]. *)

From S2P Require Import Prelude Json Scoring JsNumber ToStringFacts RoundTrip IntegerText.
From Stdlib Require Import Ascii DecimalString.

Module JsonText.
Import NumberToString JsMath.

(** ** Printing *)

Definition quote : ascii := "034"%char.
Definition backslash : ascii := "092"%char.

(** A lowercase hexadecimal digit. *)
Definition hex_digit (n : nat) : ascii :=
  if n <? 10 then ascii_of_nat (48 + n) else ascii_of_nat (87 + n).

(** QuoteJSONString: the escapes of the quote and the backslash, the five short control
    escapes, and [\u00XX] for the other control characters. *)
Definition escape_char (c : ascii) : string :=
  let n := nat_of_ascii c in
  if bool_decide (c = quote) then String backslash (String quote EmptyString)
  else if bool_decide (c = backslash) then String backslash (String backslash EmptyString)
  else if n =? 8 then String backslash (String "b" EmptyString)
  else if n =? 9 then String backslash (String "t" EmptyString)
  else if n =? 10 then String backslash (String "n" EmptyString)
  else if n =? 12 then String backslash (String "f" EmptyString)
  else if n =? 13 then String backslash (String "r" EmptyString)
  else if n <? 32 then
    String backslash (String "u" (String "0" (String "0"
      (String (hex_digit (n / 16)) (String (hex_digit (n mod 16)) EmptyString)))))
  else String c EmptyString.

Fixpoint escape (s : string) : string :=
  match s with
  | EmptyString => EmptyString
  | String c s' => escape_char c +:+ escape s'
  end.

Definition quote_string (s : string) : string :=
  String quote (escape s +:+ String quote EmptyString).

(** [JSON.stringify(v)]: no white space, the properties of an object in
    the order of [Object.keys]. *)
Fixpoint json_stringify (v : jval) : string :=
  match v with
  | JNull => "null"
  | JBool true => "true"
  | JBool false => "false"
  | JNum n => number_to_string (num n)
  | JStr s => quote_string s
  | JArr l => "[" +:+ js_join "," (map json_stringify l) +:+ "]"
  | JObj ps =>
      "{" +:+ js_join "," (map (fun '(k, t) => quote_string k +:+ ":" +:+ t)
                              (own_props (map (fun '(k, x) => (k, json_stringify x)) ps)))
      +:+ "}"
  end.

(** ** Parsing *)

Definition json_ws (c : ascii) : bool :=
  bool_decide (c ∈ [" "; "009"; "010"; "013"]%char).

Fixpoint skip_ws (s : string) : string :=
  match s with
  | String c s' => if json_ws c then skip_ws s' else s
  | EmptyString => EmptyString
  end.

Definition hex_value (c : ascii) : option nat :=
  let n := nat_of_ascii c in
  if (48 <=? n) && (n <=? 57) then Some (n - 48)
  else if (97 <=? n) && (n <=? 102) then Some (n - 87)
  else if (65 <=? n) && (n <=? 70) then Some (n - 55)
  else None.

(** The code unit of four hexadecimal digits, when it is a byte. *)
Definition unit_of_hex (a b c d : ascii) : option ascii :=
  match hex_value a, hex_value b, hex_value c, hex_value d with
  | Some x, Some y, Some z, Some w =>
      let u := ((x * 16 + y) * 16 + z) * 16 + w in
      if u <? 256 then Some (ascii_of_nat u) else None
  | _, _, _, _ => None
  end.

(** The short escapes. *)
Definition short_escape (e : ascii) : option ascii :=
  if bool_decide (e = quote) then Some quote
  else if bool_decide (e = backslash) then Some backslash
  else if bool_decide (e = "/"%char) then Some "/"%char
  else if bool_decide (e = "b"%char) then Some (ascii_of_nat 8)
  else if bool_decide (e = "t"%char) then Some (ascii_of_nat 9)
  else if bool_decide (e = "n"%char) then Some (ascii_of_nat 10)
  else if bool_decide (e = "f"%char) then Some (ascii_of_nat 12)
  else if bool_decide (e = "r"%char) then Some (ascii_of_nat 13)
  else None.

Definition cons_fst (c : ascii) (p : string * string) : string * string := (String c p.1, p.2).

(** The body of a string literal after its opening quote: the string
    and what follows the closing quote.  A raw control character is a
    [SyntaxError]. *)
Fixpoint pstring (s : string) : option (string * string) :=
  match s with
  | EmptyString => None
  | String c s' =>
      if bool_decide (c = quote) then Some (EmptyString, s')
      else if bool_decide (c = backslash) then
        match s' with
        | String "u"%char (String a (String b (String c' (String d r)))) =>
            match unit_of_hex a b c' d with
            | Some u => cons_fst u <$> pstring r
            | None => None
            end
        | String e r =>
            match short_escape e with
            | Some u => cons_fst u <$> pstring r
            | None => None
            end
        | EmptyString => None
        end
      else if nat_of_ascii c <? 32 then None
      else cons_fst c <$> pstring s'
  end.

Definition is_digit (c : ascii) : bool := bool_decide (48 <= nat_of_ascii c <= 57).

(** The characters that would continue a number past its integer part. *)
Definition continues_number (s : string) : bool :=
  match s with
  | String c _ => is_digit c || bool_decide (c ∈ ["."; "e"; "E"]%char)
  | EmptyString => false
  end.

(** A number: an optional minus, then [0] or a digit string without a
    leading zero. *)
Definition pnumber (s : string) : option (Z * string) :=
  let '(sg, t) := match s with String "-"%char t => ((-1)%Z, t) | _ => (1%Z, s) end in
  match t with
  | String "0"%char r => if continues_number r then None else Some (0%Z, r)
  | String c _ =>
      if is_digit c then
        match span_digits_acc None t with
        | (Some v, r) => if continues_number r then None else Some ((sg * v)%Z, r)
        | (None, _) => None
        end
      else None
  | EmptyString => None
  end.

(** The value at the start of [s] (after white space) and the rest.
    Each call spends one unit of fuel; [json_parse] gives as much fuel as
    the text has characters, which is enough (see [pvalue_print]). *)
Fixpoint pvalue (n : nat) (s : string) {struct n} : option (jval * string) :=
  match n with
  | O => None
  | S n' =>
      match skip_ws s with
      | String "n"%char (String "u"%char (String "l"%char (String "l"%char r))) => Some (JNull, r)
      | String "t"%char (String "r"%char (String "u"%char (String "e"%char r))) => Some (JBool true, r)
      | String "f"%char (String "a"%char (String "l"%char (String "s"%char (String "e"%char r)))) =>
          Some (JBool false, r)
      | String c r =>
          if bool_decide (c = quote) then (fun p => (JStr p.1, p.2)) <$> pstring r
          else if bool_decide (c = "["%char) then
            match skip_ws r with
            | String "]"%char r' => Some (JArr [], r')
            | _ => (fun p => (JArr p.1, p.2)) <$> pelems n' r
            end
          else if bool_decide (c = "{"%char) then
            match skip_ws r with
            | String "}"%char r' => Some (JObj [], r')
            | _ => (fun p => (JObj (foldl (fun acc kv => assoc_set kv.1 kv.2 acc) [] p.1), p.2)) <$> pmembers n' r
            end
          else (fun p => (JNum p.1, p.2)) <$> pnumber (String c r)
      | EmptyString => None
      end
  end
(** The elements of an array after its [\[], up to and past its [\]]. *)
with pelems (n : nat) (s : string) {struct n} : option (list jval * string) :=
  match n with
  | O => None
  | S n' =>
      match pvalue n' s with
      | Some (v, r) =>
          match skip_ws r with
          | String ","%char r' => (fun p => (v :: p.1, p.2)) <$> pelems n' r'
          | String "]"%char r' => Some ([v], r')
          | _ => None
          end
      | None => None
      end
  end
(** The members of an object after its brace, in text order, up to and
    past the closing brace. *)
with pmembers (n : nat) (s : string) {struct n} : option (list (string * jval) * string) :=
  match n with
  | O => None
  | S n' =>
      match skip_ws s with
      | String c r =>
          if bool_decide (c = quote) then
            match pstring r with
            | Some (k, r1) =>
                match skip_ws r1 with
                | String ":"%char r2 =>
                    match pvalue n' r2 with
                    | Some (v, r3) =>
                        match skip_ws r3 with
                        | String ","%char r4 => (fun p => ((k, v) :: p.1, p.2)) <$> pmembers n' r4
                        | String "}"%char r4 => Some ([(k, v)], r4)
                        | _ => None
                        end
                    | None => None
                    end
                | _ => None
                end
            | None => None
            end
          else None
      | EmptyString => None
      end
  end.

(** [JSON.parse(s)]: [None] is a [SyntaxError].  The members of an
    object are defined in text order, a repeated key keeping its first
    place and its last value. *)
Definition json_parse (s : string) : option jval :=
  match pvalue (String.length s) s with
  | Some (v, r) => if bool_decide (skip_ws r = EmptyString) then Some v else None
  | None => None
  end.

End JsonText.

Module JsonFacts.
Import NumberToString JsMath IntegerText JsonText.

(** ** Strings *)

(** Each escape reads back as its character; checked for the 256 bytes
    by conversion. *)
Lemma pstring_escape_char c t :
  pstring (escape_char c +:+ t) = cons_fst c <$> pstring t.
Proof. destruct c as [[] [] [] [] [] [] [] []]; reflexivity. Qed.

Lemma pstring_escape s rest :
  pstring (escape s +:+ String quote rest) = Some (s, rest).
Proof.
  induction s as [|c s IH]; [done|]. simpl. rewrite string_app_assoc, pstring_escape_char, IH.
  done.
Qed.

Lemma quote_string_app s rest :
  quote_string s +:+ rest = String quote (escape s +:+ String quote rest).
Proof. unfold quote_string. by autorewrite with jstr. Qed.

(** ** Numbers *)

Lemma digit_value_none c : is_digit c = false -> digit_value c = None.
Proof.
  unfold is_digit, digit_value. intros H. apply bool_decide_eq_false in H.
  rewrite bool_decide_false; [done|]. lia.
Qed.

Lemma span_uint_app acc d rest :
  continues_number rest = false ->
  span_digits_acc acc (NilEmpty.string_of_uint d +:+ rest) =
  (match d with Decimal.Nil => acc | _ => Some (uval (default 0%Z acc) d) end, rest).
Proof.
  intros Hr. revert acc. induction d; intros acc; simpl;
    [|rewrite IHd; destruct d; simpl; rewrite ?Z.add_0_r; reflexivity..].
  destruct rest as [|c r]; [done|]. simpl in Hr. apply orb_false_iff in Hr as [Hd _].
  rewrite string_app_nil_l. simpl. by rewrite digit_value_none.
Qed.

Lemma pnumber_print z rest :
  continues_number rest = false -> pnumber (js_int_string z +:+ rest) = Some (z, rest).
Proof.
  intros Hr. unfold js_int_string. destruct z as [|p|p].
  - cbn -[continues_number]. rewrite string_app_cons, string_app_nil_l.
    unfold pnumber. cbn -[continues_number]. by rewrite Hr.
  - pose proof (span_uint_app None (Pos.to_uint p) rest Hr) as Hs.
    change (default 0%Z None) with 0%Z in Hs.
    pose proof (uval_to_uint p) as Hv. pose proof (to_uint_lead p) as Hl.
    cbn -[continues_number span_digits_acc]. destruct (Pos.to_uint p); try contradiction;
      cbn [NilEmpty.string_of_uint] in *; rewrite string_app_cons in *;
      unfold pnumber; cbn -[continues_number span_digits_acc]; rewrite Hs, Hr, Hv; reflexivity.
  - pose proof (span_uint_app None (Pos.to_uint p) rest Hr) as Hs.
    change (default 0%Z None) with 0%Z in Hs.
    pose proof (uval_to_uint p) as Hv. pose proof (to_uint_lead p) as Hl.
    cbn -[continues_number span_digits_acc]. rewrite string_app_cons.
    destruct (Pos.to_uint p); try contradiction;
      cbn [NilEmpty.string_of_uint] in *; rewrite string_app_cons in *;
      unfold pnumber; cbn -[continues_number span_digits_acc]; rewrite Hs, Hr, Hv; reflexivity.
Qed.

(** ** Values *)

(** Induction on [jval] with the hypotheses on the elements of arrays
    and the values of objects. *)
Definition jval_ind' (P : jval -> Prop)
    (Hnull : P JNull) (Hbool : forall b, P (JBool b)) (Hnum : forall n, P (JNum n))
    (Hstr : forall s, P (JStr s)) (Harr : forall l, Forall P l -> P (JArr l))
    (Hobj : forall ps, Forall (fun kv => P kv.2) ps -> P (JObj ps)) : forall v, P v :=
  fix go v :=
    match v with
    | JNull => Hnull
    | JBool b => Hbool b
    | JNum n => Hnum n
    | JStr s => Hstr s
    | JArr l =>
        Harr l ((fix gol l := match l return Forall P l with
                              | [] => List.Forall_nil P
                              | x :: l' => @List.Forall_cons _ P x l' (go x) (gol l')
                              end) l)
    | JObj ps =>
        Hobj ps ((fix gop ps := match ps return Forall (fun kv => P kv.2) ps with
                                | [] => List.Forall_nil _
                                | (k, x) :: ps' => @List.Forall_cons _ (fun kv => P kv.2) (k, x) ps' (go x) (gop ps')
                                end) ps)
    end.

(** The values [JSON.stringify] prints as they are: objects without
    repeated keys and without array-index keys, whose order
    [Object.keys] would change.  The values the app sends are such. *)
Fixpoint jwfb (v : jval) : bool :=
  match v with
  | JNum n => bool_decide (Z.abs n < 2 ^ 53)%Z
  | JArr l => forallb jwfb l
  | JObj ps =>
      bool_decide (NoDup (map fst ps)) &&
      forallb (fun kv => match kv with (k, x) => bool_decide (array_index k = None) && jwfb x end) ps
  | _ => true
  end.

(** The fuel [pvalue] needs. *)
Fixpoint jsize (v : jval) : nat :=
  match v with
  | JArr l => 1 + list_sum (map (fun x => S (jsize x)) l)
  | JObj ps => 1 + list_sum (map (fun kv => match kv with (_, x) => S (jsize x) end) ps)
  | _ => 1
  end.

Lemma own_props_plain {A} (ps : list (string * A)) :
  Forall (fun kv => array_index kv.1 = None) ps -> own_props ps = ps.
Proof.
  intros H. unfold own_props, index_props.
  assert (E : omap (fun p : string * A => match array_index p.1 with Some n => Some (n, p) | None => None end) ps = []).
  { induction H as [|[k x] ps Hk H IH]; [done|]. simpl in *. by rewrite Hk. }
  rewrite E. simpl. apply filter_all. intros y Hy. by eapply Forall_forall in H.
Qed.

Lemma assoc_set_fresh {A} k (x : A) acc :
  k ∉ map fst acc -> assoc_set k x acc = acc ++ [(k, x)].
Proof.
  induction acc as [|[k' x'] acc IH]; intros Hk; [done|]. simpl in *.
  rewrite bool_decide_false by set_solver. rewrite IH; [done|set_solver].
Qed.

Lemma foldl_assoc_set {A} (ps acc : list (string * A)) :
  NoDup (map fst (acc ++ ps)) ->
  foldl (fun acc kv => assoc_set kv.1 kv.2 acc) acc ps = acc ++ ps.
Proof.
  revert acc. induction ps as [|[k x] ps IH]; intros acc Hnd; simpl; [by rewrite app_nil_r|].
  rewrite assoc_set_fresh.
  - rewrite IH; [by rewrite <- app_assoc|]. by rewrite <- app_assoc.
  - rewrite map_app in Hnd. simpl in Hnd. apply NoDup_app in Hnd as (_ & Hd & _).
    intros Hk. apply (Hd k Hk). by left.
Qed.

Lemma skip_ws_cons c t : json_ws c = false -> skip_ws (String c t) = String c t.
Proof. simpl. by intros ->. Qed.

(** ** Printing then parsing *)

Lemma pvalue_num n z rest :
  pvalue (S n) (js_int_string z +:+ rest) = (fun p => (JNum p.1, p.2)) <$> pnumber (js_int_string z +:+ rest).
Proof.
  destruct z as [|p|p]; [reflexivity| |]; pose proof (to_uint_lead p) as Hl;
    unfold js_int_string; simpl; destruct (Pos.to_uint p); try contradiction; reflexivity.
Qed.

Lemma pelems_S n s :
  pelems (S n) s =
  match pvalue n s with
  | Some (v, r) =>
      match skip_ws r with
      | String ","%char r' => (fun p => (v :: p.1, p.2)) <$> pelems n r'
      | String "]"%char r' => Some ([v], r')
      | _ => None
      end
  | None => None
  end.
Proof. reflexivity. Qed.

Lemma pmembers_S n s :
  pmembers (S n) s =
  match skip_ws s with
  | String c r =>
      if bool_decide (c = quote) then
        match pstring r with
        | Some (k, r1) =>
            match skip_ws r1 with
            | String ":"%char r2 =>
                match pvalue n r2 with
                | Some (v, r3) =>
                    match skip_ws r3 with
                    | String ","%char r4 => (fun p => ((k, v) :: p.1, p.2)) <$> pmembers n r4
                    | String "}"%char r4 => Some ([(k, v)], r4)
                    | _ => None
                    end
                | None => None
                end
            | _ => None
            end
        | None => None
        end
      else None
  | EmptyString => None
  end.
Proof. reflexivity. Qed.

(** What the induction proves of a value: it parses back from its
    printed text with enough fuel, before any text that does not
    continue a number. *)
Definition prints_back (v : jval) : Prop :=
  forall n rest, jsize v <= n -> continues_number rest = false ->
  pvalue n (json_stringify v +:+ rest) = Some (v, rest).

Lemma pelems_print l :
  l <> [] -> Forall (fun v => jwfb v = true -> prints_back v) l -> forallb jwfb l = true ->
  forall n rest, list_sum (map (fun x => S (jsize x)) l) <= n ->
  pelems n (js_join "," (map json_stringify l) +:+ "]" +:+ rest) = Some (l, rest).
Proof.
  induction l as [|x l IH]; [done|]. intros _ Hall Hwf n rest Hn.
  apply Forall_cons in Hall as [Hx Hall]. simpl in Hwf. apply andb_true_iff in Hwf as [Hwx Hwl].
  simpl in Hn. destruct n as [|n]; [lia|]. rewrite pelems_S.
  destruct l as [|y l].
  - simpl js_join. rewrite (Hx Hwx n ("]" +:+ rest)) by (simpl in *; lia || reflexivity). done.
  - change (js_join "," (map json_stringify (x :: y :: l)))
      with (json_stringify x +:+ "," +:+ js_join "," (map json_stringify (y :: l))).
    rewrite !string_app_assoc.
    rewrite (Hx Hwx n _) by (simpl in *; lia || reflexivity).
    rewrite string_app_cons, string_app_nil_l, skip_ws_cons by reflexivity. cbv iota beta.
    rewrite IH by (done || simpl in *; lia). done.
Qed.

Definition member_text (kv : string * string) : string :=
  match kv with (k, t) => quote_string k +:+ ":" +:+ t end.

Definition plain_member (kv : string * jval) : bool :=
  match kv with (k, x) => bool_decide (array_index k = None) && jwfb x end.

Definition member_size (kv : string * jval) : nat := match kv with (_, x) => S (jsize x) end.

Definition print_member (kv : string * jval) : string * string :=
  match kv with (k, x) => (k, json_stringify x) end.

(** Reading a member [key:value] and the separator after it. *)
Lemma pmember_step n k x after :
  prints_back x -> jsize x <= n -> continues_number after = false ->
  pmembers (S n) (member_text (print_member (k, x)) +:+ after) =
  match skip_ws after with
  | String ","%char r4 => (fun p => ((k, x) :: p.1, p.2)) <$> pmembers n r4
  | String "}"%char r4 => Some ([(k, x)], r4)
  | _ => None
  end.
Proof.
  intros Hx Hn Ha. rewrite pmembers_S. cbn [member_text print_member]. rewrite !string_app_assoc.
  rewrite quote_string_app, skip_ws_cons by reflexivity.
  rewrite bool_decide_true by done. rewrite pstring_escape.
  rewrite string_app_cons, string_app_nil_l, skip_ws_cons by reflexivity. cbv iota beta.
  by rewrite (Hx n after Hn Ha).
Qed.

Lemma pmembers_print ps :
  ps <> [] -> Forall (fun kv => jwfb kv.2 = true -> prints_back kv.2) ps ->
  forallb plain_member ps = true ->
  forall n rest, list_sum (map member_size ps) <= n ->
  pmembers n (js_join "," (map member_text (map print_member ps)) +:+ "}" +:+ rest) = Some (ps, rest).
Proof.
  induction ps as [|[k x] ps IH]; [done|]. intros _ Hall Hwf n rest Hn.
  apply Forall_cons in Hall as [Hx Hall]. simpl in Hwf, Hx.
  apply andb_true_iff in Hwf as [Hwx Hwl]. apply andb_true_iff in Hwx as [_ Hwx].
  simpl in Hn. destruct n as [|n]; [lia|].
  destruct ps as [|kv ps].
  - change (js_join "," (map member_text (map print_member [(k, x)]))) with (member_text (print_member (k, x))).
    rewrite pmember_step by (done || lia || apply Hx; done). done.
  - change (js_join "," (map member_text (map print_member ((k, x) :: kv :: ps))))
      with (member_text (print_member (k, x)) +:+ "," +:+ js_join "," (map member_text (map print_member (kv :: ps)))).
    rewrite !string_app_assoc.
    rewrite pmember_step by (done || lia || apply Hx; done).
    rewrite string_app_cons, string_app_nil_l, skip_ws_cons by reflexivity. cbv iota beta.
    rewrite IH by (done || simpl in *; lia). done.
Qed.

Lemma stringify_obj ps :
  forallb plain_member ps = true ->
  json_stringify (JObj ps) = "{" +:+ js_join "," (map member_text (map print_member ps)) +:+ "}".
Proof.
  intros Hp. simpl. rewrite own_props_plain; [reflexivity|].
  apply Forall_forall. intros [k t] Hkt. apply list_elem_of_fmap in Hkt as ([k' x] & [= -> _] & Hin).
  pose proof (proj1 (forallb_forall _ _) Hp _ (proj1 (list_elem_of_In _ _) Hin)) as H1.
  simpl in H1. by apply andb_true_iff in H1 as [?%bool_decide_eq_true _].
Qed.

(** A printed value starts with a character that is neither white space
    nor a closing bracket. *)
Lemma stringify_head v :
  jwfb v = true -> exists c t, json_stringify v = String c t /\ json_ws c = false /\ c <> "]"%char.
Proof.
  intros Hwf. destruct v as [|[]|z|str|l|ps]; cbn [json_stringify];
    try (simpl in Hwf; apply bool_decide_eq_true in Hwf; rewrite number_to_string_int by done; destruct z as [|p|p]);
    try (by do 2 eexists; split_and!; [reflexivity|reflexivity|discriminate]).
  - pose proof (to_uint_lead p) as Hl. unfold js_int_string. simpl.
    destruct (Pos.to_uint p); try contradiction;
      (by do 2 eexists; split_and!; [reflexivity|reflexivity|discriminate]).
Qed.

Lemma match_not_close {A} c t (X : string -> A) (Y : A) :
  json_ws c = false -> c <> "]"%char ->
  match skip_ws (String c t) with String "]"%char r' => X r' | _ => Y end = Y.
Proof.
  intros Hw Hc. rewrite skip_ws_cons by done.
  destruct c as [[] [] [] [] [] [] [] []]; try reflexivity. by destruct Hc.
Qed.

Lemma match_not_brace {A} c t (X : string -> A) (Y : A) :
  json_ws c = false -> c <> "}"%char ->
  match skip_ws (String c t) with String "}"%char r' => X r' | _ => Y end = Y.
Proof.
  intros Hw Hc. rewrite skip_ws_cons by done.
  destruct c as [[] [] [] [] [] [] [] []]; try reflexivity. by destruct Hc.
Qed.

(** Printing then parsing gives the value back, for every well-formed
    value, with enough fuel and before a delimiter. *)
Lemma pvalue_print v : jwfb v = true -> prints_back v.
Proof.
  induction v as [| b | z | str | l IH | ps IH] using jval_ind';
    intros Hwf n rest Hn Hr; (destruct n as [|n]; [simpl in Hn; lia|]).
  - reflexivity.
  - destruct b; reflexivity.
  - cbn [json_stringify]. simpl in Hwf. apply bool_decide_eq_true in Hwf.
    rewrite number_to_string_int by done. rewrite pvalue_num. by rewrite pnumber_print.
  - cbn [json_stringify]. rewrite quote_string_app. cbn [pvalue].
    rewrite skip_ws_cons by reflexivity. cbv iota beta. rewrite bool_decide_true by done.
    by rewrite pstring_escape.
  - cbn [json_stringify]. destruct l as [|x l].
    + reflexivity.
    + rewrite !string_app_assoc. cbn [pvalue]. rewrite string_app_cons, string_app_nil_l.
      rewrite skip_ws_cons by reflexivity. cbv iota beta.
      rewrite bool_decide_false by done. rewrite bool_decide_true by done.
      destruct (stringify_head x) as (c & t & Hct & Hw & Hc); [simpl in Hwf; by apply andb_true_iff in Hwf as [? _]|].
      change (js_join "," (map json_stringify (x :: l))) with (js_join "," (json_stringify x :: map json_stringify l)).
      assert (Hs : exists u, js_join "," (json_stringify x :: map json_stringify l) +:+ "]" +:+ rest = String c u).
      { destruct l; simpl; rewrite Hct; eexists; by rewrite string_app_cons. }
      destruct Hs as [u Hu]. rewrite Hu, match_not_close by done. rewrite <- Hu.
      change (js_join "," (json_stringify x :: map json_stringify l)) with (js_join "," (map json_stringify (x :: l))).
      simpl in Hwf, Hn. rewrite pelems_print; [done|done|done|done|simpl; lia].
  - simpl in Hwf. apply andb_true_iff in Hwf as [Hnd Hp]. apply bool_decide_eq_true in Hnd.
    change (forallb plain_member ps = true) in Hp.
    rewrite stringify_obj by done. destruct ps as [|kv ps]; [reflexivity|].
    rewrite !string_app_assoc. cbn [pvalue]. rewrite string_app_cons, string_app_nil_l.
    rewrite skip_ws_cons by reflexivity. cbv iota beta.
    rewrite bool_decide_false by done. rewrite bool_decide_false by done. rewrite bool_decide_true by done.
    destruct kv as [k x].
    change (js_join "," (map member_text (map print_member ((k, x) :: ps))))
      with (js_join "," (member_text (print_member (k, x)) :: map member_text (map print_member ps))).
    assert (Hs : exists u, js_join "," (member_text (print_member (k, x)) :: map member_text (map print_member ps))
                           +:+ "}" +:+ rest = String quote u).
    { destruct (map member_text (map print_member ps)); cbn [js_join member_text print_member];
        unfold quote_string; eexists; by autorewrite with jstr. }
    destruct Hs as [u Hu]. rewrite Hu, match_not_brace by done. rewrite <- Hu.
    change (js_join "," (member_text (print_member (k, x)) :: map member_text (map print_member ps)))
      with (js_join "," (map member_text (map print_member ((k, x) :: ps)))).
    simpl in Hn. rewrite pmembers_print; [|done|done|done|unfold member_size; simpl; lia].
    simpl. by rewrite (foldl_assoc_set ps [(k, x)]).
Qed.

(** ** The fuel *)

Lemma list_sum_map_le {A} (f g : A -> nat) (l : list A) :
  (forall x, x ∈ l -> f x <= g x) -> list_sum (map f l) <= list_sum (map g l).
Proof.
  induction l as [|x l IH]; intros H; simpl; [lia|].
  pose proof (H x ltac:(left)). pose proof (IH ltac:(intros y Hy; apply H; by right)). lia.
Qed.

Lemma js_join_length l :
  list_sum (map (fun t => S (String.length t)) l) <= S (String.length (js_join "," l)).
Proof.
  induction l as [|x [|y l] IH]; simpl; [lia|lia|].
  change (js_join "," (x :: y :: l)) with (x +:+ "," +:+ js_join "," (y :: l)).
  rewrite !string_length_app. simpl in *. lia.
Qed.

Lemma stringify_length_pos v : jwfb v = true -> 1 <= String.length (json_stringify v).
Proof. intros Hwf. destruct (stringify_head v Hwf) as (c & t & -> & _). simpl. lia. Qed.

(** The printed text is at least as long as the fuel the parser needs. *)
Lemma jsize_le_length v : jwfb v = true -> jsize v <= String.length (json_stringify v).
Proof.
  induction v as [| b | z | str | l IH | ps IH] using jval_ind'; intros Hwf;
    try (simpl jsize; by apply stringify_length_pos).
  - cbn [json_stringify jsize]. rewrite !string_length_app. simpl.
    pose proof (js_join_length (map json_stringify l)) as Hj. rewrite map_map in Hj.
    enough (list_sum (map (fun x => S (jsize x)) l) <=
            list_sum (map (fun x => S (String.length (json_stringify x))) l)) by lia.
    apply list_sum_map_le. intros x Hx. simpl in Hwf.
    pose proof (proj1 (forallb_forall _ _) Hwf x (proj1 (list_elem_of_In _ _) Hx)).
    eapply Forall_forall in IH; [|done]. specialize (IH ltac:(done)). lia.
  - simpl in Hwf. apply andb_true_iff in Hwf as [Hnd Hp]. change (forallb plain_member ps = true) in Hp.
    rewrite stringify_obj by done. cbn [jsize]. rewrite !string_length_app. simpl.
    pose proof (js_join_length (map member_text (map print_member ps))) as Hj. rewrite !map_map in Hj. rewrite map_map.
    enough (list_sum (map (fun kv => match kv with (_, x) => S (jsize x) end) ps) <=
            list_sum (map (fun kv => S (String.length (member_text (print_member kv)))) ps)) by lia.
    apply list_sum_map_le. intros [k x] Hx.
    pose proof (proj1 (forallb_forall _ _) Hp _ (proj1 (list_elem_of_In _ _) Hx)) as Hkx.
    simpl in Hkx. apply andb_true_iff in Hkx as [_ Hwx].
    eapply Forall_forall in IH; [|done]. specialize (IH Hwx). simpl in IH.
    cbn [member_text print_member]. unfold quote_string. rewrite !string_length_app. simpl. lia.
Qed.

(** Parsing the printed text of a value gives the value back. *)
Lemma parse_stringify v : jwfb v = true -> json_parse (json_stringify v) = Some v.
Proof.
  intros Hwf. unfold json_parse.
  pose proof (pvalue_print v Hwf (String.length (json_stringify v)) "" (jsize_le_length v Hwf) eq_refl) as H.
  rewrite string_app_nil in H. by rewrite H.
Qed.

End JsonFacts.

Module JsonWitnesses.
Import JsonText JsonFacts.

(** A key with a quote, a string with a backslash, a newline and a
    control character, a negative number, and nesting. *)
Definition w_value : jval :=
  JObj [("say " +:+ String quote "hi" +:+ String quote EmptyString,
         JArr [JNum (-120); JStr ("a" +:+ String backslash ("n" +:+ String "010"%char (String "001"%char EmptyString)));
               JNull; JBool true; JObj []]);
        ("7x", JArr [])].

End JsonWitnesses.
