(* ===== verification/Pagination.v ===== *)
(** * Pagination: [src/components/utils/pagination.js] and page tracking

    [PaginationJs] models the three helpers of pagination.js over a model
    [jsnum] of JavaScript numbers (finite values as rationals, NaN and the
    two infinities), since [clampPage] guards on [Number.isFinite].
    [PageTracker] models the total-page formula of PastStudy.tsx, the
    parent's [pagesBySubject] map of past-study.tsx and the page selector
    sheet built from it. *)

From S2P Require Import Prelude.
From Stdlib Require Import QArith Qround.

(** ** JavaScript numbers *)

Inductive jsnum :=
  | JFin (q : Q)
  | JNaN
  | JInf
  | JNegInf.

(** Two JavaScript numbers are the same value when they denote the same
    real (or the same non-finite value). *)
Definition jsnum_eq (x y : jsnum) : Prop :=
  match x, y with
  | JFin a, JFin b => a == b
  | JNaN, JNaN | JInf, JInf | JNegInf, JNegInf => True
  | _, _ => False
  end.

#[export] Instance jsnum_eq_equiv : Equivalence jsnum_eq.
Proof.
  split.
  - intros []; simpl; auto. reflexivity.
  - intros [] []; simpl; auto. intros; symmetry; auto.
  - intros [] [] []; simpl; try tauto. intros H1 H2. by rewrite H1.
Qed.

(** [Number.isFinite]. *)
Definition is_finite (x : jsnum) : bool :=
  match x with JFin _ => true | _ => false end.

(** The relational operator [<] of JavaScript: false whenever NaN is
    involved. *)
Definition js_lt (x y : jsnum) : bool :=
  match x, y with
  | JNaN, _ | _, JNaN => false
  | JFin a, JFin b => negb (Qle_bool b a)
  | JNegInf, JNegInf => false
  | JNegInf, _ => true
  | JFin _, JInf => true
  | _, _ => false
  end.

(** A JavaScript number holding a non-negative integer. *)
Definition jsnat (n : nat) : jsnum := JFin (inject_Z (Z.of_nat n)).

Definition Qmax' (a b : Q) : Q := if Qle_bool a b then b else a.
Definition Qmin' (a b : Q) : Q := if Qle_bool a b then a else b.

Module PaginationJs.

(** [function computePrevEnabled(page) { return page > 1; }] *)
Definition computePrevEnabled (page : jsnum) : bool :=
  js_lt (JFin 1) page.

(** [function computeNextEnabled(page, totalPages) { return page < totalPages; }] *)
Definition computeNextEnabled (page totalPages : jsnum) : bool :=
  js_lt page totalPages.

(** [clampPage(target, totalPages)]: the two guards in source order,
    then [Math.max(1, Math.min(totalPages, Math.floor(target)))]. *)
Definition clampPage (target totalPages : jsnum) : Q :=
  if negb (is_finite target) || js_lt target (JFin 1) then 1
  else if negb (is_finite totalPages) || js_lt totalPages (JFin 1) then 1
  else match target, totalPages with
       | JFin t, JFin n => Qmax' 1 (Qmin' n (inject_Z (Qfloor t)))
       | _, _ => 1
       end.

End PaginationJs.

Module PageTracker.
Local Open Scope nat_scope.

(** [Math.max(1, Math.ceil(Number(totalCount || 0) / 10))] of
    PastStudy.tsx for a non-negative integer count. *)
Definition totalPagesOf (totalCount : nat) : nat :=
  Nat.max 1 ((totalCount + (page_size - 1)) / page_size).

(** [onPaginationMetaChange={(subj, total) => setPagesBySubject(prev =>
    ({ ...prev, [subj]: total }))}] of past-study.tsx. *)
Definition recordTotal (pagesBySubject : gmap string nat) (subj : string)
    (total : nat) : gmap string nat :=
  <[subj := total]> pagesBySubject.

(** The page chips of the selector sheet of past-study.tsx:
    [const total = pagesBySubject[s] || 10;
     Array.from({ length: total }, (_, idx) => idx + 1)]. *)
Definition sheetPages (pagesBySubject : gmap string nat) (s : string) : list nat :=
  let total := match pagesBySubject !! s with
               | Some n => if n =? 0 then 10 else n
               | None => 10
               end in
  seq 1 total.

End PageTracker.

(** ** Properties *)

Import PaginationJs PageTracker.

Lemma Qmax'_spec a b : a <= Qmax' a b /\ b <= Qmax' a b.
Proof.
  unfold Qmax'. destruct (Qle_bool a b) eqn:E.
  - apply Qle_bool_iff in E. split; [done|apply Qle_refl].
  - split; [apply Qle_refl|]. apply Qlt_le_weak, Qnot_le_lt.
    by rewrite <- Qle_bool_iff, E.
Qed.

Lemma Qmin'_spec a b : Qmin' a b <= a /\ Qmin' a b <= b.
Proof.
  unfold Qmin'. destruct (Qle_bool a b) eqn:E.
  - apply Qle_bool_iff in E. split; [apply Qle_refl|done].
  - split; [|apply Qle_refl]. apply Qlt_le_weak, Qnot_le_lt.
    by rewrite <- Qle_bool_iff, E.
Qed.

Lemma Qmax'_le a b c : a <= c -> b <= c -> Qmax' a b <= c.
Proof. unfold Qmax'. by destruct (Qle_bool a b). Qed.

Lemma Qfloor_inject_Z k : inject_Z (Qfloor (inject_Z k)) == inject_Z k.
Proof. by rewrite Qfloor_Z. Qed.

Lemma js_lt_fin_1 q : js_lt (JFin q) (JFin 1) = false -> 1 <= q.
Proof.
  simpl. destruct (Qle_bool 1 q) eqn:E; [|done].
  intros _. by apply Qle_bool_iff.
Qed.

(** [clampPage] lands in [1, totalPages] whenever [totalPages] is a
    finite number at least 1, whatever the target (NaN, infinite or
    fractional targets included). *)
Theorem clampPage_bounds (target : jsnum) (n : Q) :
  1 <= n -> 1 <= clampPage target (JFin n) <= n.
Proof.
  intros Hn. unfold clampPage.
  destruct (negb (is_finite target) || js_lt target (JFin 1)); [split; [apply Qle_refl|done]|].
  simpl. destruct (Qle_bool 1 n) eqn:E; simpl;
    [|apply Qle_bool_iff in Hn; congruence].
  destruct target as [t| | |]; try (split; [apply Qle_refl|done]).
  split; [apply Qmax'_spec|].
  apply Qmax'_le; [done|apply Qmin'_spec].
Qed.

Lemma Qmin'_eq_r a b : b <= a -> Qmin' a b == b.
Proof.
  unfold Qmin'. destruct (Qle_bool a b) eqn:E; [|reflexivity].
  apply Qle_bool_iff in E. intros H. by apply Qle_antisym.
Qed.

Lemma Qmax'_eq_r a b : a <= b -> Qmax' a b == b.
Proof.
  unfold Qmax'. destruct (Qle_bool a b) eqn:E; [reflexivity|].
  intros H. apply Qle_bool_iff in H. congruence.
Qed.

#[export] Instance Qmin'_proper : Proper (Qeq ==> Qeq ==> Qeq) Qmin'.
Proof. intros a a' Ha b b' Hb. unfold Qmin'. rewrite Ha, Hb. by destruct (Qle_bool a' b'). Qed.

#[export] Instance Qmax'_proper : Proper (Qeq ==> Qeq ==> Qeq) Qmax'.
Proof. intros a a' Ha b b' Hb. unfold Qmax'. rewrite Ha, Hb. by destruct (Qle_bool a' b'). Qed.

#[export] Instance JFin_proper : Proper (Qeq ==> jsnum_eq) JFin.
Proof. by intros a b H. Qed.

#[export] Instance js_lt_proper : Proper (jsnum_eq ==> jsnum_eq ==> eq) js_lt.
Proof.
  intros [] [] H [] [] H'; simpl in *; try contradiction; try done;
    by rewrite ?H, ?H'.
Qed.

(** [clampPage] does not distinguish two representations of the same
    number: it is a morphism for [jsnum_eq]. *)
#[export] Instance clampPage_proper : Proper (jsnum_eq ==> jsnum_eq ==> Qeq) clampPage.
Proof.
  intros x x' Hx y y' Hy. unfold clampPage.
  rewrite (js_lt_proper x x' Hx (JFin 1) (JFin 1) ltac:(reflexivity)).
  rewrite (js_lt_proper y y' Hy (JFin 1) (JFin 1) ltac:(reflexivity)).
  destruct x, x', y, y'; simpl in Hx, Hy; try contradiction; try reflexivity.
  destruct (_ || _); [reflexivity|]. destruct (_ || _); [reflexivity|].
  by rewrite Hx, Hy.
Qed.

Lemma Qle_bool_inject_Z (a b : Z) : Qle_bool (inject_Z a) (inject_Z b) = (a <=? b)%Z.
Proof. unfold Qle_bool; simpl. by rewrite !Z.mul_1_r. Qed.

Lemma js_lt_jsnat (a b : nat) : js_lt (jsnat a) (jsnat b) = (a <? b)%nat.
Proof.
  unfold js_lt, jsnat. rewrite Qle_bool_inject_Z.
  apply Bool.eq_iff_eq_true. rewrite Bool.negb_true_iff, Z.leb_gt, Nat.ltb_lt. lia.
Qed.

Lemma computePrevEnabled_jsnat (p : nat) :
  PaginationJs.computePrevEnabled (jsnat p) = (1 <? p)%nat.
Proof. apply (js_lt_jsnat 1 p). Qed.

Lemma computeNextEnabled_jsnat (p t : nat) :
  PaginationJs.computeNextEnabled (jsnat p) (jsnat t) = (p <? t)%nat.
Proof. apply js_lt_jsnat. Qed.

Lemma Qmin'_inject_Z (a b : Z) : Qmin' (inject_Z a) (inject_Z b) = inject_Z (Z.min a b).
Proof.
  unfold Qmin'. rewrite Qle_bool_inject_Z.
  destruct (Z.leb_spec a b); f_equal; lia.
Qed.

Lemma Qmax'_inject_Z (a b : Z) : Qmax' (inject_Z a) (inject_Z b) = inject_Z (Z.max a b).
Proof.
  unfold Qmax'. rewrite Qle_bool_inject_Z.
  destruct (Z.leb_spec a b); f_equal; lia.
Qed.

(** On integers, [clampPage] is [Z.max 1 (Z.min m (Qfloor t))]. *)
Lemma clampPage_Z (q : Q) (m : Z) :
  (1 <= m)%Z -> (1 <= Qfloor q)%Z ->
  clampPage (JFin q) (JFin (inject_Z m)) = inject_Z (Z.max 1 (Z.min m (Qfloor q))).
Proof.
  intros Hm Hq. unfold clampPage. simpl.
  change 1%Q with (inject_Z 1). rewrite Qle_bool_inject_Z.
  destruct (Z.leb_spec 1 m); [|lia].
  destruct (Qle_bool (inject_Z 1) q) eqn:E; simpl.
  - by rewrite Qmin'_inject_Z, Qmax'_inject_Z.
  - exfalso.
    assert (inject_Z 1 <= q); [|apply Qle_bool_iff in H0; congruence].
    eapply Qle_trans; [|apply Qfloor_le]. by rewrite <- Zle_Qle.
Qed.

Lemma clampPage_in_range_Z (k m : Z) :
  (1 <= k <= m)%Z -> clampPage (JFin (inject_Z k)) (JFin (inject_Z m)) == inject_Z k.
Proof.
  intros Hk. rewrite clampPage_Z by (rewrite ?Qfloor_Z; lia).
  rewrite Qfloor_Z. by replace (Z.max 1 (Z.min m k)) with k by lia.
Qed.

Lemma clampPage_integral (t : jsnum) (m : Z) :
  (1 <= m)%Z -> exists z, (1 <= z <= m)%Z /\ clampPage t (JFin (inject_Z m)) == inject_Z z.
Proof.
  intros Hm.
  destruct t as [q| | |]; try (exists 1%Z; split; [lia|reflexivity]).
  destruct (Z.le_gt_cases 1 (Qfloor q)) as [Hq|Hq].
  - exists (Z.max 1 (Z.min m (Qfloor q))). split; [lia|].
    by rewrite clampPage_Z.
  - exists 1%Z. split; [lia|]. unfold clampPage; simpl.
    destruct (Qle_bool 1 q) eqn:E; [|reflexivity]. exfalso.
    apply Qle_bool_iff in E. apply Qfloor_resp_le in E.
    change (Qfloor 1) with 1%Z in E. lia.
Qed.

(** [clampPage] is idempotent when the page total is an integer at
    least 1: clamping an already clamped page changes nothing. *)
Theorem clampPage_idempotent (t : jsnum) (m : Z) :
  (1 <= m)%Z ->
  clampPage (JFin (clampPage t (JFin (inject_Z m)))) (JFin (inject_Z m))
  == clampPage t (JFin (inject_Z m)).
Proof.
  intros Hm. destruct (clampPage_integral t m Hm) as (z & Hz & Heq).
  rewrite Heq. by apply clampPage_in_range_Z.
Qed.

(** when [totalPages] is not an integer, [clampPage] returns it
    unchanged for a large target, so the "page" it returns is not a page
    number: [clampPage(3, 2.5) = 2.5]. *)
Example clampPage_fractional_total :
  clampPage (JFin (inject_Z 3)) (JFin (5 # 2)) == 5 # 2.
Proof. reflexivity. Qed.

Local Open Scope nat_scope.

(** the total-page formula of PastStudy gives the least number of
    pages of ten that holds [totalCount] questions, and never less than
    one page ([totalCount = 0] gives one page). *)
Theorem totalPagesOf_least (totalCount : nat) :
  1 <= totalPagesOf totalCount /\
  totalCount <= totalPagesOf totalCount * page_size /\
  (0 < totalCount -> (totalPagesOf totalCount - 1) * page_size < totalCount).
Proof.
  unfold totalPagesOf, page_size. change (10 - 1) with 9.
  pose proof (Nat.div_mod (totalCount + 9) 10 ltac:(lia)).
  pose proof (Nat.mod_upper_bound (totalCount + 9) 10 ltac:(lia)).
  repeat split; [lia|lia|]. intros. lia.
Qed.

Lemma totalPagesOf_ge_1 n : (1 <= totalPagesOf n)%nat.
Proof. apply totalPagesOf_least. Qed.

#[export] Hint Resolve totalPagesOf_ge_1 : jcbt.

(** the page selector offers exactly the pages [1..total] of a subject
    whose total has been recorded (with a non-zero total). *)
Theorem sheetPages_recorded (m : gmap string nat) (s : string) (t p : nat) :
  m !! s = Some t -> (0 < t)%nat ->
  p ∈ sheetPages m s <-> (1 <= p <= t)%nat.
Proof.
  intros Hs Ht. unfold sheetPages. rewrite Hs.
  destruct (Nat.eqb_spec t 0); [lia|].
  rewrite list_elem_of_In, in_seq. lia.
Qed.

(** before the first page of a subject has been fetched, the selector
    offers ten pages whatever the subject's size: nothing bounds the
    selected page by the subject's real page count. *)
Theorem sheetPages_unrecorded (m : gmap string nat) (s : string) :
  m !! s = None -> sheetPages m s = seq 1 10.
Proof. intros Hs. unfold sheetPages. by rewrite Hs. Qed.

(** recording a total for a subject is read back by the selector and
    leaves the other subjects' totals unchanged. *)
Theorem recordTotal_lookup (m : gmap string nat) (s s' : string) (t : nat) :
  recordTotal m s t !! s' = if decide (s = s') then Some t else m !! s'.
Proof.
  unfold recordTotal. case_decide as Heq.
  - subst. apply lookup_insert_eq.
  - by apply lookup_insert_ne.
Qed.

(** ** Witnesses *)

Lemma clampPage_bounds_witness :
  (1 <= inject_Z 4)%Q /\ (1 <= clampPage (JFin (7 # 2)) (JFin (inject_Z 4)) <= inject_Z 4)%Q.
Proof.
  assert (H : (1 <= inject_Z 4)%Q) by (vm_compute; discriminate).
  split; [done|]. apply clampPage_bounds. done.
Defined.

Lemma clampPage_idempotent_witness :
  (1 <= 4)%Z /\
  (clampPage (JFin (clampPage JNaN (JFin (inject_Z 4)))) (JFin (inject_Z 4))
   == clampPage JNaN (JFin (inject_Z 4)))%Q.
Proof. split; [lia|]. apply clampPage_idempotent. lia. Defined.

Lemma sheetPages_recorded_witness :
  <["Biology" := 3]> (∅ : gmap string nat) !! "Biology" = Some 3 /\ 0 < 3 /\
  (2 ∈ sheetPages (<["Biology" := 3]> ∅) "Biology" <-> 1 <= 2 <= 3).
Proof.
  assert (H : <["Biology" := 3]> (∅ : gmap string nat) !! "Biology" = Some 3)
    by (vm_compute; reflexivity).
  split; [done|]. split; [lia|]. apply sheetPages_recorded; [done|lia].
Defined.

Lemma sheetPages_unrecorded_witness :
  (∅ : gmap string nat) !! "Physics" = None /\ sheetPages ∅ "Physics" = seq 1 10.
Proof. split; [reflexivity|]. apply sheetPages_unrecorded. reflexivity. Defined.
