(* ===== verification/Options.v ===== *)
(** * Options: the per-subject session options (PastOptions.tsx)

    [src/components/screens/PastOptions.tsx] configures, for each selected
    subject, the year, topic, number of questions and the two shuffle
    flags, then hands the list to [onStart], which
    [src/app/mode/past-options.tsx] forwards to the instructions screen
    (exam mode) or the study screen.  The component talks to the question
    service without awaiting in the handlers: the mount effect asks for
    the exam list, then the years, then each subject's question total;
    opening the count picker and choosing a year each start one more
    request.  Every request is a pending [Task] of the state; an event
    [OResolve i o] settles the [i]-th pending request with the outcome [o]
    (a value, or a rejected promise), so that responses arrive in any
    order and at any time, as they do on a network.  The service is an
    external collaborator: its answers are arbitrary JSON values.

    Counts are JavaScript numbers, the doubles of [JsNumber]: a total is
    read with [Number(...)] ([to_number]), a picked count with
    [parseInt] ([parse_int]), the picker's items are computed on doubles
    and printed with [String] ([number_to_string]), and [opt.count ||
    total] and [Math.min] are those of the language. *)

From S2P Require Import Prelude Json Questions JsNumber IntegerText.
From Stdlib Require Import QArith Qround.
Local Close Scope Q_scope.
Import QuestionModel.

Module PastOptions.
Import Double NumberToString JsMath ToNumber.

(** An option card (lines 18-25, with the count as a JavaScript number). *)
Record Opt := mkOpt {
  oSubject : string;
  oYear : string;
  oTopic : string;
  oCount : dbl;
  oShuffle : bool;
  oShuffleOptions : bool
}.

(** [SelectContext] (lines 27-30). *)
Inductive Field := FYear | FTopic | FCount.
Record Ctx := mkCtx { ctxField : option Field; ctxSubject : option string }.

(** A request in flight, with the arguments it was sent with. *)
Inductive Task :=
| TExams                                                  (* line 67 *)
| TYears (exam : option jval)                             (* line 71 *)
| TInitCount (exam : option jval) (latest sub : string)   (* line 92 *)
| TRefresh (exam : option jval) (year : option string) (subject : string)  (* line 172 *)
| TYearCount (exam : option jval) (value subject : string).  (* line 206 *)

(** How a request settles: a resolved value ([undefined] is [None]) or a
    rejection. *)
Inductive Outcome := Resolved (v : option jval) | Rejected.

(** The state of lines 50-61, the requests in flight, and the list
    handed to [onStart] by the last press of the button. *)
Record OState := mkOState {
  exam : option jval;
  years : list string;
  options : list Opt;
  maxCounts : gmap string dbl;
  selectOpen : bool;
  selectItems : list string;
  selectContext : Ctx;
  tasks : list Task;
  started : option (list Opt)
}.

Section Screen.
(** [selectedSubjects] (line 50). *)
Variable selectedSubjects : list string.

(** The default card of a subject (lines 79-86 and 121-128). *)
Definition defaultOpt (latest sub : string) : Opt := mkOpt sub latest "All Topic" (num 10) false false.
Definition defaults (latest : string) : list Opt := map (defaultOpt latest) selectedSubjects.

(** The [catch] of lines 115-130. *)
Definition fallback (s : OState) : OState :=
  mkOState (Some (JStr "JAMB")) ["2020"; "2021"; "2022"; "2023"; "2024"] (defaults "2024")
    (maxCounts s) (selectOpen s) (selectItems s) (selectContext s) (tasks s) (started s).

(** [Number(res?.data?.pagination?.total ?? 0)] (lines 93, 173, 207). *)
Definition totalOf (v : option jval) : dbl :=
  to_number (jcoalesce (jget (jget (jget v "data") "pagination") "total") (Some (JNum 0))).

(** [prev.map((opt) => opt.subject === sub ? f opt : opt)]. *)
Definition mapSubject (sub : string) (f : Opt -> Opt) (l : list Opt) : list Opt :=
  map (fun o => if bool_decide (oSubject o = sub) then f o else o) l.

Definition set_count (c : dbl) (o : Opt) : Opt :=
  mkOpt (oSubject o) (oYear o) (oTopic o) c (oShuffle o) (oShuffleOptions o).

(** [buildItems] (lines 151-162) on doubles: [String(total)] when
    [total <= 10]; otherwise [String(n)] for [n = 10, 20, ...] while
    [n <= Math.floor(total / 10) * 10], then [String(total)] when
    [total % 10 !== 0].  The [for] loop runs with fuel
    [floor(total / 10) + 1]: for a total below [2^53] every [n += 10]
    is exact and the loop stops after [floor(total / 10)] items. *)
Fixpoint count_loop (fuel : nat) (n capped : dbl) : list string :=
  match fuel with
  | O => []
  | S f => if dle n capped then number_to_string n :: count_loop f (dadd n (num 10)) capped else []
  end.

Definition loop_fuel (total : dbl) : nat :=
  match total with DFin q => S (Z.to_nat (Qfloor (q / 10)%Q)) | _ => O end.

Definition buildItems (total : dbl) : list string :=
  if dle total (num 10) then [number_to_string total]
  else
    let capped := dmul (math_floor_d (ddiv total (num 10))) (num 10) in
    count_loop (loop_fuel total) (num 10) capped ++
    (if strict_eq (drem total (num 10)) (num 0) then [] else [number_to_string total]).

Definition defaultCountItems : list string := ["10"; "20"; "30"; "40"; "50"; "60"].

(** Lines 67-70: [exams?.data || []], then [includes("JAMB")] and [[0]];
    [None] is the [TypeError] of a value without [includes]. *)
Definition pickExam (exams : option jval) : option (option jval) :=
  match jor (jget exams "data") (Some (JArr [])) with
  | Some (JArr l) =>
      Some (if existsb (fun x => js_str_eq (Some "JAMB") (Some x)) l then Some (JStr "JAMB") else l !! 0)
  | Some (JStr str) =>
      Some (if str_includes str "JAMB" then Some (JStr "JAMB")
            else match str with String c _ => Some (JStr (String c EmptyString)) | EmptyString => None end)
  | _ => None
  end.

(** Lines 72-73: [(yearsRes?.data) || []] mapped with [String]; [None]
    is the [TypeError] of a value without [map]. *)
Definition normalizeYears (yearsRes : option jval) : option (list string) :=
  match jor (jget yearsRes "data") (Some (JArr [])) with
  | Some (JArr l) => Some (map js_to_string l)
  | _ => None
  end.

(** [normalized[normalized.length - 1]] or ["2024"] (lines 75-77). *)
Definition latestOf (ys : list string) : string := default "2024" (last ys).

(** Field updates of the state. *)
Definition set_exam v s := mkOState v (years s) (options s) (maxCounts s) (selectOpen s) (selectItems s) (selectContext s) (tasks s) (started s).
Definition set_years v s := mkOState (exam s) v (options s) (maxCounts s) (selectOpen s) (selectItems s) (selectContext s) (tasks s) (started s).
Definition set_options v s := mkOState (exam s) (years s) v (maxCounts s) (selectOpen s) (selectItems s) (selectContext s) (tasks s) (started s).
Definition set_maxCounts v s := mkOState (exam s) (years s) (options s) v (selectOpen s) (selectItems s) (selectContext s) (tasks s) (started s).
Definition set_open v s := mkOState (exam s) (years s) (options s) (maxCounts s) v (selectItems s) (selectContext s) (tasks s) (started s).
Definition set_items v s := mkOState (exam s) (years s) (options s) (maxCounts s) (selectOpen s) v (selectContext s) (tasks s) (started s).
Definition set_ctx v s := mkOState (exam s) (years s) (options s) (maxCounts s) (selectOpen s) (selectItems s) v (tasks s) (started s).
Definition set_tasks v s := mkOState (exam s) (years s) (options s) (maxCounts s) (selectOpen s) (selectItems s) (selectContext s) v (started s).
Definition set_started v s := mkOState (exam s) (years s) (options s) (maxCounts s) (selectOpen s) (selectItems s) (selectContext s) (tasks s) v.
Definition add_tasks (ts : list Task) (s : OState) : OState := set_tasks (tasks s ++ ts) s.

(** [opt.count || total]: a count of [0], [-0] or [NaN] gives [total]. *)
Definition count_or (c total : dbl) : dbl :=
  match c with
  | DZero _ | DNaN => total
  | _ => c
  end.

(** What each request does when it settles. *)
Definition settleTask (t : Task) (o : Outcome) (s : OState) : OState :=
  match t, o with
  (* lines 67-71: pick the exam, then ask for its years *)
  | TExams, Resolved v =>
      match pickExam v with
      | Some ex => add_tasks [TYears ex] (set_exam ex s)
      | None => fallback s
      end
  (* lines 72-89: the years, the default cards, one count request per subject *)
  | TYears ex, Resolved v =>
      match normalizeYears v with
      | Some ys =>
          add_tasks (map (TInitCount ex (latestOf ys)) selectedSubjects)
            (set_options (defaults (latestOf ys)) (set_years ys s))
      | None => fallback s
      end
  | TExams, Rejected | TYears _, Rejected => fallback s
  (* lines 93-104 *)
  | TInitCount _ _ sub, Resolved v =>
      let total := totalOf v in
      if finite_pos total then
        set_options (mapSubject sub (set_count total) (options s))
          (set_maxCounts (<[sub := total]> (maxCounts s)) s)
      else s
  (* lines 173-177 *)
  | TRefresh _ _ subject, Resolved v =>
      let total := totalOf v in
      if finite_pos total then set_items (buildItems total) (set_maxCounts (<[subject := total]> (maxCounts s)) s)
      else s
  (* lines 207-218: clamp the count to the new year's total *)
  | TYearCount _ _ subj, Resolved v =>
      let total := totalOf v in
      if finite_pos total then
        set_options
          (mapSubject subj (fun o => set_count (math_min_d (count_or (oCount o) total) total) o) (options s))
          (set_maxCounts (<[subj := total]> (maxCounts s)) s)
      else s
  (* the [console.warn] of lines 105-111, 178-180 and 219-221 *)
  | TInitCount _ _ _, Rejected | TRefresh _ _ _, Rejected | TYearCount _ _ _, Rejected => s
  end.

(** [openSelect] (lines 134-183), up to its [await]. *)
Definition openSelect (field : Field) (subject : string) (s : OState) : OState :=
  let s1 := set_open true (set_ctx (mkCtx (Some field) (Some subject)) s) in
  match field with
  | FYear => set_items (years s) s1
  | FTopic => set_items ["All Topic"] s1
  | FCount =>
      let year := match js_find (fun o => bool_decide (oSubject o = subject)) (options s) with
                  | Some o => Some (oYear o)
                  | None => last (years s)
                  end in
      (* [maxCounts[subject]]: an absent key is [undefined], which
         [Number.isFinite] rejects as it rejects [NaN] *)
      let currentMax := default DNaN (maxCounts s !! subject) in
      let items := if finite_pos currentMax then buildItems currentMax else defaultCountItems in
      add_tasks [TRefresh (exam s) year subject] (set_items items s1)
  end.

Definition set_year (v : string) (o : Opt) : Opt :=
  mkOpt (oSubject o) v (oTopic o) (oCount o) (oShuffle o) (oShuffleOptions o).
Definition set_topic (v : string) (o : Opt) : Opt :=
  mkOpt (oSubject o) (oYear o) v (oCount o) (oShuffle o) (oShuffleOptions o).

(** [applySelect] (lines 185-223), up to its [await]. *)
Definition applySelect (value : string) (s : OState) : OState :=
  let c := selectContext s in
  let upd (o : Opt) : Opt :=
    if bool_decide (Some (oSubject o) <> ctxSubject c) then o
    else match ctxField c with
         | Some FYear => set_year value o
         | Some FTopic => set_topic value o
         | Some FCount => set_count (parse_int value) o
         | None => o
         end in
  let s1 := set_ctx (mkCtx None None) (set_open false (set_options (map upd (options s)) s)) in
  match ctxField c, ctxSubject c with
  | Some FYear, Some subj => if bool_decide (subj <> "") then add_tasks [TYearCount (exam s) value subj] s1 else s1
  | _, _ => s1
  end.

Inductive ShuffleType := TQuestion | TOptions.

(** [toggleShuffle] (lines 225-233). *)
Definition toggleShuffle (subject : string) (t : ShuffleType) (s : OState) : OState :=
  set_options (mapSubject subject (fun o =>
    match t with
    | TQuestion => mkOpt (oSubject o) (oYear o) (oTopic o) (oCount o) (negb (oShuffle o)) (oShuffleOptions o)
    | TOptions => mkOpt (oSubject o) (oYear o) (oTopic o) (oCount o) (oShuffle o) (negb (oShuffleOptions o))
    end) (options s)) s.

(** The events: a request settles, or a press on a control that is on
    screen (the cards while the picker is closed, the picker's items and
    Cancel while it is open). *)
Inductive OEvent :=
| OResolve (i : nat) (o : Outcome)
| OOpen (field : Field) (subject : string)
| OApply (value : string)
| OCancel
| OToggle (subject : string) (t : ShuffleType)
| OStart.

Definition card (subject : string) (s : OState) : bool := bool_decide (subject ∈ map oSubject (options s)).

Definition ostep (s : OState) (e : OEvent) : OState :=
  match e with
  | OResolve i o =>
      match tasks s !! i with
      | Some t => settleTask t o (set_tasks (delete i (tasks s)) s)
      | None => s
      end
  | OOpen f subject => if negb (selectOpen s) && card subject s then openSelect f subject s else s
  | OApply v => if selectOpen s && bool_decide (v ∈ selectItems s) then applySelect v s else s
  | OCancel => if selectOpen s then set_open false s else s   (* line 363 and 381 *)
  | OToggle subject t => if negb (selectOpen s) && card subject s then toggleShuffle subject t s else s
  | OStart => if selectOpen s then s else set_started (Some (options s)) s   (* lines 235-237 *)
  end.

(** The state after mounting: every [useState] initial value, and the
    request of the mount effect (lines 63-132) in flight. *)
Definition initial : OState :=
  mkOState (Some (JStr "JAMB")) [] [] ∅ false [] (mkCtx None None) [TExams] None.

Definition orun (es : list OEvent) : OState := foldl ostep initial es.

End Screen.

(** The card of lines 245-344 and the footer button of lines 347-357. *)
Record CardView := mkCardView {
  cvSubject : string; cvYear : string; cvTopic : string; cvCount : string;
  cvShuffle : bool; cvShuffleOptions : bool
}.

Definition countText (c : dbl) : string := number_to_string c.

Definition cardView (o : Opt) : CardView :=
  mkCardView (oSubject o) (oYear o) (oTopic o) (countText (oCount o)) (oShuffle o) (oShuffleOptions o).

Definition ctaText (mode : string) : string := if bool_decide (mode = "exam") then "Continue" else "Start Study".

(** The modal of lines 359-387: its items when it is open. *)
Definition modalItems (s : OState) : option (list string) := if selectOpen s then Some (selectItems s) else None.

End PastOptions.

(** ** The route wrapper, past-options.tsx *)

Module PastOptionsRoute.
Import Double PastOptions.

(** Lines 12-19: the [subjects] parameter, parsed. *)
Definition selectedSubjectsOf (param : option (list string)) : list string := default [] param.

(** Lines 21-39: where [onStart] leads. *)
Inductive Route := ToInstructions (opts : list Opt) (mode : string) | ToStudy (opts : list Opt) (mode : string).

Definition handleStart (mode : option string) (opts : list Opt) : Route :=
  if bool_decide (mode = Some "exam") then ToInstructions opts "exam"
  else ToStudy opts (default "study" (mode ||| Some "study")%jcbt).

(** Line 54: the [mode] prop of PastOptions, [String(params.mode || "")]. *)
Definition modeProp (mode : option string) : string := default "" (mode ||| Some "")%jcbt.

(** A count as the integer [count] of a [SubjectOption]: a zero or a
    positive integral double; [None] for [NaN], an infinity, a negative
    or a fractional count. *)
Definition count_nat (c : dbl) : option nat :=
  match c with
  | DZero _ => Some 0
  | DFin q => if is_integral q && (0 <? Qnum q)%Z then Some (Z.to_nat (Qfloor q)) else None
  | _ => None
  end.

(** A configured card as the [SubjectOption] the session reads, when its
    count is a non-negative integer. *)
Definition toSubjectOption (o : Opt) : option SubjectOption :=
  (fun c => mkSubjectOption (oSubject o) (oYear o) (oTopic o) c (oShuffle o) (oShuffleOptions o)) <$> count_nat (oCount o).

End PastOptionsRoute.

(** ** The count picker's items *)

Import PastOptions.
Import Double NumberToString JsMath ToNumber IntegerText.

(** A safe count: the double of an integer from one up to [2^53 - 1]
    ([Number.isSafeInteger]). *)
Definition safe_count (x : dbl) : Prop := exists z, x = num z /\ (1 <= z < 2 ^ 53)%Z.

Lemma count_loop_seq (f a m : nat) :
  m + 1 - a <= f -> 1 <= a <= m + 1 -> 1 <= m -> (10 * Z.of_nat m < 2 ^ 53)%Z ->
  count_loop f (num (10 * Z.of_nat a)) (num (10 * Z.of_nat m)) =
  map (fun i => js_int_string (10 * Z.of_nat i)) (seq a (m + 1 - a)).
Proof.
  revert a. induction f as [|f IH]; intros a Hf Ha Hm1 Hm; simpl.
  - by replace (m + 1 - a) with 0 by lia.
  - destruct (decide (a <= m)) as [Hle|Hgt].
    + rewrite dle_num, (proj2 (Z.leb_le _ _)) by lia.
      replace (m + 1 - a) with (S (m + 1 - S a)) by lia. simpl. f_equal; [apply number_to_string_int; lia|].
      rewrite dadd_num by lia. replace (10 * Z.of_nat a + 10)%Z with (10 * Z.of_nat (S a))%Z by lia. apply IH; lia.
    + replace a with (S m) by lia. replace (10 * Z.of_nat (S m))%Z with (10 * Z.of_nat m + 10)%Z by lia.
      rewrite dle_num_next by lia. by replace (m + 1 - S m) with 0 by lia.
Qed.

(** [buildItems] on a safe total, in closed form: the multiples of ten
    from 10 up to the total, then the total when it is not one of them,
    each printed as its digits. *)
Lemma buildItems_num (z : Z) :
  (1 <= z < 2 ^ 53)%Z ->
  buildItems (num z) =
    if (z <=? 10)%Z then [js_int_string z]
    else map (fun i => js_int_string (10 * Z.of_nat i)) (seq 1 (Z.to_nat (z / 10))) ++
         (if (z mod 10 =? 0)%Z then [] else [js_int_string z]).
Proof.
  intros Hz. unfold buildItems. rewrite dle_num by lia. destruct (Z.leb_spec z 10) as [Hle|Hgt].
  { by rewrite number_to_string_int by lia. }
  pose proof (Z.div_pos z 10 ltac:(lia) ltac:(lia)). pose proof (Z.mul_div_le z 10 ltac:(lia)).
  assert (Hq : (1 <= z / 10)%Z) by (apply Z.div_le_lower_bound; lia).
  rewrite floor_div10, dmul_num by lia. rewrite drem_num10, strict_eq_num0 by (pose proof (Z.mod_pos_bound z 10); lia).
  rewrite number_to_string_int by lia. f_equal.
  set (m := Z.to_nat (z / 10)). replace (z / 10 * 10)%Z with (10 * Z.of_nat m)%Z by (unfold m; lia).
  assert (Hf : loop_fuel (num z) = S m).
  { rewrite num_pos by lia. unfold loop_fuel, m, Qfloor. simpl. by rewrite Z.mul_1_r. }
  rewrite Hf. pose proof (count_loop_seq (S m) 1 m ltac:(lia) ltac:(lia) ltac:(lia) ltac:(unfold m; lia)) as E.
  change (10 * Z.of_nat 1)%Z with 10%Z in E. rewrite E. by replace (m + 1 - 1) with m by lia.
Qed.

(** An item that [parseInt] reads as a safe count. *)
Definition pos_item (v : string) : Prop := exists z, parse_int v = num z /\ (1 <= z < 2 ^ 53)%Z.

Lemma pos_item_int (z : Z) : (1 <= z < 2 ^ 53)%Z -> pos_item (js_int_string z).
Proof. intros H. exists z. by rewrite parse_int_int_string by lia. Qed.

(** Every item of [buildItems total] reads back as a count in [1, total],
    and the last one is [total]. *)
Lemma buildItems_items (z : Z) :
  (1 <= z < 2 ^ 53)%Z ->
  Forall (fun v => exists c, parse_int v = num c /\ (1 <= c <= z)%Z) (buildItems (num z)) /\
  last (buildItems (num z)) = Some (js_int_string z).
Proof.
  intros H. rewrite buildItems_num by done. destruct (Z.leb_spec z 10) as [Hle|Hgt].
  - split; [|done]. constructor; [|constructor]. exists z. rewrite parse_int_int_string by lia. split; [done|lia].
  - set (m := Z.to_nat (z / 10)).
    assert (Hm : (10 * Z.of_nat m <= z /\ 1 <= Z.of_nat m)%Z).
    { unfold m. rewrite Z2Nat.id by (apply Z.div_pos; lia). split; [apply Z.mul_div_le; lia|apply Z.div_le_lower_bound; lia]. }
    split.
    + apply Forall_app. split.
      * apply Forall_forall. intros v ([|i] & -> & Hi%elem_of_seq)%list_elem_of_fmap; [lia|].
        eexists. rewrite parse_int_int_string by lia. split; [done|]. lia.
      * destruct (z mod 10 =? 0)%Z; [constructor|]. constructor; [|constructor].
        eexists. rewrite parse_int_int_string by lia. split; [done|lia].
    + destruct (Z.eqb_spec (z mod 10) 0) as [Hmod|Hmod]; [|by rewrite last_snoc].
      rewrite app_nil_r.
      destruct m as [|m'] eqn:Em; [lia|]. rewrite <- Em.
      replace (seq 1 m) with (seq 1 m' ++ [m]) by (rewrite Em, seq_S; f_equal).
      rewrite map_app. cbn [map]. rewrite last_snoc. do 2 f_equal. unfold m.
      rewrite Z2Nat.id by (apply Z.div_pos; lia). pose proof (Z.div_mod z 10). lia.
Qed.

(** ** The invariant of the options screen *)

(** The service's totals are integers: [Number(total)], when finite and
    positive, is a safe integer (the adapter's [totalCount: integer]). *)
Definition total_ok (x : dbl) : Prop := finite_pos x = true -> safe_count x.

Definition event_ok (e : OEvent) : Prop :=
  match e with OResolve _ (Resolved v) => total_ok (totalOf v) | _ => True end.

Definition count_pos (o : Opt) : Prop := safe_count (oCount o).

(** The cards are none yet or one per selected subject, in order; every
    count and every recorded maximum is a safe count; the count picker
    only offers safe counts; and so does every list handed to
    [onStart]. *)
Definition oinv (sel : list string) (s : OState) : Prop :=
  (map oSubject (options s) = [] \/ map oSubject (options s) = sel) /\
  Forall count_pos (options s) /\
  map_Forall (fun _ m => safe_count m) (maxCounts s) /\
  (ctxField (selectContext s) = Some FCount -> Forall pos_item (selectItems s)) /\
  (forall l, started s = Some l -> (map oSubject l = [] \/ map oSubject l = sel) /\ Forall count_pos l).

Lemma mapSubject_subjects sub f l :
  (forall o, oSubject (f o) = oSubject o) -> map oSubject (mapSubject sub f l) = map oSubject l.
Proof. intros Hf. unfold mapSubject. rewrite map_map. apply map_ext. intros o. by case_bool_decide. Qed.

Lemma mapSubject_Forall (P : Opt -> Prop) sub f l :
  (forall o, P o -> P (f o)) -> Forall P l -> Forall P (mapSubject sub f l).
Proof. intros Hf Hl. apply Forall_map, (Forall_impl _ _ _ Hl). intros o Ho. by case_bool_decide; auto. Qed.

Lemma defaults_inv sel latest :
  map oSubject (defaults sel latest) = sel /\ Forall count_pos (defaults sel latest).
Proof.
  unfold defaults. rewrite map_map. split; [apply map_id|].
  apply Forall_map, Forall_forall. intros. by exists 10%Z.
Qed.

Lemma safe_items (z : Z) : (1 <= z < 2 ^ 53)%Z -> Forall pos_item (buildItems (num z)).
Proof.
  intros Hz. eapply Forall_impl; [apply (buildItems_items z Hz)|]. intros v (c & Hc & ?). exists c. split; [done|lia].
Qed.

Lemma safe_count_or a t :
  safe_count a -> safe_count t -> safe_count (math_min_d (count_or a t) t).
Proof.
  intros (za & -> & Ha) (zt & -> & Ht). rewrite (num_pos za) at 1 by lia. cbn [count_or].
  rewrite <- num_pos by lia. rewrite math_min_num by lia. exists (Z.min za zt). split; [done|lia].
Qed.

Ltac ounfold :=
  unfold oinv, fallback, add_tasks, set_exam, set_years, set_options, set_maxCounts,
    set_open, set_items, set_ctx, set_tasks, set_started in *; simpl in *.

Lemma oinv_options sel s l :
  oinv sel s -> map oSubject l = map oSubject (options s) -> Forall count_pos l ->
  oinv sel (set_options l s).
Proof. intros (H1 & H2 & H3 & H4 & H5) Hl Hc. ounfold. rewrite Hl. auto. Qed.

Lemma settleTask_inv sel t o s :
  oinv sel s -> (forall v, o = Resolved v -> total_ok (totalOf v)) -> oinv sel (settleTask sel t o s).
Proof.
  intros Hs Ho. pose proof Hs as (H1 & H2 & H3 & H4 & H5).
  assert (Hfb : oinv sel (fallback sel s)).
  { destruct (defaults_inv sel "2024"). ounfold. auto. }
  destruct t, o as [v|]; simpl; try done.
  - destruct (pickExam v); [ounfold; auto|done].
  - destruct (normalizeYears v) as [ys|]; [|done].
    destruct (defaults_inv sel (latestOf ys)). ounfold. auto.
  - destruct (finite_pos (totalOf v)) eqn:E; [|done]. pose proof (Ho v eq_refl E) as Ht.
    apply oinv_options; [ounfold; split_and!; auto; by apply map_Forall_insert_2|by apply mapSubject_subjects|].
    by apply mapSubject_Forall.
  - destruct (finite_pos (totalOf v)) eqn:E; [|done]. pose proof (Ho v eq_refl E) as Ht.
    pose proof Ht as (z & Hz & Hz1). ounfold. split_and!; auto; [by apply map_Forall_insert_2|].
    intros _. rewrite Hz. by apply safe_items.
  - destruct (finite_pos (totalOf v)) eqn:E; [|done]. pose proof (Ho v eq_refl E) as Ht.
    apply oinv_options; [ounfold; split_and!; auto; by apply map_Forall_insert_2|by apply mapSubject_subjects|].
    apply mapSubject_Forall; [|done]. intros o Hc. by apply safe_count_or.
Qed.

Lemma openSelect_inv sel f subject s : oinv sel s -> oinv sel (openSelect f subject s).
Proof.
  intros (H1 & H2 & H3 & H4 & H5). destruct f; unfold openSelect.
  - ounfold. split_and!; auto. by intros [=].
  - ounfold. split_and!; auto. by intros [=].
  - destruct (finite_pos (default DNaN (maxCounts s !! subject))) eqn:E.
    + destruct (maxCounts s !! subject) as [m|] eqn:Em; [|done].
      destruct (H3 _ _ Em) as (z & -> & Hz). ounfold. split_and!; auto. intros _. by apply safe_items.
    + ounfold. split_and!; auto. intros _.
      change defaultCountItems with (map js_int_string [10; 20; 30; 40; 50; 60]%Z).
      apply Forall_map. repeat (apply List.Forall_cons; [apply pos_item_int; lia|]). constructor.
Qed.

Lemma applySelect_inv sel v s :
  oinv sel s -> v ∈ selectItems s -> oinv sel (applySelect v s).
Proof.
  intros Hs Hv. pose proof Hs as (H1 & H2 & H3 & H4 & H5). unfold applySelect.
  destruct (selectContext s) as [cf cs] eqn:Ec. simpl in *.
  set (upd := fun o : Opt => if bool_decide (Some (oSubject o) <> cs) then o else
    match cf with Some FYear => set_year v o | Some FTopic => set_topic v o
    | Some FCount => set_count (parse_int v) o | None => o end).
  assert (Hsub : map oSubject (map upd (options s)) = map oSubject (options s)).
  { rewrite map_map. apply map_ext. intros o. unfold upd. case_bool_decide; [done|].
    by destruct cf as [[]|]. }
  assert (Hcnt : Forall count_pos (map upd (options s))).
  { apply Forall_map, (Forall_impl _ _ _ H2). intros o Ho. unfold upd.
    case_bool_decide; [done|]. destruct cf as [[]|]; try done.
    destruct (proj1 (Forall_forall _ _) (H4 eq_refl) v Hv) as (z & Hz & Hz1).
    exists z. by rewrite Hz. }
  assert (Hs1 : oinv sel (set_ctx (mkCtx None None) (set_open false (set_options (map upd (options s)) s)))).
  { ounfold. rewrite Hsub. split_and!; auto. by intros [=]. }
  destruct cf as [[]|], cs as [subj|]; try exact Hs1. case_bool_decide; [|exact Hs1].
  revert Hs1. ounfold. done.
Qed.

Lemma toggleShuffle_inv sel subject t s : oinv sel s -> oinv sel (toggleShuffle subject t s).
Proof.
  intros Hs. unfold toggleShuffle. apply (oinv_options sel s); [done| |].
  - apply mapSubject_subjects. intros o. by destruct t.
  - apply mapSubject_Forall; [|apply (proj1 (proj2 Hs))]. intros o Ho. by destruct t.
Qed.

Lemma ostep_inv sel s e : oinv sel s -> event_ok e -> oinv sel (ostep sel s e).
Proof.
  intros Hs He. destruct e as [i o|f subject|v| |subject t|]; simpl.
  - destruct (tasks s !! i); [|done]. apply settleTask_inv; [revert Hs; ounfold; done|].
    intros v ->. exact He.
  - destruct (_ && _); [by apply openSelect_inv|done].
  - destruct (selectOpen s) eqn:Eo; simpl; [|done]. case_bool_decide; [by apply applySelect_inv|done].
  - destruct (selectOpen s); [|done]. revert Hs. ounfold. done.
  - destruct (_ && _); [by apply toggleShuffle_inv|done].
  - destruct (selectOpen s); [done|]. pose proof Hs as (H1 & H2 & H3 & H4 & H5).
    ounfold. split_and!; auto. by intros l [= <-].
Qed.

Lemma initial_inv sel : oinv sel initial.
Proof. unfold oinv, initial. simpl. split_and!; [by left|constructor|apply map_Forall_empty|by intros [=]|done]. Qed.

Lemma orun_inv sel es : Forall event_ok es -> oinv sel (orun sel es).
Proof.
  unfold orun. generalize (initial_inv sel). generalize initial.
  induction es as [|e es IH]; intros s Hs Hes; simpl; [done|]. inversion Hes; subst. apply IH; [by apply ostep_inv|done].
Qed.

Lemma count_nat_num z : (1 <= z < 2 ^ 53)%Z -> PastOptionsRoute.count_nat (num z) = Some (Z.to_nat z).
Proof.
  intros Hz. rewrite num_pos by lia. cbn [PastOptionsRoute.count_nat].
  rewrite is_integral_int. cbn [Qnum inject_Z andb]. rewrite (proj2 (Z.ltb_lt 0 z)) by lia. cbn [andb].
  by rewrite Qfloor_Z.
Qed.

Lemma count_nat_safe x : safe_count x -> exists n, PastOptionsRoute.count_nat x = Some n /\ 1 <= n.
Proof. intros (z & -> & Hz). exists (Z.to_nat z). rewrite count_nat_num by done. split; [done|lia]. Qed.

(** ** Properties *)

Import PastOptionsRoute.

(** C19: when every total the service answers is, read with [Number],
    a safe integer (or not a positive finite number, which the screen
    ignores), then whatever the service answers and in whatever order,
    every list the button hands to [onStart] has one card per selected
    subject, in selection order, or none at all, and every card
    converts to a [SubjectOption] whose count is an integer of at least
    one (the specification's [count: integer >= 1]). *)
Theorem options_start_valid sel es l :
  Forall event_ok es -> started (orun sel es) = Some l ->
  (map oSubject l = [] \/ map oSubject l = sel) /\
  Forall (fun o => exists so, toSubjectOption o = Some so /\ 1 <= count so /\ subject so = oSubject o) l.
Proof.
  intros Hes Hl. destruct (orun_inv sel es Hes) as (_ & _ & _ & _ & H5). destruct (H5 l Hl) as [Hs Hc].
  split; [done|]. apply (Forall_impl _ _ _ Hc). intros o Ho.
  destruct (count_nat_safe _ Ho) as (n & Hn & Hn1). unfold toSubjectOption. rewrite Hn.
  eexists. split; [done|]. simpl. split; [lia|done].
Qed.

(** C33: [buildItems total] (lines 151-162), for a safe total, is the list of
    multiples of ten up to [total] followed by [total] when it is not
    one of them, printed as digits; every item reads back with
    [parseInt] as a count in [1, total], and the last item is [total]. *)
Theorem buildItems_spec (z : Z) :
  (1 <= z < 2 ^ 53)%Z ->
  buildItems (num z) =
    (if (z <=? 10)%Z then [js_int_string z]
     else map (fun i => js_int_string (10 * Z.of_nat i)) (seq 1 (Z.to_nat (z / 10))) ++
          (if (z mod 10 =? 0)%Z then [] else [js_int_string z])) /\
  Forall (fun v => exists c, parse_int v = num c /\ (1 <= c <= z)%Z) (buildItems (num z)) /\
  last (buildItems (num z)) = Some (js_int_string z).
Proof. intros H. split; [by apply buildItems_num|]. by apply buildItems_items. Qed.

(** ** Scenarios *)

Definition w_total (n : Z) : Outcome :=
  Resolved (Some (JObj [("data", JObj [("pagination", JObj [("total", JNum n)])])])).
Definition w_total_text (t : string) : Outcome :=
  Resolved (Some (JObj [("data", JObj [("pagination", JObj [("total", JStr t)])])])).
Definition w_exams : Outcome := Resolved (Some (JObj [("data", JArr [JStr "WAEC"; JStr "JAMB"])])).
Definition w_years : Outcome := Resolved (Some (JObj [("data", JArr [JNum 2023; JNum 2024])])).
(** The exam list and the years arrive; Biology's count request for 2024
    is still in flight. *)
Definition w_loaded : list OEvent := [OResolve 0 w_exams; OResolve 0 w_years].

(** Finding: the count picker's background refresh (lines 171-177)
    writes its items whatever picker is open by then: open the count
    picker for Biology, cancel, open the year picker, and let the
    refresh answer 35: the year picker lists 10, 20, 30, 35, and
    choosing 30 sets Biology's year to "30". *)
Theorem year_picker_shows_counts :
  let s := orun ["Biology"] (w_loaded ++ [OOpen FCount "Biology"; OCancel; OOpen FYear "Biology";
                                            OResolve 1 (w_total 35)]) in
  ctxField (selectContext s) = Some FYear /\ modalItems s = Some ["10"; "20"; "30"; "35"] /\
  map oYear (options (ostep ["Biology"] s (OApply "30"))) = ["30"].
Proof. vm_compute. split_and!; reflexivity. Qed.

(** Finding: nothing cancels the initial count request (lines
    89-114): the user picks 2023, whose total (15) arrives and keeps the
    count at 10; then the late answer for 2024 (40) sets the count to 40
    and the recorded maximum to 40, for a year of 15 questions. *)
Theorem late_initial_count_overrides_year :
  let s := orun ["Biology"] (w_loaded ++ [OOpen FYear "Biology"; OApply "2023";
                                            OResolve 1 (w_total 15); OResolve 0 (w_total 40)]) in
  map (fun o => (oYear o, countText (oCount o))) (options s) = [("2023", "40")] /\
  countText <$> (maxCounts s !! "Biology") = Some "40".
Proof. vm_compute. split; reflexivity. Qed.

(** Finding: a total that is not an integer passes the screen's test
    [Number.isFinite(total) && total > 0]: a total of ["0.5"] becomes the
    card's count 0.5, the count picker offers the single item "0.5", and
    choosing it sets the count to [parseInt("0.5")], which is 0: the
    button then hands [onStart] a card of zero questions. *)
Theorem fractional_total_count :
  let s := orun ["Biology"] (w_loaded ++ [OResolve 0 (w_total_text "0.5")]) in
  map (fun o => countText (oCount o)) (options s) = ["0.5"] /\
  modalItems (ostep ["Biology"] s (OOpen FCount "Biology")) = Some ["0.5"] /\
  (fun l => map (fun o => count_nat (oCount o)) l) <$>
    started (foldl (ostep ["Biology"]) s [OOpen FCount "Biology"; OApply "0.5"; OStart]) = Some [Some 0].
Proof. vm_compute. split_and!; reflexivity. Qed.

(** Finding: pressing the button before the years arrive starts a
    session with no subject at all, whatever was selected. *)
Theorem start_before_load_empty sel : started (orun sel [OStart]) = Some [].
Proof. reflexivity. Qed.

(** ** Witnesses *)

Lemma total_ok_num (z : Z) : (1 <= z < 2 ^ 53)%Z -> total_ok (num z).
Proof. intros Hz _. by exists z. Qed.

Lemma options_start_valid_witness :
  let es := w_loaded ++ [OResolve 0 (w_total 35); OOpen FCount "Biology"; OApply "30"; OStart] in
  Forall event_ok es /\
  started (orun ["Biology"] es) = Some [mkOpt "Biology" "2024" "All Topic" (num 30) false false] /\
  (map oSubject [mkOpt "Biology" "2024" "All Topic" (num 30) false false] = [] \/
   map oSubject [mkOpt "Biology" "2024" "All Topic" (num 30) false false] = ["Biology"]) /\
  Forall (fun o => exists so, toSubjectOption o = Some so /\ 1 <= count so /\ subject so = oSubject o)
    [mkOpt "Biology" "2024" "All Topic" (num 30) false false].
Proof.
  cbv zeta.
  assert (He : Forall event_ok (w_loaded ++ [OResolve 0 (w_total 35); OOpen FCount "Biology"; OApply "30"; OStart])).
  { repeat constructor; try (intros H; vm_compute in H; discriminate).
    change (total_ok (num 35)). apply total_ok_num. lia. }
  assert (H : started (orun ["Biology"] (w_loaded ++ [OResolve 0 (w_total 35);
    OOpen FCount "Biology"; OApply "30"; OStart])) =
    Some [mkOpt "Biology" "2024" "All Topic" (num 30) false false]) by (vm_compute; reflexivity).
  split; [exact He|]. split; [exact H|]. exact (options_start_valid _ _ _ He H).
Defined.

Lemma buildItems_spec_witness :
  (1 <= 35 < 2 ^ 53)%Z /\
  buildItems (num 35) =
    (if (35 <=? 10)%Z then [js_int_string 35]
     else map (fun i => js_int_string (10 * Z.of_nat i)) (seq 1 (Z.to_nat (35 / 10))) ++
          (if (35 mod 10 =? 0)%Z then [] else [js_int_string 35])) /\
  Forall (fun v => exists c, parse_int v = num c /\ (1 <= c <= 35)%Z) (buildItems (num 35)) /\
  last (buildItems (num 35)) = Some (js_int_string 35).
Proof. split; [lia|]. apply buildItems_spec. lia. Defined.
