(* ===== verification/Subjects.v ===== *)
(** * Subjects: choosing the subjects of a session (SubjectSelect.tsx)

    [src/components/screens/SubjectSelect.tsx] loads the subject list of
    the latest year of the preferred exam from the question service,
    orders it with "Use of English" first, and lets the user toggle
    subjects in and out of a [Set]; in exam mode the English subject is
    selected by the load and cannot be deselected.  The selection is
    reported to the parent, [src/app/mode/study.tsx], whose proceed
    button opens the options screen with the selected subjects.

    The load is one asynchronous chain of three requests; the service is
    a function [svc] from requests to outcomes ([None]: the promise
    rejects), so the chain is a function of the service.  The load settles
    as one event [SLoad svc]; the subjects are empty while it runs, so no
    toggle can interleave with it. *)

From S2P Require Import Prelude Json Questions JsNumber Options.
From Stdlib Require Import Ascii.

Module SubjectSelect.
Import Double NumberToString JsMath ToNumber.

(** ** Strings *)

(** [toLowerCase] on ASCII letters. *)
Definition ascii_lower (c : ascii) : ascii :=
  let n := nat_of_ascii c in
  if (65 <=? n) && (n <=? 90) then ascii_of_nat (n + 32) else c.

Fixpoint toLowerCase (s : string) : string :=
  match s with
  | EmptyString => EmptyString
  | String c s' => String (ascii_lower c) (toLowerCase s')
  end.

(** [s.toLowerCase().includes("use of english")] (lines 61, 73, 100, 159). *)
Definition isEnglish (s : string) : bool := str_includes (toLowerCase s) "use of english".

(** The comparator of the sort (lines 60-66). *)
Definition compareSubjects (a b : string) : Z :=
  if isEnglish a && negb (isEnglish b) then (-1)%Z
  else if negb (isEnglish a) && isEnglish b then 1%Z
  else 0%Z.

(** [Array.prototype.sort] with a comparator: a stable sort (ECMAScript
    2019), here insertion from the right, which keeps an element before
    the elements it compares equal to.  Every stable sort gives the same
    result for a comparator that is a total preorder, as this one is. *)
Fixpoint insert_by {A} (cmp : A -> A -> Z) (x : A) (l : list A) : list A :=
  match l with
  | [] => [x]
  | y :: l' => if (0 <? cmp x y)%Z then y :: insert_by cmp x l' else x :: l
  end.

Definition sort_by {A} (cmp : A -> A -> Z) (l : list A) : list A :=
  foldr (insert_by cmp) [] l.

(** The strings of a list of JSON values, when they all are strings. *)
Fixpoint strings_of (l : list jval) : option (list string) :=
  match l with
  | [] => Some []
  | JStr s :: l' => (fun r => s :: r) <$> strings_of l'
  | _ :: _ => None
  end.

(** The sort of line 60 on the service's array: a comparison sort of two
    or more elements compares each of them, and the comparator calls
    [toLowerCase] on both arguments, which throws on a value that is not
    a string ([None]); a list of at most one element is not compared. *)
Definition sortSubjects (l : list jval) : option (list jval) :=
  match l with
  | [] | [_] => Some l
  | _ => (fun ss => map JStr (sort_by compareSubjects ss)) <$> strings_of l
  end.

(** [subjList.find(s => s.toLowerCase().includes("use of english"))]
    (lines 73-75): [None] is the [TypeError] of a value without
    [toLowerCase] met before an English subject. *)
Fixpoint findEnglish (l : list jval) : option (option string) :=
  match l with
  | [] => Some None
  | JStr s :: l' => if isEnglish s then Some (Some s) else findEnglish l'
  | _ :: _ => None
  end.

(** ** The load (lines 34-93) *)

(** The service calls of [myQuest], with their arguments. *)
Inductive Req :=
| GetExamList
| GetExamYears (exam : jval)
| GetSubjects (exam : jval) (year : string).

(** A resolved response ([Some v], [v] of [undefined]-or-value) or a
    rejected promise ([None]). *)
Definition Service := Req -> option (option jval).

(** Why the load failed; [setError(e?.message || ...)] shows the message
    of the two errors the code throws, the engine's or the service's
    message otherwise. *)
Inductive Failure := NoExams | NoYears | TypeErr | RequestFailed.

(** Lines 48-50: [typeof y === "string" ? parseInt(y, 10) : Number(y)]. *)
Definition yearNumber (y : jval) : dbl :=
  match y with
  | JStr s => parse_int s
  | _ => to_number (Some y)
  end.

(** Lines 45-54: the years that are not NaN, their [Math.max] (which
    starts from [-Infinity]) printed with [String], or else the last
    year printed with [String]; [None] for the [TypeError] of a list
    without [map]. *)
Definition latestYear (yearsRes : option jval) : option string :=
  match jor (jget yearsRes "data") (Some (JArr [])) with
  | Some (JArr years) =>
      match List.filter (fun x => negb (is_nan x)) (map yearNumber years) with
      | [] => Some (default "undefined" (js_to_string <$> last years))
      | ns => Some (number_to_string (foldl math_max_d (DInf true) ns))
      end
  | _ => None
  end.

(** The chain up to the subject list (lines 39-58): the value of
    [(subjRes?.data) || []], or the failure that ends the chain. *)
Definition fetchList (svc : Service) : Failure + option jval :=
  match svc GetExamList with
  | None => inl RequestFailed
  | Some examsRes =>
      match PastOptions.pickExam examsRes with
      | None => inl TypeErr
      | Some pe =>
          match pe with
          | Some exam =>
              if jtruthy pe then
                match svc (GetExamYears exam) with
                | None => inl RequestFailed
                | Some yearsRes =>
                    match latestYear yearsRes with
                    | None => inl TypeErr
                    | Some latest =>
                        if bool_decide (latest = "") then inl NoYears else
                        match svc (GetSubjects exam latest) with
                        | None => inl RequestFailed
                        | Some subjRes => inr (jor (jget subjRes "data") (Some (JArr [])))
                        end
                    end
                end
              else inl NoExams
          | None => inl NoExams
          end
      end
  end.

(** ** The component *)

(** The state: [subjects], [selected] (a [Set], iterated in insertion
    order), [loading] and [error] (lines 29-32). *)
Record SState := mkSState {
  subjects : list jval;
  selected : list string;
  loading : bool;
  error : option Failure
}.

(** [new Set(prev).add(x)] and [.delete(x)]. *)
Definition set_add (x : string) (l : list string) : list string :=
  if bool_decide (x ∈ l) then l else l ++ [x].
Definition set_delete (x : string) (l : list string) : list string :=
  filter (fun y => y <> x) l.

Section Component.
Variable mode : string.

Definition is_exam : bool := bool_decide (mode = "exam").

(** Mounting: the effect starts the load (lines 37-38). *)
Definition initial : SState := mkSState [] [] true None.

(** Lines 69-83: the chain resolves; the subjects are set before the
    exam-mode [find], so a [find] that throws leaves them set. *)
Definition afterList (subjList : option jval) (s : SState) : SState :=
  match subjList with
  | Some (JArr l) =>
      match sortSubjects l with
      | None => mkSState (subjects s) (selected s) false (Some TypeErr)
      | Some l' =>
          if is_exam then
            match findEnglish l' with
            | None => mkSState l' (selected s) false (Some TypeErr)
            | Some (Some e) => mkSState l' (set_add e (selected s)) false (error s)
            | Some None => mkSState l' (selected s) false (error s)
            end
          else mkSState l' (selected s) false (error s)
      end
  | _ =>
      (* [setSubjects([])]; a value that is not an array has no [find] *)
      mkSState [] (selected s) false (if is_exam then Some TypeErr else error s)
  end.

Definition settleLoad (svc : Service) (s : SState) : SState :=
  match fetchList svc with
  | inl f => mkSState (subjects s) (selected s) false (Some f)
  | inr subjList => afterList subjList s
  end.

(** [toggleSubject] (lines 97-106). *)
Definition toggleSubject (x : string) (s : SState) : SState :=
  let next :=
    if is_exam && isEnglish x then selected s
    else if bool_decide (x ∈ selected s) then set_delete x (selected s)
    else set_add x (selected s) in
  mkSState (subjects s) next (loading s) (error s).

Inductive SEvent :=
| SLoad (svc : Service)     (* the load chain settles, once: while [loading] *)
| SToggle (i : nat).        (* the [i]-th subject brick *)

Definition sstep (s : SState) (e : SEvent) : SState :=
  match e with
  | SLoad svc => if loading s then settleLoad svc s else s
  | SToggle i =>
      match subjects s !! i with
      | Some (JStr x) => toggleSubject x s
      | _ => s
      end
  end.

Definition srun (es : list SEvent) : SState := foldl sstep initial es.

(** ** The render (lines 115-169) *)

(** A brick: the subject, its initial in upper case, the check mark and
    the compulsory note of exam mode. *)
Record Brick := mkBrick { bSubject : string; bChecked : bool; bCompulsory : bool }.

Inductive SView :=
| SCrashed                          (* [subject.charAt] of a value that is not a string *)
| SList (spinner : bool) (err : option Failure) (bricks : list Brick).

Definition brickOf (s : SState) (x : string) : Brick :=
  mkBrick x (bool_decide (x ∈ selected s)) (is_exam && isEnglish x).

Definition sview (s : SState) : SView :=
  match strings_of (subjects s) with
  | Some xs => SList (loading s) (if loading s then None else error s) (map (brickOf s) xs)
  | None => SCrashed
  end.

End Component.

(** [Array.from(selected)] reported to the parent by the effect of lines
    111-113. *)
Definition reported (s : SState) : list string := selected s.

End SubjectSelect.

Module StudyRoute.
Import SubjectSelect.

(** [src/app/mode/study.tsx]: the proceed button is disabled on an empty
    selection and opens [/mode/past-options] with the subjects and the
    study mode (lines 36-49). *)
Definition proceedDisabled (selected : list string) : bool := bool_decide (length selected = 0).

Definition proceed (selected : list string) : option (list string * string) :=
  if bool_decide (0 < length selected) then Some (selected, "study") else None.

(** The page, [StudyModePage] (lines 15-56): [SubjectSelect] in study
    mode beside the page's own [selected] state, which the child's
    effect sets to [Array.from(selected)] after each change (lines 17
    and 32, SubjectSelect.tsx lines 111-113); the back arrow calls
    [router.back()] (line 22).  A press of the disabled proceed button
    does nothing; an enabled one runs the guard of line 43 again. *)
Record Page := mkPage { select : SState; chosen : list string }.

Definition page_initial : Page := mkPage initial [].

Inductive PageEvent := PSelect (e : SEvent) | PBack | PProceed.

Inductive PageNav := NavBack | NavPastOptions (subjects : list string) (mode : string).

Definition pageStep (p : Page) (e : PageEvent) : Page * option PageNav :=
  match e with
  | PSelect e => let s := sstep "study" (select p) e in (mkPage s (reported s), None)
  | PBack => (p, Some NavBack)
  | PProceed =>
      if proceedDisabled (chosen p) then (p, None)
      else match proceed (chosen p) with
           | Some (sel, m) => (p, Some (NavPastOptions sel m))
           | None => (p, None)
           end
  end.

(** A run of the page: its last state and the navigations, in order. *)
Fixpoint pageRun (p : Page) (es : list PageEvent) : Page * list PageNav :=
  match es with
  | [] => (p, [])
  | e :: es' =>
      let '(p', nav) := pageStep p e in
      let '(p'', navs) := pageRun p' es' in (p'', option_list nav ++ navs)
  end.

(** What the page shows: the title, the prompt, the mode handed to
    [SubjectSelect], the label of the proceed button (spelt as in line
    51) and whether it is dimmed (line 39). *)
Record StudyView := mkStudyView
  { svTitle : string; svPrompt : string; svSelectMode : string; svProceed : string; svDimmed : bool }.

Definition studyView (p : Page) : StudyView :=
  mkStudyView "Past Question" "Select a subject you wish to study" "study" "procceed"
    (proceedDisabled (chosen p)).

End StudyRoute.

(** ** The English-first order *)

Module SubjectFacts.
Import SubjectSelect.

Definition english_part (l : list string) := filter (fun s => isEnglish s = true) l.
Definition other_part (l : list string) := filter (fun s => isEnglish s = false) l.

Lemma insert_english x l :
  isEnglish x = true -> insert_by compareSubjects x l = x :: l.
Proof.
  intros Hx. destruct l as [|y l]; [done|]. simpl. unfold compareSubjects. rewrite Hx.
  by destruct (isEnglish y).
Qed.

Lemma insert_other x E N :
  isEnglish x = false -> Forall (fun s => isEnglish s = true) E ->
  Forall (fun s => isEnglish s = false) N ->
  insert_by compareSubjects x (E ++ N) = E ++ x :: N.
Proof.
  intros Hx HE HN. induction HE as [|y E Hy HE IH]; simpl.
  - destruct N as [|y N]; [done|]. apply Forall_cons in HN as [Hy _].
    unfold insert_by, compareSubjects. rewrite Hx, Hy. done.
  - unfold compareSubjects at 1. rewrite Hx, Hy. simpl. by rewrite IH.
Qed.

Lemma english_part_Forall l : Forall (fun s => isEnglish s = true) (english_part l).
Proof. apply Forall_forall. intros x Hx. by apply list_elem_of_filter in Hx as [? _]. Qed.

Lemma other_part_Forall l : Forall (fun s => isEnglish s = false) (other_part l).
Proof. apply Forall_forall. intros x Hx. by apply list_elem_of_filter in Hx as [? _]. Qed.

(** The sort of the subjects is the partition by [isEnglish]. *)
Lemma sort_by_partition l :
  sort_by compareSubjects l = english_part l ++ other_part l.
Proof.
  induction l as [|x l IH]; [done|]. unfold sort_by in *. simpl. rewrite IH.
  unfold english_part, other_part. rewrite !filter_cons.
  destruct (isEnglish x) eqn:Hx.
  - rewrite insert_english by done. repeat case_decide; done.
  - rewrite insert_other; [| done | apply english_part_Forall | apply other_part_Forall].
    repeat case_decide; done.
Qed.

(** C25 (equivalence): the sort of the subject list (lines 59-66) puts the
    English subjects first and keeps the relative order within both
    groups: it is the partition of the list by [isEnglish]. *)
Theorem sort_english_first l :
  sort_by compareSubjects l = english_part l ++ other_part l.
Proof. apply sort_by_partition. Qed.

(** ** Sets, the load and the invariant *)

Lemma set_add_elem x y l : y ∈ set_add x l <-> y = x \/ y ∈ l.
Proof. unfold set_add. case_bool_decide; set_solver. Qed.

Lemma set_delete_elem x y l : y ∈ set_delete x l <-> y <> x /\ y ∈ l.
Proof. unfold set_delete. rewrite list_elem_of_filter. tauto. Qed.

Lemma set_add_NoDup x l : NoDup l -> NoDup (set_add x l).
Proof.
  intros Hl. unfold set_add. case_bool_decide; [done|].
  apply NoDup_app. split_and!; [done| |by apply NoDup_singleton]. set_solver.
Qed.

Lemma findEnglish_spec l e :
  findEnglish l = Some (Some e) -> JStr e ∈ l /\ isEnglish e = true.
Proof.
  induction l as [|[] l IH]; simpl; try discriminate.
  destruct (isEnglish s) eqn:He; [intros [= <-]; split; [left|]; done|].
  intros H. destruct (IH H). split; [by right|done].
Qed.

Lemma strings_of_map ss : strings_of (map JStr ss) = Some ss.
Proof. induction ss as [|x ss IH]; [done|]. simpl. by rewrite IH. Qed.

Lemma findEnglish_map ss : findEnglish (map JStr ss) = Some (List.find isEnglish ss).
Proof. induction ss as [|x ss IH]; [done|]. simpl. by destruct (isEnglish x). Qed.

Lemma sortSubjects_map ss :
  sortSubjects (map JStr ss) = Some (map JStr (english_part ss ++ other_part ss)).
Proof.
  rewrite <- sort_by_partition.
  destruct ss as [|x [|y ss]]; [done|done|].
  change (sortSubjects (map JStr (x :: y :: ss))) with
    ((fun l => map JStr (sort_by compareSubjects l)) <$> strings_of (map JStr (x :: y :: ss))).
  by rewrite strings_of_map.
Qed.

Lemma find_english_part ss :
  List.find isEnglish (english_part ss ++ other_part ss) = head (english_part ss).
Proof.
  pose proof (english_part_Forall ss) as HE. pose proof (other_part_Forall ss) as HN.
  induction HE as [|y E Hy HE IH]; simpl.
  - induction HN as [|z N Hz HN IHN]; [done|]. simpl. by rewrite Hz.
  - by rewrite Hy.
Qed.

Section Invariant.
Variable mode : string.

Lemma toggle_selected x s :
  NoDup (selected s) ->
  NoDup (selected (toggleSubject mode x s)) /\
  (forall y, y ∈ selected (toggleSubject mode x s) -> y = x \/ y ∈ selected s) /\
  (forall y, y <> x -> y ∈ selected s -> y ∈ selected (toggleSubject mode x s)).
Proof.
  intros Hnd. unfold toggleSubject; simpl.
  destruct (is_exam mode && isEnglish x); [split_and!; auto|].
  case_bool_decide.
  - split_and!; [by apply NoDup_filter| |]; intros y; rewrite set_delete_elem; tauto.
  - split_and!; [by apply set_add_NoDup| |]; intros y; rewrite set_add_elem; tauto.
Qed.

(** The invariant of the reachable states: nothing is selected or
    listed while the load runs, the selection has no duplicates and holds
    listed subjects only, and in exam mode the first English subject of
    the list is selected. *)
Definition sinv (s : SState) : Prop :=
  (loading s = true -> subjects s = [] /\ selected s = []) /\
  NoDup (selected s) /\
  (forall x, x ∈ selected s -> JStr x ∈ subjects s) /\
  (is_exam mode = true -> loading s = false ->
   forall e, findEnglish (subjects s) = Some (Some e) -> e ∈ selected s).

Ltac sinv_nil := split_and!; [done|constructor|set_solver|intros ? ? ?; simpl; congruence].

Lemma sinv_initial : sinv initial.
Proof. unfold sinv; simpl. split_and!; [done|constructor|set_solver|done]. Qed.

Lemma afterList_sinv v s :
  subjects s = [] -> selected s = [] -> sinv (afterList mode v s).
Proof.
  intros Hsub Hsel. unfold afterList, sinv.
  destruct v as [[]|]; simpl; rewrite ?Hsel; try sinv_nil.
  destruct (sortSubjects items) as [l'|]; simpl; [|rewrite Hsub; sinv_nil].
  destruct (is_exam mode); simpl; [|split_and!; [done|constructor|set_solver|done]].
  destruct (findEnglish l') as [[e|]|] eqn:Hf; simpl; try sinv_nil.
  destruct (findEnglish_spec _ _ Hf) as [Hin _].
  split_and!; [done|by apply set_add_NoDup; constructor| |].
  - intros x Hx. apply set_add_elem in Hx as [->|]; [done|set_solver].
  - intros _ _ e' He'. rewrite Hf in He'. injection He' as <-. apply set_add_elem. by left.
Qed.

Lemma sstep_sinv s e : sinv s -> sinv (sstep mode s e).
Proof.
  intros Hs. destruct e as [svc|i]; simpl.
  - destruct (loading s) eqn:Hl; [|done].
    destruct Hs as [[Hsub Hsel] _]; [done|].
    unfold settleLoad. destruct (fetchList svc); [|by apply afterList_sinv].
    unfold sinv; simpl. rewrite Hsub, Hsel. sinv_nil.
  - destruct (subjects s !! i) as [[]|] eqn:Hi; try done.
    destruct Hs as (Hload & Hnd & Hsub & Hen).
    assert (Hl : loading s = false).
    { destruct (loading s); [|done]. destruct (Hload eq_refl) as [E _]. by rewrite E in Hi. }
    destruct (toggle_selected s0 s Hnd) as (Hnd' & Hin & Hkeep).
    unfold sinv. split_and!; [simpl; congruence|done| |].
    + intros x Hx. destruct (Hin x Hx) as [->|]; [|by apply Hsub].
      simpl. by eapply list_elem_of_lookup_2.
    + intros Hex _ e He. simpl in He. destruct (findEnglish_spec _ _ He) as [_ HeE].
      pose proof (Hen Hex Hl e He) as Hsel.
      destruct (isEnglish s0) eqn:HxE.
      * unfold toggleSubject; simpl. by rewrite Hex, HxE.
      * apply Hkeep; [congruence|done].
Qed.

Lemma srun_sinv es : sinv (srun mode es).
Proof.
  unfold srun. generalize sinv_initial. generalize (initial).
  induction es as [|e es IH]; intros s Hs; simpl; [done|]. by apply IH, sstep_sinv.
Qed.

End Invariant.


(** C26: in exam mode, once the load has settled, the first English
    subject of the loaded list is selected in every reachable state: the
    load selects it and no toggle can remove it (line 101). *)
Theorem exam_english_locked es e :
  let s := srun "exam" es in
  loading s = false -> findEnglish (subjects s) = Some (Some e) -> e ∈ selected s.
Proof.
  cbv zeta. intros Hl Hf. destruct (srun_sinv "exam" es) as (_ & _ & _ & Hen).
  by apply Hen.
Qed.

(** the load of a list of subject names lists the English subjects
    first and the others after, each group in the service's order, ends
    the spinner without an error, and in exam mode selects the first
    English subject. *)
Theorem load_subjects_spec mode svc ss :
  fetchList svc = inr (Some (JArr (map JStr ss))) ->
  let s := sstep mode (initial) (SLoad svc) in
  subjects s = map JStr (english_part ss ++ other_part ss) /\
  selected s = (if is_exam mode then take 1 (english_part ss) else []) /\
  loading s = false /\ error s = None.
Proof.
  intros Hf. simpl. unfold settleLoad. rewrite Hf. unfold afterList.
  rewrite sortSubjects_map. destruct (is_exam mode); [|done].
  rewrite findEnglish_map, find_english_part.
  destruct (english_part ss) as [|e E]; done.
Qed.

(** the subjects study.tsx hands to the options screen (lines 43-48)
    are a non-empty list of distinct subjects of the loaded list, in
    study mode. *)
Theorem study_proceed_valid es sel m :
  let s := srun "study" es in
  StudyRoute.proceed (reported s) = Some (sel, m) ->
  m = "study" /\ sel <> [] /\ NoDup sel /\ Forall (fun x => JStr x ∈ subjects s) sel.
Proof.
  cbv zeta. unfold StudyRoute.proceed, reported. case_bool_decide as Hlen; [|done].
  intros [= <- <-]. destruct (srun_sinv "study" es) as (_ & Hnd & Hsub & _).
  split_and!; [done| |done|by apply Forall_forall].
  intros E. rewrite E in Hlen. simpl in Hlen. lia.
Qed.

(** Finding: an empty year list does not stop the load: the latest
    year is [String(years[years.length - 1])], that is "undefined", which
    is truthy, so the guard of line 55 never fires and the subjects are
    requested for the year "undefined". *)
Theorem empty_years_request_undefined svc :
  svc GetExamList = Some (Some (JObj [("data", JArr [JStr "JAMB"])])) ->
  svc (GetExamYears (JStr "JAMB")) = Some (Some (JObj [("data", JArr [])])) ->
  fetchList svc =
    match svc (GetSubjects (JStr "JAMB") "undefined") with
    | None => inl RequestFailed
    | Some subjRes => inr (jor (jget subjRes "data") (Some (JArr [])))
    end.
Proof. intros H1 H2. unfold fetchList. rewrite H1. simpl. rewrite H2. reflexivity. Qed.

(** Finding: the two screens disagree on the latest year: for the
    year list ["2024", "2023"] SubjectSelect loads the subjects of 2024
    (the numeric maximum) while PastOptions preselects 2023 (the last
    element) for every subject chosen from them. *)
Theorem latest_year_screens_disagree :
  let yearsRes := Some (JObj [("data", JArr [JStr "2024"; JStr "2023"])]) in
  latestYear yearsRes = Some "2024" /\
  (PastOptions.latestOf <$> PastOptions.normalizeYears yearsRes) = Some "2023".
Proof. split; reflexivity. Qed.

(** The page's state: its [chosen] list is what the child reported
    last, and the child is in a reachable state. *)
Definition page_inv (p : StudyRoute.Page) : Prop :=
  exists ses, StudyRoute.select p = srun "study" ses /\ StudyRoute.chosen p = reported (StudyRoute.select p).

(** A navigation of the page: back, or the options screen in study mode
    with a non-empty list of distinct subjects of a reachable load. *)
Definition nav_ok (n : StudyRoute.PageNav) : Prop :=
  n = StudyRoute.NavBack \/
  exists sel ses, n = StudyRoute.NavPastOptions sel "study" /\ sel <> [] /\ NoDup sel /\
                  Forall (fun x => JStr x ∈ subjects (srun "study" ses)) sel.

Lemma page_inv_step p e : page_inv p -> page_inv (StudyRoute.pageStep p e).1.
Proof.
  intros (ses & Hs & Hc). destruct e as [e| |]; simpl.
  - exists (ses ++ [e]). split; [|done]. unfold srun. rewrite foldl_app. simpl. by rewrite Hs.
  - by exists ses.
  - destruct (StudyRoute.proceedDisabled _); [by exists ses|].
    destruct (StudyRoute.proceed _) as [[]|]; by exists ses.
Qed.

Lemma page_nav_step p e n : page_inv p -> (StudyRoute.pageStep p e).2 = Some n -> nav_ok n.
Proof.
  intros (ses & Hs & Hc). destruct e as [e| |]; simpl; [done|intros [= <-]; by left|].
  destruct (StudyRoute.proceedDisabled _); [done|].
  destruct (StudyRoute.proceed _) as [[sel m]|] eqn:E; [|done]. intros [= <-]. right.
  rewrite Hc, Hs in E. destruct (study_proceed_valid ses sel m E) as (-> & ?). by exists sel, ses.
Qed.

(** C36: Every navigation of the study page, over any sequence of loads,
    toggles, back presses and proceed presses, is [router.back()] or
    the options screen in study mode with a non-empty list of distinct
    loaded subjects: the page's copy of the selection never goes stale. *)
Theorem study_page_navigations es :
  Forall nav_ok (StudyRoute.pageRun StudyRoute.page_initial es).2.
Proof.
  assert (H : forall p, page_inv p -> Forall nav_ok (StudyRoute.pageRun p es).2).
  { induction es as [|e es IH]; intros p Hp; [constructor|]. simpl.
    destruct (StudyRoute.pageStep p e) as [p' nav] eqn:E.
    pose proof (page_inv_step p e Hp) as Hp'. rewrite E in Hp'. simpl in Hp'.
    destruct (StudyRoute.pageRun p' es) eqn:Er. simpl. apply Forall_app. split.
    - destruct nav as [n|]; [|constructor]. constructor; [|constructor].
      apply (page_nav_step p e). done. by rewrite E.
    - specialize (IH p' Hp'). by rewrite Er in IH. }
  apply H. by exists [].
Qed.

End SubjectFacts.

(** ** Witnesses *)

Module SubjectWitnesses.
Import SubjectSelect SubjectFacts.

Definition w_svc (r : Req) : option (option jval) :=
  match r with
  | GetExamList => Some (Some (JObj [("data", JArr [JStr "WAEC"; JStr "JAMB"])]))
  | GetExamYears _ => Some (Some (JObj [("data", JArr [JStr "2023"; JStr "2024"])]))
  | GetSubjects _ _ => Some (Some (JObj [("data", JArr [JStr "Biology"; JStr "Use of English"; JStr "Physics"])]))
  end.

Definition w_svc_empty (r : Req) : option (option jval) :=
  match r with
  | GetExamList => Some (Some (JObj [("data", JArr [JStr "JAMB"])]))
  | GetExamYears _ => Some (Some (JObj [("data", JArr [])]))
  | GetSubjects _ y => Some (Some (JObj [("data", JArr [JStr y])]))
  end.

Lemma exam_english_locked_witness :
  let s := srun "exam" [SLoad w_svc; SToggle 0; SToggle 1] in
  loading s = false /\ findEnglish (subjects s) = Some (Some "Use of English") /\
  "Use of English" ∈ selected s.
Proof.
  cbv zeta. split_and!; [vm_compute; reflexivity|vm_compute; reflexivity|].
  apply (exam_english_locked [SLoad w_svc; SToggle 0; SToggle 1] "Use of English");
    vm_compute; reflexivity.
Defined.

Lemma load_subjects_spec_witness :
  fetchList w_svc = inr (Some (JArr (map JStr ["Biology"; "Use of English"; "Physics"]))) /\
  subjects (sstep "exam" initial (SLoad w_svc)) = [JStr "Use of English"; JStr "Biology"; JStr "Physics"].
Proof.
  split; [vm_compute; reflexivity|].
  refine (proj1 (load_subjects_spec "exam" w_svc ["Biology"; "Use of English"; "Physics"] _)).
  vm_compute; reflexivity.
Defined.

Lemma study_proceed_valid_witness :
  let s := srun "study" [SLoad w_svc; SToggle 2; SToggle 1] in
  StudyRoute.proceed (reported s) = Some (["Physics"; "Biology"], "study") /\
  "study" = "study" /\ ["Physics"; "Biology"] <> [].
Proof.
  cbv zeta. split; [vm_compute; reflexivity|].
  destruct (study_proceed_valid [SLoad w_svc; SToggle 2; SToggle 1] ["Physics"; "Biology"] "study")
    as (H1 & H2 & _); [vm_compute; reflexivity|]. by split.
Defined.

Lemma empty_years_request_undefined_witness :
  fetchList w_svc_empty = inr (Some (JArr [JStr "undefined"])).
Proof.
  rewrite (empty_years_request_undefined w_svc_empty); reflexivity.
Defined.

End SubjectWitnesses.
