(* ===== verification/Loader.v ===== *)
(** * Loader: the question source adapter

    [SampleBank] is [src/components/data/sampleQuestions.ts]: twelve
    questions, cycled by [sampleQuestions()] into a bank of fifty.
    [Loader] is the body of the page-load effect of
    [src/components/screens/PastStudy.tsx] (lines 61-112) once the
    service has answered: the normalisation of each upstream record
    (lines 68-85), the page total (86-87), the slicing and the fallback to
    the sample bank (89-93), and the [catch] branch (97-106).  The fetch
    itself and the staleness flag [cancelled] are in [Session]. *)

From S2P Require Import Prelude Json Questions Pagination.
Import QuestionModel PageTracker.

Module SampleBank.

(** A question of the local bank: every field a string. *)
Definition sample (instr : option string) (q : string) (opts : list string)
    (ans corr : string) : Question :=
  mkQuestion (JStr <$> instr) (Some (JStr q)) (Some opts) (Some (JStr ans)) (Some (JStr corr)).

(** [const base: Question[]] (sampleQuestions.ts lines 9-28). *)
Definition base : list Question := [
  sample (Some "Choose the option that best completes the gap(s)... [Read More]")
    "You'd rather not attend the meeting ——"
    ["would you"; "wouldn't you"; "did you"; "didn't you"] "wouldn't you"
    "The correct tag for a negative preference uses 'wouldn't you'.";
  sample None "'To have a chip on one's shoulder' suggests that someone"
    ["is carrying a heavy load"; "has an injury"; "is resentful about something";
     "is feeling triumphant"] "is resentful about something"
    "The idiom means bearing a grudge or resentment."
].

(** [const banks: Question[]] (sampleQuestions.ts lines 30-92). *)
Definition banks : list Question := [
  sample None "Which organelle is responsible for energy production in cells?"
    ["Golgi apparatus"; "Mitochondria"; "Nucleus"; "Ribosome"] "Mitochondria"
    "Mitochondria carry out cellular respiration producing ATP.";
  sample None "Simplify: 2x + 3x − x" ["4x"; "3x"; "2x"; "5x"] "4x"
    "2x + 3x − x = (2 + 3 − 1)x = 4x.";
  sample None "Which is a chemical property of matter?"
    ["Density"; "Boiling point"; "Reactivity"; "Color"] "Reactivity"
    "Reactivity describes how a substance interacts chemically.";
  sample None "The past participle of 'go' is" ["went"; "gone"; "go"; "going"] "gone"
    "Go → went → gone.";
  sample None "Nigeria's capital city is" ["Lagos"; "Abuja"; "Ibadan"; "Kano"] "Abuja"
    "Abuja became the capital in 1991.";
  sample None "Which law states that current is directly proportional to voltage?"
    ["Boyle's law"; "Ohm's law"; "Newton's first law"; "Hooke's law"] "Ohm's law"
    "V = IR.";
  sample (Some "Read the sentence and choose the correct synonym.")
    "Select the synonym of 'benevolent'" ["kind"; "hostile"; "stingy"; "rude"] "kind"
    "Benevolent means kind or charitable.";
  sample None "Which gas is most abundant in Earth's atmosphere?"
    ["Oxygen"; "Nitrogen"; "Carbon dioxide"; "Argon"] "Nitrogen"
    "Nitrogen is about 78% of the atmosphere.";
  sample None "Find the value: 7² − 5²" ["24"; "12"; "49"; "25"] "24" "49 − 25 = 24.";
  sample None "Which layer of the plant is responsible for photosynthesis?"
    ["Xylem"; "Phloem"; "Mesophyll"; "Epidermis"] "Mesophyll"
    "Chloroplasts are abundant in mesophyll cells."
].

(** The [i]-th generated question from its base [b] (lines 98-105):
    [question: b.question ? `${b.question} (${i + 1})` : undefined]. *)
Definition generated (i : nat) (b : Question) : Question :=
  mkQuestion (instruction b)
    (match question b with
     | Some v => if jtruthy (Some v)
                 then Some (JStr (js_to_string v +:+ " (" +:+ js_nat_string (i + 1) +:+ ")"))
                 else None
     | None => None
     end)
    (options b) (answer b) (correction b).

(** [sampleQuestions()] (lines 94-108): fifty questions, the [i]-th
    built from [all[i % all.length]]. *)
Definition sampleQuestions : list Question :=
  let all := base ++ banks in
  omap (fun i => generated i <$> all !! (i mod length all)) (seq 0 50).

End SampleBank.

Module Loader.
Import SampleBank.

(** The parts of a successful response of [myQuest.getQuestions] the
    effect reads: [res?.data?.questions] (any JSON value, or
    [undefined]) and [res?.data?.pagination?.total], which the service
    gives as a count or leaves out ([None] is [null] or [undefined]). *)
Record Response := mkResponse {
  rQuestions : option jval;
  rTotal : option nat
}.

(** [const qData: any = res?.data?.questions || []] and the
    [Array.isArray(qData) ? ... : []] test. *)
Definition questionRecords (r : Response) : list jval :=
  match jor (rQuestions r) (Some (JArr [])) with
  | Some (JArr l) => l
  | _ => []
  end.

(** Lines 70-75 and 80: [q?.options ?? q?.choices ?? []], an array kept,
    an object replaced by [Object.values], anything else by [[]], and
    every element converted with [String(v)]. *)
Definition normalizeOptions (q : jval) : list string :=
  let raw := jcoalesce (jget (Some q) "options")
               (jcoalesce (jget (Some q) "choices") (Some (JArr []))) in
  let arr := match raw with
             | Some (JArr l) => l
             | Some (JObj ps) => object_values ps
             | _ => []
             end in
  map js_to_string arr.

(** One upstream record (lines 69-84): each field takes the first truthy
    of its two aliases, or [undefined]. *)
Definition normalizeQuestion (q : jval) : Question :=
  let g := jget (Some q) in
  mkQuestion
    (jor (jor (g "instruction") (g "question_instruction")) None)
    (jor (jor (g "question") (g "text")) None)
    (Some (normalizeOptions q))
    (jor (jor (g "answer") (g "correct")) None)
    (jor (jor (g "correction") (g "explanation")) None).

(** What the effect stores: [setQuestions] and [setTotalPages]. *)
Record LoadResult := mkLoad {
  lQuestions : list Question;
  lTotalPages : nat
}.

(** The effect after [getQuestions] for [page] settled: [Some r] when it
    resolved to [r], [None] when it threw (lines 64-107).  The page total
    [Math.max(1, Math.ceil(Number(totalCount || 0) / 10))] is
    [PageTracker.totalPagesOf]. *)
Definition loadPage (page : nat) (res : option Response) : LoadResult :=
  let start := (page - 1) * page_size in
  match res with
  | Some r =>
      let normalized := map normalizeQuestion (questionRecords r) in
      let totalCount := default (length normalized) (rTotal r) in
      let shouldSlice := (page_size <? length normalized) || (length normalized <? totalCount) in
      let pageItems := if shouldSlice
                       then js_slice normalized start (start + page_size)
                       else normalized in
      let fallbackItems := js_slice sampleQuestions start (start + page_size) in
      mkLoad (if bool_decide (length pageItems <> 0) then pageItems else fallbackItems)
             (totalPagesOf totalCount)
  | None =>
      let samples := sampleQuestions in
      mkLoad (js_slice samples start (start + page_size)) (totalPagesOf (length samples))
  end.

End Loader.


(** ** Properties of the loader *)

Import SampleBank Loader.

Lemma sampleQuestions_length : length sampleQuestions = 50.
Proof. vm_compute. reflexivity. Qed.

Lemma totalPagesOf_samples : totalPagesOf (length sampleQuestions) = 5.
Proof. vm_compute. reflexivity. Qed.

(** [a || b || undefined] is [undefined] or truthy. *)
Lemma jor_jor_undefined a b :
  jor (jor a b) None = None \/ jtruthy (jor (jor a b) None) = true.
Proof.
  unfold jor. destruct (jtruthy a) eqn:Ha; [rewrite Ha; by right|].
  destruct (jtruthy b) eqn:Hb; [rewrite Hb; by right|by left].
Qed.

(** every question of the fallback bank satisfies the data-model
    invariant of the specification: its answer is a string equal to one
    of its options; the bank holds fifty questions, five pages. *)
Theorem sample_answers_in_options :
  length sampleQuestions = 50 /\ Forall (fun q => answer_in_options q = true) sampleQuestions.
Proof.
  split; [apply sampleQuestions_length|].
  apply Forall_forall. intros q Hq.
  assert (Hall : forallb answer_in_options sampleQuestions = true) by (vm_compute; reflexivity).
  rewrite forallb_forall in Hall. by apply Hall, list_elem_of_In.
Qed.

(** a normalised question never carries a present but falsy field:
    each of [instruction], [question], [answer] and [correction] is
    [undefined] or truthy, and [options] is always an array. *)
Theorem normalize_fields_truthy (q : jval) :
  let n := normalizeQuestion q in
  Forall (fun f => f n = None \/ jtruthy (f n) = true)
    [instruction; question; answer; correction] /\
  options n = Some (normalizeOptions q).
Proof.
  simpl. split; [|done].
  repeat (apply List.Forall_cons; [apply jor_jor_undefined|]). apply List.Forall_nil.
Qed.

(** A loaded page holds at most ten questions. *)
Lemma loadPage_le_page (page : nat) (res : option Response) :
  length (lQuestions (loadPage page res)) <= page_size.
Proof.
  destruct res as [r|]; simpl; [|apply js_slice_le_page].
  set (n := map normalizeQuestion (questionRecords r)).
  destruct (page_size <? length n) eqn:H1; simpl;
    [|destruct (length n <? default (length n) (rTotal r)) eqn:H2]; simpl;
    case_decide; simpl; auto with jcbt; case_nat; lia.
Qed.

(** a loaded page never holds more than ten questions, whatever the
    service returns or whether it fails. *)
Theorem loadPage_length (page : nat) (res : option Response) :
  length (lQuestions (loadPage page res)) <= page_size.
Proof. apply loadPage_le_page. Qed.

Lemma questionRecords_arr (l : list jval) t :
  questionRecords (mkResponse (Some (JArr l)) t) = l.
Proof. done. Qed.

(** when the service returns the whole bank of a subject (all its
    records, with the matching total or none), page [p] shows exactly
    the records [(p - 1) * 10] to [p * 10 - 1], normalised, for every page
    that holds at least one of them. *)
Theorem whole_bank_page (l : list jval) (t : option nat) (p : nat) :
  t = None \/ t = Some (length l) ->
  1 <= p -> (p - 1) * page_size < length l ->
  lQuestions (loadPage p (Some (mkResponse (Some (JArr l)) t)))
  = js_slice (map normalizeQuestion l) ((p - 1) * page_size) (p * page_size).
Proof.
  intros Ht Hp Hs. unfold loadPage. cbn [lQuestions rTotal].
  rewrite questionRecords_arr.
  replace (p * page_size) with ((p - 1) * page_size + page_size) by (unfold page_size; lia).
  assert (Hd : default (length (map normalizeQuestion l)) t = length l)
    by (rewrite length_map; destruct Ht as [->| ->]; done).
  rewrite Hd, length_map. destruct (page_size <? length l) eqn:Hlt; simpl.
  - rewrite bool_decide_true; [done|]. apply js_slice_nonempty; rewrite ?length_map; unfold page_size in *; lia.
  - apply Nat.ltb_ge in Hlt. rewrite Nat.ltb_irrefl.
    assert (p = 1) as -> by (unfold page_size in *; nia). simpl.
    rewrite (js_slice_whole (map normalizeQuestion l)) by (rewrite ?length_map; unfold page_size in *; lia).
    rewrite bool_decide_true; [done|]. rewrite length_map. unfold page_size in *; lia.
Qed.

(** C27 (finding): when the service paginates itself and answers page
    [p >= 2] with its ten records and a total above ten, the loader
    slices that page again at offset [(p - 1) * 10], finds nothing, and
    shows the local sample questions instead of the fetched ones. *)
Theorem server_paged_shows_samples (l : list jval) (total p : nat) :
  length l = page_size -> page_size < total -> 2 <= p ->
  lQuestions (loadPage p (Some (mkResponse (Some (JArr l)) (Some total))))
  = js_slice sampleQuestions ((p - 1) * page_size) ((p - 1) * page_size + page_size).
Proof.
  intros Hl Ht Hp. unfold loadPage. cbn [lQuestions rTotal].
  rewrite questionRecords_arr. simpl default. rewrite length_map, Hl.
  assert (Hs : (length l <? total) = true) by (apply Nat.ltb_lt; lia).
  rewrite Hl in Hs. rewrite Hs, orb_true_r.
  rewrite (js_slice_beyond (map normalizeQuestion l)).
  - rewrite bool_decide_false; [done|]. simpl. lia.
  - rewrite length_map, Hl. unfold page_size in *. nia.
Qed.

(** Finding: a failed fetch falls back to the sample bank with five
    pages, so a failed fetch of page six or later leaves the page empty,
    against the specification's "the UI is never empty", and with a
    page total below the current page. *)
Theorem failed_fetch_pages (p : nat) :
  lTotalPages (loadPage p None) = 5 /\
  (p <= 5 -> length (lQuestions (loadPage p None)) = page_size) /\
  (6 <= p -> lQuestions (loadPage p None) = []).
Proof.
  unfold loadPage. cbn [lQuestions lTotalPages]. split; [apply totalPagesOf_samples|].
  split; intros Hp.
  - rewrite length_js_slice, sampleQuestions_length. unfold page_size; lia.
  - apply js_slice_beyond. rewrite sampleQuestions_length. unfold page_size; lia.
Qed.

(** ** Witnesses *)

Definition w_record (n : nat) : jval :=
  JObj [("question", JStr ("Q" +:+ js_nat_string n)); ("choices", JArr [JStr "a"; JNum 2]);
        ("correct", JStr "a")].

Definition w_bank (k : nat) : list jval := map w_record (seq 0 k).

Lemma whole_bank_page_witness :
  lQuestions (loadPage 2 (Some (mkResponse (Some (JArr (w_bank 12))) (Some 12))))
  = js_slice (map normalizeQuestion (w_bank 12)) 10 20 /\
  length (lQuestions (loadPage 2 (Some (mkResponse (Some (JArr (w_bank 12))) (Some 12))))) = 2.
Proof.
  assert (H : lQuestions (loadPage 2 (Some (mkResponse (Some (JArr (w_bank 12))) (Some 12))))
              = js_slice (map normalizeQuestion (w_bank 12)) 10 20).
  { apply (whole_bank_page (w_bank 12) (Some 12) 2); [by right|lia|vm_compute; lia]. }
  split; [exact H|]. rewrite H. vm_compute. reflexivity.
Defined.

Lemma server_paged_shows_samples_witness :
  lQuestions (loadPage 2 (Some (mkResponse (Some (JArr (w_bank 10))) (Some 45))))
  = js_slice sampleQuestions 10 20.
Proof.
  apply (server_paged_shows_samples (w_bank 10) 45 2); [vm_compute; reflexivity|vm_compute; lia|lia].
Defined.
