(* ===== verification/Navigator.v ===== *)
(** * Navigator: [handleNext]/[handlePrev] of PastStudy.tsx

    The navigation state is the parent's subject index and page
    (past-study.tsx keeps both and passes them to PastStudy as controlled
    props) and PastStudy's [currentQuestionIndex].  A handler reads a
    [NavView]: the session options, the [totalPages] of the last fetch and
    the length of [displayedQuestions].  A press of a button is the
    handler followed by the effect of PastStudy lines 54-59, which resets
    the cursor whenever the subject index changed ([navNext], [navPrev]).

    The abstract specification [FlatNav] sees a session as a subject index
    and an absolute question ordinal; [navNext_refines]/[navPrev_refines]
    show that, when every page is full and the pages hold the configured
    count, the concrete handlers move the ordinal exactly as [FlatNav]
    says. *)

From S2P Require Import Prelude Pagination Questions.
Import QuestionModel.

Module Nav.

(** [mode === "exam"]: the route parameter [mode] is a string or
    absent; every other value means study mode. *)
Definition is_exam (mode : option string) : bool :=
  bool_decide (mode = Some "exam").

Record NavState := mkNav {
  subjectIdx : nat;   (** past-study.tsx [subjectIdx] *)
  page : nat;         (** past-study.tsx [page] *)
  qIndex : nat        (** PastStudy.tsx [currentQuestionIndex] *)
}.

Record NavView := mkView {
  vOptions : list SubjectOption;   (** [options] prop *)
  vTotalPages : nat;               (** PastStudy [totalPages] state *)
  vShown : nat                     (** [displayedQuestions.length] *)
}.

Definition setQ (q : nat) (s : NavState) : NavState :=
  mkNav (subjectIdx s) (page s) q.

(** [onSubjectChange={(i) => { setSubjectIdx(i); setPage(1); }}]
    (past-study.tsx lines 211-214). *)
Definition onSubjectChange (i : nat) (s : NavState) : NavState :=
  mkNav i 1 (qIndex s).

(** [onChangePage={(p) => setPage(p)}] (past-study.tsx line 216). *)
Definition onChangePage (p : nat) (s : NavState) : NavState :=
  mkNav (subjectIdx s) p (qIndex s).

(** [(page - 1) * 10 + currentQuestionIndex + 1]
    (PastStudy.tsx lines 211, 481). *)
Definition overallNum (s : NavState) : nat :=
  (page s - 1) * page_size + qIndex s + 1.

Definition nSubjects (v : NavView) : nat := length (subjectsOf (vOptions v)).

(** [handleNext] (PastStudy.tsx lines 208-247).  The JavaScript test
    [i < n - 1] is written [i + 1 < n], its exact integer meaning. *)
Definition handleNext (mode : option string) (v : NavView) (s : NavState)
    : NavState :=
  if is_exam mode then
    let selectedCount := activeCount (vOptions v) (subjectIdx s) in
    if selectedCount <=? overallNum s then
      if subjectIdx s + 1 <? nSubjects v
      then setQ 0 (onSubjectChange (subjectIdx s + 1) s)
      else s
    else if qIndex s + 1 <? vShown v then setQ (qIndex s + 1) s
    else if page s <? vTotalPages v then setQ 0 (onChangePage (page s + 1) s)
    else if subjectIdx s + 1 <? nSubjects v
    then setQ 0 (onSubjectChange (subjectIdx s + 1) s)
    else s
  else onChangePage (Nat.min (vTotalPages v) (page s + 1)) s.

(** [handlePrev] (PastStudy.tsx lines 249-272). *)
Definition handlePrev (mode : option string) (s : NavState) : NavState :=
  if is_exam mode then
    if 0 <? qIndex s then setQ (qIndex s - 1) s
    else if 1 <? page s then setQ 9 (onChangePage (page s - 1) s)
    else if 0 <? subjectIdx s then onSubjectChange (subjectIdx s - 1) s
    else s
  else onChangePage (Nat.max 1 (page s - 1)) s.

(** The effect [useEffect(() => { setPageInternal(1); ...;
    setCurrentQuestionIndex(0); }, [currentIdx])] (PastStudy.tsx lines
    54-59), run after a render in which the subject index changed.
    [pageInternal] is unused while the page is controlled. *)
Definition subjectEffect (before after : NavState) : NavState :=
  if subjectIdx before =? subjectIdx after then after else setQ 0 after.

Definition navNext (mode : option string) (v : NavView) (s : NavState) : NavState :=
  subjectEffect s (handleNext mode v s).

Definition navPrev (mode : option string) (s : NavState) : NavState :=
  subjectEffect s (handlePrev mode s).

(** [disabled] of the Prev button (PastStudy.tsx lines 467-471). *)
Definition prevDisabled (mode : option string) (s : NavState) : bool :=
  if is_exam mode
  then (qIndex s =? 0) && (page s <=? 1) && (subjectIdx s =? 0)
  else page s <=? 1.

(** [disabled] of the Next button (PastStudy.tsx lines 489-499). *)
Definition nextDisabled (mode : option string) (v : NavView) (s : NavState) : bool :=
  if is_exam mode
  then (activeCount (vOptions v) (subjectIdx s) <=? overallNum s)
       && (nSubjects v <=? subjectIdx s + 1)
  else vTotalPages v <=? page s.

(** The navigation invariant: a page between 1 and the page total, a
    cursor inside a page and a subject index inside the session. *)
Definition nav_wf (v : NavView) (s : NavState) : Prop :=
  1 <= page s <= Nat.max 1 (vTotalPages v) /\
  qIndex s < page_size /\
  (subjectIdx s < nSubjects v \/ nSubjects v = 0 /\ subjectIdx s = 0).

(** A view is sane when a page shows at most a page of questions and
    the page total is at least one, as [Math.max(1, ...)] makes it. *)
Definition view_ok (v : NavView) : Prop :=
  vShown v <= page_size /\ 1 <= vTotalPages v.

End Nav.

(** ** The abstract navigator: a subject index and an absolute ordinal *)

Module FlatNav.

Record Pos := mkPos { pSubject : nat; pOrd : nat }.

Section Flat.
(** The number of subjects and each subject's configured count. *)
Variable nsub : nat.
Variable cnt : nat -> nat.

Definition next (p : Pos) : Pos :=
  if pOrd p + 1 <? cnt (pSubject p) then mkPos (pSubject p) (pOrd p + 1)
  else if pSubject p + 1 <? nsub then mkPos (pSubject p + 1) 0
  else p.

Definition prev (p : Pos) : Pos :=
  if 0 <? pOrd p then mkPos (pSubject p) (pOrd p - 1)
  else if 0 <? pSubject p then mkPos (pSubject p - 1) 0
  else p.

(** The last position: the last ordinal of the last subject. *)
Definition final (p : Pos) : bool :=
  (cnt (pSubject p) <=? pOrd p + 1) && (nsub <=? pSubject p + 1).

(** The number of presses of Next that lead from the first question
    of subject [i] to the last question of the last subject: each
    subject before the last costs its count (at least one press). *)
Definition steps_from (i : nat) : nat :=
  list_sum (map (fun j => Nat.max 1 (cnt j)) (seq i (nsub - i))) - 1.
End Flat.

End FlatNav.

(** ** Properties of the navigator *)

Import Nav.

Ltac nav_unfold :=
  unfold navNext, navPrev, handleNext, handlePrev, subjectEffect,
    prevDisabled, nextDisabled, nav_wf, setQ, onSubjectChange,
    onChangePage, overallNum, view_ok, page_size in *; simpl in *.

Lemma mkNav_inj i p q i' p' q' :
  mkNav i p q = mkNav i' p' q' <-> i = i' /\ p = p' /\ q = q'.
Proof. split; [intros H; by injection H|intros (->&->&->); done]. Qed.

(** Prev is disabled exactly when it changes nothing. *)
Lemma prevDisabled_noop_iff (mode : option string) (s : NavState) :
  1 <= page s -> prevDisabled mode s = true <-> navPrev mode s = s.
Proof.
  intros Hp. destruct s as [i p q]. nav_unfold.
  destruct (is_exam mode); case_nat; simpl;
    rewrite ?mkNav_inj; split; intros Hx; try lia; try done.
Qed.

(** the Prev button is disabled exactly when pressing Prev changes
    nothing, in both modes: at the first question of the first subject in
    exam mode, on the first page in study mode. *)
Theorem prevDisabled_iff_noop (mode : option string) (s : NavState) :
  1 <= page s -> prevDisabled mode s = true <-> navPrev mode s = s.
Proof. apply prevDisabled_noop_iff. Qed.

(** pressing Prev at the first question of the first subject, any
    number of times, never moves the position (spec: idempotence of
    [prev()] at the start). *)
Theorem prev_at_start_idempotent (mode : option string) (k : nat) :
  Nat.iter k (navPrev mode) (mkNav 0 1 0) = mkNav 0 1 0.
Proof.
  induction k as [|k IH]; simpl; [done|]. rewrite IH.
  apply prevDisabled_noop_iff; [simpl; lia|].
  unfold prevDisabled. by destruct (is_exam mode).
Qed.

(** when the Next button is disabled, pressing it changes nothing, in
    both modes (for a well-formed position and a sane view). *)
Theorem nextDisabled_noop (mode : option string) (v : NavView) (s : NavState) :
  view_ok v -> nav_wf v s -> nextDisabled mode v s = true -> navNext mode v s = s.
Proof.
  intros Hv Hwf Hd. destruct s as [i p q]. nav_unfold.
  destruct (is_exam mode); case_nat; simpl in *; rewrite ?mkNav_inj;
    try discriminate; try done; lia.
Qed.

(** C24 (finding): in exam mode the Next button stays enabled, yet pressing
    it does nothing, exactly when the subject's configured count is not
    reached but the current question is the last one shown on the last
    page of the last subject: a count larger than the questions the bank
    holds strands the user with a live button that does nothing. *)
Theorem next_enabled_but_stuck (v : NavView) (s : NavState) :
  nav_wf v s ->
  (nextDisabled (Some "exam") v s = false /\ navNext (Some "exam") v s = s <->
   overallNum s < activeCount (vOptions v) (subjectIdx s) /\
   vShown v <= qIndex s + 1 /\ vTotalPages v <= page s /\
   nSubjects v <= subjectIdx s + 1).
Proof.
  intros Hwf. destruct s as [i p q].
  assert (He : is_exam (Some "exam") = true) by reflexivity.
  unfold nextDisabled, navNext, handleNext. rewrite !He.
  nav_unfold. case_nat; simpl; rewrite ?mkNav_inj; split; intros Hx;
    try discriminate; try lia; try done.
Qed.

(** the navigation invariant (page in [1, totalPages], cursor inside a
    page, subject index inside the session) is preserved by Next, in both
    modes. *)
Theorem navNext_wf (mode : option string) (v : NavView) (s : NavState) :
  view_ok v -> nav_wf v s -> nav_wf v (navNext mode v s).
Proof.
  intros Hv Hwf. destruct s as [i p q]. nav_unfold.
  destruct (is_exam mode); case_nat; simpl; lia.
Qed.

(** the navigation invariant is preserved by Prev, in both modes. *)
Theorem navPrev_wf (mode : option string) (v : NavView) (s : NavState) :
  nav_wf v s -> nav_wf v (navPrev mode s).
Proof.
  intros Hwf. destruct s as [i p q]. nav_unfold.
  destruct (is_exam mode); case_nat; simpl; lia.
Qed.

(** in study mode Next and Prev move the page by one, clamped to
    [1, totalPages], and never change the subject: there is no
    cross-subject advance outside exam mode. *)
Theorem study_nav_pages (mode : option string) (v : NavView) (s : NavState) :
  is_exam mode = false ->
  navNext mode v s = mkNav (subjectIdx s) (Nat.min (vTotalPages v) (page s + 1)) (qIndex s) /\
  navPrev mode s = mkNav (subjectIdx s) (Nat.max 1 (page s - 1)) (qIndex s).
Proof.
  intros Hm. unfold navNext, navPrev, handleNext, handlePrev. rewrite !Hm.
  unfold subjectEffect, onChangePage. simpl. by rewrite Nat.eqb_refl.
Qed.

(** in study mode the inline button tests of PastStudy are the helpers
    of pagination.js: Prev is disabled exactly when [computePrevEnabled]
    is false and Next exactly when [computeNextEnabled] is false. *)
Theorem study_buttons_pagination_js (mode : option string) (v : NavView) (s : NavState) :
  is_exam mode = false ->
  prevDisabled mode s = negb (PaginationJs.computePrevEnabled (jsnat (page s))) /\
  nextDisabled mode v s =
    negb (PaginationJs.computeNextEnabled (jsnat (page s)) (jsnat (vTotalPages v))).
Proof.
  intros Hm. unfold prevDisabled, nextDisabled. rewrite !Hm.
  rewrite computePrevEnabled_jsnat, computeNextEnabled_jsnat.
  split; apply Bool.eq_iff_eq_true; rewrite Bool.negb_true_iff, Nat.leb_le, Nat.ltb_ge; lia.
Qed.

(** ** The abstract navigator and the refinement *)

Section FlatFacts.
Import FlatNav.
Variable nsub : nat.
Variable cnt : nat -> nat.

Lemma flat_next_within (p : Pos) (k : nat) :
  pOrd p + 1 + k <= cnt (pSubject p) ->
  Nat.iter k (next nsub cnt) p = mkPos (pSubject p) (pOrd p + k).
Proof.
  destruct p as [i o]; simpl. induction k as [|k IH]; intros Hk.
  - by rewrite Nat.add_0_r.
  - simpl. rewrite IH by lia. unfold next; simpl.
    destruct (Nat.ltb_spec (o + k + 1) (cnt i)); [f_equal; lia|lia].
Qed.

Lemma flat_subject_end (i : nat) :
  i + 1 < nsub ->
  Nat.iter (Nat.max 1 (cnt i)) (next nsub cnt) (mkPos i 0) = mkPos (i + 1) 0.
Proof.
  intros Hi. replace (Nat.max 1 (cnt i)) with (S (Nat.max 1 (cnt i) - 1)) by lia.
  rewrite Nat.iter_succ.
  destruct (Nat.eq_dec (cnt i) 0) as [H0|H0].
  - rewrite H0. simpl. unfold next; simpl. rewrite H0. case_nat; [lia|done|lia].
  - rewrite flat_next_within by (simpl; lia). simpl.
    unfold next; simpl. case_nat; [lia|done|lia].
Qed.

Lemma steps_from_step (i : nat) :
  i + 1 < nsub -> steps_from nsub cnt i = steps_from nsub cnt (i + 1) + Nat.max 1 (cnt i).
Proof.
  intros Hi. unfold steps_from.
  replace (nsub - i) with (S (nsub - (i + 1))) by lia. simpl.
  replace (S i) with (i + 1) by lia.
  assert (0 < list_sum (map (fun j => Nat.max 1 (cnt j)) (seq (i + 1) (nsub - (i + 1))))).
  { replace (nsub - (i + 1)) with (S (nsub - (i + 2))) by lia. simpl. lia. }
  lia.
Qed.

(** Liveness of the abstract navigator: from the first question of any
    subject, [steps_from] presses of Next reach the final position. *)
Lemma flat_reaches_final (i : nat) :
  i < nsub -> final nsub cnt (Nat.iter (steps_from nsub cnt i) (next nsub cnt) (mkPos i 0)) = true.
Proof.
  intros Hi. remember (nsub - i) as d eqn:Hd. revert i Hi Hd.
  induction d as [|d IH]; intros i Hi Hd; [lia|].
  destruct (Nat.ltb_spec (i + 1) nsub) as [Hlt|Hge].
  - rewrite steps_from_step by done. rewrite Nat.iter_add, flat_subject_end by done.
    apply IH; lia.
  - unfold steps_from. replace (nsub - i) with 1 by lia. simpl.
    destruct (Nat.eq_dec (cnt i) 0) as [H0|H0].
    + rewrite H0. simpl. unfold final; simpl. rewrite H0.
      apply andb_true_intro. rewrite !Nat.leb_le. lia.
    + rewrite flat_next_within by (simpl; lia). unfold final; simpl.
      apply andb_true_intro. rewrite !Nat.leb_le. lia.
Qed.
End FlatFacts.

Section Refinement.
(** The session's options and, for each subject index, the page total
    of its bank once it has been fetched. *)
Variable opts : list SubjectOption.
Variable tp : nat -> nat.
(** Every subject's pages hold its configured count, and every page
    before the last one is full. *)
Hypothesis tp_holds : forall i, activeCount opts i <= tp i * page_size.

Definition exam : option string := Some "exam".

(** The view once the page of the current subject has loaded: a full
    page of ten questions. *)
Definition loaded (s : NavState) : NavView := mkView opts (tp (subjectIdx s)) page_size.

Definition absPos (s : NavState) : FlatNav.Pos :=
  FlatNav.mkPos (subjectIdx s) ((page s - 1) * page_size + qIndex s).

Definition nsubOf : nat := length (subjectsOf opts).

Lemma exam_is_exam : is_exam exam = true.
Proof. reflexivity. Qed.

(** Next in exam mode on the absolute ordinal. *)
Lemma navNext_absPos (s : NavState) :
  nav_wf (loaded s) s ->
  absPos (navNext exam (loaded s) s) = FlatNav.next nsubOf (activeCount opts) (absPos s).
Proof.
  intros Hwf. pose proof (tp_holds (subjectIdx s)) as Htp.
  destruct s as [i p q]. unfold navNext, handleNext. rewrite exam_is_exam.
  unfold absPos, FlatNav.next, nsubOf, loaded, nSubjects in *. nav_unfold.
  case_nat; simpl in *; try lia; f_equal; lia.
Qed.

(** C1 (refinement): with full pages that hold the configured counts, a
    press of Next in exam mode moves the absolute ordinal exactly as the
    flat navigator: to the next ordinal of the subject while the count
    is not reached, then to ordinal 0 of the next subject, and nowhere
    after the last question of the last subject. *)
Theorem navNext_refines (s : NavState) :
  nav_wf (loaded s) s ->
  absPos (navNext exam (loaded s) s) = FlatNav.next nsubOf (activeCount opts) (absPos s).
Proof. apply navNext_absPos. Qed.

(** Refinement: a press of Prev in exam mode moves the absolute
    ordinal back by one, and from ordinal 0 of a subject to ordinal 0
    of the previous subject (its last position is not restored). *)
Theorem navPrev_refines (s : NavState) :
  nav_wf (loaded s) s ->
  absPos (navPrev exam s) = FlatNav.prev (absPos s).
Proof.
  intros Hwf. destruct s as [i p q]. unfold navPrev, handlePrev. rewrite exam_is_exam.
  unfold absPos, FlatNav.prev, loaded in *. nav_unfold.
  case_nat; simpl in *; try lia; f_equal; lia.
Qed.

Definition stepNext (s : NavState) : NavState := navNext exam (loaded s) s.

Lemma stepNext_wf (s : NavState) :
  nav_wf (loaded s) s -> nav_wf (loaded (stepNext s)) (stepNext s).
Proof.
  intros Hwf. destruct s as [i p q]. unfold stepNext, navNext, handleNext.
  rewrite exam_is_exam. unfold loaded in *. nav_unfold. unfold nSubjects in *.
  case_nat; simpl in *; lia.
Qed.

Lemma iter_stepNext_refines (k : nat) (s : NavState) :
  nav_wf (loaded s) s ->
  nav_wf (loaded (Nat.iter k stepNext s)) (Nat.iter k stepNext s) /\
  absPos (Nat.iter k stepNext s)
  = Nat.iter k (FlatNav.next nsubOf (activeCount opts)) (absPos s).
Proof.
  intros Hwf. induction k as [|k [IHwf IH]]; [done|]. simpl. split.
  - by apply stepNext_wf.
  - unfold stepNext at 1. rewrite navNext_absPos by done. by rewrite IH.
Qed.

Lemma nextDisabled_final (s : NavState) :
  nextDisabled exam (loaded s) s = FlatNav.final nsubOf (activeCount opts) (absPos s).
Proof. unfold nextDisabled. by rewrite exam_is_exam. Qed.

(** C7 (liveness): in exam mode, from the first question of the first
    subject, [steps_from 0] presses of Next (the sum of the subjects'
    counts, less one) reach a position where Next is disabled: the
    forward walk through a session always ends. *)
Theorem exam_next_reaches_end :
  0 < nsubOf ->
  nextDisabled exam (loaded (Nat.iter (FlatNav.steps_from nsubOf (activeCount opts) 0) stepNext (mkNav 0 1 0)))
    (Nat.iter (FlatNav.steps_from nsubOf (activeCount opts) 0) stepNext (mkNav 0 1 0)) = true.
Proof.
  intros Hn. rewrite nextDisabled_final.
  assert (Hwf : nav_wf (loaded (mkNav 0 1 0)) (mkNav 0 1 0)).
  { unfold loaded. nav_unfold. unfold nSubjects, nsubOf in *. simpl. lia. }
  destruct (iter_stepNext_refines (FlatNav.steps_from nsubOf (activeCount opts) 0) (mkNav 0 1 0) Hwf)
    as [_ ->].
  by apply flat_reaches_final.
Qed.

(** for a subject with configured count [N >= 1], [N - 1] presses of
    Next from its first question reach absolute ordinal [N - 1], and on
    the last subject the Next button is then disabled. *)
Theorem count_reached (i : nat) :
  i < nsubOf -> 1 <= activeCount opts i ->
  absPos (Nat.iter (activeCount opts i - 1) stepNext (mkNav i 1 0))
    = FlatNav.mkPos i (activeCount opts i - 1) /\
  (i + 1 = nsubOf ->
   nextDisabled exam (loaded (Nat.iter (activeCount opts i - 1) stepNext (mkNav i 1 0)))
     (Nat.iter (activeCount opts i - 1) stepNext (mkNav i 1 0)) = true).
Proof.
  intros Hi Hc.
  assert (Hwf : nav_wf (loaded (mkNav i 1 0)) (mkNav i 1 0)).
  { unfold loaded. nav_unfold. unfold nSubjects, nsubOf in *. simpl. lia. }
  destruct (iter_stepNext_refines (activeCount opts i - 1) (mkNav i 1 0) Hwf) as [_ Heq].
  assert (Hpos : absPos (Nat.iter (activeCount opts i - 1) stepNext (mkNav i 1 0))
                 = FlatNav.mkPos i (activeCount opts i - 1)).
  { rewrite Heq. unfold absPos. simpl. rewrite flat_next_within; simpl; [done|lia]. }
  split; [done|]. intros Hlast.
  rewrite nextDisabled_final, Hpos. unfold FlatNav.final. simpl.
  apply andb_true_intro. rewrite !Nat.leb_le. lia.
Qed.
End Refinement.

(** ** Witnesses: the theorems applied to a concrete two-subject session *)

Definition w_math : SubjectOption := mkSubjectOption "Mathematics" "2024" "All Topic" 12 false false.
Definition w_bio : SubjectOption := mkSubjectOption "Biology" "2024" "All Topic" 10 false false.
Definition w_view : NavView := mkView [w_math; w_bio] 2 10.

Lemma w_tp_holds : forall i, activeCount [w_math; w_bio] i <= (fun _ => 2) i * page_size.
Proof. intros [|[|i]]; vm_compute; lia. Qed.

Lemma prevDisabled_iff_noop_witness :
  1 <= page (mkNav 0 1 0) /\ navPrev (Some "exam") (mkNav 0 1 0) = mkNav 0 1 0.
Proof.
  split; [simpl; lia|].
  apply (prevDisabled_iff_noop (Some "exam") (mkNav 0 1 0)); [simpl; lia|reflexivity].
Defined.

Lemma nextDisabled_noop_witness :
  view_ok w_view /\ nav_wf w_view (mkNav 1 1 9) /\
  navNext (Some "exam") w_view (mkNav 1 1 9) = mkNav 1 1 9.
Proof.
  assert (Hv : view_ok w_view) by (vm_compute; lia).
  assert (Hw : nav_wf w_view (mkNav 1 1 9)) by (vm_compute; lia).
  split; [done|split; [done|]].
  apply nextDisabled_noop; [done|done|reflexivity].
Defined.

Lemma next_enabled_but_stuck_witness :
  nav_wf (mkView [w_math; w_bio] 1 3) (mkNav 1 1 2) /\
  nextDisabled (Some "exam") (mkView [w_math; w_bio] 1 3) (mkNav 1 1 2) = false /\
  navNext (Some "exam") (mkView [w_math; w_bio] 1 3) (mkNav 1 1 2) = mkNav 1 1 2.
Proof.
  assert (Hw : nav_wf (mkView [w_math; w_bio] 1 3) (mkNav 1 1 2)) by (vm_compute; lia).
  split; [done|].
  apply (proj2 (next_enabled_but_stuck (mkView [w_math; w_bio] 1 3) (mkNav 1 1 2) Hw)).
  vm_compute; lia.
Defined.

Lemma navNext_wf_witness :
  nav_wf w_view (navNext (Some "exam") w_view (mkNav 0 1 9)).
Proof. apply navNext_wf; vm_compute; lia. Defined.

Lemma navPrev_wf_witness :
  nav_wf w_view (navPrev (Some "exam") (mkNav 0 2 0)).
Proof. apply navPrev_wf; vm_compute; lia. Defined.

Lemma study_nav_pages_witness :
  is_exam None = false /\
  navNext None w_view (mkNav 0 2 0) = mkNav 0 (Nat.min 2 3) 0.
Proof. split; [reflexivity|]. apply (study_nav_pages None w_view (mkNav 0 2 0) eq_refl). Defined.

Lemma study_buttons_pagination_js_witness :
  is_exam (Some "study") = false /\
  prevDisabled (Some "study") (mkNav 0 1 0) =
    negb (PaginationJs.computePrevEnabled (jsnat 1)).
Proof.
  split; [reflexivity|].
  apply (study_buttons_pagination_js (Some "study") w_view (mkNav 0 1 0) eq_refl).
Defined.

Lemma navNext_refines_witness :
  nav_wf (loaded [w_math; w_bio] (fun _ => 2) (mkNav 0 1 9)) (mkNav 0 1 9) /\
  absPos (navNext exam (loaded [w_math; w_bio] (fun _ => 2) (mkNav 0 1 9)) (mkNav 0 1 9))
  = FlatNav.next (nsubOf [w_math; w_bio]) (activeCount [w_math; w_bio]) (absPos (mkNav 0 1 9)).
Proof.
  split; [vm_compute; lia|].
  apply (navNext_refines [w_math; w_bio] (fun _ => 2) w_tp_holds (mkNav 0 1 9)).
  vm_compute; lia.
Defined.

Lemma navPrev_refines_witness :
  nav_wf (loaded [w_math; w_bio] (fun _ => 2) (mkNav 1 2 0)) (mkNav 1 2 0) /\
  absPos (navPrev exam (mkNav 1 2 0)) = FlatNav.prev (absPos (mkNav 1 2 0)).
Proof.
  split; [vm_compute; lia|].
  apply (navPrev_refines [w_math; w_bio] (fun _ => 2) (mkNav 1 2 0)).
  vm_compute; lia.
Defined.

Lemma exam_next_reaches_end_witness :
  0 < nsubOf [w_math; w_bio] /\
  nextDisabled exam
    (loaded [w_math; w_bio] (fun _ => 2)
       (Nat.iter (FlatNav.steps_from (nsubOf [w_math; w_bio]) (activeCount [w_math; w_bio]) 0)
          (stepNext [w_math; w_bio] (fun _ => 2)) (mkNav 0 1 0)))
    (Nat.iter (FlatNav.steps_from (nsubOf [w_math; w_bio]) (activeCount [w_math; w_bio]) 0)
       (stepNext [w_math; w_bio] (fun _ => 2)) (mkNav 0 1 0)) = true.
Proof.
  split; [vm_compute; lia|].
  apply (exam_next_reaches_end [w_math; w_bio] (fun _ => 2) w_tp_holds). vm_compute; lia.
Defined.

Lemma count_reached_witness :
  1 < nsubOf [w_math; w_bio] /\ 1 <= activeCount [w_math; w_bio] 1 /\
  absPos (Nat.iter (activeCount [w_math; w_bio] 1 - 1) (stepNext [w_math; w_bio] (fun _ => 2))
            (mkNav 1 1 0)) = FlatNav.mkPos 1 (activeCount [w_math; w_bio] 1 - 1).
Proof.
  split; [vm_compute; lia|]. split; [vm_compute; lia|].
  apply (count_reached [w_math; w_bio] (fun _ => 2) w_tp_holds 1); vm_compute; lia.
Defined.
