(* ===== verification/Corrections.v ===== *)
(** * Corrections: the results and corrections screens after an exam

    [src/app/mode/exam-results.tsx] receives the per-subject results and
    the [questionsData] payload of [handleSubmit] (past-study.tsx) as
    JSON route parameters, shows the totals and grades, and forwards the
    payload to [src/app/mode/exam-corrections.tsx].  That screen groups
    the questions by subject into a plain object, shows one question at
    a time with subject tabs, and moves with Prev/Next across subjects.

    The screens here take their route parameters decoded: a list of
    [SubjectResult] or [QuestionData], or [None] for an absent one.
    [Routes] models the JSON text between them and proves that what
    past-study sends decodes to the list it was built from ([undefined]
    fields are dropped and read back as [undefined]).  The grouping object is an association list in creation
    order; reading one of the names [Object.prototype] provides gives an
    inherited, truthy value.  Screens are view records: the texts and
    flags of the JSX, without styles. *)

From S2P Require Import Prelude Json Questions Scoring.
From Stdlib Require Import Ascii.
Import QuestionModel Submit Results.

Module ResultsScreen.

(** The view of exam-results.tsx (lines 41-144): the overall card, one
    row per subject, and the three buttons. *)
Record SubjectRow := mkRow {
  rowSubject : string;
  rowGrade : Grade;
  rowScore : nat;
  rowTotal : nat;
  rowPercentage : nat    (* the text "{percentage}%" and the bar width *)
}.

Record ResultsView := mkResultsView {
  rvOverallPercentage : nat;
  rvOverallGrade : Grade;
  rvTotalScore : nat;
  rvTotalQuestions : nat;
  rvRows : list SubjectRow
}.

(** Lines 19-25: [params.results ? JSON.parse(...) : []]. *)
Definition parseResults (param : option (list SubjectResult)) : list SubjectResult :=
  default [] param.

(** Lines 15-148: the whole screen. *)
Definition resultsView (param : option (list SubjectResult)) : ResultsView :=
  let results := parseResults param in
  let overall := overallPercentage results in
  mkResultsView overall (getGrade overall) (totalScore results) (totalQuestions results)
    (map (fun r => mkRow (rSubject r) (getGrade (rPercentage r)) (rScore r) (rTotal r)
                     (rPercentage r)) results).

(** Where the three buttons lead (lines 117-141): "Show Corrections"
    forwards the [questionsData] parameter unchanged. *)
Inductive ResultsAction := ShowCorrections | TakeAnother | BackHome.
Inductive Route :=
| RouteCorrections (questionsData : option (list QuestionData))
| RouteExam
| RouteHome.

Definition resultsPress (questionsData : option (list QuestionData)) (a : ResultsAction) : Route :=
  match a with
  | ShowCorrections => RouteCorrections questionsData
  | TakeAnother => RouteExam
  | BackHome => RouteHome
  end.

End ResultsScreen.

Module CorrectionsScreen.

Definition Groups := list (string * list QuestionData).

(** The property key [grouped[q.subject]]: [String(q.subject)]. *)
Definition subject_key (s : option string) : string := default "undefined" s.

(** Lines 31-40: [allQuestionsData.forEach] into [grouped = {}].  An own
    property is an array (truthy) and the push appends to it; an absent
    key gets a fresh array holding [q]; an inherited name is truthy, so
    [grouped[k].push(q)] calls [push] on a function and throws a
    [TypeError] ([None]). *)
Fixpoint group_loop (grouped : Groups) (qs : list QuestionData) : option Groups :=
  match qs with
  | [] => Some grouped
  | q :: qs' =>
      let k := subject_key (qdSubject q) in
      match assoc_first k grouped with
      | Some l => group_loop (assoc_set k (l ++ [q]) grouped) qs'
      | None =>
          if bool_decide (k ∈ object_prototype_props) then None
          else group_loop (grouped ++ [(k, [q])]) qs'
      end
  end.

Definition questionsBySubject (allQuestionsData : list QuestionData) : option Groups :=
  group_loop [] allQuestionsData.

(** Lines 42-43. *)
Record CState := mkCS { currentSubjectIndex : nat; currentQuestionIndex : nat }.
Definition initialCS : CState := mkCS 0 0.

Section Screen.
Variable grouped : Groups.

(** Lines 45-48.  [grouped[k] || []] reads an own property: [k] is an
    own key or ["undefined"], which [Object.prototype] does not have. *)
Definition subjects : list string := object_keys grouped.
Definition groupOf (k : option string) : list QuestionData :=
  default [] (assoc_first (subject_key k) grouped).
Definition currentSubject (s : CState) : option string := subjects !! currentSubjectIndex s.
Definition currentQuestions (s : CState) : list QuestionData := groupOf (currentSubject s).
Definition currentQuestion (s : CState) : option QuestionData :=
  currentQuestions s !! currentQuestionIndex s.

(** Lines 52-59.  [i < n - 1] on JavaScript integers is [i + 1 < n]. *)
Definition handleNext (s : CState) : CState :=
  if currentQuestionIndex s + 1 <? length (currentQuestions s)
  then mkCS (currentSubjectIndex s) (currentQuestionIndex s + 1)
  else if currentSubjectIndex s + 1 <? length subjects
  then mkCS (currentSubjectIndex s + 1) 0
  else s.

(** Lines 61-69.  [questionsBySubject[prevSubject].length] throws when
    [prevSubject] names no group ([None]). *)
Definition handlePrev (s : CState) : option CState :=
  if 0 <? currentQuestionIndex s then Some (mkCS (currentSubjectIndex s) (currentQuestionIndex s - 1))
  else if 0 <? currentSubjectIndex s then
    match assoc_first (subject_key (subjects !! (currentSubjectIndex s - 1))) grouped with
    | Some l => Some (mkCS (currentSubjectIndex s - 1) (length l - 1))
    | None => None
    end
  else Some s.

(** The [onPress] of a subject tab (lines 132-135 and 211-214). *)
Definition selectTab (index : nat) (s : CState) : CState := mkCS index 0.

(** Lines 71-73, [x === n - 1] written [x + 1 = n]. *)
Definition isFirstQuestion (s : CState) : bool :=
  (currentSubjectIndex s =? 0) && (currentQuestionIndex s =? 0).
Definition isLastQuestion (s : CState) : bool :=
  (currentSubjectIndex s + 1 =? length subjects) &&
  (currentQuestionIndex s + 1 =? length (currentQuestions s)).

(** A subject tab (lines 127-162 and 204-238): its subject, the badge
    shown when [questionsBySubject[subject]?.length || 0] is positive, and
    whether it is the active one. *)
Record TabView := mkTab { tabSubject : string; tabBadge : option nat; tabActive : bool }.

Definition tabs (s : CState) : list TabView :=
  imap (fun index subject =>
          let n := length (groupOf (Some subject)) in
          mkTab subject (if 0 <? n then Some n else None) (index =? currentSubjectIndex s))
       subjects.

(** [String.fromCharCode(65 + index)] (line 50), for the fewer than 191
    options of a question, whose codes stay in one byte. *)
Definition getOptionLabel (index : nat) : string := String (ascii_of_nat (65 + index)) EmptyString.

(** An option row (lines 273-318). *)
Record OptionRow := mkOptionRow {
  orLabel : string;
  orText : string;
  orCorrect : bool;         (* option === correctAnswer: green, check mark *)
  orWrongSelection : bool   (* picked and not correct: red, cross *)
}.

Definition optionRow (q : QuestionData) (optIndex : nat) (option : string) : OptionRow :=
  let isCorrectOption := js_str_eq (Some option) (Some (qdCorrectAnswer q)) in
  let isUserSelection := bool_decide (Some option = qdUserAnswer q) in
  mkOptionRow (getOptionLabel optIndex) option isCorrectOption
    (isUserSelection && negb isCorrectOption).

(** [userAnswer === correctAnswer] (lines 257-267 and 322). *)
Definition answerMatches (q : QuestionData) : bool :=
  js_str_eq (qdUserAnswer q) (Some (qdCorrectAnswer q)).

(** The question card and the footer (lines 177-380). *)
Record ReviewView := mkReview {
  rvNumber : nat;                        (* "Question {n} of {m}" and "{n} / {m}" *)
  rvOf : nat;
  rvTabs : list TabView;
  rvInstruction : option jval;           (* shown when truthy *)
  rvCorrect : bool;                      (* "Correct" or "Wrong" badge *)
  rvQuestion : jval;
  rvOptions : list OptionRow;
  rvSummary : option (string * jval);    (* "Your answer", "Correct answer" *)
  rvExplanation : option jval;           (* shown when truthy *)
  rvPrevDisabled : bool;
  rvFinish : bool                        (* "Finish" in place of "Next" *)
}.

Definition reviewView (q : QuestionData) (s : CState) : ReviewView :=
  mkReview (currentQuestionIndex s + 1) (length (currentQuestions s)) (tabs s)
    (if jtruthy (qdInstruction q) then qdInstruction q else None)
    (answerMatches q)
    (qdQuestion q)
    (imap (optionRow q) (qdOptions q))
    (if answerMatches q then None
     else Some (default "" (qdUserAnswer q ||| Some "Not answered")%jcbt, qdCorrectAnswer q))
    (if jtruthy (qdCorrection q) then qdCorrection q else None)
    (isFirstQuestion s)
    (isLastQuestion s).

End Screen.

(** The three screens of lines 75-105, 108-175 and 177-385, and the
    crash of a grouping that throws. *)
Inductive Screen :=
| Crashed
| NoQuestions
| EmptySubject (ts : list TabView) (subject : option string)
| Review (v : ReviewView).

Definition screenOf (allQuestionsData : list QuestionData) (grouped : Groups) (s : CState) : Screen :=
  if length allQuestionsData =? 0 then NoQuestions
  else match currentQuestion grouped s with
       | Some q => if length (currentQuestions grouped s) =? 0
                   then EmptySubject (tabs grouped s) (currentSubject grouped s)
                   else Review (reviewView grouped q s)
       | None => EmptySubject (tabs grouped s) (currentSubject grouped s)
       end.

(** Lines 18-28 and the render: the [questionsData] parameter, parsed. *)
Definition render (param : option (list QuestionData)) (s : CState) : Screen :=
  let all := default [] param in
  match questionsBySubject all with
  | Some grouped => screenOf all grouped s
  | None => Crashed
  end.

(** A press of an enabled control of the review screen or of a tab; a
    handler that throws ([handlePrev] giving [None]) has no step. *)
Inductive cstep (grouped : Groups) : CState -> CState -> Prop :=
| cs_next s q : currentQuestion grouped s = Some q -> isLastQuestion grouped s = false ->
    cstep grouped s (handleNext grouped s)
| cs_prev s s' q : currentQuestion grouped s = Some q -> isFirstQuestion s = false ->
    handlePrev grouped s = Some s' -> cstep grouped s s'
| cs_tab s index : index < length (subjects grouped) -> cstep grouped s (selectTab index s).

(** The key of a question and the questions in key order. *)
Definition key (q : QuestionData) : string := subject_key (qdSubject q).
Definition flat (grouped : Groups) : list QuestionData := concat (object_values grouped).

(** The grouping object is well formed: its keys are distinct, none is
    inherited, every group is non-empty. *)
Definition ginv (g : Groups) : Prop :=
  NoDup g.*1 /\ Forall (fun k => k ∉ object_prototype_props) g.*1 /\ Forall (fun p => p.2 <> []) g.

End CorrectionsScreen.

(** ** The grouping *)

Import CorrectionsScreen.

Lemma assoc_first_app {A} k (l1 l2 : list (string * A)) :
  assoc_first k (l1 ++ l2) = match assoc_first k l1 with Some v => Some v | None => assoc_first k l2 end.
Proof. induction l1 as [|[k' v'] l1 IH]; simpl; [done|]. by case_bool_decide. Qed.

Lemma Forall_assoc_set {A} (P : A -> Prop) k v (ps : list (string * A)) :
  P v -> Forall (fun p => P p.2) ps -> Forall (fun p => P p.2) (assoc_set k v ps).
Proof.
  intros Hv. induction ps as [|[k' v'] ps IH]; simpl; intros Hps; [by repeat constructor|].
  apply Forall_cons in Hps as [H1 H2]. case_bool_decide; constructor; auto.
Qed.

Lemma concat_assoc_set {A} k (l x : list A) (g : list (string * list A)) :
  assoc_first k g = Some l -> concat (assoc_set k (l ++ x) g).*2 ≡ₚ concat g.*2 ++ x.
Proof.
  induction g as [|[k' v'] g IH]; simpl; [done|]. case_bool_decide; intros Hk.
  - simplify_eq/=. rewrite <- !(assoc_L app). f_equiv. apply Permutation_app_comm.
  - rewrite fmap_cons. simpl. rewrite (IH Hk). by rewrite (assoc_L app).
Qed.

Lemma group_loop_inv g qs g' : ginv g -> group_loop g qs = Some g' -> ginv g'.
Proof.
  revert g. induction qs as [|q qs IH]; intros g (Hnd & Hpr & Hne) Hg; simpl in Hg;
    [simplify_eq; by split_and!|fold (key q) in Hg].
  destruct (assoc_first (key q) g) as [l|] eqn:E; [|case_bool_decide; [done|]]; (eapply IH; [|exact Hg]).
  - apply assoc_first_elem in E. assert (Hk : key q ∈ g.*1).
    { apply list_elem_of_fmap. by exists (key q, l). }
    unfold ginv. rewrite (assoc_set_fst _ _ _ Hk). split_and!; [done|done|].
    apply (Forall_assoc_set (fun v => v <> [])); [by destruct l|done].
  - apply assoc_first_None in E. unfold ginv. rewrite fmap_app. simpl. split_and!.
    + apply NoDup_app. split_and!; [done| |by apply NoDup_singleton]. set_solver.
    + apply Forall_app. by split; [|constructor].
    + apply Forall_app. by split; [|constructor].
Qed.

(** Each group holds, in payload order, the questions of its key. *)
Lemma group_loop_spec g qs g' k :
  group_loop g qs = Some g' ->
  default [] (assoc_first k g') = default [] (assoc_first k g) ++ filter (fun q => key q = k) qs.
Proof.
  revert g. induction qs as [|q qs IH]; intros g Hg; simpl in Hg;
    [simplify_eq; by rewrite app_nil_r|fold (key q) in Hg].
  rewrite filter_cons. destruct (assoc_first (key q) g) as [l|] eqn:E; [|case_bool_decide; [done|]];
    rewrite (IH _ Hg).
  - rewrite assoc_first_set. case_bool_decide; case_decide; subst; try done.
    rewrite E. simpl. by rewrite <- ?(assoc_L app).
  - rewrite assoc_first_app. destruct (assoc_first k g) eqn:Ek; [case_decide; subst; congruence|].
    simpl. case_bool_decide; case_decide; subst; done.
Qed.

Lemma group_loop_perm g qs g' : group_loop g qs = Some g' -> concat g'.*2 ≡ₚ concat g.*2 ++ qs.
Proof.
  revert g. induction qs as [|q qs IH]; intros g Hg; simpl in Hg;
    [simplify_eq; by rewrite app_nil_r|fold (key q) in Hg].
  destruct (assoc_first (key q) g) as [l|] eqn:E; [|case_bool_decide; [done|]]; rewrite (IH _ Hg).
  - rewrite (concat_assoc_set _ _ _ _ E). by rewrite <- (assoc_L app).
  - rewrite fmap_app, concat_app. simpl. by rewrite ?app_nil_r, <- (assoc_L app).
Qed.

Lemma group_loop_None g qs :
  Forall (fun k => k ∉ object_prototype_props) g.*1 ->
  group_loop g qs = None <-> Exists (fun q => key q ∈ object_prototype_props) qs.
Proof.
  revert g. induction qs as [|q qs IH]; intros g Hg; simpl; [split; [done|by intros ?%Exists_nil]|].
  fold (key q).
  rewrite Exists_cons. destruct (assoc_first (key q) g) as [l|] eqn:E.
  - apply assoc_first_elem in E. assert (Hk : key q ∈ g.*1).
    { apply list_elem_of_fmap. by exists (key q, l). }
    rewrite IH by by rewrite (assoc_set_fst _ _ _ Hk).
    pose proof (proj1 (Forall_forall _ _) Hg _ Hk). naive_solver.
  - case_bool_decide; [naive_solver|]. rewrite IH; [naive_solver|].
    rewrite fmap_app. apply Forall_app. by split; [|constructor].
Qed.

(** ** The corrections navigator is a cursor over the flattened groups *)

Section Cursor.
Variable g : Groups.
Hypothesis Hg : ginv g.

(** The group lengths in tab order and the cursor's absolute position. *)
Definition lens : list nat := map length (object_values g).
Definition ordinal (s : CState) : nat :=
  list_sum (take (currentSubjectIndex s) lens) + currentQuestionIndex s.

(** The cursor is on a question: a tab and a question of its group. *)
Definition cwf (s : CState) : Prop :=
  exists k l, own_props g !! currentSubjectIndex s = Some (k, l) /\ currentQuestionIndex s < length l.

Lemma own_lookup i k l :
  own_props g !! i = Some (k, l) ->
  subjects g !! i = Some k /\ assoc_first k g = Some l /\ groupOf g (Some k) = l /\ l <> [].
Proof.
  intros Hi. destruct Hg as (Hnd & _ & Hne).
  assert (Hin : (k, l) ∈ g) by (rewrite <- (own_props_perm g); by eapply list_elem_of_lookup_2).
  assert (Ha := assoc_first_NoDup _ _ _ Hnd Hin).
  split_and!; [|done| |].
  - unfold subjects, object_keys. by rewrite list_lookup_fmap, Hi.
  - unfold groupOf. simpl. by rewrite Ha.
  - by apply (proj1 (Forall_forall _ _) Hne _ Hin).
Qed.

Lemma own_lookup_lt i : i < length (subjects g) -> exists k l, own_props g !! i = Some (k, l).
Proof.
  unfold subjects, object_keys. rewrite length_map. intros [[k l] H]%lookup_lt_is_Some. eauto.
Qed.

Lemma own_lookup_length i kl : own_props g !! i = Some kl -> i < length (subjects g).
Proof. intros H%lookup_lt_Some. unfold subjects, object_keys. by rewrite length_map. Qed.

Lemma length_subjects : length (subjects g) = length lens.
Proof. unfold subjects, object_keys, lens, object_values. by rewrite !length_map. Qed.

Lemma lens_pos : Forall (fun n => 0 < n) lens.
Proof.
  apply Forall_lookup_2. intros i n. unfold lens, object_values.
  rewrite !list_lookup_fmap. destruct (own_props g !! i) as [[k l]|] eqn:E; [|done].
  intros [= <-]. destruct (own_lookup _ _ _ E) as (_ & _ & _ & Hl). destruct l; simpl; [done|lia].
Qed.

Lemma lens_lookup i k l : own_props g !! i = Some (k, l) -> lens !! i = Some (length l).
Proof. intros E. unfold lens, object_values. by rewrite !list_lookup_fmap, E. Qed.

Lemma cwf_current s :
  cwf s -> exists k l, own_props g !! currentSubjectIndex s = Some (k, l) /\
    currentQuestionIndex s < length l /\ currentSubject g s = Some k /\ currentQuestions g s = l.
Proof.
  intros (k & l & Hi & Hq). destruct (own_lookup _ _ _ Hi) as (Hs & _ & Hgr & _).
  exists k, l. unfold currentQuestions, currentSubject. by rewrite Hs.
Qed.

Lemma cwf_question s : cwf s -> currentQuestion g s = flat g !! ordinal s /\ is_Some (currentQuestion g s).
Proof.
  intros (k & l & Hi & Hq & Hs & Hc)%cwf_current. unfold currentQuestion, flat, ordinal, lens.
  rewrite Hc. assert (Hv : object_values g !! currentSubjectIndex s = Some l).
  { unfold object_values. by rewrite list_lookup_fmap, Hi. }
  rewrite (concat_lookup_sum _ _ _ _ Hv Hq). split; [done|]. by apply lookup_lt_is_Some.
Qed.

Lemma cwf_tab index : index < length (subjects g) -> cwf (mkCS index 0).
Proof.
  intros (k & l & Hi)%own_lookup_lt. exists k, l. split; [done|].
  destruct (own_lookup _ _ _ Hi) as (_ & _ & _ & Hl). simpl. destruct l; simpl; [done|lia].
Qed.

Lemma next_refines s :
  cwf s -> isLastQuestion g s = false ->
  cwf (handleNext g s) /\ ordinal (handleNext g s) = ordinal s + 1.
Proof.
  intros (k & l & Hi & Hq & Hs & Hc)%cwf_current. pose proof (own_lookup_length _ _ Hi) as Hlt.
  unfold handleNext, isLastQuestion. rewrite Hc. destruct s as [si qi]; simpl in *.
  destruct (Nat.ltb_spec (qi + 1) (length l)).
  - intros _. split; [exists k, l; split; [done|simpl; lia]|]. unfold ordinal. simpl. lia.
  - destruct (Nat.ltb_spec (si + 1) (length (subjects g))); case_nat; try lia.
    intros _. split; [apply cwf_tab; lia|]. unfold ordinal. simpl.
    rewrite Nat.add_1_r, (list_sum_take_S _ _ _ (lens_lookup _ _ _ Hi)). lia.
Qed.

Lemma prev_refines s :
  cwf s -> isFirstQuestion s = false ->
  exists s', handlePrev g s = Some s' /\ cwf s' /\ ordinal s' + 1 = ordinal s.
Proof.
  intros (k & l & Hi & Hq & Hs & Hc)%cwf_current. pose proof (own_lookup_length _ _ Hi) as Hlt.
  unfold handlePrev, isFirstQuestion. destruct s as [si qi]; simpl in *.
  destruct (Nat.ltb_spec 0 qi).
  - intros _. eexists. split; [done|]. split; [exists k, l; simpl; split; [done|lia]|].
    unfold ordinal. simpl. lia.
  - destruct (Nat.ltb_spec 0 si); case_nat; try lia. intros _.
    destruct (own_lookup_lt (si - 1)) as (k' & l' & Hi'); [lia|].
    destruct (own_lookup _ _ _ Hi') as (Hs' & Ha' & _ & Hl'). rewrite Hs'. simpl. rewrite Ha'.
    eexists. split; [done|]. split.
    + exists k', l'. split; [done|]. simpl. destruct l'; simpl; [done|lia].
    + unfold ordinal. simpl. replace si with (S (si - 1)) at 2 by lia.
      rewrite (list_sum_take_S _ _ _ (lens_lookup _ _ _ Hi')). destruct l'; simpl; [done|lia].
Qed.

Lemma first_iff s : cwf s -> isFirstQuestion s = true <-> ordinal s = 0.
Proof.
  intros (k & l & Hi & Hq). pose proof (own_lookup_length _ _ Hi) as Hlt.
  rewrite length_subjects in Hlt. unfold isFirstQuestion, ordinal.
  destruct s as [si qi]; simpl in *. rewrite andb_true_iff, !Nat.eqb_eq. split.
  - intros [-> ->]. done.
  - intros H. destruct si as [|si]; [lia|].
    pose proof (list_sum_take_pos lens (S si) lens_pos ltac:(lia) ltac:(lia)). lia.
Qed.

Lemma length_flat : length (flat g) = list_sum lens.
Proof. unfold flat, lens. apply length_concat_sum. Qed.

Lemma last_iff s : cwf s -> isLastQuestion g s = true <-> ordinal s + 1 = length (flat g).
Proof.
  intros (k & l & Hi & Hq & Hs & Hc)%cwf_current. pose proof (own_lookup_length _ _ Hi) as Hlt.
  rewrite length_subjects in Hlt. unfold isLastQuestion, ordinal. rewrite Hc, length_flat.
  rewrite length_subjects, (list_sum_split _ _ _ (lens_lookup _ _ _ Hi)).
  destruct s as [si qi]; simpl in *. rewrite andb_true_iff, !Nat.eqb_eq. split.
  - intros [H1 H2]. rewrite drop_ge by lia. simpl. lia.
  - intros H. assert (Hd : list_sum (drop (S si) lens) = 0) by lia.
    apply list_sum_pos_nil in Hd; [|by apply Forall_drop, lens_pos].
    apply (f_equal length) in Hd. rewrite length_drop in Hd. simpl in Hd. lia.
Qed.

End Cursor.

(** ** Properties of the corrections screen *)

Lemma ginv_nil : ginv [].
Proof. split_and!; constructor. Qed.

Lemma questionsBySubject_inv all g : questionsBySubject all = Some g -> ginv g.
Proof. apply group_loop_inv, ginv_nil. Qed.

Lemma flat_perm all g : questionsBySubject all = Some g -> flat g ≡ₚ all.
Proof. intros H. unfold flat, object_values. by rewrite own_props_perm, (group_loop_perm _ _ _ H). Qed.

(** the grouping of lines 31-40 puts every submitted question in the
    group of its subject, in submission order: the tabs are distinct, each
    tab's group is the questions of that subject and is non-empty, and
    the groups read tab after tab hold exactly the submitted questions. *)
Theorem corrections_group_spec all g :
  questionsBySubject all = Some g ->
  NoDup (subjects g) /\
  (forall k, groupOf g (Some k) = filter (fun q => key q = k) all) /\
  Forall (fun k => groupOf g (Some k) <> []) (subjects g) /\
  flat g ≡ₚ all.
Proof.
  intros H. pose proof (questionsBySubject_inv _ _ H) as Hg. split_and!.
  - unfold subjects, object_keys. rewrite own_props_perm. apply Hg.
  - intros k. unfold groupOf. simpl. by rewrite (group_loop_spec _ _ _ k H).
  - apply Forall_lookup_2. intros i k Hk. unfold subjects, object_keys in Hk.
    rewrite list_lookup_fmap in Hk. destruct (own_props g !! i) as [[k' l]|] eqn:E; simplify_eq/=.
    by destruct (own_lookup g Hg _ _ _ E) as (_ & _ & -> & ?).
  - by apply flat_perm.
Qed.

Lemma render_crashed (param : option (list QuestionData)) (s : CState) :
  render param s = Crashed <->
  Exists (fun q => key q ∈ object_prototype_props) (default [] param).
Proof.
  unfold render. rewrite <- (group_loop_None []) by constructor. unfold questionsBySubject.
  destruct (group_loop [] _) as [g|]; [|done]. split; [|done].
  unfold screenOf. repeat case_match; done.
Qed.

(** Finding: the grouping throws, and the screen crashes, exactly
    when a question's subject (or ["undefined"] for a question without
    one) is a property name of [Object.prototype] such as ["constructor"]
    or ["toString"]. *)
Theorem corrections_crash_iff (param : option (list QuestionData)) (s : CState) :
  render param s = Crashed <->
  Exists (fun q => key q ∈ object_prototype_props) (default [] param).
Proof. apply render_crashed. Qed.

Lemma cwf_initial g : ginv g -> flat g <> [] -> cwf g initialCS.
Proof.
  intros Hg Hf. apply (cwf_tab g Hg 0). rewrite (length_subjects g).
  destruct (lens g) eqn:E; [|simpl; lia]. destruct Hf. apply nil_length_inv.
  by rewrite (length_flat g), E.
Qed.

Lemma cstep_cwf g s s' : ginv g -> cwf g s -> cstep g s s' -> cwf g s'.
Proof.
  intros Hg Hs Hst. destruct Hst as [s q _ Hl|s s' q _ Hf Hp|s index Hi].
  - by apply next_refines.
  - destruct (prev_refines g Hg s Hs Hf) as (s'' & Hp' & Hw & _). congruence.
  - by apply cwf_tab.
Qed.

Lemma iter_next_walk g k :
  ginv g -> k < length (flat g) ->
  let s := Nat.iter k (handleNext g) initialCS in
  cwf g s /\ ordinal g s = k /\ star (cstep g) initialCS s.
Proof.
  intros Hg. induction k as [|k IH]; intros Hk; simpl.
  - split_and!; [apply cwf_initial; [done|intros Hf; rewrite Hf in Hk; simpl in Hk; lia]|done|constructor].
  - destruct IH as (Hw & Ho & Hr); [lia|]. set (s := Nat.iter k (handleNext g) initialCS) in *.
    assert (Hl : isLastQuestion g s = false).
    { apply not_true_iff_false. rewrite (last_iff g Hg s Hw). lia. }
    destruct (next_refines g Hg s Hw Hl) as [Hw' Ho']. split_and!; [done|lia|].
    eapply star_trans; [exact Hr|]. apply star_one.
    destruct (cwf_question g Hg s Hw) as [_ [q Hq]]. by eapply cs_next.
Qed.

(** C18: the corrections navigator (lines 42-73) refines a cursor over the
    questions read tab after tab: on a question, the question shown is
    the one at the cursor's position, Prev is disabled exactly at the
    first position and Finish replaces Next exactly at the last, Next
    moves one position forward, and Prev moves one position back without
    throwing. *)
Theorem corrections_cursor_refines all g s :
  questionsBySubject all = Some g -> cwf g s ->
  currentQuestion g s = flat g !! ordinal g s /\ is_Some (currentQuestion g s) /\
  (isFirstQuestion s = true <-> ordinal g s = 0) /\
  (isLastQuestion g s = true <-> ordinal g s + 1 = length (flat g)) /\
  (isLastQuestion g s = false ->
     cwf g (handleNext g s) /\ ordinal g (handleNext g s) = ordinal g s + 1) /\
  (isFirstQuestion s = false ->
     exists s', handlePrev g s = Some s' /\ cwf g s' /\ ordinal g s' + 1 = ordinal g s).
Proof.
  intros Hq Hs. pose proof (questionsBySubject_inv _ _ Hq) as Hg.
  destruct (cwf_question g Hg s Hs). split_and!; try done.
  - by apply first_iff.
  - by apply last_iff.
  - by apply next_refines.
  - by apply prev_refines.
Qed.

(** starting on the first question and pressing Next, the [k]-th
    press shows the [k]-th question of the tab order, each press being
    an enabled Next, and Finish appears exactly on the last one; with
    [corrections_group_spec] every submitted question is reviewed exactly
    once. *)
Theorem corrections_walk all g k :
  questionsBySubject all = Some g -> k < length all ->
  let s := Nat.iter k (handleNext g) initialCS in
  star (cstep g) initialCS s /\ currentQuestion g s = flat g !! k /\
  isLastQuestion g s = bool_decide (k + 1 = length all).
Proof.
  intros Hq Hk. pose proof (questionsBySubject_inv _ _ Hq) as Hg.
  assert (Hlen : length (flat g) = length all) by (apply Permutation_length, flat_perm, Hq).
  rewrite <- Hlen in Hk |- *. destruct (iter_next_walk g k Hg Hk) as (Hw & Ho & Hr).
  split_and!; [done|rewrite <- Ho at 2; by apply cwf_question|].
  apply eq_iff_eq_true. rewrite (last_iff g Hg _ Hw), bool_decide_eq_true. lia.
Qed.

(** every state the buttons and tabs reach from the first question of
    a non-empty payload shows a question: the "No questions in this
    subject" screen of lines 108-175 is never displayed. *)
Theorem corrections_reachable_review all g s :
  questionsBySubject all = Some g -> all <> [] -> star (cstep g) initialCS s ->
  exists q, currentQuestion g s = Some q /\ render (Some all) s = Review (reviewView g q s).
Proof.
  intros Hq Hne Hr. pose proof (questionsBySubject_inv _ _ Hq) as Hg.
  assert (Hw : cwf g s).
  { apply (star_invariant (cstep g) (cwf g) initialCS s); [|..|exact Hr].
    { intros x y Hx Hxy. exact (cstep_cwf g x y Hg Hx Hxy). }
    apply cwf_initial; [done|]. intros Hf. apply Hne, Permutation_nil.
    rewrite <- (flat_perm _ _ Hq). by rewrite Hf. }
  destruct (cwf_question g Hg s Hw) as [_ [q Hc]]. exists q. split; [done|].
  unfold render. simpl. rewrite Hq. unfold screenOf. rewrite Hc.
  destruct all; [done|]. simpl. unfold currentQuestion in Hc.
  apply lookup_lt_Some in Hc. rewrite (proj2 (Nat.eqb_neq _ 0)); [done|lia].
Qed.

(** the Correct/Wrong badge of the corrections screen agrees with the
    score of [handleSubmit] for every question whose stored answer is
    not the empty string; the two screens test [userAnswer ===
    correctAnswer] on [answer || ""] and [userAnswer && userAnswer ===
    answer] respectively. *)
Theorem review_badge_agrees_with_score (userAnswers : gmap string string) (q : ExamQuestion) :
  userAnswers !! eqGlobalIndex q <> Some "" ->
  answerMatches (questionDataOf userAnswers q) = answeredCorrectly userAnswers q.
Proof.
  unfold answerMatches, questionDataOf, answeredCorrectly. simpl.
  destruct (userAnswers !! eqGlobalIndex q) as [a|]; [|done]. intros Ha.
  assert (Hta : truthy_str (Some a) = true) by (apply bool_decide_eq_true; congruence).
  rewrite Hta. simpl. unfold jor.
  destruct (answer (eqQuestion q)) as [[]|]; simpl;
    repeat (case_match || case_bool_decide); simplify_eq/=; done.
Qed.

(** ** Witnesses *)

Definition w_qd (subj : string) (n : nat) (ua : option string) : QuestionData :=
  mkQD (Some subj) (JStr ("Q" +:+ js_nat_string n)) ["a"; "b"] (JStr "a") ua None None.
(** Two subjects, the first one's questions not contiguous. *)
Definition w_all : list QuestionData :=
  [w_qd "Biology" 0 (Some "a"); w_qd "Chemistry" 1 (Some "b"); w_qd "Biology" 2 None].
Definition w_groups : Groups :=
  [("Biology", [w_qd "Biology" 0 (Some "a"); w_qd "Biology" 2 None]);
   ("Chemistry", [w_qd "Chemistry" 1 (Some "b")])].

Lemma w_grouped : questionsBySubject w_all = Some w_groups.
Proof. vm_compute. reflexivity. Qed.

Lemma corrections_group_spec_witness :
  NoDup (subjects w_groups) /\
  (forall k, groupOf w_groups (Some k) = filter (fun q => key q = k) w_all) /\
  Forall (fun k => groupOf w_groups (Some k) <> []) (subjects w_groups) /\
  flat w_groups ≡ₚ w_all.
Proof. apply (corrections_group_spec w_all w_groups w_grouped). Defined.

Lemma corrections_cursor_refines_witness :
  let s := mkCS 0 1 in
  currentQuestion w_groups s = flat w_groups !! ordinal w_groups s /\
  is_Some (currentQuestion w_groups s) /\
  (isFirstQuestion s = true <-> ordinal w_groups s = 0) /\
  (isLastQuestion w_groups s = true <-> ordinal w_groups s + 1 = length (flat w_groups)) /\
  (isLastQuestion w_groups s = false ->
     cwf w_groups (handleNext w_groups s) /\
     ordinal w_groups (handleNext w_groups s) = ordinal w_groups s + 1) /\
  (isFirstQuestion s = false ->
     exists s', handlePrev w_groups s = Some s' /\ cwf w_groups s' /\
                ordinal w_groups s' + 1 = ordinal w_groups s).
Proof.
  apply (corrections_cursor_refines w_all w_groups (mkCS 0 1) w_grouped).
  exists "Biology", [w_qd "Biology" 0 (Some "a"); w_qd "Biology" 2 None].
  split; [vm_compute; reflexivity|simpl; lia].
Defined.

Lemma corrections_walk_witness :
  let s := Nat.iter 2 (handleNext w_groups) initialCS in
  star (cstep w_groups) initialCS s /\ currentQuestion w_groups s = flat w_groups !! 2 /\
  isLastQuestion w_groups s = bool_decide (2 + 1 = length w_all).
Proof. apply (corrections_walk w_all w_groups 2 w_grouped). simpl. lia. Defined.

Lemma corrections_reachable_review_witness :
  exists q, currentQuestion w_groups (mkCS 1 0) = Some q /\
    render (Some w_all) (mkCS 1 0) = Review (reviewView w_groups q (mkCS 1 0)).
Proof.
  apply (corrections_reachable_review w_all w_groups (mkCS 1 0) w_grouped); [done|].
  apply star_one. apply (cs_tab w_groups initialCS 1). vm_compute. lia.
Defined.

Lemma review_badge_agrees_with_score_witness :
  let q := mkEQ (Some "Biology") (mkQuestion None (Some (JStr "Q0")) (Some ["a"; "b"]) (Some (JStr "a")) None) "Biology-0" in
  answerMatches (questionDataOf {["Biology-0" := "a"]} q) = answeredCorrectly {["Biology-0" := "a"]} q.
Proof. apply review_badge_agrees_with_score. vm_compute. discriminate. Defined.

(** A subject named ["constructor"] crashes the corrections screen. *)
Example corrections_constructor_crash :
  render (Some [w_qd "constructor" 0 None]) initialCS = Crashed.
Proof. vm_compute. reflexivity. Qed.
