(* ===== verification/Shuffle.v ===== *)
(** * Shuffle: [shuffleArray] and [displayedQuestions] of PastStudy.tsx

    [shuffleArray] (PastStudy.tsx lines 115-122) is a Fisher-Yates pass
    driven by [Math.random()].  The random source is explicit: the
    [k]-th call of [Math.random()] returns the double [rnd k / 2^53], for
    a stream [rnd] of integers in [[0, 2^53)] (every such quotient is a
    double in [[0, 1)]).  [Math.floor(Math.random() * (i + 1))] is
    computed with the double multiplication of [Scoring.Binary64].  Each
    shuffle returns the index of the next unused draw, so that successive
    shuffles consume the stream in the order the code calls them.
    [displayedQuestions] is the memo of lines 138-157. *)

From S2P Require Import Prelude Json Questions Scoring Loader.
From Stdlib Require Import QArith Qround.
Import QuestionModel Binary64.

Module Shuffle.
Local Open Scope nat_scope.

(** The double [m / 2^53] returned by a call of [Math.random()]. *)
Definition random_of (m : Z) : Q := Qmake m (2 ^ 53)%positive.

(** [Math.floor(Math.random() * (i + 1))]. *)
Definition draw_index (m : Z) (i : nat) : nat :=
  Z.to_nat (Qfloor (fmul (random_of m) (i + 1))).

(** [[shuffled[i], shuffled[j]] = [shuffled[j], shuffled[i]]]: the right
    side is read first, then [shuffled[i]] and [shuffled[j]] are written
    in that order.  Both indices are in range (see [draw_index_bound]). *)
Definition swap {A} (l : list A) (i j : nat) : list A :=
  match l !! i, l !! j with
  | Some a, Some b => <[j:=a]> (<[i:=b]> l)
  | _, _ => l
  end.

(** [for (let i = shuffled.length - 1; i > 0; i--)], the [k]-th draw
    first. *)
Fixpoint fy_loop {A} (rnd : nat -> Z) (k i : nat) (l : list A) : list A * nat :=
  match i with
  | 0 => (l, k)
  | S i' => fy_loop rnd (S k) i' (swap l (S i') (draw_index (rnd k) (S i')))
  end.

(** [shuffleArray(array)], on a copy of the array. *)
Definition shuffleArray {A} (rnd : nat -> Z) (k : nat) (l : list A) : list A * nat :=
  fy_loop rnd k (length l - 1) l.

(** [{ ...q, options: q.options ? shuffleArray(q.options) : q.options }]:
    an array, even an empty one, is truthy. *)
Definition shuffleQuestionOptions (rnd : nat -> Z) (k : nat) (q : Question) : Question * nat :=
  match options q with
  | Some os =>
      let '(os', k') := shuffleArray rnd k os in
      (mkQuestion (instruction q) (question q) (Some os') (answer q) (correction q), k')
  | None => (q, k)
  end.

(** [processed.map(...)], the questions in order. *)
Fixpoint shuffleAllOptions (rnd : nat -> Z) (k : nat) (qs : list Question) : list Question * nat :=
  match qs with
  | [] => ([], k)
  | q :: qs' =>
      let '(q', k1) := shuffleQuestionOptions rnd k q in
      let '(rest, k2) := shuffleAllOptions rnd k1 qs' in
      (q' :: rest, k2)
  end.

(** [displayedQuestions] (lines 138-157) for the flags
    [activeOpts?.shuffle] and [activeOpts?.shuffleOptions]. *)
Definition displayedQuestions (shuffle shuffleOptions : bool) (rnd : nat -> Z) (k : nat)
    (originalQuestions : list Question) : list Question * nat :=
  if bool_decide (length originalQuestions = 0) then ([], k)
  else
    let '(p1, k1) := if shuffle then shuffleArray rnd k originalQuestions
                     else (originalQuestions, k) in
    if shuffleOptions then shuffleAllOptions rnd k1 p1 else (p1, k1).

End Shuffle.

(** [q'] is [q] with its options in another order and every other field
    unchanged. *)
Definition options_shuffled (q q' : Question) : Prop :=
  instruction q' = instruction q /\ question q' = question q /\
  answer q' = answer q /\ correction q' = correction q /\
  match options q, options q' with
  | Some os, Some os' => os' ≡ₚ os
  | None, None => True
  | _, _ => False
  end.

(** The options of [q] fit the bound of [draw_index_bound]. *)
Definition options_fit (q : Question) : Prop :=
  match options q with Some os => (length os <= 128)%nat | None => True end.

(** ** Properties of the shuffle *)

Import Shuffle.
Local Open Scope nat_scope.

(** The index Fisher-Yates draws at step [i] is at most [i]. *)
Lemma draw_index_le (m : Z) (i : nat) :
  (0 <= m < 2 ^ 53)%Z -> i + 1 <= 128 -> draw_index m i <= i.
Proof.
  intros Hm Hi. unfold draw_index, fmul, random_of. cbn [Qnum Qden].
  change (Z.pos (2 ^ 53)) with (2 ^ 53)%Z.
  set (n := Z.of_nat (i + 1)). set (a := (m * n)%Z).
  assert (Hn : (1 <= n <= 128)%Z) by (subst n; lia).
  assert (Hadef : a = (m * n)%Z) by reflexivity.
  assert (Hndef : n = Z.of_nat (i + 1)) by reflexivity. clearbody a n.
  unfold round_q. destruct (Z.eqb_spec a 0) as [Ha0|Ha0]; [change (Z.to_nat (Qfloor 0)) with 0; lia|].
  assert (Ha : (0 < a <= 128 * 2 ^ 53)%Z).
  { change (2 ^ 53)%Z with 9007199254740992%Z in *. nia. }
  pose proof (binade_exp_nonneg a (2 ^ 53) 128 ltac:(lia) ltac:(lia) ltac:(lia) ltac:(lia)) as He.
  pose proof (binade_exp_range a (2 ^ 53) 128 ltac:(lia) ltac:(lia) ltac:(lia) ltac:(lia)) as Hr.
  set (e := binade_exp a (2 ^ 53)) in *.
  rewrite scale_nonneg, ldexp_neg_nonneg by lia.
  set (E := (2 ^ e)%Z) in *.
  assert (HE : (0 < E)%Z) by (apply Z.pow_pos_nonneg; lia). clearbody E.
  assert (HnE : (2 ^ 52 < n * E)%Z) by nia.
  assert (Hd : (div_round_even (a * E) (2 ^ 53) <= n * E - 1)%Z).
  { apply div_round_even_below; nia. }
  pose proof (div_round_even_nonneg (a * E) (2 ^ 53) ltac:(lia) ltac:(nia)).
  unfold Qfloor. cbn [Qnum Qden]. rewrite Z2Pos.id by lia.
  assert (Hq : (div_round_even (a * E) (2 ^ 53) / E < n)%Z) by (apply Z.div_lt_upper_bound; lia).
  pose proof (Z.div_pos (div_round_even (a * E) (2 ^ 53)) E ltac:(lia) HE). lia.
Qed.

(** C20 (bounds): for every double [m / 2^53] that [Math.random()] can
    return and every index [i] of an array of at most 128 elements,
    [Math.floor(Math.random() * (i + 1))] is at most [i]: the double
    product never rounds up to [i + 1], so the swap stays in the array. *)
Theorem draw_index_bound (m : Z) (i : nat) :
  (0 <= m < 2 ^ 53)%Z -> i + 1 <= 128 -> draw_index m i <= i.
Proof. apply draw_index_le. Qed.

Lemma swap_perm {A} (l : list A) (i j : nat) :
  i < length l -> j < length l -> swap l i j ≡ₚ l.
Proof.
  intros Hi Hj. unfold swap.
  destruct (lookup_lt_is_Some_2 l i Hi) as [a Ha].
  destruct (lookup_lt_is_Some_2 l j Hj) as [b Hb]. rewrite Ha, Hb.
  assert (Hm : <[i:=b]> l !! j = Some b).
  { rewrite list_lookup_insert. case_decide as Hc; [|done].
    destruct Hc as [-> _]. congruence. }
  apply (Permutation_cons_inv (a := b)).
  rewrite (list_insert_perm_cons l i b a Ha).
  rewrite (list_insert_perm_cons _ j a b Hm). done.
Qed.

Lemma length_swap {A} (l : list A) (i j : nat) : length (swap l i j) = length l.
Proof. unfold swap. destruct (l !! i), (l !! j); by rewrite ?length_insert. Qed.

Lemma fy_loop_length {A} (rnd : nat -> Z) (k i : nat) (l : list A) :
  length (fy_loop rnd k i l).1 = length l.
Proof.
  revert k l. induction i as [|i IH]; intros k l; [done|]. simpl. by rewrite IH, length_swap.
Qed.

Lemma shuffleAllOptions_length (rnd : nat -> Z) (k : nat) (qs : list Question) :
  length (shuffleAllOptions rnd k qs).1 = length qs.
Proof.
  revert k. induction qs as [|q qs IH]; intros k; [done|]. simpl.
  destruct (shuffleQuestionOptions rnd k q) as [q' k1].
  specialize (IH k1). destruct (shuffleAllOptions rnd k1 qs) as [rest k2]. simpl in *. by rewrite IH.
Qed.

(** Shuffling never changes the number of questions, whatever the draws. *)
Lemma displayedQuestions_length (sh so : bool) (rnd : nat -> Z) (k : nat) (qs : list Question) :
  length (displayedQuestions sh so rnd k qs).1 = length qs.
Proof.
  unfold displayedQuestions. case_decide as H; [simpl; lia|].
  assert (Hl : length (if sh then shuffleArray rnd k qs else (qs, k)).1 = length qs)
    by (destruct sh; [apply fy_loop_length|done]).
  destruct (if sh then _ else _) as [p1 k1]. simpl in Hl.
  destruct so; simpl; [by rewrite shuffleAllOptions_length|done].
Qed.

Section Draws.
(** The draws of [Math.random()] are doubles [m / 2^53] in [[0, 1)]. *)
Variable rnd : nat -> Z.
Hypothesis rnd_range : forall k, (0 <= rnd k < 2 ^ 53)%Z.

Lemma fy_loop_perm {A} (i k : nat) (l : list A) :
  i < length l -> length l <= 128 ->
  (fy_loop rnd k i l).1 ≡ₚ l /\ (fy_loop rnd k i l).2 = k + i.
Proof.
  revert k l. induction i as [|i IH]; intros k l Hi Hl; simpl; [split; [done|lia]|].
  pose proof (draw_index_le (rnd k) (S i) (rnd_range k) ltac:(lia)) as Hd.
  destruct (IH (S k) (swap l (S i) (draw_index (rnd k) (S i))))
    as [Hp Hk]; rewrite ?length_swap; try lia.
  split; [|lia]. rewrite Hp. apply swap_perm; lia.
Qed.

Lemma shuffleArray_perm {A} (k : nat) (l : list A) :
  length l <= 128 ->
  (shuffleArray rnd k l).1 ≡ₚ l /\ (shuffleArray rnd k l).2 = k + (length l - 1).
Proof.
  intros Hl. unfold shuffleArray. destruct l as [|x l']; [simpl; split; [done|lia]|].
  apply fy_loop_perm; simpl in *; lia.
Qed.

Lemma shuffleQuestionOptions_spec (k : nat) (q : Question) :
  options_fit q -> options_shuffled q (shuffleQuestionOptions rnd k q).1.
Proof.
  unfold options_fit, shuffleQuestionOptions, options_shuffled.
  destruct q as [i qu [os|] a c]; simpl; intros Hf; [|done].
  destruct (shuffleArray_perm k os Hf) as [Hp _].
  destruct (shuffleArray rnd k os) as [os' k']. simpl in *. done.
Qed.

Lemma shuffleAllOptions_spec (k : nat) (qs : list Question) :
  Forall options_fit qs -> Forall2 options_shuffled qs (shuffleAllOptions rnd k qs).1.
Proof.
  intros Hf. revert k. induction Hf as [|q qs Hq Hf IH]; intros k; simpl; [constructor|].
  pose proof (shuffleQuestionOptions_spec k q Hq) as Hs.
  destruct (shuffleQuestionOptions rnd k q) as [q' k1].
  specialize (IH k1). destruct (shuffleAllOptions rnd k1 qs) as [rest k2]. by constructor.
Qed.

Lemma options_shuffled_refl (q : Question) : options_shuffled q q.
Proof. unfold options_shuffled. destruct (options q); repeat split; done. Qed.

(** The displayed questions are a permutation of the page with shuffled options. *)
Lemma displayedQuestions_perm (sh so : bool) (k : nat) (qs : list Question) :
  length qs <= 128 -> Forall options_fit qs ->
  exists p, p ≡ₚ qs /\ Forall2 options_shuffled p (displayedQuestions sh so rnd k qs).1 /\
    (sh = false -> p = qs) /\ (so = false -> (displayedQuestions sh so rnd k qs).1 = p).
Proof.
  intros Hl Hf. unfold displayedQuestions.
  case_decide as H0.
  { destruct qs; [|done]. exists []. simpl. repeat split; try constructor; done. }
  destruct (shuffleArray_perm k qs Hl) as [Hp _].
  set (p1k1 := if sh then shuffleArray rnd k qs else (qs, k)).
  assert (Hp1 : p1k1.1 ≡ₚ qs /\ (sh = false -> p1k1.1 = qs))
    by (subst p1k1; destruct sh; split; done).
  destruct p1k1 as [p1 k1] eqn:E. simpl in Hp1. destruct Hp1 as [Hp1 Hsh].
  exists p1. split; [done|]. split; [|split; [done|]].
  - destruct so; simpl.
    + apply shuffleAllOptions_spec. by rewrite Hp1.
    + apply Forall_Forall2_diag, Forall_forall. intros; apply options_shuffled_refl.
  - intros ->. done.
Qed.

(** C4 (functional): the questions on display are a permutation of the
    loaded page in which each question may have its options permuted
    and keeps every other field, its answer included; without the
    question flag the order is the loaded order, and without the options
    flag every question is the loaded one. *)
Theorem displayed_questions_shuffled (sh so : bool) (k : nat) (qs : list Question) :
  length qs <= 128 -> Forall options_fit qs ->
  exists p, p ≡ₚ qs /\ Forall2 options_shuffled p (displayedQuestions sh so rnd k qs).1 /\
    (sh = false -> p = qs) /\ (so = false -> (displayedQuestions sh so rnd k qs).1 = p).
Proof. apply displayedQuestions_perm. Qed.

Lemma options_shuffled_answer_in (q q' : Question) :
  options_shuffled q q' -> answer_in_options q' = answer_in_options q.
Proof.
  unfold options_shuffled, answer_in_options. intros (_ & _ & -> & _ & Ho).
  destruct (answer q) as [[]|]; try done.
  destruct (options q), (options q'); try done. apply bool_decide_ext. by rewrite Ho.
Qed.

(** shuffling keeps the data-model invariant: when every loaded
    question's answer is one of its options, so is every displayed
    question's, since options are matched by value, not by position. *)
Theorem shuffle_keeps_answers (sh so : bool) (k : nat) (qs : list Question) :
  length qs <= 128 -> Forall options_fit qs ->
  Forall (fun q => answer_in_options q = true) qs ->
  Forall (fun q => answer_in_options q = true) (displayedQuestions sh so rnd k qs).1.
Proof.
  intros Hl Hf Ha.
  destruct (displayedQuestions_perm sh so k qs Hl Hf) as (p & Hp & H2 & _ & _).
  rewrite <- Hp in Ha. clear Hp.
  induction H2 as [|q q' p d Hq _ IH]; [constructor|].
  apply Forall_cons in Ha as [Ha Hrest]. constructor; [|by apply IH].
  by rewrite (options_shuffled_answer_in q q' Hq).
Qed.

End Draws.

(** ** Witnesses *)

(** A stream of draws: a multiplicative sequence reduced modulo [2^53]. *)
Definition w_rnd (k : nat) : Z := ((Z.of_nat k * 6700417 + 12345) mod 2 ^ 53)%Z.

Lemma w_rnd_range : forall k, (0 <= w_rnd k < 2 ^ 53)%Z.
Proof. intros k. unfold w_rnd. apply Z.mod_pos_bound. lia. Qed.

Definition w_page : list Question := take 10 SampleBank.sampleQuestions.

Lemma draw_index_bound_witness : draw_index (2 ^ 53 - 1) 9 = 9.
Proof.
  assert (H : draw_index (2 ^ 53 - 1) 9 <= 9) by (apply draw_index_bound; lia).
  vm_compute. reflexivity.
Defined.

Lemma displayed_questions_shuffled_witness :
  exists p, p ≡ₚ w_page /\
    Forall2 options_shuffled p (displayedQuestions true true w_rnd 0 w_page).1 /\
    (true = false -> p = w_page) /\
    (true = false -> (displayedQuestions true true w_rnd 0 w_page).1 = p).
Proof.
  apply (displayed_questions_shuffled w_rnd w_rnd_range true true 0 w_page).
  - vm_compute. lia.
  - unfold w_page. vm_compute. repeat constructor; lia.
Defined.

Lemma shuffle_keeps_answers_witness :
  Forall (fun q => answer_in_options q = true) (displayedQuestions true true w_rnd 0 w_page).1.
Proof.
  apply (shuffle_keeps_answers w_rnd w_rnd_range true true 0 w_page).
  - vm_compute. lia.
  - unfold w_page. vm_compute. repeat constructor; lia.
  - unfold w_page. vm_compute. repeat constructor.
Defined.
