(* ===== verification/Session.v ===== *)
(** * Session: the exam and study screen as a React component

    The state of [src/app/mode/past-study.tsx] (the parent: subject index,
    page, [pagesBySubject], [userAnswers], [examQuestions]) and of
    [src/components/screens/PastStudy.tsx] (the child: page total, loaded
    questions, reveal flags, selected answers, cursor, tracked exam
    questions, the shuffled copy and its seed), with what React adds to
    them: the identity of every array or object held in state (arrays
    compare by identity in dependency lists), the dependency arrays of
    the last commit, the fetches in flight with their [cancelled] flags,
    the position in the stream of [Math.random()] draws and the clock
    read by [Date.now()].

    A commit renders (recomputing the [useMemo] of the displayed
    questions when its dependencies changed), runs in declaration order
    every effect whose dependencies changed (all of them on mount), each
    reading the rendered state, and then applies their state updates in
    order.  [settle] repeats commits until nothing changes.  The events
    are the handlers of both screens and the settling of a fetch.  The
    props [mode], [options] and the callbacks are fixed for a visit, so
    they are parameters rather than state; the controlled props
    [subjectIndex] and [page] are always given by past-study.tsx, so
    PastStudy's internal copies [activeIdxInternal] and [pageInternal]
    are never read and are not modelled. *)

From S2P Require Import Prelude Json Questions Pagination Loader Scoring Corrections Shuffle Navigator.
Import QuestionModel PageTracker Submit Loader Shuffle Nav.

Module Session.

(** An array or object held in React state, with its identity. *)
Record Obj (A : Type) := mkObj { oid : nat; oval : A }.
Arguments mkObj {A}. Arguments oid {A}. Arguments oval {A}.

(** A call of [myQuest.getQuestions] in flight, with the values its
    closure captured and the [cancelled] flag its cleanup sets. *)
Record Req := mkReq {
  reqId : nat;
  reqSubject : option string;
  reqPage : nat;
  reqCancelled : bool
}.

(** The dependency arrays of the effects and of the memo, as rendered. *)
Record Deps := mkDeps {
  dIdx : nat;                                   (* [[currentIdx]] *)
  dLoad : option string * option string * nat;  (* [[exam, activeSubject, activeOpts?.year, page]] *)
  dOrig : nat * option string * nat;            (* [[questions.length, activeSubject, page]] *)
  dMemo : nat * option bool * option bool * nat; (* [[originalQuestions, shuffle, shuffleOptions, shuffleSeed]] *)
  dAll : nat * option string * nat;             (* [[displayedQuestions, activeSubject, page, mode]] *)
  dNotifyQ : nat;                               (* [[allQuestions, mode, onQuestionsChange]] *)
  dNotifyA : nat * option string                (* [[selectedAnswers, activeSubject, mode, onAnswersChange]] *)
}.

#[export] Instance Deps_eq_dec : EqDecision Deps.
Proof. solve_decision. Defined.

Record St := mkSt {
  (* past-study.tsx *)
  subjectIdx : nat;
  page : nat;
  pagesBySubject : gmap string nat;
  userAnswers : gmap string string;
  examQuestions : list ExamQuestion;
  (* PastStudy.tsx *)
  totalPages : nat;
  questions : Obj (list Question);
  showAnswer : gmap nat bool;
  showCorrection : gmap nat bool;
  selectedAnswers : Obj (gmap nat string);
  currentQuestionIndex : nat;
  allQuestions : Obj (list ExamQuestion);
  originalQuestions : Obj (list Question);
  shuffleSeed : nat;
  displayed : Obj (list Question);
  (* the runtime *)
  pending : list Req;
  nextId : nat;
  draws : nat;
  clock : nat;
  committed : option Deps
}.

(** One setter per field, for the state updates below. *)
Definition set_subjectIdx (v : nat) (s : St) : St :=
  let '(mkSt a0 a1 a2 a3 a4 a5 a6 a7 a8 a9 a10 a11 a12 a13 a14 a15 a16 a17 a18 a19) := s in mkSt v a1 a2 a3 a4 a5 a6 a7 a8 a9 a10 a11 a12 a13 a14 a15 a16 a17 a18 a19.
Definition set_page (v : nat) (s : St) : St :=
  let '(mkSt a0 a1 a2 a3 a4 a5 a6 a7 a8 a9 a10 a11 a12 a13 a14 a15 a16 a17 a18 a19) := s in mkSt a0 v a2 a3 a4 a5 a6 a7 a8 a9 a10 a11 a12 a13 a14 a15 a16 a17 a18 a19.
Definition set_pagesBySubject (v : gmap string nat) (s : St) : St :=
  let '(mkSt a0 a1 a2 a3 a4 a5 a6 a7 a8 a9 a10 a11 a12 a13 a14 a15 a16 a17 a18 a19) := s in mkSt a0 a1 v a3 a4 a5 a6 a7 a8 a9 a10 a11 a12 a13 a14 a15 a16 a17 a18 a19.
Definition set_userAnswers (v : gmap string string) (s : St) : St :=
  let '(mkSt a0 a1 a2 a3 a4 a5 a6 a7 a8 a9 a10 a11 a12 a13 a14 a15 a16 a17 a18 a19) := s in mkSt a0 a1 a2 v a4 a5 a6 a7 a8 a9 a10 a11 a12 a13 a14 a15 a16 a17 a18 a19.
Definition set_examQuestions (v : list ExamQuestion) (s : St) : St :=
  let '(mkSt a0 a1 a2 a3 a4 a5 a6 a7 a8 a9 a10 a11 a12 a13 a14 a15 a16 a17 a18 a19) := s in mkSt a0 a1 a2 a3 v a5 a6 a7 a8 a9 a10 a11 a12 a13 a14 a15 a16 a17 a18 a19.
Definition set_totalPages (v : nat) (s : St) : St :=
  let '(mkSt a0 a1 a2 a3 a4 a5 a6 a7 a8 a9 a10 a11 a12 a13 a14 a15 a16 a17 a18 a19) := s in mkSt a0 a1 a2 a3 a4 v a6 a7 a8 a9 a10 a11 a12 a13 a14 a15 a16 a17 a18 a19.
Definition set_questions (v : Obj (list Question)) (s : St) : St :=
  let '(mkSt a0 a1 a2 a3 a4 a5 a6 a7 a8 a9 a10 a11 a12 a13 a14 a15 a16 a17 a18 a19) := s in mkSt a0 a1 a2 a3 a4 a5 v a7 a8 a9 a10 a11 a12 a13 a14 a15 a16 a17 a18 a19.
Definition set_showAnswer (v : gmap nat bool) (s : St) : St :=
  let '(mkSt a0 a1 a2 a3 a4 a5 a6 a7 a8 a9 a10 a11 a12 a13 a14 a15 a16 a17 a18 a19) := s in mkSt a0 a1 a2 a3 a4 a5 a6 v a8 a9 a10 a11 a12 a13 a14 a15 a16 a17 a18 a19.
Definition set_showCorrection (v : gmap nat bool) (s : St) : St :=
  let '(mkSt a0 a1 a2 a3 a4 a5 a6 a7 a8 a9 a10 a11 a12 a13 a14 a15 a16 a17 a18 a19) := s in mkSt a0 a1 a2 a3 a4 a5 a6 a7 v a9 a10 a11 a12 a13 a14 a15 a16 a17 a18 a19.
Definition set_selectedAnswers (v : Obj (gmap nat string)) (s : St) : St :=
  let '(mkSt a0 a1 a2 a3 a4 a5 a6 a7 a8 a9 a10 a11 a12 a13 a14 a15 a16 a17 a18 a19) := s in mkSt a0 a1 a2 a3 a4 a5 a6 a7 a8 v a10 a11 a12 a13 a14 a15 a16 a17 a18 a19.
Definition set_currentQuestionIndex (v : nat) (s : St) : St :=
  let '(mkSt a0 a1 a2 a3 a4 a5 a6 a7 a8 a9 a10 a11 a12 a13 a14 a15 a16 a17 a18 a19) := s in mkSt a0 a1 a2 a3 a4 a5 a6 a7 a8 a9 v a11 a12 a13 a14 a15 a16 a17 a18 a19.
Definition set_allQuestions (v : Obj (list ExamQuestion)) (s : St) : St :=
  let '(mkSt a0 a1 a2 a3 a4 a5 a6 a7 a8 a9 a10 a11 a12 a13 a14 a15 a16 a17 a18 a19) := s in mkSt a0 a1 a2 a3 a4 a5 a6 a7 a8 a9 a10 v a12 a13 a14 a15 a16 a17 a18 a19.
Definition set_originalQuestions (v : Obj (list Question)) (s : St) : St :=
  let '(mkSt a0 a1 a2 a3 a4 a5 a6 a7 a8 a9 a10 a11 a12 a13 a14 a15 a16 a17 a18 a19) := s in mkSt a0 a1 a2 a3 a4 a5 a6 a7 a8 a9 a10 a11 v a13 a14 a15 a16 a17 a18 a19.
Definition set_shuffleSeed (v : nat) (s : St) : St :=
  let '(mkSt a0 a1 a2 a3 a4 a5 a6 a7 a8 a9 a10 a11 a12 a13 a14 a15 a16 a17 a18 a19) := s in mkSt a0 a1 a2 a3 a4 a5 a6 a7 a8 a9 a10 a11 a12 v a14 a15 a16 a17 a18 a19.
Definition set_displayed (v : Obj (list Question)) (s : St) : St :=
  let '(mkSt a0 a1 a2 a3 a4 a5 a6 a7 a8 a9 a10 a11 a12 a13 a14 a15 a16 a17 a18 a19) := s in mkSt a0 a1 a2 a3 a4 a5 a6 a7 a8 a9 a10 a11 a12 a13 v a15 a16 a17 a18 a19.
Definition set_pending (v : list Req) (s : St) : St :=
  let '(mkSt a0 a1 a2 a3 a4 a5 a6 a7 a8 a9 a10 a11 a12 a13 a14 a15 a16 a17 a18 a19) := s in mkSt a0 a1 a2 a3 a4 a5 a6 a7 a8 a9 a10 a11 a12 a13 a14 v a16 a17 a18 a19.
Definition set_nextId (v : nat) (s : St) : St :=
  let '(mkSt a0 a1 a2 a3 a4 a5 a6 a7 a8 a9 a10 a11 a12 a13 a14 a15 a16 a17 a18 a19) := s in mkSt a0 a1 a2 a3 a4 a5 a6 a7 a8 a9 a10 a11 a12 a13 a14 a15 v a17 a18 a19.
Definition set_draws (v : nat) (s : St) : St :=
  let '(mkSt a0 a1 a2 a3 a4 a5 a6 a7 a8 a9 a10 a11 a12 a13 a14 a15 a16 a17 a18 a19) := s in mkSt a0 a1 a2 a3 a4 a5 a6 a7 a8 a9 a10 a11 a12 a13 a14 a15 a16 v a18 a19.
Definition set_clock (v : nat) (s : St) : St :=
  let '(mkSt a0 a1 a2 a3 a4 a5 a6 a7 a8 a9 a10 a11 a12 a13 a14 a15 a16 a17 a18 a19) := s in mkSt a0 a1 a2 a3 a4 a5 a6 a7 a8 a9 a10 a11 a12 a13 a14 a15 a16 a17 v a19.
Definition set_committed (v : option Deps) (s : St) : St :=
  let '(mkSt a0 a1 a2 a3 a4 a5 a6 a7 a8 a9 a10 a11 a12 a13 a14 a15 a16 a17 a18 a19) := s in mkSt a0 a1 a2 a3 a4 a5 a6 a7 a8 a9 a10 a11 a12 a13 a14 a15 a16 a17 a18 v.

Section Component.
(** The props of a visit: [options], [mode], and the draws of
    [Math.random()]. *)
Variable opts : list SubjectOption.
Variable mode : option string.
Variable rnd : nat -> Z.

(** [subjects[currentIdx]] and [options.find(...)] (lines 49-51). *)
Definition activeSubject (s : St) : option string := subjectsOf opts !! subjectIdx s.
Definition activeOptsOf (s : St) : option SubjectOption := activeOpts opts (subjectIdx s).

(** The dependency arrays of a render. *)
Definition depsOf (s : St) : Deps :=
  mkDeps (subjectIdx s)
    (activeSubject s, year <$> activeOptsOf s, page s)
    (length (oval (questions s)), activeSubject s, page s)
    (oid (originalQuestions s), shuffle <$> activeOptsOf s,
     shuffleOptions <$> activeOptsOf s, shuffleSeed s)
    (oid (displayed s), activeSubject s, page s)
    (oid (allQuestions s))
    (oid (selectedAnswers s), activeSubject s).

(** Whether a projection of the dependencies changed since the last
    commit; everything has changed on mount. *)
Definition changed {A} `{EqDecision A} (f : Deps -> A) (s : St) (d : Deps) : bool :=
  match committed s with
  | Some c => bool_decide (f c <> f d)
  | None => true
  end.

(** A fresh array or object in state. *)
Definition alloc {A} (v : A) (s : St) : Obj A * St := (mkObj (nextId s) v, set_nextId (S (nextId s)) s).

(** The render: [displayedQuestions] is recomputed (lines 138-157) when
    the dependencies of its [useMemo] changed, drawing from
    [Math.random()]. *)
Definition render (s : St) : St :=
  if changed dMemo s (depsOf s) then
    let '(qs, k) := displayedQuestions (default false (shuffle <$> activeOptsOf s))
                      (default false (shuffleOptions <$> activeOptsOf s))
                      rnd (draws s) (oval (originalQuestions s)) in
    let '(o, s1) := alloc qs s in
    set_draws k (set_displayed o s1)
  else s.

(** The effects: each reads the rendered state [r] (its closure) and
    updates the state [acc] the commit is building. *)

(** Lines 54-59 ([setPageInternal(1)] acts on the unused internal page). *)
Definition effectSubject (r acc : St) : St :=
  set_currentQuestionIndex 0 (set_showCorrection ∅ (set_showAnswer ∅ acc)).

(** Lines 61-112 up to the [await]: the cleanup of the previous run
    cancels its fetch (the newest one), and a new fetch starts for the
    rendered subject and page. *)
Definition cancelHead (l : list Req) : list Req :=
  match l with
  | q :: rest => mkReq (reqId q) (reqSubject q) (reqPage q) true :: rest
  | [] => []
  end.

Definition effectLoad (r acc : St) : St :=
  set_nextId (S (nextId acc))
    (set_pending (mkReq (nextId acc) (activeSubject r) (page r) false :: cancelHead (pending acc)) acc).

(** Lines 129-135: [setOriginalQuestions(questions)] stores the same
    array, and [setShuffleSeed(Date.now())]. *)
Definition effectOriginal (r acc : St) : St :=
  if 0 <? length (oval (questions r))
  then set_shuffleSeed (clock r) (set_originalQuestions (questions r) acc)
  else acc.

(** [`${activeSubject}-`]: the subject as a template string. *)
Definition subjectText (o : option string) : string := default "undefined" o.

(** Lines 160-176: in exam mode the displayed questions, keyed by their
    absolute ordinal, replace every tracked question whose key starts
    with the active subject and a dash. *)
Definition effectAll (r acc : St) : St :=
  if is_exam mode && (0 <? length (oval (displayed r))) then
    let subj := subjectText (activeSubject r) in
    let withSubject :=
      imap (fun idx q => mkEQ (activeSubject r) q
                          (subj +:+ "-" +:+ js_nat_string ((page r - 1) * page_size + idx)))
           (oval (displayed r)) in
    let prev := oval (allQuestions acc) in
    let filtered := filter (fun q => negb (String.prefix (subj +:+ "-") (eqGlobalIndex q))) prev in
    let '(o, acc1) := alloc (filtered ++ withSubject) acc in
    set_allQuestions o acc1
  else acc.

(** Lines 179-183: the parent's [setExamQuestions] with the rendered array. *)
Definition effectNotifyQuestions (r acc : St) : St :=
  if is_exam mode then set_examQuestions (oval (allQuestions r)) acc else acc.

(** Lines 186-195: the parent's [setUserAnswers] with the selected
    answers re-keyed [`${activeSubject}-${idx}`]. *)
Definition answersWithKeys (subj : option string) (sel : gmap nat string) : gmap string string :=
  list_to_map ((fun '(i, a) => (subjectText subj +:+ "-" +:+ js_nat_string i, a)) <$> map_to_list sel).

Definition effectNotifyAnswers (r acc : St) : St :=
  if is_exam mode
  then set_userAnswers (answersWithKeys (activeSubject r) (oval (selectedAnswers r))) acc
  else acc.

Definition runIf (b : bool) (eff : St -> St -> St) (r acc : St) : St :=
  if b then eff r acc else acc.

(** A commit: render, record the dependencies, run the effects whose
    dependencies changed, in declaration order. *)
Definition commit (s : St) : St :=
  let r := render s in
  let d := depsOf r in
  let acc := set_committed (Some d) r in
  let acc := runIf (changed dIdx s d) effectSubject r acc in
  let acc := runIf (changed dLoad s d) effectLoad r acc in
  let acc := runIf (changed dOrig s d) effectOriginal r acc in
  let acc := runIf (changed dAll s d) effectAll r acc in
  let acc := runIf (changed dNotifyQ s d) effectNotifyQuestions r acc in
  runIf (changed dNotifyA s d) effectNotifyAnswers r acc.

(** Commits until the state is stable; three always suffice
    ([settle_stable]). *)
Definition settle (s : St) : St := Nat.iter 3 commit s.

(** ** Events *)

(** The navigator's view of the state: [handleNext] and [handlePrev] of
    [Navigator] read the options, [totalPages] and
    [displayedQuestions.length], and move the parent's subject and page
    and the child's cursor. *)
Definition navView (s : St) : NavView :=
  mkView opts (totalPages s) (length (oval (displayed s))).
Definition navState (s : St) : NavState :=
  mkNav (subjectIdx s) (page s) (currentQuestionIndex s).
Definition applyNav (n : NavState) (s : St) : St :=
  set_currentQuestionIndex (qIndex n) (set_page (Nav.page n) (set_subjectIdx (Nav.subjectIdx n) s)).

(** [selectOption(currentQuestionIndex, opt)] for the [i]-th option of the
    displayed question (lines 204-206, 354-361). *)
Definition selectOption (i : nat) (s : St) : St :=
  match oval (displayed s) !! currentQuestionIndex s with
  | Some q =>
      match default [] (options q) !! i with
      | Some o =>
          let '(obj, s1) := alloc (<[currentQuestionIndex s := o]> (oval (selectedAnswers s))) s in
          set_selectedAnswers obj s1
      | None => s
      end
  | None => s
  end.

(** [toggleAnswer(idx)] and [toggleCorrection(idx)] (lines 197-202):
    [!prev[idx]] of a missing flag is [true]. *)
Definition toggleAnswer (idx : nat) (s : St) : St :=
  set_showAnswer (<[idx := negb (default false (showAnswer s !! idx))]> (showAnswer s)) s.
Definition toggleCorrection (idx : nat) (s : St) : St :=
  set_showCorrection (<[idx := negb (default false (showCorrection s !! idx))]> (showCorrection s)) s.

(** The continuation of a fetch (lines 66-107): unless its [cancelled]
    flag is set it stores the page, the page total and, when the
    captured subject is truthy, the parent's [pagesBySubject]. *)
Definition settleFetch (rid : nat) (res : option Response) (s : St) : St :=
  match list_find (fun q => reqId q = rid) (pending s) with
  | Some (n, q) =>
      let s1 := set_pending (delete n (pending s)) s in
      if reqCancelled q then s1
      else
        let lr := loadPage (reqPage q) res in
        let '(obj, s2) := alloc (lQuestions lr) s1 in
        let s3 := set_totalPages (lTotalPages lr) (set_questions obj s2) in
        match reqSubject q with
        | Some subj =>
            if bool_decide (subj <> "")
            then set_pagesBySubject (recordTotal (pagesBySubject s3) subj (lTotalPages lr)) s3
            else s3
        | None => s3
        end
  | None => s
  end.

Inductive Event :=
| EvNext                        (* the Next button *)
| EvPrev                        (* the Prev button *)
| EvSelect (i : nat)            (* the [i]-th option of the exam question *)
| EvTab (i : nat)               (* the [i]-th subject tab: [onSubjectChange(i)] *)
| EvSheet (i p : nat)           (* page [p] of subject [i] in the parent's page sheet *)
| EvToggleAnswer (idx : nat)    (* "View Answer" of the [idx]-th study question *)
| EvToggleCorrection (idx : nat)
| EvFetch (rid : nat) (res : option Response)  (* fetch [rid] resolves ([Some]) or throws *)
| EvClock.                      (* time passes: [Date.now()] advances *)

(** The handlers, on the state of the last commit. *)
Definition handle (e : Event) (s : St) : St :=
  match e with
  | EvNext => applyNav (handleNext mode (navView s) (navState s)) s
  | EvPrev => applyNav (handlePrev mode (navState s)) s
  | EvSelect i => if is_exam mode then selectOption i s else s
  | EvTab i => set_page 1 (set_subjectIdx i s)
  | EvSheet i p => set_page p (set_subjectIdx i s)
  | EvToggleAnswer idx => toggleAnswer idx s
  | EvToggleCorrection idx => toggleCorrection idx s
  | EvFetch rid res => settleFetch rid res s
  | EvClock => set_clock (S (clock s)) s
  end.

(** The state of a fresh visit: every [useState] initial value, each
    array or object a distinct one, nothing committed yet. *)
Definition initial : St :=
  mkSt 0 1 ∅ ∅ [] 1 (mkObj 0 []) ∅ ∅ (mkObj 1 ∅) 0 (mkObj 2 []) (mkObj 3 []) 0 (mkObj 4 [])
       [] 5 0 0 None.

(** Mounting, then one settled state per event. *)
Definition mount : St := settle initial.
Definition step (s : St) (e : Event) : St := settle (handle e s).
Definition run (es : list Event) : St := foldl step mount es.

End Component.

End Session.

(** ** Commits settle *)

Import Session.

Section Settle.
Context (opts : list SubjectOption) (mode : option string) (rnd : nat -> Z).

(** The dependencies other than the memo's and [allQuestions]'s. *)
Definition agree_core (d d' : Deps) : Prop :=
  dIdx d = dIdx d' /\ dLoad d = dLoad d' /\ dOrig d = dOrig d' /\
  dAll d = dAll d' /\ dNotifyA d = dNotifyA d'.

Lemma agree_core_refl d : agree_core d d.
Proof. repeat split. Qed.

Lemma agree_core_trans d1 d2 d3 : agree_core d1 d2 -> agree_core d2 d3 -> agree_core d1 d3.
Proof. unfold agree_core. intuition congruence. Qed.

(** An update that keeps [committed] and the core dependencies, and
    possibly the memo's. *)
Definition keeps (memo : bool) (acc' acc : St) : Prop :=
  committed acc' = committed acc /\ agree_core (depsOf opts acc') (depsOf opts acc) /\
  (memo = true -> dMemo (depsOf opts acc') = dMemo (depsOf opts acc)).

Lemma keeps_refl m acc : keeps m acc acc.
Proof. unfold keeps. auto using agree_core_refl. Qed.

Lemma keeps_trans m a b c : keeps m a b -> keeps m b c -> keeps m a c.
Proof.
  unfold keeps. intros (H1 & H2 & H3) (H4 & H5 & H6).
  split; [congruence|]. split; [eauto using agree_core_trans|]. intros Hm. rewrite H3, H6; done.
Qed.

Ltac eff_simpl acc :=
  destruct acc; repeat (case_match; simplify_eq/=); unfold keeps, agree_core; simpl;
  repeat split; intros; try discriminate; reflexivity.

Lemma effectSubject_keeps r acc : keeps true (effectSubject r acc) acc.
Proof. unfold effectSubject. eff_simpl acc. Qed.

Lemma effectLoad_keeps r acc : keeps true (effectLoad opts r acc) acc.
Proof. unfold effectLoad. eff_simpl acc. Qed.

Lemma effectOriginal_keeps r acc : keeps false (effectOriginal r acc) acc.
Proof. unfold effectOriginal. eff_simpl acc. Qed.

Lemma effectAll_keeps r acc : keeps true (effectAll opts mode r acc) acc.
Proof. unfold effectAll, alloc. eff_simpl acc. Qed.

Lemma effectNotifyQuestions_keeps r acc : keeps true (effectNotifyQuestions mode r acc) acc.
Proof. unfold effectNotifyQuestions. eff_simpl acc. Qed.

Lemma effectNotifyAnswers_keeps r acc : keeps true (effectNotifyAnswers opts mode r acc) acc.
Proof. unfold effectNotifyAnswers. eff_simpl acc. Qed.

(** The effects that leave every dependency as it was. *)
Definition keepsAll (acc' acc : St) : Prop :=
  committed acc' = committed acc /\ depsOf opts acc' = depsOf opts acc.

Ltac eff_all acc :=
  destruct acc; repeat (case_match; simplify_eq/=); unfold keepsAll; simpl; split; reflexivity.

Lemma effectSubject_keepsAll r acc : keepsAll (effectSubject r acc) acc.
Proof. unfold effectSubject. eff_all acc. Qed.
Lemma effectLoad_keepsAll r acc : keepsAll (effectLoad opts r acc) acc.
Proof. unfold effectLoad. eff_all acc. Qed.
Lemma effectNotifyQuestions_keepsAll r acc : keepsAll (effectNotifyQuestions mode r acc) acc.
Proof. unfold effectNotifyQuestions. eff_all acc. Qed.
Lemma effectNotifyAnswers_keepsAll r acc : keepsAll (effectNotifyAnswers opts mode r acc) acc.
Proof. unfold effectNotifyAnswers. eff_all acc. Qed.

Lemma keeps_weaken acc' acc : keeps true acc' acc -> keeps false acc' acc.
Proof. unfold keeps. intuition discriminate. Qed.

Lemma runIf_keeps m b eff r acc :
  (forall acc, keeps m (eff r acc) acc) -> keeps m (runIf b eff r acc) acc.
Proof. intros H. unfold runIf. destruct b; [apply H|apply keeps_refl]. Qed.

Lemma runIf_false eff r acc : runIf false eff r acc = acc.
Proof. done. Qed.

Lemma keepsAll_keeps m acc' acc : keepsAll acc' acc -> keeps m acc' acc.
Proof. unfold keepsAll, keeps. intros [-> ->]. auto using agree_core_refl. Qed.

Lemma runIf_keepsAll b eff r acc :
  (forall acc, keepsAll (eff r acc) acc) -> keepsAll (runIf b eff r acc) acc.
Proof. intros H. unfold runIf. destruct b; [apply H|done]. Qed.

Lemma keepsAll_trans a b c : keepsAll a b -> keepsAll b c -> keepsAll a c.
Proof. unfold keepsAll. intuition congruence. Qed.

Lemma set_committed_deps v acc : depsOf opts (set_committed v acc) = depsOf opts acc.
Proof. by destruct acc. Qed.

Lemma set_committed_same s : set_committed (committed s) s = s.
Proof. by destruct s. Qed.

Lemma render_committed s : committed (render opts rnd s) = committed s.
Proof.
  unfold render. case_match; [|done].
  destruct (displayedQuestions _ _ _ _ _). by destruct s.
Qed.

(** The render only replaces the displayed array. *)
Lemma render_deps s :
  let d := depsOf opts (render opts rnd s) in let d0 := depsOf opts s in
  dIdx d = dIdx d0 /\ dLoad d = dLoad d0 /\ dOrig d = dOrig d0 /\ dMemo d = dMemo d0 /\
  dNotifyQ d = dNotifyQ d0 /\ dNotifyA d = dNotifyA d0.
Proof.
  unfold render. case_match; [|repeat split].
  destruct (displayedQuestions _ _ _ _ _). destruct s. repeat split.
Qed.

Lemma render_id s : changed dMemo s (depsOf opts s) = false -> render opts rnd s = s.
Proof. unfold render. by intros ->. Qed.

Lemma commit_keeps (s : St) :
  keeps false (commit opts mode rnd s)
    (set_committed (Some (depsOf opts (render opts rnd s))) (render opts rnd s)).
Proof.
  unfold commit.
  repeat (eapply keeps_trans; [apply runIf_keeps; intros;
    first [apply keeps_weaken; apply effectSubject_keeps | apply keeps_weaken; apply effectLoad_keeps
          | apply effectOriginal_keeps | apply keeps_weaken; apply effectAll_keeps
          | apply keeps_weaken; apply effectNotifyQuestions_keeps
          | apply keeps_weaken; apply effectNotifyAnswers_keeps]|]).
  apply keeps_refl.
Qed.

Lemma commit_core (s : St) :
  committed (commit opts mode rnd s) = Some (depsOf opts (render opts rnd s)) /\
  agree_core (depsOf opts (commit opts mode rnd s)) (depsOf opts (render opts rnd s)).
Proof.
  destruct (commit_keeps s) as (H1 & H2 & _). rewrite set_committed_deps in H2.
  split; [by rewrite H1; destruct (render opts rnd s)|done].
Qed.

(** Without a change of [questions.length], subject or page, the effect
    of lines 129-135 does not run and the memo's dependencies stay. *)
Lemma keepsAll_refl acc : keepsAll acc acc.
Proof. done. Qed.

Ltac chain_keeps :=
  repeat (eapply keeps_trans; [apply runIf_keeps; intros;
    first [apply effectSubject_keeps | apply effectLoad_keeps | apply effectAll_keeps
          | apply effectNotifyQuestions_keeps | apply effectNotifyAnswers_keeps]|]);
  apply keeps_refl.

Ltac chain_keepsAll :=
  repeat (eapply keepsAll_trans; [apply runIf_keepsAll; intros;
    first [apply effectSubject_keepsAll | apply effectLoad_keepsAll
          | apply effectNotifyQuestions_keepsAll | apply effectNotifyAnswers_keepsAll]|]);
  apply keepsAll_refl.

(** Without a change of [questions.length], subject or page, the effect
    of lines 129-135 does not run and the memo's dependencies stay. *)
Lemma commit_memo (s : St) :
  changed dOrig s (depsOf opts (render opts rnd s)) = false ->
  dMemo (depsOf opts (commit opts mode rnd s)) = dMemo (depsOf opts (render opts rnd s)).
Proof.
  intros Ho. unfold commit. rewrite Ho, runIf_false.
  set (r := render opts rnd s). set (acc0 := set_committed (Some (depsOf opts r)) r).
  transitivity (dMemo (depsOf opts acc0)); [|by subst acc0; rewrite set_committed_deps].
  match goal with
  | |- dMemo (depsOf opts ?t) = _ =>
      assert (H : keeps true t acc0) by chain_keeps; destruct H as (_ & _ & H); by apply H
  end.
Qed.

(** Without a change of the loaded page or of the displayed array, a
    commit leaves every dependency as rendered. *)
Lemma commit_quiet (s : St) :
  changed dOrig s (depsOf opts (render opts rnd s)) = false ->
  changed dAll s (depsOf opts (render opts rnd s)) = false ->
  depsOf opts (commit opts mode rnd s) = depsOf opts (render opts rnd s).
Proof.
  intros Ho Ha. unfold commit. rewrite Ho, Ha, !runIf_false.
  set (r := render opts rnd s). set (acc0 := set_committed (Some (depsOf opts r)) r).
  transitivity (depsOf opts acc0); [|by subst acc0; rewrite set_committed_deps].
  match goal with
  | |- depsOf opts ?t = _ => assert (H : keepsAll t acc0) by chain_keepsAll; apply H
  end.
Qed.

Lemma changed_same {A} `{EqDecision A} (f : Deps -> A) s d :
  committed s = Some d -> changed f s d = false.
Proof. unfold changed. intros ->. apply bool_decide_eq_false. by intros H. Qed.

Lemma changed_eq {A} `{EqDecision A} (f : Deps -> A) s c d :
  committed s = Some c -> f c = f d -> changed f s d = false.
Proof. unfold changed. intros -> ->. apply bool_decide_eq_false. by intros H. Qed.

(** A state whose last commit recorded its own dependencies is a fixed
    point of [commit]. *)
Lemma commit_stable (s : St) :
  committed s = Some (depsOf opts s) -> commit opts mode rnd s = s.
Proof.
  intros Hc. unfold commit.
  rewrite render_id by (by apply changed_same).
  rewrite !(changed_same _ s (depsOf opts s) Hc). simpl.
  rewrite <- Hc. apply set_committed_same.
Qed.

(** Three commits reach a state whose last commit recorded its own
    dependencies. *)
Lemma settle_settled (s : St) :
  committed (settle opts mode rnd s) = Some (depsOf opts (settle opts mode rnd s)).
Proof.
  unfold settle. simpl. set (c1 := commit opts mode rnd s).
  set (c2 := commit opts mode rnd c1).
  destruct (commit_core s) as [Hc1 Ha1]. fold c1 in Hc1, Ha1.
  destruct (commit_core c1) as [Hc2 Ha2]. fold c2 in Hc2, Ha2.
  destruct (commit_core c2) as [Hc3 _]. rewrite Hc3. f_equal.
  destruct (render_deps c1) as (_ & _ & Ho1 & _).
  destruct (render_deps c2) as (_ & _ & Ho2 & Hm2 & _).
  destruct Ha1 as (_ & _ & Ha1o & _). destruct Ha2 as (_ & _ & Ha2o & Ha2a & _).
  assert (Hm : dMemo (depsOf opts c2) = dMemo (depsOf opts (render opts rnd c1))).
  { apply commit_memo. eapply changed_eq; [exact Hc1|]. congruence. }
  assert (Hr : render opts rnd c2 = c2).
  { apply render_id. eapply changed_eq; [exact Hc2|]. congruence. }
  symmetry. apply commit_quiet.
  - eapply changed_eq; [exact Hc2|]. congruence.
  - eapply changed_eq; [exact Hc2|]. rewrite Hr. congruence.
Qed.

(** C2 (termination): whatever state a handler leaves, three commits
    reach a state that a further commit does not change: the chain of
    effects of the screen (a new page, its shuffled copy, the tracked
    exam questions, the parent's copy) always settles. *)
Theorem settle_stable (s : St) :
  commit opts mode rnd (settle opts mode rnd s) = settle opts mode rnd s.
Proof. apply commit_stable, settle_settled. Qed.

End Settle.

(** ** The answers the parent holds *)

Section Answers.
Context (opts : list SubjectOption) (mode : option string) (rnd : nat -> Z).

(** The parent's [userAnswers] are the child's [selectedAnswers] keyed
    with the active subject, as the effect of lines 186-195 writes them. *)
Definition sync (s : St) : Prop :=
  userAnswers s = answersWithKeys (activeSubject opts s) (oval (selectedAnswers s)).

(** Bounds every reachable state satisfies: the selected answers are a
    fresh object keyed by indices of a page, and every array of questions
    holds at most a page. *)
Definition good (s : St) : Prop :=
  oid (selectedAnswers s) < nextId s /\
  map_Forall (fun i _ => i < page_size) (oval (selectedAnswers s)) /\
  length (oval (questions s)) <= page_size /\
  length (oval (originalQuestions s)) <= page_size /\
  length (oval (displayed s)) <= page_size.

(** What render and the effects leave alone. *)
Definition frame (acc' acc : St) : Prop :=
  selectedAnswers acc' = selectedAnswers acc /\ subjectIdx acc' = subjectIdx acc /\
  (good acc -> good acc').

Lemma frame_refl s : frame s s.
Proof. unfold frame. auto. Qed.

Lemma frame_trans a b c : frame a b -> frame b c -> frame a c.
Proof. unfold frame. intuition congruence. Qed.

Lemma render_frame s : frame (render opts rnd s) s.
Proof.
  unfold render, frame, good. case_match; [|auto].
  pose proof (displayedQuestions_length (default false (shuffle <$> activeOptsOf opts s))
    (default false (shuffleOptions <$> activeOptsOf opts s)) rnd (draws s)
    (oval (originalQuestions s))) as Hl.
  destruct (displayedQuestions _ _ _ _ _) as [qs k]. destruct s; simpl in *.
  intuition lia.
Qed.

Ltac frame_simpl acc :=
  destruct acc; repeat (case_match; simplify_eq/=); unfold frame, good; simpl; intuition lia.

Lemma effects_frame r acc :
  good r ->
  frame (effectSubject r acc) acc /\ frame (effectLoad opts r acc) acc /\
  frame (effectOriginal r acc) acc /\ frame (effectAll opts mode r acc) acc /\
  frame (effectNotifyQuestions mode r acc) acc /\ frame (effectNotifyAnswers opts mode r acc) acc.
Proof.
  intros Hr. unfold good in Hr.
  unfold effectSubject, effectLoad, effectOriginal, effectAll, alloc,
    effectNotifyQuestions, effectNotifyAnswers.
  split; [frame_simpl acc|]. split; [frame_simpl acc|]. split; [frame_simpl acc|].
  split; [frame_simpl acc|]. split; frame_simpl acc.
Qed.

Lemma set_committed_frame v acc : frame (set_committed v acc) acc.
Proof. destruct acc. unfold frame, good. simpl. auto. Qed.

Lemma runIf_frame b eff r acc :
  (forall acc, frame (eff r acc) acc) -> frame (runIf b eff r acc) acc.
Proof. intros H. unfold runIf. destruct b; [apply H|apply frame_refl]. Qed.

Lemma commit_frame s : good s -> frame (commit opts mode rnd s) s.
Proof.
  intros Hg. pose proof (render_frame s) as Hr.
  assert (Hgr : good (render opts rnd s)) by (apply Hr, Hg).
  eapply frame_trans; [|exact Hr]. unfold commit.
  repeat (eapply frame_trans; [apply runIf_frame; intros acc; apply (effects_frame _ acc Hgr)|]).
  apply set_committed_frame.
Qed.

Lemma commit_good s : good s -> good (commit opts mode rnd s).
Proof. intros Hg. by apply (commit_frame s Hg). Qed.

Lemma render_userAnswers s : userAnswers (render opts rnd s) = userAnswers s.
Proof. unfold render. case_match; [|done]. destruct (displayedQuestions _ _ _ _ _). by destruct s. Qed.

Ltac user_simpl acc := destruct acc; repeat (case_match; simplify_eq/=); reflexivity.

(** Only the effect of lines 186-195 writes the parent's answers. *)
Lemma commit_userAnswers s :
  userAnswers (commit opts mode rnd s) =
    if changed dNotifyA s (depsOf opts (render opts rnd s)) && is_exam mode
    then answersWithKeys (activeSubject opts (render opts rnd s))
           (oval (selectedAnswers (render opts rnd s)))
    else userAnswers s.
Proof.
  unfold commit. set (r := render opts rnd s). set (d := depsOf opts r).
  assert (Hpre : forall acc, userAnswers
    (runIf (changed dNotifyQ s d) (effectNotifyQuestions mode) r
     (runIf (changed dAll s d) (effectAll opts mode) r
      (runIf (changed dOrig s d) effectOriginal r
       (runIf (changed dLoad s d) (effectLoad opts) r
        (runIf (changed dIdx s d) effectSubject r acc))))) = userAnswers acc).
  { intros acc. unfold runIf, effectNotifyQuestions, effectAll, alloc, effectOriginal,
      effectLoad, effectSubject.
    repeat case_match; user_simpl acc. }
  unfold runIf at 1. destruct (changed dNotifyA s d); simpl.
  - unfold effectNotifyAnswers. destruct (is_exam mode); [|rewrite Hpre; subst r].
    + by destruct (runIf _ _ _ _).
    + destruct s; unfold render; simpl. repeat case_match; simplify_eq/=; done.
  - rewrite Hpre. subst r. destruct s; unfold render; simpl.
    repeat case_match; simplify_eq/=; done.
Qed.

Lemma commit_sync s :
  is_exam mode = true -> good s ->
  sync s \/ changed dNotifyA s (depsOf opts (render opts rnd s)) = true ->
  sync (commit opts mode rnd s).
Proof.
  intros He Hg Hs. destruct (commit_frame s Hg) as (Hsel & Hidx & _).
  destruct (render_frame s) as (Hsel' & Hidx' & _).
  unfold sync in *. rewrite commit_userAnswers, He, andb_true_r.
  unfold activeSubject in *. rewrite Hsel, Hidx.
  destruct (changed dNotifyA _ _) eqn:Hc.
  - by rewrite Hsel', Hidx'.
  - by destruct Hs as [Hs|Hs]; [|discriminate].
Qed.

Lemma settle_good s : good s -> good (settle opts mode rnd s).
Proof. intros Hg. unfold settle. simpl. by do 3 apply commit_good. Qed.

Lemma settle_sync s :
  is_exam mode = true -> good s ->
  sync s \/ changed dNotifyA s (depsOf opts (render opts rnd s)) = true ->
  sync (settle opts mode rnd s).
Proof.
  intros He Hg Hs. unfold settle. simpl.
  assert (Hg1 := commit_good s Hg). assert (Hg2 := commit_good _ Hg1).
  apply commit_sync; [done|done|left]. apply commit_sync; [done|done|left].
  by apply commit_sync.
Qed.

(** What a handler does to the selected answers: nothing, or a fresh
    object. *)
Lemma handle_selected e s :
  selectedAnswers (handle opts mode e s) = selectedAnswers s \/
  oid (selectedAnswers (handle opts mode e s)) = nextId s.
Proof.
  destruct e; simpl; unfold applyNav, selectOption, toggleAnswer, toggleCorrection,
    settleFetch, alloc; repeat case_match; simplify_eq/=; destruct s; simpl;
    first [by left | by right].
Qed.

Lemma handle_committed e s : committed (handle opts mode e s) = committed s.
Proof.
  destruct e; simpl; unfold applyNav, selectOption, toggleAnswer, toggleCorrection,
    settleFetch, alloc; repeat case_match; simplify_eq/=; by destruct s.
Qed.

Lemma handle_userAnswers e s : userAnswers (handle opts mode e s) = userAnswers s.
Proof.
  destruct e; simpl; unfold applyNav, selectOption, toggleAnswer, toggleCorrection,
    settleFetch, alloc; repeat case_match; simplify_eq/=; by destruct s.
Qed.

Lemma handle_good e s : good s -> good (handle opts mode e s).
Proof.
  intros Hg. pose proof Hg as (H1 & H2 & H3 & H4 & H5). destruct e; simpl.
  - unfold applyNav, good. destruct s; simpl in *. auto.
  - unfold applyNav, good. destruct s; simpl in *. auto.
  - destruct (is_exam mode); [|done]. unfold selectOption, alloc.
    destruct (oval (displayed s) !! currentQuestionIndex s) as [q|] eqn:Hq; [|done].
    destruct (default [] (options q) !! i); [|done].
    apply lookup_lt_Some in Hq.
    unfold good. destruct s; simpl in *. repeat split; try lia.
    apply map_Forall_insert_2; [lia|]. eapply map_Forall_impl; [exact H2|]. simpl. lia.
  - unfold good. destruct s; simpl in *. auto.
  - unfold good. destruct s; simpl in *. auto.
  - unfold good, toggleAnswer. destruct s; simpl in *. auto.
  - unfold good, toggleCorrection. destruct s; simpl in *. auto.
  - unfold settleFetch, alloc. repeat case_match; simplify_eq/=; unfold good; destruct s;
      simpl in *; repeat split; auto with lia; apply loadPage_le_page.
  - unfold good. destruct s; simpl in *. auto.
Qed.

(** The invariant of a reachable state. *)
Definition reach_inv (s : St) : Prop :=
  good s /\ committed s = Some (depsOf opts s) /\ (is_exam mode = true -> sync s).

Lemma good_initial : good initial.
Proof. unfold good, initial. simpl. repeat split; try lia. apply map_Forall_empty. Qed.

Lemma reach_mount : reach_inv (mount opts mode rnd).
Proof.
  unfold mount. split; [apply settle_good, good_initial|]. split; [apply settle_settled|].
  intros He. apply settle_sync; [done|apply good_initial|]. right. done.
Qed.

Lemma reach_step s e : reach_inv s -> reach_inv (step opts mode rnd s e).
Proof.
  intros (Hg & Hc & Hs). unfold step.
  assert (Hgh : good (handle opts mode e s)) by (apply handle_good, Hg).
  split; [by apply settle_good|]. split; [apply settle_settled|].
  intros He. apply settle_sync; [done|done|].
  set (h := handle opts mode e s).
  destruct (render_deps opts rnd h) as (_ & _ & _ & _ & _ & HA).
  assert (Hch : dNotifyA (depsOf opts s) <> dNotifyA (depsOf opts h) ->
                changed dNotifyA h (depsOf opts (render opts rnd h)) = true).
  { intros Hne. unfold changed, h. rewrite handle_committed, Hc. fold h. rewrite HA.
    by apply bool_decide_eq_true. }
  destruct (handle_selected e s) as [Hsel|Hsel]; fold h in Hsel.
  - destruct (decide (activeSubject opts h = activeSubject opts s)) as [Ha|Ha].
    + left. unfold sync. subst h. rewrite handle_userAnswers, Hsel, Ha. by apply Hs.
    + right. apply Hch. simpl. intros [=]. auto.
  - right. apply Hch. simpl. intros [= Hid _]. destruct Hg as (Hlt & _). lia.
Qed.

Lemma reach_run es : reach_inv (run opts mode rnd es).
Proof.
  unfold run. generalize (mount opts mode rnd) (reach_mount). intros s0 H0.
  revert s0 H0. induction es as [|e es IH]; intros s0 H0; simpl; [done|].
  apply IH. by apply reach_step.
Qed.

Lemma answersWithKeys_lookup subj sel k v :
  answersWithKeys subj sel !! k = Some v ->
  exists i, sel !! i = Some v /\ k = subjectText subj +:+ "-" +:+ js_nat_string i.
Proof.
  unfold answersWithKeys. intros Hk%elem_of_list_to_map_2.
  apply list_elem_of_fmap in Hk as ([i a] & Heq & Hin). simplify_eq.
  apply elem_of_map_to_list in Hin. eauto.
Qed.

(** The parent answers are the current subject keys of the selected answers. *)
Lemma answers_keyed (es : list Event) :
  is_exam mode = true ->
  let s := run opts mode rnd es in
  userAnswers s = answersWithKeys (activeSubject opts s) (oval (selectedAnswers s)) /\
  map_Forall (fun i _ => i < page_size) (oval (selectedAnswers s)).
Proof.
  intros He. simpl. destruct (reach_run es) as ((_ & Hk & _) & _ & Hs). split; [|done].
  by apply Hs.
Qed.

(** C9 (finding): in exam mode, in every state the screen can reach, the
    parent's [userAnswers] is exactly the child's [selectedAnswers]
    re-keyed with the active subject, and those are keyed by the
    position within the page: answers of other subjects are gone, and
    the answer at position [i] of every page of the subject is stored
    under the same key. *)
Theorem answers_keyed_by_subject (es : list Event) :
  is_exam mode = true ->
  let s := run opts mode rnd es in
  userAnswers s = answersWithKeys (activeSubject opts s) (oval (selectedAnswers s)) /\
  map_Forall (fun i _ => i < page_size) (oval (selectedAnswers s)).
Proof. apply answers_keyed. Qed.

(** C8 (finding): in exam mode, whatever the user did, a question counts
    as answered correctly at submission only if its key is the active
    subject followed by an ordinal below ten: no question of another
    subject and no question after the first page ever scores. *)
Theorem only_first_page_scores (es : list Event) (q : ExamQuestion) (a : string) :
  is_exam mode = true -> activeSubject opts (run opts mode rnd es) = Some a ->
  answeredCorrectly (userAnswers (run opts mode rnd es)) q = true ->
  exists i, i < page_size /\ eqGlobalIndex q = a +:+ "-" +:+ js_nat_string i.
Proof.
  intros He Ha (v & Hv & _ & _)%answeredCorrectly_spec.
  destruct (answers_keyed es He) as [Hu Hk]. simpl in Hu, Hk.
  rewrite Hu, Ha in Hv. apply answersWithKeys_lookup in Hv as (i & Hi & ->).
  exists i. split; [exact (Hk i v Hi)|done].
Qed.

(** A settled fetch changes the loaded page, the page total and the
    parent's page record, and no dependency but [questions.length]. *)
Lemma settleFetch_deps rid res s :
  length (oval (questions (settleFetch rid res s))) = length (oval (questions s)) ->
  depsOf opts (settleFetch rid res s) = depsOf opts s.
Proof.
  unfold settleFetch, alloc. repeat case_match; simplify_eq/=; destruct s; simpl; intros Hl;
    unfold depsOf, activeSubject, activeOptsOf; simpl in *; rewrite ?Hl; reflexivity.
Qed.

Lemma commit_questions s : questions (commit opts mode rnd s) = questions s.
Proof.
  unfold commit. unfold runIf, effectNotifyAnswers, effectNotifyQuestions, effectAll, alloc,
    effectOriginal, effectLoad, effectSubject.
  assert (Hr : questions (render opts rnd s) = questions s).
  { unfold render. case_match; [|done]. destruct (displayedQuestions _ _ _ _ _). by destruct s. }
  rewrite <- Hr. generalize (render opts rnd s). intros r.
  repeat case_match; simplify_eq/=; by destruct r.
Qed.

Lemma settle_questions s : questions (settle opts mode rnd s) = questions s.
Proof. unfold settle. simpl. by rewrite !commit_questions. Qed.

(** C22 (finding): in a reachable state, when a fetch brings a page with as
    many questions as the page loaded before (a full page of ten after a
    full page of ten), no effect runs: the shuffled copy the exam mode
    displays, and the tracked exam questions, stay those of the previous
    page or subject, because the effect of lines 129-135 only watches
    [questions.length]. *)
Theorem same_length_fetch_not_displayed (es : list Event) (rid : nat) (res : option Response) :
  let s := run opts mode rnd es in
  let s' := step opts mode rnd s (EvFetch rid res) in
  length (oval (questions s')) = length (oval (questions s)) ->
  displayed s' = displayed s /\ originalQuestions s' = originalQuestions s /\
  allQuestions s' = allQuestions s.
Proof.
  simpl. destruct (reach_run es) as (_ & Hc & _).
  set (s := run opts mode rnd es) in *. unfold step. simpl handle.
  rewrite settle_questions. intros Hl.
  assert (Hfix : commit opts mode rnd (settleFetch rid res s) = settleFetch rid res s).
  { apply commit_stable. rewrite (settleFetch_deps rid res s Hl).
    pose proof (handle_committed (EvFetch rid res) s) as Hh. simpl in Hh. by rewrite Hh. }
  assert (Hst : settle opts mode rnd (settleFetch rid res s) = settleFetch rid res s)
    by (unfold settle; simpl; by rewrite !Hfix).
  rewrite Hst. unfold settleFetch, alloc. repeat case_match; simplify_eq/=; by destruct s.
Qed.

End Answers.

(** ** Fetches in flight *)

Section Staleness.
Context (opts : list SubjectOption) (mode : option string) (rnd : nat -> Z).

(** Every fetch but the newest is cancelled, and the newest, when it is
    not, was started for the subject and page of the last commit. *)
Definition pend_inv (s : St) : Prop :=
  Forall (fun q => reqCancelled q = true) (tail (pending s)) /\
  forall q d, head (pending s) = Some q -> reqCancelled q = false -> committed s = Some d ->
    reqSubject q = (dLoad d).1.1 /\ reqPage q = (dLoad d).2.

Lemma commit_pending s :
  (changed dLoad s (depsOf opts (render opts rnd s)) = false /\
   pending (commit opts mode rnd s) = pending s) \/
  (changed dLoad s (depsOf opts (render opts rnd s)) = true /\
   exists n, pending (commit opts mode rnd s) =
     mkReq n (activeSubject opts (render opts rnd s)) (page (render opts rnd s)) false
       :: cancelHead (pending s)).
Proof.
  assert (Hr : pending (render opts rnd s) = pending s /\ page (render opts rnd s) = page s).
  { unfold render. case_match; [|done]. destruct (displayedQuestions _ _ _ _ _). by destruct s. }
  destruct Hr as [Hp _]. unfold commit, runIf.
  set (r := render opts rnd s). fold r in Hp. clearbody r.
  destruct (changed dLoad s (depsOf opts r)); [right|left]; (split; [done|]).
  - unfold effectNotifyAnswers, effectNotifyQuestions, effectAll, alloc, effectOriginal,
      effectLoad, effectSubject.
    repeat case_match; simplify_eq/=; destruct r; simpl in *; subst; eexists; reflexivity.
  - unfold effectNotifyAnswers, effectNotifyQuestions, effectAll, alloc, effectOriginal,
      effectSubject.
    repeat case_match; simplify_eq/=; destruct r; simpl in *; subst; reflexivity.
Qed.

Lemma commit_pend_inv s : pend_inv s -> pend_inv (commit opts mode rnd s).
Proof.
  intros [Ht Hh]. destruct (commit_core opts mode rnd s) as [Hc _].
  unfold pend_inv.
  destruct (commit_pending s) as [[Hch Hp]|[Hch [n Hp]]]; rewrite Hp; split.
  - done.
  - intros q d Hq Hnc Hd. rewrite Hc in Hd. injection Hd as <-.
    unfold changed in Hch. destruct (committed s) as [d0|] eqn:E; [|done].
    apply bool_decide_eq_false_1 in Hch. apply dec_stable in Hch.
    rewrite <- Hch. by apply (Hh q d0).
  - simpl. destruct (pending s) as [|q0 rest]; simpl in *; constructor; [done|exact Ht].
  - intros q d Hq Hnc Hd. rewrite Hc in Hd. injection Hd as <-. injection Hq as <-.
    done.
Qed.

Lemma settle_fixed s : committed s = Some (depsOf opts s) -> settle opts mode rnd s = s.
Proof. intros Hc. unfold settle. simpl. by rewrite !(commit_stable opts mode rnd s Hc). Qed.

Lemma settle_pend_inv s : pend_inv s -> pend_inv (settle opts mode rnd s).
Proof. apply iter_invariant, commit_pend_inv. Qed.

(** Dropping one in-flight fetch keeps the invariant: when the newest is
    dropped, the new head is one of the cancelled ones. *)
Lemma pend_inv_delete s n :
  pend_inv s -> pend_inv (set_pending (delete n (pending s)) s).
Proof.
  intros [Ht Hh]. unfold pend_inv. destruct s as [??????????????? p]; simpl in *.
  destruct p as [|q0 rest]; [done|]. destruct n as [|n]; simpl in *.
  - split; [by apply Forall_tail|]. intros q d Hq Hnc _.
    destruct rest as [|q1 rest]; simplify_eq/=. apply Forall_cons in Ht as [? _]. congruence.
  - split; [by apply Forall_delete|]. done.
Qed.

Lemma handle_pend_inv e s : pend_inv s -> pend_inv (handle opts mode e s).
Proof.
  intros Hp. destruct e; simpl;
    try (unfold pend_inv in *; unfold applyNav, selectOption, toggleAnswer, toggleCorrection, alloc;
         repeat case_match; destruct s; simpl in *; exact Hp).
  unfold settleFetch. destruct (list_find _ _) as [[n q]|]; [|done].
  assert (H1 := pend_inv_delete s n Hp). case_match; [done|].
  unfold alloc. revert H1. unfold pend_inv. repeat case_match; destruct s; simpl in *; done.
Qed.

Lemma reach_pend es : pend_inv (run opts mode rnd es).
Proof.
  unfold run. assert (H0 : pend_inv (mount opts mode rnd)).
  { apply settle_pend_inv. split; [constructor|done]. }
  generalize (mount opts mode rnd) H0. induction es as [|e es IH]; intros s0 Hs0; simpl; [done|].
  apply IH. by apply settle_pend_inv, handle_pend_inv.
Qed.

(** In a reachable state, every in-flight fetch started for another
    subject or page than the current ones is cancelled. *)
Lemma stale_cancelled es n q :
  let s := run opts mode rnd es in
  pending s !! n = Some q ->
  (reqSubject q, reqPage q) <> (activeSubject opts s, page s) -> reqCancelled q = true.
Proof.
  cbv zeta. destruct (reach_run opts mode rnd es) as (_ & Hc & _).
  destruct (reach_pend es) as [Ht Hh].
  set (s := run opts mode rnd es) in *. clearbody s. intros Hq Hne.
  destruct (pending s) as [|q0 rest]; [done|]. destruct n as [|n]; simpl in Hq.
  - injection Hq as ->. destruct (reqCancelled q) eqn:E; [done|].
    destruct (Hh q _ eq_refl E Hc) as [H1 H2]. simpl in H1, H2. by rewrite H1, H2 in Hne.
  - simpl in Ht. by eapply (Forall_lookup_1 _ _ _ _ Ht Hq).
Qed.

(** C3: the staleness guard of the page fetch (lines 61-112).  In a
    reachable state, when a fetch resolves (or fails) after the user has
    moved to another subject or page, the whole step only forgets that
    fetch: no page, page total, page record or effect is touched. *)
Theorem stale_fetch_dropped es rid res n q :
  let s := run opts mode rnd es in
  list_find (fun q => reqId q = rid) (pending s) = Some (n, q) ->
  (reqSubject q, reqPage q) <> (activeSubject opts s, page s) ->
  step opts mode rnd s (EvFetch rid res) = set_pending (delete n (pending s)) s.
Proof.
  cbv zeta. intros Hf Hne. destruct (reach_run opts mode rnd es) as (_ & Hc & _).
  pose proof Hf as (Hl & _ & _)%list_find_Some.
  assert (Hcan := stale_cancelled es n q Hl Hne).
  set (s := run opts mode rnd es) in *. clearbody s.
  unfold step. simpl. unfold settleFetch. rewrite Hf, Hcan.
  apply settle_fixed. by destruct s.
Qed.

End Staleness.

(** ** Revealed answers and corrections *)

Section Reveals.
Context (opts : list SubjectOption) (mode : option string) (rnd : nat -> Z).

(** The last commit saw the current subject index. *)
Definition idx_settled (s : St) : Prop :=
  exists d, committed s = Some d /\ dIdx d = subjectIdx s.

Lemma commit_reveals s :
  changed dIdx s (depsOf opts (render opts rnd s)) = false ->
  showAnswer (commit opts mode rnd s) = showAnswer s /\
  showCorrection (commit opts mode rnd s) = showCorrection s.
Proof.
  intros Hc. unfold commit, runIf. rewrite Hc.
  unfold effectNotifyAnswers, effectNotifyQuestions, effectAll, alloc, effectOriginal, effectLoad.
  assert (Hr : showAnswer (render opts rnd s) = showAnswer s /\
               showCorrection (render opts rnd s) = showCorrection s).
  { unfold render. case_match; [|done]. destruct (displayedQuestions _ _ _ _ _). by destruct s. }
  destruct Hr as [Hr1 Hr2]. rewrite <- Hr1, <- Hr2. generalize (render opts rnd s). intros r.
  repeat case_match; simplify_eq/=; by destruct r.
Qed.

Lemma commit_idx_settled s :
  good s -> idx_settled s ->
  idx_settled (commit opts mode rnd s) /\ changed dIdx s (depsOf opts (render opts rnd s)) = false.
Proof.
  intros Hg (d & Hd & Hi). destruct (commit_core opts mode rnd s) as [Hc _].
  destruct (render_deps opts rnd s) as (HI & _).
  destruct (commit_frame opts mode rnd s Hg) as (_ & Hsub & _).
  split.
  - exists (depsOf opts (render opts rnd s)). split; [done|]. rewrite HI, Hsub. done.
  - unfold changed. rewrite Hd. apply bool_decide_eq_false. rewrite HI. simpl. by intros [].
Qed.

Lemma settle_reveals s :
  good s -> idx_settled s ->
  showAnswer (settle opts mode rnd s) = showAnswer s /\
  showCorrection (settle opts mode rnd s) = showCorrection s.
Proof.
  intros Hg Hi. unfold settle. simpl.
  destruct (commit_idx_settled s Hg Hi) as [Hi1 Hc1].
  pose proof (commit_good opts mode rnd s Hg) as Hg1.
  destruct (commit_idx_settled _ Hg1 Hi1) as [Hi2 Hc2].
  pose proof (commit_good opts mode rnd _ Hg1) as Hg2.
  destruct (commit_idx_settled _ Hg2 Hi2) as [_ Hc3].
  destruct (commit_reveals _ Hc1) as [A1 B1]. destruct (commit_reveals _ Hc2) as [A2 B2].
  destruct (commit_reveals _ Hc3) as [A3 B3]. split; congruence.
Qed.

(** Finding: in every reachable state, an event that keeps the
    subject keeps the revealed answers and corrections: they are keyed
    by the position on the page and only the subject effect (lines
    54-59) resets them, so a page move in study mode leaves the answers
    revealed at the same positions of the next page. *)
Theorem reveals_survive_page_moves es e :
  let s := run opts mode rnd es in
  subjectIdx (handle opts mode e s) = subjectIdx s ->
  showAnswer (step opts mode rnd s e) = showAnswer (handle opts mode e s) /\
  showCorrection (step opts mode rnd s e) = showCorrection (handle opts mode e s).
Proof.
  cbv zeta. intros Hsub. destruct (reach_run opts mode rnd es) as (Hg & Hc & _).
  unfold step. apply settle_reveals; [by apply handle_good|].
  exists (depsOf opts (run opts mode rnd es)). rewrite handle_committed, Hsub. done.
Qed.

End Reveals.

(** ** Scenarios *)

(** A bank of [k] questions, all with answer ["a"], as the service
    returns it in full with its total. *)
Definition w_record (n : nat) : jval :=
  JObj [("question", JStr ("Q" +:+ js_nat_string n)); ("options", JArr [JStr "a"; JStr "b"]);
        ("answer", JStr "a")].
Definition w_bank (k : nat) : Response := mkResponse (Some (JArr (map w_record (seq 0 k)))) (Some k).
Definition w_exam : option string := Some "exam".
(** No subject shuffles, so no draw is taken. *)
Definition w_rnd (k : nat) : Z := 0%Z.
Definition w_bio (n : nat) : SubjectOption := mkSubjectOption "Biology" "2024" "All Topic" n false false.
Definition w_chem (n : nat) : SubjectOption := mkSubjectOption "Chemistry" "2024" "All Topic" n false false.
(** Select option A of the current question, then press Next, ten times. *)
Definition answer_page : list Event := concat (map (fun _ => [EvSelect 0; EvNext]) (seq 0 10)).
(** The first page answered, then the second page fetched (fetch 20). *)
Definition w_two_pages : list Event :=
  [EvFetch 6 (Some (w_bank 20))] ++ answer_page ++ [EvClock; EvFetch 20 (Some (w_bank 20))].

(** the end-to-end scenario of the specification: one subject
    "Biology" with count 10, a page of ten questions loaded, all ten
    answered correctly, then submitted: 10 of 10, 100 per cent; the
    results screen shows 100% and grade A, and the corrections screen
    opens on question 1 of 10 with each of the ten reviewed questions
    marked correct. *)
Theorem spec_scenario_full_marks :
  let s := run [w_bio 10] w_exam w_rnd (EvFetch 6 (Some (w_bank 10)) :: answer_page) in
  let results := subjectResults [w_bio 10] (examQuestions s) (userAnswers s) in
  let qd := questionsData (examQuestions s) (userAnswers s) in
  results = [mkResult "Biology" 10 10 100] /\
  ResultsScreen.resultsView (Some results) =
    ResultsScreen.mkResultsView 100 Results.GradeA 10 10
      [ResultsScreen.mkRow "Biology" Results.GradeA 10 10 100] /\
  length qd = 10 /\ Forall (fun d => CorrectionsScreen.answerMatches d = true) qd /\
  match CorrectionsScreen.render (Some qd) CorrectionsScreen.initialCS with
  | CorrectionsScreen.Review v =>
      (CorrectionsScreen.rvNumber v, CorrectionsScreen.rvOf v, CorrectionsScreen.rvCorrect v)
  | _ => (0, 0, false)
  end = (1, 10, true).
Proof. vm_compute. split_and!; try reflexivity. repeat constructor. Qed.

(** Finding: a subject of twenty questions, every one answered
    correctly over its two pages, scores 0 of 20: the second page's
    answers overwrite the first page's under the same keys, and the
    tracked questions keep only the second page, keyed 10 to 19. *)
Theorem two_pages_all_correct_scores_zero :
  let s := run [w_bio 20] w_exam w_rnd (w_two_pages ++ answer_page) in
  subjectResults [w_bio 20] (examQuestions s) (userAnswers s) = [mkResult "Biology" 0 20 0].
Proof. vm_compute. reflexivity. Qed.

(** Finding: after Next moves the exam to page 2 and page 2 arrives,
    the screen holds page 2 ([Q10] to [Q19]) but displays page 1
    ([Q0] to [Q9]) as questions 11 to 20. *)
Theorem exam_page_two_shows_page_one :
  let s := run [w_bio 20] w_exam w_rnd w_two_pages in
  page s = 2 /\
  map question (oval (questions s)) = map (fun n => Some (JStr ("Q" +:+ js_nat_string n))) (seq 10 10) /\
  map question (oval (displayed s)) = map (fun n => Some (JStr ("Q" +:+ js_nat_string n))) (seq 0 10).
Proof. vm_compute. repeat split. Qed.

(** ** Witnesses *)

Lemma answers_keyed_by_subject_witness :
  let s := run [w_bio 10] w_exam w_rnd (EvFetch 6 (Some (w_bank 10)) :: answer_page) in
  userAnswers s = answersWithKeys (activeSubject [w_bio 10] s) (oval (selectedAnswers s)) /\
  map_Forall (fun i _ => i < page_size) (oval (selectedAnswers s)).
Proof. apply (answers_keyed_by_subject [w_bio 10] w_exam w_rnd). reflexivity. Defined.

Lemma only_first_page_scores_witness :
  let s := run [w_bio 10] w_exam w_rnd (EvFetch 6 (Some (w_bank 10)) :: answer_page) in
  answeredCorrectly (userAnswers s) (mkEQ (Some "Biology") (normalizeQuestion (w_record 3)) "Biology-3") = true /\
  exists i, i < page_size /\ "Biology-3" = "Biology" +:+ "-" +:+ js_nat_string i.
Proof.
  cbv zeta. assert (H : answeredCorrectly (userAnswers
    (run [w_bio 10] w_exam w_rnd (EvFetch 6 (Some (w_bank 10)) :: answer_page)))
    (mkEQ (Some "Biology") (normalizeQuestion (w_record 3)) "Biology-3") = true)
    by (vm_compute; reflexivity).
  split; [exact H|].
  apply (only_first_page_scores [w_bio 10] w_exam w_rnd
    (EvFetch 6 (Some (w_bank 10)) :: answer_page)
    (mkEQ (Some "Biology") (normalizeQuestion (w_record 3)) "Biology-3") "Biology");
    [reflexivity|vm_compute; reflexivity|exact H].
Defined.

Lemma same_length_fetch_not_displayed_witness :
  let s := run [w_bio 20] w_exam w_rnd ([EvFetch 6 (Some (w_bank 20))] ++ answer_page ++ [EvClock]) in
  let s' := step [w_bio 20] w_exam w_rnd s (EvFetch 20 (Some (w_bank 20))) in
  oval (questions s') <> oval (questions s) /\
  displayed s' = displayed s /\ originalQuestions s' = originalQuestions s /\
  allQuestions s' = allQuestions s.
Proof.
  cbv zeta. split; [vm_compute; discriminate|].
  apply (same_length_fetch_not_displayed [w_bio 20] w_exam w_rnd). vm_compute. reflexivity.
Defined.

Lemma stale_fetch_dropped_witness :
  let s := run [w_bio 10; w_chem 10] w_exam w_rnd [EvTab 1] in
  list_find (fun q => reqId q = 6) (pending s) = Some (1, mkReq 6 (Some "Biology") 1 true) /\
  step [w_bio 10; w_chem 10] w_exam w_rnd s (EvFetch 6 (Some (w_bank 10))) =
    set_pending (delete 1 (pending s)) s.
Proof.
  cbv zeta. assert (Hf : list_find (fun q => reqId q = 6)
    (pending (run [w_bio 10; w_chem 10] w_exam w_rnd [EvTab 1])) =
    Some (1, mkReq 6 (Some "Biology") 1 true)) by (vm_compute; reflexivity).
  split; [exact Hf|].
  apply (stale_fetch_dropped [w_bio 10; w_chem 10] w_exam w_rnd [EvTab 1] 6 (Some (w_bank 10)) 1
    (mkReq 6 (Some "Biology") 1 true) Hf). vm_compute. discriminate.
Defined.
