(* ===== verification/PastStudyView.v ===== *)
(** * PastStudyView: what the session screen shows

    The render of [src/components/screens/PastStudy.tsx] (lines 273-510)
    as a function of the session state of [Session]: the header with the
    subject and the exam progress, the subject tabs, the exam card (one
    question with its options and the selected one) or the study cards
    (the page's questions with their revealed answers and corrections),
    and the pager.  The bookmark of the exam card reads the saved
    questions of [SavedQuestionsContext], which is not part of [src/]: it
    is a parameter [isSaved] here. *)

From S2P Require Import Prelude Json Questions Pagination Loader Scoring Corrections Shuffle Navigator Session.
Import QuestionModel Nav Session.

Module StudyView.

(** An option row of the exam card (lines 354-373). *)
Record OptionView := mkOptionView { ovLabel : string; ovText : string; ovSelected : bool }.

(** The exam card (lines 304-374). *)
Record ExamCard := mkExamCard {
  ecInstruction : option jval;     (* shown when truthy *)
  ecNumber : option nat;           (* "Question {n}", with the question, when it is truthy *)
  ecBookmarked : bool;
  ecQuestion : option jval;
  ecOptions : list OptionView
}.

(** A card of the study list (lines 378-451). *)
Record StudyCard := mkStudyCard {
  scInstruction : option jval;
  scNumber : option nat;
  scQuestion : option jval;
  scOptions : list (string * string);   (* label, text *)
  scAnswer : option jval;               (* "Answer: {q.answer}" when revealed and truthy *)
  scCorrection : option jval            (* the correction when revealed and truthy *)
}.

Inductive Body := ExamBody (card : option ExamCard) | StudyBody (cards : list StudyCard).

Record Screen := mkScreen {
  header : string;
  tabs : list (string * bool);
  body : Body;
  prevOff : bool;
  nextOff : bool;
  pageLabel : option (nat * nat)   (* "Page: {page}/{totalPages}" in study mode *)
}.

Section View.
Variable opts : list SubjectOption.
Variable mode : option string.
Variable isSaved : string -> bool.

Definition shown (o : option jval) : option jval := if jtruthy o then o else None.

(** The bookmark id [`${activeSubject}-${activeOpts?.year}-${n}`] (line 326). *)
Definition bookmarkId (s : St) : string :=
  default "undefined" (activeSubject opts s) +:+ "-" +:+
  default "undefined" (year <$> activeOptsOf opts s) +:+ "-" +:+
  js_nat_string ((page s - 1) * page_size + currentQuestionIndex s).

(** The header (lines 276-278): the subject, then the exam progress
    [(n/count)] when there are options for it. *)
Definition headerText (s : St) : string :=
  default "" (activeSubject opts s) +:+ " " +:+
  (if is_exam mode then
     match activeOptsOf opts s with
     | Some o => "(" +:+ js_nat_string ((page s - 1) * page_size + currentQuestionIndex s + 1) +:+ "/"
                 +:+ js_nat_string (count o) +:+ ")"
     | None => ""
     end
   else "").

Definition examCard (s : St) : option ExamCard :=
  let qs := oval (displayed s) in
  if (0 <? length qs) && (currentQuestionIndex s <? length qs) then
    match qs !! currentQuestionIndex s with
    | Some q =>
        Some (mkExamCard (shown (instruction q))
          (if jtruthy (question q) then Some ((page s - 1) * page_size + currentQuestionIndex s + 1) else None)
          (isSaved (bookmarkId s))
          (shown (question q))
          (imap (fun i o => mkOptionView (CorrectionsScreen.getOptionLabel i) o
                              (bool_decide (oval (selectedAnswers s) !! currentQuestionIndex s = Some o)))
                (default [] (options q))))
    | None => None
    end
  else None.

Definition studyCard (s : St) (idx : nat) (q : Question) : StudyCard :=
  mkStudyCard (shown (instruction q))
    (if jtruthy (question q) then Some ((page s - 1) * page_size + idx + 1) else None)
    (shown (question q))
    (imap (fun i o => (CorrectionsScreen.getOptionLabel i, o)) (default [] (options q)))
    (if default false (showAnswer s !! idx) then shown (answer q) else None)
    (if default false (showCorrection s !! idx) then shown (correction q) else None).

Definition screen (s : St) : Screen :=
  mkScreen (headerText s)
    (imap (fun i subj => (subj, i =? subjectIdx s)) (subjectsOf opts))
    (if is_exam mode then ExamBody (examCard s) else StudyBody (imap (studyCard s) (oval (questions s))))
    (prevDisabled mode (navState s))
    (nextDisabled mode (navView opts s) (navState s))
    (if is_exam mode then None else Some (page s, totalPages s)).

End View.

End StudyView.

(** ** The study view across a page move *)

Definition w_study : option string := Some "study".

(** The study session of twenty Biology questions: the first page is
    fetched, question 1's answer is revealed, then Next fetches page 2. *)
Definition w_reveal_events : list Event :=
  [EvFetch 6 (Some (w_bank 20)); EvToggleAnswer 0; EvNext; EvFetch 9 (Some (w_bank 20))].

(** Finding: revealing the answer of question 1 on page 1 and going
    to page 2 shows the answer of question 11, the first card of page 2,
    as revealed too; the screen's reveal flags are indexed by position
    on the page and survive the page move. *)
Theorem study_reveal_carries_over :
  let s := run [w_bio 20] w_study w_rnd w_reveal_events in
  page s = 2 /\
  match StudyView.body (StudyView.screen [w_bio 20] w_study (fun _ => false) s) with
  | StudyView.StudyBody (c :: _) => (StudyView.scNumber c, StudyView.scQuestion c, StudyView.scAnswer c)
  | _ => (None, None, None)
  end = (Some 11, Some (JStr "Q10"), Some (JStr "a")).
Proof. vm_compute. split; reflexivity. Qed.

(** The general statement of [Session] at the page move of this session. *)
Lemma reveals_survive_page_moves_witness :
  let s := run [w_bio 20] w_study w_rnd [EvFetch 6 (Some (w_bank 20)); EvToggleAnswer 0] in
  subjectIdx (handle [w_bio 20] w_study EvNext s) = subjectIdx s /\
  showAnswer (step [w_bio 20] w_study w_rnd s EvNext) = showAnswer (handle [w_bio 20] w_study EvNext s) /\
  showCorrection (step [w_bio 20] w_study w_rnd s EvNext) = showCorrection (handle [w_bio 20] w_study EvNext s).
Proof.
  cbv zeta. split; [vm_compute; reflexivity|].
  apply (reveals_survive_page_moves [w_bio 20] w_study w_rnd
           [EvFetch 6 (Some (w_bank 20)); EvToggleAnswer 0] EvNext).
  vm_compute. reflexivity.
Defined.
