(* ===== verification/Saved.v ===== *)
(** * Saved: bookmarks and the saved-questions screen

    The bookmark icon of the exam card ([src/components/screens/PastStudy.tsx],
    lines 323-343) saves or removes the current question in the saved
    questions store, and [src/app/mode/saved-questions.tsx] lists the
    store with the same View Answer / View Correction toggles as the study
    cards, and a Remove action behind a confirmation alert.

    The store ([SavedQuestionsContext]) is not part of [src/]: the
    specification names it an external collaborator.  [SavedStore] models
    the three operations the screens call as the natural list store: an
    item per saved question id, appended when saved, filtered out when
    removed. *)

From S2P Require Import Prelude Json Questions Navigator Corrections Session PastStudyView.
Import QuestionModel Session.

Module SavedStore.

(** A saved question: its id, subject, year, the question and the time
    it was saved. *)
Record SavedItem := mkSaved {
  sId : string;
  sSubject : option string;
  sYear : string;
  sQuestion : Question;
  sSavedAt : Z
}.

Definition isSaved (store : list SavedItem) (id : string) : bool :=
  existsb (fun it => bool_decide (sId it = id)) store.

Definition saveQuestion (q : Question) (subject : option string) (year id : string) (now : Z)
    (store : list SavedItem) : list SavedItem :=
  store ++ [mkSaved id subject year q now].

Definition removeQuestion (id : string) (store : list SavedItem) : list SavedItem :=
  filter (fun it => sId it <> id) store.

End SavedStore.

Module Bookmark.
Import SavedStore.

(** The bookmark press of the exam card (lines 324-337): the id is the
    subject, the year and the absolute position of the question; a saved
    id is removed, another is saved with the year or "Unknown Year". *)
Definition bookmarkPress (opts : list SubjectOption) (s : St) (now : Z)
    (store : list SavedItem) : list SavedItem :=
  match oval (displayed s) !! currentQuestionIndex s with
  | Some q =>
      let qId := StudyView.bookmarkId opts s in
      if isSaved store qId then removeQuestion qId store
      else saveQuestion q (activeSubject opts s)
             (match year <$> activeOptsOf opts s with
              | Some y => if bool_decide (y = "") then "Unknown Year" else y
              | None => "Unknown Year"
              end) qId now store
  | None => store
  end.

End Bookmark.

Module SavedScreen.
Import SavedStore.

(** The screen's state (lines 14-15), with the confirmation alert of
    [handleRemove] (lines 31-44) when it is open. *)
Record SvState := mkSv {
  showAnswer : gmap nat bool;
  showCorrection : gmap nat bool;
  alertFor : option string
}.

Definition initial : SvState := mkSv ∅ ∅ None.

(** [{ ...prev, [idx]: !prev[idx] }] (lines 46-52). *)
Definition flip (idx : nat) (m : gmap nat bool) : gmap nat bool :=
  <[idx := negb (default false (m !! idx))]> m.

Inductive SvEvent :=
| SvToggleAnswer (idx : nat)
| SvToggleCorrection (idx : nat)
| SvRemove (id : string)      (* the trash icon: opens the alert *)
| SvCancel                    (* "Cancel" *)
| SvConfirm.                  (* "Remove": [removeQuestion(id)] *)

Definition svstep (st : list SavedItem * SvState) (e : SvEvent) : list SavedItem * SvState :=
  let '(store, s) := st in
  match e with
  | SvToggleAnswer i => (store, mkSv (flip i (showAnswer s)) (showCorrection s) (alertFor s))
  | SvToggleCorrection i => (store, mkSv (showAnswer s) (flip i (showCorrection s)) (alertFor s))
  | SvRemove id => (store, mkSv (showAnswer s) (showCorrection s) (Some id))
  | SvCancel => (store, mkSv (showAnswer s) (showCorrection s) None)
  | SvConfirm =>
      match alertFor s with
      | Some id => (removeQuestion id store, mkSv (showAnswer s) (showCorrection s) None)
      | None => st
      end
  end.

Definition svrun (store : list SavedItem) (es : list SvEvent) : list SavedItem * SvState :=
  foldl svstep (store, initial) es.

(** A card (lines 86-189). *)
Record SavedCard := mkCard {
  cSubject : option string;
  cYear : string;
  cInstruction : option jval;
  cNumber : option nat;
  cQuestion : option jval;
  cOptions : list (string * string);
  cAnswer : option jval;
  cCorrection : option jval;
  cSavedAt : Z
}.

Definition cardOf (s : SvState) (idx : nat) (it : SavedItem) : SavedCard :=
  let q := sQuestion it in
  mkCard (sSubject it) (sYear it) (StudyView.shown (instruction q))
    (if jtruthy (question q) then Some (idx + 1) else None)
    (StudyView.shown (question q))
    (imap (fun i o => (CorrectionsScreen.getOptionLabel i, o)) (default [] (options q)))
    (if default false (showAnswer s !! idx) then StudyView.shown (answer q) else None)
    (if default false (showCorrection s !! idx) then StudyView.shown (correction q) else None)
    (sSavedAt it).

(** "{n} question(s) saved" (lines 72-74). *)
Definition countText (n : nat) : string :=
  js_nat_string n +:+ " " +:+ (if n =? 1 then "question" else "questions") +:+ " saved".

Inductive SvBody := SvEmpty | SvCards (cards : list SavedCard).

Definition svview (store : list SavedItem) (s : SvState) : string * SvBody :=
  (countText (length store),
   match store with
   | [] => SvEmpty
   | _ => SvCards (imap (cardOf s) store)
   end).

End SavedScreen.

Module SavedFacts.
Import SavedStore Bookmark SavedScreen.

Lemma isSaved_false_remove store id :
  isSaved store id = false -> removeQuestion id store = store.
Proof.
  unfold isSaved, removeQuestion. induction store as [|it store IH]; [done|].
  simpl. intros [Hit Hst]%orb_false_iff. rewrite filter_cons.
  apply bool_decide_eq_false in Hit. rewrite decide_True by done. by rewrite IH.
Qed.

Lemma isSaved_save q subj y id now store :
  isSaved (saveQuestion q subj y id now store) id = true.
Proof.
  unfold isSaved, saveQuestion. rewrite existsb_app. apply orb_true_iff. right.
  simpl. by rewrite bool_decide_true.
Qed.

Lemma isSaved_remove id store : isSaved (removeQuestion id store) id = false.
Proof.
  unfold isSaved, removeQuestion. induction store as [|it store IH]; [done|].
  rewrite filter_cons. case_decide; simpl; [|done]. rewrite IH, bool_decide_false; done.
Qed.

Lemma remove_save q subj y id now store :
  isSaved store id = false -> removeQuestion id (saveQuestion q subj y id now store) = store.
Proof.
  intros H. unfold saveQuestion, removeQuestion. rewrite filter_app.
  fold (removeQuestion id store). rewrite isSaved_false_remove by done.
  simpl. rewrite filter_cons. case_decide; [done|]. by rewrite app_nil_r.
Qed.

(** Removing the id of the [k]-th item of a store with distinct ids
    deletes that item and only it. *)
Lemma remove_at store k it :
  NoDup (map sId store) -> store !! k = Some it -> removeQuestion (sId it) store = delete k store.
Proof.
  unfold removeQuestion. revert k. induction store as [|x store IH]; intros k Hnd Hk; [done|].
  simpl in Hnd. apply NoDup_cons in Hnd as [Hx Hnd]. rewrite filter_cons.
  destruct k as [|k]; simpl in Hk.
  - injection Hk as ->. rewrite decide_False by tauto. simpl.
    apply filter_all. intros y Hy Hyx. apply Hx. rewrite <- Hyx. by apply list_elem_of_fmap_2.
  - rewrite decide_True; [simpl; f_equal; by apply IH|].
    intros E. apply Hx. rewrite E. apply list_elem_of_fmap_2. by eapply list_elem_of_lookup_2.
Qed.

(** the bookmark icon toggles: a press on a question that is not
    saved saves it under the icon's id, and a second press restores the
    store it started from. *)
Theorem bookmark_toggles opts s now store q :
  oval (displayed s) !! currentQuestionIndex s = Some q ->
  isSaved store (StudyView.bookmarkId opts s) = false ->
  isSaved (bookmarkPress opts s now store) (StudyView.bookmarkId opts s) = true /\
  bookmarkPress opts s now (bookmarkPress opts s now store) = store.
Proof.
  intros Hq Hs. unfold bookmarkPress. rewrite Hq, Hs. split; [apply isSaved_save|].
  rewrite isSaved_save. by apply remove_save.
Qed.

(** C30 (finding): the reveal flags of the saved-questions screen are
    keyed by the position in the list (lines 46-52, 163, 173): after the
    question at position [k] is removed, the question that moves up to
    position [k] shows its answer revealed, though its own View Answer
    was never pressed. *)
Theorem saved_reveal_shifts store s k it it' :
  NoDup (map sId store) -> store !! k = Some it -> store !! S k = Some it' ->
  showAnswer s !! k = Some true ->
  let st := svstep (svstep (store, s) (SvRemove (sId it))) SvConfirm in
  imap (cardOf st.2) st.1 !! k = Some (cardOf st.2 k it') /\
  cAnswer (cardOf st.2 k it') = StudyView.shown (answer (sQuestion it')).
Proof.
  intros Hnd Hk Hk' Hs. simpl. rewrite (remove_at store k it Hnd Hk).
  split.
  - rewrite list_lookup_imap, list_lookup_delete_ge by lia. by rewrite Hk'.
  - unfold cardOf. simpl. by rewrite Hs.
Qed.

End SavedFacts.

Module SavedWitnesses.
Import SavedStore Bookmark SavedScreen SavedFacts.

Definition w_item (id : string) (a : string) : SavedItem :=
  mkSaved id (Some "Biology") "2024" (mkQuestion None (Some (JStr "q")) (Some [a; "x"]) (Some (JStr a)) None) 0.

Definition w_store : list SavedItem := [w_item "Biology-2024-0" "a"; w_item "Biology-2024-1" "b"].

Lemma saved_reveal_shifts_witness :
  let s := (svrun w_store [SvToggleAnswer 0]).2 in
  let st := svstep (svstep (w_store, s) (SvRemove "Biology-2024-0")) SvConfirm in
  imap (cardOf st.2) st.1 !! 0 = Some (cardOf st.2 0 (w_item "Biology-2024-1" "b")) /\
  cAnswer (cardOf st.2 0 (w_item "Biology-2024-1" "b")) = Some (JStr "b").
Proof.
  cbv zeta.
  refine (saved_reveal_shifts w_store (svrun w_store [SvToggleAnswer 0]).2 0
            (w_item "Biology-2024-0" "a") (w_item "Biology-2024-1" "b") _ eq_refl eq_refl _);
    [|vm_compute; reflexivity].
  apply NoDup_cons_2; [|apply NoDup_singleton].
  rewrite list_elem_of_singleton. discriminate.
Defined.

Definition w_question0 : Question := mkQuestion None (Some (JStr "Q0")) (Some ["a"; "b"]) (Some (JStr "a")) None.

Definition w_exam_state : St := run [w_bio 10] w_exam w_rnd [EvFetch 6 (Some (w_bank 10))].

Lemma bookmark_toggles_witness :
  oval (displayed w_exam_state) !! currentQuestionIndex w_exam_state = Some (w_question0) /\
  isSaved [] (StudyView.bookmarkId [w_bio 10] w_exam_state) = false /\
  isSaved (bookmarkPress [w_bio 10] w_exam_state 0 []) "Biology-2024-0" = true.
Proof.
  destruct (bookmark_toggles [w_bio 10] w_exam_state 0 [] (w_question0)) as [H _];
    [vm_compute; reflexivity|vm_compute; reflexivity|].
  split_and!; [vm_compute; reflexivity|vm_compute; reflexivity|exact H].
Defined.

End SavedWitnesses.
