(* ===== verification/Timer.v ===== *)
(** * Timer: duration parsing, [formatTime] and the countdown of past-study.tsx

    [Duration] models the parser of the timer effect (past-study.tsx
    lines 39-62): [String.prototype.includes] and the three regular
    expressions [/(\d+)\s*hour/], [/(\d+)\s*hr/], [/(\d+)\s*mins/], whose
    leftmost match is found by trying each suffix in turn.  [Clock] models
    [formatTime] (lines 88-97).  [Countdown] models the countdown effect
    (lines 64-80) and the submission prompt of [handleSubmit] (lines
    133-152) as a step relation over the remaining time, the answers of
    the current render and the answers captured by the running
    interval's closure.  The timer options of exam-instructions.tsx
    (lines 25-33) and its default [selectedTime] (line 39) are the
    strings the parser receives. *)

From S2P Require Import Prelude.
From Stdlib Require Import Ascii.

Module Duration.

(** [\d]: an ASCII digit. *)
Definition is_digit (c : ascii) : bool :=
  (48 <=? nat_of_ascii c) && (nat_of_ascii c <=? 57).

(** [\s] on ASCII input: tab, line feed, vertical tab, form feed,
    carriage return and space. *)
Definition is_space (c : ascii) : bool :=
  let n := nat_of_ascii c in
  ((9 <=? n) && (n <=? 13)) || (n =? 32).

(** The maximal run of digits at the start of a string, and the rest
    (a greedy [\d+] never profits from backtracking here, since the
    character after the run is not a digit). *)
Fixpoint span_digits (s : string) : string * string :=
  match s with
  | String c s' =>
      if is_digit c then let '(d, r) := span_digits s' in (String c d, r)
      else (EmptyString, s)
  | EmptyString => (EmptyString, EmptyString)
  end.

(** A greedy [\s*]. *)
Fixpoint skip_spaces (s : string) : string :=
  match s with
  | String c s' => if is_space c then skip_spaces s' else s
  | EmptyString => EmptyString
  end.

(** [/(\d+)\s*w/] anchored at the start of [s]: the captured digits. *)
Definition match_at (w s : string) : option string :=
  let '(d, r) := span_digits s in
  match d with
  | EmptyString => None
  | _ => if String.prefix w (skip_spaces r) then Some d else None
  end.

(** [s.match(/(\d+)\s*w/)?.[1]]: the capture of the leftmost match. *)
Fixpoint regex_search (w s : string) : option string :=
  match match_at w s with
  | Some d => Some d
  | None => match s with
            | String _ s' => regex_search w s'
            | EmptyString => None
            end
  end.

(** [s.includes(w)]. *)
Fixpoint includes (w s : string) : bool :=
  String.prefix w s ||
  match s with
  | String _ s' => includes w s'
  | EmptyString => false
  end.

(** [parseInt(m[1])] on a capture of [\d+]. *)
Definition parseInt_digits (d : string) : nat := default 0 (parse_nat_string d).

(** [if (m) seconds += parseInt(m[1]) * k]. *)
Definition add_match (w : string) (k : nat) (duration : string) (seconds : nat) : nat :=
  match regex_search w duration with
  | Some d => seconds + parseInt_digits d * k
  | None => seconds
  end.

(** The duration parser of the timer effect (lines 44-58). *)
Definition parseDuration (duration : string) : nat :=
  if includes "hour" duration then
    add_match "mins" 60 duration (add_match "hour" 3600 duration 0)
  else if includes "hr" duration then
    add_match "mins" 60 duration (add_match "hr" 3600 duration 0)
  else add_match "mins" 60 duration 0.

(** The guard of the timer effect: [params.mode === "exam" &&
    params.timerEnabled === "true" && params.duration]; [None] leaves
    [timeRemaining] at [null]. *)
Definition initTimer (mode timerEnabled duration : option string) : option nat :=
  match duration with
  | Some d =>
      if bool_decide (mode = Some "exam") && bool_decide (timerEnabled = Some "true")
         && truthy_str duration
      then Some (parseDuration d) else None
  | None => None
  end.

(** [TIME_OPTIONS] of exam-instructions.tsx: ["5 mins"] to ["55 mins"]
    and the hour options. *)
Definition TIME_OPTIONS : list string :=
  map (fun i => js_nat_string ((i + 1) * 5) +:+ " mins") (seq 0 11) ++
  ["1 hour"; "1 hr 15 mins"; "1 hr 20 mins"; "1 hr 30 mins"; "1 hr 45 mins"; "2 hours"].

(** [useState("30m")]: the duration sent when the user enables the
    timer without opening the duration picker. *)
Definition defaultSelectedTime : string := "30m".

End Duration.

Module Clock.

(** [str.padStart(2, '0')]. *)
Definition padStart2 (s : string) : string :=
  String.append (String.concat "" (repeat "0" (2 - String.length s))) s.

(** [formatTime(seconds)]. *)
Definition formatTime (seconds : nat) : string :=
  let hrs := seconds / 3600 in
  let mins := (seconds mod 3600) / 60 in
  let secs := seconds mod 60 in
  if 0 <? hrs
  then js_nat_string hrs +:+ ":" +:+ padStart2 (js_nat_string mins) +:+ ":"
         +:+ padStart2 (js_nat_string secs)
  else js_nat_string mins +:+ ":" +:+ padStart2 (js_nat_string secs).

End Clock.

Module Countdown.

Section Countdown.
(** What [handleSubmit] reads from the render it was created in: the
    answers and the questions seen. *)
Variable Snapshot : Type.

(** [submitted] lists the confirmed submissions, newest first:
    [router.push] keeps the exam screen mounted under the results
    screen, so neither the interval nor the screen stops there. *)
Record TState := mkT {
  timeRemaining : option nat;
  current : Snapshot;        (** the state of the latest render *)
  captured : Snapshot;       (** what the running interval's [handleSubmit] sees *)
  prompt : option Snapshot;  (** the confirmation alert, with its payload *)
  submitted : list Snapshot
}.

(** The countdown effect keeps an interval only while
    [timeRemaining !== null && timeRemaining > 0]. *)
Definition running (s : TState) : bool :=
  match timeRemaining s with Some t => 0 <? t | None => false end.

(** One tick of [setInterval] (lines 67-76).  When [prev <= 1] the
    interval is cleared and the captured [handleSubmit] opens the
    prompt; otherwise the time drops by one and, [timeRemaining]
    having changed, the effect re-runs and captures the latest
    render. *)
Definition tick (s : TState) : option TState :=
  match timeRemaining s with
  | Some t =>
      if 0 <? t then
        if t <=? 1
        then Some (mkT (Some 0) (current s) (captured s) (Some (captured s)) (submitted s))
        else Some (mkT (Some (t - 1)) (current s) (current s) (prompt s) (submitted s))
      else None
  | None => None
  end.

(** A re-render with new answers or questions: [timeRemaining] is
    unchanged, so the effect does not re-run. *)
Definition update (a : Snapshot) (s : TState) : TState :=
  mkT (timeRemaining s) a (captured s) (prompt s) (submitted s).

(** The Submit button calls the current render's [handleSubmit]. *)
Definition manualSubmit (s : TState) : TState :=
  mkT (timeRemaining s) (current s) (captured s) (Some (current s)) (submitted s).

(** The alert's "Cancel" and "Submit" buttons. *)
Definition cancel (s : TState) : TState :=
  mkT (timeRemaining s) (current s) (captured s) None (submitted s).

Definition confirm (s : TState) : option TState :=
  match prompt s with
  | Some p => Some (mkT (timeRemaining s) (current s) (captured s) None (p :: submitted s))
  | None => None
  end.

Inductive tstep : TState -> TState -> Prop :=
  | step_tick s s' : tick s = Some s' -> tstep s s'
  | step_update s a : tstep s (update a s)
  | step_submit s : tstep s (manualSubmit s)
  | step_cancel s : is_Some (prompt s) -> tstep s (cancel s)
  | step_confirm s s' : confirm s = Some s' -> tstep s s'.

(** The state when the screen opens with [timeRemaining] set. *)
Definition start (t : option nat) (a : Snapshot) : TState := mkT t a a None [].

(** The interval firing [k] times in a row, nothing else happening:
    [None] once a tick finds no running interval. *)
Fixpoint ticks (k : nat) (s : TState) : option TState :=
  match k with
  | O => Some s
  | S k' => ticks k' s ≫= tick
  end.
End Countdown.

Arguments mkT {Snapshot}.

End Countdown.

(** ** The instructions screen, exam-instructions.tsx *)

Module Instructions.
Import Duration.

(** [INSTRUCTIONS] (lines 19-23). *)
Definition INSTRUCTIONS : list string :=
  ["Study questions without a time limit.";
   "Attempt questions and check the correct answers as you study.";
   "Take notes and share with friends for better success."].

(** The parameters [handleStart] passes to past-study (lines 42-52):
    [options] and [mode] are forwarded unchanged. *)
Record StartParams (A : Type) := mkParams {
  spOptions : A;
  spMode : option string;
  spTimerEnabled : string;
  spDuration : string
}.
Arguments mkParams {A}.
Arguments spTimerEnabled {A}.
Arguments spDuration {A}.

Section Screen.
Context {A : Type} (options : A) (mode : option string).

(** Lines 38-40, and the route pushed by the last press of Start. *)
Record IState := mkI {
  timerEnabled : bool;
  selectedTime : string;
  modalVisible : bool;
  pushed : option (StartParams A)
}.

Definition initial : IState := mkI false defaultSelectedTime false None.

(** A press on a control that is on screen: the switch, the duration
    row (shown while the timer is enabled), Start, and the picker's items
    and Cancel while it is open. *)
Inductive IEvent :=
| ISwitch (b : bool)     (* onValueChange of the switch, line 91 *)
| IOpenDuration          (* line 99 *)
| IPick (item : string)  (* lines 128-131 *)
| ICancel                (* lines 118 and 139 *)
| IStart.                (* line 109 *)

Definition handleStart (s : IState) : StartParams A :=
  mkParams options mode (if timerEnabled s then "true" else "false") (selectedTime s).

Definition istep (s : IState) (e : IEvent) : IState :=
  match e with
  | ISwitch b => if modalVisible s then s else mkI b (selectedTime s) false (pushed s)
  | IOpenDuration => if timerEnabled s && negb (modalVisible s) then mkI true (selectedTime s) true (pushed s) else s
  | IPick item =>
      if modalVisible s && bool_decide (item ∈ TIME_OPTIONS)
      then mkI (timerEnabled s) item false (pushed s) else s
  | ICancel => if modalVisible s then mkI (timerEnabled s) (selectedTime s) false (pushed s) else s
  | IStart => if modalVisible s then s else mkI (timerEnabled s) (selectedTime s) false (Some (handleStart s))
  end.

Definition irun (es : list IEvent) : IState := foldl istep initial es.

(** The footer (lines 85-112): the duration row's text when shown. *)
Definition durationRow (s : IState) : option string :=
  if timerEnabled s then Some ("Duration: " +:+ selectedTime s) else None.

(** The screen (lines 54-146): the numbered instructions, the switch's
    thumb colour, the duration row, the Start button and, while open,
    the duration picker's items. *)
Record IView := mkIView {
  ivTitle : string;
  ivItems : list (string * string);
  ivThumb : string;
  ivDuration : option string;
  ivStart : string;
  ivPicker : option (list string)
}.

Definition instructionsView (s : IState) : IView :=
  mkIView "Instructions"
    (imap (fun i t => (js_nat_string (S i) +:+ ".", t)) INSTRUCTIONS)
    (if timerEnabled s then "#2E7D32" else "#f4f3f4")
    (durationRow s) "Start CBT Test"
    (if modalVisible s then Some TIME_OPTIONS else None).

End Screen.
End Instructions.

(** ** Properties of the countdown *)

Section CountdownFacts.
Import Countdown.
Context {Snapshot : Type}.
Implicit Types (s : TState Snapshot) (a : Snapshot).

(** The time of a state as a number, [null] above every count. *)
Definition time_le (o o' : option nat) : Prop :=
  match o, o' with
  | Some t, Some t' => t <= t'
  | None, None => True
  | Some _, None => False
  | None, Some _ => False
  end.

Lemma tick_time s s' :
  tick Snapshot s = Some s' ->
  exists t, timeRemaining Snapshot s = Some t /\ 0 < t /\
    timeRemaining Snapshot s' = Some (t - 1).
Proof.
  unfold tick. destruct (timeRemaining _ s) as [t|]; [|done].
  destruct (Nat.ltb_spec 0 t) as [Ht|]; [|done].
  destruct (Nat.leb_spec t 1); intros [= <-]; exists t; simpl;
    (split; [done|split; [done|f_equal; lia]]).
Qed.

(** no step ever increases the remaining time, and [null] stays
    [null]: the countdown only counts down. *)
Theorem tstep_time_nonincreasing s s' :
  tstep Snapshot s s' -> time_le (timeRemaining Snapshot s') (timeRemaining Snapshot s).
Proof.
  intros H. destruct H as [s s' Ht| | | |s s' Hc].
  - destruct (tick_time s s' Ht) as (t & -> & _ & ->). simpl. lia.
  - unfold update; simpl. destruct (timeRemaining _ s); simpl; lia.
  - unfold manualSubmit; simpl. destruct (timeRemaining _ s); simpl; lia.
  - unfold cancel; simpl. destruct (timeRemaining _ s); simpl; lia.
  - unfold confirm in Hc. destruct (prompt _ s); [|done]. injection Hc as <-.
    destruct (timeRemaining _ s); simpl; lia.
Qed.

Lemma zero_step s s' :
  timeRemaining Snapshot s = Some 0 -> tstep Snapshot s s' -> timeRemaining Snapshot s' = Some 0.
Proof.
  intros H0 H. pose proof (tstep_time_nonincreasing s s' H) as Hle. rewrite H0 in Hle.
  destruct (timeRemaining _ s') as [t|]; simpl in Hle; [f_equal; lia|done].
Qed.

Lemma tick_zero s : timeRemaining Snapshot s = Some 0 -> tick Snapshot s = None.
Proof. unfold tick. by intros ->. Qed.

Lemma zero_stays s s' :
  timeRemaining Snapshot s = Some 0 -> star (tstep Snapshot) s s' ->
  timeRemaining Snapshot s' = Some 0 /\ tick Snapshot s' = None.
Proof.
  intros H0 Hs.
  assert (timeRemaining Snapshot s' = Some 0) as H'.
  { eapply (star_invariant _ (fun x => timeRemaining Snapshot x = Some 0)); [|done|done].
    intros x y. apply zero_step. }
  split; [done|]. by apply tick_zero.
Qed.

(** once the time has reached zero no tick can ever happen again:
    the expiry submission fires at most once, and a timer that starts
    at zero never fires. *)
Theorem expired_no_tick s s' :
  timeRemaining Snapshot s = Some 0 -> star (tstep Snapshot) s s' ->
  timeRemaining Snapshot s' = Some 0 /\ tick Snapshot s' = None.
Proof. apply zero_stays. Qed.

Lemma ticks_start t a k :
  k < t -> ticks Snapshot k (start Snapshot (Some t) a) = Some (mkT (Some (t - k)) a a None []).
Proof.
  induction k as [|k IH]; intros Hk; simpl; [by rewrite Nat.sub_0_r|].
  rewrite IH by lia. simpl. unfold tick; simpl. case_nat; simpl; try lia.
  do 3 f_equal. lia.
Qed.

(** C6 (liveness): a timer started at [t > 0] seconds, left alone, is
    still running with [t - k] seconds and no prompt after each of the
    first [k < t] ticks, opens the submission prompt, with the answers of
    the session, exactly at the [t]-th tick, and then stops: a further
    tick finds no interval. *)
Theorem countdown_expires t a :
  0 < t ->
  (forall k, k < t -> ticks Snapshot k (start Snapshot (Some t) a) = Some (mkT (Some (t - k)) a a None [])) /\
  ticks Snapshot t (start Snapshot (Some t) a) = Some (mkT (Some 0) a a (Some a) []) /\
  ticks Snapshot (S t) (start Snapshot (Some t) a) = None.
Proof.
  intros Ht. assert (Hlast : ticks Snapshot t (start Snapshot (Some t) a) = Some (mkT (Some 0) a a (Some a) [])).
  { destruct t as [|t]; [lia|]. simpl. rewrite ticks_start by lia. simpl. unfold tick; simpl.
    replace (S t - t) with 1 by lia. done. }
  split_and!; [intros k Hk; by apply ticks_start|exact Hlast|]. simpl. by rewrite Hlast.
Qed.

(** C21 (finding): the interval's [handleSubmit] is the one of the render
    in which the time last changed, so answers given during the last
    second are not in the payload the expiry submits. *)
Theorem expiry_payload_stale s a :
  timeRemaining Snapshot s = Some 1 ->
  exists s', tick Snapshot (update Snapshot a s) = Some s' /\
    prompt Snapshot s' = Some (captured Snapshot s) /\ current Snapshot s' = a.
Proof.
  intros H1. unfold tick, update; simpl. rewrite H1. simpl.
  eexists; split; [reflexivity|]. done.
Qed.

(** Divergence from the spec, which calls the expiry submission
    forced and non-cancelable: the expiry prompt has a Cancel button,
    after which the exam goes on with no running timer and no pending
    submission. *)
Theorem expiry_cancelable s :
  timeRemaining Snapshot s = Some 0 -> is_Some (prompt Snapshot s) ->
  tstep Snapshot s (cancel Snapshot s) /\
  prompt Snapshot (cancel Snapshot s) = None /\
  submitted Snapshot (cancel Snapshot s) = submitted Snapshot s /\
  running Snapshot (cancel Snapshot s) = false.
Proof.
  intros H0 Hp. split; [by constructor|]. unfold cancel, running; simpl.
  by rewrite H0.
Qed.
End CountdownFacts.

(** ** Properties of the duration parser *)

Section DurationFacts.
Import Duration.

Fixpoint all_digits (s : string) : bool :=
  match s with
  | String c s' => is_digit c && all_digits s'
  | EmptyString => true
  end.

(** Strings that do not start with a digit. *)
Definition no_lead_digit (s : string) : bool :=
  match s with String c _ => negb (is_digit c) | EmptyString => true end.

Lemma all_digits_string_of_uint (d : Decimal.uint) :
  all_digits (DecimalString.NilEmpty.string_of_uint d) = true.
Proof. induction d; simpl; auto. Qed.

Lemma js_nat_string_digits (n : nat) :
  all_digits (js_nat_string n) = true /\ js_nat_string n <> EmptyString.
Proof.
  split; [apply all_digits_string_of_uint|]. intros Hn.
  pose proof (parse_js_nat_string n) as Hp. rewrite Hn in Hp.
  unfold parse_nat_string in Hp. simpl in Hp. injection Hp as <-.
  unfold js_nat_string in Hn. simpl in Hn. discriminate.
Qed.

Lemma span_digits_app (d r : string) :
  all_digits d = true -> no_lead_digit r = true -> span_digits (d +:+ r) = (d, r).
Proof.
  induction d as [|c d IH]; simpl.
  - intros _. destruct r as [|c r]; simpl; [done|]. by intros ->%negb_true_iff.
  - intros [Hc Hd]%andb_true_iff Hr. rewrite Hc, IH by done. done.
Qed.

Lemma regex_search_eq (w s : string) :
  regex_search w s =
  match match_at w s with
  | Some d => Some d
  | None => match s with String _ s' => regex_search w s' | EmptyString => None end
  end.
Proof. by destruct s. Qed.

(** Every start position inside a run of digits fails when the text
    after the run cannot continue the pattern. *)
Lemma regex_search_skip_digits (w d r : string) :
  all_digits d = true -> no_lead_digit r = true ->
  String.prefix w (skip_spaces r) = false ->
  regex_search w (d +:+ r) = regex_search w r.
Proof.
  intros Hd Hr Hw. induction d as [|c d IH]; [done|].
  simpl in Hd. apply andb_true_iff in Hd as [Hc Hd].
  rewrite regex_search_eq. unfold match_at.
  rewrite (span_digits_app (String c d) r) by (simpl; rewrite ?Hc, ?Hd; done).
  rewrite Hw. by apply IH.
Qed.

Lemma regex_search_here (w d r : string) :
  all_digits d = true -> d <> EmptyString -> no_lead_digit r = true ->
  String.prefix w (skip_spaces r) = true -> regex_search w (d +:+ r) = Some d.
Proof.
  intros Hd Hne Hr Hw. rewrite regex_search_eq. unfold match_at.
  rewrite span_digits_app, Hw by done. by destruct d.
Qed.

(** [includes w] skips a run of digits when [w] starts with a letter. *)
Lemma includes_skip_digits (w d r : string) :
  all_digits d = true -> no_lead_digit w = true -> w <> EmptyString ->
  includes w (d +:+ r) = includes w r.
Proof.
  intros Hd Hw Hne. induction d as [|c d IH]; [done|].
  simpl in Hd. apply andb_true_iff in Hd as [Hc Hd].
  destruct w as [|x w]; [done|]. simpl in Hw |- *.
  destruct (Ascii.ascii_dec x c) as [->|]; [rewrite Hc in Hw; done|].
  simpl. by apply IH.
Qed.

Lemma parseInt_js_nat_string (n : nat) : parseInt_digits (js_nat_string n) = n.
Proof. unfold parseInt_digits. by rewrite parse_js_nat_string. Qed.

(** every ["<n> mins"] string, as the picker builds it, parses to
    [n * 60] seconds. *)
Theorem parseDuration_mins (n : nat) :
  parseDuration (js_nat_string n +:+ " mins") = n * 60.
Proof.
  destruct (js_nat_string_digits n) as [Hd Hne].
  unfold parseDuration.
  rewrite !includes_skip_digits by done. simpl.
  unfold add_match. rewrite regex_search_here by done.
  by rewrite parseInt_js_nat_string.
Qed.

(** every ["<h> hr <m> mins"] string parses to [h] hours and [m]
    minutes, in seconds. *)
Theorem parseDuration_hr_mins (h m : nat) :
  parseDuration (js_nat_string h +:+ " hr " +:+ js_nat_string m +:+ " mins")
  = h * 3600 + m * 60.
Proof.
  destruct (js_nat_string_digits h) as [Hh Hhne].
  destruct (js_nat_string_digits m) as [Hm Hmne].
  assert (H1 : includes "hour" (js_nat_string h +:+ " hr " +:+ js_nat_string m +:+ " mins") = false).
  { rewrite includes_skip_digits by done.
    change (includes "hour" (js_nat_string m +:+ " mins") = false).
    by rewrite includes_skip_digits. }
  assert (H2 : includes "hr" (js_nat_string h +:+ " hr " +:+ js_nat_string m +:+ " mins") = true).
  { by rewrite includes_skip_digits. }
  assert (H3 : regex_search "mins" (js_nat_string h +:+ " hr " +:+ js_nat_string m +:+ " mins")
               = Some (js_nat_string m)).
  { rewrite regex_search_skip_digits by done.
    change (regex_search "mins" (js_nat_string m +:+ " mins") = Some (js_nat_string m)).
    by rewrite regex_search_here. }
  unfold parseDuration. rewrite H1, H2. unfold add_match.
  rewrite H3, (regex_search_here "hr") by done.
  rewrite !parseInt_js_nat_string. lia.
Qed.

(** ["<h> hour"] and ["<h> hours"] parse to [h] hours. *)
Theorem parseDuration_hours (h : nat) (suffix : string) :
  suffix = " hour" \/ suffix = " hours" ->
  parseDuration (js_nat_string h +:+ suffix) = h * 3600.
Proof.
  destruct (js_nat_string_digits h) as [Hh Hhne].
  intros Hs. unfold parseDuration, add_match.
  destruct Hs as [->| ->];
    (rewrite includes_skip_digits by done;
     rewrite (regex_search_skip_digits "mins") by done;
     rewrite (regex_search_here "hour") by done;
     rewrite parseInt_js_nat_string; reflexivity).
Qed.
End DurationFacts.

(** ** The timer options and the default duration *)

(** every option of the duration picker parses to the duration it
    names: 5 to 55 minutes, 1 hour, 1 h 15, 1 h 20, 1 h 30, 1 h 45 and
    2 hours. *)
Theorem time_options_parse :
  map Duration.parseDuration Duration.TIME_OPTIONS =
  [300; 600; 900; 1200; 1500; 1800; 2100; 2400; 2700; 3000; 3300;
   3600; 4500; 4800; 5400; 6300; 7200].
Proof. vm_compute. reflexivity. Qed.

(** Finding: enabling the timer without opening the picker sends the
    initial [selectedTime] "30m", which no pattern matches: the timer
    starts at 0 seconds, never runs, and the expiry submission can never
    happen, whatever the user does. *)
Theorem default_duration_never_expires {Snapshot : Type} (a : Snapshot) (s' : Countdown.TState Snapshot) :
  Duration.initTimer (Some "exam") (Some "true") (Some Duration.defaultSelectedTime) = Some 0 /\
  (star (Countdown.tstep Snapshot) (Countdown.start Snapshot (Some 0) a) s' ->
   Countdown.running Snapshot s' = false /\ Countdown.tick Snapshot s' = None).
Proof.
  split; [vm_compute; reflexivity|]. intros Hs.
  destruct (zero_stays (Countdown.start Snapshot (Some 0) a) s' eq_refl Hs) as [H0 Ht].
  unfold Countdown.running. by rewrite H0.
Qed.

(** ** The instructions screen and the timer it starts *)

Section InstructionsFacts.
Import Duration Instructions.
Context {A : Type} (options : A) (mode : option string).

Definition durations : list string := defaultSelectedTime :: TIME_OPTIONS.

Definition iinv (s : @IState A) : Prop :=
  selectedTime s ∈ durations /\
  forall p, pushed s = Some p ->
    spDuration p ∈ durations /\ (spTimerEnabled p = "true" \/ spTimerEnabled p = "false").

Lemma istep_inv s e : iinv s -> iinv (istep options mode s e).
Proof.
  intros Hs. pose proof Hs as [Hd Hp]. destruct e; simpl.
  - destruct (modalVisible s); [done|]. split; [done|exact Hp].
  - destruct (_ && _); [|done]. split; [done|exact Hp].
  - destruct (modalVisible s); simpl; [|done]. case_bool_decide; [|done].
    split; [by right|exact Hp].
  - destruct (modalVisible s); [|done]. split; [done|exact Hp].
  - destruct (modalVisible s); [done|]. split; [done|]. intros p [= <-]. simpl.
    split; [done|]. destruct (timerEnabled s); auto.
Qed.

Lemma irun_inv es : iinv (irun options mode es).
Proof.
  unfold irun. assert (H0 : iinv (@initial A)) by (split; [left|done]).
  revert H0. generalize (@initial A). induction es as [|e es IH]; intros s Hs; simpl; [done|].
  by apply IH, istep_inv.
Qed.

Lemma time_options_positive : Forall (fun d => 0 < parseDuration d) TIME_OPTIONS.
Proof.
  apply Forall_forall. intros d Hd%list_elem_of_In. apply Nat.ltb_lt.
  revert d Hd. apply forallb_forall. vm_compute. reflexivity.
Qed.

Lemma default_not_option : defaultSelectedTime ∉ TIME_OPTIONS.
Proof. vm_compute. intros H. repeat (apply elem_of_cons in H as [H|H]; [discriminate|]). by apply elem_of_nil in H. Qed.

(** the countdown of the session starts with a positive time exactly
    when the user switched the timer on and picked a duration in the
    picker; a timer switched on without a pick starts at 0. *)
Theorem instructions_timer_starts es p :
  pushed (irun options mode es) = Some p ->
  (exists t, initTimer (Some "exam") (Some (spTimerEnabled p)) (Some (spDuration p)) = Some t /\ 0 < t) <->
  spTimerEnabled p = "true" /\ spDuration p <> defaultSelectedTime.
Proof.
  intros Hp. destruct (proj2 (irun_inv es) p Hp) as [Hd Hte].
  unfold initTimer. rewrite bool_decide_true by done.
  apply elem_of_cons in Hd as [Hd|Hd].
  - rewrite Hd. split; [|tauto]. intros (t & Ht & Ht0). revert Ht.
    case_match; [|done]. vm_compute. intros [= <-]. lia.
  - pose proof (proj1 (Forall_forall _ _) time_options_positive _ Hd) as Hpos.
    assert (Hne : spDuration p <> defaultSelectedTime) by (intros E; apply default_not_option; by rewrite <- E).
    assert (Hs : spDuration p <> "").
    { intros E. rewrite E in Hd. vm_compute in Hd.
      repeat (apply elem_of_cons in Hd as [Hd|Hd]; [discriminate|]). by apply elem_of_nil in Hd. }
    destruct Hte as [-> | ->]; simpl.
    + rewrite bool_decide_true by done. split; [intros _; by split|]. intros _. eauto.
    + split; [intros (t & [=] & _)|intros [[=] _]].
Qed.

(** Finding: the screen before a CBT test, with the timer switched on,
    lists "Study questions without a time limit." first and shows the
    duration row "Duration: 30m", a duration the countdown reads as 0
    ([default_duration_never_expires]). *)
Theorem switched_timer_view :
  let v := instructionsView (irun options mode [ISwitch true]) in
  head (ivItems v) = Some ("1.", "Study questions without a time limit.") /\
  ivDuration v = Some ("Duration: " +:+ defaultSelectedTime) /\ ivPicker v = None /\
  initTimer (Some "exam") (Some "true") (Some defaultSelectedTime) = Some 0.
Proof. vm_compute. split_and!; reflexivity. Qed.

End InstructionsFacts.

(** ** Witnesses *)

Lemma countdown_expires_witness :
  0 < 3 /\
  Countdown.ticks nat 3 (Countdown.start nat (Some 3) 7) = Some (Countdown.mkT (Some 0) 7 7 (Some 7) []).
Proof. split; [lia|]. apply (countdown_expires 3 7). lia. Defined.

Lemma expired_no_tick_witness :
  Countdown.timeRemaining nat (Countdown.start nat (Some 0) 7) = Some 0 /\
  star (Countdown.tstep nat) (Countdown.start nat (Some 0) 7)
    (Countdown.update nat 8 (Countdown.start nat (Some 0) 7)) /\
  Countdown.tick nat (Countdown.update nat 8 (Countdown.start nat (Some 0) 7)) = None.
Proof.
  assert (Hs : star (Countdown.tstep nat) (Countdown.start nat (Some 0) 7)
                 (Countdown.update nat 8 (Countdown.start nat (Some 0) 7))).
  { apply star_one. apply Countdown.step_update. }
  split; [reflexivity|]. split; [done|].
  apply (proj2 (expired_no_tick (Countdown.start nat (Some 0) 7) _ eq_refl Hs)).
Defined.

Lemma tstep_time_nonincreasing_witness :
  Countdown.tstep nat (Countdown.start nat (Some 5) 1) (Countdown.mkT (Some 4) 1 1 None []) /\
  time_le (Some 4) (Some 5).
Proof.
  assert (H : Countdown.tstep nat (Countdown.start nat (Some 5) 1) (Countdown.mkT (Some 4) 1 1 None [])).
  { apply Countdown.step_tick. reflexivity. }
  split; [done|]. apply (tstep_time_nonincreasing _ _ H).
Defined.

Lemma expiry_payload_stale_witness :
  Countdown.timeRemaining nat (Countdown.mkT (Some 1) 1 1 None []) = Some 1 /\
  exists s', Countdown.tick nat (Countdown.update nat 2 (Countdown.mkT (Some 1) 1 1 None [])) = Some s' /\
    Countdown.prompt nat s' = Some 1 /\ Countdown.current nat s' = 2.
Proof. split; [reflexivity|]. apply (expiry_payload_stale (Countdown.mkT (Some 1) 1 1 None [])). reflexivity. Defined.

Lemma expiry_cancelable_witness :
  Countdown.timeRemaining nat (Countdown.mkT (Some 0) 2 1 (Some 1) []) = Some 0 /\
  Countdown.running nat (Countdown.cancel nat (Countdown.mkT (Some 0) 2 1 (Some 1) [])) = false.
Proof.
  split; [reflexivity|].
  apply (expiry_cancelable (Countdown.mkT (Some 0) 2 1 (Some 1) [])); [reflexivity|eexists; reflexivity].
Defined.

Lemma parseDuration_hours_witness :
  Duration.parseDuration (js_nat_string 2 +:+ " hours") = 2 * 3600.
Proof. apply parseDuration_hours. by right. Defined.

Lemma instructions_timer_starts_witness :
  let es := [Instructions.ISwitch true; Instructions.IOpenDuration; Instructions.IPick "1 hr 30 mins";
             Instructions.IStart] in
  Instructions.pushed (Instructions.irun tt (Some "exam") es) =
    Some (Instructions.mkParams tt (Some "exam") "true" "1 hr 30 mins") /\
  ((exists t, Duration.initTimer (Some "exam") (Some "true") (Some "1 hr 30 mins") = Some t /\ 0 < t) <->
   "true" = "true" /\ "1 hr 30 mins" <> Duration.defaultSelectedTime).
Proof.
  cbv zeta. assert (H : Instructions.pushed (Instructions.irun tt (Some "exam")
    [Instructions.ISwitch true; Instructions.IOpenDuration; Instructions.IPick "1 hr 30 mins";
     Instructions.IStart]) = Some (Instructions.mkParams tt (Some "exam") "true" "1 hr 30 mins"))
    by (vm_compute; reflexivity).
  split; [exact H|]. exact (instructions_timer_starts tt (Some "exam") _ _ H).
Defined.
