(* ===== verification/Account.v ===== *)
(** * Account: the session status bar (SessionStatus.tsx)

    [src/components/auth/SessionStatus.tsx] shows the authentication
    status, a masked credential, the time since the last activity and
    the time left before the session expires, and a Logout button whose
    confirmation modal calls [logout] once and returns to the login
    screen.  The authentication state comes from [AuthContext], which is
    not part of [src/]: it enters the model as the value [AuthView] each
    render reads.  Times are integers of milliseconds ([Date.now()]). *)

From S2P Require Import Prelude Json Timer.
From Stdlib Require Import Ascii.

Module SessionStatus.

(** ** The helpers (lines 20-52) *)

(** [s.split(sep)] for a one-character separator. *)
Fixpoint js_split (c : ascii) (s : string) (acc : string) : list string :=
  match s with
  | EmptyString => [acc]
  | String d s' => if bool_decide (d = c) then acc :: js_split c s' "" else js_split c s' (acc +:+ String d "")
  end.

Record User := mkUser { email : option string; username : option string }.

(** Lines 28-31: the first three characters of the user name. *)
Definition maskUsername (un : option string) : string :=
  match un with
  | Some u =>
      if bool_decide (u <> "")
      then String.substring 0 (Nat.min 3 (String.length u)) u +:+ (if 3 <? String.length u then "***" else "")
      else "Guest"
  | None => "Guest"
  end.

(** [maskCredential(user)] (lines 20-33): the first two characters of
    the local part of the email (lines 23-27), else the user name. *)
Definition maskCredential (user : option User) : string :=
  match user ≫= email with
  | Some e =>
      if bool_decide (e <> "") then
        let parts := js_split "@" e "" in
        let local := default "" (head parts) in
        let domain := default "undefined" (parts !! 1) in
        String.substring 0 (Nat.min 2 (String.length local)) local +:+
        (if 2 <? String.length local then "***" else "") +:+ "@" +:+ domain
      else maskUsername (user ≫= username)
  | None => maskUsername (user ≫= username)
  end.

(** [formatCountdown(ms)] (lines 35-41). *)
Definition formatCountdown (ms : option Z) : string :=
  match ms with
  | Some ms =>
      if (ms <=? 0)%Z then "Expired"
      else
        let s := (ms / 1000)%Z in
        js_int_string (s / 60)%Z +:+ ":" +:+ Clock.padStart2 (js_int_string (s mod 60)%Z)
  | None => "Expired"
  end.

(** [lastActiveText(ts)] (lines 43-52), at the time [now]. *)
Definition lastActiveText (now : Z) (ts : option Z) : string :=
  match ts with
  | Some ts =>
      if (ts =? 0)%Z then "Unknown" else
      let s := ((now - ts) / 1000)%Z in
      if (s <? 60)%Z then js_int_string s +:+ "s ago" else
      let m := (s / 60)%Z in
      if (m <? 60)%Z then js_int_string m +:+ "m ago" else
      js_int_string (m / 60)%Z +:+ "h ago"
  | None => "Unknown"
  end.

(** ** The component (lines 54-190) *)

(** What the component reads of the authentication state. *)
Record AuthView := mkAuth {
  status : string;
  user : option User;
  expiresAt : option Z;
  lastActive : option Z
}.

(** The arguments of a [logout] call (lines 84-87). *)
Record LogoutArgs := mkLogout { allDevices : bool; lpassword : option string }.

(** The state: the cell of [useMemo] for [msRemaining] (its dependency
    and value), the modal's fields, and what the component has done: the
    [logout] calls, the alerts and the route it replaced the screen
    with. *)
Record AState := mkA {
  memo : option (option Z * option Z);
  confirmOpen : bool;
  password : string;
  everywhere : bool;
  loading : bool;
  calls : list LogoutArgs;
  alerts : list string;
  route : option string
}.

Definition initial : AState := mkA None false "" true false [] [] None.

(** [useMemo(() => state.expiresAt ? state.expiresAt - Date.now() : undefined,
    [state.expiresAt])] (lines 62-65): the value is recomputed only when
    the dependency changed since the last render. *)
Definition msRemainingOf (now : Z) (e : option Z) : option Z :=
  match e with
  | Some x => if (x =? 0)%Z then None else Some (x - now)%Z
  | None => None
  end.

Definition memoStep (now : Z) (e : option Z) (m : option (option Z * option Z)) : option (option Z * option Z) :=
  match m with
  | Some (d, v) => if bool_decide (d = e) then m else Some (e, msRemainingOf now e)
  | None => Some (e, msRemainingOf now e)
  end.

Inductive AEvent :=
| ARender (now : Z) (auth : AuthView)   (* a render, at time [now] *)
| AOpen                                 (* the Logout button *)
| ACancel                               (* Cancel, or the modal's request to close *)
| APassword (p : string)
| AEverywhere (b : bool)
| AConfirm                              (* the modal's Logout button, disabled while [loading] *)
| ALogoutDone (ok : bool).              (* the [logout] promise settles *)

Definition astep (s : AState) (e : AEvent) : AState :=
  match e with
  | ARender now auth => mkA (memoStep now (expiresAt auth) (memo s)) (confirmOpen s) (password s)
                          (everywhere s) (loading s) (calls s) (alerts s) (route s)
  | AOpen => mkA (memo s) true (password s) (everywhere s) (loading s) (calls s) (alerts s) (route s)
  | ACancel => mkA (memo s) false (password s) (everywhere s) (loading s) (calls s) (alerts s) (route s)
  | APassword p => mkA (memo s) (confirmOpen s) p (everywhere s) (loading s) (calls s) (alerts s) (route s)
  | AEverywhere b => mkA (memo s) (confirmOpen s) (password s) b (loading s) (calls s) (alerts s) (route s)
  | AConfirm =>
      if loading s || negb (confirmOpen s) then s
      else mkA (memo s) (confirmOpen s) (password s) (everywhere s) true
             (calls s ++ [mkLogout (everywhere s) (if bool_decide (password s = "") then None else Some (password s))])
             (alerts s) (route s)
  | ALogoutDone ok =>
      if negb (loading s) then s
      else if ok
      then mkA (memo s) false "" true false (calls s) (alerts s ++ ["Logged out"]) (Some "/auth/login")
      else mkA (memo s) (confirmOpen s) (password s) (everywhere s) false (calls s)
             (alerts s ++ ["Logout error"]) (Some "/auth/login")
  end.

Definition arun (es : list AEvent) : AState := foldl astep initial es.

(** The status bar of a render (lines 99-138). *)
Record Bar := mkBar { title : string; masked : string; lastActiveShown : string; timeout : string }.

Definition statusTitle (st : string) : string :=
  if bool_decide (st = "authenticated") then "Authenticated"
  else if bool_decide (st = "expired") then "Session expired" else "Unauthenticated".

(** The bar a render at [now] shows, from the memo cell that render
    leaves. *)
Definition bar (now : Z) (auth : AuthView) (s : AState) : Bar :=
  mkBar (statusTitle (status auth)) (maskCredential (user auth))
    (lastActiveText now (lastActive auth))
    (formatCountdown (default None (snd <$> memo s))).

End SessionStatus.

Module AccountFacts.
Import SessionStatus.

(** ** The frozen countdown *)

Definition is_render (e : AEvent) : option (option Z) :=
  match e with ARender _ a => Some (expiresAt a) | _ => None end.

Lemma memo_step s e d v :
  memo s = Some (d, v) -> (forall x, is_render e = Some x -> x = d) -> memo (astep s e) = Some (d, v).
Proof.
  intros Hm He. destruct e; simpl; try done.
  - rewrite Hm. unfold memoStep. rewrite bool_decide_true; [done|]. by rewrite (He _ eq_refl).
  - destruct (loading s || negb (confirmOpen s)); done.
  - destruct (negb (loading s)); [done|]. by destruct ok.
Qed.

(** C29 (finding): the Timeout of the status bar never counts down: the
    remaining time is a [useMemo] of [state.expiresAt] (lines 62-65), so
    every later render, whatever the time, shows the value computed at
    the first render, until the session's expiry time itself changes. *)
Theorem timeout_frozen t0 auth es now auth' :
  Forall (fun e => forall x, is_render e = Some x -> x = expiresAt auth) es ->
  expiresAt auth' = expiresAt auth ->
  let s := astep (foldl astep (astep initial (ARender t0 auth)) es) (ARender now auth') in
  timeout (bar now auth' s) = formatCountdown (msRemainingOf t0 (expiresAt auth)).
Proof.
  intros Hes Ha. cbv zeta.
  assert (Hm : forall l s, Forall (fun e => forall x, is_render e = Some x -> x = expiresAt auth) l ->
            memo s = Some (expiresAt auth, msRemainingOf t0 (expiresAt auth)) ->
            memo (foldl astep s l) = Some (expiresAt auth, msRemainingOf t0 (expiresAt auth))).
  { induction l as [|e l IH]; intros s0 Hl Hs0; [done|]. apply Forall_cons in Hl as [He Hl].
    simpl. apply IH; [done|]. by apply memo_step. }
  unfold bar. cbn [timeout]. rewrite (memo_step _ (ARender now auth') _ _ (Hm es (astep initial (ARender t0 auth)) Hes eq_refl)); [done|].
  intros x [= <-]. done.
Qed.

(** ** One logout at a time *)

Definition is_done (e : AEvent) : bool := match e with ALogoutDone _ => true | _ => false end.

Lemma calls_bound s e n :
  length (calls s) <= n + (if loading s then 1 else 0) ->
  length (calls (astep s e)) <= (if is_done e then S n else n) + (if loading (astep s e) then 1 else 0).
Proof.
  intros H. destruct e; simpl; try done.
  - destruct (loading s) eqn:Hl; simpl; [rewrite Hl; done|].
    destruct (confirmOpen s); simpl; [|by rewrite Hl]. rewrite length_app. simpl. lia.
  - destruct (loading s) eqn:Hl; simpl; [|rewrite Hl; lia]. destruct ok; simpl; lia.
Qed.

(** the confirmation button is disabled while a logout runs (line
    178), so a run never makes more [logout] calls than the number of
    completed calls plus one: no two calls are in flight at once. *)
Theorem logout_single_flight es :
  length (calls (arun es)) <= length (filter (fun e => is_done e = true) es) + 1.
Proof.
  assert (Hg : forall l s n, length (calls s) <= n + (if loading s then 1 else 0) ->
            length (calls (foldl astep s l)) <=
            n + length (filter (fun e => is_done e = true) l) + (if loading (foldl astep s l) then 1 else 0)).
  { induction l as [|e l IH]; intros s n Hs; simpl; [lia|].
    pose proof (calls_bound s e n Hs) as H1. rewrite filter_cons.
    destruct (is_done e) eqn:Hd.
    - rewrite decide_True by done. simpl. specialize (IH _ _ H1). lia.
    - rewrite decide_False by (intros Hc; simpl in Hc; congruence). by apply IH. }
  specialize (Hg es initial 0 ltac:(simpl; lia)). unfold arun.
  destruct (loading (foldl astep initial es)); lia.
Qed.

(** ** The masked credential *)

Lemma js_split_none c l acc :
  c ∉ String.list_ascii_of_string l -> js_split c l acc = [acc +:+ l].
Proof.
  revert acc. induction l as [|d l IH]; intros acc Hc; simpl.
  - by rewrite string_app_nil.
  - rewrite bool_decide_false by set_solver. rewrite IH by set_solver.
    by rewrite string_app_assoc.
Qed.

Lemma js_split_app c l r acc :
  c ∉ String.list_ascii_of_string l -> js_split c (l +:+ String c r) acc = (acc +:+ l) :: js_split c r "".
Proof.
  revert acc. induction l as [|d l IH]; intros acc Hc; simpl.
  - by rewrite bool_decide_true, string_app_nil.
  - rewrite bool_decide_false by set_solver. rewrite IH by set_solver.
    by rewrite string_app_assoc.
Qed.

(** the masked credential of an email [local@domain] shows the
    first two characters of [local], "***" when [local] is longer, and
    the domain in full. *)
Theorem mask_email_spec local domain un :
  "@"%char ∉ String.list_ascii_of_string local -> "@"%char ∉ String.list_ascii_of_string domain ->
  maskCredential (Some (mkUser (Some (local +:+ String "@" domain)) un)) =
  String.substring 0 (Nat.min 2 (String.length local)) local +:+
  (if 2 <? String.length local then "***" else "") +:+ "@" +:+ domain.
Proof.
  intros Hl Hd. unfold maskCredential. simpl.
  rewrite bool_decide_true by (destruct local; discriminate).
  rewrite js_split_app by done. rewrite js_split_none by done. done.
Qed.

(** Finding: an email without "@" is masked with the domain
    "undefined": [email.split("@")] has one part, and the template prints
    the missing second part (line 26). *)
Theorem mask_email_without_at e un :
  e <> "" -> "@"%char ∉ String.list_ascii_of_string e ->
  maskCredential (Some (mkUser (Some e) un)) =
  String.substring 0 (Nat.min 2 (String.length e)) e +:+
  (if 2 <? String.length e then "***" else "") +:+ "@undefined".
Proof.
  intros He Hc. unfold maskCredential. simpl.
  rewrite bool_decide_true by done. rewrite js_split_none by done. done.
Qed.

End AccountFacts.

Module AccountWitnesses.
Import SessionStatus AccountFacts.

Definition w_auth : AuthView := mkAuth "authenticated" (Some (mkUser (Some "johndoe@mail.com") None)) (Some 60000%Z) None.

(** Rendered at time 0 and again two minutes later, one minute after
    the expiry: the bar still shows one minute left. *)
Lemma timeout_frozen_witness :
  timeout (bar 120000 w_auth (astep (foldl astep (astep initial (ARender 0 w_auth)) [AOpen; ACancel])
                                     (ARender 120000 w_auth))) = "1:00".
Proof.
  rewrite (timeout_frozen 0 w_auth [AOpen; ACancel] 120000 w_auth); [reflexivity| |reflexivity].
  repeat constructor; intros x Hx; discriminate.
Defined.

Lemma mask_email_spec_witness :
  maskCredential (Some (mkUser (Some ("johndoe" +:+ String "@" "mail.com")) None)) = "jo***@mail.com".
Proof.
  rewrite (mask_email_spec "johndoe" "mail.com" None); [reflexivity| |];
    apply (bool_decide_unpack _); vm_compute; reflexivity.
Defined.

Lemma mask_email_without_at_witness :
  maskCredential (Some (mkUser (Some "johndoe") None)) = "jo***@undefined".
Proof.
  rewrite (mask_email_without_at "johndoe" None); [reflexivity|discriminate|].
  apply (bool_decide_unpack _); vm_compute; reflexivity.
Defined.

End AccountWitnesses.
