(* ===== verification/Routes.v ===== *)
(** * Routes: the JSON route parameters between the screens

    Four screens hand data to the next one as a route parameter holding
    JSON text:
    - study.tsx (line 46) sends the selected subjects to past-options.tsx,
      which reads them back (lines 12-19);
    - past-options.tsx (lines 26 and 34) sends the configured
      [SubjectOption]s, which exam-instructions.tsx forwards unchanged and
      past-study.tsx reads back (lines 14-20);
    - past-study.tsx (lines 145-146) sends the results and the corrections
      payload, read back by exam-results.tsx (lines 19-25) and
      exam-corrections.tsx (lines 22-28).

    The sender builds an object literal and calls [JSON.stringify]
    ([JsonText.json_stringify]; a property whose value is [undefined] is
    left out of the text).  The receiver calls [JSON.parse] inside [try]
    and casts the result to a TypeScript type without checking it.  The
    router carries the text unchanged.

    [RouteParams] models the receiving code.  [Codec] is an
    encoder/decoder pair per record, in the style of a serialization
    class with its roundtrip law.  [Schema] writes the TypeScript types
    the receivers cast to as JSON schemas.  The theorems show that every
    parameter the app writes parses back to the records it was built
    from, and has the type the receiver casts it to.  They also show
    where it does not: a question whose text is not a string.  A card's
    count is a double ([Options]); it is printed as a JSON integer when
    it is one ([Records.countJson]), and the typing theorems assume
    what the service promises, totals that are safe integers. *)

From S2P Require Import Prelude Json JsonText Questions JsNumber IntegerText Options Subjects Scoring Corrections.
From Stdlib Require Import QArith Qround.
Local Close Scope Q_scope.
Import JsonText JsonFacts QuestionModel.

Module RouteParams.

(** [params.x ? JSON.parse(String(params.x)) : []] inside [try], whose
    [catch] gives [[]] (past-options.tsx lines 13-18, past-study.tsx lines
    15-20, exam-results.tsx lines 20-24, exam-corrections.tsx lines
    23-27): the parsed value, or the array literal when the parameter is
    absent, empty or not JSON. *)
Definition jsonParam (param : option string) : jval :=
  match param with
  | Some p => if bool_decide (p = "") then JArr [] else default (JArr []) (json_parse p)
  | None => JArr []
  end.

(** [Array.isArray(o) ? o : []] (past-options.tsx line 15, past-study.tsx
    line 17). *)
Definition arrayParam (param : option string) : list jval :=
  match jsonParam param with
  | JArr l => l
  | _ => []
  end.

End RouteParams.

Module Codec.

(** An encoder of a record as the object literal the sender builds, and
    the decoder of the fields the receiver reads. *)
Class JsonCodec (A : Type) := {
  to_json : A -> jval;
  of_json : jval -> option A
}.

(** Its laws: on the values the app builds ([json_ok]), the encoding is
    a value [JSON.stringify] prints faithfully, and decoding undoes it. *)
Class JsonCodecLaws (A : Type) `{!JsonCodec A} := {
  json_ok : A -> Prop;
  to_json_wf x : json_ok x -> jwfb (to_json x) = true;
  of_to_json x : json_ok x -> of_json (to_json x) = Some x
}.

(** [JSON.stringify(list)] of a list of records. *)
Definition writeParam {A} `{!JsonCodec A} (l : list A) : string :=
  json_stringify (JArr (map to_json l)).

(** The cast [o as T[]] of an array: the list of records when every
    element has the fields the receiver reads with their types. *)
Definition castList {A} `{!JsonCodec A} (l : list jval) : option (list A) :=
  mapM of_json l.

(** The cast of the parsed value of exam-results.tsx and
    exam-corrections.tsx, which do not test [Array.isArray]: the list of
    records an array holds; [None] for a value the screens' models do not
    cover (on which the screens call [reduce] or [forEach] of a non-array
    and throw). *)
Definition readList {A} `{!JsonCodec A} (v : jval) : option (list A) :=
  match v with JArr l => castList l | _ => None end.

(** The JSON readers of the fields. *)
Definition str_of (v : option jval) : option string :=
  match v with Some (JStr s) => Some s | _ => None end.

Definition nat_of (v : option jval) : option nat :=
  match v with Some (JNum z) => if bool_decide (0 <= z)%Z then Some (Z.to_nat z) else None | _ => None end.

Definition bool_of (v : option jval) : option bool :=
  match v with Some (JBool b) => Some b | _ => None end.

(** An optional string field: absent, or a string. *)
Definition opt_str_of (v : option jval) : option (option string) :=
  match v with None => Some None | Some (JStr s) => Some (Some s) | Some _ => None end.

Definition strs_of (v : option jval) : option (list string) :=
  match v with Some (JArr l) => mapM (fun x => str_of (Some x)) l | _ => None end.

(** The properties of an object literal whose value is not [undefined],
    in the order they are written: the text [JSON.stringify] prints
    leaves the others out. *)
Definition defined_props (ps : list (string * option jval)) : list (string * jval) :=
  omap (fun kv => match kv with (k, v) => (fun x => (k, x)) <$> v end) ps.

#[export] Instance string_codec : JsonCodec string := {
  to_json := JStr;
  of_json v := str_of (Some v)
}.

#[export] Program Instance string_codec_laws : JsonCodecLaws string := {
  json_ok _ := True
}.
Solve All Obligations with done.

End Codec.

(** ** The generic roundtrip of a list parameter *)

Module CodecFacts.
Import RouteParams Codec.

(** A parameter holding the text of a value the printer prints
    faithfully is read back as that value. *)
Lemma jsonParam_stringify v : jwfb v = true -> jsonParam (Some (json_stringify v)) = v.
Proof.
  intros Hv. unfold jsonParam. rewrite parse_stringify by done.
  by destruct (stringify_head v) as (c & t & -> & _).
Qed.

Section Laws.
Context {A : Type} `{!JsonCodec A, !JsonCodecLaws A}.

Lemma writeParam_wf (l : list A) : Forall json_ok l -> jwfb (JArr (map to_json l)) = true.
Proof.
  intros Hl. simpl. apply forallb_forall. intros v Hv%list_elem_of_In.
  apply list_elem_of_fmap in Hv as (x & -> & Hx). apply to_json_wf. by eapply Forall_forall.
Qed.

(** The receiver parses back the array of the encoded records. *)
Lemma jsonParam_write (l : list A) :
  Forall json_ok l -> jsonParam (Some (writeParam l)) = JArr (map to_json l).
Proof. intros Hl. apply jsonParam_stringify. by apply writeParam_wf. Qed.

Lemma castList_map (l : list A) : Forall json_ok l -> castList (map to_json l) = Some l.
Proof. intros Hl. apply mapM_fmap_Forall_Some. by apply (Forall_impl _ _ _ Hl), of_to_json. Qed.

(** A list parameter written by [writeParam] reads back, through
    [Array.isArray] and the cast, as the list it was written from. *)
Lemma param_roundtrip (l : list A) :
  Forall json_ok l -> castList (arrayParam (Some (writeParam l))) = Some l.
Proof. intros Hl. unfold arrayParam. rewrite jsonParam_write by done. by apply castList_map. Qed.

End Laws.

End CodecFacts.

(** ** Study to past-options: the selected subjects *)

Module SubjectsRoute.
Import RouteParams Codec.

(** [JSON.stringify(selected)] (study.tsx line 46); past-options.tsx
    reads it back with [arrayParam] and casts it to [string[]]. *)
Definition subjectsParam (selected : list string) : string := writeParam selected.

End SubjectsRoute.

(** ** The TypeScript types the receivers cast to *)

Module Schema.

(** A TypeScript type of JSON data: a record type lists its fields, each
    with its name, whether it is optional ([?:]) and its type. *)
#[warnings="-register-all"]
Inductive jtype :=
| TyStr | TyNum | TyBool | TyAny
| TyArr (t : jtype)
| TyRec (fields : list (string * bool * jtype)).

(** A value has a type: a record has each required field and each
    optional field it has with the field's type; other fields are
    allowed, as TypeScript's structural typing allows them. *)
Fixpoint has_type (t : jtype) (v : jval) : bool :=
  match t, v with
  | TyAny, _ => true
  | TyStr, JStr _ | TyNum, JNum _ | TyBool, JBool _ => true
  | TyArr t', JArr l => forallb (has_type t') l
  | TyRec fs, JObj ps =>
      forallb (fun f => match f with
                        | (k, opt, t') =>
                            match assoc_first k ps with Some x => has_type t' x | None => opt end
                        end) fs
  | _, _ => false
  end.

(** [SubjectOption] (PastOptions.tsx lines 18-25). *)
Definition SubjectOptionTy : jtype :=
  TyRec [("subject", false, TyStr); ("year", false, TyStr); ("topic", false, TyStr);
         ("count", false, TyNum); ("shuffle", false, TyBool); ("shuffleOptions", false, TyBool)].

(** [SubjectResult] (exam-results.tsx lines 8-13). *)
Definition SubjectResultTy : jtype :=
  TyRec [("subject", false, TyStr); ("score", false, TyNum); ("total", false, TyNum);
         ("percentage", false, TyNum)].

(** [QuestionWithAnswer] (exam-corrections.tsx lines 8-16). *)
Definition QuestionWithAnswerTy : jtype :=
  TyRec [("subject", false, TyStr); ("question", false, TyStr); ("options", false, TyArr TyStr);
         ("correctAnswer", false, TyStr); ("userAnswer", true, TyStr);
         ("instruction", true, TyStr); ("correction", true, TyStr)].

End Schema.

(** ** The records on the routes *)

Module Records.
Import Codec PastOptions Submit.

(** A count as a JSON value: a zero or an integral double is a number,
    [NaN] and the infinities print as [null]; [None] for a count with a
    fraction, whose text ([0.5]) the values of [Json] do not hold. *)
Definition countJson (c : Double.dbl) : option jval :=
  match c with
  | Double.DZero _ => Some (JNum 0)
  | Double.DFin q => if Double.is_integral q then Some (JNum (Qfloor q)) else None
  | _ => Some JNull
  end.

(** The [SubjectOption] literal past-options.tsx builds (PastOptions.tsx
    lines 79-86, with the fields in that order; the spreads of lines 101,
    197 and 214 keep the order) and sends with [JSON.stringify(options)]
    (past-options.tsx lines 26 and 34). *)
Definition optJson (o : Opt) : option jval :=
  (fun c => JObj [("subject", JStr (oSubject o)); ("year", JStr (oYear o)); ("topic", JStr (oTopic o));
        ("count", c); ("shuffle", JBool (oShuffle o)); ("shuffleOptions", JBool (oShuffleOptions o))])
  <$> countJson (oCount o).

(** [JSON.stringify(options)] (past-options.tsx lines 26 and 34). *)
Definition optionsParam (opts : list Opt) : option string :=
  (fun l => json_stringify (JArr l)) <$> mapM optJson opts.

(** The fields past-study and PastStudy read of a [SubjectOption]. *)
#[export] Instance subject_option_codec : JsonCodec SubjectOption := {
  to_json so :=
    JObj [("subject", JStr (subject so)); ("year", JStr (year so)); ("topic", JStr (topic so));
          ("count", JNum (Z.of_nat (count so)));
          ("shuffle", JBool (shuffle so)); ("shuffleOptions", JBool (shuffleOptions so))];
  of_json v :=
    let r := jget (Some v) in
    s ← str_of (r "subject"); y ← str_of (r "year"); t ← str_of (r "topic");
    c ← nat_of (r "count"); sh ← bool_of (r "shuffle"); so ← bool_of (r "shuffleOptions");
    Some (mkSubjectOption s y t c sh so)
}.

(** The result literal of [handleSubmit] (past-study.tsx lines 114-119),
    sent with [JSON.stringify(subjectResults)] (line 145), and the fields
    exam-results.tsx reads. *)
#[export] Instance subject_result_codec : JsonCodec SubjectResult := {
  to_json r :=
    JObj [("subject", JStr (rSubject r)); ("score", JNum (Z.of_nat (rScore r)));
          ("total", JNum (Z.of_nat (rTotal r))); ("percentage", JNum (Z.of_nat (rPercentage r)))];
  of_json v :=
    let r := jget (Some v) in
    s ← str_of (r "subject"); sc ← nat_of (r "score"); t ← nat_of (r "total");
    p ← nat_of (r "percentage");
    Some (mkResult s sc t p)
}.

(** The [questionsData] literal of [handleSubmit] (past-study.tsx lines
    123-131), sent with [JSON.stringify(questionsData)] (line 146): an
    [undefined] subject, user answer, instruction or correction is left
    out of the text; and the fields exam-corrections.tsx reads. *)
#[export] Instance question_data_codec : JsonCodec QuestionData := {
  to_json q :=
    JObj (defined_props
      [("subject", JStr <$> qdSubject q); ("question", Some (qdQuestion q));
       ("options", Some (JArr (map JStr (qdOptions q)))); ("correctAnswer", Some (qdCorrectAnswer q));
       ("userAnswer", JStr <$> qdUserAnswer q); ("instruction", qdInstruction q);
       ("correction", qdCorrection q)]);
  of_json v :=
    let r := jget (Some v) in
    s ← opt_str_of (r "subject"); qu ← r "question"; os ← strs_of (r "options");
    a ← r "correctAnswer"; u ← opt_str_of (r "userAnswer");
    Some (mkQD s qu os a u (r "instruction") (r "correction"))
}.

End Records.

(** ** The codecs' laws *)

Module RecordFacts.
Import Codec PastOptions Submit Records.

Lemma nat_of_nat n : nat_of (Some (JNum (Z.of_nat n))) = Some n.
Proof. simpl. rewrite bool_decide_true by lia. by rewrite Nat2Z.id. Qed.

Lemma strs_of_map l : strs_of (Some (JArr (map JStr l))) = Some l.
Proof. simpl. by apply mapM_fmap_Some. Qed.

Lemma forallb_JStr l : forallb jwfb (map JStr l) = true.
Proof. by induction l. Qed.

Lemma safe_nat_wf n : (Z.of_nat n < 2 ^ 53)%Z -> bool_decide (Z.abs (Z.of_nat n) < 2 ^ 53)%Z = true.
Proof. intros H. apply bool_decide_eq_true. lia. Qed.

(** The numbers of the records are safe integers, which [JSON.stringify]
    prints as their digits. *)
#[export] Program Instance subject_option_laws : JsonCodecLaws SubjectOption := {
  json_ok so := (Z.of_nat (count so) < 2 ^ 53)%Z
}.
Next Obligation. by rewrite safe_nat_wf. Qed.
Next Obligation. intros. destruct x. simpl. rewrite bool_decide_true by lia. by rewrite Nat2Z.id. Qed.

#[export] Program Instance subject_result_laws : JsonCodecLaws SubjectResult := {
  json_ok r := (Z.of_nat (rScore r) < 2 ^ 53 /\ Z.of_nat (rTotal r) < 2 ^ 53 /\ Z.of_nat (rPercentage r) < 2 ^ 53)%Z
}.
Next Obligation. by rewrite !safe_nat_wf. Qed.
Next Obligation. intros. destruct x. simpl. rewrite !bool_decide_true by lia. by rewrite !Nat2Z.id. Qed.

(** A JSON value the printer prints faithfully, or [undefined]. *)
Definition opt_wf (v : option jval) : bool := default true (jwfb <$> v).

(** The payload's values come from the question service: they print
    faithfully when their objects have no repeated and no array-index
    keys (the service's JSON, parsed, has no repeated keys). *)
#[export] Program Instance question_data_laws : JsonCodecLaws QuestionData := {
  json_ok q := jwfb (qdQuestion q) && jwfb (qdCorrectAnswer q) &&
               opt_wf (qdInstruction q) && opt_wf (qdCorrection q) = true
}.
Next Obligation.
  rename H into Hok. destruct x as [s qu os a u i c]. simpl in Hok. apply andb_true_iff in Hok as [Hok Hc].
  apply andb_true_iff in Hok as [Hok Hi]. apply andb_true_iff in Hok as [Hq Ha].
  unfold opt_wf in *. destruct s, u, i, c; simpl in *; by rewrite ?Hq, ?Ha, ?Hi, ?Hc, ?forallb_JStr.
Qed.
Next Obligation.
  destruct x as [s qu os a u i c]. destruct s, u, i, c; cbv -[strs_of]; by rewrite strs_of_map.
Qed.

(** A card with a safe count is sent as an object the printer prints
    faithfully, from which the session reads what [toSubjectOption]
    gives: the card with its count. *)
Lemma optJson_safe o :
  count_pos o -> exists j, optJson o = Some j /\ jwfb j = true /\ of_json j = PastOptionsRoute.toSubjectOption o.
Proof.
  intros (z & Hc & Hz). unfold optJson, PastOptionsRoute.toSubjectOption.
  rewrite Hc, (count_nat_num z Hz), IntegerText.num_pos by lia. cbn [countJson].
  rewrite IntegerText.is_integral_int, Qfloor_Z. eexists. split; [reflexivity|]. split.
  - simpl. by rewrite bool_decide_true by lia.
  - cbv -[nat_of]. unfold nat_of. rewrite bool_decide_true by lia. reflexivity.
Qed.

End RecordFacts.

(** ** The routes, end to end *)

Module RouteFacts.
Import RouteParams Codec CodecFacts Records RecordFacts Schema PastOptions PastOptionsRoute
       SubjectsRoute Submit ResultsScreen.

Lemma optJson_list opts :
  Forall count_pos opts ->
  exists js, mapM optJson opts = Some js /\ forallb jwfb js = true /\ mapM of_json js = mapM toSubjectOption opts.
Proof.
  induction 1 as [|o opts Ho _ (js & Hjs & Hwf & Hof)]; [by exists []|].
  destruct (optJson_safe o Ho) as (j & Hj & Hwj & Hoj). exists (j :: js).
  cbn [mapM forallb]. rewrite Hj, Hjs, Hwj, Hwf. split_and!; [done|done|]. cbn [mapM]. by rewrite Hoj, Hof.
Qed.

(** The cards past-options sends, with safe counts, reach the session as
    the [SubjectOption]s [toSubjectOption] gives. *)
Lemma options_route opts :
  Forall count_pos opts ->
  exists p, optionsParam opts = Some p /\ jsonParam (Some p) = JArr (default [] (mapM optJson opts)) /\
            castList (arrayParam (Some p)) = mapM toSubjectOption opts.
Proof.
  intros H. destruct (optJson_list opts H) as (js & Hjs & Hwf & Hof).
  unfold optionsParam. rewrite Hjs. eexists. split; [done|].
  assert (Hp : jsonParam (Some (json_stringify (JArr js))) = JArr js) by (apply jsonParam_stringify; exact Hwf).
  split; [by rewrite Hp|]. unfold arrayParam. rewrite Hp. exact Hof.
Qed.

(** The selected subjects reach past-options as they were selected. *)
Lemma subjects_route sel : castList (arrayParam (Some (subjectsParam sel))) = Some sel.
Proof. apply param_roundtrip. apply Forall_true; intros; exact I. Qed.

Lemma results_read (rs : list SubjectResult) :
  Forall json_ok rs -> readList (jsonParam (Some (writeParam rs))) = Some rs.
Proof. intros H. rewrite jsonParam_write by done. unfold readList. by apply castList_map. Qed.

Lemma questions_read (qds : list QuestionData) :
  Forall json_ok qds -> readList (jsonParam (Some (writeParam qds))) = Some qds.
Proof. intros H. rewrite jsonParam_write by done. by apply castList_map. Qed.

(** The cards of a started list convert, one for one and in order, to
    [SubjectOption]s with a safe count of at least one. *)
Lemma count_pos_convert l :
  Forall count_pos l ->
  exists sos, mapM toSubjectOption l = Some sos /\ map subject sos = map oSubject l /\
              Forall (fun so => 1 <= count so /\ (Z.of_nat (count so) < 2 ^ 53)%Z) sos.
Proof.
  induction 1 as [|o l (z & Hz & Hz1) _ (sos & Hsos & Hsub & Hc)]; [by exists []|].
  exists (mkSubjectOption (oSubject o) (oYear o) (oTopic o) (Z.to_nat z) (oShuffle o) (oShuffleOptions o) :: sos).
  cbn [mapM]. rewrite Hsos. unfold toSubjectOption at 1. rewrite Hz, count_nat_num by lia. simpl.
  split_and!; [done|by f_equal|constructor; [simpl; lia|done]].
Qed.

Lemma has_type_arr t l : has_type (TyArr t) (JArr l) = forallb (has_type t) l.
Proof. done. Qed.

Lemma forallb_false_elem {A} (f : A -> bool) l x : x ∈ l -> f x = false -> forallb f l = false.
Proof.
  intros Hx Hf. destruct (forallb f l) eqn:E; [|done].
  rewrite (proj1 (forallb_forall f l) E x) in Hf; [done|]. by apply list_elem_of_In.
Qed.

(** [q.question.question || ""] of a service field the printer prints
    faithfully prints faithfully. *)
Lemma or_empty_wf a : opt_wf a = true -> jwfb (default (JStr "") (jor a (Some (JStr "")))) = true.
Proof. unfold jor. destruct (jtruthy a), a; simpl; done. Qed.

(** The service's fields of a question print faithfully. *)
Definition question_wf (q : Question) : bool :=
  opt_wf (question q) && opt_wf (answer q) && opt_wf (instruction q) && opt_wf (correction q).

Lemma questionData_ok ua eqs :
  Forall (fun q => question_wf (eqQuestion q) = true) eqs -> Forall json_ok (questionsData eqs ua).
Proof.
  intros H. apply Forall_fmap. apply (Forall_impl _ _ _ H). intros [s q g] Hq. simpl in *.
  unfold question_wf in Hq. repeat (apply andb_true_iff in Hq as [Hq ?]).
  by rewrite !or_empty_wf, H1, H0.
Qed.

End RouteFacts.

(** ** Properties of the routes *)

Module RouteClaims.
Import RouteParams Codec CodecFacts Records RecordFacts Schema PastOptions PastOptionsRoute
       SubjectsRoute Submit ResultsScreen CorrectionsScreen RouteFacts.

(** past-study to exam-results: the results screen shows the results
    [handleSubmit] computed. *)
Theorem results_reach_screen opts eqs ua :
  Forall json_ok (subjectResults opts eqs ua) ->
  resultsView (readList (jsonParam (Some (writeParam (subjectResults opts eqs ua))))) =
  resultsView (Some (subjectResults opts eqs ua)).
Proof. intros H. by rewrite results_read. Qed.

(** C10: past-study to exam-corrections: when the service's fields of each
    question print faithfully, the corrections screen renders the
    payload [handleSubmit] built, in every state. *)
Theorem corrections_reach_screen eqs ua s :
  Forall (fun q => question_wf (eqQuestion q) = true) eqs ->
  render (readList (jsonParam (Some (writeParam (questionsData eqs ua))))) s =
  render (Some (questionsData eqs ua)) s.
Proof. intros H. by rewrite questions_read by (by apply questionData_ok). Qed.

(** Type: the results parameter has the type [SubjectResult[]] exam-results
    casts it to. *)
Theorem results_param_typed (rs : list SubjectResult) :
  Forall json_ok rs -> has_type (TyArr SubjectResultTy) (jsonParam (Some (writeParam rs))) = true.
Proof.
  intros H. rewrite jsonParam_write by done.
  rewrite has_type_arr. apply forallb_forall. intros v (r & -> & _)%list_elem_of_In%list_elem_of_fmap.
  by destruct r.
Qed.

(** C32: When the service's totals are safe integers, the options
    parameter of every list the Start button sends has the type
    [SubjectOption[]] past-study casts it to, and reaches the session as
    one [SubjectOption] per card with a count of at least one. *)
Theorem options_param_typed sel es l :
  Forall event_ok es -> started (orun sel es) = Some l ->
  exists p sos, optionsParam l = Some p /\ has_type (TyArr SubjectOptionTy) (jsonParam (Some p)) = true /\
    castList (arrayParam (Some p)) = Some sos /\ map subject sos = map oSubject l /\
    Forall (fun so => 1 <= count so) sos.
Proof.
  intros Hes Hl. destruct (orun_inv sel es Hes) as (_ & _ & _ & _ & H5). destruct (H5 l Hl) as [_ Hc].
  destruct (options_route l Hc) as (p & Hp & Hj & Hcast). destruct (count_pos_convert l Hc) as (sos & Hsos & Hsub & Hcnt).
  exists p, sos. split_and!; [done| | by rewrite Hcast | done | by apply (Forall_impl _ _ _ Hcnt); intros ? []].
  rewrite Hj, has_type_arr. destruct (optJson_list l Hc) as (js & Hjs & _ & _). rewrite Hjs. simpl.
  apply forallb_forall. intros v Hv%list_elem_of_In.
  assert (Hex : exists o, o ∈ l /\ optJson o = Some v).
  { clear -Hjs Hv. revert js Hjs Hv. induction l as [|o l IH]; intros js Hjs Hv; simpl in Hjs.
    - injection Hjs as <-. by apply not_elem_of_nil in Hv.
    - destruct (optJson o) as [j|] eqn:Ej; [|done]. destruct (mapM optJson l) as [js'|] eqn:E'; [|done].
      injection Hjs as <-. apply elem_of_cons in Hv as [->|Hv]; [exists o; split; [left|done]|].
      destruct (IH js' eq_refl Hv) as (o' & ? & ?). exists o'. split; [by right|done]. }
  destruct Hex as (o & Ho & Hov). eapply Forall_forall in Hc as (z & Hz & Hz1); [|done].
  revert Hov. unfold optJson. rewrite Hz, IntegerText.num_pos by lia. cbn [countJson].
  rewrite IntegerText.is_integral_int. intros [= <-]. reflexivity.
Qed.

(** C11 (finding): the corrections payload does not have the type
    [QuestionWithAnswer[]] exam-corrections casts it to when a question's
    text is a non-zero number: [q.question.question || ""] keeps it, and
    the type says [question: string]. *)
Theorem question_text_untyped eqs ua q n :
  q ∈ eqs -> question (eqQuestion q) = Some (JNum n) -> n <> 0%Z ->
  Forall (fun q => question_wf (eqQuestion q) = true) eqs ->
  has_type (TyArr QuestionWithAnswerTy) (jsonParam (Some (writeParam (questionsData eqs ua)))) = false.
Proof.
  intros Hq Hn Hn0 Hwf. rewrite jsonParam_write by (by apply questionData_ok).
  rewrite has_type_arr. apply (forallb_false_elem _ _ (to_json (questionDataOf ua q))).
  { apply list_elem_of_fmap_2. by apply list_elem_of_fmap_2. }
  destruct q as [sj [i qq o a c] g]. simpl in Hn. subst qq. unfold questionDataOf, jor. simpl.
  rewrite (proj2 (Z.eqb_neq n 0) Hn0). simpl.
  destruct sj, (ua !! g), i, c; reflexivity.
Qed.

End RouteClaims.

Module RouteWitnesses.
Import RouteParams Codec Records RecordFacts Schema PastOptions PastOptionsRoute SubjectsRoute
       Submit ResultsScreen CorrectionsScreen RouteFacts RouteClaims.

Definition w_events : list OEvent :=
  w_loaded ++ [OResolve 0 (w_total 35); OOpen FCount "Biology"; OApply "30"; OStart].
Definition w_started : list Opt := [mkOpt "Biology" "2024" "All Topic" (JsMath.num 30) false false].

Lemma options_param_typed_witness :
  Forall event_ok w_events /\ started (orun ["Biology"] w_events) = Some w_started /\
  exists p sos, optionsParam w_started = Some p /\ has_type (TyArr SubjectOptionTy) (jsonParam (Some p)) = true /\
    castList (arrayParam (Some p)) = Some sos /\ map subject sos = map oSubject w_started /\
    Forall (fun so => 1 <= count so) sos.
Proof.
  assert (He : Forall event_ok w_events).
  { repeat constructor; try (intros Hf; vm_compute in Hf; discriminate).
    change (total_ok (JsMath.num 35)). apply total_ok_num. lia. }
  assert (H : started (orun ["Biology"] w_events) = Some w_started) by (vm_compute; reflexivity).
  split; [exact He|]. split; [exact H|]. exact (options_param_typed _ _ _ He H).
Defined.

Definition w_num_question : ExamQuestion :=
  mkEQ (Some "Mathematics") (mkQuestion None (Some (JNum 5)) (Some ["5"; "6"]) (Some (JStr "5")) None)
    "Mathematics-0".
Definition w_str_question : ExamQuestion :=
  mkEQ (Some "Biology") (mkQuestion (Some (JStr "Read")) (Some (JStr "Q")) (Some ["a"; "b"])
    (Some (JStr "a")) (Some (JObj [("why", JStr "because")]))) "Biology-0".
Definition w_answers : gmap string string := <["Biology-0" := "a"]> ∅.

Lemma corrections_reach_screen_witness :
  Forall (fun q => question_wf (eqQuestion q) = true) [w_str_question; w_num_question] /\
  render (readList (jsonParam (Some (writeParam (questionsData [w_str_question; w_num_question] w_answers)))))
    initialCS =
  render (Some (questionsData [w_str_question; w_num_question] w_answers)) initialCS.
Proof.
  assert (H : Forall (fun q => question_wf (eqQuestion q) = true) [w_str_question; w_num_question])
    by (repeat constructor).
  split; [exact H|]. exact (corrections_reach_screen _ _ _ H).
Defined.

Lemma question_text_untyped_witness :
  has_type (TyArr QuestionWithAnswerTy)
    (jsonParam (Some (writeParam (questionsData [w_str_question; w_num_question] w_answers)))) = false.
Proof.
  refine (question_text_untyped _ _ w_num_question 5 _ eq_refl _ _).
  - by right; left.
  - discriminate.
  - repeat constructor.
Defined.

End RouteWitnesses.
