(* ===== verification/Menu.v ===== *)
(** * Menu: the account menu and its two confirmation modals

    [src/components/screens/MenuBricks.tsx] lists seven bricks.  Five
    navigate; Logout opens [LogoutModal]
    ([src/components/ui/LogoutModal.tsx]); Delete Account opens
    [DeleteAccountModal] ([src/components/ui/DeleteAccountModal.tsx]), which
    asks for a password of at least eight characters.

    The two confirmations run async handlers.  [handleLogout] awaits
    [logout].  [handleDeleteAccount] awaits [AuthApi.deleteAccount], then
    [logout]; its [catch] may await [logout] once more.  A running
    handler is a [Task] of the state that records where it waits.  The
    event [MSettle i o] settles the promise the [i]-th task waits for
    with the outcome [o], so promises settle in any order, as they do on
    a network.  [logout] and [deleteAccount] belong to [AuthContext] and
    the API client, which are not part of [src/]: their calls are
    recorded and their outcomes are inputs.  An error is the object the
    client throws, of which the handler reads the [error] code. *)

From S2P Require Import Prelude.

Module MenuBricks.

(** A brick (lines 19-25): its key, its title and the route its
    [onPress] pushes, if it has one. *)
Record BrickItem := mkItem { key : string; title : string; push : option string }.

(** [items] (lines 27-73). *)
Definition items : list BrickItem :=
  [mkItem "edit-profile" "Edit Profile" (Some "/auth/edit-profile");
   mkItem "change-password" "Change Password" (Some "/auth/change-password");
   mkItem "saved-questions" "Saved Questions" (Some "/mode/saved-questions");
   mkItem "activate-app" "Activate App" None;
   mkItem "app-settings" "App Settings" (Some "/settings/app-settings");
   mkItem "logout" "Logout" None;
   mkItem "delete-account" "Delete Account" None].

(** The calls to the collaborators. *)
Inductive Call :=
| CLogout                                  (* [logout({ allDevices: false })] *)
| CDelete (token password : string).       (* [AuthApi.deleteAccount(token, password)] *)

(** A navigation: [router.push] or [router.replace]. *)
Inductive Nav := Push (path : string) | Replace (path : string).

(** Where a running [handleDeleteAccount] waits: for [deleteAccount]
    (line 104), for the [logout] after the deletion (line 109), or for
    the [logout] of its [catch] (line 120). *)
Inductive DelPc := AwaitDelete | AwaitLogoutAfterDelete | AwaitLogoutInCatch.

Inductive Task := TLogout | TDelete (pc : DelPc).

(** How a promise settles: fulfilled, or rejected with an error whose
    [error] field is the code, if it has one. *)
Inductive Outcome := Fulfilled | Rejected (code : option string).

(** The state of the menu (lines 78-81) and of the delete modal's
    password field (DeleteAccountModal.tsx line 27), with what the
    handlers did: calls, alerts as (title, message), navigations, and
    the rejections of handler promises that nobody awaits. *)
Record MState := mkM {
  showLogoutModal : bool;
  showDeleteModal : bool;
  isLoggingOut : bool;
  isDeleting : bool;
  password : string;
  tasks : list Task;
  calls : list Call;
  alerts : list (string * string);
  navs : list Nav;
  unhandled : nat
}.

Definition initial : MState := mkM false false false false "" [] [] [] [] 0.

(** The message of the [catch] of [handleDeleteAccount] (lines 112-117). *)
Definition deleteErrorMessage (code : option string) : string :=
  if bool_decide (code = Some "INVALID_CREDENTIALS") then "Incorrect password"
  else if bool_decide (code = Some "INVALID_TOKEN" \/ code = Some "UNAUTHORIZED")
  then "Session expired. Please login again."
  else "Failed to delete account".

(** [error?.error === "INVALID_TOKEN" || error?.error === "UNAUTHORIZED"]
    (lines 115 and 119). *)
Definition tokenError (code : option string) : bool :=
  bool_decide (code = Some "INVALID_TOKEN" \/ code = Some "UNAUTHORIZED").

(** ** The handlers *)

Definition set_logoutModal (b : bool) (s : MState) : MState :=
  mkM b (showDeleteModal s) (isLoggingOut s) (isDeleting s) (password s) (tasks s) (calls s) (alerts s) (navs s) (unhandled s).
Definition set_deleteModal (b : bool) (s : MState) : MState :=
  mkM (showLogoutModal s) b (isLoggingOut s) (isDeleting s) (password s) (tasks s) (calls s) (alerts s) (navs s) (unhandled s).
Definition set_loggingOut (b : bool) (s : MState) : MState :=
  mkM (showLogoutModal s) (showDeleteModal s) b (isDeleting s) (password s) (tasks s) (calls s) (alerts s) (navs s) (unhandled s).
Definition set_deleting (b : bool) (s : MState) : MState :=
  mkM (showLogoutModal s) (showDeleteModal s) (isLoggingOut s) b (password s) (tasks s) (calls s) (alerts s) (navs s) (unhandled s).
Definition set_password (p : string) (s : MState) : MState :=
  mkM (showLogoutModal s) (showDeleteModal s) (isLoggingOut s) (isDeleting s) p (tasks s) (calls s) (alerts s) (navs s) (unhandled s).
Definition set_tasks (ts : list Task) (s : MState) : MState :=
  mkM (showLogoutModal s) (showDeleteModal s) (isLoggingOut s) (isDeleting s) (password s) ts (calls s) (alerts s) (navs s) (unhandled s).
Definition call (c : Call) (s : MState) : MState :=
  mkM (showLogoutModal s) (showDeleteModal s) (isLoggingOut s) (isDeleting s) (password s) (tasks s) (calls s ++ [c]) (alerts s) (navs s) (unhandled s).
Definition alert (title message : string) (s : MState) : MState :=
  mkM (showLogoutModal s) (showDeleteModal s) (isLoggingOut s) (isDeleting s) (password s) (tasks s) (calls s) (alerts s ++ [(title, message)]) (navs s) (unhandled s).
Definition navigate (n : Nav) (s : MState) : MState :=
  mkM (showLogoutModal s) (showDeleteModal s) (isLoggingOut s) (isDeleting s) (password s) (tasks s) (calls s) (alerts s) (navs s ++ [n]) (unhandled s).
Definition reject (s : MState) : MState :=
  mkM (showLogoutModal s) (showDeleteModal s) (isLoggingOut s) (isDeleting s) (password s) (tasks s) (calls s) (alerts s) (navs s) (S (unhandled s)).

(** [handleItemPress] (lines 129-137) on the [i]-th brick. *)
Definition handleItemPress (it : BrickItem) (s : MState) : MState :=
  if bool_decide (key it = "logout") then set_logoutModal true s
  else if bool_decide (key it = "delete-account") then set_deleteModal true s
  else match push it with
       | Some path => navigate (Push path) s
       | None => s
       end.

(** [handleLogout] up to its [await] (lines 87-89). *)
Definition handleLogout (s : MState) : MState :=
  set_tasks (tasks s ++ [TLogout]) (call CLogout (set_loggingOut true s)).

(** [handleDeleteAccount(password)] up to its first [await] (lines
    100-104): nothing without a token. *)
Definition handleDeleteAccount (token : option string) (pw : string) (s : MState) : MState :=
  match token with
  | Some t =>
      if bool_decide (t = "") then s
      else set_tasks (tasks s ++ [TDelete AwaitDelete]) (call (CDelete t pw) (set_deleting true s))
  | None => s
  end.

(** The [finally] blocks (lines 94-97 and 123-126), which end the
    [i]-th task. *)
Definition finallyLogout (i : nat) (s : MState) : MState :=
  set_logoutModal false (set_loggingOut false (set_tasks (delete i (tasks s)) s)).
Definition finallyDelete (i : nat) (s : MState) : MState :=
  set_deleteModal false (set_deleting false (set_tasks (delete i (tasks s)) s)).

(** The [catch] of [handleDeleteAccount] (lines 111-122) for an error
    with code [c]: the alert, then, for a token error, a [logout] the
    handler awaits. *)
Definition catchDelete (i : nat) (c : option string) (s : MState) : MState :=
  let s1 := alert "Error" (deleteErrorMessage c) s in
  if tokenError c then set_tasks (<[i := TDelete AwaitLogoutInCatch]> (tasks s1)) (call CLogout s1)
  else finallyDelete i s1.

(** The [i]-th task resumes with the outcome [o] of the promise it
    awaits. *)
Definition settle (i : nat) (o : Outcome) (s : MState) : MState :=
  match tasks s !! i with
  | Some TLogout =>
      match o with
      | Fulfilled => finallyLogout i (navigate (Replace "/auth/login") s)
      | Rejected _ => finallyLogout i s                 (* console.error *)
      end
  | Some (TDelete AwaitDelete) =>
      match o with
      | Fulfilled =>
          let s1 := alert "Account Deleted" "Your account has been permanently deleted." s in
          set_tasks (<[i := TDelete AwaitLogoutAfterDelete]> (tasks s1)) (call CLogout s1)
      | Rejected c => catchDelete i c s
      end
  | Some (TDelete AwaitLogoutAfterDelete) =>
      match o with
      | Fulfilled => finallyDelete i (navigate (Replace "/auth/login") s)
      | Rejected c => catchDelete i c s
      end
  | Some (TDelete AwaitLogoutInCatch) =>
      match o with
      | Fulfilled => finallyDelete i (navigate (Replace "/auth/login") s)
      | Rejected _ => reject (finallyDelete i s)         (* thrown out of the catch *)
      end
  | None => s
  end.

(** ** The modals *)

(** The Delete button's [disabled] (DeleteAccountModal.tsx line 78). *)
Definition deleteButtonDisabled (loading : bool) (password : string) : bool :=
  loading || (String.length password <? 8).

(** [handleConfirm] of the delete modal (DeleteAccountModal.tsx lines
    32-36), which calls [onConfirm] = [handleDeleteAccount]. *)
Definition handleConfirm (token : option string) (s : MState) : MState :=
  if 8 <=? String.length (password s) then handleDeleteAccount token (password s) s else s.

(** [handleCancel] of the delete modal (DeleteAccountModal.tsx lines
    38-41), whose [onCancel] closes it (MenuBricks.tsx line 187). *)
Definition handleCancel (s : MState) : MState := set_deleteModal false (set_password "" s).

(** The confirm button's text (LogoutModal.tsx line 83). *)
Definition logoutButtonText (loading : bool) : string := if loading then "Logging out..." else "Yes".

(** ** Events *)

Inductive MEvent :=
| MPress (i : nat)              (* the [i]-th brick *)
| MLogoutYes                    (* "Yes", disabled while loading *)
| MLogoutNo                     (* "No", disabled while loading *)
| MLogoutDismiss                (* the backdrop or the back button: [onCancel], never disabled *)
| MPasswordInput (p : string)
| MDelete                       (* "Delete", disabled while loading or with fewer than 8 characters *)
| MDeleteCancel                 (* "Cancel", disabled while loading *)
| MSettle (i : nat) (o : Outcome).

(** One event, with the [token] of [AuthContext] the render that
    handles it reads; a control of a hidden modal cannot be pressed. *)
Definition mstep (token : option string) (s : MState) (e : MEvent) : MState :=
  match e with
  | MPress i =>
      if showLogoutModal s || showDeleteModal s then s
      else match items !! i with Some it => handleItemPress it s | None => s end
  | MLogoutYes => if showLogoutModal s && negb (isLoggingOut s) then handleLogout s else s
  | MLogoutNo => if showLogoutModal s && negb (isLoggingOut s) then set_logoutModal false s else s
  | MLogoutDismiss => if showLogoutModal s then set_logoutModal false s else s
  | MPasswordInput p => if showDeleteModal s then set_password p s else s
  | MDelete =>
      if showDeleteModal s && negb (deleteButtonDisabled (isDeleting s) (password s))
      then handleConfirm token s else s
  | MDeleteCancel => if showDeleteModal s && negb (isDeleting s) then handleCancel s else s
  | MSettle i o => settle i o s
  end.

Definition mrun (token : option string) (es : list MEvent) : MState := foldl (mstep token) initial es.

(** ** What a render shows *)

(** The bricks (lines 145-173) and the two modals: LogoutModal.tsx
    (lines 66-85), whose buttons are disabled and whose confirm button
    reads "Logging out..." while loading; DeleteAccountModal.tsx
    (lines 57-86), whose Delete button is disabled and shows a spinner
    while loading, and is disabled below eight characters. *)
Record MView := mkMView {
  brickTitles : list string;
  logoutVisible : bool;
  logoutButtonsDisabled : bool;
  logoutConfirmText : string;
  deleteVisible : bool;
  passwordValid : bool;
  deleteDisabled : bool;
  deleteSpinner : bool;
  deleteCancelDisabled : bool
}.

Definition mview (s : MState) : MView :=
  mkMView (map title items) (showLogoutModal s) (isLoggingOut s) (logoutButtonText (isLoggingOut s))
    (showDeleteModal s) (8 <=? String.length (password s))
    (deleteButtonDisabled (isDeleting s) (password s)) (isDeleting s) (isDeleting s).

End MenuBricks.

(** ** Properties *)

Module MenuFacts.
Import MenuBricks.

Definition is_delete (t : Task) : bool := match t with TDelete _ => true | TLogout => false end.
Definition is_logout (t : Task) : bool := match t with TLogout => true | TDelete _ => false end.

(** Each handler runs at most once at a time, and its loading flag is
    set exactly while it runs. *)
Definition minv (s : MState) : Prop :=
  length (filter is_delete (tasks s)) = (if isDeleting s then 1 else 0) /\
  length (filter is_logout (tasks s)) = (if isLoggingOut s then 1 else 0).

Lemma filter_length_delete (f : Task -> bool) (ts : list Task) i t :
  ts !! i = Some t ->
  length (filter f (delete i ts)) + (if f t then 1 else 0) = length (filter f ts).
Proof.
  revert i. induction ts as [|x ts IH]; intros [|i] Hi; simpl in *; try done.
  - injection Hi as ->. rewrite filter_cons. destruct (f t); simpl; lia.
  - rewrite !filter_cons. specialize (IH i Hi). destruct (f x); simpl; lia.
Qed.

Lemma filter_length_insert (f : Task -> bool) (ts : list Task) i t t' :
  ts !! i = Some t -> f t = f t' -> length (filter f (<[i := t']> ts)) = length (filter f ts).
Proof.
  revert i. induction ts as [|x ts IH]; intros [|i] Hi Hf; simpl in *; try done.
  - injection Hi as ->. rewrite !filter_cons. repeat case_decide; simpl; congruence.
  - change (<[S i := t']> (x :: ts)) with (x :: <[i := t']> ts).
    rewrite !filter_cons. specialize (IH i Hi Hf). case_decide; simpl; lia.
Qed.

Lemma filter_length_snoc (f : Task -> bool) ts t :
  length (filter f (ts ++ [t])) = length (filter f ts) + (if f t then 1 else 0).
Proof.
  rewrite filter_app, length_app, filter_cons, filter_nil.
  case_decide as H; destruct (f t); simpl in *; try lia; try congruence; by exfalso; apply H.
Qed.

Ltac minv_simpl :=
  repeat match goal with
  | H : minv _ |- _ => destruct H as [?Hd ?Hl]
  | |- minv _ => split
  end; simpl in *.

Lemma settle_inv i o s : minv s -> minv (settle i o s).
Proof.
  intros Hs. unfold settle. destruct (tasks s !! i) as [[|[]]|] eqn:Ht; [..|done];
    pose proof (filter_length_delete is_delete _ _ _ Ht) as Dd;
    pose proof (filter_length_delete is_logout _ _ _ Ht) as Dl; simpl in Dd, Dl;
    destruct o as [|c]; unfold catchDelete; try destruct (tokenError c);
    minv_simpl; rewrite ?filter_length_insert with (t := TDelete _) by (simpl; done || eassumption);
    destruct (isDeleting s), (isLoggingOut s); simpl in *; lia.
Qed.

Lemma mstep_inv token s e : minv s -> minv (mstep token s e).
Proof.
  intros Hs. destruct e; simpl.
  - destruct (_ || _); [exact Hs|]. destruct (items !! i) as [it|]; [|exact Hs].
    unfold handleItemPress. repeat case_bool_decide; [..|destruct (push it)]; exact Hs.
  - destruct (_ && _) eqn:E; [|exact Hs]. apply andb_true_iff in E as [_ E%negb_true_iff].
    minv_simpl; rewrite filter_length_snoc; rewrite ?E in Hl; simpl; lia.
  - destruct (_ && _); exact Hs.
  - destruct (showLogoutModal s); exact Hs.
  - destruct (showDeleteModal s); exact Hs.
  - destruct (_ && _) eqn:E; [|exact Hs]. apply andb_true_iff in E as [_ E%negb_true_iff].
    apply orb_false_iff in E as [E _]. unfold handleConfirm. destruct (8 <=? _); [|exact Hs].
    unfold handleDeleteAccount. destruct token as [t|]; [|exact Hs]. case_bool_decide; [exact Hs|].
    minv_simpl; rewrite filter_length_snoc; rewrite ?E in Hd; simpl; lia.
  - destruct (_ && _); exact Hs.
  - by apply settle_inv.
Qed.

Lemma mrun_inv token es : minv (mrun token es).
Proof.
  unfold mrun. assert (H : minv initial) by done. revert H. generalize initial.
  induction es as [|e es IH]; intros s Hs; simpl; [done|]. by apply IH, mstep_inv.
Qed.

(** C31: whatever the presses and however the promises settle, at most
    one deletion and at most one logout run at a time, and the Delete
    button shows its spinner, and the logout button reads "Logging
    out...", exactly while one runs. *)
Theorem single_flight token es :
  let s := mrun token es in
  length (filter is_delete (tasks s)) <= 1 /\
  (deleteSpinner (mview s) = true <-> length (filter is_delete (tasks s)) = 1) /\
  length (filter is_logout (tasks s)) <= 1 /\
  (logoutConfirmText (mview s) = "Logging out..." <-> length (filter is_logout (tasks s)) = 1).
Proof.
  cbv zeta. destruct (mrun_inv token es) as [Hd Hl]. simpl. rewrite Hd, Hl.
  destruct (isDeleting _), (isLoggingOut _); split_and!; try lia; done.
Qed.

(** The Delete press with a valid password, a token and no deletion
    running calls [deleteAccount] once and waits for it. *)
Lemma delete_press s token t :
  showDeleteModal s = true -> isDeleting s = false -> 8 <= String.length (password s) ->
  token = Some t -> t <> "" ->
  mstep token s MDelete =
    set_tasks (tasks s ++ [TDelete AwaitDelete]) (call (CDelete t (password s)) (set_deleting true s)).
Proof.
  intros Hv Hd Hl -> Ht. unfold mstep, deleteButtonDisabled, handleConfirm.
  rewrite Hv, Hd, (proj2 (Nat.ltb_ge _ _) Hl), (proj2 (Nat.leb_le _ _) Hl). simpl.
  by rewrite bool_decide_false.
Qed.

(** Finding: the Delete press does nothing at all, leaving the
    modal open with its enabled button, when [AuthContext] has no token:
    [if (!state.token) return] gives no message. *)
Theorem delete_without_token_ignored s token :
  showDeleteModal s = true -> isDeleting s = false -> 8 <= String.length (password s) ->
  (mstep token s MDelete = s <-> match token with Some t => t = "" | None => True end).
Proof.
  intros Hv Hd Hl. destruct token as [t|].
  - destruct (decide (t = "")) as [->|Ht].
    + unfold mstep, deleteButtonDisabled, handleConfirm.
  rewrite Hv, Hd, (proj2 (Nat.ltb_ge _ _) Hl), (proj2 (Nat.leb_le _ _) Hl). simpl. by split.
    + rewrite (delete_press s _ t) by done. split; [|done]. intros E.
      apply (f_equal (fun s => length (tasks s))) in E. simpl in E. rewrite length_app in E. simpl in E. lia.
  - unfold mstep, deleteButtonDisabled, handleConfirm.
  rewrite Hv, Hd, (proj2 (Nat.ltb_ge _ _) Hl), (proj2 (Nat.leb_le _ _) Hl). done.
Qed.

(** Finding: when the account is deleted but the [logout] that
    follows fails with an error that is not a token error, the same
    [catch] handles it: the user is told the account was deleted, then
    that deleting it failed, and stays on the menu. *)
Theorem deleted_account_reported_failed s i c :
  tasks s !! i = Some (TDelete AwaitDelete) -> tokenError c = false ->
  let s' := settle i (Rejected c) (settle i Fulfilled s) in
  alerts s' = alerts s ++ [("Account Deleted", "Your account has been permanently deleted.");
                           ("Error", deleteErrorMessage c)] /\
  calls s' = calls s ++ [CLogout] /\ navs s' = navs s /\ showDeleteModal s' = false /\
  (c = None -> deleteErrorMessage c = "Failed to delete account").
Proof.
  intros Ht Hc.
  assert (E : settle i (Rejected c) (settle i Fulfilled s) =
    finallyDelete i (alert "Error" (deleteErrorMessage c)
      (set_tasks (<[i:=TDelete AwaitLogoutAfterDelete]> (tasks s))
        (call CLogout (alert "Account Deleted" "Your account has been permanently deleted." s))))).
  { unfold settle at 2. rewrite Ht. cbv beta iota zeta. unfold settle.
    cbn [tasks set_tasks call alert]. rewrite list_lookup_insert_eq by (by eapply lookup_lt_Some).
    unfold catchDelete. by rewrite Hc. }
  cbv zeta. rewrite E. simpl. rewrite <- !app_assoc. split_and!; try done. by intros ->.
Qed.

(** The first two events of a deletion: the brick and the password. *)
Lemma open_and_type token p :
  mstep token (mstep token initial (MPress 6)) (MPasswordInput p) =
  set_password p (set_deleteModal true initial).
Proof. reflexivity. Qed.

(** the deletion, end to end: with a token and a password of at
    least eight characters, the brick, the password, the Delete press
    and two fulfilled promises call [deleteAccount] then [logout], say
    the account was deleted, replace the screen by the login screen and
    close the modal. *)
Theorem delete_flow t p :
  t <> "" -> 8 <= String.length p ->
  let s := mrun (Some t) [MPress 6; MPasswordInput p; MDelete; MSettle 0 Fulfilled; MSettle 0 Fulfilled] in
  calls s = [CDelete t p; CLogout] /\
  alerts s = [("Account Deleted", "Your account has been permanently deleted.")] /\
  navs s = [Replace "/auth/login"] /\ tasks s = [] /\ showDeleteModal s = false /\ isDeleting s = false.
Proof.
  intros Ht Hp. unfold mrun. cbn [foldl]. rewrite open_and_type.
  rewrite (delete_press _ (Some t) t) by done. split_and!; reflexivity.
Qed.

(** Finding: a rejected password closes the modal with "Incorrect
    password" but keeps the password it typed: opening the modal again
    shows the Delete button enabled with that password, while Cancel
    clears it. *)
Theorem failed_delete_keeps_password t p :
  t <> "" -> 8 <= String.length p ->
  let s := mrun (Some t) [MPress 6; MPasswordInput p; MDelete;
                          MSettle 0 (Rejected (Some "INVALID_CREDENTIALS")); MPress 6] in
  alerts s = [("Error", "Incorrect password")] /\ calls s = [CDelete t p] /\
  showDeleteModal s = true /\ password s = p /\ deleteDisabled (mview s) = false.
Proof.
  intros Ht Hp. unfold mrun. cbn [foldl]. rewrite open_and_type.
  rewrite (delete_press _ (Some t) t) by done.
  split_and!; try reflexivity. simpl. rewrite (proj2 (Nat.ltb_ge _ _) Hp). done.
Qed.

(** Error: a token error of the deletion says the session expired
    and logs out: the login screen replaces the menu when that [logout]
    succeeds, and when it fails the error escapes the [catch] and the
    handler's promise is rejected with nobody to catch it. *)
Theorem session_expired_logs_out s i c :
  tasks s !! i = Some (TDelete AwaitDelete) -> tokenError c = true ->
  let s1 := settle i (Rejected c) s in
  alerts s1 = alerts s ++ [("Error", "Session expired. Please login again.")] /\
  calls s1 = calls s ++ [CLogout] /\
  navs (settle i Fulfilled s1) = navs s ++ [Replace "/auth/login"] /\
  unhandled (settle i (Rejected None) s1) = S (unhandled s).
Proof.
  intros Ht Hc.
  assert (Hm : deleteErrorMessage c = "Session expired. Please login again.").
  { unfold tokenError in Hc. apply bool_decide_eq_true in Hc. unfold deleteErrorMessage.
    rewrite bool_decide_false, bool_decide_true by (done || (destruct Hc as [-> | ->]; done)). done. }
  assert (E : settle i (Rejected c) s =
    set_tasks (<[i:=TDelete AwaitLogoutInCatch]> (tasks s)) (call CLogout (alert "Error" (deleteErrorMessage c) s))).
  { unfold settle. rewrite Ht. unfold catchDelete. by rewrite Hc. }
  cbv zeta. rewrite E, Hm. unfold settle. cbn [tasks set_tasks call alert].
  rewrite list_lookup_insert_eq by (by eapply lookup_lt_Some). done.
Qed.

End MenuFacts.

Module MenuWitnesses.
Import MenuBricks MenuFacts.

Definition w_pw : string := "hunter2024".
Definition w_open : MState := set_password w_pw (set_deleteModal true initial).
Definition w_waiting : MState := mrun (Some "tok") [MPress 6; MPasswordInput w_pw; MDelete].

Lemma delete_without_token_ignored_witness :
  mstep None w_open MDelete = w_open.
Proof. refine (proj2 (delete_without_token_ignored w_open None eq_refl eq_refl _) I). simpl. lia. Defined.

Lemma deleted_account_reported_failed_witness :
  alerts (settle 0 (Rejected None) (settle 0 Fulfilled w_waiting)) =
    [("Account Deleted", "Your account has been permanently deleted."); ("Error", "Failed to delete account")].
Proof.
  destruct (deleted_account_reported_failed w_waiting 0 None eq_refl eq_refl) as (H & _ & _ & _ & Hm).
  rewrite H, Hm by done. reflexivity.
Defined.

Lemma delete_flow_witness :
  calls (mrun (Some "tok") [MPress 6; MPasswordInput w_pw; MDelete; MSettle 0 Fulfilled; MSettle 0 Fulfilled]) =
  [CDelete "tok" w_pw; CLogout].
Proof. refine (proj1 (delete_flow "tok" w_pw _ _)); [discriminate|simpl; lia]. Defined.

Lemma failed_delete_keeps_password_witness :
  password (mrun (Some "tok") [MPress 6; MPasswordInput w_pw; MDelete;
                               MSettle 0 (Rejected (Some "INVALID_CREDENTIALS")); MPress 6]) = w_pw.
Proof.
  destruct (failed_delete_keeps_password "tok" w_pw) as (_ & _ & _ & H & _); [discriminate|simpl; lia|exact H].
Defined.

Lemma session_expired_logs_out_witness :
  navs (settle 0 Fulfilled (settle 0 (Rejected (Some "INVALID_TOKEN")) w_waiting)) = [Replace "/auth/login"].
Proof.
  destruct (session_expired_logs_out w_waiting 0 (Some "INVALID_TOKEN") eq_refl eq_refl) as (_ & _ & H & _).
  exact H.
Defined.

End MenuWitnesses.
