(* ===== verification/Home.v ===== *)
(** * Home: the home screen and the mode picker

    [src/components/screens/HomeScreen.tsx] greets the user by the first
    word of their name and shows a sub-greeting drawn at random.  A hero
    card cycles through three slides on an interval, and scrolling moves
    it with a parallax value clamped to [0, 1].  Six quick-link cards
    either navigate or, for Past Questions, open [ModeSelectModal]
    ([src/components/ui/ModeSelectModal.tsx]), which leads to the study or
    the exam flow.

    The user's name and the authentication status come from
    [AuthContext], which is not part of [src/]: they are inputs of the
    model.  [Math.random()] is a double [m / 2^53], as in [Shuffle].  The
    hero slide changes when its fade-out animation reports [finished];
    a later fade-out stops a running one, whose callback then sees
    [finished: false].  The animations that time these events are in
    [HomeAnim]; styles and colours are rendering and are not modelled. *)

From S2P Require Import Prelude Json Pagination Shuffle Account.
From Stdlib Require Import Ascii QArith Qround.

Module HomeScreen.

(** ** The greeting (lines 26-61) *)

(** [fullName.trim().split(" ")[0] || "Guest"], with [fullName] the
    user's name or [""] (lines 27-28). *)
Definition firstName (name : option string) : string :=
  match SessionStatus.js_split " " (js_trim (default "" name)) "" with
  | w :: _ => if bool_decide (w = "") then "Guest" else w
  | [] => "Guest"
  end.

(** "Hello, {firstName}" (line 383). *)
Definition greeting (name : option string) : string := "Hello, " +:+ firstName name.

(** The UTF-8 bytes of the right single quotation mark and of the em
    dash of two messages. *)
Definition rsquo : string := String "226" (String "128" (String "153" EmptyString)).
Definition mdash : string := String "226" (String "128" (String "148" EmptyString)).

(** [messages] (lines 38-52). *)
Definition messages : list string :=
  ["Welcome back! Let's keep the streak going.";
   "Great to see you again. Ready to smash your goals?";
   "You" +:+ rsquo +:+ "ve got this " +:+ mdash +:+ " dive right in.";
   "New day, new wins. Let" +:+ rsquo +:+ "s study smart.";
   "Let" +:+ rsquo +:+ "s ace some questions today.";
   "Time to level up " +:+ mdash +:+ " let" +:+ rsquo +:+ "s get started!";
   "Consistency is key " +:+ mdash +:+ " let" +:+ rsquo +:+ "s make today count.";
   "Back at it! Let" +:+ rsquo +:+ "s crush your study goals.";
   "Every session counts. Let" +:+ rsquo +:+ "s do this!";
   "Focus mode: ON. You" +:+ rsquo +:+ "re unstoppable."].

(** The sub-greeting the effect of lines 54-61 sets, for the status
    and the double [m / 2^53] [Math.random()] returns:
    [messages[Math.floor(Math.random() * messages.length)]] when
    authenticated; [None] is [undefined]. *)
Definition subGreeting (status : string) (m : Z) : option string :=
  if bool_decide (status = "authenticated") then messages !! Shuffle.draw_index m (length messages - 1)
  else Some "Ready to learn and study today?".

(** ** The hero carousel (lines 64-88 and 199-293) *)

Record Slide := mkSlide { slideTitle : string; slideSubtitle : string; slideIcon : string }.

Definition heroSlides : list Slide :=
  [mkSlide "JAMB CBT + WAEC Past Quetions" "Over 60,000 real questions at your fingertips." "doc.text.fill";
   mkSlide "One Time Device Activation"
     "Valid for the life of your device. No monthly, quarterly or yearly payments" "checkmark.seal.fill";
   mkSlide "Study and Practice Anywhere" "Access questions, answers and explanations 100% Offline" "wifi.slash"].

(** [heroIndex] and whether a fade-out started by the interval is
    running. *)
Record Hero := mkHero { heroIndex : nat; fadingOut : bool }.

Definition heroInitial : Hero := mkHero 0 false.

(** The interval (every 4000 ms, lines 200-292) starts the fade-out; a
    running one is stopped and its callback returns on [!finished]
    (lines 271-272). *)
Definition heroTick (h : Hero) : Hero := mkHero (heroIndex h) true.

(** The fade-out finishes: [setHeroIndex((i) => (i + 1) % heroSlides.length)]
    (line 273). *)
Definition heroFadeOutDone (h : Hero) : Hero :=
  if fadingOut h then mkHero (S (heroIndex h) mod length heroSlides) false else h.

(** The slide the hero card shows (lines 519-535): [heroSlides[heroIndex]]. *)
Definition heroSlide (h : Hero) : option Slide := heroSlides !! heroIndex h.

(** ** The parallax (lines 295-299) *)

(** [Math.min] and [Math.max]: [NaN] when an argument is [NaN]. *)
Definition js_min (a b : jsnum) : jsnum :=
  match a, b with
  | JNaN, _ | _, JNaN => JNaN
  | JNegInf, _ | _, JNegInf => JNegInf
  | JInf, x | x, JInf => x
  | JFin p, JFin q => JFin (Qmin' p q)
  end.

Definition js_max (a b : jsnum) : jsnum :=
  match a, b with
  | JNaN, _ | _, JNaN => JNaN
  | JInf, _ | _, JInf => JInf
  | JNegInf, x | x, JNegInf => x
  | JFin p, JFin q => JFin (Qmax' p q)
  end.

(** [y / 60]. *)
Definition div60 (y : jsnum) : jsnum :=
  match y with JFin q => JFin (q / 60) | _ => y end.

(** [Math.max(0, Math.min(y / 60, 1))] of the scroll offset [y]. *)
Definition parallax (y : jsnum) : jsnum := js_max (JFin 0) (js_min (div60 y) (JFin 1)).

(** ** The quick links and the mode picker *)

(** A card of [quickLinks] (lines 302-361): its title, subtitle, badge
    and the route it pushes, if it has one. *)
Record QuickLink := mkLink { linkTitle : string; linkSubtitle : string; badge : option string; route : option string }.

Definition nl : string := String "010" EmptyString.

Definition quickLinks : list QuickLink :=
  [mkLink ("Past" +:+ nl +:+ "Questions") "60k+ Questions" (Some "Popular") None;
   mkLink ("Summary" +:+ nl +:+ "Note") "Key points" (Some "Free") None;
   mkLink ("Jamb" +:+ nl +:+ "Syllabus") "Official Guide" (Some "Updated") None;
   mkLink ("Flash" +:+ nl +:+ "Cards") "Quick Memorization" (Some "New") (Some "/flashcards");
   mkLink ("My" +:+ nl +:+ "Performance") "Track Progress" (Some "Stats") (Some "/performance");
   mkLink ("Activate" +:+ nl +:+ "App") "Full Access" (Some "Premium") None].

(** The state of the screen: the hero, the mode picker's visibility
    (line 106) and the routes pushed. *)
Record HState := mkH { hero : Hero; showModeModal : bool; pushed : list string }.

Definition initial : HState := mkH heroInitial false [].

Inductive HEvent :=
| HPressLink (i : nat)   (* the [i]-th card *)
| HModalCancel           (* the backdrop or the back button of ModeSelectModal *)
| HModalStudy            (* STUDY MODE *)
| HModalCBT              (* CBT/EXAM MODE *)
| HTick                  (* the hero interval fires *)
| HFadeOutDone.          (* the running fade-out finishes *)

(** A card's [onPress] (lines 604-612). *)
Definition pressLink (it : QuickLink) (s : HState) : HState :=
  match route it with
  | Some r => mkH (hero s) (showModeModal s) (pushed s ++ [r])
  | None => if str_includes (linkTitle it) "Past" then mkH (hero s) true (pushed s) else s
  end.

(** One event; the cards cannot be pressed under the open picker, and
    the picker's controls only while it is open.  [onCancel],
    [onSelectStudy] and [onSelectCBT] are lines 675-684; the picker calls
    them from its backdrop and back button (ModeSelectModal.tsx lines
    36-38) and its two bricks (lines 48 and 61). *)
Definition hstep (s : HState) (e : HEvent) : HState :=
  match e with
  | HPressLink i =>
      if showModeModal s then s
      else match quickLinks !! i with Some it => pressLink it s | None => s end
  | HModalCancel => if showModeModal s then mkH (hero s) false (pushed s) else s
  | HModalStudy => if showModeModal s then mkH (hero s) false (pushed s ++ ["/mode/study"]) else s
  | HModalCBT => if showModeModal s then mkH (hero s) false (pushed s ++ ["/mode/exam"]) else s
  | HTick => mkH (heroTick (hero s)) (showModeModal s) (pushed s)
  | HFadeOutDone => mkH (heroFadeOutDone (hero s)) (showModeModal s) (pushed s)
  end.

Definition hrun (es : list HEvent) : HState := foldl hstep initial es.

End HomeScreen.

(** ** Properties *)

Module HomeFacts.
Import HomeScreen.
Local Open Scope nat_scope.

Lemma js_split_nonempty c s acc : SessionStatus.js_split c s acc <> [].
Proof. revert acc. induction s as [|d s IH]; intros acc; simpl; [done|]. by case_bool_decide. Qed.

Lemma heroFadeOutDone_lt h : heroIndex h < 3 -> heroIndex (heroFadeOutDone h) < 3.
Proof. unfold heroFadeOutDone. destruct (fadingOut h); [|done]. intros _. cbn [heroIndex]. apply Nat.mod_upper_bound. done. Qed.

Lemma hstep_hero_lt s e : heroIndex (hero s) < 3 -> heroIndex (hero (hstep s e)) < 3.
Proof.
  intros H. destruct e; simpl; try apply heroFadeOutDone_lt; try done.
  - destruct (showModeModal s); [done|]. destruct (quickLinks !! i) as [it|]; [|done].
    unfold pressLink. destruct (route it); [done|]. by destruct (str_includes _ _).
  - by destruct (showModeModal s).
  - by destruct (showModeModal s).
  - by destruct (showModeModal s).
Qed.

Lemma hrun_hero_lt es : heroIndex (hero (hrun es)) < 3.
Proof.
  unfold hrun. assert (H : heroIndex (hero initial) < 3) by (simpl; lia). revert H. generalize initial.
  induction es as [|e es IH]; intros s Hs; simpl; [done|]. by apply IH, hstep_hero_lt.
Qed.

(** [s.split(c)] begins with the longest prefix of [s] without [c],
    after the accumulated [acc]. *)
Lemma js_split_head c s acc :
  exists w rest ws, SessionStatus.js_split c s acc = (acc +:+ w) :: ws /\ s = w +:+ rest /\
    (c ∉ String.list_ascii_of_string w) /\ (rest = "" \/ exists r, rest = String c r).
Proof.
  revert acc. induction s as [|d s IH]; intros acc; simpl.
  - exists "", "", []. rewrite string_app_nil. split_and!; [done|done|set_solver|by left].
  - case_bool_decide as Hd.
    + exists "", (String d s), (SessionStatus.js_split c s ""). rewrite string_app_nil.
      split_and!; [done|done|set_solver|subst; right; by eexists].
    + destruct (IH (acc +:+ String d "")) as (w & rest & ws & Hs & -> & Hw & Hr).
      exists (String d w), rest, ws. rewrite Hs, string_app_assoc. simpl.
      split_and!; [done|done|set_solver|done].
Qed.

(** the greeting's first name is the longest prefix of the trimmed
    name without a space, or "Guest" when that prefix is empty (no
    name, an empty name, or one of white space only). *)
Theorem firstName_spec name :
  exists w rest, js_trim (default "" name) = w +:+ rest /\ (" "%char ∉ String.list_ascii_of_string w) /\
    (rest = "" \/ exists r, rest = String " " r) /\
    firstName name = (if bool_decide (w = "") then "Guest" else w).
Proof.
  destruct (js_split_head " " (js_trim (default "" name)) "") as (w & rest & ws & Hs & He & Hw & Hr).
  exists w, rest. split_and!; [done|done|done|]. unfold firstName. rewrite Hs. by rewrite string_app_nil_l.
Qed.

(** when authenticated, the sub-greeting is one of the ten messages
    for every double [Math.random()] can return, never [undefined]. *)
Theorem subGreeting_defined status m :
  (0 <= m < 2 ^ 53)%Z ->
  exists msg, subGreeting status m = Some msg /\ (status = "authenticated" -> msg ∈ messages).
Proof.
  intros Hm. unfold subGreeting. case_bool_decide as Hs.
  - pose proof (Shuffle.draw_index_le m (length messages - 1) Hm ltac:(simpl; lia)) as Hi.
    destruct (lookup_lt_is_Some_2 messages (Shuffle.draw_index m (length messages - 1)))
      as [msg Hmsg]; [simpl in *; lia|].
    exists msg. split; [done|]. intros _. by eapply list_elem_of_lookup_2.
  - by eexists.
Qed.

(** whatever the interval and the animations do, the hero card
    always shows one of its three slides, and a fade-out that finishes
    moves to the next slide, from the last back to the first. *)
Theorem hero_cycles es :
  is_Some (heroSlide (hero (hrun es))) /\
  heroIndex (hero (hrun (es ++ [HTick; HFadeOutDone]))) = S (heroIndex (hero (hrun es))) mod 3.
Proof.
  split.
  - apply lookup_lt_is_Some_2. apply hrun_hero_lt.
  - unfold hrun. rewrite foldl_app. done.
Qed.

(** the parallax value is in [0, 1] for every scroll offset that is
    not [NaN]. *)
Theorem parallax_bounds y :
  y <> JNaN -> exists q, parallax y = JFin q /\ (0 <= q <= 1)%Q.
Proof.
  intros Hy. unfold parallax. destruct y as [q| | |]; simpl; [|done| |].
  - eexists. split; [reflexivity|]. split; [apply Qmax'_spec|].
    apply Qmax'_le; [discriminate|apply Qmin'_spec].
  - exists 1%Q. split; [done|]. split; discriminate.
  - exists 0%Q. split; [done|]. split; discriminate.
Qed.

(** Finding: the Summary Note, Jamb Syllabus and Activate App
    cards do nothing when pressed: they have no route and their title
    does not contain "Past". *)
Theorem dead_cards s i :
  showModeModal s = false -> i = 1 \/ i = 2 \/ i = 5 -> hstep s (HPressLink i) = s.
Proof. intros Hm Hi. simpl. rewrite Hm. destruct Hi as [-> | [-> | ->]]; reflexivity. Qed.

(** the Past Questions card opens the mode picker, whose two bricks
    lead to the study and the exam flows and close it. *)
Theorem past_questions_modes s :
  showModeModal s = false ->
  hstep (hstep s (HPressLink 0)) HModalStudy = mkH (hero s) false (pushed s ++ ["/mode/study"]) /\
  hstep (hstep s (HPressLink 0)) HModalCBT = mkH (hero s) false (pushed s ++ ["/mode/exam"]) /\
  hstep (hstep s (HPressLink 0)) HModalCancel = mkH (hero s) false (pushed s).
Proof. intros Hm. simpl. rewrite Hm. split_and!; reflexivity. Qed.

End HomeFacts.

Module HomeWitnesses.
Import HomeScreen HomeFacts.

Lemma subGreeting_defined_witness :
  (0 <= 2 ^ 52 < 2 ^ 53)%Z /\ is_Some (subGreeting "authenticated" (2 ^ 52)).
Proof.
  assert (H : (0 <= 2 ^ 52 < 2 ^ 53)%Z) by lia. split; [exact H|].
  destruct (subGreeting_defined "authenticated" _ H) as (msg & E & _). by rewrite E.
Defined.

Lemma parallax_bounds_witness :
  exists q, parallax (JFin (-25)) = JFin q /\ (0 <= q <= 1)%Q.
Proof. apply parallax_bounds. discriminate. Defined.

Lemma dead_cards_witness : hstep initial (HPressLink 5) = initial.
Proof. apply dead_cards; [reflexivity|right; right; reflexivity]. Defined.

Lemma past_questions_modes_witness :
  hstep (hstep initial (HPressLink 0)) HModalCBT = mkH heroInitial false ["/mode/exam"].
Proof. exact (proj1 (proj2 (past_questions_modes initial eq_refl))). Defined.

End HomeWitnesses.
