(* ===== verification/Auth.v ===== *)
(** * Auth: the welcome screen and the account forms

    [src/app/index.tsx] redirects a signed-in user to the tabs and
    otherwise offers sign-up and login.  The forms under [src/app/auth/]
    share one shape: fields, validity flags derived from them, a submit
    button disabled while loading or invalid, and an async [onSubmit].
    [onSubmit] sets [loading], awaits the API client, alerts, navigates,
    and clears [loading] in [finally] (or by hand, in
    change-password.tsx).

    The validators [isEmail], [isPasswordValid] and [passwordStrength]
    live in [utils/validation], which is not part of [src/].  They are
    the [Context] of the section [Forms], so every theorem holds for any
    validators.  [AuthApi] and [AuthContext] are collaborators: their
    calls are recorded and their outcomes are events.  A running
    [onSubmit] is the [pending] point at which it awaits.  The password
    field ([src/components/auth/PasswordField.tsx]) is a small component
    of its own: its mask toggle and focus, and the border its flattened
    styles draw. *)

From S2P Require Import Prelude Json.

Module AuthForms.

(** ** What the forms share *)

(** The thrown error's [error] and [message] fields, when they are
    strings. *)
Record ApiError := mkErr { errError : option string; errMessage : option string }.

(** [a || b] for a string-or-undefined [a] and a string [b]. *)
Definition or_str (a : option string) (b : string) : string :=
  match a with Some s => if bool_decide (s = "") then b else s | None => b end.

(** A navigation of the router. *)
Inductive Nav :=
| Push (path : string)
| PushWith (path : string) (provider : string)   (* [router.push({ pathname, params: { provider } })] *)
| Replace (path : string)
| Back.

(** How an awaited promise settles. *)
Inductive Outcome := Fulfilled | Rejected (e : ApiError).

(** The part of a form's state its [onSubmit] drives: [loading], the
    point where it awaits, the calls it made, its alerts and its
    navigations. *)
Record Async (Pc Call : Type) := mkAsync {
  loading : bool;
  pending : option Pc;
  calls : list Call;
  alerts : list (string * string);
  navs : list Nav
}.
Arguments mkAsync {Pc Call}.
Arguments loading {Pc Call}.
Arguments pending {Pc Call}.
Arguments calls {Pc Call}.
Arguments alerts {Pc Call}.
Arguments navs {Pc Call}.

Section AsyncOps.
Context {Pc Call : Type}.

Definition idle : Async Pc Call := mkAsync false None [] [] [].

(** [setLoading(true)], the call, and the [await]. *)
Definition await_call (c : Call) (pc : Pc) (a : Async Pc Call) : Async Pc Call :=
  mkAsync true (Some pc) (calls a ++ [c]) (alerts a) (navs a).

(** The handler resumes and waits again at [pc]. *)
Definition await_again (c : Call) (pc : Pc) (a : Async Pc Call) : Async Pc Call :=
  mkAsync (loading a) (Some pc) (calls a ++ [c]) (alerts a) (navs a).

(** The handler ends: [setLoading(false)], after its alert and its
    navigation. *)
Definition finish (al : option (string * string)) (nv : option Nav) (a : Async Pc Call) : Async Pc Call :=
  mkAsync false None (calls a) (alerts a ++ option_list al) (navs a ++ option_list nv).

End AsyncOps.

(** The [valid] and [error] props of an input field. *)
Record FieldView := mkField { fvalid : option bool; ferror : option string }.

(** [valid={value ? ok : undefined}] and
    [error={value && !ok ? message : undefined}]. *)
Definition fieldView (value : string) (ok : bool) (message : string) : FieldView :=
  if bool_decide (value = "") then mkField None None
  else mkField (Some ok) (if ok then None else Some message).

(** ** The strength meter ([src/components/auth/StrengthMeter.tsx]) *)

Inductive Strength := Weak | Medium | Strong.

Definition strengthLabel (s : Strength) : string :=
  match s with Weak => "Weak" | Medium => "Medium" | Strong => "Strong" end.

Definition strengthWidth (s : Strength) : string :=
  match s with Weak => "33%" | Medium => "66%" | Strong => "100%" end.

(** The bar's and the label's colour (line 6). *)
Definition strengthColor (s : Strength) : string :=
  match s with Weak => "#d9534f" | Medium => "#f0ad4e" | Strong => "#5cb85c" end.

(** ** The password field ([src/components/auth/PasswordField.tsx]) *)

(** Its own state (lines 22-23): the text shown in clear, and focus. *)
Record PFState := mkPF { visible : bool; isFocused : bool }.

Definition pfInitial : PFState := mkPF false false.

Inductive PFEvent := PFToggle | PFFocus | PFBlur.

(** [setVisible((v) => !v)] (line 52), [onFocus] and [onBlur] (lines
    39-40). *)
Definition pfStep (s : PFState) (e : PFEvent) : PFState :=
  match e with
  | PFToggle => mkPF (negb (visible s)) (isFocused s)
  | PFFocus => mkPF (visible s) true
  | PFBlur => mkPF (visible s) false
  end.

(** What the field draws (lines 25-62): the input's border after the
    style array [input, focused, valid/invalid] is flattened (a later
    style wins), whether the text is masked, the toggle's text and the
    error line, shown when [!!error]. *)
Record PFView := mkPFView {
  pfMasked : bool; pfBorderColor : string; pfBorderWidth : nat; pfToggleText : string; pfError : option string
}.

Definition pfView (fv : FieldView) (s : PFState) : PFView :=
  mkPFView (negb (visible s))
    (match fvalid fv with
     | Some true => "green" | Some false => "red"
     | None => if isFocused s then "green" else "#ccc"
     end)
    (if isFocused s then 2 else 1)
    (if visible s then "Hide" else "Show")
    (match ferror fv with Some m => if bool_decide (m = "") then None else Some m | None => None end).

(** ** The welcome screen ([src/app/index.tsx]) *)

(** [isAuthenticated] (line 22): the status, an expiry in the future
    when there is a (truthy) expiry, and a token. *)
Definition isAuthenticated (status : string) (expiresAt : option Z) (token : option string) (now : Z) : bool :=
  bool_decide (status = "authenticated") &&
  match expiresAt with Some e => if Z.eqb e 0 then true else Z.ltb now e | None => true end &&
  truthy_str token.

(** The effect of lines 24-29: nothing until the navigation is ready,
    then the tabs replace the screen of a signed-in user. *)
Definition welcomeRedirect (navKey : option string) (authenticated : bool) : option Nav :=
  if truthy_str navKey && authenticated then Some (Replace "/(tabs)") else None.

(** The three sign-up buttons and the login link (lines 30-66). *)
Definition signupButtons : list (string * string * Nav) :=
  [("google", "Sign up with Google", PushWith "/auth/signup" "google");
   ("apple", "Sign up with Apple", PushWith "/auth/signup" "apple");
   ("email", "Sign up with Email", Push "/auth/signup")].

Definition goLogin : Nav := Push "/auth/login".

(** The icon and whether the button is green, by key (lines 44-64). *)
Definition buttonLook (key : string) : string * bool :=
  if bool_decide (key = "google") then ("google", true)
  else if bool_decide (key = "apple") then ("apple", false)
  else ("envelope", true).

(** The screen (lines 67-108): the title, each button's label, icon,
    colour and navigation, and the login link. *)
Record WelcomeView := mkWelcomeView {
  wTitle : string; wButtons : list (string * string * bool * Nav); wLogin : string * Nav
}.

Definition welcomeView : WelcomeView :=
  mkWelcomeView "Past Question"
    (map (fun '(k, l, n) => (l, (buttonLook k).1, (buttonLook k).2, n)) signupButtons)
    ("Already registered? Login", goLogin).

(** ** The forms *)

(** The calls of the forms to [AuthApi] and [AuthContext]. *)
Inductive AuthCall :=
| CLogin (identifier password : string)
| CSignup (firstName lastName email password : string)
| CSetAuth                                   (* [await setAuth({ token, user })] *)
| CForgot (email : string)
| CReset (email token password : string)
| CChange (token oldPw newPw : string).

(** Where a login or a sign-up waits: for the API, then for [setAuth]. *)
Inductive SignInPc := AwaitApi | AwaitSetAuth.

(** A single-request form waits for the API only. *)
Inductive OnePc := AwaitOne.

Section Forms.
Context (isEmail isPasswordValid : string -> bool) (passwordStrength : string -> Strength).

(** *** Login ([src/app/auth/login.tsx]) *)

Record LoginState := mkLogin {
  identifier : string;
  lpassword : string;
  lasync : Async SignInPc AuthCall
}.

Definition loginInitial : LoginState := mkLogin "" "" idle.

(** Lines 24-25 and the button's [disabled] (line 77). *)
Definition idValid (s : LoginState) : bool := isEmail (identifier s).
Definition passwordValid (s : LoginState) : bool := 8 <=? String.length (lpassword s).
Definition loginDisabled (s : LoginState) : bool :=
  loading (lasync s) || negb (idValid s) || negb (passwordValid s).

(** [err?.error || err?.message || "Unexpected error occurred"] (line 38). *)
Definition loginError (e : ApiError) : string :=
  or_str (errError e) (or_str (errMessage e) "Unexpected error occurred").

Inductive LoginEvent :=
| LSetIdentifier (v : string)
| LSetPassword (v : string)
| LSubmit
| LSettle (o : Outcome).

(** [onSubmit] (lines 27-43): its start, and its resumption at each
    [await]. *)
Definition loginResume (o : Outcome) (a : Async SignInPc AuthCall) : Async SignInPc AuthCall :=
  match pending a, o with
  | Some AwaitApi, Fulfilled => await_again CSetAuth AwaitSetAuth a
  | Some AwaitSetAuth, Fulfilled =>
      finish (Some ("Success", "Logged in successfully")) (Some (Replace "/(tabs)")) a
  | Some _, Rejected e => finish (Some ("Login failed", loginError e)) None a
  | None, _ => a
  end.

Definition lstep (s : LoginState) (e : LoginEvent) : LoginState :=
  match e with
  | LSetIdentifier v => mkLogin v (lpassword s) (lasync s)
  | LSetPassword v => mkLogin (identifier s) v (lasync s)
  | LSubmit =>
      if loginDisabled s then s
      else mkLogin (identifier s) (lpassword s)
             (await_call (CLogin (identifier s) (lpassword s)) AwaitApi (lasync s))
  | LSettle o => mkLogin (identifier s) (lpassword s) (loginResume o (lasync s))
  end.

(** The two fields (lines 52-67). *)
Definition loginFields (s : LoginState) : FieldView * FieldView :=
  (fieldView (identifier s) (idValid s) "Invalid email format",
   fieldView (lpassword s) (passwordValid s) "Minimum 8 characters").

(** "Forgot Password?" (lines 67-72) and "New here? Sign up" (lines
    90-95). *)
Definition loginLinks : list Nav := [Push "/auth/forgot-password"; Push "/auth/signup"].

(** *** Sign-up ([src/app/auth/signup.tsx]) *)

Record SignupState := mkSignup {
  firstName : string;
  lastName : string;
  semail : string;
  spassword : string;
  sconfirm : string;
  sasync : Async SignInPc AuthCall
}.

Definition signupInitial : SignupState := mkSignup "" "" "" "" "" idle.

(** Lines 33-38: a name is 2 to 30 characters once trimmed. *)
Definition nameValid (n : string) : bool :=
  (2 <=? String.length (js_trim n)) && (String.length (js_trim n) <=? 30).
Definition signupMatch (s : SignupState) : bool :=
  negb (String.length (sconfirm s) =? 0) && bool_decide (spassword s = sconfirm s).

(** The button's [disabled] (lines 117-124). *)
Definition signupDisabled (s : SignupState) : bool :=
  loading (sasync s) || negb (isEmail (semail s)) || negb (isPasswordValid (spassword s)) ||
  negb (signupMatch s) || negb (nameValid (firstName s)) || negb (nameValid (lastName s)).

(** The five fields' [valid] and [error] props (lines 68-113). *)
Definition signupFields (s : SignupState) : list FieldView :=
  [fieldView (firstName s) (nameValid (firstName s)) "2–30 characters";
   fieldView (lastName s) (nameValid (lastName s)) "2–30 characters";
   fieldView (semail s) (isEmail (semail s)) "Invalid email format";
   fieldView (spassword s) (isPasswordValid (spassword s)) "Use 8+ chars, mixed case, number & symbol";
   fieldView (sconfirm s) (signupMatch s) "Passwords must match"].

(** "Already registered? Login" (lines 143-148). *)
Definition signupLink : Nav := Push "/auth/login".

Inductive SignupEvent :=
| SSetFirst (v : string) | SSetLast (v : string) | SSetEmail (v : string)
| SSetPassword (v : string) | SSetConfirm (v : string)
| SSubmit
| SSettle (o : Outcome).

(** [onSubmit] (lines 40-57). *)
Definition signupResume (o : Outcome) (a : Async SignInPc AuthCall) : Async SignInPc AuthCall :=
  match pending a, o with
  | Some AwaitApi, Fulfilled => await_again CSetAuth AwaitSetAuth a
  | Some AwaitSetAuth, Fulfilled => finish (Some ("Success", "Account created")) (Some (Replace "/(tabs)")) a
  | Some _, Rejected e => finish (Some ("Signup failed", or_str (errError e) "Unexpected error")) None a
  | None, _ => a
  end.

Definition sstep (s : SignupState) (e : SignupEvent) : SignupState :=
  match e with
  | SSetFirst v => mkSignup v (lastName s) (semail s) (spassword s) (sconfirm s) (sasync s)
  | SSetLast v => mkSignup (firstName s) v (semail s) (spassword s) (sconfirm s) (sasync s)
  | SSetEmail v => mkSignup (firstName s) (lastName s) v (spassword s) (sconfirm s) (sasync s)
  | SSetPassword v => mkSignup (firstName s) (lastName s) (semail s) v (sconfirm s) (sasync s)
  | SSetConfirm v => mkSignup (firstName s) (lastName s) (semail s) (spassword s) v (sasync s)
  | SSubmit =>
      if signupDisabled s then s
      else mkSignup (firstName s) (lastName s) (semail s) (spassword s) (sconfirm s)
             (await_call (CSignup (firstName s) (lastName s) (semail s) (spassword s)) AwaitApi (sasync s))
  | SSettle o => mkSignup (firstName s) (lastName s) (semail s) (spassword s) (sconfirm s)
                   (signupResume o (sasync s))
  end.

(** *** Forgot password ([src/app/auth/forgot-password.tsx]) *)

Record ForgotState := mkForgot { femail : string; fasync : Async OnePc AuthCall }.

Definition forgotDisabled (s : ForgotState) : bool := loading (fasync s) || negb (isEmail (femail s)).

Inductive ForgotEvent := FSetEmail (v : string) | FSubmit | FSettle (o : Outcome).

(** [onSubmit] (lines 15-26). *)
Definition fstep (s : ForgotState) (e : ForgotEvent) : ForgotState :=
  match e with
  | FSetEmail v => mkForgot v (fasync s)
  | FSubmit => if forgotDisabled s then s else mkForgot (femail s) (await_call (CForgot (femail s)) AwaitOne (fasync s))
  | FSettle o =>
      mkForgot (femail s)
        match pending (fasync s), o with
        | Some _, Fulfilled =>
            finish (Some ("Check your email", "If an account exists, a reset email was sent"))
              (Some (Push "/auth/login")) (fasync s)
        | Some _, Rejected e => finish (Some ("Error", or_str (errError e) "Unexpected error")) None (fasync s)
        | None, _ => fasync s
        end
  end.

(** *** Reset password ([src/app/auth/reset.tsx]) *)

Record ResetState := mkReset {
  remail : string;
  rtoken : string;
  rpassword : string;
  rconfirm : string;
  rasync : Async OnePc AuthCall
}.

(** The fields start from the route's [email] and [token] (lines 12-13). *)
Definition resetInitial (email token : option string) : ResetState :=
  mkReset (or_str email "") (or_str token "") "" "" idle.

Definition resetMatch (s : ResetState) : bool :=
  negb (String.length (rconfirm s) =? 0) && bool_decide (rconfirm s = rpassword s).
Definition resetDisabled (s : ResetState) : bool :=
  loading (rasync s) || negb (isPasswordValid (rpassword s)) || negb (resetMatch s).

(** [token ? token.slice(0, 6) + '...' : ''] (line 39). *)
Definition tokenShown (token : string) : string :=
  if bool_decide (token = "") then "" else String.substring 0 6 token +:+ "...".

Inductive ResetEvent := RSetPassword (v : string) | RSetConfirm (v : string) | RSubmit | RSettle (o : Outcome).

(** [onSubmit] (lines 22-33). *)
Definition rstep (s : ResetState) (e : ResetEvent) : ResetState :=
  match e with
  | RSetPassword v => mkReset (remail s) (rtoken s) v (rconfirm s) (rasync s)
  | RSetConfirm v => mkReset (remail s) (rtoken s) (rpassword s) v (rasync s)
  | RSubmit =>
      if resetDisabled s then s
      else mkReset (remail s) (rtoken s) (rpassword s) (rconfirm s)
             (await_call (CReset (remail s) (rtoken s) (rpassword s)) AwaitOne (rasync s))
  | RSettle o =>
      mkReset (remail s) (rtoken s) (rpassword s) (rconfirm s)
        match pending (rasync s), o with
        | Some _, Fulfilled => finish (Some ("Success", "Password updated")) (Some (Push "/auth/login")) (rasync s)
        | Some _, Rejected e => finish (Some ("Error", or_str (errError e) "Unexpected error")) None (rasync s)
        | None, _ => rasync s
        end
  end.

(** The strength meter under the new password (lines 18 and 41). *)
Definition resetStrength (s : ResetState) : string * string :=
  (strengthLabel (passwordStrength (rpassword s)), strengthWidth (passwordStrength (rpassword s))).

(** *** Change password ([src/app/auth/change-password.tsx]) *)

Record ChangeState := mkChange {
  oldPw : string;
  nextPw : string;
  cconfirm : string;
  casync : Async OnePc AuthCall
}.

Definition changeInitial : ChangeState := mkChange "" "" "" idle.

(** [validNew], [matchValid] and [canSubmit] (lines 38-46). *)
Definition changeMatch (s : ChangeState) : bool :=
  negb (String.length (cconfirm s) =? 0) && bool_decide (cconfirm s = nextPw s).
Definition canSubmit (s : ChangeState) : bool :=
  negb (bool_decide (oldPw s = "")) && isPasswordValid (nextPw s) && changeMatch s && negb (loading (casync s)).

(** The three fields (lines 118-151): the current password's [valid] is
    [oldPw.length > 0] even while it is empty; the new password's error
    is only the one for reusing the current password. *)
Definition changeFields (s : ChangeState) : list FieldView :=
  [mkField (Some (negb (bool_decide (oldPw s = "")))) None;
   mkField (if bool_decide (nextPw s = "") then None
            else Some (isPasswordValid (nextPw s) && negb (bool_decide (nextPw s = oldPw s))))
           (if negb (bool_decide (nextPw s = "")) && bool_decide (nextPw s = oldPw s)
            then Some "New password must be different from current" else None);
   mkField (if bool_decide (cconfirm s = "") then None else Some (changeMatch s))
           (if negb (bool_decide (cconfirm s = "")) && negb (changeMatch s)
            then Some "Passwords do not match" else None)].

(** The back button (line 103): [router.back()]. *)
Definition changeBack : Nav := Back.

(** The message of the [catch] (lines 75-91). *)
Definition changeError (e : ApiError) : string :=
  match errError e with
  | Some "INVALID_CREDENTIALS" => "Current password is incorrect."
  | Some "INVALID_INPUT" => "Invalid password input."
  | Some "NOT_FOUND" => "Account not found."
  | Some "UNAUTHORIZED" => "Session expired. Please login again."
  | Some "INVALID_TOKEN" => "Invalid session. Please login again."
  | _ => "Failed to update password: " +:+ or_str (errError e) (or_str (errMessage e) "Unknown error")
  end.

Inductive ChangeEvent := CSetOld (v : string) | CSetNew (v : string) | CSetConfirm (v : string) | CSubmit | CSettle (o : Outcome).

(** [onSubmit] (lines 47-92), with the token [AuthContext] holds: the
    two early returns clear [loading] and alert without a call. *)
Definition changeSubmit (token : option string) (s : ChangeState) : Async OnePc AuthCall :=
  match token with
  | Some t =>
      if bool_decide (t = "") then finish (Some ("Not authenticated", "Please login again.")) None (casync s)
      else if bool_decide (nextPw s = oldPw s)
      then finish (Some ("Invalid password", "New password must be different from current.")) None (casync s)
      else await_call (CChange t (oldPw s) (nextPw s)) AwaitOne (casync s)
  | None => finish (Some ("Not authenticated", "Please login again.")) None (casync s)
  end.

Definition cstep (token : option string) (s : ChangeState) (e : ChangeEvent) : ChangeState :=
  match e with
  | CSetOld v => mkChange v (nextPw s) (cconfirm s) (casync s)
  | CSetNew v => mkChange (oldPw s) v (cconfirm s) (casync s)
  | CSetConfirm v => mkChange (oldPw s) (nextPw s) v (casync s)
  | CSubmit => if canSubmit s then mkChange (oldPw s) (nextPw s) (cconfirm s) (changeSubmit token s) else s
  | CSettle o =>
      mkChange (oldPw s) (nextPw s) (cconfirm s)
        match pending (casync s), o with
        | Some _, Fulfilled => finish (Some ("Success", "Password updated successfully.")) (Some Back) (casync s)
        | Some _, Rejected e => finish (Some ("Error", changeError e)) None (casync s)
        | None, _ => casync s
        end
  end.

Definition crun (token : option string) (es : list ChangeEvent) : ChangeState := foldl (cstep token) changeInitial es.
Definition lrun (es : list LoginEvent) : LoginState := foldl lstep loginInitial es.

End Forms.

End AuthForms.

(** ** Properties *)

Module AuthFacts.
Import AuthForms.

Section Validators.
Context (isEmail isPasswordValid : string -> bool).

(** Every change-password request carries a token, a current password,
    a valid new password different from it; and the form waits for a
    request exactly while [loading] is set. *)
Definition change_ok (c : AuthCall) : Prop :=
  match c with
  | CChange t o n => t <> "" /\ o <> "" /\ isPasswordValid n = true /\ n <> o
  | _ => False
  end.

Definition cinv (s : ChangeState) : Prop :=
  Forall change_ok (calls (casync s)) /\ (loading (casync s) = true <-> is_Some (pending (casync s))).

Lemma finish_inv al nv (s : ChangeState) :
  cinv s -> cinv (mkChange (oldPw s) (nextPw s) (cconfirm s) (finish al nv (casync s))).
Proof. intros [H _]. split; [exact H|]. simpl. split; [done|]. by intros []. Qed.

Lemma cstep_inv token s e : cinv s -> cinv (cstep isPasswordValid token s e).
Proof.
  intros Hs. destruct e; simpl; try exact Hs.
  - destruct (canSubmit isPasswordValid s) eqn:Hc; [|exact Hs].
    unfold canSubmit in Hc. repeat (apply andb_true_iff in Hc as [Hc ?]).
    apply negb_true_iff, bool_decide_eq_false in Hc.
    unfold changeSubmit. destruct token as [t|]; [|by apply finish_inv].
    case_bool_decide; [by apply finish_inv|]. case_bool_decide; [by apply finish_inv|].
    split; [|simpl; split; [by eexists|done]].
    apply Forall_app; split; [apply Hs|]. repeat constructor; done.
  - destruct (pending (casync s)); [|exact Hs]. destruct o; by apply finish_inv.
Qed.

Lemma crun_inv token es : cinv (crun isPasswordValid token es).
Proof.
  unfold crun. assert (H : cinv changeInitial) by (split; [constructor|simpl; split; [done|by intros []]]).
  revert H. generalize changeInitial. induction es as [|e es IH]; intros s Hs; simpl; [done|].
  by apply IH, cstep_inv.
Qed.

(** C12: whatever the user types and presses and however the request
    settles, change-password sends [changePassword] only with a token, a
    non-empty current password and a valid new password different from
    it, and at most one request runs at a time. *)
Theorem change_password_requests_valid token es :
  Forall change_ok (calls (casync (crun isPasswordValid token es))) /\
  (loading (casync (crun isPasswordValid token es)) = true <->
   is_Some (pending (casync (crun isPasswordValid token es)))).
Proof. apply crun_inv. Qed.

(** a login with a valid email and a password of at least eight
    characters calls the API, then [setAuth], and replaces the screen by
    the tabs; a rejection at either step alerts "Login failed" with the
    error's [error], else its [message], else "Unexpected error
    occurred", and leaves the form usable again. *)
Theorem login_flow id pw e :
  isEmail id = true -> 8 <= String.length pw ->
  let pre := [LSetIdentifier id; LSetPassword pw; LSubmit] in
  let ok := lrun isEmail (pre ++ [LSettle Fulfilled; LSettle Fulfilled]) in
  let ko := lrun isEmail (pre ++ [LSettle (Rejected e)]) in
  calls (lasync ok) = [CLogin id pw; CSetAuth] /\ navs (lasync ok) = [Replace "/(tabs)"] /\
  alerts (lasync ok) = [("Success", "Logged in successfully")] /\
  alerts (lasync ko) = [("Login failed", loginError e)] /\ navs (lasync ko) = [] /\
  loading (lasync ko) = false /\
  loginError e = or_str (errError e) (or_str (errMessage e) "Unexpected error occurred").
Proof.
  intros He Hp. cbv zeta. unfold lrun. rewrite !foldl_app. cbn [foldl].
  assert (Hsub : lstep isEmail (lstep isEmail (lstep isEmail loginInitial (LSetIdentifier id)) (LSetPassword pw)) LSubmit
                 = mkLogin id pw (await_call (CLogin id pw) AwaitApi idle)).
  { unfold lstep at 1, loginDisabled, idValid, passwordValid.
    cbn [lstep identifier lpassword lasync loading loginInitial idle].
    by rewrite He, (proj2 (Nat.leb_le _ _) Hp). }
  rewrite Hsub. split_and!; reflexivity.
Qed.

(** A field shows [valid] exactly when its test passes, for a test
    that fails on the empty text. *)
Lemma fieldView_valid v ok m : (v = "" -> ok = false) -> fvalid (fieldView v ok m) = Some true <-> ok = true.
Proof.
  intros H. unfold fieldView. case_bool_decide as Hv; simpl; [|split; congruence].
  rewrite (H Hv). split; discriminate.
Qed.

(** The Sign Up button is enabled exactly when nothing is loading and
    every field shows [valid], for validators that reject the empty
    text: the feedback of the fields and the button agree. *)
Lemma signup_enabled_iff_fields_valid s :
  isEmail "" = false -> isPasswordValid "" = false ->
  signupDisabled isEmail isPasswordValid s = false <->
  loading (sasync s) = false /\ Forall (fun f => fvalid f = Some true) (signupFields isEmail isPasswordValid s).
Proof.
  intros He Hp. unfold signupFields, signupDisabled, signupMatch.
  rewrite !Forall_cons, Forall_nil, !fieldView_valid
    by (intros Hc; rewrite Hc; first [reflexivity | assumption]).
  rewrite !orb_false_iff, !negb_false_iff. tauto.
Qed.

(** The Update Password button is enabled while the new-password field
    shows "New password must be different from current": [canSubmit]
    does not test [nextPw !== oldPw]; only [onSubmit] does. *)
Lemma change_enabled_with_error pw :
  pw <> "" -> isPasswordValid pw = true ->
  let s := mkChange pw pw pw idle in
  canSubmit isPasswordValid s = true /\
  ferror (nth 1 (changeFields isPasswordValid s) (mkField None None)) =
    Some "New password must be different from current".
Proof.
  intros Hne Hv. unfold canSubmit, changeFields, changeMatch. cbn [oldPw nextPw cconfirm casync nth ferror].
  rewrite Hv, (bool_decide_false (pw = "")), (bool_decide_true (pw = pw)) by done.
  destruct pw as [|c r]; done.
Qed.

End Validators.

(** the welcome screen replaces itself by the tabs exactly when the
    navigation is ready and the session is authenticated: the status
    says so, a token is present, and a non-zero expiry lies in the
    future. *)
Theorem welcome_redirect navKey status expiresAt token now :
  welcomeRedirect navKey (isAuthenticated status expiresAt token now) = Some (Replace "/(tabs)") <->
  truthy_str navKey = true /\ status = "authenticated" /\ truthy_str token = true /\
  (forall e, expiresAt = Some e -> e <> 0%Z -> (now < e)%Z).
Proof.
  unfold welcomeRedirect, isAuthenticated.
  destruct (truthy_str navKey), (truthy_str token); simpl; rewrite ?andb_true_r, ?andb_false_r;
    try (split; [discriminate|intros (? & ? & ? & ?); discriminate]).
  case_bool_decide as Hs; simpl; [|split; [discriminate|intros (_ & ? & _); done]].
  destruct expiresAt as [e|].
  - destruct (Z.eqb_spec e 0) as [->|He].
    + split; [intros _; split_and!; try done; by intros ? [= <-]|done].
    + destruct (Z.ltb_spec now e); split; try done.
      * intros _. split_and!; try done. by intros ? [= <-].
      * intros (_ & _ & _ & Hx). specialize (Hx e eq_refl He). lia.
  - split; [intros _; split_and!; done|done].
Qed.

(** the reset screen shows at most the first six characters of the
    reset token, followed by "...". *)
Theorem token_shown_prefix token :
  token <> "" -> exists p, tokenShown token = p +:+ "..." /\ String.length p <= 6 /\ String.prefix p token = true.
Proof.
  intros Ht. unfold tokenShown. rewrite bool_decide_false by done.
  exists (String.substring 0 6 token). split_and!; [done| |].
  - clear Ht. generalize 6. induction token as [|c t IH]; intros [|n]; simpl; try lia.
    specialize (IH n). lia.
  - clear Ht. generalize 6. induction token as [|c t IH]; intros [|n]; simpl; try done.
    destruct (Ascii.ascii_dec c c); [apply IH|done].
Qed.

(** A password field of a form draws its value's check: an empty field
    shows no error and its border follows focus; a filled one is green
    when its validator accepts and red with the form's message when it
    refuses, focused or not. *)
Theorem password_field_check v ok m s :
  m <> "" ->
  let w := pfView (fieldView v ok m) s in
  (v = "" -> pfError w = None /\ pfBorderColor w = (if isFocused s then "green" else "#ccc")) /\
  (v <> "" -> pfBorderColor w = (if ok then "green" else "red") /\ pfError w = (if ok then None else Some m)).
Proof.
  intros Hm. unfold pfView, fieldView. split; intros Hv.
  - rewrite bool_decide_true by done. done.
  - rewrite bool_decide_false by done. simpl. destruct ok; simpl; [done|].
    rewrite bool_decide_false by done. done.
Qed.

Definition toggles (es : list PFEvent) : nat :=
  length (List.filter (fun e => match e with PFToggle => true | _ => false end) es).

(** C37: The password stays masked exactly while the toggle has been pressed
    an even number of times, whatever the focus changes; the toggle
    reads "Show" while it is masked. *)
Theorem password_masked_parity fv es :
  let w := pfView fv (foldl pfStep pfInitial es) in
  pfMasked w = Nat.even (toggles es) /\ pfToggleText w = (if Nat.even (toggles es) then "Show" else "Hide").
Proof.
  assert (H : forall s, visible (foldl pfStep s es) = xorb (visible s) (negb (Nat.even (toggles es)))).
  { induction es as [|e es IH]; intros s; cbn [foldl]; [by destruct (visible s)|].
    rewrite IH. unfold toggles. destruct e; cbn [List.filter length pfStep visible]; [|done|done].
    rewrite Nat.even_succ, <- Nat.negb_even. by destruct (visible s), (Nat.even _). }
  simpl. rewrite H. simpl. by destruct (Nat.even _).
Qed.

End AuthFacts.

Module AuthWitnesses.
Import AuthForms AuthFacts.

(** A validator for the witnesses: an email holds an "@". *)
Definition w_isEmail (s : string) : bool := str_includes s "@".

Lemma login_flow_witness :
  navs (lasync (lrun w_isEmail [LSetIdentifier "ada@example.com"; LSetPassword "s3cretpass"; LSubmit;
                                LSettle Fulfilled; LSettle Fulfilled])) = [Replace "/(tabs)"].
Proof.
  destruct (login_flow w_isEmail "ada@example.com" "s3cretpass" (mkErr None None))
    as (_ & H & _); [reflexivity|simpl; lia|exact H].
Defined.

Lemma token_shown_prefix_witness :
  exists p, tokenShown "a1b2c3d4e5" = p +:+ "..." /\ String.length p <= 6 /\ String.prefix p "a1b2c3d4e5" = true.
Proof. apply token_shown_prefix. discriminate. Defined.

End AuthWitnesses.
