(* ===== verification/Calculator.v ===== *)
(** * Calculator: the calculator modal

    [src/components/Calculator.tsx] keeps two strings, [input] and
    [result].  A key appends its label to the input, [C] clears both,
    [DEL] drops the last character, and [=] runs [eval(input)]: on
    success both become [String(res)], on an exception the result
    becomes ["Error"] and the input stays (lines 22-41).  The display
    shows [input || "0"], and the result line when it is neither empty
    nor equal to the input (lines 67-70).

    [eval] is [JsEval.js_eval] for an engine [eng]; the theorems hold for
    every engine unless they say otherwise. *)

From S2P Require Import Prelude Json Scoring JsNumber JsEval JsEvalFacts RoundTrip.
From Stdlib Require Import QArith Ascii.
Import Double NumberToString DecimalLit JsLex JsParse JsEval.

Module CalculatorPad.

Record Calc := mkCalc { input : string; result : string }.

(** [useState("")] twice (lines 19-20). *)
Definition initial : Calc := mkCalc "" "".

(** [prev.slice(0, -1)]: the string without its last character. *)
Definition slice_last (s : string) : string := String.substring 0 (String.length s - 1) s.

(** The key pad (lines 43-49). *)
Definition buttons : list (list string) :=
  [["C"; "DEL"; "%"; "/"]; ["7"; "8"; "9"; "*"]; ["4"; "5"; "6"; "-"];
   ["1"; "2"; "3"; "+"]; ["."; "0"; "00"; "="]].

Section Pad.
Variable eng : Engine.

(** [handlePress(value)] (lines 22-41). *)
Definition handlePress (value : string) (s : Calc) : Calc :=
  if bool_decide (value = "=") then
    match js_eval eng (input s) with
    | inl res => mkCalc (to_string res) (to_string res)
    | inr _ => mkCalc (input s) "Error"
    end
  else if bool_decide (value = "C") then mkCalc "" ""
  else if bool_decide (value = "DEL") then mkCalc (slice_last (input s)) (result s)
  else mkCalc (input s +:+ value) (result s).

(** A sequence of key presses, one render each. *)
Definition presses (s : Calc) (keys : list string) : Calc :=
  foldl (fun s k => handlePress k s) s keys.

(** The modal's presses: a key of the grid ([onPress={() =>
    handlePress(btn)}], line 86), the close button (line 61) and the
    system's back request ([onRequestClose], line 55); the last two call
    [onClose] and leave the state as it is. *)
Inductive CalcEvent := KeyPress (row col : nat) | CloseButton | RequestClose.

(** One press; [true] when it calls [onClose]. *)
Definition calcStep (e : CalcEvent) (s : Calc) : Calc * bool :=
  match e with
  | KeyPress r c =>
      match buttons !! r ≫= (.!! c) with Some b => (handlePress b s, false) | None => (s, false) end
  | CloseButton | RequestClose => (s, true)
  end.

End Pad.

(** [{input || "0"}] (line 67). *)
Definition displayText (s : Calc) : string :=
  if bool_decide (input s = "") then "0" else input s.

(** [{result !== "" && result !== input && ...}] (lines 68-70). *)
Definition resultLine (s : Calc) : option string :=
  if bool_decide (result s <> "") && bool_decide (result s <> input s) then Some (result s) else None.

(** The key styles (lines 81-83 and 91-93). *)
Definition actionKey (b : string) : bool := bool_decide (b ∈ ["C"; "DEL"]).
Definition operatorKey (b : string) : bool := bool_decide (b ∈ ["/"; "*"; "-"; "+"; "="; "%"]).

(** A key of the grid: its label and its style classes (lines 76-98). *)
Record KeyView := mkKeyView { keyLabel : string; keyAction : bool; keyOperator : bool }.

(** The modal (lines 50-106): shown when [visible], the display, the
    result line and the grid of keys. *)
Record CalcView := mkCalcView {
  cvVisible : bool; cvDisplay : string; cvResult : option string; cvRows : list (list KeyView)
}.

Definition calcView (visible : bool) (s : Calc) : CalcView :=
  mkCalcView visible (displayText s) (resultLine s)
    (map (map (fun b => mkKeyView b (actionKey b) (operatorKey b))) buttons).

(** The keys a user can press. *)
Definition key (b : string) : Prop := b ∈ concat buttons.

End CalculatorPad.

(** ** Properties *)

Module CalculatorFacts.
Import CalculatorPad JsEvalFacts NumberRoundTrip.

(** The keys that type the characters of [ds], one each. *)
Definition keys (ds : string) : list string :=
  map (fun c => String c EmptyString) (String.list_ascii_of_string ds).

Lemma presses_app eng s k1 k2 : presses eng s (k1 ++ k2) = presses eng (presses eng s k1) k2.
Proof. unfold presses. by rewrite foldl_app. Qed.

Lemma press_append eng s v :
  v <> "=" -> v <> "C" -> v <> "DEL" -> handlePress eng v s = mkCalc (input s +:+ v) (result s).
Proof. intros H1 H2 H3. unfold handlePress. by rewrite !bool_decide_false. Qed.

(** Typing digits appends them to the input. *)
Lemma presses_digits eng s ds :
  all_radix 10 ds = true -> presses eng s (keys ds) = mkCalc (input s +:+ ds) (result s).
Proof.
  revert s. induction ds as [|c ds IH]; intros s H.
  - destruct s; simpl. by rewrite string_app_nil.
  - rewrite all_radix_cons in H. apply andb_true_iff in H as [Hc H]. apply bool_decide_eq_true in Hc.
    simpl. rewrite press_append by (intros Heq; inversion Heq; subst; by apply Hc).
    rewrite IH by done. simpl. by rewrite string_app_assoc.
Qed.

Lemma op_stop_key c t : c ∈ ["+"; "-"; "*"; "/"; "%"]%char -> op_stop (String c t) = true.
Proof. intros H. simpl. by apply bool_decide_eq_true. Qed.

#[local] Hint Resolve op_stop_key : core.

(** [=] on an empty display evaluates the empty script, whose
    value is [undefined]: the display then reads "undefined" and the
    result line stays hidden, on every engine. *)
Theorem equals_on_empty_shows_undefined eng :
  handlePress eng "=" initial = mkCalc "undefined" "undefined" /\
  displayText (handlePress eng "=" initial) = "undefined" /\
  resultLine (handlePress eng "=" initial) = None.
Proof. split_and!; reflexivity. Qed.

(** C13: the [%] key is JavaScript's remainder operator, not a
    percentage: a number followed by [%] and [=] is a SyntaxError, shown
    as "Error" with the input kept, and [a % b] shows the remainder of
    [a] by [b]. *)
Theorem percent_key_is_remainder eng a b :
  plain_digits a = true -> plain_digits b = true ->
  presses eng initial (keys a ++ ["%"; "="]) = mkCalc (a +:+ "%") "Error" /\
  presses eng initial (keys a ++ ["%"] ++ keys b ++ ["="]) =
  (let v := number_to_string (drem (round (inject_Z (digits_val 10 a))) (round (inject_Z (digits_val 10 b)))) in
   mkCalc v v).
Proof.
  intros Ha Hb. assert (Ha' : all_radix 10 a = true) by (destruct a; [done|by apply andb_true_iff in Ha as [_ ?]]).
  assert (Hb' : all_radix 10 b = true) by (destruct b; [done|by apply andb_true_iff in Hb as [_ ?]]).
  split.
  - rewrite presses_app, presses_digits by done. simpl. rewrite string_app_nil_l.
    unfold handlePress at 1. simpl. rewrite (js_eval_tokens eng _ [TNum (round (inject_Z (digits_val 10 a))); TPunct PPercent]).
    + reflexivity.
    + rewrite lexc_plain by auto. by rewrite lexc_percent.
  - rewrite presses_app, presses_digits by done. simpl. rewrite presses_app, presses_digits by done.
    simpl. rewrite string_app_nil_l, string_app_assoc. simpl.
    unfold handlePress at 1. simpl.
    rewrite (js_eval_tokens eng _ [TNum (round (inject_Z (digits_val 10 a))); TPunct PPercent;
                                   TNum (round (inject_Z (digits_val 10 b)))]).
    + reflexivity.
    + rewrite lexc_plain by auto. rewrite ?string_app_cons, ?string_app_nil_l, lexc_percent.
      pose proof (lexc_plain (strict eng) false b "" Hb eq_refl) as E. rewrite string_app_nil in E. by rewrite E.
Qed.

(** C15: two [/] keys in a row open a JavaScript line comment: whatever
    is typed after them is ignored, and [=] shows the number before
    them. *)
Theorem double_slash_ignores_rest eng a b :
  plain_digits a = true -> all_radix 10 b = true ->
  presses eng initial (keys a ++ ["/"; "/"] ++ keys b ++ ["="]) =
  (let v := number_to_string (round (inject_Z (digits_val 10 a))) in mkCalc v v).
Proof.
  intros Ha Hb. assert (Ha' : all_radix 10 a = true) by (destruct a; [done|by apply andb_true_iff in Ha as [_ ?]]).
  rewrite presses_app, presses_digits by done. simpl. rewrite presses_app, presses_digits by done.
  simpl. rewrite string_app_nil_l, !string_app_assoc. simpl.
  unfold handlePress at 1. simpl.
  rewrite (js_eval_tokens eng _ [TNum (round (inject_Z (digits_val 10 a)))]).
  - reflexivity.
  - rewrite lexc_plain by auto. rewrite ?string_app_cons, ?string_app_nil_l, lexc_line_comment, (skip_line_digits 10) by done. done.
Qed.

(** C14: a number typed as the [0] key followed by octal digits
    ([0]-[7]) is a legacy octal literal: a sloppy eval shows its base-8
    value ("010" gives 8, not 10) and a strict eval a SyntaxError with
    the input kept.  Digits [8] and [9] and a decimal point are not
    covered. *)
Theorem leading_zero_octal eng ds :
  ds <> "" -> all_radix 8 ds = true ->
  presses eng initial (["0"] ++ keys ds ++ ["="]) =
  if strict eng then mkCalc ("0" +:+ ds) "Error"
  else let v := number_to_string (round (inject_Z (digits_val 8 ds))) in mkCalc v v.
Proof.
  intros Hne Hd.
  assert (Hd10 : all_radix 10 ds = true).
  { clear Hne. induction ds as [|c ds IH]; [done|]. rewrite !all_radix_cons in Hd |- *.
    apply andb_true_iff in Hd as [Hc Hd]. apply bool_decide_eq_true in Hc.
    destruct (octal_digit c Hc) as (_ & _ & Hdig). rewrite IH by done. unfold is_digit in Hdig. by rewrite Hdig. }
  rewrite presses_app. simpl. rewrite presses_app, presses_digits by done. simpl.
  unfold handlePress at 1. simpl. unfold js_eval. rewrite tokenize_lexc.
  rewrite ?string_app_nil_l, ?string_app_cons, ?string_app_nil_l.
  pose proof (lexc_leading_zero (strict eng) false ds "" Hne Hd eq_refl) as E. rewrite string_app_nil in E. rewrite E.
  by destruct (strict eng).
Qed.

(** C16: [=] is idempotent on numbers: when [=] evaluates the input to
    a Number [x], the display holds [String(x)], and pressing [=] again
    evaluates that text back to a number that prints the same, so the
    state does not change; on every engine. *)
Theorem equals_idempotent eng s x :
  is_double x -> js_eval eng (input s) = inl (VNum x) ->
  handlePress eng "=" (handlePress eng "=" s) = handlePress eng "=" s.
Proof.
  intros Hx He. unfold handlePress at 2 3. rewrite bool_decide_true, He by done. simpl.
  unfold handlePress. rewrite bool_decide_true by done. simpl.
  rewrite eval_number_to_string by done. by destruct x as [[]| | |].
Qed.

End CalculatorFacts.

Module CalculatorWitnesses.
Import CalculatorPad CalculatorFacts.

(** A sloppy engine; its [pow] plays no part here. *)
Definition w_sloppy : Engine := mkEngine false (fun _ _ => DNaN).

Lemma percent_key_is_remainder_witness :
  presses w_sloppy initial ["5"; "0"; "%"; "="] = mkCalc "50%" "Error" /\
  presses w_sloppy initial ["5"; "0"; "%"; "3"; "="] = mkCalc "2" "2".
Proof.
  destruct (percent_key_is_remainder w_sloppy "50" "3" eq_refl eq_refl) as [H1 H2].
  split; [exact H1|]. refine (eq_trans H2 _). vm_compute. reflexivity.
Defined.

Lemma double_slash_ignores_rest_witness :
  presses w_sloppy initial ["5"; "/"; "/"; "3"; "="] = mkCalc "5" "5".
Proof.
  refine (eq_trans (double_slash_ignores_rest w_sloppy "5" "3" eq_refl eq_refl) _).
  vm_compute. reflexivity.
Defined.

Lemma equals_idempotent_witness :
  presses w_sloppy initial ["0"; "."; "1"; "+"; "0"; "."; "2"; "="; "="] =
  mkCalc "0.30000000000000004" "0.30000000000000004".
Proof.
  change (presses w_sloppy initial ["0"; "."; "1"; "+"; "0"; "."; "2"; "="; "="])
    with (handlePress w_sloppy "=" (handlePress w_sloppy "=" (mkCalc "0.1+0.2" ""))).
  refine (eq_trans (equals_idempotent w_sloppy (mkCalc "0.1+0.2" "")
                      (DFin (1351079888211149 # 4503599627370496)) _ _) _); vm_compute; reflexivity.
Defined.

Lemma leading_zero_octal_witness :
  presses w_sloppy initial ["0"; "1"; "0"; "="] = mkCalc "8" "8".
Proof.
  refine (eq_trans (leading_zero_octal w_sloppy "10" ltac:(discriminate) eq_refl) _).
  vm_compute. reflexivity.
Defined.

End CalculatorWitnesses.
