(* ===== verification/AppShell.v ===== *)
(** * AppShell: the root layout, the tab layout, App Settings and the
    navigation error boundary

    [src/app/_layout.tsx] wraps every route of the root Stack in
    [NavigationErrorBoundary] ([src/components/navigation]).  It takes
    the screens' background and the status bar from [isDark] of the
    theme context.  [src/app/(tabs)/_layout.tsx] configures the tab
    navigator; it takes its tint from the device's color scheme.
    [src/app/settings/app-settings.tsx] lets the user pick the theme
    mode.

    The theme context ([ThemeContext]) is not under [src/].  Its
    contract is the class [ThemeStore]: the mode is what was last set,
    and [isDark] is the mode, or the device's scheme for [System].  The
    colors of [useThemeColor] are a [Palette] parameter.  The error
    boundary is a class component.  [renderTree] is React's protocol
    for it: a render error of the children calls
    [getDerivedStateFromError] and shows the fallback, and
    [componentDidCatch] logs the error.  The outcome of rendering the
    children (the current route's screen) is an input. *)

From S2P Require Import Prelude Json Questions Scoring Corrections.
From Stdlib Require Import Ascii.

(** ** The theme context's contract *)

Module Theme.

(** ["light" | "dark" | "system"]. *)
Inductive ThemeMode := Light | Dark | System.

#[export] Instance ThemeMode_eq_dec : EqDecision ThemeMode.
Proof. solve_decision. Defined.

(** [useColorScheme()]: ["light"], ["dark"] or nothing. *)
Inductive ColorScheme := SchemeLight | SchemeDark | SchemeNone.

#[export] Instance ColorScheme_eq_dec : EqDecision ColorScheme.
Proof. solve_decision. Defined.

(** What the screens use of [useTheme()]. *)
Class ThemeStore (S : Type) := {
  themeMode : S -> ThemeMode;
  isDark : S -> bool;
  setThemeMode : ThemeMode -> S -> S;
  deviceScheme : S -> ColorScheme
}.

(** The store keeps the mode it is given and follows the device for
    [System]; setting the mode does not change the device. *)
Class ThemeStoreLaws (S : Type) `{ThemeStore S} := {
  set_mode m s : themeMode (setThemeMode m s) = m;
  set_device m s : deviceScheme (setThemeMode m s) = deviceScheme s;
  is_dark_mode s : isDark s = match themeMode s with
                              | Dark => true
                              | Light => false
                              | System => bool_decide (deviceScheme s = SchemeDark)
                              end
}.

End Theme.

(** ** App Settings *)

Module AppSettings.
Import Theme.

(** The colors [useThemeColor] gives (lines 14-18). *)
Record Palette := mkPalette { card : string; cardBorder : string; text : string; textSecondary : string; primary : string }.

Record ThemeOption := mkThemeOption { value : ThemeMode; label : string; icon : string }.

(** Lines 20-24. *)
Definition themeOptions : list ThemeOption :=
  [mkThemeOption Light "Light" "sunny"; mkThemeOption Dark "Dark" "moon";
   mkThemeOption System "System" "phone-portrait"].

(** [`${themeMode}`]. *)
Definition modeString (m : ThemeMode) : string :=
  match m with Light => "light" | Dark => "dark" | System => "system" end.

(** One option card (lines 54-90). *)
Record OptionView := mkOptionView {
  ovValue : ThemeMode; ovLabel : string; ovIcon : string;
  ovBorderColor : string; ovBorderWidth : nat; ovIconBg : string; ovIconColor : string;
  ovLabelColor : string; ovCheckmark : bool
}.

Definition optionView (p : Palette) (mode : ThemeMode) (o : ThemeOption) : OptionView :=
  let sel := bool_decide (mode = value o) in
  mkOptionView (value o) (label o) (icon o)
    (if sel then primary p else cardBorder p) (if sel then 2 else 1)
    (if sel then primary p +:+ "15" else cardBorder p +:+ "30")
    (if sel then primary p else textSecondary p)
    (if sel then primary p else text p) sel.

(** The info card (lines 95-102). *)
Definition infoText (mode : ThemeMode) : string :=
  if bool_decide (mode = System)
  then "The app will automatically switch between light and dark mode based on your device settings."
  else "The app is currently using " +:+ modeString mode +:+ " mode.".

Record SettingsView := mkSettingsView { svOptions : list OptionView; svInfo : string }.

(** The screen (lines 26-107). *)
Definition settingsView (p : Palette) (mode : ThemeMode) : SettingsView :=
  mkSettingsView (map (optionView p mode) themeOptions) (infoText mode).

(** The presses: an option card ([setThemeMode(option.value)]) or the
    back button ([router.back()]). *)
Inductive SettingsEvent := PressOption (m : ThemeMode) | PressBack.

Section Store.
Context `{ThemeStore St}.

(** A press; [true] when it navigates back. *)
Definition settingsStep (e : SettingsEvent) (s : St) : St * bool :=
  match e with
  | PressOption m => (setThemeMode m s, false)
  | PressBack => (s, true)
  end.

End Store.

End AppSettings.

(** ** The root Stack *)

Module RootLayout.

Record StackScreen := mkStackScreen { ssName : string; ssHeaderShown : option bool; ssTitle : option string }.

Definition hidden (n : string) : StackScreen := mkStackScreen n (Some false) None.
Definition titled (n t : string) : StackScreen := mkStackScreen n None (Some t).

(** The screens the Stack declares (lines 28-77). *)
Definition stackScreens : list StackScreen :=
  [hidden "(tabs)"; hidden "index"; hidden "auth/login"; hidden "auth/signup";
   titled "auth/forgot-password" "Forgot Password"; titled "auth/reset" "Reset Password";
   hidden "auth/edit-profile"; hidden "mode/study"; hidden "mode/exam"; hidden "mode/past-options";
   hidden "mode/past-study"; hidden "mode/exam-instructions"; hidden "mode/exam-results";
   hidden "mode/exam-corrections"; hidden "mode/saved-questions"; hidden "settings/app-settings";
   hidden "auth/change-password"].

Inductive NavTheme := DarkTheme | DefaultTheme.

Record RootView := mkRootView { navTheme : NavTheme; contentBg : string; statusBar : string; screens : list StackScreen }.

(** [RootLayoutNav] (lines 15-84): everything follows [isDark] of the
    theme context; [useColorScheme()] is read and not used. *)
Definition rootLayoutNav (isDark : bool) : RootView :=
  mkRootView (if isDark then DarkTheme else DefaultTheme)
    (if isDark then "#121212" else "#f1f7f1")
    (if isDark then "light" else "dark")
    stackScreens.

(** The routes expo-router derives from the files under [src/app]
    (groups in parentheses, [index] files, dynamic segments). *)
Definition app_routes : list string :=
  ["(tabs)"; "index"; "auth/change-password"; "auth/edit-profile"; "auth/forgot-password";
   "auth/login"; "auth/reset"; "auth/signup"; "flashcards/[id]"; "flashcards/index";
   "mode/exam-corrections"; "mode/exam-instructions"; "mode/exam-results"; "mode/past-options";
   "mode/past-study"; "mode/saved-questions"; "mode/study"; "performance/index"; "settings/app-settings"].

(** The routes of the [(tabs)] group: its only file is [menu.tsx]. *)
Definition tab_routes : list string := ["menu"].

End RootLayout.

(** ** The tab navigator *)

Module TabLayout.
Import Theme.

Record TabOptions := mkTabOptions {
  toHeaderShown : bool; toActiveTint : string; toInactiveTint : string; toShowLabel : bool; toHideOnKeyboard : bool
}.

Record TabScreen := mkTabScreen { tsName : string; tsTitle : string; tsIcon : string }.

(** Lines 14-19: computed from the device's scheme and not used. *)
Definition edgeColor (cs : ColorScheme) : string :=
  if bool_decide (cs = SchemeDark) then "rgba(255,255,255,0.12)" else "rgba(0,0,0,0.10)".
Definition surfaceColor (cs : ColorScheme) : string :=
  if bool_decide (cs = SchemeDark) then "rgba(18, 18, 18, 0.28)" else "rgba(255, 255, 255, 0.28)".

(** [screenOptions] (lines 23-44): the tint follows [useColorScheme()]. *)
Definition tabOptions (cs : ColorScheme) : TabOptions :=
  mkTabOptions false (if bool_decide (cs = SchemeDark) then "#7AE584" else "#2E7D32") "#8A8A9E" true true.

(** The tabs (lines 47-73). *)
Definition tabScreens : list TabScreen :=
  [mkTabScreen "index" "Home" "house.fill"; mkTabScreen "novels" "Novels" "book.fill";
   mkTabScreen "menu" "Menu" "menu"].

End TabLayout.

(** ** The navigation error boundary *)

Module ErrorBoundary.

Section Boundary.
(** [V]: what the children render to; [E]: what their render throws. *)
Variables (V E : Type).

(** [type State = { hasError: boolean; error?: unknown }] (line 6). *)
Record BState := mkBState { hasError : bool; error : option E }.

(** [state: State = { hasError: false }] (line 9). *)
Definition initialB : BState := mkBState false None.

(** Lines 11-13. *)
Definition getDerivedStateFromError (err : E) : BState := mkBState true (Some err).

(** [this.setState({ hasError: false, error: undefined })] (lines 20-22). *)
Definition handleReset (s : BState) : BState := mkBState false None.

(** The fallback (lines 26-33) or the children. *)
Inductive BView := Fallback | Children (v : V).

(** [render()] (lines 24-38), the children having rendered to [v]. *)
Definition render (s : BState) (v : V) : BView := if hasError s then Fallback else Children v.

(** The boundary's state and what it wrote to the console. *)
Record World := mkWorld { bstate : BState; console : list E }.

(** [componentDidCatch] (lines 15-18): [console.warn] of the error. *)
Definition componentDidCatch (err : E) (w : World) : World := mkWorld (bstate w) (console w ++ [err]).

(** React's render of the tree under the boundary: with [hasError] the
    fallback is rendered and the children are not; otherwise the
    children render to [inl v], or throw [inr err], and then the state
    from [getDerivedStateFromError] is rendered and [componentDidCatch]
    runs in the commit. *)
Definition renderTree (child : V + E) (w : World) : World * BView :=
  if hasError (bstate w) then (w, Fallback)
  else match child with
       | inl v => (w, render (bstate w) v)
       | inr err => (componentDidCatch err (mkWorld (getDerivedStateFromError err) (console w)), Fallback)
       end.

(** A render of the tree, or a press of Retry ([handleReset], then a
    render); the children's outcome at that render is given. *)
Inductive BEvent := BRender (c : V + E) | BRetry (c : V + E).

Definition bstep (e : BEvent) (w : World) : World * BView :=
  match e with
  | BRender c => renderTree c w
  | BRetry c => renderTree c (mkWorld (if hasError (bstate w) then handleReset (bstate w) else bstate w) (console w))
  end.

(** The views of a sequence of events. *)
Fixpoint brun (es : list BEvent) (w : World) : World * list BView :=
  match es with
  | [] => (w, [])
  | e :: es' => let '(w1, v) := bstep e w in let '(w2, vs) := brun es' w1 in (w2, v :: vs)
  end.

End Boundary.

Arguments initialB {E}.
Arguments mkBState {E} hasError error.
Arguments hasError {E} b.
Arguments error {E} b.
Arguments bstate {E} w.
Arguments console {E} w.
Arguments getDerivedStateFromError {E} err.
Arguments handleReset {E} s.
Arguments render {V E} s v.
Arguments componentDidCatch {E} err w.
Arguments renderTree {V E} child w.
Arguments bstep {V E} e w.
Arguments brun {V E} es w.
Arguments Fallback {V}.
Arguments Children {V} v.
Arguments mkWorld {E} bstate console.
Arguments BRender {V E} c.
Arguments BRetry {V E} c.

End ErrorBoundary.

(** ** The corrections screen under the root boundary *)

Module ShellCorrections.
Import QuestionModel Submit CorrectionsScreen ErrorBoundary.

(** [grouped[q.subject].push(q)] on an inherited property throws a
    TypeError. *)
Inductive RenderError := GroupPushTypeError.

(** The exam-corrections route rendered inside the root Stack. *)
Definition correctionsChild (param : option (list QuestionData)) (s : CState) : Screen + RenderError :=
  match CorrectionsScreen.render param s with
  | Crashed => inr GroupPushTypeError
  | sc => inl sc
  end.

End ShellCorrections.

(** ** Properties *)

Module ShellFacts.
Import Theme AppSettings RootLayout TabLayout ErrorBoundary.

Section BoundaryFacts.
Variables (V E : Type).

(** A render shows the fallback exactly when it leaves [hasError] set,
    and shows the children only with the view they rendered to. *)
Lemma renderTree_view (c : V + E) w :
  (snd (renderTree c w) = Fallback <-> hasError (bstate (fst (renderTree c w))) = true) /\
  (forall v, snd (renderTree c w) = Children v -> c = inl v).
Proof.
  unfold renderTree. destruct (hasError _) eqn:Eh; [done|].
  destruct c as [v|err]; simpl; [|done]. unfold render. rewrite Eh. split; [by split|congruence].
Qed.

(** Retry after a caught error brings back children that now render. *)
Lemma retry_recovers (v : V) (w : World E) :
  hasError (bstate w) = true ->
  bstep (BRetry (inl v)) w = (mkWorld initialB (console w), Children v).
Proof. intros H. unfold bstep. by rewrite H. Qed.

(** The events of a sequence of renders ([false]) and Retry presses
    ([true]) whose children render to [c]. *)
Definition events (c : V + E) (ks : list bool) : list (BEvent V E) :=
  map (fun r : bool => if r then BRetry c else BRender c) ks.

(** Children that always throw keep the fallback: after a caught error,
    every view is the fallback, and each Retry logs the error again. *)
Lemma boundary_traps (err : E) (ks : list bool) (w : World E) :
  hasError (bstate w) = true ->
  let '(w', vs) := brun (events (inr err) ks) w in
  hasError (bstate w') = true /\ Forall (eq Fallback) vs /\
  console w' = console w ++ repeat err (count_occ bool_dec ks true).
Proof.
  revert w. induction ks as [|[] ks IH]; intros w Hw; simpl.
  - by rewrite app_nil_r.
  - unfold bstep, renderTree. rewrite Hw. simpl.
    specialize (IH (componentDidCatch err (mkWorld (getDerivedStateFromError err) (console w))) eq_refl).
    destruct (brun _ _) as [w' vs]. destruct IH as (H1 & H2 & H3). split_and!; [done|by constructor|].
    rewrite H3. simpl. by rewrite <- app_assoc.
  - unfold bstep, renderTree. rewrite Hw. simpl.
    specialize (IH w Hw). destruct (brun _ w) as [w' vs]. destruct IH as (H1 & H2 & H3).
    split_and!; [done|by constructor|done].
Qed.

End BoundaryFacts.

Arguments events {V E} c ks.

(** ** The corrections crash under the root boundary *)

Import QuestionModel Submit CorrectionsScreen ShellCorrections.

(** C17 (finding): a corrections payload with a question whose subject names a
    property of [Object.prototype] traps the app on the boundary's
    fallback.  From the first render of the route, every view is
    "Something went wrong"; the fallback offers only Retry, which renders
    the same route again; and each Retry logs one more TypeError.
    Payloads without such a subject pass through: the boundary shows
    the corrections screen itself. *)
Theorem corrections_crash_traps_app param (ss : list CState) (ks : list bool) :
  Exists (fun q => key q ∈ object_prototype_props) (default [] param) ->
  forall s0, let '(w, vs) := brun (BRender (correctionsChild param s0) ::
                                   map (fun '(r, s) => if r : bool then BRetry (correctionsChild param s)
                                                       else BRender (correctionsChild param s)) (combine ks ss))
                                  (mkWorld initialB []) in
  Forall (eq Fallback) vs /\ hasError (bstate w) = true /\
  console w = repeat GroupPushTypeError (S (count_occ bool_dec (map fst (combine ks ss)) true)).
Proof.
  intros Hx s0. assert (Hc : forall s, correctionsChild param s = inr GroupPushTypeError).
  { intros s. unfold correctionsChild. by rewrite (proj2 (render_crashed param s) Hx). }
  assert (Hev : map (fun '(r, s) => if r : bool then BRetry (correctionsChild param s)
                                    else BRender (correctionsChild param s)) (combine ks ss) =
                events (inr GroupPushTypeError) (map fst (combine ks ss))).
  { unfold events. rewrite map_map. apply map_ext. intros [[] s]; by rewrite Hc. }
  simpl. rewrite Hc, Hev. simpl.
  pose proof (boundary_traps Screen RenderError GroupPushTypeError (map fst (combine ks ss))
                (mkWorld (mkBState true (Some GroupPushTypeError)) [GroupPushTypeError]) eq_refl) as H.
  destruct (brun _ _) as [w vs]. destruct H as (H1 & H2 & H3). split_and!; [by constructor|done|done].
Qed.

Lemma corrections_pass_through param s :
  ~ Exists (fun q => key q ∈ object_prototype_props) (default [] param) ->
  renderTree (correctionsChild param s) (mkWorld initialB []) =
  (mkWorld initialB [], Children (CorrectionsScreen.render param s)).
Proof.
  intros Hx. unfold correctionsChild.
  destruct (CorrectionsScreen.render param s) eqn:E; try reflexivity.
  exfalso. by apply Hx, (proj1 (render_crashed param s)).
Qed.

(** ** Theme: the settings, the root layout and the tabs *)

Section ThemeFacts.
Context `{ThemeStoreLaws St}.

(** The dark flag a mode gives on a device. *)
Definition mode_dark (m : ThemeMode) (cs : ColorScheme) : bool :=
  match m with Dark => true | Light => false | System => bool_decide (cs = SchemeDark) end.

(** The settings screen checks exactly the option of the current mode. *)
Lemma settings_checks_mode p s :
  map ovValue (filter ovCheckmark (svOptions (settingsView p (themeMode s)))) = [themeMode s].
Proof. by destruct (themeMode s). Qed.

End ThemeFacts.

(** Finding: the root Stack declares [mode/exam], which has no route
    file, and the tab layout declares [index] and [novels], which the
    [(tabs)] group does not have. *)
Lemma screens_without_route :
  filter (fun n => n ∉ app_routes) (map ssName stackScreens) = ["mode/exam"] /\
  filter (fun n => n ∉ tab_routes) (map tsName tabScreens) = ["index"; "novels"].
Proof. split; vm_compute; reflexivity. Qed.

End ShellFacts.

Module ShellWitnesses.
Import Theme AppSettings RootLayout TabLayout ErrorBoundary QuestionModel Submit CorrectionsScreen
       ShellCorrections ShellFacts.

(** A theme store: the mode set and the device's scheme. *)
Record WStore := mkWStore { wMode : ThemeMode; wDevice : ColorScheme }.

#[local] Instance w_store : ThemeStore WStore := {
  themeMode := wMode;
  isDark s := mode_dark (wMode s) (wDevice s);
  setThemeMode m s := mkWStore m (wDevice s);
  deviceScheme := wDevice
}.

#[local] Instance w_store_laws : ThemeStoreLaws WStore.
Proof. split; [done|done|by intros []]. Qed.

(** A payload whose only question has the subject "constructor". *)
Definition w_payload : option (list QuestionData) :=
  Some [mkQD (Some "constructor") (JStr "Q1") ["a"; "b"] (JStr "a") None None None].

Lemma corrections_crash_traps_app_witness :
  Exists (fun q => key q ∈ object_prototype_props) (default [] w_payload) /\
  let '(w, vs) := brun (BRender (correctionsChild w_payload initialCS) ::
                        map (fun '(r, s) => if r : bool then BRetry (correctionsChild w_payload s)
                                            else BRender (correctionsChild w_payload s))
                            (combine [true; true] [initialCS; initialCS]))
                       (mkWorld initialB []) in
  Forall (eq Fallback) vs /\ hasError (bstate w) = true /\
  console w = repeat GroupPushTypeError (S (count_occ bool_dec (map fst (combine [true; true] [initialCS; initialCS])) true)).
Proof.
  assert (Hx : Exists (fun q => key q ∈ object_prototype_props) (default [] w_payload))
    by (apply Exists_cons_hd; vm_compute; left).
  split; [exact Hx|]. exact (corrections_crash_traps_app w_payload [initialCS; initialCS] [true; true] Hx initialCS).
Defined.

End ShellWitnesses.
