(* ===== verification/Performance.v ===== *)
(** * Performance: the performance screen and its double arithmetic

    [src/app/performance/index.tsx] renders constant data: the summary
    statistics, four subjects with a mastery bar and three recent
    activities.  Its numbers pass through doubles.  A subject's percent
    label is [Math.round(sub.progress * 100)] and its bar width is the
    unrounded [`${sub.progress * 100}%`].  An activity shows
    [Math.round((item.score / item.total) * 100)], the expression
    [percentOf] of [Scoring] computes with [Binary64].  This file models
    the screen on [JsNumber]'s doubles, with [Math.round]
    ([JsNumber.JsMath.math_round_d]) and [String] ([number_to_string]).
    [DoubleRefinement] proves that [Scoring]'s non-negative rounding
    [round_q] is [JsNumber]'s [round] on positive fractions below
    [2^1000] ([round_agrees]).  [PerformanceFacts] relates the steps of
    the activity percentage, [ddiv], [dmul] by 100 and [Math.round] on
    integers below [2^53], to [Binary64]'s [fdiv], [fmul] and
    [math_round] ([ddiv_refines], [dmul_refines], [math_round_refines]). *)

From S2P Require Import Prelude Json Scoring JsNumber ToStringFacts IntegerText.
From Stdlib Require Import QArith Qround Qabs Lqa.
Import Binary64 Double NumberToString DecimalLit.

(** ** [Binary64.round_q] is [Double.round] on positive fractions *)

Module DoubleRefinement.
Import JsMath RoundFacts.

Lemma frac_bounds_Z N D lo hi :
  (0 < D)%Z -> inject_Z lo <= inject_Z N / inject_Z D < inject_Z hi -> (lo * D <= N < hi * D)%Z.
Proof.
  intros HD [Hl Hh]. pose proof (inject_Z_pos D HD).
  assert (HX : inject_Z N / inject_Z D * inject_Z D == inject_Z N) by (field; lra).
  assert (Hl' : inject_Z lo * inject_Z D <= inject_Z N) by (rewrite <- HX; nra).
  assert (Hh' : inject_Z N < inject_Z hi * inject_Z D) by (rewrite <- HX; nra).
  rewrite <- inject_Z_mult, <- Zle_Qle in Hl'. rewrite <- inject_Z_mult, <- Zlt_Qlt in Hh'. lia.
Qed.

(** The binade exponent from the magnitudes of [a] and [b]. *)
Lemma binade_exp_log2 a b :
  (Z.log2 b + 52 - Z.log2 a <= binade_exp a b <= Z.log2 b + 53 - Z.log2 a)%Z.
Proof. unfold binade_exp. destruct (scale _ _ _). destruct (_ <? _)%Z; lia. Qed.

(** Scaled to its binade, [a / b] is [N / D] with [2^52 <= N / D < 2^53]. *)
Lemma scale_binade a b :
  (0 < a)%Z -> (0 < b)%Z ->
  let '(N, D) := scale a b (binade_exp a b) in (0 < D /\ 2 ^ 52 * D <= N < 2 ^ 53 * D)%Z.
Proof.
  intros Ha Hb. pose proof (binade_exp_spec a b Ha Hb) as HE.
  pose proof (scale_value a b (binade_exp a b) Hb) as HN. destruct (scale _ _ _) as [N D].
  destruct HN as [HD HN]. split; [done|]. apply frac_bounds_Z; [done|]. rewrite HN. apply HE.
Qed.

Lemma div_round_even_range N D :
  (0 < D)%Z -> (2 ^ 52 * D <= N < 2 ^ 53 * D)%Z -> (2 ^ 52 <= div_round_even N D <= 2 ^ 53)%Z.
Proof.
  intros HD [Hl Hh]. unfold div_round_even.
  assert (2 ^ 52 <= N / D < 2 ^ 53)%Z as [? ?].
  { split; [apply Z.div_le_lower_bound|apply Z.div_lt_upper_bound]; lia. }
  destruct (Z.compare _ _); [destruct (Z.even _)|..]; lia.
Qed.

(** [round_q a b] is the significand [m] in [[2^52, 2^53]] at the
    binade exponent of [a / b], and, when that exponent is not below
    the subnormal range, [round_parts] finds the same [m]. *)
Lemma round_q_parts a b :
  (0 < a)%Z -> (0 < b)%Z -> (binade_exp a b <= emin)%Z ->
  exists m, (2 ^ 52 <= m <= 2 ^ 53)%Z /\ round_q a b = ldexp_neg m (binade_exp a b) /\
            round_parts a b = (m, binade_exp a b).
Proof.
  intros Ha Hb He. pose proof (scale_binade a b Ha Hb) as HN.
  unfold round_q, round_parts. rewrite (proj2 (Z.eqb_neq a 0)), Z.min_l by lia.
  destruct (scale _ _ _) as [N D]. destruct HN as [HD HN].
  exists (div_round_even N D). split; [by apply div_round_even_range|done].
Qed.

Lemma log2_below a k : (0 < a)%Z -> (0 <= k)%Z -> (a < 2 ^ k)%Z -> (0 <= Z.log2 a < k)%Z.
Proof. intros Ha Hk H. split; [apply Z.log2_nonneg|by apply Z.log2_lt_pow2]. Qed.

(** No overflow: a significand of at most [2^53] scaled by [2^970]
    at most stays below [2^1024]. *)
Lemma overflows_small m e :
  (m <= 2 ^ 53)%Z -> (- 970 <= e)%Z -> overflows m e = false.
Proof.
  intros Hm He. unfold overflows. destruct (Z.ltb_spec e 0) as [Hn|]; [|done]. apply Z.leb_gt.
  assert (H1 : (2 ^ (- e) <= 2 ^ 970)%Z) by (apply Z.pow_le_mono_r; lia).
  assert (H2 : (0 < 2 ^ (- e))%Z) by (apply Z.pow_pos_nonneg; lia).
  assert (H3 : (2 ^ 53 * 2 ^ 970 < 2 ^ 1024)%Z) by reflexivity. nia.
Qed.

(** The refinement: on positive integers below [2^1000], the rounding
    [Scoring] uses for its divisions and products is the rounding of
    [JsNumber], the fraction reduced. *)
Lemma round_agrees a b :
  (0 < a < 2 ^ 1000)%Z -> (0 < b < 2 ^ 1000)%Z ->
  round (inject_Z a / inject_Z b) = DFin (Qred (round_q a b)).
Proof.
  intros Ha Hb. pose proof (log2_below a 1000 ltac:(lia) ltac:(lia) ltac:(lia)).
  pose proof (log2_below b 1000 ltac:(lia) ltac:(lia) ltac:(lia)). pose proof (binade_exp_log2 a b).
  destruct (round_q_parts a b) as (m & Hm & -> & Hp); [lia|lia|unfold emin; lia|].
  rewrite <- (Z2Pos.id b), <- Qmake_Qdiv by lia. unfold round. cbn [Qnum Qden]. rewrite Z2Pos.id by lia.
  rewrite (proj2 (Z.ltb_ge a 0)), Z.abs_eq, Hp, (proj2 (Z.eqb_neq m 0)), overflows_small by lia.
  reflexivity.
Qed.

(** [round_q] of two positive integers below [2^53]: a positive
    numerator of at most [2^53] over a power of two below [2^106]. *)
Lemma round_q_shape s t :
  (0 < s < 2 ^ 53)%Z -> (0 < t < 2 ^ 53)%Z ->
  (0 < Qnum (round_q s t) <= 2 ^ 53)%Z /\ (Zpos (Qden (round_q s t)) < 2 ^ 106)%Z.
Proof.
  intros Hs Ht. pose proof (log2_below s 53 ltac:(lia) ltac:(lia) ltac:(lia)).
  pose proof (log2_below t 53 ltac:(lia) ltac:(lia) ltac:(lia)). pose proof (binade_exp_log2 s t).
  destruct (round_q_parts s t) as (m & Hm & -> & _); [lia|lia|unfold emin; lia|].
  unfold ldexp_neg. rewrite (proj2 (Z.leb_le 0 _)) by lia. cbn [Qnum Qden].
  rewrite Z2Pos.id by (apply Z.pow_pos_nonneg; lia). split; [lia|]. apply Z.pow_lt_mono_r; lia.
Qed.

End DoubleRefinement.

Module PerformanceScreen.
Import JsMath.

(** The colors [useThemeColor] gives (lines 20-22). *)
Record PerfColors := mkPerfColors { bg : string; text : string; cardBg : string }.

(** [stats] (lines 25-30). *)
Record Stats := mkStats { totalTests : dbl; avgScore : dbl; accuracy : dbl; studyTime : string }.

Definition stats : Stats := mkStats (num 42) (num 68) (num 75) "12h 30m".

(** An entry of [recentActivity] (lines 32-57). *)
Record Activity := mkActivity {
  actId : dbl; actSubject : string; actScore : dbl; actTotal : dbl; actDate : string; actMode : string
}.

Definition recentActivity : list Activity :=
  [mkActivity (num 1) "Mathematics" (num 80) (num 100) "Today, 10:30 AM" "Exam Mode";
   mkActivity (num 2) "Physics" (num 45) (num 60) "Yesterday" "Study Mode";
   mkActivity (num 3) "English" (num 92) (num 100) "Jan 24" "Exam Mode"].

(** An entry of [subjects] (lines 59-64); [progress] is the value of
    the decimal literal the source writes. *)
Record SubjectBar := mkBar { subName : string; progress : dbl; subColor : string }.

Definition subjects : list SubjectBar :=
  [mkBar "Mathematics" (string_to_number "0.8") "#4CAF50";
   mkBar "English" (string_to_number "0.65") "#2196F3";
   mkBar "Physics" (string_to_number "0.45") "#FF9800";
   mkBar "Chemistry" (string_to_number "0.3") "#F44336"].

(** A mastery row (lines 138-155): the name, the label
    [{Math.round(sub.progress * 100)}%], the bar's style width
    [`${sub.progress * 100}%`] and the divider under every row but the
    last. *)
Record RowView := mkRowView {
  rowKey : string; rowPercent : string; rowPercentColor : string;
  rowWidth : string; rowFill : string; rowDivider : bool
}.

Definition percentLabel (p : dbl) : string :=
  number_to_string (math_round_d (dmul p (num 100))) +:+ "%".

Definition widthText (p : dbl) : string :=
  number_to_string (dmul p (num 100)) +:+ "%".

Definition rowView (n index : nat) (sub : SubjectBar) : RowView :=
  mkRowView (subName sub) (percentLabel (progress sub)) (subColor sub)
    (widthText (progress sub)) (subColor sub) (Nat.ltb index (n - 1)).

(** [subjects.map((sub, index) => ...)]. *)
Definition rowViews (subs : list SubjectBar) : list RowView :=
  imap (rowView (length subs)) subs.

(** An activity card (lines 164-191): the meta line
    [{item.mode} • {item.date}], the percentage
    [{Math.round((item.score / item.total) * 100)}%] and
    [{item.score}/{item.total}]. *)
Record ActivityView := mkActivityView {
  avKey : dbl; avSubject : string; avMeta : string; avScore : string; avTotal : string
}.

Definition activityPercent (a : Activity) : dbl :=
  math_round_d (dmul (ddiv (actScore a) (actTotal a)) (num 100)).

Definition activityView (a : Activity) : ActivityView :=
  mkActivityView (actId a) (actSubject a) (actMode a +:+ " • " +:+ actDate a)
    (number_to_string (activityPercent a) +:+ "%")
    (number_to_string (actScore a) +:+ "/" +:+ number_to_string (actTotal a)).

(** The screen (lines 66-195): the header options of [Stack.Screen],
    the summary card, the mastery card and the activity list. *)
Record PerfView := mkPerfView {
  headerTitle : string; headerTint : string;
  avgText : string; testsText : string; accuracyText : string; timeText : string;
  rows : list RowView; cardColor : string; activities : list ActivityView
}.

Definition performanceView (c : PerfColors) : PerfView :=
  mkPerfView "My Performance" (text c)
    (number_to_string (avgScore stats) +:+ "%") (number_to_string (totalTests stats))
    (number_to_string (accuracy stats) +:+ "%") (studyTime stats)
    (rowViews subjects) (cardBg c) (map activityView recentActivity).

(** The presses: the header's back button calls [router.back()]; an
    activity card is a [Pressable] with no [onPress]. *)
Inductive PerfEvent := PressBack | PressActivity (id : dbl).

(** [true] when the press navigates back. *)
Definition perfPress (e : PerfEvent) : bool :=
  match e with PressBack => true | PressActivity _ => false end.

End PerformanceScreen.

Module PerformanceFacts.
Import JsMath DoubleRefinement PerformanceScreen RoundFacts.

Lemma round_q_pos a b : (0 < a < 2 ^ 1000)%Z -> (0 < b < 2 ^ 1000)%Z -> 0 < round_q a b.
Proof.
  intros Ha Hb. pose proof (log2_below a 1000 ltac:(lia) ltac:(lia) ltac:(lia)).
  pose proof (log2_below b 1000 ltac:(lia) ltac:(lia) ltac:(lia)). pose proof (binade_exp_log2 a b).
  destruct (round_q_parts a b) as (m & Hm & -> & _); [lia|lia|unfold emin; lia|].
  rewrite ldexp_neg_value. apply Qmult_lt_0_compat; [apply inject_Z_pos; lia|apply p2_pos].
Qed.

Lemma pow53_lt_1000 : (2 ^ 53 * 100 < 2 ^ 1000)%Z.
Proof. reflexivity. Qed.

(** [score / total] on two integer Numbers. *)
Lemma ddiv_refines s t :
  (0 < s < 2 ^ 53)%Z -> (0 < t < 2 ^ 53)%Z -> ddiv (num s) (num t) = DFin (Qred (round_q s t)).
Proof.
  intros Hs Ht. pose proof pow53_lt_1000. unfold num. rewrite !IntegerText.round_int by lia.
  cbn [ddiv]. apply round_agrees; lia.
Qed.

(** [x * 100] on the double [x] of such a quotient. *)
Lemma dmul_refines x :
  (0 < Qnum x <= 2 ^ 53)%Z -> (Zpos (Qden x) < 2 ^ 106)%Z ->
  dmul (DFin (Qred x)) (num 100) = DFin (Qred (fmul x 100)).
Proof.
  intros Hn Hd. pose proof pow53_lt_1000. unfold num. rewrite IntegerText.round_int by lia. cbn [dmul].
  assert (Hq : Qred x * inject_Z 100 == inject_Z (Qnum x * 100) / inject_Z (Zpos (Qden x))).
  { rewrite Qred_correct, inject_Z_mult. rewrite <- (Qnum_frac x) at 1. field.
    pose proof (inject_Z_pos (Zpos (Qden x)) ltac:(lia)). lra. }
  rewrite (round_Qeq _ _ Hq), round_agrees; [done|lia|].
  split; [lia|]. transitivity (2 ^ 106)%Z; [done|reflexivity].
Qed.

(** [Math.round] of a positive double is the Number of [math_round]. *)
Lemma math_round_refines y :
  0 < y -> math_round_d (DFin (Qred y)) = num (Z.of_nat (Z.to_nat (math_round y))).
Proof.
  intros Hy. unfold math_round_d, math_round.
  rewrite (Qfloor_comp (Qred y + (1 # 2)) (y + (1 # 2))) by (rewrite Qred_correct; reflexivity).
  assert (H0 : (0 <= Qfloor (y + (1 # 2)))%Z).
  { change 0%Z with (Qfloor 0). apply Qfloor_resp_le. lra. }
  rewrite Z2Nat.id by done. destruct (Z.eqb_spec (Qfloor (y + (1 # 2))) 0) as [->|]; [|done].
  rewrite (proj2 (Z.ltb_ge _ _)); [done|]. apply Z.lt_le_incl, Qnum_pos. by rewrite Qred_correct.
Qed.

End PerformanceFacts.

