(* ===== verification/HomeAnim.v ===== *)
(** * HomeAnim: the home screen's animations and the hero's clock

    [HomeScreen.tsx] builds its motion from React Native's [Animated]
    combinators (lines 108-294): springs for the greeting and the six
    cards, three endless loops (the shimmer, the badge pulse and the
    aurora), and, every 4000 ms, the hero's fade-out, whose completion
    callback advances the slide and starts the fade-in.  [Animated]
    models the combinators: an animation's duration ([None] for springs
    and loops, whose end is not fixed), and the values it leaves.
    [HeroAnimations] writes down the code's trees.  [HeroTimeline]
    turns the interval and the fade-out's duration into the events of
    [Home.HomeScreen]: a tick at [4000 k], and the fade-out's callback
    with [finished: true] [d] ms later unless the next tick, which
    restarts every animated value, stops it first.  [HomeRender] draws
    the screen from the animated values with [Animated.interpolate].
    Timers and animations are taken to run on time, without dropped
    frames. *)

From S2P Require Import Prelude Pagination Home JsNumber.
From Stdlib Require Import QArith Lqa.

Module Animated.
Local Open Scope nat_scope.
Local Set Warnings "-register-all".

(** The easings the code uses: [Easing.linear], [Easing.out(Easing.quad)],
    [Easing.in(Easing.quad)], [Easing.inOut(Easing.quad)] and
    [Easing.inOut(Easing.sin)], and [Animated.timing]'s default,
    [Easing.inOut(Easing.ease)]. *)
Inductive Easing := Linear | OutQuad | InQuad | InOutQuad | InOutSin | DefaultEase.

(** [Animated.timing(v, {toValue, duration, easing})],
    [Animated.spring(v, {toValue, friction, tension})],
    [Animated.sequence], [Animated.parallel], [Animated.stagger],
    [Animated.loop] and [Animated.delay], which a timing's [delay]
    option puts before it; [v] is the name of the [Animated.Value]. *)
Inductive Anim :=
| Timing (v : string) (toValue : Q) (duration : nat) (easing : Easing)
| Spring (v : string) (toValue : Q) (friction tension : nat)
| Sequence (l : list Anim)
| Parallel (l : list Anim)
| Stagger (delay : nat) (l : list Anim)
| Loop (a : Anim)
| Delay (ms : nat).

(** How long an animation runs when nothing stops it: a sequence the
    sum of its parts, a parallel group its longest part, a stagger its
    latest [i * delay + duration]; a spring's end depends on its
    physics and a loop never ends. *)
Fixpoint duration (a : Anim) : option nat :=
  let go := fix go (f : nat -> nat -> nat) (i : nat) (l : list Anim) : option nat :=
    match l with
    | [] => Some 0
    | x :: r => match duration x, go f (S i) r with
                | Some d, Some e => Some (f i d `max` e)
                | _, _ => None
                end
    end in
  match a with
  | Timing _ _ d _ | Delay d => Some d
  | Spring _ _ _ _ | Loop _ => None
  | Sequence l =>
      (fix seqd (l : list Anim) : option nat :=
         match l with
         | [] => Some 0
         | x :: r => match duration x, seqd r with Some d, Some e => Some (d + e) | _, _ => None end
         end) l
  | Parallel l => go (fun _ d => d) 0 l
  | Stagger k l => go (fun i d => i * k + d) 0 l
  end.

(** [v.interpolate({inputRange: [i0, i1], outputRange: [o0, o1]})]
    with the default [extrapolate: "extend"]: the line through the two
    points, extended on both sides. *)
Definition interpolate (i0 i1 o0 o1 x : Q) : Q := (o0 + (x - i0) * (o1 - o0) / (i1 - i0))%Q.

(** The values an animation writes. *)
Fixpoint targets (a : Anim) : list string :=
  match a with
  | Timing v _ _ _ | Spring v _ _ _ => [v]
  | Sequence l | Parallel l | Stagger _ l => flat_map targets l
  | Loop a => targets a
  | Delay _ => []
  end.

(** The values once the animation has run to its end, from the store
    [s] of the values at its start; a loop ends each iteration where the
    iteration ends.  The parts of a parallel group or a stagger write
    values of their own ([par_disjoint]), so their order does not
    matter. *)
Fixpoint settle (a : Anim) (s : gmap string Q) : gmap string Q :=
  match a with
  | Timing v x _ _ | Spring v x _ _ => <[v := x]> s
  | Sequence l | Parallel l | Stagger _ l => foldl (fun s x => settle x s) s l
  | Loop a => settle a s
  | Delay _ => s
  end.

(** The parts of every parallel group and stagger animate values of
    their own (a part may animate one value several times). *)
Fixpoint par_disjoint (a : Anim) : bool :=
  match a with
  | Timing _ _ _ _ | Spring _ _ _ _ | Delay _ => true
  | Sequence l => forallb par_disjoint l
  | Parallel l | Stagger _ l =>
      bool_decide (NoDup (flat_map (fun x => remove_dups (targets x)) l)) && forallb par_disjoint l
  | Loop a => par_disjoint a
  end.

End Animated.

Module HeroAnimations.
Import Animated.
Local Open Scope Q_scope.

(** The [Animated.Value]s and their initial values (lines 90-105). *)
Definition gridIn (i : nat) : string := "gridIns" +:+ js_nat_string i.

Definition refs : gmap string Q :=
  list_to_map ([("fadeAnim", 1); ("slideAnim", 0); ("heroParallax", 0); ("greetIn", 0);
                ("shimmer", 0); ("heroTilt", 0); ("heroSkew", 0); ("shineX", 0); ("heroGlow", 0);
                ("badgePulse", 0); ("auroraX1", -160); ("auroraX2", 360)]
               ++ map (fun i => (gridIn i, 0)) (seq 0 6)).

(** The entrance (lines 109-127): the greeting's spring and the cards'
    springs staggered by 80 ms. *)
Definition intro : Anim :=
  Parallel [Spring "greetIn" 1 7 120;
            Stagger 80 (map (fun i => Spring (gridIn i) 1 (7 + i) 120) (seq 0 6))].

(** [shimmer] (lines 129-145), [badgePulse] (lines 147-163) and the two
    auroras (lines 165-198). *)
Definition shimmerLoop : Anim :=
  Loop (Sequence [Timing "shimmer" 1 2200 InOutQuad; Timing "shimmer" 0 2200 InOutQuad]).

Definition badgeLoop : Anim :=
  Loop (Sequence [Timing "badgePulse" 1 1200 InOutQuad; Timing "badgePulse" 0 1200 InOutQuad]).

Definition auroraLoop : Anim :=
  Loop (Parallel [Sequence [Timing "auroraX1" 420 7000 InOutSin; Timing "auroraX1" (-160) 0 Linear];
                  Sequence [Timing "auroraX2" (-160) 7000 InOutSin; Timing "auroraX2" 360 0 Linear]]).

(** The hero's fade-out, started by the interval (lines 202-271). *)
Definition heroOut : Anim :=
  Parallel [Timing "fadeAnim" 0 250 OutQuad;
            Timing "slideAnim" (-15) 250 OutQuad;
            Sequence [Timing "heroTilt" 1 250 OutQuad; Timing "heroTilt" 0 250 InOutQuad];
            Sequence [Timing "heroSkew" 1 250 OutQuad; Timing "heroSkew" 0 250 InOutQuad];
            Sequence [Timing "shineX" 1 500 OutQuad; Timing "shineX" 0 0 Linear];
            Sequence [Timing "heroGlow" 1 220 OutQuad; Timing "heroGlow" 0 320 InOutQuad]].

(** The fade-in its callback starts after [slideAnim.setValue(-20)]
    (lines 275-290). *)
Definition heroIn : Anim :=
  Parallel [Timing "fadeAnim" 1 250 OutQuad; Timing "slideAnim" 0 250 OutQuad].

(** One hero cycle on the values: the fade-out, the [setValue(-20)]
    and the fade-in. *)
Definition heroCycle (s : gmap string Q) : gmap string Q :=
  settle heroIn (<[ "slideAnim" := -20 ]> (settle heroOut s)).

(** The mount effect (lines 108-198): the entrance, then each loop
    after its [setValue]. *)
Definition mountStore : gmap string Q :=
  settle intro (<[ "auroraX2" := 360 ]> (<[ "auroraX1" := -160 ]> (<[ "badgePulse" := 0 ]>
    (<[ "shimmer" := 0 ]> refs)))).

End HeroAnimations.

(** ** The bottom sheets: the mode picker and the logout confirmation *)

Module ModePicker.
Import Animated.

(** The effect of [ModeSelectModal.tsx] (lines 18-33) and of
    [LogoutModal.tsx] (lines 25-40) on [visible]: a spring of the sheet
    to [0], or a 250 ms timing back to the screen's height [h]
    ([Dimensions.get("window").height]). *)
Definition pickerAnim (visible : bool) (h : Q) : Anim :=
  if visible then Spring "slideAnim" 0 8 100 else Timing "slideAnim" h 250 DefaultEase.

(** [LogoutModal] runs the same effect. *)
Definition logoutAnim (visible : bool) (h : Q) : Anim := pickerAnim visible h.

(** The modal (lines 35-76): the [Modal] is shown exactly when
    [visible] ([animationType="none"]), and holds the title and the two
    bricks. *)
Record PickerView := mkPickerView { modalShown : bool; pickerTitle : string; bricks : list (string * string) }.

Definition pickerView (visible : bool) : PickerView :=
  mkPickerView visible "Select Mode"
    [("STUDY MODE", "study older past questions"); ("CBT/EXAM MODE", "Test yourself in real exam situation")].

End ModePicker.

Module HeroTimeline.
Import Animated HeroAnimations HomeScreen.

(** [setInterval(..., 4000)] (line 292). *)
Definition heroInterval : nat := 4000.

(** The interval's [k]-th tick, at [4000 k] ms, and the fade-out's
    callback with [finished: true] when the fade-out, of duration [d],
    ends by time [T] and before the next tick. *)
Definition tickEvents (T k : nat) : list HEvent :=
  HTick :: match duration heroOut with
           | Some d => if (d <? heroInterval) && (heroInterval * k + d <=? T) then [HFadeOutDone] else []
           | None => []
           end.

(** What the hero sees up to time [T]: the ticks [1 .. T / 4000]. *)
Definition heroEvents (T : nat) : list HEvent :=
  flat_map (tickEvents T) (seq 1 (T / heroInterval)).

End HeroTimeline.

Module HomeRender.
Import Animated HeroAnimations HomeScreen.
Local Open Scope Q_scope.

(** The current value of an [Animated.Value] of the store. *)
Definition val (vals : gmap string Q) (v : string) : Q := default 0 (vals !! v).

(** The hero card as drawn (lines 394-568): its transform from the
    parallax, the tilt and the skew, the shine's offset, the glow, the
    watermark's scale, the slide, the text's fade and slide, the
    "Activate" pill's opacity and the badge's scale; angles in degrees. *)
Record HeroView := mkHeroView {
  hTranslateY : Q; hScale : Q; hRotateZ : Q; hSkewY : Q;
  hAurora : Q * Q; hShineX : Q; hGlow : Q; hIconScale : Q;
  hSlide : option Slide; hTextOpacity : Q; hTextX : Q;
  hActivateOpacity : Q; hBadgeScale : Q
}.

Definition heroView (h : Hero) (vals : gmap string Q) : HeroView :=
  let v := val vals in
  mkHeroView (interpolate 0 1 0 (-10) (v "heroParallax")) (interpolate 0 1 1 (98#100) (v "heroParallax"))
    (interpolate 0 1 0 2 (v "heroTilt")) (interpolate 0 1 0 2 (v "heroSkew"))
    (v "auroraX1", v "auroraX2") (interpolate 0 1 (-100) 420 (v "shineX")) (v "heroGlow")
    (interpolate 0 1 1 (11#10) (v "shimmer"))
    (heroSlide h) (v "fadeAnim") (v "slideAnim")
    (interpolate 0 1 (75#100) 1 (v "shimmer")) (interpolate 0 1 (9#10) (108#100) (v "badgePulse")).

(** A quick-link card (lines 580-668): its entrance opacity and offset,
    title, subtitle and badge. *)
Record CardView := mkCardView { cOpacity : Q; cTranslateY : Q; cTitle : string; cSubtitle : string; cBadge : option string }.

Definition cardView (vals : gmap string Q) (i : nat) (l : QuickLink) : CardView :=
  mkCardView (val vals (gridIn i)) (interpolate 0 1 20 0 (val vals (gridIn i)))
    (linkTitle l) (linkSubtitle l) (badge l).

(** The screen (lines 363-686): the greeting's entrance, the hero, the
    "Study Tools" grid and the mode picker; [sub] is the sub-greeting
    the effect of lines 54-61 chose. *)
Record HomeView := mkHomeView {
  gOpacity : Q; gTranslateY : Q; gText : string; gSub : option string;
  heroV : HeroView; cards : list CardView; modalVisible : bool
}.

Definition homeView (name sub : option string) (s : HState) (vals : gmap string Q) : HomeView :=
  mkHomeView (val vals "greetIn") (interpolate 0 1 12 0 (val vals "greetIn")) (greeting name) sub
    (heroView (hero s) vals) (imap (cardView vals) quickLinks) (showModeModal s).

(** [onScroll] (lines 296-300): [heroParallax.setValue] of the clamped
    offset; a [NaN] offset has no value of [Q]. *)
Definition onScroll (y : jsnum) (vals : gmap string Q) : option (gmap string Q) :=
  match parallax y with JFin q => Some (<[ "heroParallax" := q ]> vals) | _ => None end.

End HomeRender.

Module HomeAnimFacts.
Import Double Animated HeroAnimations HeroTimeline HomeScreen.
Local Open Scope nat_scope.

(** The code's compositions are well formed, and every iteration of the
    hero cycle and of each loop leaves the values where the mount effect
    put them, so the motion repeats without a jump. *)
Lemma animations_seamless :
  forallb par_disjoint [intro; shimmerLoop; badgeLoop; auroraLoop; heroOut; heroIn] = true /\
  heroCycle mountStore = mountStore /\ settle shimmerLoop mountStore = mountStore /\
  settle badgeLoop mountStore = mountStore /\ settle auroraLoop mountStore = mountStore.
Proof.
  split; [vm_compute; reflexivity|].
  split_and!; apply (bool_decide_eq_true_1 (_ = _)); vm_compute; reflexivity.
Qed.

(** The fade-out lasts 540 ms (the glow's 220 + 320), well within the
    interval, so each tick's callback reports [finished]. *)
Lemma tickEvents_eq T k :
  tickEvents T k = HTick :: (if 4000 * k + 540 <=? T then [HFadeOutDone] else []).
Proof. reflexivity. Qed.

Lemma hero_step_cycle s :
  hero (hstep (hstep s HTick) HFadeOutDone) = mkHero (S (heroIndex (hero s)) mod 3) false.
Proof. reflexivity. Qed.

Lemma hero_step_tick s : hero (hstep s HTick) = mkHero (heroIndex (hero s)) true.
Proof. reflexivity. Qed.

(** Ticks whose fade-outs all end by [T] advance the slide once each. *)
Lemma run_completed T a n s :
  (forall k, a <= k < a + n -> 4000 * k + 540 <= T) ->
  hero (foldl hstep s (flat_map (tickEvents T) (seq a n))) =
    if n =? 0 then hero s else mkHero ((heroIndex (hero s) + n) mod 3) false.
Proof.
  revert a s. induction n as [|n IH]; intros a s Hk; [done|].
  cbn [seq flat_map]. rewrite tickEvents_eq, (proj2 (Nat.leb_le _ _)) by (apply Hk; lia).
  change ([HTick; HFadeOutDone] ++ ?r) with (HTick :: HFadeOutDone :: r). cbn [foldl].
  rewrite IH by (intros; apply Hk; lia). rewrite hero_step_cycle.
  destruct n; cbn [heroIndex Nat.eqb]; f_equal; [f_equal; lia|].
  rewrite Nat.Div0.add_mod_idemp_l. f_equal. lia.
Qed.

Lemma succ_mod x n : S (x mod n) mod n = S x mod n.
Proof. rewrite <- (Nat.add_1_r (x mod n)), <- (Nat.add_1_r x). apply Nat.Div0.add_mod_idemp_l. Qed.

Lemma div_4000 T q : 4000 * q <= T < 4000 * q + 4000 -> T / 4000 = q.
Proof. intros H. symmetry. apply (Nat.div_unique T 4000 q (T - 4000 * q)); lia. Qed.

(** C23: the hero card is a clock: at every time [T] (in ms after the
    mount), the interval's ticks and the fade-out callbacks that have
    reported [finished] leave the hero on slide [((T - 540) / 4000) mod 3],
    one slide more every 4000 ms, each change 540 ms after its tick. *)
Theorem hero_clock T : heroIndex (hero (hrun (heroEvents T))) = ((T - 540) / 4000) mod 3.
Proof.
  unfold hrun, heroEvents, heroInterval.
  pose proof (Nat.div_mod T 4000 ltac:(lia)). pose proof (Nat.mod_upper_bound T 4000 ltac:(lia)).
  destruct (T / 4000) as [|m] eqn:En.
  - rewrite (div_4000 (T - 540) 0) by lia. reflexivity.
  - rewrite seq_S, flat_map_app, foldl_app. cbn [flat_map]. rewrite app_nil_r, tickEvents_eq.
    destruct (Nat.leb_spec (4000 * (1 + m) + 540) T) as [Hd|Hd]; cbn [foldl].
    + rewrite hero_step_cycle, (div_4000 (T - 540) (S m)) by lia.
      rewrite run_completed by (intros; lia).
      destruct m; cbn [heroIndex Nat.eqb hero initial heroInitial]; [reflexivity|].
      by rewrite Nat.add_0_l, succ_mod.
    + rewrite hero_step_tick, (div_4000 (T - 540) m) by lia.
      rewrite run_completed by (intros; lia).
      destruct m; cbn [heroIndex Nat.eqb hero initial heroInitial]; [reflexivity|]. by rewrite Nat.add_0_l.
Qed.

(** The picker's slide-out runs while its [Modal] is hidden: closing
    the picker removes it at once, and the 250 ms timing animates a
    sheet nobody sees.  [LogoutModal] is built the same way. *)
Lemma slide_out_unseen h :
  duration (ModePicker.pickerAnim false h) = Some 250 /\ ModePicker.modalShown (ModePicker.pickerView false) = false.
Proof. split; reflexivity. Qed.

End HomeAnimFacts.

Module HomeRenderFacts.
Import Animated HeroAnimations HomeScreen HomeRender.
Local Open Scope Q_scope.

Lemma interpolate_unit o0 o1 x : interpolate 0 1 o0 o1 x == o0 + x * (o1 - o0).
Proof. unfold interpolate. field. Qed.

(** C39: The hero card moves and shrinks with the scroll only within its
    bounds: for every offset that is not [NaN], [onScroll] stores a
    parallax value that lifts the card by at most 10 and scales it down
    to no less than 0.98, though [interpolate] itself extrapolates. *)
Theorem scroll_hero_bounds y vals name sub s :
  y <> JNaN ->
  exists vals', onScroll y vals = Some vals' /\
    let h := heroV (homeView name sub s vals') in
    -10 <= hTranslateY h <= 0 /\ 98#100 <= hScale h <= 1.
Proof.
  intros Hy. destruct (HomeFacts.parallax_bounds y Hy) as (q & Hq & Hb).
  unfold onScroll. rewrite Hq. eexists. split; [reflexivity|]. cbn -[interpolate].
  unfold val. rewrite lookup_insert_eq. cbn -[interpolate].
  assert (E1 : interpolate 0 1 0 (-10) q == -10 * q) by (unfold interpolate; field).
  assert (E2 : interpolate 0 1 1 (98#100) q == 1 - (2#100) * q) by (unfold interpolate; field).
  split; split; lra.
Qed.

(** once the entrance has settled, the greeting and the six cards
    rest in place, fully drawn. *)
Theorem entrance_rests name sub s :
  let v := homeView name sub s mountStore in
  gOpacity v == 1 /\ gTranslateY v == 0 /\ length (cards v) = 6%nat /\
  Forall (fun c => cOpacity c == 1 /\ cTranslateY c == 0) (cards v).
Proof. vm_compute. split_and!; try reflexivity. repeat constructor. Qed.

(** every hero cycle, the fade-out with its callback's fade-in, ends
    with the slide's text fully drawn in place and the tilt, the skew,
    the glow and the shine back at rest, whatever the values before. *)
Theorem hero_cycle_rests h vals :
  let v := heroView h (heroCycle vals) in
  hTextOpacity v == 1 /\ hTextX v == 0 /\ hRotateZ v == 0 /\ hSkewY v == 0 /\
  hGlow v == 0 /\ hShineX v == -100.
Proof.
  cbn -[interpolate]. unfold val. simplify_map_eq. simpl.
  rewrite !interpolate_unit. split_and!; reflexivity.
Qed.


Lemma scroll_hero_bounds_witness :
  JFin 120 <> JNaN /\
  exists vals', onScroll (JFin 120) mountStore = Some vals' /\
    let h := heroV (homeView None None HomeScreen.initial vals') in
    -10 <= hTranslateY h <= 0 /\ 98#100 <= hScale h <= 1.
Proof. split; [discriminate|]. apply scroll_hero_bounds. discriminate. Defined.

End HomeRenderFacts.

Module HomeAnimWitnesses.
Import HeroTimeline HomeScreen HomeAnimFacts.

Lemma hero_clock_witness :
  heroEvents 9000 = [HTick; HFadeOutDone; HTick; HFadeOutDone] /\
  heroIndex (hero (hrun (heroEvents 9000))) = ((9000 - 540) / 4000) mod 3.
Proof. split; [vm_compute; reflexivity|]. apply hero_clock. Defined.

End HomeAnimWitnesses.
