(* ===== verification/Flashcards.v ===== *)
(** * Flashcards: the decks, the deck list and the deck screen

    [src/components/data/flashcardsData.ts] holds six decks of cards in a
    plain object keyed by deck id; [src/app/flashcards/index.tsx] lists
    six categories that link to [/flashcards/<id>];
    [src/app/flashcards/[id].tsx] looks the route's id up in the object
    and shows one card at a time, flipping on a tap and sliding to the
    next or previous card.  The slide is an [Animated.timing] whose
    completion callback, not the press, moves to the new card: the
    callback captures the index of the render in which the button was
    pressed, and starting a new slide stops the running one, which runs
    its callback at once.  The deck screen's state records the running
    slide's pending update.  [CardFlip] draws the card's two faces from
    the flip value, whose spring [flipCard] starts. *)

From S2P Require Import Prelude Json HomeAnim.
From Stdlib Require Import QArith Qround Ascii Lqa.
Open Scope nat_scope.

Module FlashcardData.

(** [interface Flashcard] and [interface Deck] (lines 1-14). *)
Record Flashcard := mkCard { cardId : string; front : string; back : string; topic : string }.
Record Deck := mkDeck { deckId : string; title : string; icon : string; color : string; cards : list Flashcard }.

(** [math] (flashcardsData.ts lines 17-96). *)
Definition deck_math : Deck :=
  mkDeck "math" "Mathematics" "function" "#4CAF50" [
    mkCard "m1" "What is the formula for the nth term of an Arithmetic Progression (AP)?"
      ("Tn = a + (n-1)d" +:+ String "010"%char "(where a = first term, d = common difference)")
      "Algebra";
    mkCard "m2" "What is the quadratic formula?"
      "x = [-b ± √(b² - 4ac)] / 2a"
      "Algebra";
    mkCard "m3" "What is the derivative of sin(x)?"
      "cos(x)"
      "Calculus";
    mkCard "m4" "What is the derivative of cos(x)?"
      "-sin(x) (Negative sin x)"
      "Calculus";
    mkCard "m5" "Simplify x⁰ (where x ≠ 0)"
      "1"
      "Indices";
    mkCard "m6" "What is log(a) + log(b)?"
      "log(ab)"
      "Logarithms";
    mkCard "m7" "What is the sum of angles in a triangle?"
      "180 degrees"
      "Geometry";
    mkCard "m8" "In SOHCAHTOA, what does SOH stand for?"
      "Sin θ = Opposite / Hypotenuse"
      "Trigonometry";
    mkCard "m9" "How do you calculate the Mean?"
      "Sum of all values / Number of values"
      "Statistics";
    mkCard "m10" "What is the symbol for Intersection?"
      "∩ (e.g., A ∩ B)"
      "Sets";
    mkCard "m11" "What is the determinant of a 2x2 matrix [a b; c d]?"
      "ad - bc"
      "Matrices";
    mkCard "m12" "What is the angle in a semicircle?"
      "90 degrees (Right Angle)"
      "Circle Geometry"].

(** [eng] (flashcardsData.ts lines 97-164). *)
Definition deck_eng : Deck :=
  mkDeck "eng" "English" "textformat" "#2196F3" [
    mkCard "e1" "Which word has the same vowel sound as 'Key': (a) Play (b) Quay (c) Eye?"
      "Quay (pronounced 'Key')"
      "Oral English";
    mkCard "e2" "Correct the sentence: 'The list of items are on the table.'"
      "'The list of items IS on the table.' (Subject is 'list', singular)"
      "Concord";
    mkCard "e3" "What does 'To let the cat out of the bag' mean?"
      "To reveal a secret"
      "Idioms";
    mkCard "e4" "Identify the figure of speech: 'The wind whispered through the trees.'"
      "Personification"
      "Fig. of Speech";
    mkCard "e5" "What is a synonym for 'Obsolete'?"
      "Outdated / Old-fashioned"
      "Lexis";
    mkCard "e6" "Identify the silent letter in 'Psalm'."
      "P"
      "Oral English";
    mkCard "e7" "Choose the correct option: 'He is looking forward to ____ you.' (see/seeing)"
      "Seeing ('Looking forward to' is followed by a gerund)"
      "Grammar";
    mkCard "e8" "What is the antonym of 'Arrogant'?"
      "Humble"
      "Antonyms";
    mkCard "e9" "What does 'A piece of cake' mean?"
      "Something very easy to do"
      "Idioms";
    mkCard "e10" "In the sentence 'JOHN stole the book', what is emphasized?"
      "It was John (not someone else) who stole it."
      "Emphasis"].

(** [phy] (flashcardsData.ts lines 165-232). *)
Definition deck_phy : Deck :=
  mkDeck "phy" "Physics" "bolt.fill" "#FF9800" [
    mkCard "p1" "What is Newton's First Law of Motion?"
      "A body remains at rest or uniform motion unless acted upon by an external force."
      "Motion";
    mkCard "p2" "What is Ohm's Law formula?"
      "V = IR (Voltage = Current × Resistance)"
      "Electricity";
    mkCard "p3" "What type of wave is a sound wave?"
      "Longitudinal Wave"
      "Waves";
    mkCard "p4" "What type of lens is used to correct Myopia (Short-sightedness)?"
      "Concave Lens (Diverging Lens)"
      "Optics";
    mkCard "p5" "What is the SI unit of Heat?"
      "Joule (J)"
      "Heat";
    mkCard "p6" "Formula for Potential Energy?"
      "P.E. = mgh (mass × gravity × height)"
      "Mechanics";
    mkCard "p7" "Which radiation has the highest penetrating power?"
      "Gamma rays"
      "Radioactivity";
    mkCard "p8" "What is a p-n junction diode used for?"
      "Rectification (Converting AC to DC)"
      "Electronics";
    mkCard "p9" "Formula for Gravitational Force between two masses?"
      "F = Gm₁m₂ / r²"
      "Fields";
    mkCard "p10" "What phenomenon proves light is a transverse wave?"
      "Polarization"
      "Waves"].

(** [chem] (flashcardsData.ts lines 233-300). *)
Definition deck_chem : Deck :=
  mkDeck "chem" "Chemistry" "flask.fill" "#F44336" [
    mkCard "c1" "What are Isotopes?"
      "Atoms of the same element with same proton number but different mass number."
      "Atomic Structure";
    mkCard "c2" "What is the pH of a neutral solution at 25°C?"
      "7"
      "Acids/Bases";
    mkCard "c3" "General formula for Alkanes?"
      "CnH(2n+2)"
      "Organic Chem";
    mkCard "c4" "State Boyle's Law formula."
      "P1V1 = P2V2 (at constant temperature)"
      "Gas Laws";
    mkCard "c5" "Oxidation is the ____ of electrons."
      "Loss (OIL RIG - Oxidation Is Loss)"
      "Electrochem";
    mkCard "c6" "Which group are the Halogens?"
      "Group 7 (VII)"
      "Periodic Table";
    mkCard "c7" "What is the functional group of Alkanols?"
      "-OH (Hydroxyl group)"
      "Organic Chem";
    mkCard "c8" "Method to separate oil and water?"
      "Separating Funnel (Immiscible liquids)"
      "Separation";
    mkCard "c9" "What type of bond exists in Sodium Chloride (NaCl)?"
      "Ionic Bond (Electrovalent)"
      "Bonding";
    mkCard "c10" "What is Avogadro's constant?"
      "6.02 x 10²³"
      "Stoichiometry"].

(** [bio] (flashcardsData.ts lines 301-368). *)
Definition deck_bio : Deck :=
  mkDeck "bio" "Biology" "leaf.fill" "#4DB6AC" [
    mkCard "b1" "Which organelle is the 'Powerhouse' of the cell?"
      "Mitochondria"
      "Cell Bio";
    mkCard "b2" "Who is the Father of Genetics?"
      "Gregor Mendel"
      "Genetics";
    mkCard "b3" "Which blood cells fight infection?"
      "White Blood Cells (Leucocytes)"
      "Circulatory";
    mkCard "b4" "What is Commensalism?"
      "Association where one benefits and the other is neither harmed nor benefited."
      "Ecology";
    mkCard "b5" "What is the excretory organ of insects?"
      "Malpighian Tubules"
      "Excretion";
    mkCard "b6" "What pigment absorbs light energy in plants?"
      "Chlorophyll"
      "Photosynthesis";
    mkCard "b7" "Which Kingdom do bacteria belong to?"
      "Monera"
      "Classification";
    mkCard "b8" "Which bone is the longest in the human body?"
      "Femur (Thigh bone)"
      "Skeletal";
    mkCard "b9" "Where does fertilization occur in humans?"
      "Fallopian Tube (Oviduct)"
      "Reproduction";
    mkCard "b10" "Lack of Vitamin C causes which disease?"
      "Scurvy"
      "Nutrition"].

(** [eco] (flashcardsData.ts lines 369-438). *)
Definition deck_eco : Deck :=
  mkDeck "eco" "Economics" "chart.pie.fill" "#795548" [
    mkCard "ec1" "What is Opportunity Cost?"
      "The alternative forgone (the next best option sacrificed)"
      "Basic Concepts";
    mkCard "ec2" "State the Law of Demand."
      "Higher price, lower quantity demanded (ceteris paribus)."
      "Demand";
    mkCard "ec3" "What are the factors of production?"
      "Land, Labor, Capital, Entrepreneur"
      "Production";
    mkCard "ec4" "A market with a single seller is called?"
      "Monopoly"
      "Market";
    mkCard "ec5" "What is Inflation?"
      "Persistent rise in the general price level."
      "Inflation";
    mkCard "ec6" "What is the primary function of money?"
      "Medium of exchange"
      "Money";
    mkCard "ec7" "Formula for Population Density?"
      "Total Population / Total Land Area"
      "Pop.";
    mkCard "ec8" "What is Diminishing Marginal Utility?"
      "Satisfaction decreases as more units are consumed."
      "Utility";
    mkCard "ec9" "Who bears the risk in a business?"
      "The Entrepreneur"
      "Business";
    mkCard "ec10" "What is a 'Bear' market?"
      "A market where prices are falling"
      "Finance"].

(** [flashcardsData] (lines 16-438): the object, in property order. *)
Definition flashcardsData : list (string * Deck) :=
  [("math", deck_math); ("eng", deck_eng); ("phy", deck_phy);
   ("chem", deck_chem); ("bio", deck_bio); ("eco", deck_eco)].

End FlashcardData.

Module FlashcardsIndex.

(** A category of the list (lines 31-80); [mastery] is the decimal
    literal of the source. *)
Record Category := mkCategory {
  catId : string; catTitle : string; catCount : nat; catColor : string; catIcon : string; catMastery : Q
}.

(** [stats] (lines 25-29), mock figures shown in the summary card. *)
Definition stats : nat * nat * nat := (12, 850, 5).

Definition categories : list Category :=
  [mkCategory "math" "Mathematics" 120 "#4CAF50" "function" (75 # 100);
   mkCategory "eng" "English" 200 "#2196F3" "textformat" (6 # 10);
   mkCategory "phy" "Physics" 95 "#FF9800" "bolt.fill" (45 # 100);
   mkCategory "chem" "Chemistry" 110 "#F44336" "flask.fill" (3 # 10);
   mkCategory "bio" "Biology" 150 "#4DB6AC" "leaf.fill" (55 # 100);
   mkCategory "eco" "Economics" 80 "#795548" "chart.pie.fill" (2 # 10)].

(** [Math.round(x)] on a non-negative rational: half rounds up. *)
Definition round_half_up (x : Q) : Z := Qfloor (x + (1 # 2))%Q.

(** The card of a category (lines 148-185): title, "[count] Cards", the
    rounded mastery percentage, and the route it opens. *)
Record CategoryView := mkCategoryView { cvTitle : string; cvCount : string; cvPercent : Z; cvRoute : string }.

Definition categoryView (c : Category) : CategoryView :=
  mkCategoryView (catTitle c) (js_nat_string (catCount c) +:+ " Cards")
    (round_half_up (catMastery c * 100)%Q) ("/flashcards/" +:+ catId c).

End FlashcardsIndex.

Module DeckScreen.
Import FlashcardData.

(** The route parameter [id]: a string, an array of strings, or absent. *)
Inductive Param := PStr (s : string) | PArr (l : list string) | PNone.

(** [Array.isArray(id) ? id[0] : id] (line 23). *)
Definition deckIdOf (p : Param) : option string :=
  match p with PStr s => Some s | PArr l => l !! 0 | PNone => None end.

(** [flashcardsData[deckId as string]] (line 24): an own deck, an
    inherited property of [Object.prototype] (truthy, without [cards]),
    or [undefined]. *)
Inductive Lookup := Found (d : Deck) | Inherited | Missing.

Definition lookupDeck (p : Param) : Lookup :=
  let k := default "undefined" (deckIdOf p) in
  match assoc_first k flashcardsData with
  | Some d => Found d
  | None => if bool_decide (k ∈ object_prototype_props) then Inherited else Missing
  end.

(** The state (lines 26-27) and the update the running slide's
    completion callback will make: [setCurrentIndex(target)] and
    [setIsFlipped(false)]. *)
Record FState := mkF { currentIndex : nat; isFlipped : bool; slide : option nat }.

Definition initial : FState := mkF 0 false None.

Section Deck.
Variable deck : Deck.
Let n := length (cards deck).

(** The callback of a finished or stopped slide (lines 62-73 and 83-94). *)
Definition finishSlide (s : FState) : FState :=
  match slide s with
  | Some t => mkF t false None
  | None => s
  end.

(** [flipCard] (lines 46-54). *)
Definition flipCard (s : FState) : FState := mkF (currentIndex s) (negb (isFlipped s)) (slide s).

(** [nextCard] and [prevCard] (lines 56-96): the guard and the new target
    read the index of the render; starting the slide stops the running
    one first. *)
Definition nextCard (s : FState) : FState :=
  if currentIndex s + 1 <? n
  then let s' := finishSlide s in mkF (currentIndex s') (isFlipped s') (Some (currentIndex s + 1))
  else s.

Definition prevCard (s : FState) : FState :=
  if 0 <? currentIndex s
  then let s' := finishSlide s in mkF (currentIndex s') (isFlipped s') (Some (currentIndex s - 1))
  else s.

(** The buttons' [disabled] props (lines 229 and 250). *)
Definition prevDisabled (s : FState) : bool := currentIndex s =? 0.
Definition nextDisabled (s : FState) : bool := currentIndex s + 1 =? n.

Inductive FEvent := FFlip | FNext | FPrev | FSlideEnd.

(** A press on an enabled control, or the running slide ending. *)
Definition fstep (s : FState) (e : FEvent) : FState :=
  match e with
  | FFlip => flipCard s
  | FNext => if nextDisabled s then s else nextCard s
  | FPrev => if prevDisabled s then s else prevCard s
  | FSlideEnd => finishSlide s
  end.

Definition frun (es : list FEvent) : FState := foldl fstep initial es.

(** The screen (lines 118-264): the progress text, the card's faces and
    the buttons. *)
Record CardScreen := mkScreen {
  progress : nat * nat;
  faceTopic : string; faceFront : string; faceBack : string;
  flipped : bool;
  deckTitle : string;
  prevOff : bool; nextOff : bool
}.

Definition cardScreen (s : FState) : option CardScreen :=
  match cards deck !! currentIndex s with
  | Some c => Some (mkScreen (currentIndex s + 1, n) (topic c) (front c) (back c) (isFlipped s)
                      (title deck) (prevDisabled s) (nextDisabled s))
  | None => None
  end.
End Deck.

(** What the route shows (lines 36-42): nothing, and a step back, for an
    unknown id; a crash for an inherited name, since [deck.cards] is
    [undefined] and reading [deck.cards[currentIndex]] throws. *)
Inductive Shown := GoBack | Crash | Card (v : option CardScreen).

Definition render (p : Param) (s : FState) : Shown :=
  match lookupDeck p with
  | Found d => Card (cardScreen d s)
  | Inherited => Crash
  | Missing => GoBack
  end.

End DeckScreen.

Module CardFlip.
Local Open Scope Q_scope.

(** The four interpolations of the flip value (lines 98-116): the
    faces turn from 0 to 180 and from 180 to 360 degrees, and swap their
    opacities between 89 and 90, each with [Animated.interpolate]'s
    default extrapolation. *)
Definition frontInterpolate (x : Q) : Q := Animated.interpolate 0 180 0 180 x.
Definition backInterpolate (x : Q) : Q := Animated.interpolate 0 180 180 360 x.
Definition frontOpacity (x : Q) : Q := Animated.interpolate 89 90 1 0 x.
Definition backOpacity (x : Q) : Q := Animated.interpolate 89 90 0 1 x.

(** The opacity a view is drawn with: the platform clamps the style's
    [opacity] to [0, 1]. *)
Definition drawn (o : Q) : Q := if Qle_bool o 0 then 0 else if Qle_bool 1 o then 1 else o.

(** [toValue: isFlipped ? 0 : 180] of [flipCard] (line 48), read with
    the [isFlipped] of the render before the press. *)
Definition flipTarget (isFlipped : bool) : Q := if isFlipped then 0 else 180.

(** A face as drawn (lines 163-218): its [rotateY] in degrees, its
    drawn opacity and its [zIndex]. *)
Record Face := mkFace { fRotate : Q; fOpacity : Q; fZ : nat }.

Definition faces (isFlipped : bool) (x : Q) : Face * Face :=
  (mkFace (frontInterpolate x) (drawn (frontOpacity x)) (if isFlipped then 0 else 1)%nat,
   mkFace (backInterpolate x) (drawn (backOpacity x)) (if isFlipped then 1 else 0)%nat).

End CardFlip.

(** ** Properties *)

Import FlashcardData FlashcardsIndex DeckScreen.

(** every category of the list opens a deck of the data with the
    same id, title, colour and icon. *)
Theorem categories_open_decks :
  Forall (fun c => exists d, lookupDeck (PStr (catId c)) = Found d /\ deckId d = catId c /\
            title d = catTitle c /\ color d = catColor c /\ icon d = catIcon c) categories.
Proof. repeat constructor; eexists; split_and!; reflexivity. Qed.

(** Finding: the list announces 120, 200, 95, 110, 150 and 80 cards
    for the six decks, which hold 12, 10, 10, 10, 10 and 10 cards. *)
Theorem category_counts_differ :
  map catCount categories = [120; 200; 95; 110; 150; 80] /\
  map (fun c => match lookupDeck (PStr (catId c)) with Found d => length (cards d) | _ => 0 end)
    categories = [12; 10; 10; 10; 10; 10].
Proof. split; reflexivity. Qed.

(** Finding: a route id that names a property of [Object.prototype]
    (such as [/flashcards/constructor]) finds a truthy value without
    cards and the screen throws, instead of going back as it does for an
    unknown id. *)
Theorem deck_route_crash_iff (p : Param) (s : FState) :
  render p s = Crash <-> default "undefined" (deckIdOf p) ∈ object_prototype_props.
Proof.
  unfold render, lookupDeck. generalize (default "undefined" (deckIdOf p)). intros k.
  assert (Hkeys : Forall (fun k => k ∉ object_prototype_props) flashcardsData.*1).
  { apply (bool_decide_unpack _). vm_compute. reflexivity. }
  destruct (assoc_first k flashcardsData) as [d|] eqn:E.
  - split; [done|]. intros Hk. apply assoc_first_elem in E.
    exfalso. refine (proj1 (Forall_forall _ _) Hkeys k _ Hk). apply list_elem_of_fmap. by exists (k, d).
  - case_bool_decide; split; done.
Qed.

Section DeckFacts.
Variable d : Deck.
Hypothesis Hne : cards d <> [].

Definition fwf (s : FState) : Prop :=
  currentIndex s < length (cards d) /\ (forall t, slide s = Some t -> t < length (cards d)).

Lemma finishSlide_wf s : fwf s -> fwf (finishSlide s).
Proof.
  intros Hs. unfold finishSlide. destruct (slide s) as [t|] eqn:E; [|exact Hs].
  destruct Hs as [H1 H2]. split; [by apply H2|by intros ? [=]].
Qed.

Lemma fstep_wf s e : fwf s -> fwf (fstep d s e).
Proof.
  intros Hs. pose proof (finishSlide_wf s Hs) as [Hf1 Hf2]. destruct Hs as [H1 H2].
  destruct e; simpl.
  - done.
  - destruct (nextDisabled d s); [done|]. unfold nextCard. case_nat; [|done].
    split; [done|]. intros t [= <-]. lia.
  - destruct (prevDisabled s); [done|]. unfold prevCard. case_nat; [|done].
    split; [done|]. intros t [= <-]. lia.
  - by split.
Qed.

Lemma frun_wf es : fwf (frun d es).
Proof.
  unfold frun. assert (H0 : fwf initial).
  { split; [destruct (cards d); [done|simpl; lia]|done]. }
  revert H0. generalize initial. induction es as [|e es IH]; intros s Hs; simpl; [done|].
  by apply IH, fstep_wf.
Qed.

(** C28: whatever the presses and however the slides interleave, the deck
    screen always shows one of the deck's cards, with a progress of
    [k / n] for [1 <= k <= n]. *)
Theorem deck_always_shows_card es :
  exists c, cards d !! currentIndex (frun d es) = Some c /\
    cardScreen d (frun d es) =
      Some (mkScreen (currentIndex (frun d es) + 1, length (cards d)) (topic c) (front c) (back c)
              (isFlipped (frun d es)) (title d) (prevDisabled (frun d es)) (nextDisabled d (frun d es))) /\
    1 <= currentIndex (frun d es) + 1 <= length (cards d).
Proof.
  destruct (frun_wf es) as [H1 _]. destruct (lookup_lt_is_Some_2 _ _ H1) as [c Hc].
  exists c. unfold cardScreen. rewrite Hc. split_and!; [done|done|lia|lia].
Qed.

Lemma next_slide k :
  k + 1 < length (cards d) -> fstep d (fstep d (mkF k false None) FNext) FSlideEnd = mkF (k + 1) false None.
Proof. intros Hk. simpl. unfold nextDisabled, nextCard. simpl. case_nat; simpl; try lia; done. Qed.

(** pressing Next and letting each slide finish, [k] times from the
    first card, shows the [k]-th card face up; Next is disabled exactly
    on the last card. *)
Theorem deck_walk k :
  k < length (cards d) ->
  let s := frun d (concat (replicate k [FNext; FSlideEnd])) in
  currentIndex s = k /\ isFlipped s = false /\ slide s = None /\
  (nextDisabled d s = true <-> k + 1 = length (cards d)).
Proof.
  intros Hk. cbv zeta.
  assert (Hs : frun d (concat (replicate k [FNext; FSlideEnd])) = mkF k false None).
  { induction k as [|k IH]; [done|]. unfold frun in *.
    rewrite replicate_S_end, concat_app, foldl_app, IH by lia. simpl foldl.
    rewrite <- Nat.add_1_r. apply next_slide. lia. }
  rewrite Hs. do 3 (split; [done|]). unfold nextDisabled. simpl. apply Nat.eqb_eq.
Qed.

(** Finding: a second press of Next during the slide stops it, its
    callback moves to the next card, and the new slide's callback moves
    to the same card again: two presses advance one card. *)
Theorem double_next_advances_once :
  2 < length (cards d) -> currentIndex (frun d [FNext; FNext; FSlideEnd]) = 1.
Proof.
  intros H. clear Hne. unfold frun, fstep, nextDisabled, nextCard, finishSlide. simpl.
  destruct (cards d) as [|c1 [|c2 [|c3 rest]]]; simpl in H |- *; [lia..|reflexivity].
Qed.

End DeckFacts.

Module CardFlipFacts.
Import CardFlip.
Local Open Scope Q_scope.

Lemma drawn_cases o :
  (o <= 0 /\ drawn o = 0) \/ (0 < o < 1 /\ drawn o = o) \/ (1 <= o /\ drawn o = 1).
Proof.
  unfold drawn. destruct (Qle_bool o 0) eqn:E0; [left; split; [by apply Qle_bool_iff|done]|].
  assert (H0 : 0 < o) by (apply Qnot_le_lt; intros H; apply Qle_bool_iff in H; congruence).
  destruct (Qle_bool 1 o) eqn:E1; [right; right; split; [by apply Qle_bool_iff|done]|].
  right; left. split; [|done]. split; [done|].
  apply Qnot_le_lt. intros H. apply Qle_bool_iff in H. congruence.
Qed.

Lemma frontOpacity_eq x : frontOpacity x == 90 - x.
Proof. unfold frontOpacity, Animated.interpolate. field. Qed.

Lemma backOpacity_eq x : backOpacity x == x - 89.
Proof. unfold backOpacity, Animated.interpolate. field. Qed.

(** C38: The two faces of a card are drawn with opacities in [0, 1]
    that add up to one, whatever the flip value, the spring's overshoot
    included: up to 89 only the front is seen, from 90 only the back. *)
Theorem face_opacities b x :
  let '(fr, bk) := faces b x in
  0 <= fOpacity fr <= 1 /\ 0 <= fOpacity bk <= 1 /\ fOpacity fr + fOpacity bk == 1 /\
  (x <= 89 -> fOpacity fr == 1 /\ fOpacity bk == 0) /\ (90 <= x -> fOpacity fr == 0 /\ fOpacity bk == 1).
Proof.
  simpl. pose proof (frontOpacity_eq x). pose proof (backOpacity_eq x).
  destruct (drawn_cases (frontOpacity x)) as [[? ->]|[[[? ?] ->]|[? ->]]];
  destruct (drawn_cases (backOpacity x)) as [[? ->]|[[[? ?] ->]|[? ->]]];
  split_and!; intros; lra.
Qed.

(** a flip comes to rest on the other face: the spring's target,
    chosen from the [isFlipped] of the press, draws the face the new
    [isFlipped] names fully, facing the viewer (0 or 360 degrees) and on
    top, and hides the other. *)
Theorem flip_rests_on_face s :
  let b := isFlipped (flipCard s) in
  let '(fr, bk) := faces b (flipTarget (isFlipped s)) in
  let '(shown, hidden) := if b then (bk, fr) else (fr, bk) in
  fOpacity shown == 1 /\ fOpacity hidden == 0 /\ fRotate shown == (if b then 360 else 0) /\
  fZ shown = 1%nat /\ fZ hidden = 0%nat.
Proof.
  simpl. destruct (isFlipped s); vm_compute; split_and!; reflexivity.
Qed.


Lemma face_opacities_witness :
  let '(fr, bk) := faces true 120 in
  0 <= fOpacity fr <= 1 /\ 0 <= fOpacity bk <= 1 /\ fOpacity fr + fOpacity bk == 1 /\
  (120 <= 89 -> fOpacity fr == 1 /\ fOpacity bk == 0) /\ (90 <= 120 -> fOpacity fr == 0 /\ fOpacity bk == 1).
Proof. exact (face_opacities true 120). Defined.

End CardFlipFacts.


(** ** Witnesses *)

Lemma deck_walk_witness :
  let s := frun deck_math (concat (replicate 11 [FNext; FSlideEnd])) in
  currentIndex s = 11 /\ isFlipped s = false /\ slide s = None /\
  (nextDisabled deck_math s = true <-> 11 + 1 = length (cards deck_math)).
Proof. apply deck_walk. apply Nat.ltb_lt. vm_compute. reflexivity. Defined.

Lemma double_next_advances_once_witness : currentIndex (frun deck_bio [FNext; FNext; FSlideEnd]) = 1.
Proof. apply double_next_advances_once. apply Nat.ltb_lt. vm_compute. reflexivity. Defined.

Lemma deck_always_shows_card_witness :
  let es := [FNext; FNext; FFlip; FPrev; FSlideEnd] in
  cards deck_math <> [] /\
  exists c, cards deck_math !! currentIndex (frun deck_math es) = Some c /\
    cardScreen deck_math (frun deck_math es) =
      Some (mkScreen (currentIndex (frun deck_math es) + 1, length (cards deck_math)) (topic c) (front c)
              (back c) (isFlipped (frun deck_math es)) (title deck_math) (prevDisabled (frun deck_math es))
              (nextDisabled deck_math (frun deck_math es))) /\
    1 <= currentIndex (frun deck_math es) + 1 <= length (cards deck_math).
Proof.
  cbv zeta. assert (H : cards deck_math <> []) by (vm_compute; discriminate).
  split; [exact H|]. exact (deck_always_shows_card deck_math H _).
Defined.
