(* ===== verification/StudyChrome.v ===== *)
(** * StudyChrome: the header, page sheet and calculator of past-study.tsx

    [src/app/mode/past-study.tsx] wraps [PastStudy] in a header (back,
    calculator in exam mode, page list), a title with the timer and the
    Submit button in exam mode, a page sheet and the [Calculator] modal
    (lines 155-265).  The sheet opens with one [Animated.parallel] and
    closes with another, whose completion callback hides it only when
    it reports [finished] (line 166).  Starting the other animation on
    the same two values stops the running one, so a close that is
    interrupted by a reopening never hides the sheet.  The model is an
    interleaving: the close callback [CloseFinished] may come after any
    other event.  The calculator is [Calculator.CalculatorPad], kept
    mounted with its [visible] flag, so its state survives closing. *)

From S2P Require Import Prelude Json Questions Pagination Navigator Timer JsNumber JsEval Calculator HomeAnim.
From Stdlib Require Import QArith.
Import JsEval CalculatorPad Animated.

Module Chrome.
Import Nav PageTracker.

(** [openSelector] and [closeSelector]'s animations (lines 157-160 and
    163-166). *)
Definition openAnim : Anim :=
  Parallel [Timing "backdrop" 1 180 OutQuad; Timing "sheetY" 0 220 OutQuad].
Definition closeAnim : Anim :=
  Parallel [Timing "backdrop" 0 160 InQuad; Timing "sheetY" 600 200 InQuad].

(** The page's state besides the session's: [subjectIdx] and [page]
    (in [nav]), [pagesBySubject], [selectorOpen], whether a close
    animation runs with its callback pending, [calculatorVisible] and
    the calculator's own state. *)
Record CState := mkCState {
  nav : NavState;
  pagesBySubject : gmap string nat;
  selectorOpen : bool;
  closing : bool;
  calcVisible : bool;
  calc : Calc
}.

Definition initial : CState := mkCState (mkNav 0 1 0) ∅ false false false CalculatorPad.initial.

Inductive CEvent :=
| PressList                      (* the list button: [openSelector] *)
| PressCalcButton                (* [setCalculatorVisible(true)], exam mode only *)
| PressBackdrop                  (* [closeSelector] *)
| PressChip (i p : nat)          (* a page chip, lines 249-253 *)
| CloseFinished                  (* the running close animation ends *)
| PaginationMeta (subj : string) (total : nat)   (* [onPaginationMetaChange] *)
| CalcInput (e : CalcEvent).     (* a press inside the calculator modal *)

Section Step.
Variable eng : Engine.
Variable mode : option string.
Variable subjects : list string.

Definition openSelector (s : CState) : CState :=
  mkCState (nav s) (pagesBySubject s) true false (calcVisible s) (calc s).

Definition closeSelector (s : CState) : CState :=
  mkCState (nav s) (pagesBySubject s) (selectorOpen s) true (calcVisible s) (calc s).

(** A rendered chip: subject [i] of the list and one of its pages. *)
Definition chip (s : CState) (i p : nat) : bool :=
  match subjects !! i with
  | Some subj => bool_decide (p ∈ sheetPages (pagesBySubject s) subj)
  | None => false
  end.

(** One event; a control acts only while it is rendered. *)
Definition cstep (s : CState) (e : CEvent) : CState :=
  match e with
  | PressList => openSelector s
  | PressCalcButton =>
      if bool_decide (mode = Some "exam")
      then mkCState (nav s) (pagesBySubject s) (selectorOpen s) (closing s) true (calc s) else s
  | PressBackdrop => if selectorOpen s then closeSelector s else s
  | PressChip i p =>
      if selectorOpen s && chip s i p
      then closeSelector (mkCState (mkNav i p (qIndex (nav s))) (pagesBySubject s)
                            (selectorOpen s) (closing s) (calcVisible s) (calc s))
      else s
  | CloseFinished =>
      if closing s then mkCState (nav s) (pagesBySubject s) false false (calcVisible s) (calc s) else s
  | PaginationMeta subj total =>
      mkCState (nav s) (recordTotal (pagesBySubject s) subj total) (selectorOpen s) (closing s) (calcVisible s) (calc s)
  | CalcInput ce =>
      if calcVisible s
      then let '(c, closes) := calcStep eng ce (calc s) in
           mkCState (nav s) (pagesBySubject s) (selectorOpen s) (closing s) (negb closes) c
      else s
  end.

Definition crun (es : list CEvent) : CState := foldl cstep initial es.

End Step.

(** The header and the sheet (lines 169-264). *)
Record ChromeView := mkChromeView {
  title : string;
  calcButton : bool;
  timerText : option string;
  submitButton : bool;
  sheet : option (list (string * list (nat * bool)));
  calculator : CalcView
}.

Definition chromeView (mode : option string) (subjects : list string) (timeRemaining : option nat)
    (s : CState) : ChromeView :=
  let exam := bool_decide (mode = Some "exam") in
  mkChromeView (if exam then "Exam" else "Study") exam
    (if exam then Clock.formatTime <$> timeRemaining else None) exam
    (if selectorOpen s
     then Some (imap (fun i subj => (subj, map (fun p => (p, bool_decide (subjectIdx (nav s) = i /\ page (nav s) = p)))
                                               (sheetPages (pagesBySubject s) subj))) subjects)
     else None)
    (calcView (calcVisible s) (calc s)).

End Chrome.

Module ChromeFacts.
Import Chrome.

Section Facts.
Variable eng : Engine.
Variable mode : option string.
Variable subjects : list string.

(** An event that does not close the sheet. *)
Definition keeps_sheet (e : CEvent) : Prop :=
  match e with PressBackdrop | PressChip _ _ => False | _ => True end.

Lemma cstep_keeps_open s e :
  keeps_sheet e -> selectorOpen s = true -> closing s = false ->
  selectorOpen (cstep eng mode subjects s e) = true /\ closing (cstep eng mode subjects s e) = false.
Proof.
  intros He Ho Hc. destruct e; simpl in *; try done; rewrite ?Hc; try done.
  - by case_bool_decide.
  - destruct (calcVisible s); [|done]. by destruct (calcStep eng e (calc s)).
Qed.

(** Once the list button has opened the sheet, only the backdrop or a
    chip closes it: the callback of a close that the reopening stopped
    reports [finished: false] and leaves the sheet open. *)
Lemma sheet_stays_open s es :
  Forall keeps_sheet es -> selectorOpen (foldl (cstep eng mode subjects) (cstep eng mode subjects s PressList) es) = true.
Proof.
  intros Hes. enough (H : forall t, selectorOpen t = true -> closing t = false ->
                          selectorOpen (foldl (cstep eng mode subjects) t es) = true) by (apply H; done).
  induction Hes as [|e es He Hes IH]; intros t Ho Hc; [done|].
  destruct (cstep_keeps_open t e He Ho Hc). by apply IH.
Qed.

(** Outside exam mode there is no calculator button, so the calculator
    never shows. *)
Lemma calculator_exam_only es :
  mode <> Some "exam" -> calcVisible (crun eng mode subjects es) = false.
Proof.
  intros Hm. unfold crun. assert (H : calcVisible initial = false) by done. revert H.
  generalize initial. induction es as [|e es IH]; intros s Hs; [done|]. apply IH.
  destruct e as [| | |i p| | |ce]; simpl; try done.
  - by rewrite bool_decide_false.
  - by destruct (selectorOpen s).
  - by destruct (selectorOpen s && chip subjects s i p).
  - by destruct (closing s).
  - by rewrite Hs.
Qed.

(** The calculator stays mounted: closing it and opening it again shows
    the same expression and result. *)
Lemma calculator_keeps_state s :
  mode = Some "exam" -> calcVisible s = true ->
  calc (cstep eng mode subjects (cstep eng mode subjects s (CalcInput CloseButton)) PressCalcButton) = calc s /\
  calcVisible (cstep eng mode subjects (cstep eng mode subjects s (CalcInput CloseButton)) PressCalcButton) = true.
Proof. intros -> Hv. simpl. rewrite Hv. simpl. by rewrite ?bool_decide_true. Qed.

End Facts.

End ChromeFacts.
