(* ===== verification/TabBar.v ===== *)
(** * TabBar: the floating tab bar and its indicator

    [src/components/ui/GlassTabBar.tsx] draws the tabs of the navigator
    and a round indicator behind the focused tab.  The effect of lines
    53-80 moves the indicator to the focused tab.  It centres it on the
    tab's content from the layouts measured by [onLayout] (lines 128-143),
    and falls back to an estimate of a 360-point row when a layout is
    missing.  Its size is clamped to [44, 64].  The effect depends on the
    focused index and the routes only.  The layouts sit in refs, whose
    update renders nothing.  A press emits [tabPress] and navigates when
    the tab is not focused and no listener prevented it (lines 97-102).

    Layouts are the rationals [onLayout] reports.  The navigator state
    ([state.index], [state.routes]) belongs to the navigation library: a
    navigation is modelled as the change of the focused index the
    library makes.  Springs and timings animate towards the target the
    effect sets; the model keeps the target.  Each tab's view (label,
    colour, padding) follows the focused index.  Its focus value is an
    [Animated.Value], animated with [HomeAnim]'s combinators: a spring
    to [1] for the focused tab and a timing to [0] for the others
    (lines 23-51). *)

From S2P Require Import Prelude Pagination HomeAnim.
From Stdlib Require Import QArith.

Module GlassTabBar.
Local Open Scope Q_scope.

(** A layout of [onLayout]. *)
Record Layout := mkLayout { lx : Q; ly : Q; lwidth : Q; lheight : Q }.

(** Where the indicator goes: its left, top and size. *)
Record Target := mkTarget { tLeft : Q; tTop : Q; tSize : Q }.

(** The effect of lines 53-80, for [count] tabs, the focused [index],
    and the item and content layouts recorded for the focused tab. *)
Definition indicatorTarget (count index : nat) (item content : option Layout) : Target :=
  let containerPad := 6 in
  let rowWidthEstimate := 360 in
  let itemWidthEstimate := rowWidthEstimate / inject_Z (Z.of_nat (Nat.max 1 count)) in
  let fallbackContentWidth := Qmax' 80 (Qmin' (itemWidthEstimate - 20) 160) in
  let fallbackContentHeight := 48 in
  let cx := match item, content with
            | Some it, Some c => lx it + lx c + lwidth c / 2 + containerPad
            | _, _ => 16 + inject_Z (Z.of_nat index) * itemWidthEstimate + itemWidthEstimate / 2
            end in
  let cy := match item, content with
            | Some it, Some c => ly it + ly c + lheight c / 2
            | _, _ => 39
            end in
  let baseSize := match content with
                  | Some c => Qmax' (lheight c) (Qmin' (lwidth c) 48)
                  | None => Qmax' fallbackContentHeight (Qmin' fallbackContentWidth 48)
                  end in
  let targetSize := Qmax' 44 (Qmin' (baseSize + 16) 64) in
  mkTarget (cx - targetSize / 2) (cy - targetSize / 2) targetSize.

(** The bar: the number of routes, the focused index, the layouts in
    the refs (lines 17-18) by tab, and the indicator's target (initially
    the values of lines 19-21). *)
Record TState := mkT {
  count : nat;
  focused : nat;
  itemLayouts : gmap nat Layout;
  contentLayouts : gmap nat Layout;
  target : Target
}.

(** The effect of lines 53-80 runs. *)
Definition runEffect (s : TState) : TState :=
  mkT (count s) (focused s) (itemLayouts s) (contentLayouts s)
    (indicatorTarget (count s) (focused s) (itemLayouts s !! focused s) (contentLayouts s !! focused s)).

(** The first render and its effects, with the routes and the index
    the navigator gives. *)
Definition mount (count index : nat) : TState :=
  runEffect (mkT count index ∅ ∅ (mkTarget 16 12 56)).

Inductive TEvent :=
| TItemLayout (i : nat) (l : Layout)      (* [onLayout] of the [i]-th item (lines 128-131) *)
| TContentLayout (i : nat) (l : Layout)   (* [onLayout] of its content (lines 140-143) *)
| TPress (i : nat) (prevented : bool).    (* a press, and whether a listener prevented it *)

Definition tstep (s : TState) (e : TEvent) : TState :=
  match e with
  | TItemLayout i l => mkT (count s) (focused s) (<[i := l]> (itemLayouts s)) (contentLayouts s) (target s)
  | TContentLayout i l => mkT (count s) (focused s) (itemLayouts s) (<[i := l]> (contentLayouts s)) (target s)
  | TPress i prevented =>
      if bool_decide (i <> focused s) && negb prevented && (i <? count s)%nat
      then runEffect (mkT (count s) i (itemLayouts s) (contentLayouts s) (target s))
      else s
  end.

Definition trun (count index : nat) (es : list TEvent) : TState := foldl tstep (mount count index) es.

(** ** The tabs and their focus animations *)

(** What the bar reads of a route's descriptor: the tints (lines 11-12)
    and the label, [options.tabBarLabel ?? options.title ?? route.name]
    (line 95). *)
Record TabDescriptor := mkDesc {
  dActiveTint : option string; dInactiveTint : option string; dLabel : option string; dTitle : option string
}.

(** Lines 11-12: the focused route's tints, with defaults by scheme. *)
Definition activeColor (dark : bool) (d : TabDescriptor) : string :=
  default (if dark then "#7AE584" else "#2E7D32") (dActiveTint d).
Definition inactiveColor (d : TabDescriptor) : string := default "#8A8A9E" (dInactiveTint d).

(** A tab (lines 92-150): its label, colour, padding and
    [accessibilityState]. *)
Record ItemView := mkItemView { ivLabel : string; ivColor : string; ivPadH : nat; ivPadV : nat; ivSelected : bool }.

Definition itemView (dark : bool) (focusedDesc : TabDescriptor) (index i : nat) (name : string)
    (d : TabDescriptor) : ItemView :=
  let focused := (i =? index)%nat in
  mkItemView (default (default name (dTitle d)) (dLabel d))
    (if focused then activeColor dark focusedDesc else inactiveColor focusedDesc)
    (if focused then 22 else 16) (if focused then 14 else 8) focused.

(** [state.routes.map(...)], the routes as names and descriptors;
    [descriptors[state.routes[state.index].key]] gives the tints. *)
Definition itemViews (dark : bool) (index : nat) (routes : list (string * TabDescriptor)) : list ItemView :=
  let fd := default (mkDesc None None None None) (snd <$> routes !! index) in
  imap (fun i r => itemView dark fd index i r.1 r.2) routes.

Import Animated.

(** The [Animated.Value] of the [i]-th tab's focus. *)
Definition focusKey (i : nat) : string := "focus" +:+ js_nat_string i.

(** Lines 23-29: the values created at mount, [1] for the focused tab. *)
Definition focusInit (count index : nat) : gmap string Q :=
  list_to_map (map (fun i => (focusKey i, if (i =? index)%nat then 1 else 0)) (seq 0 count)).

(** Lines 41-51, on each change of [state.index]: a spring to [1] for
    the focused tab, a 280 ms timing to [0] for the others, each started
    on its own. *)
Definition focusAnim (index i : nat) : Anim :=
  if (i =? index)%nat then Spring (focusKey i) 1 5 180 else Timing (focusKey i) 0 280 OutQuad.

Definition focusAnims (count index : nat) : list Anim := map (focusAnim index) (seq 0 count).

(** Lines 31-39: the blob's loop, restarted on each index change. *)
Definition blobLoop : Anim :=
  Loop (Sequence [Timing "blob" 1 1800 InOutSin; Timing "blob" 0 1800 InOutSin]).

End GlassTabBar.

(** ** Properties *)

Module TabBarFacts.
Import GlassTabBar.

Definition is_layout (e : TEvent) : bool := match e with TPress _ _ => false | _ => true end.

Lemma layouts_keep_target s es : forallb is_layout es = true -> target (foldl tstep s es) = target s /\
  focused (foldl tstep s es) = focused s /\ count (foldl tstep s es) = count s.
Proof.
  revert s. induction es as [|e es IH]; intros s H; [done|]. simpl in H.
  apply andb_true_iff in H as [He H]. simpl. destruct (IH (tstep s e) H) as (H1 & H2 & H3).
  rewrite H1, H2, H3. by destruct e.
Qed.

(** the indicator's size is in [44, 64] whatever the layouts, and
    with both layouts measured it is centred on the tab's content. *)
Theorem indicator_bounds count index item content :
  (44 <= tSize (indicatorTarget count index item content) <= 64)%Q /\
  (forall it c, item = Some it -> content = Some c ->
     tLeft (indicatorTarget count index item content) + tSize (indicatorTarget count index item content) / 2
     == lx it + lx c + lwidth c / 2 + 6)%Q.
Proof.
  split.
  - simpl. split; [apply Qmax'_spec|]. apply Qmax'_le; [discriminate|apply Qmin'_spec].
  - intros it c -> ->. simpl. field.
Qed.

(** Finding: the layouts [onLayout] measures are written to refs,
    which render nothing, and the indicator's effect does not depend on
    them: after mounting, whatever the layout events, the indicator
    stays at the estimate for a 360-point row, and it reaches the
    measured position only when the user moves to another tab. *)
Theorem indicator_ignores_layouts count index es j :
  forallb is_layout es = true ->
  target (trun count index es) = indicatorTarget count index None None /\
  (j <> index -> (j < count)%nat ->
   target (tstep (trun count index es) (TPress j false)) =
   indicatorTarget count j (itemLayouts (trun count index es) !! j) (contentLayouts (trun count index es) !! j)).
Proof.
  intros Hl. unfold trun. destruct (layouts_keep_target (mount count index) es Hl) as (H1 & H2 & H3).
  split; [done|]. intros Hj Hc. simpl. rewrite H2, H3. simpl.
  rewrite bool_decide_true by done. rewrite (proj2 (Nat.ltb_lt _ _) Hc). done.
Qed.

Import Animated.

Lemma focusKey_inj i j : focusKey i = focusKey j -> i = j.
Proof. unfold focusKey. intros H. apply js_nat_string_inj. by apply (inj (String.append "focus")). Qed.

(** Once the animations of an index change have run, the focus values
    mark the focused tab, as at mount: the tab's values do not depend
    on the presses that led there. *)
Lemma settle_focusAnim index i s :
  settle (focusAnim index i) s = <[focusKey i := if (i =? index)%nat then 1%Q else 0%Q]> s.
Proof. unfold focusAnim. by destruct (i =? index)%nat. Qed.

Lemma focus_run_lookup index a n s j :
  foldl (fun s x => settle x s) s (map (focusAnim index) (seq a n)) !! focusKey j =
  if (a <=? j)%nat && (j <? a + n)%nat then Some (if (j =? index)%nat then 1%Q else 0%Q) else s !! focusKey j.
Proof.
  revert a s. induction n as [|n IH]; intros a s; cbn [seq map foldl].
  - destruct (Nat.leb_spec a j), (Nat.ltb_spec j (a + 0)); cbn [andb]; done || lia.
  - rewrite IH, settle_focusAnim.
    destruct (Nat.eq_dec j a) as [->|Hne].
    + rewrite lookup_insert_eq.
      replace ((S a <=? a)%nat) with false by (symmetry; apply Nat.leb_gt; lia).
      replace ((a <=? a)%nat && (a <? a + S n)%nat) with true by (symmetry; apply andb_true_iff; split; [apply Nat.leb_le|apply Nat.ltb_lt]; lia).
      done.
    + rewrite lookup_insert_ne by (intros E; apply focusKey_inj in E; lia).
      destruct (Nat.leb_spec (S a) j), (Nat.leb_spec a j), (Nat.ltb_spec j (S a + n)), (Nat.ltb_spec j (a + S n));
        cbn [andb]; done || lia.
Qed.

(** Once the animations of an index change have run, each tab's focus
    value is [1] for the focused tab and [0] for the others, whatever
    the values were when the index changed. *)
Lemma focus_settles count index s i :
  (i < count)%nat ->
  foldl (fun s x => settle x s) s (focusAnims count index) !! focusKey i = Some (if (i =? index)%nat then 1%Q else 0%Q).
Proof.
  intros Hi. unfold focusAnims. rewrite focus_run_lookup.
  replace ((0 <=? i)%nat && (i <? 0 + count)%nat) with true by (symmetry; apply andb_true_iff; split; [apply Nat.leb_le|apply Nat.ltb_lt]; lia).
  done.
Qed.

End TabBarFacts.

Module TabBarWitnesses.
Import GlassTabBar TabBarFacts.

Definition w_item : Layout := mkLayout 120 0 120 78.
Definition w_content : Layout := mkLayout 20 15 80 48.

Lemma indicator_ignores_layouts_witness :
  target (trun 3 0 [TItemLayout 1 w_item; TContentLayout 1 w_content]) = indicatorTarget 3 0 None None /\
  target (tstep (trun 3 0 [TItemLayout 1 w_item; TContentLayout 1 w_content]) (TPress 1 false)) =
  indicatorTarget 3 1 (Some w_item) (Some w_content).
Proof.
  destruct (indicator_ignores_layouts 3 0 [TItemLayout 1 w_item; TContentLayout 1 w_content] 1 eq_refl)
    as [H1 H2].
  split; [exact H1|]. rewrite H2 by lia. reflexivity.
Defined.

End TabBarWitnesses.
