(* ===== verification/Headers.v ===== *)
(** * Headers: the header each route of the root Stack shows

    [src/app/_layout.tsx] declares most routes of the root Stack with
    [options] of their own ([RootLayout.stackScreens]).  Three screens
    set their header again from inside their component with a
    [<Stack.Screen options>] of their own: the flashcard list
    ([src/app/flashcards/index.tsx]), a deck
    ([src/app/flashcards/[id].tsx]) and the performance screen
    ([src/app/performance/index.tsx]).  What a route shows is the
    screen's options laid over the layout's, field by field; a route
    the layout does not declare gets the Stack's defaults: a header
    titled with the route's name. *)

From S2P Require Import Prelude Flashcards AppShell.

Module ScreenHeaders.
Import RootLayout FlashcardData.

(** The header options the screens set. *)
Record Options := mkOptions {
  oShown : option bool;
  oTitle : option string;           (* [title] *)
  oHeaderTitle : option string;     (* [headerTitle] *)
  oTransparent : option bool;       (* [headerTransparent] *)
  oBack : bool                      (* a [headerLeft] that calls [router.back()] *)
}.

Definition no_options : Options := mkOptions None None None None false.

(** A layout declaration as options. *)
Definition of_stack (s : StackScreen) : Options :=
  mkOptions (ssHeaderShown s) (ssTitle s) None None false.

(** The [<Stack.Screen options>] a screen renders: shown, titled,
    transparent, with a chevron that goes back. *)
Definition own_header (title : string) : Options :=
  mkOptions (Some true) None (Some title) (Some true) true.

(** flashcards/index.tsx lines 84-103. *)
Definition flashcardsOptions : Options := own_header "Flashcards".

(** flashcards/[id].tsx lines 120-140: the deck's title; a missing deck
    returns [null] before (line 42) and sets nothing. *)
Definition deckOptions (d : Deck) : Options := own_header (title d).

(** performance/index.tsx lines 68-87. *)
Definition performanceOptions : Options := own_header "My Performance".

(** [options] set later win, field by field. *)
Definition merge (base over : Options) : Options :=
  mkOptions (match oShown over with Some b => Some b | None => oShown base end)
    (match oTitle over with Some t => Some t | None => oTitle base end)
    (match oHeaderTitle over with Some t => Some t | None => oHeaderTitle base end)
    (match oTransparent over with Some b => Some b | None => oTransparent base end)
    (oBack base || oBack over).

(** The layout's options of a route. *)
Definition layoutOptions (r : string) : Options :=
  match find (fun s => bool_decide (ssName s = r)) stackScreens with
  | Some s => of_stack s
  | None => no_options
  end.

(** The options a screen sets itself, for the deck it shows. *)
Definition screenOptions (deck : option Deck) (r : string) : Options :=
  if bool_decide (r = "flashcards/index") then flashcardsOptions
  else if bool_decide (r = "performance/index") then performanceOptions
  else if bool_decide (r = "flashcards/[id]") then
    match deck with Some d => deckOptions d | None => no_options end
  else no_options.

(** What the header of a route shows: nothing, or its title. *)
Definition header (deck : option Deck) (r : string) : option string :=
  let o := merge (layoutOptions r) (screenOptions deck r) in
  if default true (oShown o) then
    Some (default (default r (oTitle o)) (oHeaderTitle o))
  else None.

End ScreenHeaders.

Module HeaderFacts.
Import RootLayout FlashcardData ScreenHeaders.

(** Every route of the app: the routes without a header, and the
    titles of the others, the deck's own title on a deck route. *)
Theorem route_headers (deck : option Deck) :
  Forall (fun r => header deck r = None)
    ["(tabs)"; "index"; "auth/change-password"; "auth/edit-profile"; "auth/login"; "auth/signup";
     "mode/exam-corrections"; "mode/exam-instructions"; "mode/exam-results"; "mode/past-options";
     "mode/past-study"; "mode/saved-questions"; "mode/study"; "settings/app-settings"] /\
  header deck "auth/forgot-password" = Some "Forgot Password" /\
  header deck "auth/reset" = Some "Reset Password" /\
  header deck "flashcards/index" = Some "Flashcards" /\
  header deck "performance/index" = Some "My Performance" /\
  header deck "flashcards/[id]" = Some (default "flashcards/[id]" (title <$> deck)).
Proof. destruct deck; split_and!; repeat constructor. Qed.

(** The routes above are all the routes of the app. *)
Lemma route_headers_cover :
  app_routes ≡ₚ ["(tabs)"; "index"; "auth/change-password"; "auth/edit-profile"; "auth/login"; "auth/signup";
     "mode/exam-corrections"; "mode/exam-instructions"; "mode/exam-results"; "mode/past-options";
     "mode/past-study"; "mode/saved-questions"; "mode/study"; "settings/app-settings";
     "auth/forgot-password"; "auth/reset"; "flashcards/index"; "performance/index"; "flashcards/[id]"].
Proof. apply (bool_decide_unpack _). vm_compute. reflexivity. Qed.

End HeaderFacts.
