(* ===== verification/Profile.v ===== *)
(** * Profile: editing the profile (EditProfileScreen.tsx)

    [src/components/screens/EditProfileScreen.tsx] fills four fields
    from [state.user] of [AuthContext] once, when it mounts; a user
    record with a [name] but no [firstName]/[lastName] is split at its
    spaces.  [onSave] sends [AuthApi.updateProfile] the fields that are
    non-empty and differ from the user record, and the trimmed full
    name when it differs.  It then hands the returned user to
    [setAuth].  [src/app/auth/edit-profile.tsx] only frames it with a
    back button and a title.

    [AuthContext] and [AuthApi] are not under [src/]: the user record
    and the token of a press are inputs of the [PSave] event, and the
    two awaited promises settle by events, as in [Auth]. *)

From S2P Require Import Prelude Json Account Auth.
From Stdlib Require Import Ascii.

Module EditProfile.
Import AuthForms.

(** The fields of [state.user] the screen reads; [None] is
    [undefined]. *)
Record PUser := mkPUser {
  uName : option string; uFirst : option string; uLast : option string;
  uEmail : option string; uPhone : option string
}.

(** [a ?? b] on a string-or-undefined [a]. *)
Definition nullish (a : option string) (b : string) : string :=
  match a with Some s => s | None => b end.

(** The initial fields (lines 10-17). *)
Definition initialName (u : option PUser) : string := or_str (u ≫= uName) "".

Definition nameParts (u : option PUser) : list string := SessionStatus.js_split " "%char (initialName u) "".

Definition initialFirst (u : option PUser) : string :=
  nullish (u ≫= uFirst) (or_str (nameParts u !! 0) "").

Definition initialLast (u : option PUser) : string :=
  nullish (u ≫= uLast) (or_str (Some (js_join " " (drop 1 (nameParts u)))) "").

(** The calls to the context and the API, and the two awaits. *)
Inductive ProfileCall :=
| CUpdateProfile (token : string) (payload : list (string * string))
| CSetAuth (token : string) (user : option PUser).

Inductive ProfilePc := AwaitUpdate | AwaitSetAuth.

Record PState := mkP {
  firstName : string; lastName : string; pemail : string; phone : string;
  pasync : Async ProfilePc ProfileCall
}.

Definition pInitial (u : option PUser) : PState :=
  mkP (initialFirst u) (initialLast u) (or_str (u ≫= uEmail) "") (or_str (u ≫= uPhone) "") idle.

(** [if (v && v !== state.user?.k) payload.k = v] (lines 27-30, 32). *)
Definition add_if_changed (k v : string) (prev : option string) (acc : list (string * string)) :=
  if bool_decide (v ≠ "") && bool_decide (Some v ≠ prev) then acc ++ [(k, v)] else acc.

(** [`${firstName.trim()} ${lastName.trim()}`.trim()] (line 31). *)
Definition composedName (s : PState) : string :=
  js_trim (js_trim (firstName s) +:+ " " +:+ js_trim (lastName s)).

(** The payload of lines 26-32, its keys in the order they are set. *)
Definition payload (u : option PUser) (s : PState) : list (string * string) :=
  add_if_changed "name" (composedName s) (u ≫= uName)
    (add_if_changed "phone" (phone s) (u ≫= uPhone)
      (add_if_changed "email" (pemail s) (u ≫= uEmail)
        (add_if_changed "lastName" (lastName s) (u ≫= uLast)
          (add_if_changed "firstName" (firstName s) (u ≫= uFirst) [])))).

(** How [AuthApi.updateProfile] settles: with the response's [user], or
    with a thrown error. *)
Inductive UpdateOutcome := UpdOk (user : option PUser) | UpdErr (e : ApiError).

Inductive PEvent :=
| PSetFirst (v : string) | PSetLast (v : string) | PSetEmail (v : string) | PSetPhone (v : string)
| PSave (token : option string) (user : option PUser)   (* a press, with the context of its render *)
| PSettleUpdate (o : UpdateOutcome)
| PSettleSetAuth (o : Outcome).

Definition with_async (s : PState) (a : Async ProfilePc ProfileCall) : PState :=
  mkP (firstName s) (lastName s) (pemail s) (phone s) a.

(** The [catch] (lines 36-37). *)
Definition failed (e : ApiError) (a : Async ProfilePc ProfileCall) : Async ProfilePc ProfileCall :=
  finish (Some ("Update failed", or_str (errError e) "Unexpected error")) None a.

(** [onSave] (lines 20-41): without a token it alerts and returns
    before the [try]; otherwise [setLoading(true)] and the update. *)
Definition onSave (token : option string) (u : option PUser) (s : PState) : Async ProfilePc ProfileCall :=
  match token with
  | Some t =>
      if bool_decide (t = "") then
        mkAsync (loading (pasync s)) (pending (pasync s)) (calls (pasync s))
          (alerts (pasync s) ++ [("Not logged in", "Please log in to update your profile")]) (navs (pasync s))
      else await_call (CUpdateProfile t (payload u s)) AwaitUpdate (pasync s)
  | None =>
      mkAsync (loading (pasync s)) (pending (pasync s)) (calls (pasync s))
        (alerts (pasync s) ++ [("Not logged in", "Please log in to update your profile")]) (navs (pasync s))
  end.

(** The token the running save awaits with. *)
Definition save_token (a : Async ProfilePc ProfileCall) : option string :=
  match last (calls a) with Some (CUpdateProfile t _) | Some (CSetAuth t _) => Some t | None => None end.

(** A step: typing, a press on the Save button (disabled while
    [loading], line 51), and the two awaits settling. *)
Definition pstep (s : PState) (e : PEvent) : PState :=
  match e with
  | PSetFirst v => mkP v (lastName s) (pemail s) (phone s) (pasync s)
  | PSetLast v => mkP (firstName s) v (pemail s) (phone s) (pasync s)
  | PSetEmail v => mkP (firstName s) (lastName s) v (phone s) (pasync s)
  | PSetPhone v => mkP (firstName s) (lastName s) (pemail s) v (pasync s)
  | PSave token u => if loading (pasync s) then s else with_async s (onSave token u s)
  | PSettleUpdate o =>
      match pending (pasync s), o, save_token (pasync s) with
      | Some AwaitUpdate, UpdOk user, Some t => with_async s (await_again (CSetAuth t user) AwaitSetAuth (pasync s))
      | Some AwaitUpdate, UpdErr e, _ => with_async s (failed e (pasync s))
      | _, _, _ => s
      end
  | PSettleSetAuth o =>
      match pending (pasync s), o with
      | Some AwaitSetAuth, Fulfilled =>
          with_async s (finish (Some ("Profile updated", "Your changes have been saved.")) None (pasync s))
      | Some AwaitSetAuth, Rejected e => with_async s (failed e (pasync s))
      | _, _ => s
      end
  end.

Definition prun (u : option PUser) (es : list PEvent) : PState := foldl pstep (pInitial u) es.

(** The Save button's text (line 52). *)
Definition saveText (s : PState) : string := if loading (pasync s) then "Saving..." else "Save changes".

End EditProfile.

Module ProfileFacts.
Import AuthForms EditProfile.

Lemma add_if_changed_elem k v prev acc kv :
  kv ∈ add_if_changed k v prev acc -> kv ∈ acc \/ (kv = (k, v) /\ v <> "" /\ Some v <> prev).
Proof.
  unfold add_if_changed. case_bool_decide; case_bool_decide; simpl; auto.
  rewrite elem_of_app, list_elem_of_singleton. intros [?|?]; auto.
Qed.

Lemma add_if_changed_same k v prev acc : Some v = prev -> add_if_changed k v prev acc = acc.
Proof. intros <-. unfold add_if_changed. rewrite (bool_decide_false (Some v ≠ Some v)) by (intros H; by apply H). by rewrite andb_false_r. Qed.

(** C35: The payload of a save holds only non-empty values that differ
    from the user record, each under its own key: a field the user
    empties is never sent, so the profile cannot clear it. *)
Theorem payload_only_changes u s k v :
  (k, v) ∈ payload u s ->
  v <> "" /\
  ((k = "firstName" /\ v = firstName s /\ Some v <> (u ≫= uFirst)) \/
   (k = "lastName" /\ v = lastName s /\ Some v <> (u ≫= uLast)) \/
   (k = "email" /\ v = pemail s /\ Some v <> (u ≫= uEmail)) \/
   (k = "phone" /\ v = phone s /\ Some v <> (u ≫= uPhone)) \/
   (k = "name" /\ v = composedName s /\ Some v <> (u ≫= uName))).
Proof.
  unfold payload. intros H.
  repeat (apply add_if_changed_elem in H as [H|([= -> ->] & ? & ?)]; [|naive_solver]).
  by apply elem_of_nil in H.
Qed.

Lemma add_if_changed_or_str k e acc : add_if_changed k (or_str (Some e) "") (Some e) acc = acc.
Proof.
  unfold or_str. case_bool_decide as He; [|by apply add_if_changed_same].
  subst. unfold add_if_changed. by rewrite (bool_decide_false (String.EmptyString ≠ String.EmptyString)) by (intros H; by apply H).
Qed.

(** a user record that holds all five fields, its name the trimmed
    join of the two names, is saved untouched with an empty payload. *)
Theorem untouched_save_empty f l e p :
  let u := Some (mkPUser (Some (js_trim (js_trim f +:+ " " +:+ js_trim l))) (Some f) (Some l) (Some e) (Some p)) in
  payload u (pInitial u) = [].
Proof.
  unfold payload, pInitial, initialFirst, initialLast, composedName.
  cbn -[add_if_changed or_str js_trim String.append].
  rewrite (add_if_changed_same "firstName" f (Some f) [] eq_refl),
    (add_if_changed_same "lastName" l (Some l) [] eq_refl), !add_if_changed_or_str.
  by apply add_if_changed_same.
Qed.

(** Finding: a user record with only a [name] written with two spaces
    is saved untouched with a payload: the split name becomes
    [firstName] and a [lastName] starting with a space, and the name
    itself is rewritten with one space. *)
Theorem untouched_save_rewrites_name :
  let u := Some (mkPUser (Some "Ada  Lovelace") None None (Some "ada@example.com") None) in
  payload u (pInitial u) = [("firstName", "Ada"); ("lastName", " Lovelace"); ("name", "Ada Lovelace")].
Proof. vm_compute. reflexivity. Qed.

(** The running save's state: [loading] exactly while an await is
    pending. *)
Definition pinv (s : PState) : Prop := loading (pasync s) = true <-> pending (pasync s) <> None.

Lemma pstep_inv s e : pinv s -> pinv (pstep s e).
Proof.
  unfold pinv. intros H. destruct e as [v|v|v|v|t u'|o|o]; simpl; try exact H.
  - destruct (loading (pasync s)) eqn:L; [by rewrite L|]. unfold onSave.
    destruct t as [t|]; [case_bool_decide|]; simpl; rewrite ?L; [exact H|split; done|exact H].
  - destruct (pending (pasync s)) as [[]|] eqn:P; destruct o; destruct (save_token (pasync s)); simpl;
      first [rewrite P; exact H | split; [done|intros _; by apply H] | split; done].
  - destruct (pending (pasync s)) as [[]|] eqn:P; destruct o; simpl;
      first [rewrite P; exact H | split; done].
Qed.

(** C34: A save runs alone: in every reachable state the Save button is
    disabled exactly while an await is pending, and a press then
    starts no second request. *)
Theorem save_single_flight u es t u' :
  let s := prun u es in
  (loading (pasync s) = true <-> pending (pasync s) <> None) /\
  (pending (pasync s) <> None -> pstep s (PSave t u') = s).
Proof.
  assert (H : pinv (prun u es)).
  { unfold prun. assert (H0 : pinv (pInitial u)) by (split; done).
    revert H0. generalize (pInitial u). induction es as [|e es IH]; intros s Hs; [done|].
    apply IH, pstep_inv, Hs. }
  split; [exact H|]. intros Hp. simpl. by rewrite (proj2 H Hp).
Qed.


Definition w_user : option PUser :=
  Some (mkPUser (Some "Ada Lovelace") (Some "Ada") (Some "Lovelace") (Some "ada@example.com") None).

Lemma save_single_flight_witness :
  let s := prun w_user [PSave (Some "tok") w_user] in
  pending (pasync s) <> None /\ pstep s (PSave (Some "tok") w_user) = s.
Proof.
  cbv zeta. assert (Hp : pending (pasync (prun w_user [PSave (Some "tok") w_user])) <> None)
    by (vm_compute; discriminate).
  split; [exact Hp|]. exact (proj2 (save_single_flight w_user [PSave (Some "tok") w_user] (Some "tok") w_user) Hp).
Defined.

Lemma payload_only_changes_witness :
  let s := pstep (pInitial w_user) (PSetPhone "0801") in
  ("phone", "0801") ∈ payload w_user s /\
  "0801" <> "" /\
  (("phone" = "firstName" /\ "0801" = firstName s /\ Some "0801" <> (w_user ≫= uFirst)) \/
   ("phone" = "lastName" /\ "0801" = lastName s /\ Some "0801" <> (w_user ≫= uLast)) \/
   ("phone" = "email" /\ "0801" = pemail s /\ Some "0801" <> (w_user ≫= uEmail)) \/
   ("phone" = "phone" /\ "0801" = phone s /\ Some "0801" <> (w_user ≫= uPhone)) \/
   ("phone" = "name" /\ "0801" = composedName s /\ Some "0801" <> (w_user ≫= uName))).
Proof.
  cbv zeta. assert (H : ("phone", "0801") ∈ payload w_user (pstep (pInitial w_user) (PSetPhone "0801")))
    by (apply (bool_decide_unpack _); vm_compute; reflexivity).
  split; [exact H|]. exact (payload_only_changes _ _ _ _ H).
Defined.

End ProfileFacts.
