(* ===== verification/LoaderAnim.v ===== *)
(** * LoaderAnim: the animated loader (AnimatedLoader.tsx)

    [src/components/ui/AnimatedLoader.tsx] draws a spinner, a ring
    turning once every 900 ms, or three pulsing dots.  Its effect sets
    its [Animated.Value]s to 0 and starts endless loops built with
    [HomeAnim]'s combinators; each dot's timing has a [delay] of its
    own, which is part of the loop's iteration.  The ring's width is
    [Math.max(2, Math.min(6, Math.floor(size * 0.12)))] on JavaScript's
    doubles ([JsNumber]).  SubjectSelect shows the spinner, 48 pixels
    wide and full screen, while it loads. *)

From S2P Require Import Prelude JsNumber Performance HomeAnim.
From Stdlib Require Import QArith Qround.

Module AnimatedLoader.
Import Double DecimalLit JsMath Animated HomeRender.

(** ** The component *)

Inductive LoaderType := Spinner | Dots.

(** The props (lines 4-12), with their defaults. *)
Record Props := mkProps { size : dbl; color : string; fullscreen : bool; type : LoaderType }.

Definition defaultProps : Props := mkProps (num 28) "#2E7D32" false Spinner.

(** [loop(v, delay)] (lines 20-28): the value is set to 0, then an
    endless loop of a delayed rise to 1 and a fall to 0, 520 ms each,
    with [Animated.timing]'s default easing. *)
Definition dotLoop (v : string) (delay : nat) : Anim :=
  Loop (Sequence [Delay delay; Timing v 1 520 DefaultEase; Timing v 0 520 DefaultEase]).

(** The effect (lines 18-48): the values it resets and the loops it
    starts. *)
Definition effect (t : LoaderType) (vals : gmap string Q) : gmap string Q * list Anim :=
  match t with
  | Dots =>
      (<[ "a3" := 0%Q ]> (<[ "a2" := 0%Q ]> (<[ "a1" := 0%Q ]> vals)),
       [dotLoop "a1" 0; dotLoop "a2" 160; dotLoop "a3" 320])
  | Spinner => (<[ "spin" := 0%Q ]> vals, [Loop (Timing "spin" 1 900 Linear)])
  end.

(** A dot (lines 50-57): its size, corner radius, colour, and the
    opacity and scale its value interpolates. *)
Record DotView := mkDot { dSize : dbl; dRadius : dbl; dColor : string; dOpacity : Q; dScale : Q }.

Definition dotStyle (p : Props) (v : Q) : DotView :=
  mkDot (size p) (ddiv (size p) (num 2)) (color p)
    (interpolate 0 1 (4 # 10) 1 v) (interpolate 0 1 (7 # 10) (115 # 100) v).

(** The ring's width (line 63). *)
Definition borderWidth (sz : dbl) : dbl :=
  math_max_d (num 2) (math_min_d (num 6) (math_floor_d (dmul sz (string_to_number "0.12")))).

(** What the loader draws (lines 72-84). *)
Inductive LoaderView :=
| DotsView (full : bool) (dots : list DotView)
| SpinnerView (full : bool) (sz radius width : dbl) (topColor : string) (rotate : Q).

Definition loaderView (p : Props) (vals : gmap string Q) : LoaderView :=
  match type p with
  | Dots => DotsView (fullscreen p) (map (fun v => dotStyle p (val vals v)) ["a1"; "a2"; "a3"])
  | Spinner =>
      SpinnerView (fullscreen p) (size p) (ddiv (size p) (num 2)) (borderWidth (size p)) (color p)
        (interpolate 0 1 0 360 (val vals "spin"))
  end.

(** SubjectSelect's loader (SubjectSelect.tsx line 123). *)
Definition subjectLoader : Props := mkProps (num 48) "#2E7D32" true Spinner.

End AnimatedLoader.

Module LoaderFacts.
Import Double DecimalLit JsMath Animated HomeRender AnimatedLoader.


(** Finding: each dot's delay is part of its loop's iteration, so the
    three dots pulse every 1040, 1200 and 1360 ms instead of one wave
    with offsets 0, 160 and 320 ms: their phases drift apart and come
    back together only every 265200 ms. *)
Theorem dots_drift :
  map (fun a => match a with Loop b => duration b | _ => None end) (effect Dots ∅).2 =
    [Some 1040%nat; Some 1200%nat; Some 1360%nat] /\
  Z.lcm 1040 (Z.lcm 1200 1360) = 265200%Z.
Proof. split; vm_compute; reflexivity. Qed.

(** Every iteration of the loader's loops ends where the effect put
    the values, the spinner at a full turn, which draws as its start. *)
Theorem loader_loops_seamless t vals :
  let '(s, ls) := effect t vals in
  Forall (fun a => match a with Loop b => True | _ => False end) ls /\
  (t = Dots -> Forall (fun a => settle a s = s) ls) /\
  (t = Spinner -> interpolate 0 1 0 360 (val (foldl (fun s a => settle a s) s ls) "spin") == 360).
Proof.
  destruct t; simpl; split_and!; try (repeat constructor; done); try discriminate; intros _.
  - unfold val. rewrite ?insert_insert_eq, lookup_insert_eq. vm_compute. reflexivity.
  - repeat (constructor; [cbn [dotLoop settle foldl]; rewrite insert_insert_eq; apply insert_id; by simplify_map_eq|]).
    constructor.
Qed.



End LoaderFacts.
